(* ===== verification/_CoqProject ===== *)
-Q . S2P
Prelude.v
Config.v
Kernel.v
Layout.v
Sim.v
Trace.v
Vm.v
VmRead.v
VmWrite.v
VmCross.v
TablesX86.v
TablesArm.v
TablesPpc.v
TablesErrno.v
Name.v
Regset.v
Read.v
ArmSyscall.v
ReadVm.v
Write.v
WriteVm.v
Registers.v
RegistersArm64.v
Socket.v
Observe.v
Pipe.v
Tracer.v
Script.v
Strace.v
StraceStop.v
StraceRun.v
StraceProps.v
Examples.v
Python.v
PyModules.v
Seatest.v
Check.v
TestRead.v
TestWrite.v
TestSocket.v
TestSession.v
TestPrint.v
TestProps.v
TestSockProps.v
TestTrace.v
TestWriteProps.v
TestRun.v
TestLong.v
TestAll.v
