(* ===== verification/Prelude.v ===== *)
(** * A verification of pinktrace

    Pinktrace is a C library around ptrace(2).  A tracer uses it to control a
    tracee, to read and write its registers (system call number, arguments,
    return value) and its memory, to decode socket calls, and to name system
    calls, errors and signals.  This library of Rocq files models the code under
    src/pinktrace on every build configuration that the sources distinguish, its
    example programs under src/examples, of which one is a small system call
    tracer, its Python bindings under src/python, and its test program with the test
    framework, and proves what they do.

    ** How C is modelled

    A function that touches [errno] or the kernel is a computation of type
    [comp (cstate K) A] (this file and [Kernel]): it runs in a state made of the
    kernel and [errno], and ends by returning ([Ret]), by abort(3) ([Abort]), in
    undefined behaviour ([Undef]: an access outside of a buffer, signed overflow,
    an array index out of range) or without ending within its fuel ([NoFuel]).
    Results through pointers are part of the value.  Integers are [Z] with the
    conversions of C written out at their width ([to_long], [to_ulong], [to_int],
    [to_uint]); buffers are lists of bytes; the unions of [struct pink_regset] are
    one block of bytes whose members are read at their offsets.  What is
    indeterminate in C (an uninitialised local) is an argument.  Preprocessor
    conditionals are tests on a [config], so one definition covers all builds.

    System calls are not code of the library: they are the operations of the
    classes [KernelOps], [PipeOps] and [ProcOps], and what their manual pages
    promise are classes of laws ([PtraceErrno], [PtraceMem], [ProcessVm],
    [NoProcessVm], [PartialVm], [PtraceRegset], [X86User], [Arm64Regs], [QuietReads],
    [PipeLaws]).  [PtraceMem] and [ProcessVm] promise that a write succeeds where the
    memory is mapped and writable, and say nothing of read-only mappings; [PartialVm]
    promises no more of a transfer than that what it reports is what it moved.  [Sim],
    [Script] and the ends of [Pipe], [ReadVm] and [RegistersArm64] give executable
    kernels that satisfy the laws; the witnesses run on them.

    A program adds what it prints to the state ([tstate] of [Tracer]); a Python
    binding adds the exception that is set ([pystate] of [Python]) and the objects that
    own register sets ([pyheap] of [PyModules]); the test program adds the variables of
    the framework, with its hooks and its output, and its own ([tests] of [Check]).

    ** The files and the code they model

    - [Prelude]: widths, buffers, computations, the lemmas and tactics they share.
    - [Config]: system.h.in, abi.h, abi.c and the ABI part of private.h.
    - [Kernel]: the system call interface, tracee memory and the laws.
    - [Layout]: the register structures of private.h and of the system headers, and
      the laws of ptrace(2) on registers.
    - [Sim]: a concrete kernel.
    - [Trace]: trace.c, event.c.
    - [Vm], with the properties in [VmRead], [VmWrite] and [VmCross]: vm.c and the
      word transfers of read.c and write.c.
    - [TablesX86], [TablesArm], [TablesPpc], [TablesErrno]: the tables under linux/.
    - [Name]: name.c.
    - [Regset]: regset.c.
    - [Read]: read.c; its memory functions are treated in [ReadVm], where the class
      [VmReads] states what they promise to their clients whichever way the bytes
      travel, and both ways are shown to keep the promise.
    - [ArmSyscall]: the system call number of 32-bit ARM in read.c.
    - [Write]: write.c; [WriteVm] has its memory functions, [Registers] the register
      functions of read.c and write.c together on 64-bit x86, [RegistersArm64] on
      AArch64.
    - [Socket]: socket.c, proved against [VmReads] and [ReadsArgs], which a filled
      register set satisfies.
    - [Observe]: what read.c and socket.c do on a kernel that promises nothing but
      that reading has no effect; [observes] says that a function returns, leaves
      the kernel alone and satisfies a predicate, and has a rule per construct.
    - [Pipe]: pipe.c.
    - [Tracer]: the output, formats and process calls that programs use, and the
      rules of [tobserves], which also speaks about the text printed; [Script]: a
      kernel whose child follows a script.
    - [Strace]: examples/pink-simple-strace.c.  [StraceStop] specifies the text of
      one stop and shows that the handler prints it, [StraceRun] specifies the life
      of a child and treats the loop and main, [StraceProps] has invariants and
      errors.
    - [Examples]: examples/pink-about.c and pink-fork.c.
    - [Python]: the functions and constants of python/pinktrace/py-*.c and py-pink.h;
      [PyModules]: their modules and method tables, and the objects of py-regset.c with
      the memory they own, and [pink_regset_free] of regset.c.
    - [Seatest]: seatest.c and seatest.h, the test framework: its counters, checks, hooks,
      filters, report and command line, in any state that holds its variables
      ([SeaState]); [HookCode] is the code that hooks point to.
    - [Check]: the helpers of pinktrace-check.c with what they print: the messages of
      pprintf, the dumps and the report of each wait; [CheckOps] has the system calls of
      the tests, [Setting] the build and the surroundings.
    - [TestRead]: read-TEST.c and vm-TEST.c, with the loop that the tests share;
      [TestWrite]: write-TEST.c, trace-TEST.c and pipe-TEST.c; [TestSocket]:
      socket-TEST.c, the list of all tests and main of pinktrace-check.c.  A test is one
      computation for the parent and the child: where fork(2) returns 0 it goes on as
      the child.
    - [TestSession]: what the kernel reports of a test's child, and the rules of [wp]
      for computations that return and record no failure.  On them build [TestPrint] (what
      is printed), [TestProps] (reading and writing registers and memory), [TestSockProps]
      (socket addresses), [TestTrace] (lives of a child and of a family of processes),
      [TestWriteProps] (writing), [TestRun] (failures, the release, the status),
      [TestLong] (long strings and string arrays) and [TestAll] (the whole program).

    ** What the theorems show

    - Calls: the contract of [pink_ptrace], the option translation, the choice of
      the signal call, the decoding of events ([Trace]).
    - Transfers: the word-at-a-time reader copies exactly the range and reports
      faults; the string readers find the end; the two transfers meet one
      specification behind [pink_read_vm_data], for addresses that the truncation to
      the ABI's width leaves alone; a full read is told from a short one; what is
      written to writable memory is read back, and nothing is changed but the bytes
      written and, for the word-at-a-time writer, the rest of the last word ([VmRead],
      [VmCross], [ReadVm], [WriteVm]).
    - Registers: [pink_regset_fill] determines ABI and registers, on the modern and
      on the old path with its overlaid assignments; arguments, return values and
      system call numbers written are read back through the kernel, and writing an
      argument changes the bytes of that register and nothing else; errors are
      told from values; the calling conventions of ARM are told apart ([Regset],
      [Registers], [RegistersArm64], [ArmSyscall]).
    - Names: numbers and names are inverse in every table; [shuffle_scno] is an
      involution ([Name]).
    - Sockets and pipes: bounded and terminated socket addresses, socketcall(2)
      decoding, integers in order through a pipe ([Socket], [Pipe]).
    - Safety without promises: whatever the kernel answers, the readers return, stay
      inside of their buffers and leave the tracee alone; the string reader is undefined
      for the addresses within one chunk of the largest [long], and only for them
      ([Observe]).
    - The tracer: its loop refines a specification of what is printed at each stop
      of the life of a 64-bit child whose first page is unmapped; main returns the
      status of such a child; the output is at the start of a line whenever the
      flag [insyscall] is clear, in every reachable state and every kernel; the
      process record stays well formed; errors end the loop with the intended status
      ([StraceRun], [StraceProps]).
    - Bindings: signals are checked before any call, errors become exceptions, names
      and numbers are inverse ([Python]); register sets are owned by exactly one object,
      never freed twice and never lost, and every function and constant of the modules is
      found under its name ([PyModules]).
    - Tests: on a kernel that follows its manual pages, the tests of 64-bit x86 return
      and record no failure for every argument and either transfer, and their children
      make the calls that the parents expect ([TestProps], [TestSockProps],
      [TestWriteProps], [TestLong]); the tests of the tracing options tell every life of a child,
      in whatever order its stops and events and those of its own child are reported
      ([TestTrace]).  The program exits with success exactly when no failure was
      counted.  [TestAll] gives the schedule that the skipped suites and the filters
      leave, and shows that the program makes just these tests and succeeds when each
      passes from where the one before it ends; its witness runs all 89 tests.  The
      release and the command line are read as meant ([TestRun], [Seatest]).  The hex dump prints what a
      definition by lines says, and the wait that reports is the plain one with its report
      ([TestPrint]).
    - Deviations: where the code does not do what it means to, the theorem states
      what it does instead: the unaligned and failing word-at-a-time writer, the
      skewed and overshooting string length, the page guard that does not move and
      whose sum can overflow, the program counter of ARM that can underflow a [long],
      sign-extended pointers on the fallback, untranslated seize options, the
      shifted x32 table, register sets on builds without PTRACE_GETREGS, return
      values of 32-bit tasks on AArch64, the tracer's decoders of open, execve and
      socketcall, signals taken for system calls, the macro that forgets to return
      after setting an exception, the test helper that sends SIGKILL to every process
      when fork(2) fails, the one that dumps -1 bytes after a failed read, the dump of no
      bytes, failures recorded with the error of isatty(3), releases with a number above
      255, the status of success of a machine readable run, the object that is not
      released when its register set cannot be allocated.

    ** Bounds and fuel

    The loops of vm.c make progress of at least one byte, so [S len] steps are
    enough for the word-at-a-time loops and are built into the definitions.  The
    loop of [pink_vm_cread_nul] takes its fuel as an argument; more than [len]
    steps are proved enough for a mapped range.  The loops of pipe.c move at least
    one of four bytes and have fuel 5.  Lengths are below 2^31 where the code
    counts in an [int] or [unsigned int].  The tracer reads strings into buffers of
    PATH_MAX bytes, for which [nul_fuel] is one step more; the fuel of its loop is
    an argument, and more than the number of the child's stops is proved enough.  The
    loops of the tests have the fuel of the [Setting]; a class [Ready] asks for more
    than 20 steps, which is enough for the sessions of the tests and for their strings
    of at most 18 bytes, and the theorems on lives ask for more than the number of
    reports.  The interpreter of the command line and the parser of the release move on
    at least one argument or one character, and have one step more than there are.

    ** What is not modelled

    The ia64 branches and tables (configure refuses ia64); the x32 host build and the ARM
    branch of [pink_write_retval], which do not compile; the start of the Python modules
    under Python 2 and their documentation strings; the two messages of [get_os_release] and
    the one that the child of [test_trace_clone] prints when its fork(2) fails, on
    stderr; the sign of a NaN; the Windows and self-test parts of the framework, which are
    not built; the headers that only declare or document.  The theorems on the tracer's loop and
    on the tests that look into the child are about 64-bit x86 tasks; those on the
    registers of i386, ARM and PowerPC are limited by [pink_regset_fill], which always
    fails in those builds.  The test of string arrays prints an uninitialised buffer; the
    theorem that it passes assumes that the buffer holds a terminator, and another one
    shows that it is undefined without. *)

From Stdlib Require Import ZArith Lia.
From stdpp Require Import base list numbers strings.
From coqutil Require Import Byte Word.LittleEndianList.

Local Open Scope Z_scope.

(** ** Integers of a given width *)

(** Conversion to an unsigned integer of [w] bits: C's modular conversion. *)
Definition wrapu (w z : Z) : Z := z mod 2 ^ w.

(** Conversion to a two's complement integer of [w] bits. *)
Definition wraps (w z : Z) : Z := (z + 2 ^ (w - 1)) mod 2 ^ w - 2 ^ (w - 1).

(** ** Lists as C buffers *)

(** [memcpy(buf + off, bs, length bs)] on a buffer of fixed size; [None] when the
    copy leaves the buffer. *)
Definition splice (buf : list byte) (off : nat) (bs : list byte) : list byte :=
  take off buf ++ bs ++ drop (off + length bs) buf.

Definition memcpy_to (buf : list byte) (off : nat) (bs : list byte)
  : option (list byte) :=
  if decide (off + length bs <= length buf)%nat
  then Some (splice buf off bs) else None.

(** [m] bytes read from offset [off] of [buf]; [None] when the read leaves it. *)
Definition slice (buf : list byte) (off m : nat) : option (list byte) :=
  if decide (off + m <= length buf)%nat
  then Some (take m (drop off buf)) else None.

(** ** Computations of the tracer process

    A C function runs in a state, and ends by returning, by [abort()], in
    undefined behaviour, or does not end within the fuel given to its loops. *)
Inductive res (S A : Type) : Type :=
| Ret (a : A) (s : S)
| Abort (s : S)
| Undef
| NoFuel.
Arguments Ret {S A} _ _.
Arguments Abort {S A} _.
Arguments Undef {S A}.
Arguments NoFuel {S A}.

Definition comp (S A : Type) : Type := S -> res S A.

Definition cret {S A} (a : A) : comp S A := fun s => Ret a s.

Definition cbind {S A B} (c : comp S A) (f : A -> comp S B) : comp S B :=
  fun s => match c s with
           | Ret a s' => f a s'
           | Abort s' => Abort s'
           | Undef => Undef
           | NoFuel => NoFuel
           end.

Definition cabort {S A} : comp S A := fun s => Abort s.
Definition cundef {S A} : comp S A := fun _ => Undef.
Definition cnofuel {S A} : comp S A := fun _ => NoFuel.

(** A checked buffer access: outside the buffer the behaviour is undefined. *)
Definition checked {S A} (o : option A) : comp S A :=
  match o with Some a => cret a | None => cundef end.

Declare Scope c_scope.
Delimit Scope c_scope with c.
Notation "'let!' p ':=' c 'in' k" := (cbind c (fun p => k))
  (at level 10, p pattern, c at level 200, k at level 200) : c_scope.
Notation "c ;; k" := (cbind c (fun _ => k))
  (at level 100, right associativity) : c_scope.

(** ** Lemmas on widths *)

Create HintDb pink.

Lemma pow2_pos w : 0 <= w -> 0 < 2 ^ w.
Proof. intros. apply Z.pow_pos_nonneg; lia. Qed.

Lemma pow2_half w : 0 < w -> 2 ^ w = 2 * 2 ^ (w - 1).
Proof. intros. rewrite <- Z.pow_succ_r by lia. f_equal. lia. Qed.

Lemma wrapu_range w z : 0 <= w -> 0 <= wrapu w z < 2 ^ w.
Proof. intros. unfold wrapu. apply Z.mod_pos_bound, pow2_pos; lia. Qed.

Lemma wraps_range w z : 0 < w -> - 2 ^ (w - 1) <= wraps w z < 2 ^ (w - 1).
Proof.
  intros. unfold wraps. pose proof (pow2_half w ltac:(lia)).
  pose proof (Z.mod_pos_bound (z + 2 ^ (w - 1)) (2 ^ w) (pow2_pos w ltac:(lia))).
  lia.
Qed.

Lemma wrapu_small w z : 0 <= z < 2 ^ w -> wrapu w z = z.
Proof. apply Z.mod_small. Qed.

Lemma wraps_small w z : 0 < w -> - 2 ^ (w - 1) <= z < 2 ^ (w - 1) -> wraps w z = z.
Proof.
  intros. unfold wraps. pose proof (pow2_half w ltac:(lia)).
  rewrite Z.mod_small; lia.
Qed.

Lemma wrapu_wraps w z : 0 < w -> wrapu w (wraps w z) = wrapu w z.
Proof.
  intros. unfold wrapu, wraps.
  rewrite Zminus_mod_idemp_l. f_equal. lia.
Qed.

Lemma wraps_wrapu w z : 0 < w -> wraps w (wrapu w z) = wraps w z.
Proof. intros. unfold wrapu, wraps. by rewrite Zplus_mod_idemp_l. Qed.

Lemma wrapu_add_l w a b : wrapu w (wrapu w a + b) = wrapu w (a + b).
Proof. apply Zplus_mod_idemp_l. Qed.

Lemma wrapu_wrapu w z : 0 <= w -> wrapu w (wrapu w z) = wrapu w z.
Proof. intros. apply wrapu_small, wrapu_range. lia. Qed.

(** A mask of the low [n] bits is a remainder, its complement rounds down. *)
Lemma land_low n a : 0 <= n -> Z.land a (2 ^ n - 1) = a mod 2 ^ n.
Proof. intros. rewrite <- Z.land_ones by lia. by rewrite Z.ones_equiv, Z.sub_1_r. Qed.

Lemma land_high n a : 0 <= n -> Z.land a (- 2 ^ n) = a - a mod 2 ^ n.
Proof.
  intros.
  assert (Hs : - 2 ^ n = Z.lnot (Z.ones n)).
  { unfold Z.lnot. rewrite Z.ones_equiv. lia. }
  rewrite Hs, <- Z.ldiff_land. rewrite Z.ldiff_ones_r by lia.
  rewrite Z.shiftl_mul_pow2, Z.shiftr_div_pow2 by lia.
  pose proof (pow2_pos n ltac:(lia)).
  pose proof (Z.div_mod a (2 ^ n) ltac:(lia)). lia.
Qed.

(** ** Lemmas on buffers *)

Lemma take_take_le {A} n m (l : list A) : (n <= m)%nat -> take n (take m l) = take n l.
Proof. intros. rewrite take_take. f_equal. lia. Qed.

Lemma length_splice buf off bs :
  (off + length bs <= length buf)%nat -> length (splice buf off bs) = length buf.
Proof. intros. unfold splice. rewrite !length_app, length_take, length_drop. lia. Qed.

Lemma splice_nil buf off : splice buf off [] = buf.
Proof. unfold splice. simpl. rewrite Nat.add_0_r. apply take_drop. Qed.

(** Two consecutive copies are one copy of the concatenation. *)
Lemma splice_splice buf off a b :
  (off + length a <= length buf)%nat ->
  splice (splice buf off a) (off + length a) b = splice buf off (a ++ b).
Proof.
  intros H. unfold splice at 1.
  assert (Ht : take (off + length a) (splice buf off a) = take off buf ++ a).
  { unfold splice. rewrite app_assoc. rewrite take_app_le by (rewrite length_app, length_take; lia).
    apply take_ge. rewrite length_app, length_take. lia. }
  assert (Hd : drop (off + length a + length b) (splice buf off a)
               = drop (off + length (a ++ b)) buf).
  { unfold splice. rewrite app_assoc. rewrite drop_app_ge by (rewrite length_app, length_take; lia).
    rewrite drop_drop. f_equal. rewrite !length_app, length_take. lia. }
  rewrite Ht, Hd. unfold splice. by rewrite <- !app_assoc.
Qed.

Lemma memcpy_to_ok buf off bs :
  (off + length bs <= length buf)%nat -> memcpy_to buf off bs = Some (splice buf off bs).
Proof. intros. unfold memcpy_to. by rewrite decide_True. Qed.

Lemma length_memcpy_to buf off bs buf' :
  memcpy_to buf off bs = Some buf' -> length buf' = length buf.
Proof. unfold memcpy_to. case_decide; intros; simplify_eq. by apply length_splice. Qed.

Lemma slice_ok buf off m :
  (off + m <= length buf)%nat -> slice buf off m = Some (take m (drop off buf)).
Proof. intros. unfold slice. by rewrite decide_True. Qed.

Lemma slice_out buf off m :
  (length buf < off + m)%nat -> slice buf off m = None.
Proof. intros. unfold slice. rewrite decide_False; [done | lia]. Qed.

(** The first [length bs] bytes of a copy at offset 0 are the bytes copied. *)
Lemma take_splice_0 buf bs n :
  n = length bs -> take n (splice buf 0 bs) = bs.
Proof. intros ->. unfold splice. simpl. apply take_app_length. Qed.

#[global] Arguments splice : simpl never.
#[global] Arguments slice : simpl never.
#[global] Arguments memcpy_to : simpl never.

(** ** Running computations *)

Lemma cbind_run {S A B} (c : comp S A) (f : A -> comp S B) s a s' :
  c s = Ret a s' -> cbind c f s = f a s'.
Proof. intros H. unfold cbind. by rewrite H. Qed.

Lemma cbind_cret {S A B} (a : A) (f : A -> comp S B) s : cbind (cret a) f s = f a s.
Proof. done. Qed.

Lemma cbind_cret_l {S A B} (a : A) (f : A -> comp S B) : cbind (cret a) f = f a.
Proof. done. Qed.

Lemma cbind_checked {S A B} (o : option A) a (f : A -> comp S B) s :
  o = Some a -> cbind (checked o) f s = f a s.
Proof. by intros ->. Qed.

Lemma cbind_unchecked {S A B} (f : A -> comp S B) s :
  cbind (checked None) f s = Undef.
Proof. done. Qed.

(** ** Automation *)

(** Runs the straight-line part of a computation. *)
Ltac crun := unfold cbind, cret, checked, cabort, cundef; simpl.

#[export] Hint Resolve pow2_pos wrapu_range wraps_range : pink.
