(* ===== verification/Config.v ===== *)
(** * The build configuration: system.h, abi.h and the ABI part of private.h

    The preprocessor symbols that [configure] decides are the fields of a record,
    so that every conditional of the sources is a test on a configuration. *)

From S2P Require Import Prelude.
From Stdlib Require Import ZArith Lia.
From stdpp Require Import base list numbers.

Local Open Scope Z_scope.

(** The architectures the sources branch on.  [configure] refuses ia64, so its
    branches are not modelled. *)
Inductive arch : Type := AARCH64 | ARM | POWERPC | I386 | X86_64 | X32.

#[export] Instance arch_eq_dec : EqDecision arch.
Proof. solve_decision. Defined.

(** The C data model of the host: [sizeof(long)] is 8 or 4. *)
Inductive data_model : Type := LP64 | ILP32.

#[export] Instance data_model_eq_dec : EqDecision data_model.
Proof. solve_decision. Defined.

(** [PINK_ARCH_POWERPC64] is a refinement of [POWERPC] and is read only there. *)
Record config : Type := Config {
  PINK_ARCH : arch;
  PINK_ARCH_POWERPC64 : bool;
  model : data_model;
  big_endian : bool;
  PINK_HAVE_OPTION_SYSGOOD : bool;
  PINK_HAVE_OPTION_FORK : bool;
  PINK_HAVE_OPTION_VFORK : bool;
  PINK_HAVE_OPTION_CLONE : bool;
  PINK_HAVE_OPTION_EXEC : bool;
  PINK_HAVE_OPTION_VFORK_DONE : bool;
  PINK_HAVE_OPTION_EXIT : bool;
  PINK_HAVE_OPTION_SECCOMP : bool;
  PINK_HAVE_OPTION_EXITKILL : bool;
  PINK_HAVE_SETUP : bool;
  PINK_HAVE_GETEVENTMSG : bool;
  PINK_HAVE_GETSIGINFO : bool;
  PINK_HAVE_GETREGS : bool;
  PINK_HAVE_SETREGS : bool;
  PINK_HAVE_GETREGSET : bool;
  PINK_HAVE_SETREGSET : bool;
  PINK_HAVE_SYSEMU : bool;
  PINK_HAVE_SYSEMU_SINGLESTEP : bool;
  PINK_HAVE_SEIZE : bool;
  PINK_HAVE_INTERRUPT : bool;
  PINK_HAVE_LISTEN : bool;
  PINK_HAVE_TKILL : bool;
  PINK_HAVE_TGKILL : bool;
  PINK_HAVE_PROCESS_VM_READV : bool;
  PINK_HAVE_PROCESS_VM_WRITEV : bool;
}.

(** ** Sizes of the host's C types *)

Definition sizeof_long (c : config) : Z :=
  match model c with LP64 => 8 | ILP32 => 4 end.

Definition bits_long (c : config) : Z := 8 * sizeof_long c.

Definition sizeof_int : Z := 4.

(** Conversions to the host's integer types. *)
Definition to_long (c : config) (z : Z) : Z := wraps (bits_long c) z.
Definition to_ulong (c : config) (z : Z) : Z := wrapu (bits_long c) z.
Definition to_int (z : Z) : Z := wraps 32 z.
Definition to_uint (z : Z) : Z := wrapu 32 z.
Definition to_short (z : Z) : Z := wraps 16 z.

(** The value of signed arithmetic in type [long]: overflow is undefined. *)
Definition long_value (c : config) (z : Z) : option Z :=
  if (- 2 ^ (bits_long c - 1) <=? z) && (z <? 2 ^ (bits_long c - 1)) then Some z else None.

Definition int_value (z : Z) : option Z :=
  if (- 2 ^ 31 <=? z) && (z <? 2 ^ 31) then Some z else None.

Lemma long_value_ok c z :
  - 2 ^ (bits_long c - 1) <= z < 2 ^ (bits_long c - 1) -> long_value c z = Some z.
Proof.
  intros [H1 H2]. unfold long_value.
  by rewrite (proj2 (Z.leb_le _ _) H1), (proj2 (Z.ltb_lt _ _) H2).
Qed.

Lemma long_value_none c z :
  z < - 2 ^ (bits_long c - 1) \/ 2 ^ (bits_long c - 1) <= z -> long_value c z = None.
Proof.
  intros [H|H]; unfold long_value.
  - by rewrite (proj2 (Z.leb_gt _ _) H).
  - rewrite (proj2 (Z.ltb_ge _ _) H). by rewrite andb_false_r.
Qed.

Lemma int_value_ok z : - 2 ^ 31 <= z < 2 ^ 31 -> int_value z = Some z.
Proof.
  intros [H1 H2]. unfold int_value.
  by rewrite (proj2 (Z.leb_le _ _) H1), (proj2 (Z.ltb_lt _ _) H2).
Qed.

(** ** abi.h *)

Definition PINK_ABIS_SUPPORTED (c : config) : Z :=
  match PINK_ARCH c with
  | AARCH64 => 2
  | X86_64 => 3
  | X32 => 2
  | POWERPC => if PINK_ARCH_POWERPC64 c then 2 else 1
  | ARM | I386 => 1
  end.

Definition PINK_ABI_DEFAULT : Z := 0.

(** The constants of the 64-bit x86 build; the x32 build swaps [X32] to 0. *)
Definition PINK_ABI_X86_64 : Z := 0.
Definition PINK_ABI_I386 : Z := 1.
Definition PINK_ABI_X32 (c : config) : Z :=
  match PINK_ARCH c with X32 => 0 | _ => 2 end.

Definition PINK_ABI_AARCH64 : Z := 0.
Definition PINK_ABI_ARM : Z := 1.

(** ** private.h: the word sizes *)

Definition ABI0_WORDSIZE (c : config) : Z :=
  match PINK_ARCH c with
  | AARCH64 => 8
  | X86_64 => 8
  | X32 => 4
  | POWERPC => if PINK_ARCH_POWERPC64 c then 8 else sizeof_long c
  | ARM | I386 => sizeof_long c
  end.

Definition ABI1_WORDSIZE : Z := 4.
Definition ABI2_WORDSIZE : Z := 4.

(** [pink_abi_wordsize]: with one ABI the argument is ignored; otherwise it
    indexes a static array, and reading outside it is undefined. *)
Definition pink_abi_wordsize (c : config) (abi : Z) : option Z :=
  let n := PINK_ABIS_SUPPORTED c in
  if n =? 1 then Some (ABI0_WORDSIZE c)
  else
    let abi_wordsize :=
      [ABI0_WORDSIZE c; ABI1_WORDSIZE] ++
      (if 2 <? n then [ABI2_WORDSIZE] else []) in
    if abi <? 0 then None else abi_wordsize !! Z.to_nat abi.

(** ** Constants of the C library that the sources name *)

Definition EPERM : Z := 1.
Definition ESRCH : Z := 3.
Definition EIO : Z := 5.
Definition EFAULT : Z := 14.
Definition EINVAL : Z := 22.
Definition ENOSYS : Z := 38.

Definition PINK_MAX_ARGS : Z := 6.

(** A configuration that matches its architecture's data model: what a
    compiler for that architecture gives. *)
Definition host_model (c : config) : bool :=
  match PINK_ARCH c, model c with
  | (AARCH64 | X86_64), LP64 => true
  | (ARM | I386 | X32), ILP32 => true
  | POWERPC, _ => true
  | _, _ => false
  end.

(** What [configure] and system.h produce: no header defines PINK_HAVE_GETREGS
    or PINK_HAVE_SETREGS, so the preprocessor reads both as 0, and
    PINK_ARCH_POWERPC64 is 0 because [arch] is never [powerpc64]. *)
Definition shipped (c : config) : bool :=
  negb (PINK_HAVE_GETREGS c) && negb (PINK_HAVE_SETREGS c)
  && negb (PINK_ARCH_POWERPC64 c) && host_model c.

(** A current glibc on a given architecture. *)
Definition glibc_config (a : arch) (m : data_model) : config :=
  {| PINK_ARCH := a; PINK_ARCH_POWERPC64 := false; model := m; big_endian := false;
     PINK_HAVE_OPTION_SYSGOOD := true; PINK_HAVE_OPTION_FORK := true;
     PINK_HAVE_OPTION_VFORK := true; PINK_HAVE_OPTION_CLONE := true;
     PINK_HAVE_OPTION_EXEC := true; PINK_HAVE_OPTION_VFORK_DONE := true;
     PINK_HAVE_OPTION_EXIT := true; PINK_HAVE_OPTION_SECCOMP := true;
     PINK_HAVE_OPTION_EXITKILL := true; PINK_HAVE_SETUP := true;
     PINK_HAVE_GETEVENTMSG := true; PINK_HAVE_GETSIGINFO := true;
     PINK_HAVE_GETREGS := false; PINK_HAVE_SETREGS := false;
     PINK_HAVE_GETREGSET := true; PINK_HAVE_SETREGSET := true;
     PINK_HAVE_SYSEMU := true; PINK_HAVE_SYSEMU_SINGLESTEP := true;
     PINK_HAVE_SEIZE := true; PINK_HAVE_INTERRUPT := true; PINK_HAVE_LISTEN := true;
     PINK_HAVE_TKILL := true; PINK_HAVE_TGKILL := true;
     PINK_HAVE_PROCESS_VM_READV := true; PINK_HAVE_PROCESS_VM_WRITEV := true |}.

Definition x86_64_linux : config := glibc_config X86_64 LP64.
Definition i386_linux : config := glibc_config I386 ILP32.
Definition aarch64_linux : config := glibc_config AARCH64 LP64.
Definition arm_linux : config := glibc_config ARM ILP32.
Definition powerpc_linux : config := glibc_config POWERPC ILP32.

(** ** Lemmas *)

Lemma sizeof_long_cases c : sizeof_long c = 8 \/ sizeof_long c = 4.
Proof. unfold sizeof_long. destruct (model c); auto. Qed.

Lemma bits_long_pos c : 0 < bits_long c.
Proof. unfold bits_long. destruct (sizeof_long_cases c); lia. Qed.

Lemma sizeof_long_log c : exists n, 0 <= n /\ sizeof_long c = 2 ^ n.
Proof.
  unfold sizeof_long. destruct (model c); [exists 3 | exists 2]; split; (lia || reflexivity).
Qed.

(** The word size of every supported ABI is defined and is 4 or 8. *)
Lemma pink_abi_wordsize_defined c abi :
  0 <= abi < PINK_ABIS_SUPPORTED c ->
  pink_abi_wordsize c abi = Some 4 \/ pink_abi_wordsize c abi = Some 8.
Proof.
  unfold pink_abi_wordsize, PINK_ABIS_SUPPORTED, ABI0_WORDSIZE, sizeof_long.
  intros H.
  assert (abi = 0 \/ abi = 1 \/ abi = 2) as Ha
    by (destruct (PINK_ARCH c), (PINK_ARCH_POWERPC64 c); lia).
  destruct Ha as [-> | [-> | ->]];
    destruct (PINK_ARCH c), (PINK_ARCH_POWERPC64 c), (model c); simpl in *; auto; lia.
Qed.

#[export] Hint Resolve bits_long_pos : pink.

#[global] Arguments sizeof_long : simpl never.
#[global] Arguments bits_long : simpl never.
#[global] Arguments to_long : simpl never.
#[global] Arguments to_ulong : simpl never.
#[global] Arguments to_int : simpl never.
#[global] Arguments to_uint : simpl never.
