(* ===== verification/Kernel.v ===== *)
(** * The system-call interface the library is written against

    ptrace(2), process_vm_readv(2) and the signal calls are the kernel's code:
    they are the operations of a class, over an abstract kernel state [K].
    What the library relies on is stated separately, as classes of laws that
    transcribe the manual pages, over a view of the tracee (its stop state and
    its memory).  The computations here are the calls themselves, together with
    the [errno] variable they set. *)

From Stdlib Require Import ZArith Lia.
From stdpp Require Import base list numbers.
From coqutil Require Import Byte Word.LittleEndianList.
From S2P Require Import Prelude Config.
Local Open Scope Z_scope.

Inductive ptrace_request : Type :=
| PTRACE_TRACEME | PTRACE_PEEKDATA | PTRACE_PEEKUSER | PTRACE_POKEDATA
| PTRACE_POKEUSER | PTRACE_CONT | PTRACE_SINGLESTEP | PTRACE_GETREGS
| PTRACE_SETREGS | PTRACE_ATTACH | PTRACE_DETACH | PTRACE_SYSCALL
| PTRACE_SET_SYSCALL | PTRACE_SYSEMU | PTRACE_SYSEMU_SINGLESTEP
| PTRACE_SETOPTIONS | PTRACE_GETEVENTMSG | PTRACE_GETSIGINFO
| PTRACE_GETREGSET | PTRACE_SETREGSET | PTRACE_SEIZE | PTRACE_INTERRUPT
| PTRACE_LISTEN.

#[export] Instance ptrace_request_eq_dec : EqDecision ptrace_request.
Proof. solve_decision. Defined.

(** The [void *data] argument: an integer cast to a pointer ([NULL] is 0), a
    pointer to an object of the tracer given by its bytes, or a pointer to a
    [struct iovec] whose base points to a buffer. *)
Inductive pdata : Type :=
| DVal (v : Z)
| DBuf (bs : list byte)
| DIov (base : list byte) (iov_len : Z).

(** What a call gives back: its value, the [errno] it sets (if it sets it). *)
Record sysret : Type := SysRet { sr_val : Z; sr_errno : option Z }.

(** The kernel.  [sys_ptrace] returns the object behind [data] as it is after
    the call; [sys_process_vm_readv] returns the bytes it stored at the local
    buffer. *)
Class KernelOps (K : Type) : Type := {
  sys_ptrace : ptrace_request -> Z -> Z -> pdata -> K -> sysret * pdata * K;
  sys_process_vm_readv : Z -> Z -> Z -> K -> sysret * list byte * K;
  sys_process_vm_writev : Z -> Z -> list byte -> K -> sysret * K;
  sys_tgkill : Z -> Z -> Z -> K -> sysret * K;
  sys_tkill : Z -> Z -> K -> sysret * K;
  sys_kill : Z -> Z -> K -> sysret * K;
}.

(** The state a library function runs in. *)
Record cstate (K : Type) : Type := CState { ker : K; errno : Z }.
Arguments CState {K} _ _.
Arguments ker {K} _.
Arguments errno {K} _.

Section Calls.
Context {K : Type} `{!KernelOps K}.

Definition get_errno : comp (cstate K) Z := fun s => Ret (errno s) s.

Definition set_errno (e : Z) : comp (cstate K) unit :=
  fun s => Ret tt (CState (ker s) e).

(** [errno] after a call that may have set it. *)
Definition errno_after (r : sysret) (e : Z) : Z := default e (sr_errno r).

Definition ptrace (req : ptrace_request) (pid addr : Z) (data : pdata)
  : comp (cstate K) (Z * pdata) :=
  fun s => let '(r, d, k) := sys_ptrace req pid addr data (ker s) in
           Ret (sr_val r, d) (CState k (errno_after r (errno s))).

Definition process_vm_readv (pid addr len : Z) : comp (cstate K) (Z * list byte) :=
  fun s => let '(r, bs, k) := sys_process_vm_readv pid addr len (ker s) in
           Ret (sr_val r, bs) (CState k (errno_after r (errno s))).

Definition process_vm_writev (pid addr : Z) (bs : list byte) : comp (cstate K) Z :=
  fun s => let '(r, k) := sys_process_vm_writev pid addr bs (ker s) in
           Ret (sr_val r) (CState k (errno_after r (errno s))).

Definition signal_call (call : K -> sysret * K) : comp (cstate K) Z :=
  fun s => let '(r, k) := call (ker s) in
           Ret (sr_val r) (CState k (errno_after r (errno s))).

End Calls.

(** ** Tracee memory *)

(** The bytes of [n] consecutive addresses, when all are mapped. *)
Fixpoint read_mem (m : Z -> option byte) (a : Z) (n : nat) : option (list byte) :=
  match n with
  | O => Some []
  | S n' => match m a, read_mem m (a + 1) n' with
            | Some b, Some bs => Some (b :: bs)
            | _, _ => None
            end
  end.

(** Memory after the bytes [bs] are stored from address [a] on. *)
Definition write_mem (m : Z -> option byte) (a : Z) (bs : list byte)
  : Z -> option byte :=
  fun x => if (a <=? x) && (x <? a + Z.of_nat (length bs))
           then bs !! Z.to_nat (x - a) else m x.

(** The object representation of a [long] in the host's byte order. *)
Definition word_bytes (c : config) (v : Z) : list byte :=
  let bs := le_split (Z.to_nat (sizeof_long c)) v in
  if big_endian c then reverse bs else bs.

Definition bytes_word (c : config) (bs : list byte) : Z :=
  to_long c (le_combine (if big_endian c then reverse bs else bs)).

(** What a manual page speaks about: which processes are ptrace-stopped
    tracees of ours, their address spaces, and which addresses the protection of
    the mapping, as mmap(2) and mprotect(2) set it, allows to write. *)
Class TraceeView (K : Type) : Type := {
  stopped : K -> Z -> Prop;
  tmem : K -> Z -> Z -> option byte;
  writable : K -> Z -> Z -> bool;
}.

(** The part of the address space that can be written. *)
Definition wmem {K} `{!TraceeView K} (k : K) (pid a : Z) : option byte :=
  if writable k pid a then tmem k pid a else None.

(** ptrace(2) on the memory of a stopped tracee, and mmap(2)'s page
    granularity.  A word of a writable mapping can be written and a word that is
    not mapped cannot; nothing is assumed of a read-only mapping, which
    PTRACE_POKEDATA writes when it is private and refuses when it is shared. *)
Class PtraceMem (c : config) (K : Type) `{!KernelOps K} `{!TraceeView K} : Prop := {
  tmem_range k pid a :
    is_Some (tmem k pid a) -> 0 <= a < 2 ^ bits_long c;
  tmem_page k pid a b :
    a / 4096 = b / 4096 -> is_Some (tmem k pid a) -> is_Some (tmem k pid b);
  writable_page k pid a b :
    a / 4096 = b / 4096 -> writable k pid a = writable k pid b;
  peekdata_ok k pid a bs d :
    stopped k pid ->
    read_mem (tmem k pid) a (Z.to_nat (sizeof_long c)) = Some bs ->
    sys_ptrace PTRACE_PEEKDATA pid a d k = (SysRet (bytes_word c bs) None, d, k);
  peekdata_fault k pid a d :
    stopped k pid ->
    read_mem (tmem k pid) a (Z.to_nat (sizeof_long c)) = None ->
    exists e, (e = EIO \/ e = EFAULT) /\
      sys_ptrace PTRACE_PEEKDATA pid a d k = (SysRet (-1) (Some e), d, k);
  pokedata_ok k pid a v :
    stopped k pid ->
    is_Some (read_mem (wmem k pid) a (Z.to_nat (sizeof_long c))) ->
    exists k', sys_ptrace PTRACE_POKEDATA pid a (DVal v) k
               = (SysRet 0 None, DVal v, k') /\
      stopped k' pid /\
      (forall x, tmem k' pid x = write_mem (tmem k pid) a (word_bytes c v) x) /\
      (forall x, writable k' pid x = writable k pid x);
  pokedata_fault k pid a v :
    stopped k pid ->
    read_mem (tmem k pid) a (Z.to_nat (sizeof_long c)) = None ->
    exists e, (e = EIO \/ e = EFAULT) /\
      sys_ptrace PTRACE_POKEDATA pid a (DVal v) k = (SysRet (-1) (Some e), DVal v, k);
}.

(** ptrace(2): on error the call returns -1 and sets [errno], to a positive
    number as errno(3) has them; it leaves [errno] alone otherwise. *)
Class PtraceErrno (K : Type) `{!KernelOps K} : Prop := {
  ptrace_error req pid a d k r d' k' e :
    sys_ptrace req pid a d k = (r, d', k') ->
    sr_errno r = Some e -> sr_val r = -1 /\ 0 < e;
}.

(** process_vm_readv(2) and process_vm_writev(2) with one element on each side:
    the transfer of a single element is never split, and the calls do not need
    the tracee to be stopped, only to be ours. *)
Class ProcessVm (K : Type) `{!KernelOps K} `{!TraceeView K} : Prop := {
  readv_ok k pid a len bs :
    stopped k pid -> 0 <= len ->
    read_mem (tmem k pid) a (Z.to_nat len) = Some bs ->
    sys_process_vm_readv pid a len k = (SysRet len None, bs, k);
  readv_fault k pid a len :
    stopped k pid -> 0 <= len ->
    read_mem (tmem k pid) a (Z.to_nat len) = None ->
    sys_process_vm_readv pid a len k = (SysRet (-1) (Some EFAULT), [], k);
  writev_ok k pid a bs :
    stopped k pid ->
    is_Some (read_mem (wmem k pid) a (length bs)) ->
    exists k', sys_process_vm_writev pid a bs k
               = (SysRet (Z.of_nat (length bs)) None, k') /\
      stopped k' pid /\
      (forall x, tmem k' pid x = write_mem (tmem k pid) a bs x) /\
      (forall x, writable k' pid x = writable k pid x);
}.

(** A kernel without these calls, or one that forbids them to us. *)
Class NoProcessVm (K : Type) `{!KernelOps K} : Prop := {
  readv_denied k pid a len :
    exists e, (e = ENOSYS \/ e = EPERM) /\
      sys_process_vm_readv pid a len k = (SysRet (-1) (Some e), [], k);
  writev_denied k pid a bs :
    exists e, (e = ENOSYS \/ e = EPERM) /\
      sys_process_vm_writev pid a bs k = (SysRet (-1) (Some e), k);
}.

#[global] Arguments word_bytes : simpl never.
#[global] Arguments bytes_word : simpl never.
#[global] Arguments write_mem : simpl never.

(** ** Lemmas on memory *)

Lemma length_read_mem m a n bs : read_mem m a n = Some bs -> length bs = n.
Proof.
  revert a bs. induction n as [|n IH]; intros a bs H; simpl in H; [by simplify_eq|].
  destruct (m a); [|done]. destruct (read_mem m (a + 1) n) eqn:E; [|done].
  simplify_eq. simpl. by rewrite (IH _ _ E).
Qed.

Lemma read_mem_app m a n1 n2 :
  read_mem m a (n1 + n2) =
  match read_mem m a n1, read_mem m (a + Z.of_nat n1) n2 with
  | Some b1, Some b2 => Some (b1 ++ b2)
  | _, _ => None
  end.
Proof.
  revert a. induction n1 as [|n1 IH]; intros a; simpl.
  - rewrite Z.add_0_r. by destruct (read_mem m a n2).
  - rewrite IH. replace (a + 1 + Z.of_nat n1) with (a + Z.of_nat (S n1)) by lia.
    destruct (m a), (read_mem m (a + 1) n1), (read_mem m (a + Z.of_nat (S n1)) n2); done.
Qed.

Lemma read_mem_split m a n1 n2 bs :
  read_mem m a (n1 + n2) = Some bs ->
  read_mem m a n1 = Some (take n1 bs) /\
  read_mem m (a + Z.of_nat n1) n2 = Some (drop n1 bs).
Proof.
  rewrite read_mem_app. intros H.
  destruct (read_mem m a n1) as [b1|] eqn:E1; [|done].
  destruct (read_mem m _ n2) as [b2|] eqn:E2; [|done]. simplify_eq.
  pose proof (length_read_mem _ _ _ _ E1) as <-.
  by rewrite take_app_length, drop_app_length.
Qed.

(** Any piece of a readable range is readable, and is that piece of its bytes. *)
Lemma read_mem_sub m a n i k bs :
  read_mem m a n = Some bs -> (i + k <= n)%nat ->
  read_mem m (a + Z.of_nat i) k = Some (take k (drop i bs)).
Proof.
  intros H Hik.
  replace n with (i + (k + (n - i - k)))%nat in H by lia.
  apply read_mem_split in H as [_ H]. apply read_mem_split in H as [H _]. done.
Qed.

Lemma read_mem_lookup m a n bs i :
  read_mem m a n = Some bs -> (i < n)%nat -> m (a + Z.of_nat i) = bs !! i.
Proof.
  intros H Hi. pose proof (length_read_mem _ _ _ _ H) as Hl.
  pose proof (read_mem_sub _ _ _ i 1 _ H ltac:(lia)) as H1. simpl in H1.
  destruct (m (a + Z.of_nat i)) as [b|]; [|done]. injection H1 as H1.
  rewrite <- (Nat.add_0_r i), <- lookup_drop.
  destruct (drop i bs); simplify_eq/=. done.
Qed.

Lemma read_mem_first m a n bs :
  (0 < n)%nat -> read_mem m a n = Some bs -> is_Some (m a).
Proof. destruct n; [lia|]. simpl. intros _. by destruct (m a). Qed.

(** A range is readable exactly when each of its addresses is mapped. *)
Lemma read_mem_is_Some m a n :
  is_Some (read_mem m a n) <-> (forall i, (i < n)%nat -> is_Some (m (a + Z.of_nat i))).
Proof.
  split.
  - intros [bs H] i Hi. rewrite (read_mem_lookup _ _ _ _ _ H Hi).
    apply lookup_lt_is_Some. by rewrite (length_read_mem _ _ _ _ H).
  - revert a. induction n as [|n IH]; intros a H; simpl; [by eexists|].
    destruct (H 0%nat ltac:(lia)) as [b Hb]. simpl in Hb. rewrite Z.add_0_r in Hb.
    rewrite Hb. destruct (IH (a + 1)) as [bs Hbs]; [|by rewrite Hbs; eexists].
    intros i Hi. replace (a + 1 + Z.of_nat i) with (a + Z.of_nat (S i)) by lia.
    apply H. lia.
Qed.

Lemma read_mem_ext m m' a n :
  (forall i, (i < n)%nat -> m (a + Z.of_nat i) = m' (a + Z.of_nat i)) ->
  read_mem m a n = read_mem m' a n.
Proof.
  revert a. induction n as [|n IH]; intros a H; simpl; [done|].
  pose proof (H 0%nat ltac:(lia)) as H0. simpl in H0. rewrite !Z.add_0_r in H0.
  rewrite H0, (IH (a + 1)); [done|].
  intros i Hi. replace (a + 1 + Z.of_nat i) with (a + Z.of_nat (S i)) by lia.
  apply H. lia.
Qed.

Lemma read_mem_None m a n i :
  (i < n)%nat -> m (a + Z.of_nat i) = None -> read_mem m a n = None.
Proof.
  intros Hi Hm. destruct (read_mem m a n) eqn:E; [|done].
  destruct (proj1 (read_mem_is_Some m a n) ltac:(by eexists) i Hi). congruence.
Qed.

Lemma write_mem_out m a bs x :
  x < a \/ a + Z.of_nat (length bs) <= x -> write_mem m a bs x = m x.
Proof.
  intros H. unfold write_mem.
  destruct (Z.leb_spec a x), (Z.ltb_spec x (a + Z.of_nat (length bs))); simpl; try done; lia.
Qed.

Lemma write_mem_in m a bs i :
  (i < length bs)%nat -> write_mem m a bs (a + Z.of_nat i) = bs !! i.
Proof.
  intros H. unfold write_mem.
  destruct (Z.leb_spec a (a + Z.of_nat i)),
    (Z.ltb_spec (a + Z.of_nat i) (a + Z.of_nat (length bs))); simpl; try lia.
  f_equal. lia.
Qed.

(** Storing [b1] and then [b2] right behind it is storing their concatenation. *)
Lemma write_mem_app m a b1 b2 x :
  write_mem (write_mem m a b1) (a + Z.of_nat (length b1)) b2 x
  = write_mem m a (b1 ++ b2) x.
Proof.
  destruct (decide (a + Z.of_nat (length b1) <= x < a + Z.of_nat (length (b1 ++ b2))))
    as [Hin|Hout]; [|destruct (decide (a <= x < a + Z.of_nat (length b1))) as [H1|H1]].
  - rewrite length_app in Hin.
    replace x with (a + Z.of_nat (length b1) + Z.of_nat (Z.to_nat (x - a) - length b1)) at 1 by lia.
    rewrite write_mem_in by lia.
    replace x with (a + Z.of_nat (Z.to_nat (x - a))) at 2 by lia.
    rewrite write_mem_in by (rewrite length_app; lia).
    rewrite lookup_app_r by lia. done.
  - rewrite write_mem_out by lia.
    replace x with (a + Z.of_nat (Z.to_nat (x - a))) by lia.
    rewrite !write_mem_in by (rewrite ?length_app; lia). by rewrite lookup_app_l by lia.
  - rewrite length_app in Hout. rewrite !write_mem_out; [done|rewrite ?length_app; lia..].
Qed.

Lemma read_write_mem m a bs : read_mem (write_mem m a bs) a (length bs) = Some bs.
Proof.
  destruct (proj2 (read_mem_is_Some (write_mem m a bs) a (length bs))) as [bs' H].
  { intros i Hi. rewrite write_mem_in by done. by apply lookup_lt_is_Some. }
  rewrite H. f_equal. pose proof (length_read_mem _ _ _ _ H) as Hl.
  apply list_eq. intros i. destruct (decide (i < length bs)%nat).
  - by rewrite <- (read_mem_lookup _ _ _ _ _ H), write_mem_in.
  - rewrite !lookup_ge_None_2 by lia. done.
Qed.

(** Storing keeps every mapped address mapped. *)
Lemma write_mem_mapped m a bs x : is_Some (m x) -> is_Some (write_mem m a bs x).
Proof.
  intros H. destruct (decide (a <= x < a + Z.of_nat (length bs))) as [Hin|Hout].
  - replace x with (a + Z.of_nat (Z.to_nat (x - a))) by lia.
    rewrite write_mem_in by lia. apply lookup_lt_is_Some. lia.
  - by rewrite write_mem_out by lia.
Qed.

Section Writable.
Context {K : Type} `{!TraceeView K}.

Lemma wmem_tmem (k : K) pid a : is_Some (wmem k pid a) -> is_Some (tmem k pid a).
Proof. unfold wmem. by destruct (writable k pid a); [|intros []]. Qed.

(** A range that can be written can be read. *)
Lemma read_wmem_tmem (k : K) pid a n :
  is_Some (read_mem (wmem k pid) a n) -> is_Some (read_mem (tmem k pid) a n).
Proof. rewrite !read_mem_is_Some. intros H i Hi. apply wmem_tmem, H, Hi. Qed.

(** Where everything is writable, the two views are one. *)
Lemma read_wmem_all (k : K) pid a n :
  (forall x, writable k pid x = true) -> read_mem (wmem k pid) a n = read_mem (tmem k pid) a n.
Proof. intros H. apply read_mem_ext. intros i _. unfold wmem. by rewrite H. Qed.

(** Storing keeps every writable address writable. *)
Lemma wmem_written (k k' : K) pid a bs x :
  (forall y, tmem k' pid y = write_mem (tmem k pid) a bs y) ->
  (forall y, writable k' pid y = writable k pid y) ->
  is_Some (wmem k pid x) -> is_Some (wmem k' pid x).
Proof.
  intros Ht Hw. unfold wmem. rewrite Hw, Ht.
  destruct (writable k pid x); [apply write_mem_mapped | done].
Qed.

End Writable.

(** ** Lemmas on words *)

Lemma length_word_bytes c v : length (word_bytes c v) = Z.to_nat (sizeof_long c).
Proof.
  unfold word_bytes. destruct (big_endian c); rewrite ?length_reverse; apply length_le_split.
Qed.

Lemma to_nat_bits c : Z.of_nat (Z.to_nat (sizeof_long c)) * 8 = bits_long c.
Proof. unfold bits_long. destruct (sizeof_long_cases c) as [-> | ->]; lia. Qed.

Lemma le_split_to_long c n v :
  n = Z.to_nat (sizeof_long c) -> le_split n (to_long c v) = le_split n v.
Proof.
  intros ->. rewrite le_split_mod, (le_split_mod v), !to_nat_bits.
  f_equal. apply (wrapu_wraps (bits_long c)). apply bits_long_pos.
Qed.

(** A word read from memory has the bytes it was read from. *)
Lemma word_bytes_word c bs :
  length bs = Z.to_nat (sizeof_long c) -> word_bytes c (bytes_word c bs) = bs.
Proof.
  intros H. unfold word_bytes, bytes_word. rewrite le_split_to_long by done.
  rewrite <- H. destruct (big_endian c).
  - rewrite <- (length_reverse bs), split_le_combine. apply reverse_involutive.
  - apply split_le_combine.
Qed.

(** The value of a stored word is the value, as a [long]. *)
Lemma bytes_word_bytes c v : bytes_word c (word_bytes c v) = to_long c v.
Proof.
  unfold word_bytes, bytes_word.
  assert (H : to_long c (le_combine (le_split (Z.to_nat (sizeof_long c)) v)) = to_long c v).
  { rewrite le_combine_split, to_nat_bits.
    apply (wraps_wrapu (bits_long c)). apply bits_long_pos. }
  destruct (big_endian c); [rewrite reverse_involutive|]; apply H.
Qed.
