(* ===== verification/Layout.v ===== *)
(** * Register blocks: private.h, and the layouts it takes from the system headers

    A register block is the bytes of a C structure; its members are read and
    stored at their offsets, so that the unions of [struct pink_regset] overlay
    as they do in memory.  The second half states what ptrace(2) does with the
    registers of a stopped tracee. *)

From Stdlib Require Import ZArith Lia.
From stdpp Require Import base list numbers.
From coqutil Require Import Byte Word.LittleEndianList.
From S2P Require Import Prelude Config Kernel.
Local Open Scope Z_scope.

(** ** Members *)

(** An unsigned member of [w] bytes at offset [off]. *)
Definition get_member (c : config) (bs : list byte) (off w : nat) : Z :=
  let m := take w (drop off bs) in
  le_combine (if big_endian c then reverse m else m).

Definition set_member (c : config) (bs : list byte) (off w : nat) (v : Z) : list byte :=
  let m := le_split w v in
  splice bs off (if big_endian c then reverse m else m).

(** sys/reg.h for x86-64: the index of each register in [struct user_regs_struct]. *)
Definition R10 : nat := 7.
Definition R9 : nat := 8.
Definition R8 : nat := 9.
Definition RBP : nat := 4.
Definition RBX : nat := 5.
Definition RAX : nat := 10.
Definition RCX : nat := 11.
Definition RDX : nat := 12.
Definition RSI : nat := 13.
Definition RDI : nat := 14.
Definition ORIG_RAX : nat := 15.
Definition RIP : nat := 16.
Definition CS : nat := 17.
Definition RSP : nat := 19.

(** [struct i386_user_regs_struct] of private.h; sys/reg.h has the same order for
    i386, where [struct user_regs_struct] is this structure. *)
Definition EBX : nat := 0.
Definition ECX : nat := 1.
Definition EDX : nat := 2.
Definition ESI : nat := 3.
Definition EDI : nat := 4.
Definition EBP : nat := 5.
Definition EAX : nat := 6.
Definition ORIG_EAX : nat := 11.
Definition EIP : nat := 12.
Definition ESP : nat := 15.

(** asm/ptrace.h for ARM: indices into [uregs]. *)
Definition ARM_r0 : nat := 0.
Definition ARM_r7 : nat := 7.
Definition ARM_ip : nat := 12.
Definition ARM_pc : nat := 15.
Definition ARM_cpsr : nat := 16.
Definition ARM_ORIG_r0 : nat := 17.

(** asm/ptrace.h for PowerPC: indices of the words of [struct pt_regs]. *)
Definition PT_R0 : nat := 0.
Definition PT_R3 : nat := 3.
Definition PT_MSR : nat := 33.
Definition PT_ORIG_R3 : nat := 34.
Definition PT_CCR : nat := 38.

(** Sizes of the structures. *)
Definition sizeof_x86_64_regs : nat := 216.
Definition sizeof_i386_regs : nat := 68.
Definition sizeof_aarch64_regs : nat := 272.
Definition sizeof_arm_regs : nat := 72.

(** The register member of [struct pink_regset]: the size of the union or of the
    structure the architecture has. *)
Definition sizeof_regs (c : config) : nat :=
  match PINK_ARCH c with
  | AARCH64 => sizeof_aarch64_regs
  | ARM => sizeof_arm_regs
  | POWERPC => 44 * Z.to_nat (sizeof_long c)
  | I386 => sizeof_i386_regs
  | X86_64 | X32 => sizeof_x86_64_regs
  end.

(** ** ptrace(2) on registers *)

(** The registers a 32-bit x86 task shows to PTRACE_GETREGSET: the low halves of
    the 64-bit block, in the order of [struct i386_user_regs_struct]. *)
Definition compat_order : list nat := [5; 11; 12; 13; 14; 4; 10; 23; 24; 25; 26; 15; 16; 17; 18; 19; 20]%nat.

Definition low_half (u : list byte) (i : nat) : list byte := take 4 (drop (8 * i) u).

Definition compat_regs (u : list byte) : list byte := concat (low_half u <$> compat_order).

(** What the manual page speaks about: the note that describes the general
    registers, the register block at the start of [struct user], and whether the
    task runs 32-bit code. *)
Class RegView (K : Type) : Type := {
  prstatus : K -> Z -> list byte;
  user_area : K -> Z -> list byte;
  compat_task : K -> Z -> bool;
}.

Definition NT_PRSTATUS : Z := 1.

(** PTRACE_GETREGSET with NT_PRSTATUS: the note is copied to the vector, and the
    vector's length becomes the note's. *)
Class PtraceRegset (K : Type) `{!KernelOps K} `{!TraceeView K} `{!RegView K} : Prop := {
  getregset_ok k pid base :
    stopped k pid -> (length (prstatus k pid) <= length base)%nat ->
    sys_ptrace PTRACE_GETREGSET pid NT_PRSTATUS (DIov base (Z.of_nat (length base))) k
    = (SysRet 0 None,
       DIov (splice base 0 (prstatus k pid)) (Z.of_nat (length (prstatus k pid))), k);
}.

(** The registers that a tracer may set freely: the general ones. *)
Definition general_reg (c : config) (i : nat) : bool :=
  match PINK_ARCH c with
  | X86_64 | X32 => (i <=? 16)%nat
  | I386 => (i <=? 6)%nat || (i =? 11)%nat || (i =? 12)%nat
  | _ => false
  end.

(** The user area of x86-64: PTRACE_POKEUSER on a general register stores the word
    at its offset and changes nothing else of the tracee; PTRACE_GETREGS copies
    the area; and the note shows it. *)
Class X86User (c : config) (K : Type) `{!KernelOps K} `{!TraceeView K} `{!RegView K} : Prop := {
  pokeuser_ok k pid i v :
    stopped k pid -> general_reg c i = true -> length (user_area k pid) = sizeof_regs c ->
    exists k', sys_ptrace PTRACE_POKEUSER pid (8 * Z.of_nat i) (DVal v) k
               = (SysRet 0 None, DVal v, k') /\
      stopped k' pid /\ compat_task k' pid = compat_task k pid /\
      user_area k' pid = splice (user_area k pid) (8 * i) (word_bytes c v) /\
      (forall a, tmem k' pid a = tmem k pid a);
  getregs_ok k pid base :
    stopped k pid -> length (user_area k pid) = sizeof_regs c -> length base = sizeof_regs c ->
    sys_ptrace PTRACE_GETREGS pid 0 (DBuf base) k
    = (SysRet 0 None, DBuf (user_area k pid), k);
  prstatus_x86 k pid :
    stopped k pid ->
    prstatus k pid = if compat_task k pid then compat_regs (user_area k pid)
                     else user_area k pid;
}.

(** ** Lemmas *)

Lemma length_low_half u i :
  (8 * i + 8 <= length u)%nat -> length (low_half u i) = 4%nat.
Proof. intros. unfold low_half. rewrite length_take, length_drop. lia. Qed.

Lemma length_compat_regs u :
  length u = sizeof_x86_64_regs -> length (compat_regs u) = sizeof_i386_regs.
Proof.
  intros H. unfold compat_regs, sizeof_x86_64_regs in *.
  rewrite length_concat. unfold compat_order. simpl.
  rewrite !length_low_half by lia. done.
Qed.

(** Blocks of four bytes: the [j]-th block of the concatenation. *)
Lemma take_drop_blocks (l : list (list byte)) j m :
  Forall (fun b => length b = 4%nat) l -> l !! j = Some m ->
  take 4 (drop (4 * j) (concat l)) = m.
Proof.
  intros Hf. revert j. induction Hf as [|b l Hb Hf IH]; intros j Hj; [done|].
  destruct j as [|j]; simpl in Hj.
  - simplify_eq. simpl. rewrite drop_0. by apply take_app_length'.
  - cbn [concat]. replace (4 * S j)%nat with (length b + 4 * j)%nat by lia.
    rewrite drop_app_add. by apply IH.
Qed.

(** Member [j] of a 32-bit task's note is the low half of its 64-bit register. *)
Lemma compat_member u j i :
  length u = sizeof_x86_64_regs -> compat_order !! j = Some i ->
  take 4 (drop (4 * j) (compat_regs u)) = low_half u i.
Proof.
  intros Hu Hj. unfold compat_regs. apply take_drop_blocks.
  - unfold sizeof_x86_64_regs in Hu. unfold compat_order.
    repeat apply Forall_cons_2; try apply Forall_nil_2; apply length_low_half; lia.
  - by rewrite list_lookup_fmap, Hj.
Qed.

Lemma low_half_value c u i :
  big_endian c = false ->
  le_combine (low_half u i) = get_member c u (8 * i) 8 mod 2 ^ 32.
Proof.
  intros H. unfold get_member, low_half. rewrite H.
  rewrite <- (take_take_le 4 8) by lia. rewrite le_combine_firstn. done.
Qed.

(** A note copied to the start of a block keeps its members. *)
Lemma compat_note_member c u base j i :
  big_endian c = false -> length u = sizeof_x86_64_regs -> compat_order !! j = Some i ->
  get_member c (splice base 0 (compat_regs u)) (4 * j) 4 = get_member c u (8 * i) 8 mod 2 ^ 32.
Proof.
  intros Hb Hu Hj. rewrite <- low_half_value by done. unfold get_member. rewrite Hb. f_equal.
  rewrite <- (compat_member u j i) by done.
  pose proof (length_compat_regs u Hu) as Hl. unfold sizeof_i386_regs in Hl.
  pose proof (lookup_lt_Some _ _ _ Hj) as Hlt. unfold compat_order in Hlt. simpl in Hlt.
  unfold splice. rewrite take_0, app_nil_l, drop_app_le by lia.
  apply take_app_le. rewrite length_drop. lia.
Qed.

Lemma length_set_member c bs off w v :
  (off + w <= length bs)%nat -> length (set_member c bs off w v) = length bs.
Proof.
  intros H. unfold set_member. apply length_splice.
  destruct (big_endian c); rewrite ?length_reverse, length_le_split; lia.
Qed.

(** A copy does not change the bytes beside it. *)
Lemma splice_disjoint bs off m off' w :
  (off + length m <= length bs)%nat ->
  (off' + w <= off \/ off + length m <= off')%nat ->
  take w (drop off' (splice bs off m)) = take w (drop off' bs).
Proof.
  intros Hl Hd. unfold splice. destruct Hd as [Hd|Hd].
  - rewrite drop_app_le by (rewrite length_take; lia).
    rewrite take_app_le by (rewrite length_drop, length_take; lia).
    rewrite <- (take_drop off bs) at 2. rewrite drop_app_le by (rewrite length_take; lia).
    rewrite take_app_le by (rewrite length_drop, length_take; lia). done.
  - rewrite app_assoc, drop_app_ge by (rewrite length_app, length_take; lia).
    rewrite drop_drop. do 2 f_equal. rewrite length_app, length_take. lia.
Qed.

Lemma splice_same bs off m :
  (off + length m <= length bs)%nat -> take (length m) (drop off (splice bs off m)) = m.
Proof.
  intros Hl. unfold splice. rewrite drop_app_length' by (rewrite length_take; lia).
  apply take_app_length.
Qed.

Lemma get_set_member c bs off w v :
  (off + w <= length bs)%nat ->
  get_member c (set_member c bs off w v) off w = v mod 2 ^ (Z.of_nat w * 8).
Proof.
  intros H. unfold get_member, set_member.
  assert (Hl : length (if big_endian c then reverse (le_split w v) else le_split w v) = w).
  { destruct (big_endian c); rewrite ?length_reverse; apply length_le_split. }
  pose proof (splice_same bs off _ ltac:(rewrite Hl; exact H)) as Hs. rewrite Hl in Hs.
  rewrite Hs. destruct (big_endian c); rewrite ?reverse_involutive; apply le_combine_split.
Qed.

Lemma get_set_member_ne c bs off w v off' w' :
  (off + w <= length bs)%nat -> (off' + w' <= off \/ off + w <= off')%nat ->
  get_member c (set_member c bs off w v) off' w' = get_member c bs off' w'.
Proof.
  intros H Hd. unfold get_member, set_member. rewrite splice_disjoint; [done|..];
    destruct (big_endian c); rewrite ?length_reverse, length_le_split; lia.
Qed.
