(* ===== verification/Sim.v ===== *)
(** * A concrete kernel

    A small executable kernel with one stopped tracee, which satisfies the laws
    of [Kernel].  It models no code of the library: it is the instance at which
    the witnesses evaluate the theorems, and it shows that the laws can hold. *)

From Stdlib Require Import ZArith Lia.
From stdpp Require Import base list numbers gmap.
From coqutil Require Import Byte Word.LittleEndianList.
From S2P Require Import Prelude Config Kernel Layout.
Local Open Scope Z_scope.

Record sim : Type := Sim {
  sim_pid : Z;                 (* the tracee *)
  sim_pages : gset Z;          (* its mapped pages *)
  sim_bytes : gmap Z byte;     (* its memory, zero where not written *)
  sim_user : list byte;        (* its register block, as in struct user *)
  sim_compat : bool;           (* whether it is a 32-bit task *)
  sim_log : list (ptrace_request * Z * pdata);  (* requests, latest first *)
}.

Section Sim.
Context (c : config).

Definition sim_tmem (k : sim) (pid a : Z) : option byte :=
  if decide (pid = sim_pid k /\ 0 <= a < 2 ^ bits_long c /\ a / 4096 ∈ sim_pages k)
  then Some (default Byte.x00 (sim_bytes k !! a)) else None.

Definition set_bytes (k : sim) (m : gmap Z byte) : sim :=
  Sim (sim_pid k) (sim_pages k) m (sim_user k) (sim_compat k) (sim_log k).
Definition set_user (k : sim) (u : list byte) : sim :=
  Sim (sim_pid k) (sim_pages k) (sim_bytes k) u (sim_compat k) (sim_log k).
Definition logged (k : sim) (r : ptrace_request) (pid : Z) (d : pdata) : sim :=
  Sim (sim_pid k) (sim_pages k) (sim_bytes k) (sim_user k) (sim_compat k)
      ((r, pid, d) :: sim_log k).

Fixpoint store_bytes (m : gmap Z byte) (a : Z) (bs : list byte) : gmap Z byte :=
  match bs with
  | [] => m
  | b :: bs' => <[a := b]> (store_bytes m (a + 1) bs')
  end.

Definition fail {A} (e : Z) (d : A) (k : sim) : sysret * A * sim :=
  (SysRet (-1) (Some e), d, k).

Definition sim_prstatus (k : sim) : list byte :=
  if sim_compat k then compat_regs (sim_user k) else sim_user k.

Definition sim_ptrace (req : ptrace_request) (pid addr : Z) (d : pdata) (k : sim)
  : sysret * pdata * sim :=
  let w := Z.to_nat (sizeof_long c) in
  if decide (pid = sim_pid k) then
    match req, d with
    | PTRACE_PEEKDATA, _ =>
        match read_mem (sim_tmem k pid) addr w with
        | Some bs => (SysRet (bytes_word c bs) None, d, k)
        | None => fail EIO d k
        end
    | PTRACE_POKEDATA, DVal v =>
        match read_mem (sim_tmem k pid) addr w with
        | Some _ => (SysRet 0 None, d, set_bytes k (store_bytes (sim_bytes k) addr (word_bytes c v)))
        | None => fail EIO d k
        end
    | PTRACE_PEEKUSER, _ =>
        match slice (sim_user k) (Z.to_nat addr) w with
        | Some bs => (SysRet (bytes_word c bs) None, d, k)
        | None => fail EIO d k
        end
    | PTRACE_POKEUSER, DVal v =>
        match memcpy_to (sim_user k) (Z.to_nat addr) (word_bytes c v) with
        | Some u => (SysRet 0 None, d, set_user k u)
        | None => fail EIO d k
        end
    | PTRACE_GETREGSET, DIov base len =>
        let out := take (Z.to_nat len) (sim_prstatus k) in
        match memcpy_to base 0 out with
        | Some base' => (SysRet 0 None, DIov base' (Z.of_nat (length out)), k)
        | None => fail EFAULT d k
        end
    | PTRACE_GETREGS, DBuf base =>
        match memcpy_to base 0 (sim_user k) with
        | Some base' => (SysRet 0 None, DBuf base', k)
        | None => fail EFAULT d k
        end
    | (PTRACE_GETREGSET | PTRACE_GETREGS), _ => fail EFAULT d k
    | _, _ => (SysRet 0 None, d, logged k req pid d)
    end
  else fail ESRCH d k.

Definition sim_readv (vm : bool) (pid a len : Z) (k : sim) : sysret * list byte * sim :=
  if vm then
    match read_mem (sim_tmem k pid) a (Z.to_nat len) with
    | Some bs => (SysRet len None, bs, k)
    | None => fail EFAULT [] k
    end
  else fail ENOSYS [] k.

Definition sim_writev (vm : bool) (pid a : Z) (bs : list byte) (k : sim) : sysret * sim :=
  if vm then
    match read_mem (sim_tmem k pid) a (length bs) with
    | Some _ => (SysRet (Z.of_nat (length bs)) None,
                 set_bytes k (store_bytes (sim_bytes k) a bs))
    | None => (SysRet (-1) (Some EFAULT), k)
    end
  else (SysRet (-1) (Some ENOSYS), k).

(** [vm] says whether the kernel has the process_vm calls. *)
Definition sim_ops (vm : bool) : KernelOps sim := {|
  sys_ptrace := sim_ptrace;
  sys_process_vm_readv := sim_readv vm;
  sys_process_vm_writev := sim_writev vm;
  sys_tgkill := fun tgid tid sig k =>
    if decide (tid = sim_pid k) then (SysRet 0 None, k) else (SysRet (-1) (Some ESRCH), k);
  sys_tkill := fun tid sig k =>
    if decide (tid = sim_pid k) then (SysRet 0 None, k) else (SysRet (-1) (Some ESRCH), k);
  sys_kill := fun pid sig k =>
    if decide (pid = sim_pid k) then (SysRet 0 None, k) else (SysRet (-1) (Some ESRCH), k);
|}.

Definition sim_view : TraceeView sim := {|
  stopped := fun k pid => pid = sim_pid k;
  tmem := sim_tmem;
  writable := fun _ _ _ => true;
|}.

Definition sim_regs : RegView sim := {|
  prstatus := fun k _ => sim_prstatus k;
  user_area := fun k _ => sim_user k;
  compat_task := fun k _ => sim_compat k;
|}.

(** ** The laws hold *)

Lemma lookup_store_bytes m a bs x :
  store_bytes m a bs !! x =
  if (a <=? x) && (x <? a + Z.of_nat (length bs)) then bs !! Z.to_nat (x - a) else m !! x.
Proof.
  revert a. induction bs as [|b bs IH]; intros a; cbn [store_bytes length].
  - destruct (Z.leb_spec a x), (Z.ltb_spec x (a + Z.of_nat 0)); cbn [andb]; done || lia.
  - destruct (decide (x = a)) as [->|Hne].
    + rewrite lookup_insert_eq, Z.leb_refl, Z.sub_diag.
      destruct (Z.ltb_spec a (a + Z.of_nat (S (length bs)))); [done | lia].
    + rewrite lookup_insert_ne, IH by done.
      destruct (Z.leb_spec a x), (Z.leb_spec (a + 1) x); cbn [andb]; try done; try lia.
      destruct (Z.ltb_spec x (a + 1 + Z.of_nat (length bs))),
        (Z.ltb_spec x (a + Z.of_nat (S (length bs)))); try done; try lia.
      by replace (Z.to_nat (x - a)) with (S (Z.to_nat (x - (a + 1)))) by lia.
Qed.

Lemma sim_tmem_store k pid a bs x :
  pid = sim_pid k -> is_Some (read_mem (sim_tmem k pid) a (length bs)) ->
  sim_tmem (set_bytes k (store_bytes (sim_bytes k) a bs)) pid x
  = write_mem (sim_tmem k pid) a bs x.
Proof.
  intros Hp Hr. rewrite read_mem_is_Some in Hr.
  unfold write_mem. unfold sim_tmem at 1. simpl. rewrite lookup_store_bytes.
  destruct ((a <=? x) && (x <? a + Z.of_nat (length bs))) eqn:E; [|done].
  apply andb_prop in E as [E1 E2]. apply Z.leb_le in E1. apply Z.ltb_lt in E2.
  pose proof (Hr (Z.to_nat (x - a)) ltac:(lia)) as H.
  replace (a + Z.of_nat (Z.to_nat (x - a))) with x in H by lia.
  unfold sim_tmem in H. case_decide; [|by destruct H].
  destruct (lookup_lt_is_Some_2 bs (Z.to_nat (x - a)) ltac:(lia)) as [b ->]. done.
Qed.

Lemma sim_ptrace_mem vm : @PtraceMem c sim (sim_ops vm) sim_view.
Proof.
  split; simpl.
  - unfold sim_tmem. intros k pid a. case_decide; [tauto|]. by intros [].
  - unfold sim_tmem. intros k pid a b Hab. case_decide as Ha; [|by intros []].
    intros _. rewrite decide_True; [by eexists|]. destruct Ha as (? & ? & ?).
    split_and!; [done| | |by rewrite <- Hab].
    + pose proof (Z.div_pos a 4096). pose proof (Z_div_lt b 4096).
      destruct (Z.neg_nonneg_cases b) as [Hb|]; [|done].
      pose proof (Z.div_lt_upper_bound b 4096 0 ltac:(lia) ltac:(lia)). lia.
    + assert (Hd : 2 ^ bits_long c = 4096 * (2 ^ bits_long c / 4096)).
      { unfold bits_long. destruct (sizeof_long_cases c) as [-> | ->]; reflexivity. }
      pose proof (Z.div_lt_upper_bound a 4096 (2 ^ bits_long c / 4096) ltac:(lia) ltac:(lia)).
      pose proof (Z.mul_succ_div_gt b 4096 ltac:(lia)). nia.
  - done.
  - intros k pid a bs d -> H. unfold sim_ptrace. rewrite decide_True by done. by rewrite H.
  - intros k pid a d -> H. exists EIO. split; [by left|].
    unfold sim_ptrace. rewrite decide_True by done. by rewrite H.
  - intros k pid a v -> [bs H]. rewrite (@read_wmem_all _ sim_view) in H by done.
    simpl in H. eexists. split_and!.
    + unfold sim_ptrace. rewrite decide_True by done. by rewrite H.
    + done.
    + intros x. apply sim_tmem_store; [done|]. rewrite length_word_bytes. by eexists.
    + done.
  - intros k pid a v -> H. exists EIO. split; [by left|].
    unfold sim_ptrace. rewrite decide_True by done. by rewrite H.
Qed.

Lemma sim_ptrace_errno vm : @PtraceErrno sim (sim_ops vm).
Proof.
  split. intros req pid a d k r d' k' e H He. simpl in H. unfold sim_ptrace, fail in H.
  repeat case_match; simplify_eq/=; unfold EIO, EFAULT, ESRCH; split; (done || lia).
Qed.

Lemma sim_process_vm : @ProcessVm sim (sim_ops true) sim_view.
Proof.
  split; simpl.
  - intros k pid a len bs -> Hl H. unfold sim_readv. by rewrite H.
  - intros k pid a len -> Hl H. unfold sim_readv. by rewrite H.
  - intros k pid a bs -> [bs' H]. rewrite (@read_wmem_all _ sim_view) in H by done.
    simpl in H. eexists. split_and!.
    + unfold sim_writev. by rewrite H.
    + done.
    + intros x. apply sim_tmem_store; [done | by eexists].
    + done.
Qed.

Lemma sim_no_process_vm : @NoProcessVm sim (sim_ops false).
Proof. split; intros; exists ENOSYS; (split; [by left | done]). Qed.

Lemma sim_ptrace_regset vm : @PtraceRegset sim (sim_ops vm) sim_view sim_regs.
Proof.
  split. simpl. intros k pid base -> Hl. unfold sim_ptrace. rewrite decide_True by done.
  rewrite Nat2Z.id, take_ge by done. by rewrite memcpy_to_ok by (simpl; lia).
Qed.

Lemma sim_x86_user vm :
  PINK_ARCH c = X86_64 -> sizeof_long c = 8 ->
  @X86User c sim (sim_ops vm) sim_view sim_regs.
Proof.
  intros Ha Hs. split; simpl; cycle 1; [|done|].
  { intros k pid base -> Hl Hb. unfold sim_ptrace. rewrite decide_True by done.
    rewrite memcpy_to_ok by (simpl; lia). do 3 f_equal. unfold splice. simpl.
    rewrite drop_ge by lia. apply app_nil_r. }
  intros k pid i v -> Hg Hl. unfold general_reg in Hg. rewrite Ha in Hg. apply Nat.leb_le in Hg.
  unfold sizeof_regs, sizeof_x86_64_regs in Hl. rewrite Ha in Hl.
  eexists. unfold sim_ptrace. rewrite decide_True by done.
  replace (Z.to_nat (8 * Z.of_nat i)) with (8 * i)%nat by lia.
  rewrite memcpy_to_ok by (rewrite length_word_bytes, Hs; lia). done.
Qed.

End Sim.

(** A tracee with the bytes [bs] at address [a], in otherwise zero pages; the
    pages of [a] are the only ones. *)
Definition sim_at (pid a : Z) (bs : list byte) : sim :=
  Sim pid {[a / 4096]} (store_bytes ∅ a bs) [] false [].

(** The kernels of the witnesses: 64-bit x86, without and with the process_vm
    calls. *)
Module X86.
#[export] Instance ops : KernelOps sim := sim_ops x86_64_linux false.
#[export] Instance view : TraceeView sim := sim_view x86_64_linux.
#[export] Instance errno_law : PtraceErrno sim := sim_ptrace_errno x86_64_linux false.
#[export] Instance mem_law : PtraceMem x86_64_linux sim := sim_ptrace_mem x86_64_linux false.
#[export] Instance no_vm_law : NoProcessVm sim := sim_no_process_vm x86_64_linux.
#[export] Instance regs : RegView sim := sim_regs.
#[export] Instance regset_law : PtraceRegset sim := sim_ptrace_regset x86_64_linux false.
#[export] Instance user_law : X86User x86_64_linux sim :=
  sim_x86_user x86_64_linux false eq_refl eq_refl.
End X86.

Module X86Vm.
#[export] Instance ops : KernelOps sim := sim_ops x86_64_linux true.
#[export] Instance view : TraceeView sim := sim_view x86_64_linux.
#[export] Instance errno_law : PtraceErrno sim := sim_ptrace_errno x86_64_linux true.
#[export] Instance mem_law : PtraceMem x86_64_linux sim := sim_ptrace_mem x86_64_linux true.
#[export] Instance vm_law : ProcessVm sim := sim_process_vm x86_64_linux.
End X86Vm.
