(* ===== verification/Trace.v ===== *)
(** * trace.c and event.c: wrappers around ptrace(2)

    [pink_ptrace] and the requests built on it, the option translation of
    [pink_trace_setup], the signal dispatch of [pink_trace_kill], and the
    decoding of a wait status into an event. *)

From Stdlib Require Import ZArith Lia.
From stdpp Require Import base list numbers gmap.
From coqutil Require Import Byte.
From S2P Require Import Prelude Config Kernel Sim.
Local Open Scope Z_scope.
Local Open Scope c_scope.

(** ** trace.h: the library's option bits *)

Definition PINK_TRACE_OPTION_SYSGOOD : Z := Z.shiftl 1 0.
Definition PINK_TRACE_OPTION_FORK : Z := Z.shiftl 1 1.
Definition PINK_TRACE_OPTION_VFORK : Z := Z.shiftl 1 2.
Definition PINK_TRACE_OPTION_CLONE : Z := Z.shiftl 1 3.
Definition PINK_TRACE_OPTION_EXEC : Z := Z.shiftl 1 4.
Definition PINK_TRACE_OPTION_VFORK_DONE : Z := Z.shiftl 1 5.
Definition PINK_TRACE_OPTION_EXIT : Z := Z.shiftl 1 6.
Definition PINK_TRACE_OPTION_SECCOMP : Z := Z.shiftl 1 7.
Definition PINK_TRACE_OPTION_EXITKILL : Z := Z.shiftl 1 8.

(** linux/ptrace.h: the kernel's option bits. *)
Definition PTRACE_O_TRACESYSGOOD : Z := 0x1.
Definition PTRACE_O_TRACEFORK : Z := 0x2.
Definition PTRACE_O_TRACEVFORK : Z := 0x4.
Definition PTRACE_O_TRACECLONE : Z := 0x8.
Definition PTRACE_O_TRACEEXEC : Z := 0x10.
Definition PTRACE_O_TRACEVFORKDONE : Z := 0x20.
Definition PTRACE_O_TRACEEXIT : Z := 0x40.
Definition PTRACE_O_TRACESECCOMP : Z := 0x80.
Definition PTRACE_O_EXITKILL : Z := 0x100000.

(** ** event.c *)

Inductive pink_event : Type :=
| PINK_EVENT_NONE | PINK_EVENT_FORK | PINK_EVENT_VFORK | PINK_EVENT_CLONE
| PINK_EVENT_EXEC | PINK_EVENT_VFORK_DONE | PINK_EVENT_EXIT
| PINK_EVENT_SECCOMP | PINK_EVENT_STOP.

Definition event_code (e : pink_event) : Z :=
  match e with
  | PINK_EVENT_NONE => 0
  | PINK_EVENT_FORK => 1
  | PINK_EVENT_VFORK => 2
  | PINK_EVENT_CLONE => 3
  | PINK_EVENT_EXEC => 4
  | PINK_EVENT_VFORK_DONE => 5
  | PINK_EVENT_EXIT => 6
  | PINK_EVENT_SECCOMP => 7
  | PINK_EVENT_STOP => 128
  end.

(** The value converted to [enum pink_event]: an enumeration object holds any
    integer, so the result is the code. *)
Definition pink_event_decide (status : Z) : Z := Z.shiftr (to_uint status) 16.

(** ** trace.c *)

Section Trace.
Context {K : Type} `{!KernelOps K} (c : config).

Definition NULL : pdata := DVal 0.

(** [pink_ptrace]: the return code, the value stored through [retval] (when it
    is stored), and the object behind [data] after the call. *)
Definition pink_ptrace (req : ptrace_request) (pid addr : Z) (data : pdata)
  : comp (cstate K) (Z * option Z * pdata) :=
  set_errno 0 ;;
  let! (val, d) := ptrace req pid addr data in
  let! e := get_errno in
  if (val =? -1) && negb (e =? 0) then
    (if e =? EIO then set_errno EFAULT else cret tt) ;;
    let! e' := get_errno in
    cret (- e', None, d)
  else cret (0, Some val, d).

(** A request whose result is only the return code. *)
Definition ptrace_rc (req : ptrace_request) (pid addr : Z) (data : pdata)
  : comp (cstate K) Z :=
  let! (rc, _, _) := pink_ptrace req pid addr data in cret rc.

(** A request that fills the object behind [data]. *)
Definition ptrace_out (req : ptrace_request) (pid addr : Z) (data : pdata)
  : comp (cstate K) (Z * pdata) :=
  let! (rc, _, d) := pink_ptrace req pid addr data in cret (rc, d).

Definition pink_trace_me : comp (cstate K) Z :=
  ptrace_rc PTRACE_TRACEME 0 0 NULL.

Definition pink_trace_resume (pid sig : Z) : comp (cstate K) Z :=
  ptrace_rc PTRACE_CONT pid 0 (DVal sig).

(** [x < 0 ? -errno : 0] *)
Definition neg_errno_if (failed : bool) : comp (cstate K) Z :=
  if failed then let! e := get_errno in cret (- e) else cret 0.

Definition pink_trace_kill (tid tgid sig : Z) : comp (cstate K) Z :=
  if tid <=? 0 then cret (- EINVAL)
  else if tgid <=? 0 then
    if PINK_HAVE_TKILL c
    then let! r := signal_call (sys_tkill tid sig) in neg_errno_if (r <? 0)
    else let! r := signal_call (sys_kill tid sig) in neg_errno_if (r <? 0)
  else
    if PINK_HAVE_TGKILL c
    then let! r := signal_call (sys_tgkill tgid tid sig) in neg_errno_if (negb (r =? 0))
    else if PINK_HAVE_TKILL c
    then let! r := signal_call (sys_tkill tid sig) in neg_errno_if (r <? 0)
    else let! r := signal_call (sys_kill tid sig) in neg_errno_if (r <? 0).

Definition pink_trace_singlestep (pid sig : Z) : comp (cstate K) Z :=
  ptrace_rc PTRACE_SINGLESTEP pid 0 (DVal sig).

Definition pink_trace_syscall (pid sig : Z) : comp (cstate K) Z :=
  ptrace_rc PTRACE_SYSCALL pid 0 (DVal sig).

Definition pink_trace_geteventmsg (pid : Z) (data : list byte)
  : comp (cstate K) (Z * pdata) :=
  if PINK_HAVE_GETEVENTMSG c then ptrace_out PTRACE_GETEVENTMSG pid 0 (DBuf data)
  else cret (- ENOSYS, DBuf data).

Definition pink_trace_get_regs (pid : Z) (regs : list byte)
  : comp (cstate K) (Z * pdata) :=
  if PINK_HAVE_GETREGS c then ptrace_out PTRACE_GETREGS pid 0 (DBuf regs)
  else cret (- ENOSYS, DBuf regs).

Definition pink_trace_get_regset (pid : Z) (regset : pdata) (n_type : Z)
  : comp (cstate K) (Z * pdata) :=
  if PINK_HAVE_GETREGSET c then ptrace_out PTRACE_GETREGSET pid (to_long c n_type) regset
  else cret (- ENOSYS, regset).

Definition pink_trace_set_regs (pid : Z) (regs : list byte) : comp (cstate K) Z :=
  if PINK_HAVE_SETREGS c then ptrace_rc PTRACE_SETREGS pid 0 (DBuf regs)
  else cret (- ENOSYS).

Definition pink_trace_set_regset (pid : Z) (regset : pdata) (n_type : Z)
  : comp (cstate K) Z :=
  if PINK_HAVE_SETREGSET c then ptrace_rc PTRACE_SETREGSET pid (to_long c n_type) regset
  else cret (- ENOSYS).

Definition pink_trace_get_siginfo (pid : Z) (info : list byte)
  : comp (cstate K) (Z * pdata) :=
  if PINK_HAVE_GETSIGINFO c then ptrace_out PTRACE_GETSIGINFO pid 0 (DBuf info)
  else cret (- ENOSYS, DBuf info).

(** One of the nine blocks of [pink_trace_setup]: [None] is its early
    [return -EINVAL]. *)
Definition setup_option (options opt : Z) (have : bool) (flag : Z) (acc : option Z)
  : option Z :=
  match acc with
  | None => None
  | Some o =>
      if negb (Z.land options opt =? 0)
      then (if have then Some (Z.lor o flag) else None)
      else Some o
  end.

Definition setup_options (options : Z) : option Z :=
  setup_option options PINK_TRACE_OPTION_EXITKILL (PINK_HAVE_OPTION_EXITKILL c) PTRACE_O_EXITKILL
  (setup_option options PINK_TRACE_OPTION_SECCOMP (PINK_HAVE_OPTION_SECCOMP c) PTRACE_O_TRACESECCOMP
  (setup_option options PINK_TRACE_OPTION_EXIT (PINK_HAVE_OPTION_EXIT c) PTRACE_O_TRACEEXIT
  (setup_option options PINK_TRACE_OPTION_VFORK_DONE (PINK_HAVE_OPTION_VFORK_DONE c) PTRACE_O_TRACEVFORKDONE
  (setup_option options PINK_TRACE_OPTION_EXEC (PINK_HAVE_OPTION_EXEC c) PTRACE_O_TRACEEXEC
  (setup_option options PINK_TRACE_OPTION_CLONE (PINK_HAVE_OPTION_CLONE c) PTRACE_O_TRACECLONE
  (setup_option options PINK_TRACE_OPTION_VFORK (PINK_HAVE_OPTION_VFORK c) PTRACE_O_TRACEVFORK
  (setup_option options PINK_TRACE_OPTION_FORK (PINK_HAVE_OPTION_FORK c) PTRACE_O_TRACEFORK
  (setup_option options PINK_TRACE_OPTION_SYSGOOD (PINK_HAVE_OPTION_SYSGOOD c) PTRACE_O_TRACESYSGOOD
  (Some 0))))))))).

Definition pink_trace_setup (pid options : Z) : comp (cstate K) Z :=
  if PINK_HAVE_SETUP c then
    match setup_options options with
    | None => cret (- EINVAL)
    | Some ptrace_options => ptrace_rc PTRACE_SETOPTIONS pid 0 (DVal ptrace_options)
    end
  else cret (- ENOSYS).

Definition pink_trace_sysemu (pid sig : Z) : comp (cstate K) Z :=
  if PINK_HAVE_SYSEMU c then ptrace_rc PTRACE_SYSEMU pid 0 (DVal sig)
  else cret (- ENOSYS).

Definition pink_trace_sysemu_singlestep (pid sig : Z) : comp (cstate K) Z :=
  if PINK_HAVE_SYSEMU c then ptrace_rc PTRACE_SYSEMU_SINGLESTEP pid 0 (DVal sig)
  else cret (- ENOSYS).

Definition pink_trace_attach (pid : Z) : comp (cstate K) Z :=
  ptrace_rc PTRACE_ATTACH pid 0 NULL.

Definition pink_trace_detach (pid sig : Z) : comp (cstate K) Z :=
  ptrace_rc PTRACE_DETACH pid 0 (DVal sig).

Definition pink_trace_seize (pid options : Z) : comp (cstate K) Z :=
  if PINK_HAVE_SEIZE c then ptrace_rc PTRACE_SEIZE pid 0 (DVal options)
  else cret (- ENOSYS).

Definition pink_trace_interrupt (pid : Z) : comp (cstate K) Z :=
  if PINK_HAVE_INTERRUPT c then ptrace_rc PTRACE_INTERRUPT pid 0 NULL
  else cret (- ENOSYS).

Definition pink_trace_listen (pid : Z) : comp (cstate K) Z :=
  if PINK_HAVE_LISTEN c then ptrace_rc PTRACE_LISTEN pid 0 NULL
  else cret (- ENOSYS).

End Trace.

(** ** Properties *)

Section Contract.
Context {K : Type} `{!KernelOps K} `{!PtraceErrno K} (c : config).

(** [pink_ptrace] always returns, and its code, [errno] and the stored value
    agree. *)
Lemma pink_ptrace_cases req pid a d (s : cstate K) r d' k' :
  sys_ptrace req pid a d (ker s) = (r, d', k') ->
  match sr_errno r with
  | None => pink_ptrace req pid a d s = Ret (0, Some (sr_val r), d') (CState k' 0)
  | Some e =>
      let e' := if e =? EIO then EFAULT else e in
      pink_ptrace req pid a d s = Ret (- e', None, d') (CState k' e')
  end.
Proof.
  intros H. destruct (sr_errno r) as [e|] eqn:He.
  - pose proof (ptrace_error _ _ _ _ _ _ _ _ _ H He) as [Hv Hpos].
    unfold pink_ptrace, ptrace, set_errno, get_errno, errno_after. crun.
    rewrite H. simpl. rewrite He, Hv. simpl.
    destruct (Z.eqb_spec e 0); [lia|]. simpl.
    destruct (Z.eqb_spec e EIO); done.
  - unfold pink_ptrace, ptrace, set_errno, get_errno, errno_after. crun.
    rewrite H. simpl. rewrite He. simpl. by rewrite andb_false_r.
Qed.

(** C10. The contract of [pink_ptrace], for every request: it returns (it never
    aborts), the code is 0 or a negated [errno], [errno] is that number, EIO is
    never reported, and a value is stored exactly on success, also when the
    word read is -1. *)
Theorem pink_ptrace_contract req pid a d (s : cstate K) :
  exists rc out d' s',
    pink_ptrace req pid a d s = Ret (rc, out, d') s' /\
    rc <= 0 /\ errno s' = - rc /\ rc <> - EIO /\
    (forall v, out = Some v <->
       rc = 0 /\ exists r d0 k0, sys_ptrace req pid a d (ker s) = (r, d0, k0) /\
                 sr_val r = v).
Proof.
  destruct (sys_ptrace req pid a d (ker s)) as [[r d'] k'] eqn:H.
  pose proof (pink_ptrace_cases _ _ _ _ s _ _ _ H) as Hc.
  destruct (sr_errno r) as [e|] eqn:He; do 4 eexists; (split; [exact Hc|]).
  - pose proof (ptrace_error _ _ _ _ _ _ _ _ _ H He) as [_ Hpos].
    unfold EIO, EFAULT in *. simpl.
    destruct (Z.eqb_spec e 5); split_and!; try lia; intros v; split; try done; lia.
  - unfold EIO. simpl. split_and!; try lia. intros v. split.
    + intros [= <-]. split; [done|]. by do 3 eexists.
    + intros (_ & r0 & d0 & k0 & Heq & <-). by simplify_eq.
Qed.

Lemma ptrace_rc_cases req pid a d (s : cstate K) r d' k' :
  sys_ptrace req pid a d (ker s) = (r, d', k') ->
  ptrace_rc req pid a d s =
  match sr_errno r with
  | None => Ret 0 (CState k' 0)
  | Some e => let e' := if e =? EIO then EFAULT else e in Ret (- e') (CState k' e')
  end.
Proof.
  intros H. pose proof (pink_ptrace_cases _ _ _ _ s _ _ _ H) as Hc.
  unfold ptrace_rc, cbind. destruct (sr_errno r); by rewrite Hc.
Qed.

End Contract.

Lemma pink_ptrace_contract_witness :
  exists rc out d' s',
    @pink_ptrace sim (sim_ops x86_64_linux false) PTRACE_PEEKDATA 7 0 NULL
      (CState (Sim 7 {[0]} (store_bytes ∅ 0 (replicate 8 Byte.xff)) [] false []) 11)
    = Ret (rc, out, d') s' /\ rc = 0 /\ out = Some (-1).
Proof.
  pose proof (@pink_ptrace_contract sim (sim_ops x86_64_linux false)
    (sim_ptrace_errno x86_64_linux false) PTRACE_PEEKDATA 7 0 NULL
    (CState (Sim 7 {[0]} (store_bytes ∅ 0 (replicate 8 Byte.xff)) [] false []) 11))
    as (rc & out & d' & s' & H & _ & _ & _ & Hv).
  exists rc, out, d', s'. split; [exact H|]. vm_compute in H. injection H as <- <- _ _.
  split; reflexivity.
Defined.

(** ** Options *)

(** The kernel's bits for a set of library options: the low eight bits are the
    same, EXITKILL moves from bit 8 to bit 20. *)
Definition kernel_options (options : Z) : Z :=
  Z.lor (Z.land options 0xff) (Z.shiftl (Z.land options 0x100) 12).

(** Whether every requested option is available in the configuration. *)
Definition options_supported (c : config) (options : Z) : bool :=
  let ok i have := negb (Z.testbit options i) || have in
  ok 0 (PINK_HAVE_OPTION_SYSGOOD c) && ok 1 (PINK_HAVE_OPTION_FORK c)
  && ok 2 (PINK_HAVE_OPTION_VFORK c) && ok 3 (PINK_HAVE_OPTION_CLONE c)
  && ok 4 (PINK_HAVE_OPTION_EXEC c) && ok 5 (PINK_HAVE_OPTION_VFORK_DONE c)
  && ok 6 (PINK_HAVE_OPTION_EXIT c) && ok 7 (PINK_HAVE_OPTION_SECCOMP c)
  && ok 8 (PINK_HAVE_OPTION_EXITKILL c).

Lemma land_bit o i : 0 <= i -> Z.land o (Z.shiftl 1 i) = if Z.testbit o i then 2 ^ i else 0.
Proof.
  intros Hi. rewrite Z.shiftl_1_l. apply Z.bits_inj'. intros n Hn.
  rewrite Z.land_spec. destruct (decide (n = i)) as [->|Hne].
  - rewrite Z.pow2_bits_true by done. rewrite andb_true_r.
    destruct (Z.testbit o i); [by rewrite Z.pow2_bits_true | by rewrite Z.bits_0].
  - rewrite Z.pow2_bits_false by done. rewrite andb_false_r.
    destruct (Z.testbit o i); [by rewrite Z.pow2_bits_false | by rewrite Z.bits_0].
Qed.

Lemma setup_option_step o i have flag (p : bool) acc :
  0 <= i ->
  setup_option o (Z.shiftl 1 i) have flag (if p then Some acc else None) =
  (if p && (negb (Z.testbit o i) || have)
   then Some (Z.lor acc (if Z.testbit o i then flag else 0)) else None).
Proof.
  intros Hi. unfold setup_option. rewrite (land_bit o i Hi).
  assert (Hn : (2 ^ i =? 0) = false) by (apply Z.eqb_neq; pose proof (pow2_pos i Hi); lia).
  destruct p, (Z.testbit o i), have; simpl; rewrite ?Hn, ?Z.lor_0_r; done.
Qed.

Lemma kernel_options_bits o :
  kernel_options o =
  let b i f := if Z.testbit o i then f else 0 in
  Z.lor (Z.lor (Z.lor (Z.lor (Z.lor (Z.lor (Z.lor (Z.lor
    (Z.lor 0 (b 0 0x1)) (b 1 0x2)) (b 2 0x4)) (b 3 0x8)) (b 4 0x10)) (b 5 0x20))
    (b 6 0x40)) (b 7 0x80)) (b 8 0x100000).
Proof.
  unfold kernel_options.
  change 0xff with (Z.lor (Z.shiftl 1 0) (Z.lor (Z.shiftl 1 1) (Z.lor (Z.shiftl 1 2)
    (Z.lor (Z.shiftl 1 3) (Z.lor (Z.shiftl 1 4) (Z.lor (Z.shiftl 1 5)
    (Z.lor (Z.shiftl 1 6) (Z.shiftl 1 7)))))))).
  change 0x100 with (Z.shiftl 1 8). rewrite !Z.land_lor_distr_r, !land_bit by lia.
  rewrite Z.lor_0_l, !Z.lor_assoc.
  by destruct (Z.testbit o 8).
Qed.

Lemma setup_options_spec c o :
  setup_options c o =
  if options_supported c o then Some (kernel_options o) else None.
Proof.
  unfold setup_options. unfold PINK_TRACE_OPTION_SYSGOOD, PINK_TRACE_OPTION_FORK, PINK_TRACE_OPTION_VFORK,
    PINK_TRACE_OPTION_CLONE, PINK_TRACE_OPTION_EXEC, PINK_TRACE_OPTION_VFORK_DONE,
    PINK_TRACE_OPTION_EXIT, PINK_TRACE_OPTION_SECCOMP, PINK_TRACE_OPTION_EXITKILL.
  change (Some 0) with (if true then Some 0 else None).
  rewrite !setup_option_step by lia. by rewrite kernel_options_bits.
Qed.

(** C18. [pink_trace_setup] translates: where PTRACE_SETOPTIONS exists, it asks
    the kernel for exactly the kernel's bits of the requested options when all
    are available, and returns -EINVAL without any system call when one is not;
    bits that are no option are ignored. *)
Theorem pink_trace_setup_translates {K} `{!KernelOps K} c pid options (s : cstate K) :
  PINK_HAVE_SETUP c = true ->
  pink_trace_setup c pid options s =
  if options_supported c options
  then ptrace_rc PTRACE_SETOPTIONS pid 0 (DVal (kernel_options options)) s
  else Ret (- EINVAL) s.
Proof.
  intros H. unfold pink_trace_setup. rewrite H, setup_options_spec.
  by destruct (options_supported c options).
Qed.

Lemma pink_trace_setup_translates_witness :
  @pink_trace_setup sim (sim_ops x86_64_linux false) x86_64_linux 7
    (Z.lor PINK_TRACE_OPTION_SYSGOOD PINK_TRACE_OPTION_EXITKILL)
    (CState (Sim 7 ∅ ∅ [] false []) 0)
  = Ret 0 (CState (Sim 7 ∅ ∅ [] false
             [(PTRACE_SETOPTIONS, 7, DVal (Z.lor PTRACE_O_TRACESYSGOOD PTRACE_O_EXITKILL))]) 0).
Proof.
  rewrite (@pink_trace_setup_translates sim (sim_ops x86_64_linux false) x86_64_linux 7
    (Z.lor PINK_TRACE_OPTION_SYSGOOD PINK_TRACE_OPTION_EXITKILL)
    (CState (Sim 7 ∅ ∅ [] false []) 0) eq_refl).
  reflexivity.
Defined.

(** [pink_trace_seize] does not translate: its option word reaches the
    kernel as it is.  That is the right word for every combination of the first
    eight options, but EXITKILL is sent as bit 8, which is not the kernel's
    EXITKILL bit (20), although the header documents the same option flags. *)
Theorem pink_trace_seize_options {K} `{!KernelOps K} c pid (s : cstate K) :
  (forall options, 0 <= options < 256 ->
     kernel_options options = options /\
     pink_trace_seize c pid options s =
       (if PINK_HAVE_SEIZE c
        then ptrace_rc PTRACE_SEIZE pid 0 (DVal (kernel_options options)) s
        else Ret (- ENOSYS) s)) /\
  (PINK_HAVE_SEIZE c = true ->
   pink_trace_seize c pid PINK_TRACE_OPTION_EXITKILL s
     = ptrace_rc PTRACE_SEIZE pid 0 (DVal 0x100) s /\
   kernel_options PINK_TRACE_OPTION_EXITKILL = PTRACE_O_EXITKILL /\
   PTRACE_O_EXITKILL <> 0x100).
Proof.
  split.
  - intros o Ho.
    assert (kernel_options o = o) as Hk.
    { unfold kernel_options. change 0xff with (2 ^ 8 - 1). rewrite land_low by lia.
      rewrite Z.mod_small by lia.
      change 0x100 with (Z.shiftl 1 8). rewrite land_bit by lia.
      replace (Z.testbit o 8) with false; [apply Z.lor_0_r|].
      symmetry. apply Z.testbit_false; [lia|]. by rewrite (Z.div_small o) by (simpl; lia). }
    rewrite Hk. split; [done|]. unfold pink_trace_seize. by destruct (PINK_HAVE_SEIZE c).
  - intros H. unfold pink_trace_seize. by rewrite H.
Qed.

Lemma pink_trace_seize_options_witness :
  PINK_HAVE_SEIZE x86_64_linux = true /\
  @pink_trace_seize sim (sim_ops x86_64_linux false) x86_64_linux 7
    PINK_TRACE_OPTION_EXITKILL (CState (Sim 7 ∅ ∅ [] false []) 0)
  = Ret 0 (CState (Sim 7 ∅ ∅ [] false [(PTRACE_SEIZE, 7, DVal 0x100)]) 0).
Proof.
  split; [reflexivity|].
  destruct (proj2 (@pink_trace_seize_options sim (sim_ops x86_64_linux false) x86_64_linux 7
    (CState (Sim 7 ∅ ∅ [] false []) 0)) eq_refl) as [H _].
  rewrite H. reflexivity.
Defined.

(** ** Signals *)

(** The call that delivers the signal, by availability: tgkill(2) needs a thread
    group, tkill(2) is next, kill(2) last. *)
Definition kill_call {K} `{!KernelOps K} (c : config) (tid tgid sig : Z) : K -> sysret * K :=
  if (0 <? tgid) && PINK_HAVE_TGKILL c then sys_tgkill tgid tid sig
  else if PINK_HAVE_TKILL c then sys_tkill tid sig else sys_kill tid sig.

(** The signal calls return 0, or -1 with [errno] set. *)
Definition zero_or_error (r : sysret) : Prop :=
  (sr_val r = 0 /\ sr_errno r = None) \/ (sr_val r = -1 /\ exists e, sr_errno r = Some e).

(** [pink_trace_kill]: a thread id that is not positive is refused with
    -EINVAL before any call; otherwise exactly one signal is sent, by tgkill
    when it exists and a thread group is given, else by tkill, else by kill, and
    the result is 0 or the negated [errno] of that call. *)
Theorem pink_trace_kill_dispatch {K} `{!KernelOps K} c tid tgid sig (s : cstate K) :
  let '(r, k') := kill_call c tid tgid sig (ker s) in
  zero_or_error r ->
  pink_trace_kill c tid tgid sig s =
  if tid <=? 0 then Ret (- EINVAL) s
  else match sr_errno r with
       | None => Ret 0 (CState k' (errno s))
       | Some e => Ret (- e) (CState k' e)
       end.
Proof.
  destruct (kill_call c tid tgid sig (ker s)) as [r k'] eqn:Hc. intros Hr.
  unfold pink_trace_kill. destruct (tid <=? 0); [done|].
  unfold kill_call in Hc. rewrite Z.ltb_antisym in Hc.
  unfold signal_call, neg_errno_if, get_errno, errno_after.
  destruct (tgid <=? 0), (PINK_HAVE_TGKILL c), (PINK_HAVE_TKILL c);
    simpl in Hc; crun; rewrite Hc;
    destruct Hr as [[Hv He] | [Hv [e He]]]; rewrite Hv, He; reflexivity.
Qed.

Lemma pink_trace_kill_dispatch_witness :
  zero_or_error (SysRet (-1) (Some ESRCH)) /\
  @pink_trace_kill sim (sim_ops x86_64_linux false) x86_64_linux 8 8 9
    (CState (Sim 7 ∅ ∅ [] false []) 0)
  = Ret (- ESRCH) (CState (Sim 7 ∅ ∅ [] false []) ESRCH).
Proof.
  assert (Hz : zero_or_error (SysRet (-1) (Some ESRCH))) by (right; split; [done | by eexists]).
  split; [exact Hz|].
  exact (@pink_trace_kill_dispatch sim (sim_ops x86_64_linux false) x86_64_linux 8 8 9
    (CState (Sim 7 ∅ ∅ [] false []) 0) Hz).
Defined.

(** ** Events *)

(** A wait status that reports a ptrace event stop, as ptrace(2) and wait(2) lay
    it out: 0x7f in the low byte, the signal in the next one, the event above. *)
Definition event_stop_status (event sig : Z) : Z :=
  Z.lor (Z.shiftl event 16) (Z.lor (Z.shiftl sig 8) 0x7f).

Lemma event_decide_run e sig status :
  0 <= sig < 256 ->
  pink_event_decide (event_stop_status (event_code e) sig) = event_code e /\
  0 <= pink_event_decide status < 65536.
Proof.
  intros Hs.
  assert (Hlow : Z.shiftr (Z.lor (Z.shiftl sig 8) 0x7f) 16 = 0).
  { rewrite Z.shiftr_lor, Z.shiftr_shiftl_r by lia.
    rewrite Z.shiftr_div_pow2 by lia. change (16 - 8) with 8.
    rewrite Z.div_small by (simpl; lia). done. }
  split.
  - unfold pink_event_decide, to_uint.
    rewrite wrapu_small.
    + unfold event_stop_status. rewrite Z.shiftr_lor, Hlow, Z.lor_0_r.
      rewrite Z.shiftr_shiftl_l by lia. apply Z.shiftl_0_r.
    + unfold event_stop_status.
      assert (Hn : 0 <= Z.lor (Z.shiftl (event_code e) 16) (Z.lor (Z.shiftl sig 8) 0x7f)).
      { rewrite !Z.lor_nonneg, !Z.shiftl_nonneg. destruct e; simpl; lia. }
      split; [done|].
      assert (Z.shiftr (Z.lor (Z.shiftl (event_code e) 16) (Z.lor (Z.shiftl sig 8) 0x7f)) 16 < 2 ^ 16).
      { rewrite Z.shiftr_lor, Hlow, Z.lor_0_r, Z.shiftr_shiftl_l, Z.shiftl_0_r by lia.
        by destruct e. }
      rewrite Z.shiftr_div_pow2 in H by lia.
      pose proof (Z.mul_succ_div_gt (Z.lor (Z.shiftl (event_code e) 16)
        (Z.lor (Z.shiftl sig 8) 0x7f)) (2 ^ 16) ltac:(lia)).
      change (2 ^ 32) with (2 ^ 16 * 2 ^ 16). nia.
  - unfold pink_event_decide. rewrite Z.shiftr_div_pow2 by lia.
    pose proof (wrapu_range 32 status ltac:(lia)) as [H1 H2].
    split; [apply Z.div_pos; unfold to_uint; lia|].
    apply Z.div_lt_upper_bound; [lia|]. unfold to_uint. simpl in *. lia.
Qed.

(** [pink_event_decide] gives back the event of every event stop whatever the
    signal, and its result is a 16-bit number for every status, negative ones
    included. *)
Theorem pink_event_decide_event e sig status :
  0 <= sig < 256 ->
  pink_event_decide (event_stop_status (event_code e) sig) = event_code e /\
  0 <= pink_event_decide status < 65536.
Proof. apply event_decide_run. Qed.

Lemma pink_event_decide_event_witness :
  pink_event_decide 0x1057f = 1 /\ pink_event_decide (event_stop_status 128 5) = 128.
Proof.
  split.
  - apply (pink_event_decide_event PINK_EVENT_FORK 5 0). lia.
  - apply (pink_event_decide_event PINK_EVENT_STOP 5 0). lia.
Defined.
