(* ===== verification/Vm.v ===== *)
(** * vm.c: data transfer between address spaces

    The word-at-a-time transfers over PTRACE_PEEKDATA/POKEDATA ([pink_vm_l*])
    and the transfers by cross-memory attach ([pink_vm_c*]).  A buffer of the
    tracer is its list of bytes; a copy outside it is undefined behaviour, and
    the unwritten part of the local union is an argument.  Of the register set
    the functions use only the ABI. *)

From Stdlib Require Import ZArith Lia.
From stdpp Require Import base list numbers.
From coqutil Require Import Byte.
From S2P Require Import Prelude Config Kernel Trace.
Local Open Scope Z_scope.
Local Open Scope c_scope.

(** [memchr] for a zero byte, as an offset. *)
Fixpoint find_nul (bs : list byte) : option nat :=
  match bs with
  | [] => None
  | b :: bs' => if byte.unsigned b =? 0 then Some O else S <$> find_nul bs'
  end.

Section Vm.
Context {K : Type} `{!KernelOps K} (c : config).

(** ** read.c and write.c: the word transfers *)

(** [off] is a [long], the address is the pointer it is cast to. *)
Definition pink_read_word_data (pid off : Z) : comp (cstate K) (Z * option Z) :=
  let! (rc, v, _) := pink_ptrace PTRACE_PEEKDATA pid (to_ulong c off) NULL in
  cret (rc, v).

Definition pink_read_word_user (pid off : Z) : comp (cstate K) (Z * option Z) :=
  let! (rc, v, _) := pink_ptrace PTRACE_PEEKUSER pid (to_ulong c off) NULL in
  cret (rc, v).

Definition pink_write_word_data (pid off val : Z) : comp (cstate K) Z :=
  ptrace_rc PTRACE_POKEDATA pid (to_ulong c off) (DVal val).

Definition pink_write_word_user (pid off val : Z) : comp (cstate K) Z :=
  ptrace_rc PTRACE_POKEUSER pid (to_ulong c off) (DVal val).

(** ** Helpers *)

Definition setup_addr (abi addr : Z) : option Z :=
  if (1 <? PINK_ABIS_SUPPORTED c) && (4 <? sizeof_long c) then
    wsize ← pink_abi_wordsize c abi;
    if wsize <? sizeof_long c
    then Some (to_long c (Z.land (to_ulong c addr) (Z.shiftl 1 (8 * wsize) - 1)))
    else Some addr
  else Some addr.

(** [addr &= -sizeof(long)] *)
Definition align_addr (addr : Z) : Z :=
  to_long c (Z.land (to_ulong c addr) (to_ulong c (- sizeof_long c))).

(** [addr & (sizeof(long) - 1)] *)
Definition addr_residue (addr : Z) : Z := Z.land (to_ulong c addr) (sizeof_long c - 1).

(** ** Word-at-a-time transfers *)

(** The loop of [pink_vm_lread].  [d] is [dest]'s offset in the buffer. *)
Fixpoint lread_loop (fuel : nat) (pid addr : Z) (buf : list byte) (d : nat)
    (residue count_read len : Z) : comp (cstate K) (Z * list byte) :=
  match fuel with
  | O => cnofuel
  | S fuel' =>
      if len =? 0 then cret (to_long c count_read, buf)
      else
        let addr := align_addr addr in
        let! (r, v) := pink_read_word_data pid addr in
        if r <? 0 then set_errno (- r) ;; cret (-1, buf)
        else
          let! val := checked v in
          let m := Z.min (sizeof_long c - residue) len in
          let! piece := checked (slice (word_bytes c val) (Z.to_nat residue) (Z.to_nat m)) in
          let! buf := checked (memcpy_to buf d piece) in
          lread_loop fuel' pid (to_long c (addr + sizeof_long c)) buf (d + Z.to_nat m)
            0 (to_uint (count_read + m)) (len - m)
  end.

Definition pink_vm_lread (pid addr : Z) (dest : list byte) (len : Z)
  : comp (cstate K) (Z * list byte) :=
  lread_loop (S (Z.to_nat len)) pid addr dest 0 (addr_residue addr) 0 len.

(** The inner [while] loop, which looks for a zero byte in the whole word from
    [residue] on, also beyond the bytes copied: the index it stops at. *)
Definition word_nul (x : list byte) (residue : Z) : option Z :=
  (fun i => residue + Z.of_nat i) <$> find_nul (drop (Z.to_nat residue) x).

Fixpoint lread_nul_loop (fuel : nat) (pid addr : Z) (buf : list byte) (d : nat)
    (residue count_read len : Z) : comp (cstate K) (Z * list byte) :=
  match fuel with
  | O => cnofuel
  | S fuel' =>
      if len =? 0 then cret (to_long c count_read, buf)
      else
        let addr := align_addr addr in
        let! (r, v) := pink_read_word_data pid addr in
        if r <? 0 then set_errno (- r) ;; cret (-1, buf)
        else
          let! val := checked v in
          let x := word_bytes c val in
          let m := Z.min (sizeof_long c - residue) len in
          let! piece := checked (slice x (Z.to_nat residue) (Z.to_nat m)) in
          let! buf := checked (memcpy_to buf d piece) in
          match word_nul x residue with
          | Some i => cret (Z.of_nat d + (i + 1) - 1, buf)
          | None =>
              lread_nul_loop fuel' pid (to_long c (addr + sizeof_long c)) buf
                (d + Z.to_nat m) 0 (to_uint (count_read + m)) (len - m)
          end
  end.

Definition pink_vm_lread_nul (pid addr : Z) (dest : list byte) (len : Z)
  : comp (cstate K) (Z * list byte) :=
  lread_nul_loop (S (Z.to_nat len)) pid addr dest 0 (addr_residue addr) 0 len.

(** The loop of [pink_vm_lwrite].  [indet] gives the indeterminate bytes of the
    union declared in the loop body, [p] is [src]'s offset.  On failure the
    conditional expression has type [unsigned int], so its [-1] is 2^32 - 1. *)
Fixpoint lwrite_loop (fuel : nat) (indet : Z -> list byte) (pid addr : Z)
    (src : list byte) (p : nat) (residue count_written len : Z)
  : comp (cstate K) Z :=
  match fuel with
  | O => cnofuel
  | S fuel' =>
      if len =? 0 then cret (to_long c count_written)
      else
        let addr := align_addr addr in
        let u := resize (Z.to_nat (sizeof_long c)) Byte.x00 (indet addr) in
        let m := Z.min (sizeof_long c - residue) len in
        let! piece := checked (slice src (p + Z.to_nat residue) (Z.to_nat m)) in
        let! x := checked (memcpy_to u 0 piece) in
        let! r := pink_write_word_data pid addr (bytes_word c x) in
        if r <? 0 then
          set_errno (- r) ;;
          cret (to_long c (if 0 <? count_written then count_written else to_uint (-1)))
        else
          lwrite_loop fuel' indet pid (to_long c (addr + sizeof_long c)) src
            (p + Z.to_nat m) 0 (to_uint (count_written + m)) (len - m)
  end.

Definition pink_vm_lwrite (indet : Z -> list byte) (pid addr : Z) (src : list byte)
    (len : Z) : comp (cstate K) Z :=
  lwrite_loop (S (Z.to_nat len)) indet pid addr src 0 (addr_residue addr) 0 len.

(** ** Cross-memory attach *)

(** [_pink_process_vm_readv], and the macro that stands for it where the call
    does not exist. *)
Definition pink_process_vm_readv (pid addr len : Z) : comp (cstate K) (Z * list byte) :=
  if PINK_HAVE_PROCESS_VM_READV c then process_vm_readv pid addr len
  else set_errno ENOSYS ;; cret (-1, []).

Definition pink_process_vm_writev (pid addr : Z) (bs : list byte) : comp (cstate K) Z :=
  if PINK_HAVE_PROCESS_VM_WRITEV c then process_vm_writev pid addr bs
  else set_errno ENOSYS ;; cret (-1).

Definition pink_vm_cread (pid abi addr : Z) (dest : list byte) (len : Z)
  : comp (cstate K) (Z * list byte) :=
  if PINK_HAVE_PROCESS_VM_READV c then
    let! addr := checked (setup_addr abi addr) in
    let! (r, bs) := pink_process_vm_readv pid (to_ulong c addr) len in
    let! dest := checked (memcpy_to dest 0 bs) in
    cret (r, dest)
  else set_errno ENOSYS ;; cret (-1, dest).

(** The chunk of one iteration of [pink_vm_cread_nul]; [addr] is the address the
    function was called with, which the loop does not advance.  Both the sum,
    of type [long], and the difference, of type [int], are signed. *)
Definition cread_chunk (addr len : Z) : option Z :=
  let chunk_len := to_int len in
  let chunk_len := if 256 <? chunk_len then 256 else chunk_len in
  sum ← long_value c (addr + chunk_len);
  let end_in_page := Z.land sum 4095 in
  r ← int_value (chunk_len - end_in_page);
  Some (if 0 <? r then r else chunk_len).

Fixpoint cread_nul_loop (fuel : nat) (pid addr remote : Z) (buf : list byte)
    (base : nat) (count_read len : Z) : comp (cstate K) (Z * list byte) :=
  match fuel with
  | O => cnofuel
  | S fuel' =>
      if len =? 0 then cret (count_read, buf)
      else
        let! chunk := checked (cread_chunk addr len) in
        let chunk_len := to_ulong c chunk in
        let! (r, bs) := pink_process_vm_readv pid remote chunk_len in
        let! buf := checked (memcpy_to buf base bs) in
        let r := to_int r in
        if r <? 0 then cret (if 0 <? count_read then count_read else -1, buf)
        else
          let! data := checked (slice buf base (Z.to_nat r)) in
          match find_nul data with
          | Some i => cret (count_read + Z.of_nat i + 1, buf)
          | None =>
              cread_nul_loop fuel' pid addr (to_ulong c (remote + r)) buf
                (base + Z.to_nat r) (count_read + r) (to_ulong c (len - r))
          end
  end.

Definition pink_vm_cread_nul (fuel : nat) (pid abi addr : Z) (dest : list byte) (len : Z)
  : comp (cstate K) (Z * list byte) :=
  let! addr := checked (setup_addr abi addr) in
  cread_nul_loop fuel pid addr (to_ulong c addr) dest 0 0 len.

Definition pink_vm_cwrite (pid abi addr : Z) (src : list byte) (len : Z)
  : comp (cstate K) Z :=
  if PINK_HAVE_PROCESS_VM_WRITEV c then
    let! addr := checked (setup_addr abi addr) in
    let! bs := checked (slice src 0 (Z.to_nat len)) in
    pink_process_vm_writev pid (to_ulong c addr) bs
  else set_errno ENOSYS ;; cret (-1).

End Vm.

(** ** Addresses *)

Section Addresses.
Context (c : config).

Lemma sizeof_long_pos : 0 < sizeof_long c.
Proof. destruct (sizeof_long_cases c); lia. Qed.

Lemma to_ulong_range z : 0 <= to_ulong c z < 2 ^ bits_long c.
Proof. apply wrapu_range. pose proof (bits_long_pos c). lia. Qed.

Lemma to_ulong_long z : to_ulong c (to_long c z) = to_ulong c z.
Proof. apply wrapu_wraps, bits_long_pos. Qed.

Lemma to_ulong_small z : 0 <= z < 2 ^ bits_long c -> to_ulong c z = z.
Proof. apply wrapu_small. Qed.

Lemma to_long_small z : 0 <= z < 2 ^ 31 -> to_long c z = z.
Proof.
  intros. apply wraps_small; [apply bits_long_pos|].
  unfold bits_long. destruct (sizeof_long_cases c) as [-> | ->]; simpl; lia.
Qed.

Lemma pow_bits_mod : 2 ^ bits_long c mod sizeof_long c = 0.
Proof. unfold bits_long. by destruct (sizeof_long_cases c) as [-> | ->]. Qed.

Lemma addr_residue_mod a : addr_residue c a = to_ulong c a mod sizeof_long c.
Proof.
  unfold addr_residue. destruct (sizeof_long_log c) as (n & Hn & ->). by apply land_low.
Qed.

Lemma addr_residue_range a : 0 <= addr_residue c a < sizeof_long c.
Proof. rewrite addr_residue_mod. apply Z.mod_pos_bound, sizeof_long_pos. Qed.

Lemma to_ulong_align a :
  to_ulong c (align_addr c a) = to_ulong c a - addr_residue c a.
Proof.
  unfold align_addr. rewrite to_ulong_long.
  assert (Hl : Z.land (to_ulong c a) (to_ulong c (- sizeof_long c))
               = to_ulong c a - addr_residue c a).
  { rewrite addr_residue_mod. pose proof (to_ulong_range a) as Hr.
    unfold to_ulong at 2. unfold wrapu.
    rewrite <- Z.land_ones by (pose proof (bits_long_pos c); lia).
    rewrite Z.land_assoc.
    destruct (sizeof_long_log c) as (n & Hn & Hs). rewrite Hs.
    rewrite land_high by done. rewrite Z.land_ones by (pose proof (bits_long_pos c); lia).
    apply Z.mod_small. pose proof (Z.mod_le (to_ulong c a) (2 ^ n) ltac:(lia) ltac:(apply pow2_pos; lia)).
    pose proof (Z.mod_pos_bound (to_ulong c a) (2 ^ n) ltac:(apply pow2_pos; lia)). lia. }
  rewrite Hl. apply to_ulong_small. pose proof (to_ulong_range a).
  pose proof (addr_residue_range a). rewrite addr_residue_mod in *.
  pose proof (Z.mod_le (to_ulong c a) (sizeof_long c) ltac:(lia) sizeof_long_pos). lia.
Qed.

Lemma aligned_align a : (to_ulong c a - addr_residue c a) mod sizeof_long c = 0.
Proof.
  rewrite addr_residue_mod. rewrite Zminus_mod_idemp_r, Z.sub_diag. apply Z.mod_0_l.
  pose proof sizeof_long_pos. lia.
Qed.

(** The address of the next word, when it exists. *)
Lemma to_ulong_next a :
  to_ulong c a - addr_residue c a + sizeof_long c < 2 ^ bits_long c ->
  to_ulong c (to_long c (align_addr c a + sizeof_long c))
    = to_ulong c a - addr_residue c a + sizeof_long c.
Proof.
  intros H. rewrite to_ulong_long. unfold to_ulong at 1.
  rewrite <- wrapu_add_l. fold (to_ulong c (align_addr c a)).
  rewrite to_ulong_align. apply wrapu_small.
  pose proof (to_ulong_range a). pose proof sizeof_long_pos.
  rewrite addr_residue_mod in *.
  pose proof (Z.mod_le (to_ulong c a) (sizeof_long c) ltac:(lia) sizeof_long_pos). lia.
Qed.

Lemma addr_residue_next a :
  addr_residue c (to_long c (align_addr c a + sizeof_long c)) = 0.
Proof.
  rewrite addr_residue_mod, to_ulong_long. unfold to_ulong.
  rewrite <- wrapu_add_l. fold (to_ulong c (align_addr c a)). rewrite to_ulong_align.
  pose proof sizeof_long_pos. pose proof (aligned_align a) as Ha.
  unfold wrapu. rewrite Z.mod_mod_divide.
  - by rewrite <- Zplus_mod_idemp_r, Z_mod_same_full, Z.add_0_r.
  - apply Z.mod_divide; [lia|]. apply pow_bits_mod.
Qed.

End Addresses.

(** ** One word *)

Section Words.
Context {K : Type} `{!KernelOps K} `{!TraceeView K} (c : config).
Context `{!PtraceErrno K} `{!PtraceMem c K}.

Lemma read_word_ok k pid e a bs :
  stopped k pid ->
  read_mem (tmem k pid) (to_ulong c a) (Z.to_nat (sizeof_long c)) = Some bs ->
  pink_read_word_data c pid a (CState k e)
    = Ret (0, Some (bytes_word c bs)) (CState k 0).
Proof.
  intros Hs Hm. unfold pink_read_word_data, cbind.
  by rewrite (pink_ptrace_cases _ _ _ _ (CState k e) _ _ _ (peekdata_ok _ _ _ _ NULL Hs Hm)).
Qed.

Lemma read_word_fault k pid e a :
  stopped k pid ->
  read_mem (tmem k pid) (to_ulong c a) (Z.to_nat (sizeof_long c)) = None ->
  pink_read_word_data c pid a (CState k e) = Ret (- EFAULT, None) (CState k EFAULT).
Proof.
  intros Hs Hm. destruct (peekdata_fault k pid (to_ulong c a) NULL Hs Hm) as (e' & He & Hp).
  pose proof (pink_ptrace_cases _ _ _ _ (CState k e) _ _ _ Hp) as Hc. simpl in Hc.
  unfold pink_read_word_data, cbind. rewrite Hc. by destruct He as [-> | ->].
Qed.

Lemma write_word_ok k pid e a v :
  stopped k pid ->
  is_Some (read_mem (wmem k pid) (to_ulong c a) (Z.to_nat (sizeof_long c))) ->
  exists k', pink_write_word_data c pid a v (CState k e) = Ret 0 (CState k' 0) /\
    stopped k' pid /\
    (forall x, tmem k' pid x = write_mem (tmem k pid) (to_ulong c a) (word_bytes c v) x) /\
    (forall x, writable k' pid x = writable k pid x).
Proof.
  intros Hs Hm. destruct (pokedata_ok k pid (to_ulong c a) v Hs Hm) as (k' & Hp & Hs' & Hw).
  exists k'. split; [|done]. unfold pink_write_word_data.
  by rewrite (ptrace_rc_cases _ _ _ _ (CState k e) _ _ _ Hp).
Qed.

Lemma write_word_fault k pid e a v :
  stopped k pid ->
  read_mem (tmem k pid) (to_ulong c a) (Z.to_nat (sizeof_long c)) = None ->
  pink_write_word_data c pid a v (CState k e) = Ret (- EFAULT) (CState k EFAULT).
Proof.
  intros Hs Hm. destruct (pokedata_fault k pid (to_ulong c a) v Hs Hm) as (e' & He & Hp).
  unfold pink_write_word_data. rewrite (ptrace_rc_cases _ _ _ _ (CState k e) _ _ _ Hp).
  by destruct He as [-> | ->].
Qed.

(** Pages are made of whole words. *)
Lemma word_in_page (m : Z -> option byte) A r :
  (forall a b, a / 4096 = b / 4096 -> is_Some (m a) -> is_Some (m b)) ->
  A mod sizeof_long c = 0 -> 0 <= r < sizeof_long c -> is_Some (m (A + r)) ->
  is_Some (read_mem m A (Z.to_nat (sizeof_long c))).
Proof.
  intros Hpage HA Hr Hm. apply read_mem_is_Some. intros i Hi.
  refine (Hpage _ _ _ Hm).
  assert (exists p, 0 < p /\ 4096 = sizeof_long c * p) as (p & Hp & ->).
  { destruct (sizeof_long_cases c) as [-> | ->]; [exists 512 | exists 1024]; lia. }
  pose proof (sizeof_long_pos c).
  rewrite <- !Z.div_div by lia.
  rewrite (Z.div_mod A (sizeof_long c)), HA by lia.
  rewrite Z.add_0_r, !(Z.mul_comm (sizeof_long c)), !Z.div_add_l by lia.
  rewrite (Z.div_small r), (Z.div_small (Z.of_nat i)) by lia. done.
Qed.

(** A mapped byte lies in a readable word, a writable one in a writable word. *)
Lemma word_readable k pid A r :
  A mod sizeof_long c = 0 -> 0 <= r < sizeof_long c ->
  is_Some (tmem k pid (A + r)) ->
  is_Some (read_mem (tmem k pid) A (Z.to_nat (sizeof_long c))).
Proof. apply word_in_page. intros a b. apply tmem_page. Qed.

Lemma word_writable k pid A r :
  A mod sizeof_long c = 0 -> 0 <= r < sizeof_long c ->
  is_Some (wmem k pid (A + r)) ->
  is_Some (read_mem (wmem k pid) A (Z.to_nat (sizeof_long c))).
Proof.
  apply word_in_page. intros a b Hab. unfold wmem. rewrite (writable_page k pid a b Hab).
  destruct (writable k pid b); [by apply tmem_page | done].
Qed.

(** A word that has an unmapped byte cannot be read. *)
Lemma word_unreadable k pid A r :
  0 <= r < sizeof_long c -> tmem k pid (A + r) = None ->
  read_mem (tmem k pid) A (Z.to_nat (sizeof_long c)) = None.
Proof.
  intros Hr Hm. apply (read_mem_None _ _ _ (Z.to_nat r)); [lia|].
  by rewrite Z2Nat.id by lia.
Qed.

End Words.
