(* ===== verification/VmRead.v ===== *)
(** * Properties of the word-at-a-time readers of vm.c *)

From Stdlib Require Import ZArith Lia.
From stdpp Require Import base list numbers gmap.
From coqutil Require Import Byte.
From S2P Require Import Prelude Config Kernel Sim Trace Vm.
Local Open Scope Z_scope.

Section LRead.
Context {K : Type} `{!KernelOps K} `{!TraceeView K} (c : config).
Context `{!PtraceErrno K} `{!PtraceMem c K}.

(** The number of bytes the iteration at [addr] copies. *)
Definition chunk (addr len : Z) : Z := Z.min (sizeof_long c - addr_residue c addr) len.

(** The next value of the loop's [addr]. *)
Definition next_addr (addr : Z) : Z := to_long c (align_addr c addr + sizeof_long c).

Lemma chunk_pos addr len : 0 < len -> 0 < chunk addr len <= len.
Proof. unfold chunk. pose proof (addr_residue_range c addr). lia. Qed.

Lemma chunk_next addr len :
  0 < len -> chunk addr len < len ->
  chunk addr len = sizeof_long c - addr_residue c addr.
Proof. unfold chunk. lia. Qed.

(** A range that continues into the next word: [next_addr] is its rest. *)
Lemma to_ulong_next_addr k pid addr len :
  chunk addr len < len ->
  is_Some (tmem k pid (to_ulong c addr + chunk addr len)) ->
  to_ulong c (next_addr addr) = to_ulong c addr + chunk addr len.
Proof.
  intros Hlt Hm. pose proof (addr_residue_range c addr).
  pose proof (chunk_next addr len ltac:(unfold chunk in *; lia) Hlt) as Hc.
  rewrite Hc in *. pose proof (tmem_range k pid _ Hm).
  unfold next_addr. rewrite to_ulong_next by lia. lia.
Qed.

(** The word that holds the byte at [addr], and its part from [addr] on. *)
Lemma word_at k pid addr :
  is_Some (tmem k pid (to_ulong c addr)) ->
  exists ws, length ws = Z.to_nat (sizeof_long c) /\
    read_mem (tmem k pid) (to_ulong c (align_addr c addr)) (Z.to_nat (sizeof_long c)) = Some ws /\
    read_mem (tmem k pid) (to_ulong c addr) (Z.to_nat (sizeof_long c - addr_residue c addr))
      = Some (drop (Z.to_nat (addr_residue c addr)) ws).
Proof.
  intros Hm. pose proof (addr_residue_range c addr) as Hr.
  rewrite to_ulong_align.
  destruct (word_readable c k pid (to_ulong c addr - addr_residue c addr)
    (addr_residue c addr) (aligned_align c addr) Hr) as [ws Hw].
  { by replace (to_ulong c addr - addr_residue c addr + addr_residue c addr)
      with (to_ulong c addr) by lia. }
  pose proof (length_read_mem _ _ _ _ Hw) as Hl.
  exists ws. split_and!; [done..|].
  pose proof (read_mem_sub _ _ _ (Z.to_nat (addr_residue c addr))
    (Z.to_nat (sizeof_long c - addr_residue c addr)) _ Hw ltac:(lia)) as Hs.
  rewrite Z2Nat.id in Hs by lia.
  replace (to_ulong c addr - addr_residue c addr + addr_residue c addr)
    with (to_ulong c addr) in Hs by lia.
  rewrite Hs. f_equal. apply take_ge. rewrite length_drop. lia.
Qed.

(** The piece an iteration copies is the tracee's bytes. *)
Lemma piece_at k pid addr len ws :
  0 < len ->
  read_mem (tmem k pid) (to_ulong c addr) (Z.to_nat (sizeof_long c - addr_residue c addr))
    = Some (drop (Z.to_nat (addr_residue c addr)) ws) ->
  read_mem (tmem k pid) (to_ulong c addr) (Z.to_nat (chunk addr len))
    = Some (take (Z.to_nat (chunk addr len)) (drop (Z.to_nat (addr_residue c addr)) ws)).
Proof.
  intros Hl H. pose proof (chunk_pos addr len Hl).
  pose proof (read_mem_sub _ _ _ 0 (Z.to_nat (chunk addr len)) _ H) as Hs.
  simpl in Hs. rewrite Z.add_0_r, drop_0 in Hs. apply Hs. unfold chunk. lia.
Qed.

Lemma lread_loop_end fuel pid addr buf d r cnt (s : cstate K) :
  lread_loop c (S fuel) pid addr buf d r cnt 0 s = Ret (to_long c cnt, buf) s.
Proof. done. Qed.

(** One iteration on a readable word. *)
Lemma lread_loop_step fuel k pid addr buf d cnt len e ws :
  stopped k pid -> 0 < len -> length ws = Z.to_nat (sizeof_long c) ->
  read_mem (tmem k pid) (to_ulong c (align_addr c addr)) (Z.to_nat (sizeof_long c)) = Some ws ->
  (d + Z.to_nat len <= length buf)%nat ->
  lread_loop c (S fuel) pid addr buf d (addr_residue c addr) cnt len (CState k e) =
  lread_loop c fuel pid (next_addr addr)
    (splice buf d (take (Z.to_nat (chunk addr len)) (drop (Z.to_nat (addr_residue c addr)) ws)))
    (d + Z.to_nat (chunk addr len)) 0 (to_uint (cnt + chunk addr len))
    (len - chunk addr len) (CState k 0).
Proof.
  intros Hs Hlen Hws Hm Hb. pose proof (addr_residue_range c addr).
  pose proof (chunk_pos addr len Hlen).
  cbn [lread_loop]. rewrite (proj2 (Z.eqb_neq len 0)) by lia.
  rewrite (cbind_run _ _ _ _ _ (read_word_ok c k pid e _ ws Hs Hm)).
  simpl. rewrite cbind_cret. fold (chunk addr len). rewrite word_bytes_word by done.
  erewrite cbind_checked by (apply slice_ok; unfold chunk; lia).
  erewrite cbind_checked by (apply memcpy_to_ok; rewrite length_take, length_drop; lia).
  done.
Qed.

Lemma lread_loop_fault fuel k pid addr buf d r cnt len e :
  stopped k pid -> 0 < len ->
  read_mem (tmem k pid) (to_ulong c (align_addr c addr)) (Z.to_nat (sizeof_long c)) = None ->
  lread_loop c (S fuel) pid addr buf d r cnt len (CState k e)
    = Ret (-1, buf) (CState k EFAULT).
Proof.
  intros Hs Hlen Hm. cbn [lread_loop]. rewrite (proj2 (Z.eqb_neq len 0)) by lia.
  unfold cbind at 1. by rewrite (read_word_fault c k pid e _ Hs Hm).
Qed.

(** The loop copies a readable range. *)
Lemma lread_loop_ok fuel : forall k pid addr buf d r cnt len e bs,
  r = addr_residue c addr -> stopped k pid -> 0 <= len < Z.of_nat fuel -> 0 <= cnt -> cnt + len < 2 ^ 32 ->
  (d + Z.to_nat len <= length buf)%nat ->
  read_mem (tmem k pid) (to_ulong c addr) (Z.to_nat len) = Some bs ->
  lread_loop c fuel pid addr buf d r cnt len (CState k e)
    = Ret (to_long c (cnt + len), splice buf d bs)
          (CState k (if len =? 0 then e else 0)).
Proof.
  induction fuel as [|fuel IH]; intros k pid addr buf d ? cnt len e bs -> Hs Hf Hc Hov Hb Hm; [lia|].
  destruct (decide (len = 0)) as [->|Hne].
  { simpl in Hm. simplify_eq. by rewrite lread_loop_end, splice_nil, Z.add_0_r. }
  rewrite (proj2 (Z.eqb_neq len 0)) by done.
  pose proof (chunk_pos addr len ltac:(lia)) as Hcp.
  destruct (word_at k pid addr) as (ws & Hl & Hw & Hpart).
  { eapply read_mem_first; [|exact Hm]; lia. }
  rewrite (lread_loop_step _ _ _ _ _ _ _ _ _ ws) by (done || lia).
  pose proof (piece_at k pid addr len ws ltac:(lia) Hpart) as Hpiece.
  set (m := chunk addr len) in *.
  replace (Z.to_nat len) with (Z.to_nat m + Z.to_nat (len - m))%nat in Hm by lia.
  apply read_mem_split in Hm as [Hm1 Hm2]. rewrite Hpiece in Hm1. injection Hm1 as Hp.
  rewrite Hp. rewrite Z2Nat.id in Hm2 by lia.
  assert (Hlp : length (take (Z.to_nat m) bs) = Z.to_nat m).
  { rewrite <- Hp. by apply length_read_mem in Hpiece. }
  assert (Huint : to_uint (cnt + m) = cnt + m) by (apply wrapu_small; lia).
  destruct (decide (m = len)) as [Heq|Hlt].
  - rewrite Heq, Z.sub_diag in Hm2 |- *. simpl in Hm2. injection Hm2 as Hm2.
    destruct fuel; [lia|]. rewrite lread_loop_end. rewrite <- Heq, Huint. do 2 f_equal.
    rewrite <- (take_drop (Z.to_nat m) bs) at 2. rewrite Heq, <- Hm2. by rewrite app_nil_r.
  - assert (Hn : to_ulong c (next_addr addr) = to_ulong c addr + m).
    { apply (to_ulong_next_addr k pid); [unfold m in *; lia|].
      eapply read_mem_first; [|exact Hm2]; lia. }
    rewrite Huint.
    rewrite (IH k pid (next_addr addr) _ _ _ _ _ 0 (drop (Z.to_nat m) bs)); try done; try lia.
    + rewrite (proj2 (Z.eqb_neq (len - m) 0)) by lia.
      replace (cnt + m + (len - m)) with (cnt + len) by lia. do 2 f_equal.
      rewrite <- Hlp at 2. rewrite splice_splice by lia. by rewrite take_drop.
    + symmetry. apply addr_residue_next.
    + rewrite length_splice by lia. lia.
    + by rewrite Hn.
Qed.

(** The loop fails on a range with an unmapped byte, whatever it copied before,
    and writes nothing beyond the range. *)
Lemma lread_loop_unmapped fuel : forall k pid addr buf d r cnt len e,
  r = addr_residue c addr -> stopped k pid -> 0 < len < Z.of_nat fuel ->
  (d + Z.to_nat len <= length buf)%nat ->
  to_ulong c addr + len <= 2 ^ bits_long c ->
  read_mem (tmem k pid) (to_ulong c addr) (Z.to_nat len) = None ->
  exists buf', lread_loop c fuel pid addr buf d r cnt len (CState k e)
    = Ret (-1, buf') (CState k EFAULT) /\
    length buf' = length buf /\ take d buf' = take d buf /\
    drop (d + Z.to_nat len) buf' = drop (d + Z.to_nat len) buf.
Proof.
  induction fuel as [|fuel IH]; intros k pid addr buf d ? cnt len e -> Hs Hf Hb Hend Hm; [lia|].
  pose proof (chunk_pos addr len ltac:(lia)) as Hcp.
  pose proof (addr_residue_range c addr) as Hr.
  destruct (tmem k pid (to_ulong c addr)) as [b|] eqn:Hfirst; cycle 1.
  { exists buf. split; [|done]. apply lread_loop_fault; [done|lia|].
    rewrite to_ulong_align. apply (word_unreadable c _ _ _ (addr_residue c addr)); [lia|].
    rewrite <- Hfirst. f_equal. lia. }
  destruct (word_at k pid addr) as (ws & Hl & Hw & Hpart); [by eexists|].
  rewrite (lread_loop_step _ _ _ _ _ _ _ _ _ ws) by (done || lia).
  pose proof (piece_at k pid addr len ws ltac:(lia) Hpart) as Hpiece.
  pose proof (length_read_mem _ _ _ _ Hpiece) as Hlp.
  set (m := chunk addr len) in *.
  replace (Z.to_nat len) with (Z.to_nat m + Z.to_nat (len - m))%nat in Hm by lia.
  rewrite read_mem_app, Hpiece in Hm. rewrite Z2Nat.id in Hm by lia.
  destruct (read_mem (tmem k pid) (to_ulong c addr + m) (Z.to_nat (len - m))) eqn:Hm2; [done|].
  assert (m < len) as Hlt by (destruct (Z.to_nat (len - m)) eqn:E; [done | lia]).
  assert (Hmc : m = sizeof_long c - addr_residue c addr) by (apply (chunk_next addr len); fold m; lia).
  assert (Hn : to_ulong c (next_addr addr) = to_ulong c addr + m).
  { unfold next_addr. rewrite to_ulong_next; lia. }
  set (piece := take (Z.to_nat m) _) in *.
  destruct (IH k pid (next_addr addr) (splice buf d piece) (d + Z.to_nat m)%nat 0
    (to_uint (cnt + m)) (len - m) 0) as (buf' & Hrun & Hlen & Htake & Hdrop);
    [symmetry; apply addr_residue_next | done | lia | rewrite length_splice by lia; lia
    | lia | by rewrite Hn |].
  exists buf'. split; [done|]. rewrite length_splice in Hlen by lia.
  replace (d + Z.to_nat len)%nat with (d + Z.to_nat m + Z.to_nat (len - m))%nat by lia.
  rewrite Hdrop. split_and!; [done| |].
  - rewrite <- (take_take_le d (d + Z.to_nat m)), Htake, take_take_le by lia.
    unfold splice. apply take_app_length'. rewrite length_take. lia.
  - unfold splice. rewrite app_assoc, drop_app_ge by (rewrite length_app, length_take; lia).
    rewrite drop_drop. f_equal. rewrite length_app, length_take. lia.
Qed.

Lemma lread_run k e pid addr dest len bs :
  stopped k pid -> 0 <= len < 2 ^ 31 -> (Z.to_nat len <= length dest)%nat ->
  read_mem (tmem k pid) (to_ulong c addr) (Z.to_nat len) = Some bs ->
  pink_vm_lread c pid addr dest len (CState k e)
    = Ret (len, bs ++ drop (Z.to_nat len) dest)
          (CState k (if len =? 0 then e else 0)).
Proof.
  intros Hs Hl Hd Hm. unfold pink_vm_lread.
  rewrite (lread_loop_ok _ k pid addr dest 0 _ 0 len e bs) by (done || lia).
  rewrite Z.add_0_l, to_long_small by lia. do 2 f_equal.
  unfold splice. simpl. by rewrite (length_read_mem _ _ _ _ Hm).
Qed.

(** C9. [pink_vm_lread] reads: for every address, aligned or not, every length
    below 2^31 and every destination that is large enough, it returns [len] when
    the range is mapped, stores exactly the tracee's bytes at the start of the
    destination and leaves the rest of it, and the kernel, unchanged. *)
Theorem pink_vm_lread_correct k e pid addr dest len bs :
  stopped k pid -> 0 <= len < 2 ^ 31 -> (Z.to_nat len <= length dest)%nat ->
  read_mem (tmem k pid) (to_ulong c addr) (Z.to_nat len) = Some bs ->
  pink_vm_lread c pid addr dest len (CState k e)
    = Ret (len, bs ++ drop (Z.to_nat len) dest)
          (CState k (if len =? 0 then e else 0)).
Proof. apply lread_run. Qed.

Lemma lread_run_fault k e pid addr dest len :
  stopped k pid -> 0 < len -> (Z.to_nat len <= length dest)%nat ->
  to_ulong c addr + len <= 2 ^ bits_long c ->
  read_mem (tmem k pid) (to_ulong c addr) (Z.to_nat len) = None ->
  exists dest', pink_vm_lread c pid addr dest len (CState k e)
    = Ret (-1, dest') (CState k EFAULT) /\
    length dest' = length dest /\ drop (Z.to_nat len) dest' = drop (Z.to_nat len) dest.
Proof.
  intros Hs Hl Hd Hend Hm. unfold pink_vm_lread.
  destruct (lread_loop_unmapped (S (Z.to_nat len)) k pid addr dest 0 (addr_residue c addr) 0 len e)
    as (dest' & Hr & Hlen & _ & Hdrop); [done | done | lia | lia | done | done |].
  by exists dest'.
Qed.

(** [pink_vm_lread] reports faults: when some byte of the range is not mapped
    it returns -1 with [errno] set to EFAULT (also where the kernel says EIO),
    and does not touch the destination beyond the range. *)
Theorem pink_vm_lread_faults k e pid addr dest len :
  stopped k pid -> 0 < len -> (Z.to_nat len <= length dest)%nat ->
  to_ulong c addr + len <= 2 ^ bits_long c ->
  read_mem (tmem k pid) (to_ulong c addr) (Z.to_nat len) = None ->
  exists dest', pink_vm_lread c pid addr dest len (CState k e)
    = Ret (-1, dest') (CState k EFAULT) /\
    length dest' = length dest /\ drop (Z.to_nat len) dest' = drop (Z.to_nat len) dest.
Proof. apply lread_run_fault. Qed.

(** ** Strings *)

Lemma find_nul_app_l l1 l2 n : find_nul l1 = Some n -> find_nul (l1 ++ l2) = Some n.
Proof.
  revert n. induction l1 as [|b l1 IH]; intros n H; simpl in *; [done|].
  destruct (byte.unsigned b =? 0); [done|].
  destruct (find_nul l1); simplify_eq/=. by rewrite (IH n0).
Qed.

Lemma find_nul_lt l n : find_nul l = Some n -> (n < length l)%nat.
Proof.
  revert n. induction l as [|b l IH]; intros n H; simpl in *; [done|].
  destruct (byte.unsigned b =? 0); [simplify_eq; lia|].
  destruct (find_nul l); simplify_eq/=. specialize (IH _ eq_refl). lia.
Qed.

Lemma find_nul_take l n j :
  find_nul l = Some n ->
  find_nul (take j l) = if decide (n < j)%nat then Some n else None.
Proof.
  revert n j. induction l as [|b l IH]; intros n j H; [done|]. cbn [find_nul] in H.
  destruct j as [|j]; [destruct (decide (n < 0)%nat); (done || lia)|].
  cbn [take find_nul].
  destruct (byte.unsigned b =? 0); [simplify_eq; by rewrite decide_True by lia|].
  destruct (find_nul l) as [n'|]; simplify_eq/=. rewrite (IH _ j eq_refl).
  destruct (decide (n' < j)%nat), (decide (S n' < S j)%nat); (done || lia).
Qed.

Lemma find_nul_drop l n j :
  find_nul l = Some n -> (j <= n)%nat -> find_nul (drop j l) = Some (n - j)%nat.
Proof.
  revert n j. induction l as [|b l IH]; intros n j H Hj; simpl in *; [done|].
  destruct j as [|j]; simpl; [rewrite Nat.sub_0_r; done|].
  destruct (byte.unsigned b =? 0); [simplify_eq; lia|].
  destruct (find_nul l) as [n'|]; simplify_eq/=. apply IH; [done | lia].
Qed.

(** One iteration on a readable word. *)
Lemma lread_nul_loop_step fuel k pid addr buf d cnt len e ws :
  stopped k pid -> 0 < len -> length ws = Z.to_nat (sizeof_long c) ->
  read_mem (tmem k pid) (to_ulong c (align_addr c addr)) (Z.to_nat (sizeof_long c)) = Some ws ->
  (d + Z.to_nat len <= length buf)%nat ->
  let part := drop (Z.to_nat (addr_residue c addr)) ws in
  let buf' := splice buf d (take (Z.to_nat (chunk addr len)) part) in
  lread_nul_loop c (S fuel) pid addr buf d (addr_residue c addr) cnt len (CState k e) =
  match find_nul part with
  | Some i => Ret (Z.of_nat d + addr_residue c addr + Z.of_nat i, buf') (CState k 0)
  | None =>
      lread_nul_loop c fuel pid (next_addr addr) buf' (d + Z.to_nat (chunk addr len)) 0
        (to_uint (cnt + chunk addr len)) (len - chunk addr len) (CState k 0)
  end.
Proof.
  intros Hs Hlen Hws Hm Hb. pose proof (addr_residue_range c addr).
  pose proof (chunk_pos addr len Hlen).
  cbn [lread_nul_loop]. rewrite (proj2 (Z.eqb_neq len 0)) by lia.
  rewrite (cbind_run _ _ _ _ _ (read_word_ok c k pid e _ ws Hs Hm)).
  simpl. rewrite cbind_cret. fold (chunk addr len). rewrite word_bytes_word by done.
  erewrite cbind_checked by (apply slice_ok; unfold chunk; lia).
  erewrite cbind_checked by (apply memcpy_to_ok; rewrite length_take, length_drop; lia).
  unfold word_nul. destruct (find_nul _) as [i|]; simpl; [|done].
  unfold cret. do 2 f_equal. lia.
Qed.

(** What is stored from [d] on after copying [n] bytes of a readable range. *)
Definition stored_at (buf' buf : list byte) (d n : nat) (bs : list byte) : Prop :=
  length buf' = length buf /\ take d buf' = take d buf /\
  take (length bs) (drop d buf') = bs /\ drop (d + n) buf' = drop (d + n) buf.

Lemma stored_at_splice buf d n bs piece :
  (d + n <= length buf)%nat -> (length piece <= n)%nat -> bs = take (length bs) piece ->
  stored_at (splice buf d piece) buf d n bs.
Proof.
  intros Hb Hp Hbs. unfold stored_at, splice. split_and!.
  - apply (length_splice buf d piece). lia.
  - apply take_app_length'. rewrite length_take. lia.
  - rewrite drop_app_length' by (rewrite length_take; lia).
    rewrite take_app_le; [done|]. rewrite Hbs, length_take. lia.
  - rewrite app_assoc, drop_app_ge by (rewrite length_app, length_take; lia).
    rewrite drop_drop. f_equal. rewrite length_app, length_take. lia.
Qed.

Lemma stored_at_trans buf d n piece buf' bs :
  (d + n <= length buf)%nat -> (length piece <= n)%nat ->
  stored_at buf' (splice buf d piece) (d + length piece) (n - length piece) bs ->
  stored_at buf' buf d n (piece ++ bs).
Proof.
  intros Hb Hp (Hl & Ht & Hd & He). rewrite length_splice in Hl by lia.
  destruct (stored_at_splice buf d n piece piece Hb Hp) as (_ & Ht0 & Hd0 & He0).
  { by rewrite take_ge. }
  assert (Hpre : take (length piece) (drop d buf') = piece).
  { transitivity (take (length piece) (drop d (splice buf d piece))); [|exact Hd0].
    by rewrite !take_drop_commute, Ht. }
  split_and!.
  - done.
  - by rewrite <- Ht0, <- (take_take_le d (d + length piece)), Ht, take_take_le by lia.
  - rewrite length_app. rewrite <- (take_drop (length piece) (drop d buf')).
    rewrite Hpre, take_app_add, drop_drop. by rewrite Hd.
  - by replace (d + length piece + (n - length piece))%nat with (d + n)%nat in He by lia;
      rewrite He.
Qed.

(** How far off the returned length is: the offset of the start in its word,
    when the terminating byte lies in that first word. *)
Definition nul_skew (addr : Z) (n : nat) : Z :=
  if decide (addr_residue c addr + Z.of_nat n < sizeof_long c)
  then addr_residue c addr else 0.

(** A string that ends in the word of its address: one iteration. *)
Lemma lread_nul_first fuel k pid addr buf d cnt len e bs n :
  stopped k pid -> Z.of_nat n < len -> (d + Z.to_nat len <= length buf)%nat ->
  read_mem (tmem k pid) (to_ulong c addr) (S n) = Some bs -> find_nul bs = Some n ->
  addr_residue c addr + Z.of_nat n < sizeof_long c ->
  exists buf', lread_nul_loop c (S fuel) pid addr buf d (addr_residue c addr) cnt len (CState k e)
    = Ret (Z.of_nat d + Z.of_nat n + addr_residue c addr, buf') (CState k 0) /\
    stored_at buf' buf d (Z.to_nat len) bs.
Proof.
  intros Hs Hf Hb Hm Hn Hin. pose proof (length_read_mem _ _ _ _ Hm) as Hlbs.
  destruct (word_at k pid addr) as (ws & Hl & Hw & Hpart).
  { eapply read_mem_first; [|exact Hm]; lia. }
  rewrite (lread_nul_loop_step _ _ _ _ _ _ _ _ _ ws) by (done || lia).
  pose proof (piece_at k pid addr len ws ltac:(lia) Hpart) as Hpiece.
  set (part := drop (Z.to_nat (addr_residue c addr)) ws) in *. cbn zeta.
  pose proof (length_read_mem _ _ _ _ Hpiece) as Hlpiece.
  pose proof (chunk_pos addr len ltac:(lia)) as Hcp.
  assert (Hbs : bs = take (S n) part).
  { pose proof (read_mem_sub _ _ _ 0 (S n) _ Hpart ltac:(lia)) as Hsub.
    rewrite Z.add_0_r, drop_0, Hm in Hsub. by injection Hsub. }
  assert (Hfp : find_nul part = Some n).
  { rewrite <- (take_drop (S n) part). apply find_nul_app_l. by rewrite <- Hbs. }
  rewrite Hfp. exists (splice buf d (take (Z.to_nat (chunk addr len)) part)).
  split; [do 2 f_equal; lia|].
  apply stored_at_splice; [done | lia |].
  rewrite Hlbs, take_take_le; [done|]. unfold chunk. lia.
Qed.

(** A string that goes on behind the word of its address: what is left of the word is
    part of the string, and the rest of the string is at the next word. *)
Lemma lread_nul_word k pid addr bs n :
  read_mem (tmem k pid) (to_ulong c addr) (S n) = Some bs -> find_nul bs = Some n ->
  sizeof_long c <= addr_residue c addr + Z.of_nat n ->
  let m := Z.to_nat (sizeof_long c - addr_residue c addr) in
  exists ws, length ws = Z.to_nat (sizeof_long c) /\
    read_mem (tmem k pid) (to_ulong c (align_addr c addr)) (Z.to_nat (sizeof_long c)) = Some ws /\
    drop (Z.to_nat (addr_residue c addr)) ws = take m bs /\ find_nul (take m bs) = None /\
    read_mem (tmem k pid) (to_ulong c (next_addr addr)) (S (n - m)) = Some (drop m bs) /\
    find_nul (drop m bs) = Some (n - m)%nat.
Proof.
  intros Hm Hn Hin m. pose proof (addr_residue_range c addr) as Hr.
  destruct (word_at k pid addr) as (ws & Hl & Hw & Hpart).
  { eapply read_mem_first; [|exact Hm]; lia. }
  exists ws. fold m in Hpart. set (part := drop (Z.to_nat (addr_residue c addr)) ws) in *.
  replace (S n) with (m + S (n - m))%nat in Hm by lia.
  apply read_mem_split in Hm as [Hm1 Hm2]. rewrite Hpart in Hm1. injection Hm1 as Hp.
  assert (Hck : chunk addr (Z.of_nat n + 1) = Z.of_nat m) by (unfold chunk, m; lia).
  assert (Hn1 : to_ulong c (next_addr addr) = to_ulong c addr + Z.of_nat m).
  { rewrite <- Hck. apply (to_ulong_next_addr k pid); [lia|]. rewrite Hck.
    eapply read_mem_first; [|exact Hm2]; lia. }
  split_and!; [done | done | done | | by rewrite Hn1 | apply find_nul_drop; [done | lia]].
  rewrite (find_nul_take _ _ _ Hn). by rewrite decide_False by lia.
Qed.

Lemma lread_nul_loop_ok fuel : forall k pid addr buf d r cnt len e bs n,
  r = addr_residue c addr -> stopped k pid -> Z.of_nat n < len < Z.of_nat fuel ->
  (d + Z.to_nat len <= length buf)%nat ->
  read_mem (tmem k pid) (to_ulong c addr) (S n) = Some bs -> find_nul bs = Some n ->
  exists buf', lread_nul_loop c fuel pid addr buf d r cnt len (CState k e)
    = Ret (Z.of_nat d + Z.of_nat n + nul_skew addr n, buf') (CState k 0) /\
    stored_at buf' buf d (Z.to_nat len) bs.
Proof.
  induction fuel as [|fuel IH];
    intros k pid addr buf d ? cnt len e bs n -> Hs Hf Hb Hm Hn; [lia|].
  pose proof (addr_residue_range c addr) as Hr. unfold nul_skew at 1. case_decide as Hin.
  { apply lread_nul_first; (done || lia). }
  pose proof (length_read_mem _ _ _ _ Hm) as Hlbs.
  destruct (lread_nul_word k pid addr bs n Hm Hn ltac:(lia)) as (ws & Hl & Hw & Hpart & Hno & Hm2 & Hn2).
  rewrite (lread_nul_loop_step _ _ _ _ _ _ _ _ _ ws) by (done || lia). cbn zeta.
  assert (Hck : chunk addr len = sizeof_long c - addr_residue c addr) by (unfold chunk; lia).
  rewrite Hpart, Hno, Hck. set (m := Z.to_nat (sizeof_long c - addr_residue c addr)) in *.
  rewrite (take_ge (take m bs)) by (rewrite length_take; lia).
  destruct (IH k pid (next_addr addr) (splice buf d (take m bs)) (d + m)%nat 0
    (to_uint (cnt + (sizeof_long c - addr_residue c addr)))
    (len - (sizeof_long c - addr_residue c addr)) 0 (drop m bs) (n - m)%nat)
    as (buf' & Hrun & Hst); [symmetry; apply addr_residue_next | done | lia | | done | done |].
  - rewrite length_splice by (rewrite length_take; lia). lia.
  - exists buf'. split.
    + rewrite Hrun. f_equal. f_equal. unfold nul_skew, next_addr.
      rewrite addr_residue_next. case_decide; lia.
    + rewrite <- (take_drop m bs). apply stored_at_trans; [lia | rewrite length_take; lia|].
      rewrite length_take. replace (m `min` length bs)%nat with m by lia.
      by replace (Z.to_nat len - m)%nat
        with (Z.to_nat (len - (sizeof_long c - addr_residue c addr))) by lia.
Qed.

Lemma lread_nul_run k e pid addr dest len bs n :
  stopped k pid -> Z.of_nat n < len -> (Z.to_nat len <= length dest)%nat ->
  read_mem (tmem k pid) (to_ulong c addr) (S n) = Some bs -> find_nul bs = Some n ->
  exists dest', pink_vm_lread_nul c pid addr dest len (CState k e)
    = Ret (Z.of_nat n + nul_skew addr n, dest') (CState k 0) /\
    length dest' = length dest /\ take (S n) dest' = bs /\
    drop (Z.to_nat len) dest' = drop (Z.to_nat len) dest.
Proof.
  intros Hs Hl Hd Hm Hn. unfold pink_vm_lread_nul.
  destruct (lread_nul_loop_ok (S (Z.to_nat len)) k pid addr dest 0 (addr_residue c addr) 0
    len e bs n) as (dest' & Hrun & H1 & _ & H2 & H3); [done | done | lia | lia | done | done |].
  exists dest'. rewrite Hrun. split_and!; try done.
  by rewrite <- (length_read_mem _ _ _ _ Hm).
Qed.

(** A string that fills the range, with its terminator right behind it: the terminator is
    found in the last word that is read, or not looked for. *)
Lemma lread_nul_exact_first fuel k pid addr buf d cnt e bs n :
  stopped k pid -> (0 < n)%nat -> (d + n <= length buf)%nat ->
  read_mem (tmem k pid) (to_ulong c addr) (S n) = Some bs -> find_nul bs = Some n ->
  addr_residue c addr + Z.of_nat n < sizeof_long c ->
  exists buf', lread_nul_loop c (S fuel) pid addr buf d (addr_residue c addr) cnt (Z.of_nat n) (CState k e)
    = Ret (Z.of_nat d + Z.of_nat n + addr_residue c addr, buf') (CState k 0) /\
    stored_at buf' buf d n (take n bs).
Proof.
  intros Hs H0 Hb Hm Hn Hin. pose proof (length_read_mem _ _ _ _ Hm) as Hlbs.
  pose proof (addr_residue_range c addr) as Hr.
  destruct (word_at k pid addr) as (ws & Hl & Hw & Hpart).
  { eapply read_mem_first; [|exact Hm]; lia. }
  rewrite (lread_nul_loop_step _ _ _ _ _ _ _ _ _ ws) by (done || lia).
  set (part := drop (Z.to_nat (addr_residue c addr)) ws) in *. cbn zeta.
  pose proof (length_read_mem _ _ _ _ Hpart) as Hlp.
  assert (Hbs : bs = take (S n) part).
  { pose proof (read_mem_sub _ _ _ 0 (S n) _ Hpart ltac:(lia)) as Hsub.
    rewrite Z.add_0_r, drop_0, Hm in Hsub. by injection Hsub. }
  assert (Hfp : find_nul part = Some n).
  { rewrite <- (take_drop (S n) part). apply find_nul_app_l. by rewrite <- Hbs. }
  assert (Hck : Z.to_nat (chunk addr (Z.of_nat n)) = n) by (unfold chunk; lia).
  rewrite Hfp, Hck. eexists. split; [do 2 f_equal; lia|].
  apply stored_at_splice; [done | rewrite length_take; lia |].
  rewrite Hbs, take_take_le, length_take, take_take_le by lia. f_equal. lia.
Qed.

Lemma lread_nul_loop_exact fuel : forall k pid addr buf d r cnt e bs n,
  r = addr_residue c addr -> stopped k pid -> (n < fuel)%nat -> (0 < n)%nat \/ r = 0 ->
  cnt = Z.of_nat d -> Z.of_nat (d + n) < 2 ^ 31 -> (d + n <= length buf)%nat ->
  read_mem (tmem k pid) (to_ulong c addr) (S n) = Some bs -> find_nul bs = Some n ->
  exists buf' e', lread_nul_loop c fuel pid addr buf d r cnt (Z.of_nat n) (CState k e)
    = Ret (Z.of_nat d + Z.of_nat n + nul_skew addr n, buf') (CState k e') /\
    stored_at buf' buf d n (take n bs).
Proof.
  induction fuel as [|fuel IH];
    intros k pid addr buf d ? cnt e bs n -> Hs Hf H0 -> H31 Hb Hm Hn; [lia|].
  pose proof (addr_residue_range c addr) as Hr. pose proof (length_read_mem _ _ _ _ Hm) as Hlbs.
  destruct (decide (n = 0%nat)) as [->|Hne].
  { destruct H0 as [|H0]; [lia|]. exists buf, e. cbn [lread_nul_loop]. change (Z.of_nat 0 =? 0) with true.
    unfold cret, nul_skew. rewrite H0. split; [|by unfold stored_at; rewrite take_0].
    assert (2 ^ 31 <= 2 ^ (bits_long c - 1))
      by (apply Z.pow_le_mono_r; [lia|]; unfold bits_long; destruct (sizeof_long_cases c); lia).
    pose proof (bits_long_pos c). unfold to_long. rewrite wraps_small by lia.
    case_decide; do 2 f_equal; lia. }
  unfold nul_skew at 1. case_decide as Hin.
  { destruct (lread_nul_exact_first fuel k pid addr buf d (Z.of_nat d) e bs n) as (buf' & H); [done | lia | done..|].
    by exists buf', 0. }
  destruct (lread_nul_word k pid addr bs n Hm Hn ltac:(lia)) as (ws & Hl & Hw & Hpart & Hno & Hm2 & Hn2).
  rewrite (lread_nul_loop_step _ _ _ _ _ _ _ _ _ ws) by (done || lia). cbn zeta.
  assert (Hck : chunk addr (Z.of_nat n) = sizeof_long c - addr_residue c addr) by (unfold chunk; lia).
  rewrite Hpart, Hno, Hck. set (m := Z.to_nat (sizeof_long c - addr_residue c addr)) in *.
  rewrite (take_ge (take m bs)) by (rewrite length_take; lia).
  replace (Z.of_nat n - (sizeof_long c - addr_residue c addr)) with (Z.of_nat (n - m)) by lia.
  assert (Hcnt : to_uint (Z.of_nat d + (sizeof_long c - addr_residue c addr)) = Z.of_nat (d + m))
    by (unfold to_uint; rewrite wrapu_small; lia).
  rewrite Hcnt.
  destruct (IH k pid (next_addr addr) (splice buf d (take m bs)) (d + m)%nat 0 (Z.of_nat (d + m)) 0
    (drop m bs) (n - m)%nat) as (buf' & e' & Hrun & Hst);
    [symmetry; apply addr_residue_next | done | lia | by right | done | lia | | done | done |].
  - rewrite length_splice by (rewrite length_take; lia). lia.
  - exists buf', e'. split.
    + rewrite Hrun. f_equal. f_equal. unfold nul_skew, next_addr.
      rewrite addr_residue_next. case_decide; lia.
    + rewrite <- (take_drop m (take n bs)), take_take_le, skipn_firstn_comm by lia.
      apply stored_at_trans; [lia | rewrite length_take; lia|].
      rewrite length_take. by replace (m `min` length bs)%nat with m by lia.
Qed.

(** [pink_vm_lread_nul] on such a string: its length. *)
Lemma lread_nul_exact_run k e pid addr dest bs n :
  stopped k pid -> (0 < n)%nat -> Z.of_nat n < 2 ^ 31 -> (n <= length dest)%nat ->
  read_mem (tmem k pid) (to_ulong c addr) (S n) = Some bs -> find_nul bs = Some n ->
  exists dest' e', pink_vm_lread_nul c pid addr dest (Z.of_nat n) (CState k e)
    = Ret (Z.of_nat n + nul_skew addr n, dest') (CState k e') /\
    length dest' = length dest /\ take n dest' = take n bs.
Proof.
  intros Hs H0 H31 Hd Hm Hn. unfold pink_vm_lread_nul.
  destruct (lread_nul_loop_exact (S (Z.to_nat (Z.of_nat n))) k pid addr dest 0 (addr_residue c addr) 0 e bs n)
    as (dest' & e' & Hrun & H1 & _ & H2 & _); [done | done | lia | by left | done | lia | lia | done | done |].
  exists dest', e'. rewrite Hrun. split_and!; [done | done |].
  rewrite length_take, drop_0 in H2. pose proof (length_read_mem _ _ _ _ Hm).
  by replace (n `min` length bs)%nat with n in H2 by lia.
Qed.

(** C38. [pink_vm_lread_nul] on a string that ends within [len] bytes: it stores
    the string with its terminating byte, nothing beyond [len] bytes, and
    returns the string's length without the terminating byte -- exactly so when
    the address is aligned or the string reaches the next word; otherwise the
    result is too large by the offset of the address in its word. *)
Theorem pink_vm_lread_nul_string k e pid addr dest len bs n :
  stopped k pid -> Z.of_nat n < len -> (Z.to_nat len <= length dest)%nat ->
  read_mem (tmem k pid) (to_ulong c addr) (S n) = Some bs -> find_nul bs = Some n ->
  exists dest', pink_vm_lread_nul c pid addr dest len (CState k e)
    = Ret (Z.of_nat n + nul_skew addr n, dest') (CState k 0) /\
    length dest' = length dest /\ take (S n) dest' = bs /\
    drop (Z.to_nat len) dest' = drop (Z.to_nat len) dest.
Proof. apply lread_nul_run. Qed.

(** [pink_vm_lread_nul] may claim more bytes than it was allowed: on an
    aligned address and a length shorter than a word, a zero byte found in the
    word behind the requested bytes makes it return that byte's index, which is
    [len] or more, although only [len] bytes are stored. *)
Theorem pink_vm_lread_nul_overshoot k e pid addr dest len ws i :
  stopped k pid -> addr_residue c addr = 0 -> 0 < len < sizeof_long c ->
  (Z.to_nat len <= length dest)%nat ->
  read_mem (tmem k pid) (to_ulong c addr) (Z.to_nat (sizeof_long c)) = Some ws ->
  find_nul ws = Some i -> len <= Z.of_nat i ->
  pink_vm_lread_nul c pid addr dest len (CState k e)
    = Ret (Z.of_nat i, take (Z.to_nat len) ws ++ drop (Z.to_nat len) dest) (CState k 0).
Proof.
  intros Hs Hr Hl Hd Hm Hn Hi. unfold pink_vm_lread_nul.
  assert (Ha : to_ulong c (align_addr c addr) = to_ulong c addr)
    by (rewrite to_ulong_align; lia).
  pose proof (length_read_mem _ _ _ _ Hm) as Hlw.
  rewrite (lread_nul_loop_step _ k pid addr dest 0 0 len e ws)
    by (done || lia || by rewrite Ha).
  unfold chunk. rewrite Hr, drop_0, Hn, Z.sub_0_r, Z.min_r by lia.
  do 2 f_equal. unfold splice. simpl. rewrite length_take. do 2 f_equal. lia.
Qed.

End LRead.

(** ** Witnesses: a tracee that holds "trace", a zero byte and "pink" *)

Definition trace_pink : list byte :=
  [Byte.x74; Byte.x72; Byte.x61; Byte.x63; Byte.x65; Byte.x00;
   Byte.x70; Byte.x69; Byte.x6e; Byte.x6b; Byte.x00].

Section Witnesses.
Import Sim.X86.

Lemma pink_vm_lread_correct_witness :
  pink_vm_lread x86_64_linux 7 0x1003 (replicate 12 Byte.xff) 11
    (CState (sim_at 7 0x1003 trace_pink) 9)
  = Ret (11, trace_pink ++ [Byte.xff]) (CState (sim_at 7 0x1003 trace_pink) 0).
Proof.
  apply (pink_vm_lread_correct x86_64_linux (sim_at 7 0x1003 trace_pink) 9 7 0x1003
    (replicate 12 Byte.xff) 11 trace_pink); [done | lia | simpl; lia | by vm_compute].
Defined.

Lemma pink_vm_lread_faults_witness :
  exists dest', pink_vm_lread x86_64_linux 7 0x1ffe (replicate 12 Byte.xff) 4
      (CState (sim_at 7 0x1ffe [Byte.x01; Byte.x02]) 0)
    = Ret (-1, dest') (CState (sim_at 7 0x1ffe [Byte.x01; Byte.x02]) EFAULT) /\
    length dest' = 12%nat /\ drop 4 dest' = replicate 8 Byte.xff.
Proof.
  apply (pink_vm_lread_faults x86_64_linux (sim_at 7 0x1ffe [Byte.x01; Byte.x02]) 0 7 0x1ffe
    (replicate 12 Byte.xff) 4); [done | lia | simpl; lia | by vm_compute | by vm_compute].
Defined.

Lemma pink_vm_lread_nul_string_witness :
  exists dest', pink_vm_lread_nul x86_64_linux 7 0x1001 (replicate 12 Byte.xff) 11
      (CState (sim_at 7 0x1001 trace_pink) 0)
    = Ret (5 + 1, dest') (CState (sim_at 7 0x1001 trace_pink) 0) /\
    length dest' = 12%nat /\ take 6 dest' = take 6 trace_pink /\ drop 11 dest' = [Byte.xff].
Proof.
  apply (pink_vm_lread_nul_string x86_64_linux (sim_at 7 0x1001 trace_pink) 0 7 0x1001
    (replicate 12 Byte.xff) 11 (take 6 trace_pink) 5);
    [done | lia | simpl; lia | by vm_compute | by vm_compute].
Defined.

Lemma pink_vm_lread_nul_overshoot_witness :
  pink_vm_lread_nul x86_64_linux 7 0x1000 (replicate 3 Byte.xff) 3
    (CState (sim_at 7 0x1000 trace_pink) 0)
  = Ret (5, [Byte.x74; Byte.x72; Byte.x61]) (CState (sim_at 7 0x1000 trace_pink) 0).
Proof.
  apply (pink_vm_lread_nul_overshoot x86_64_linux (sim_at 7 0x1000 trace_pink) 0 7 0x1000
    (replicate 3 Byte.xff) 3 (take 8 trace_pink) 5);
    [done | by vm_compute | unfold sizeof_long; simpl; lia | simpl; lia
    | by vm_compute | by vm_compute | lia].
Defined.

End Witnesses.
