(* ===== verification/VmWrite.v ===== *)
(** * Properties of the word-at-a-time writer of vm.c *)

From Stdlib Require Import ZArith Lia.
From stdpp Require Import base list numbers gmap.
From coqutil Require Import Byte.
From S2P Require Import Prelude Config Kernel Sim Trace Vm.
Local Open Scope Z_scope.

Lemma write_mem_ext m m' a bs x :
  (forall y, m y = m' y) -> write_mem m a bs x = write_mem m' a bs x.
Proof. intros H. unfold write_mem. by rewrite H. Qed.

Section LWrite.
Context {K : Type} `{!KernelOps K} `{!TraceeView K} (c : config).
Context `{!PtraceErrno K} `{!PtraceMem c K}.

(** The word an iteration stores: the piece of [src], and what the union held. *)
Definition padded (indet : Z -> list byte) (a : Z) (piece : list byte) : list byte :=
  piece ++ drop (length piece) (resize (Z.to_nat (sizeof_long c)) Byte.x00 (indet a)).

Lemma length_padded indet a piece :
  (length piece <= Z.to_nat (sizeof_long c))%nat ->
  length (padded indet a piece) = Z.to_nat (sizeof_long c).
Proof. intros. unfold padded. rewrite length_app, length_drop, length_resize. lia. Qed.

(** One iteration at an aligned, writable address. *)
Lemma lwrite_loop_step fuel indet k pid addr src p cnt len e :
  addr_residue c addr = 0 -> stopped k pid -> 0 < len ->
  (p + Z.to_nat len <= length src)%nat -> is_Some (wmem k pid (to_ulong c addr)) ->
  let m := Z.min (sizeof_long c) len in
  exists k', lwrite_loop c (S fuel) indet pid addr src p 0 cnt len (CState k e) =
    lwrite_loop c fuel indet pid (to_long c (align_addr c addr + sizeof_long c)) src
      (p + Z.to_nat m) 0 (to_uint (cnt + m)) (len - m) (CState k' 0) /\
    stopped k' pid /\
    (forall x, tmem k' pid x =
       write_mem (tmem k pid) (to_ulong c addr)
         (padded indet (align_addr c addr) (take (Z.to_nat m) (drop p src))) x) /\
    (forall x, writable k' pid x = writable k pid x).
Proof.
  intros Hr Hs Hl Hsrc Hmap m. pose proof (sizeof_long_pos c).
  assert (Ha : to_ulong c (align_addr c addr) = to_ulong c addr)
    by (rewrite to_ulong_align; lia).
  set (piece := take (Z.to_nat m) (drop p src)).
  assert (Hlp : length piece = Z.to_nat m) by (unfold piece; rewrite length_take, length_drop; lia).
  pose proof (length_padded indet (align_addr c addr) piece ltac:(lia)) as Hlen.
  destruct (write_word_ok c k pid e (align_addr c addr)
    (bytes_word c (padded indet (align_addr c addr) piece)) Hs) as (k' & Hrun & Hs' & Hw & Hwr).
  { rewrite Ha. apply (word_writable c k pid _ 0); [|lia|by rewrite Z.add_0_r].
    rewrite <- (aligned_align c addr). f_equal. lia. }
  exists k'. rewrite Ha, word_bytes_word in Hw by done. split; [|done].
  cbn [lwrite_loop]. rewrite (proj2 (Z.eqb_neq len 0)), Z.sub_0_r by lia. fold m.
  rewrite Z2Nat.inj_0, Nat.add_0_r.
  erewrite cbind_checked by (apply slice_ok; lia). fold piece.
  erewrite cbind_checked by (apply memcpy_to_ok; rewrite length_resize; lia).
  change (splice ?u 0 piece) with (piece ++ drop (length piece) u).
  fold (padded indet (align_addr c addr) piece).
  by rewrite (cbind_run _ _ _ _ _ Hrun).
Qed.

(** The last word. *)
Lemma lwrite_loop_last fuel indet k pid addr src p cnt len e :
  addr_residue c addr = 0 -> stopped k pid -> 0 < len <= sizeof_long c -> (0 < fuel)%nat ->
  0 <= cnt -> cnt + len < 2 ^ 32 -> (p + Z.to_nat len <= length src)%nat ->
  is_Some (wmem k pid (to_ulong c addr)) ->
  exists k' pad,
    lwrite_loop c (S fuel) indet pid addr src p 0 cnt len (CState k e)
      = Ret (to_long c (cnt + len)) (CState k' 0) /\
    stopped k' pid /\ Z.of_nat (length pad) = (- len) mod sizeof_long c /\
    (forall x, tmem k' pid x =
       write_mem (tmem k pid) (to_ulong c addr) (take (Z.to_nat len) (drop p src) ++ pad) x) /\
    (forall x, writable k' pid x = writable k pid x).
Proof.
  intros Hr Hs Hl Hf Hc Hov Hsrc Hm.
  destruct (lwrite_loop_step fuel indet k pid addr src p cnt len e) as (k1 & Hrun & Hs1 & Hw1 & Hwr1);
    [done | done | lia | done | done |].
  rewrite Hrun, Z.min_r, Z.sub_diag in * by lia. destruct fuel; [lia|].
  set (piece := take (Z.to_nat len) (drop p src)) in *.
  assert (Hlp : length piece = Z.to_nat len) by (unfold piece; rewrite length_take, length_drop; lia).
  assert (Huint : to_uint (cnt + len) = cnt + len) by (apply wrapu_small; lia). rewrite Huint.
  exists k1, (drop (length piece) (resize (Z.to_nat (sizeof_long c)) Byte.x00 (indet (align_addr c addr)))).
  split_and!; [done | done | | exact Hw1 | exact Hwr1].
  rewrite length_drop, length_resize, Hlp. apply (Z.mod_unique _ _ (-1)); lia.
Qed.

Lemma lwrite_loop_aligned fuel : forall indet k pid addr src p cnt len e,
  addr_residue c addr = 0 -> stopped k pid -> 0 <= len < Z.of_nat fuel ->
  0 <= cnt -> cnt + len < 2 ^ 32 -> (p + Z.to_nat len <= length src)%nat ->
  is_Some (read_mem (wmem k pid) (to_ulong c addr) (Z.to_nat len)) ->
  exists k' pad,
    lwrite_loop c fuel indet pid addr src p 0 cnt len (CState k e)
      = Ret (to_long c (cnt + len)) (CState k' (if len =? 0 then e else 0)) /\
    stopped k' pid /\ Z.of_nat (length pad) = (- len) mod sizeof_long c /\
    (forall x, tmem k' pid x =
       write_mem (tmem k pid) (to_ulong c addr) (take (Z.to_nat len) (drop p src) ++ pad) x) /\
    (forall x, writable k' pid x = writable k pid x).
Proof.
  induction fuel as [|fuel IH];
    intros indet k pid addr src p cnt len e Hr Hs Hf Hc Hov Hsrc Hm; [lia|].
  pose proof (sizeof_long_pos c) as HW.
  destruct (decide (len = 0)) as [->|Hne].
  { exists k, []. rewrite Z.add_0_r. split_and!; [done | done | by rewrite Z.mod_0_l by lia | | done].
    intros x. rewrite write_mem_out; [done | simpl; lia]. }
  rewrite (proj2 (Z.eqb_neq len 0)) by done.
  assert (Hfirst : is_Some (wmem k pid (to_ulong c addr)))
    by (destruct Hm as [? Hm]; eapply read_mem_first; [|exact Hm]; lia).
  destruct (decide (len <= sizeof_long c)) as [Hlast|Hmore];
    [by apply lwrite_loop_last; (done || lia)|].
  destruct (lwrite_loop_step fuel indet k pid addr src p cnt len e) as (k1 & Hrun & Hs1 & Hw1 & Hwr1);
    [done | done | lia | done | done |].
  rewrite Hrun. set (m := Z.min (sizeof_long c) len) in *.
  set (piece := take (Z.to_nat m) (drop p src)) in *.
  assert (Hlp : length piece = Z.to_nat m) by (unfold piece; rewrite length_take, length_drop; lia).
  assert (Huint : to_uint (cnt + m) = cnt + m) by (apply wrapu_small; lia). rewrite Huint.
  assert (m = sizeof_long c) as Hml by lia.
  replace (Z.to_nat len) with (Z.to_nat m + Z.to_nat (len - m))%nat in Hm by lia.
  destruct Hm as [bs Hm]. apply read_mem_split in Hm as [_ Hm2].
  rewrite Z2Nat.id in Hm2 by lia.
  assert (Hn : to_ulong c (to_long c (align_addr c addr + sizeof_long c)) = to_ulong c addr + m).
  { assert (is_Some (tmem k pid (to_ulong c addr + m))) as Hnext
        by (eapply wmem_tmem, read_mem_first; [|exact Hm2]; lia).
    pose proof (tmem_range k pid _ Hnext). rewrite to_ulong_next by lia. lia. }
  assert (Hpad : padded indet (align_addr c addr) piece = piece).
  { unfold padded. rewrite drop_ge by (rewrite length_resize; lia). apply app_nil_r. }
  rewrite Hpad in Hw1.
  destruct (IH indet k1 pid (to_long c (align_addr c addr + sizeof_long c)) src
    (p + Z.to_nat m)%nat (cnt + m) (len - m) 0) as (k' & pad & Hrun2 & Hs2 & Hlpad & Hw2 & Hwr2);
    [apply addr_residue_next | done | lia | lia | lia | lia | |].
  { rewrite Hn. apply read_mem_is_Some. intros i Hi. apply (wmem_written k k1 pid _ _ _ Hw1 Hwr1).
    eapply read_mem_is_Some; [by eexists | exact Hi]. }
  exists k', pad. rewrite Hrun2, (proj2 (Z.eqb_neq (len - m) 0)) by lia.
  replace (cnt + m + (len - m)) with (cnt + len) by lia.
  split_and!; [done | done | | | intros x; by rewrite Hwr2].
  - rewrite Hlpad. replace (- (len - m)) with (- len + 1 * sizeof_long c) by lia.
    apply Z.mod_add. lia.
  - intros x. rewrite Hw2, Hn. rewrite (write_mem_ext _ _ _ _ _ Hw1).
    replace (to_ulong c addr + m) with (to_ulong c addr + Z.of_nat (length piece)) by lia.
    rewrite write_mem_app. f_equal.
    rewrite app_assoc. f_equal. unfold piece. rewrite <- drop_drop.
    replace (Z.to_nat len) with (Z.to_nat m + Z.to_nat (len - m))%nat by lia.
    apply take_take_drop.
Qed.

Lemma lwrite_aligned_run indet k e pid addr src len :
  stopped k pid -> addr_residue c addr = 0 -> 0 <= len < 2 ^ 31 ->
  (Z.to_nat len <= length src)%nat ->
  is_Some (read_mem (wmem k pid) (to_ulong c addr) (Z.to_nat len)) ->
  exists k' pad,
    pink_vm_lwrite c indet pid addr src len (CState k e)
      = Ret len (CState k' (if len =? 0 then e else 0)) /\
    stopped k' pid /\ Z.of_nat (length pad) = (- len) mod sizeof_long c /\
    (forall x, tmem k' pid x =
       write_mem (tmem k pid) (to_ulong c addr) (take (Z.to_nat len) src ++ pad) x) /\
    (forall x, writable k' pid x = writable k pid x).
Proof.
  intros Hs Hr Hl Hsrc Hm. unfold pink_vm_lwrite. rewrite Hr.
  destruct (lwrite_loop_aligned (S (Z.to_nat len)) indet k pid addr src 0 0 len e)
    as (k' & pad & Hrun & Hs' & Hp & Hw); [done | done | lia | lia | lia | lia | done |].
  exists k', pad. rewrite Hrun, Z.add_0_l, to_long_small by lia. done.
Qed.

(** [pink_vm_lwrite] at an aligned address of a writable range returns [len] and stores the first
    [len] bytes of [src] there; the rest of the last word is overwritten with
    whatever the local union held, so the write is exact when [len] is a multiple
    of the word size. *)
Theorem pink_vm_lwrite_aligned indet k e pid addr src len :
  stopped k pid -> addr_residue c addr = 0 -> 0 <= len < 2 ^ 31 ->
  (Z.to_nat len <= length src)%nat ->
  is_Some (read_mem (wmem k pid) (to_ulong c addr) (Z.to_nat len)) ->
  exists k' pad,
    pink_vm_lwrite c indet pid addr src len (CState k e)
      = Ret len (CState k' (if len =? 0 then e else 0)) /\
    stopped k' pid /\ Z.of_nat (length pad) = (- len) mod sizeof_long c /\
    (forall x, tmem k' pid x =
       write_mem (tmem k pid) (to_ulong c addr) (take (Z.to_nat len) src ++ pad) x) /\
    (forall x, writable k' pid x = writable k pid x).
Proof. apply lwrite_aligned_run. Qed.

(** [pink_vm_lwrite] at an unaligned address, with fewer bytes than a word,
    reads past the end of its source: it skips the address's offset in the
    source buffer instead of in the word, which is undefined behaviour for a
    source of exactly [len] bytes. *)
Theorem pink_vm_lwrite_unaligned indet (s : cstate K) pid addr src len :
  0 < addr_residue c addr -> 0 < len < sizeof_long c -> length src = Z.to_nat len ->
  pink_vm_lwrite c indet pid addr src len s = Undef.
Proof.
  intros Hr Hl Hsrc. pose proof (addr_residue_range c addr). unfold pink_vm_lwrite.
  cbn [lwrite_loop]. rewrite (proj2 (Z.eqb_neq len 0)) by lia.
  rewrite slice_out by lia. apply cbind_unchecked.
Qed.

(** [pink_vm_lwrite] on an address that is not mapped sets [errno] to EFAULT,
    and returns -1 where [long] has 32 bits; where it has 64, the -1 is converted
    to [unsigned int] first and the caller gets 4294967295, a success. *)
Theorem pink_vm_lwrite_fault_result indet k e pid addr src len :
  stopped k pid -> addr_residue c addr = 0 -> 0 < len ->
  (Z.to_nat len <= length src)%nat -> tmem k pid (to_ulong c addr) = None ->
  pink_vm_lwrite c indet pid addr src len (CState k e)
    = Ret (match model c with LP64 => 4294967295 | ILP32 => -1 end) (CState k EFAULT).
Proof.
  intros Hs Hr Hl Hsrc Hm. pose proof (sizeof_long_pos c). unfold pink_vm_lwrite. rewrite Hr.
  cbn [lwrite_loop]. rewrite (proj2 (Z.eqb_neq len 0)) by lia.
  erewrite cbind_checked by (apply slice_ok; lia).
  erewrite cbind_checked
    by (apply memcpy_to_ok; rewrite length_resize, length_take, length_drop; lia).
  assert (Ha : to_ulong c (align_addr c addr) = to_ulong c addr)
    by (rewrite to_ulong_align; lia).
  assert (Hf : read_mem (tmem k pid) (to_ulong c (align_addr c addr)) (Z.to_nat (sizeof_long c)) = None).
  { rewrite Ha. apply (word_unreadable c _ _ _ 0); [lia|]. by rewrite Z.add_0_r. }
  rewrite (cbind_run _ _ _ _ _ (write_word_fault c k pid e _ _ Hs Hf)).
  simpl. unfold set_errno, cret, cbind. simpl. unfold to_long, bits_long, sizeof_long.
  by destruct (model c).
Qed.

End LWrite.

Section Witnesses.
Import Sim.X86.

Lemma pink_vm_lwrite_aligned_witness :
  exists k' (pad : list byte),
    pink_vm_lwrite x86_64_linux (fun _ => replicate 8 Byte.xee) 7 0x1000
      [Byte.x01; Byte.x02; Byte.x03; Byte.x04; Byte.x05] 5 (CState (sim_at 7 0x1000 []) 0)
    = Ret 5 (CState k' 0) /\ Z.of_nat (length pad) = 3 /\
    tmem k' 7 0x1004 = Some Byte.x05.
Proof.
  destruct (pink_vm_lwrite_aligned x86_64_linux (fun _ => replicate 8 Byte.xee)
    (sim_at 7 0x1000 []) 0 7 0x1000 [Byte.x01; Byte.x02; Byte.x03; Byte.x04; Byte.x05] 5)
    as (k' & pad & Hrun & _ & Hp & Hw & _);
    [done | by vm_compute | lia | simpl; lia | by eexists |].
  exists k', pad. split_and!; [exact Hrun | exact Hp |].
  rewrite Hw. exact (write_mem_in (tmem (sim_at 7 0x1000 []) 7) 0x1000
    ([Byte.x01; Byte.x02; Byte.x03; Byte.x04; Byte.x05] ++ pad) 4 ltac:(simpl; lia)).
Defined.

Lemma pink_vm_lwrite_unaligned_witness :
  pink_vm_lwrite x86_64_linux (fun _ => []) 7 0x1001 [Byte.x01; Byte.x02] 2
    (CState (sim_at 7 0x1000 []) 0) = Undef.
Proof.
  apply (pink_vm_lwrite_unaligned x86_64_linux (fun _ => [])
    (CState (sim_at 7 0x1000 []) 0) 7 0x1001 [Byte.x01; Byte.x02] 2);
    [by vm_compute | by vm_compute | done].
Defined.

Lemma pink_vm_lwrite_fault_result_witness :
  pink_vm_lwrite x86_64_linux (fun _ => []) 7 0x8000 [Byte.x01] 1
    (CState (sim_at 7 0x1000 []) 0)
  = Ret 4294967295 (CState (sim_at 7 0x1000 []) EFAULT).
Proof.
  apply (pink_vm_lwrite_fault_result x86_64_linux (fun _ => []) (sim_at 7 0x1000 []) 0 7 0x8000
    [Byte.x01] 1); [done | by vm_compute | lia | simpl; lia | by vm_compute].
Defined.

End Witnesses.
