(* ===== verification/VmCross.v ===== *)
(** * Properties of the cross-memory-attach transfers of vm.c *)

From Stdlib Require Import ZArith Lia.
From stdpp Require Import base list numbers gmap.
From coqutil Require Import Byte.
From S2P Require Import Prelude Config Kernel Sim Trace Vm VmRead.
Local Open Scope Z_scope.

(** The address an ABI of [wsize]-byte words can mean. *)
Definition abi_addr (c : config) (wsize addr : Z) : Z := to_ulong c addr mod 2 ^ (8 * wsize).

Lemma setup_addr_run c abi addr :
  model c = LP64 -> 1 < PINK_ABIS_SUPPORTED c -> 0 <= abi < PINK_ABIS_SUPPORTED c ->
  exists wsize addr', pink_abi_wordsize c abi = Some wsize /\
    setup_addr c abi addr = Some addr' /\ to_ulong c addr' = abi_addr c wsize addr.
Proof.
  intros Hm Hn Ha. unfold setup_addr, abi_addr.
  assert (Hs : sizeof_long c = 8) by (unfold sizeof_long; by rewrite Hm).
  rewrite (proj2 (Z.ltb_lt 1 _) Hn), Hs. simpl.
  destruct (pink_abi_wordsize_defined c abi Ha) as [Hw|Hw]; rewrite Hw; simpl;
    do 2 eexists; (split_and!; [done | done |]).
  - rewrite to_ulong_long. change (8 * 4) with 32.
    change (Z.shiftl 1 32 - 1) with (2 ^ 32 - 1).
    rewrite land_low by lia. apply to_ulong_small.
    pose proof (Z.mod_pos_bound (to_ulong c addr) (2 ^ 32) ltac:(lia)).
    unfold bits_long. rewrite Hs. change (2 ^ (8 * 8)) with (2 ^ 32 * 2 ^ 32). lia.
  - pose proof (to_ulong_range c addr) as Hr. unfold bits_long in Hr. rewrite Hs in Hr.
    by rewrite Z.mod_small.
Qed.

(** [setup_addr] truncates: on a 64-bit build with several ABIs, for every
    ABI of the build it keeps the low 32 bits of the address for an ABI of 4-byte
    words, so a sign-extended pointer is turned back into the pointer, and keeps
    the address for an ABI of 8-byte words. *)
Theorem setup_addr_truncates c abi addr :
  model c = LP64 -> 1 < PINK_ABIS_SUPPORTED c -> 0 <= abi < PINK_ABIS_SUPPORTED c ->
  exists wsize addr', pink_abi_wordsize c abi = Some wsize /\
    setup_addr c abi addr = Some addr' /\ to_ulong c addr' = abi_addr c wsize addr.
Proof. apply setup_addr_run. Qed.

Lemma setup_addr_truncates_witness :
  exists wsize addr', pink_abi_wordsize x86_64_linux PINK_ABI_I386 = Some wsize /\
    setup_addr x86_64_linux PINK_ABI_I386 (-4096) = Some addr' /\
    to_ulong x86_64_linux addr' = abi_addr x86_64_linux wsize (-4096).
Proof.
  apply (setup_addr_truncates x86_64_linux PINK_ABI_I386 (-4096)); by vm_compute.
Defined.

Section Cross.
Context {K : Type} `{!KernelOps K} `{!TraceeView K} `{!ProcessVm K} (c : config).

Lemma process_vm_readv_run k e pid a len v eo bs k' :
  sys_process_vm_readv pid a len k = (SysRet v eo, bs, k') ->
  process_vm_readv pid a len (CState k e) = Ret (v, bs) (CState k' (default e eo)).
Proof. intros H. unfold process_vm_readv. simpl. by rewrite H. Qed.

Lemma cread_run k e pid abi addr addr' dest len :
  PINK_HAVE_PROCESS_VM_READV c = true -> setup_addr c abi addr = Some addr' ->
  stopped k pid -> 0 <= len -> (Z.to_nat len <= length dest)%nat ->
  pink_vm_cread c pid abi addr dest len (CState k e) =
  match read_mem (tmem k pid) (to_ulong c addr') (Z.to_nat len) with
  | Some bs => Ret (len, bs ++ drop (Z.to_nat len) dest) (CState k e)
  | None => Ret (-1, dest) (CState k EFAULT)
  end.
Proof.
  intros Hh Ha Hs Hl Hd. unfold pink_vm_cread, pink_process_vm_readv. rewrite Hh.
  rewrite (cbind_checked _ _ _ _ Ha).
  destruct (read_mem _ _ _) as [bs|] eqn:Hm.
  - pose proof (length_read_mem _ _ _ _ Hm) as Hlb.
    rewrite (cbind_run _ _ _ _ _ (process_vm_readv_run _ e _ _ _ _ _ _ _ (readv_ok _ _ _ _ _ Hs Hl Hm))).
    erewrite cbind_checked by (apply memcpy_to_ok; lia).
    unfold cret, splice. simpl. by rewrite Hlb.
  - rewrite (cbind_run _ _ _ _ _ (process_vm_readv_run _ e _ _ _ _ _ _ _ (readv_fault _ _ _ _ Hs Hl Hm))).
    erewrite cbind_checked by (apply memcpy_to_ok; simpl; lia). by rewrite splice_nil.
Qed.

(** The addresses whose first chunk ends inside the range of [long], where the
    sum of [cread_chunk] is defined. *)
Definition chunk_fits (addr len : Z) : Prop :=
  - 2 ^ (bits_long c - 1) <= addr /\ addr + Z.min len 256 < 2 ^ (bits_long c - 1).

Lemma chunk_fits_le addr len len' :
  chunk_fits addr len -> len' <= len -> chunk_fits addr len'.
Proof. unfold chunk_fits. lia. Qed.

Lemma cread_chunk_min len :
  0 < len < 2 ^ 31 ->
  (if 256 <? to_int len then 256 else to_int len) = Z.min len 256.
Proof.
  intros Hl. assert (to_int len = len) as -> by (apply wraps_small; simpl; lia).
  destruct (Z.ltb_spec 256 len); lia.
Qed.

(** The chunk of an iteration is positive and within the request. *)
Lemma cread_chunk_range addr len :
  chunk_fits addr len -> 0 < len < 2 ^ 31 ->
  exists m, cread_chunk c addr len = Some m /\ 0 < m <= len /\ m <= 256.
Proof.
  intros [Hf1 Hf2] Hl. unfold cread_chunk. rewrite cread_chunk_min by done.
  set (n := Z.min len 256) in *. assert (Hn : 0 < n <= len /\ n <= 256) by lia.
  rewrite long_value_ok by lia. cbn [mbind option_bind].
  change 4095 with (2 ^ 12 - 1). rewrite land_low by lia.
  pose proof (Z.mod_pos_bound (addr + n) (2 ^ 12) ltac:(lia)).
  rewrite int_value_ok by (simpl in *; lia). cbn [mbind option_bind].
  eexists. split; [done|]. case_match; lia.
Qed.

(** Everywhere else the sum overflows. *)
Lemma cread_chunk_overflow addr len :
  0 < len < 2 ^ 31 -> - 2 ^ (bits_long c - 1) <= addr -> ~ chunk_fits addr len ->
  cread_chunk c addr len = None.
Proof.
  intros Hl Ha Hn. unfold cread_chunk, chunk_fits in *. rewrite cread_chunk_min by done.
  rewrite long_value_none by lia. done.
Qed.

Definition nul_count (bs : list byte) : Z :=
  match find_nul bs with
  | Some n => Z.of_nat n + 1
  | None => Z.of_nat (length bs)
  end.

(** One iteration on a readable range. *)
Lemma cread_nul_loop_step fuel k e pid addr remote buf base cnt len m bs :
  PINK_HAVE_PROCESS_VM_READV c = true -> stopped k pid -> 0 < len < 2 ^ 31 ->
  (base + Z.to_nat len <= length buf)%nat ->
  read_mem (tmem k pid) remote (Z.to_nat len) = Some bs ->
  cread_chunk c addr len = Some m -> 0 < m <= len -> m <= 256 ->
  let piece := take (Z.to_nat m) bs in
  cread_nul_loop c (S fuel) pid addr remote buf base cnt len (CState k e) =
  match find_nul piece with
  | Some i => Ret (cnt + Z.of_nat i + 1, splice buf base piece) (CState k e)
  | None =>
      cread_nul_loop c fuel pid addr (to_ulong c (remote + m)) (splice buf base piece)
        (base + Z.to_nat m) (cnt + m) (to_ulong c (len - m)) (CState k e)
  end.
Proof.
  intros Hh Hs Hl Hb Hm Hc Hc1 Hc2 piece.
  cbn [cread_nul_loop]. rewrite (proj2 (Z.eqb_neq len 0)) by lia.
  rewrite (cbind_checked _ _ _ _ Hc). unfold pink_process_vm_readv. rewrite Hh.
  assert (Hu : to_ulong c m = m).
  { apply to_ulong_small. unfold bits_long. destruct (sizeof_long_cases c) as [-> | ->]; simpl; lia. }
  assert (Hpm : read_mem (tmem k pid) remote (Z.to_nat m) = Some piece).
  { replace (Z.to_nat len) with (Z.to_nat m + Z.to_nat (len - m))%nat in Hm by lia.
    by apply read_mem_split in Hm as [Hm _]. }
  pose proof (length_read_mem _ _ _ _ Hpm) as Hlp.
  assert (Hm0 : 0 <= m) by lia.
  rewrite Hu. rewrite (cbind_run _ _ _ _ _ (process_vm_readv_run _ e _ _ _ _ _ _ _
    (readv_ok _ _ _ _ _ Hs Hm0 Hpm))).
  cbn beta iota. erewrite cbind_checked by (apply memcpy_to_ok; lia).
  assert (to_int m = m) as -> by (apply wraps_small; simpl; lia).
  rewrite (proj2 (Z.ltb_ge m 0)) by lia.
  erewrite cbind_checked by (apply slice_ok; rewrite length_splice; lia).
  unfold splice at 1. rewrite drop_app_length' by (rewrite length_take; lia).
  rewrite take_app_length' by done. by destruct (find_nul piece).
Qed.

Lemma find_nul_app_None l1 l2 :
  find_nul l1 = None -> find_nul (l1 ++ l2) = (Nat.add (length l1)) <$> find_nul l2.
Proof.
  induction l1 as [|b l1 IH]; simpl; [by destruct (find_nul l2)|].
  destruct (byte.unsigned b =? 0); [done|]. intros H.
  destruct (find_nul l1) eqn:E; [done|]. rewrite IH by done. by destruct (find_nul l2).
Qed.

Lemma nul_count_app_None l1 l2 :
  find_nul l1 = None -> nul_count (l1 ++ l2) = Z.of_nat (length l1) + nul_count l2.
Proof.
  intros H. unfold nul_count. rewrite find_nul_app_None by done.
  destruct (find_nul l2); simpl; [lia | rewrite length_app; lia].
Qed.

Lemma nul_count_app_Some l1 l2 i :
  find_nul l1 = Some i -> nul_count (l1 ++ l2) = Z.of_nat i + 1.
Proof. intros H. unfold nul_count. by rewrite (find_nul_app_l _ _ _ H). Qed.

Lemma cread_nul_loop_ok fuel : forall k e pid addr remote buf base cnt len bs,
  PINK_HAVE_PROCESS_VM_READV c = true -> stopped k pid ->
  0 <= len < Z.of_nat fuel -> len < 2 ^ 31 -> chunk_fits addr len ->
  0 <= remote -> remote + len <= 2 ^ bits_long c ->
  (base + Z.to_nat len <= length buf)%nat ->
  read_mem (tmem k pid) remote (Z.to_nat len) = Some bs ->
  exists buf', cread_nul_loop c fuel pid addr remote buf base cnt len (CState k e)
    = Ret (cnt + nul_count bs, buf') (CState k e) /\
    stored_at buf' buf base (Z.to_nat len) (take (Z.to_nat (nul_count bs)) bs).
Proof.
  induction fuel as [|fuel IH];
    intros k e pid addr remote buf base cnt len bs Hh Hs Hf Hl Hcf Hr Hend Hb Hm; [lia|].
  pose proof (length_read_mem _ _ _ _ Hm) as Hlb.
  destruct (decide (len = 0)) as [->|Hne].
  { simpl in Hm. simplify_eq. exists buf. unfold nul_count. simpl. rewrite Z.add_0_r.
    split; [done|]. rewrite <- (splice_nil buf base) at 1. apply stored_at_splice; simpl; (done || lia). }
  destruct (cread_chunk_range addr len Hcf ltac:(lia)) as (m & Hc & Hc1 & Hc2).
  rewrite (cread_nul_loop_step _ _ _ _ _ _ _ _ _ _ m bs) by (done || lia). cbn zeta.
  set (piece := take (Z.to_nat m) bs).
  assert (Hlp : length piece = Z.to_nat m) by (unfold piece; rewrite length_take; lia).
  assert (Hbs : bs = piece ++ drop (Z.to_nat m) bs) by (symmetry; apply take_drop).
  destruct (find_nul piece) as [i|] eqn:Hfn.
  - pose proof (find_nul_lt _ _ Hfn). exists (splice buf base piece).
    rewrite Hbs, (nul_count_app_Some _ _ _ Hfn). split; [do 2 f_equal; lia|].
    replace (Z.to_nat (Z.of_nat i + 1)) with (S i) by lia. rewrite take_app_le by lia.
    apply stored_at_splice; [done | lia |]. rewrite length_take. f_equal. lia.
  - replace (Z.to_nat len) with (Z.to_nat m + Z.to_nat (len - m))%nat in Hm by lia.
    apply read_mem_split in Hm as [_ Hm2]. rewrite Z2Nat.id in Hm2 by lia.
    assert (Hul : to_ulong c (len - m) = len - m).
    { apply to_ulong_small. unfold bits_long. destruct (sizeof_long_cases c) as [-> | ->]; simpl; lia. }
    rewrite Hul.
    destruct (decide (m = len)) as [Hml|Hml].
    + rewrite Hml, Z.sub_diag in Hm2 |- *. simpl in Hm2. injection Hm2 as Hm2.
      rewrite Hml, <- Hm2 in Hbs. rewrite app_nil_r in Hbs. destruct fuel; [lia|].
      exists (splice buf base piece). unfold nul_count. rewrite Hbs, Hfn.
      split; [cbn; unfold cret; do 2 f_equal; lia|].
      apply stored_at_splice; [done | lia |]. rewrite length_take. rewrite !take_ge; (done || lia).
    + assert (Hur : to_ulong c (remote + m) = remote + m) by (apply to_ulong_small; lia).
      rewrite Hur.
      destruct (IH k e pid addr (remote + m) (splice buf base piece) (base + Z.to_nat m)%nat
        (cnt + m) (len - m) (drop (Z.to_nat m) bs)) as (buf' & Hrun & Hst);
        [done | done | lia | lia | by apply (chunk_fits_le _ len); [|lia] | lia | lia
        | rewrite length_splice; lia | done |].
      set (rest := drop (Z.to_nat m) bs) in *.
      assert (0 <= nul_count rest) by (unfold nul_count; case_match; lia).
      assert (Hnc : nul_count bs = m + nul_count rest).
      { rewrite Hbs, (nul_count_app_None _ _ Hfn), Hlp. lia. }
      assert (Htk : take (Z.to_nat (nul_count bs)) bs = piece ++ take (Z.to_nat (nul_count rest)) rest).
      { rewrite Hnc, Hbs, Z2Nat.inj_add, <- Hlp by lia. apply take_app_add. }
      exists buf'. rewrite Hrun, Htk, Hnc. split; [do 2 f_equal; lia|].
      apply stored_at_trans; [done | lia |]. rewrite Hlp.
      by replace (Z.to_nat len - Z.to_nat m)%nat with (Z.to_nat (len - m)) by lia.
Qed.

Lemma cread_nul_run k e pid abi addr addr' dest len bs fuel :
  PINK_HAVE_PROCESS_VM_READV c = true -> setup_addr c abi addr = Some addr' ->
  stopped k pid -> 0 <= len < 2 ^ 31 -> (Z.to_nat len < fuel)%nat ->
  chunk_fits addr' len ->
  to_ulong c addr' + len <= 2 ^ bits_long c -> (Z.to_nat len <= length dest)%nat ->
  read_mem (tmem k pid) (to_ulong c addr') (Z.to_nat len) = Some bs ->
  exists dest', pink_vm_cread_nul c fuel pid abi addr dest len (CState k e)
    = Ret (nul_count bs, dest') (CState k e) /\
    take (Z.to_nat (nul_count bs)) dest' = take (Z.to_nat (nul_count bs)) bs /\
    length dest' = length dest /\ drop (Z.to_nat len) dest' = drop (Z.to_nat len) dest.
Proof.
  intros Hh Ha Hs Hl Hf Hcf Hend Hd Hm. unfold pink_vm_cread_nul.
  rewrite (cbind_checked _ _ _ _ Ha).
  pose proof (length_read_mem _ _ _ _ Hm) as Hlb.
  destruct (cread_nul_loop_ok fuel k e pid addr' (to_ulong c addr') dest 0 0 len bs)
    as (dest' & Hrun & H1 & _ & H2 & H3);
    [done | done | lia | lia | done | apply to_ulong_range | done | lia | done |].
  exists dest'. rewrite Hrun. split_and!; try done.
  assert (Z.to_nat (nul_count bs) <= length bs)%nat.
  { unfold nul_count. destruct (find_nul bs) eqn:E; [apply find_nul_lt in E|]; lia. }
  rewrite length_take in H2. rewrite drop_0 in H2.
  by replace (Z.to_nat (nul_count bs) `min` length bs)%nat
    with (Z.to_nat (nul_count bs)) in H2 by lia.
Qed.

(** C17. [pink_vm_cread_nul] on a range that is mapped as a whole, and whose first
    chunk does not end past the largest [long], terminates, in at most [len]
    iterations, and returns the length of the string up to and
    including its zero byte, or [len] when there is none; the destination holds
    these bytes, and is untouched beyond [len]. *)
Theorem pink_vm_cread_nul_string k e pid abi addr addr' dest len bs fuel :
  PINK_HAVE_PROCESS_VM_READV c = true -> setup_addr c abi addr = Some addr' ->
  stopped k pid -> 0 <= len < 2 ^ 31 -> (Z.to_nat len < fuel)%nat ->
  chunk_fits addr' len ->
  to_ulong c addr' + len <= 2 ^ bits_long c -> (Z.to_nat len <= length dest)%nat ->
  read_mem (tmem k pid) (to_ulong c addr') (Z.to_nat len) = Some bs ->
  exists dest', pink_vm_cread_nul c fuel pid abi addr dest len (CState k e)
    = Ret (nul_count bs, dest') (CState k e) /\
    take (Z.to_nat (nul_count bs)) dest' = take (Z.to_nat (nul_count bs)) bs /\
    length dest' = length dest /\ drop (Z.to_nat len) dest' = drop (Z.to_nat len) dest.
Proof. apply cread_nul_run. Qed.

End Cross.

(** ** The page guard

    A page of 0xff bytes from 0x1001 on, with a zero byte at 0x1ffa, and no page
    behind it. *)
Definition page_string : list byte := replicate 4089 Byte.xff ++ [Byte.x00].
Definition page_sim : sim := sim_at 7 0x1001 page_string.

Definition result {S A B} (r : res S (A * B)) : option A :=
  match r with Ret (a, _) _ => Some a | _ => None end.

(** The guard that keeps a chunk of [pink_vm_cread_nul] inside a page uses the
    address of the call, not the address of the chunk: the string at 0x1001 ends
    at index 4089, inside its page, but the 16th chunk crosses into the unmapped
    page, so the function returns 3840, a prefix without the terminating byte --
    while the word-at-a-time reader finds the end. *)
Theorem pink_vm_cread_nul_misses_end :
  read_mem (@tmem sim (sim_view x86_64_linux) page_sim 7) 0x1001 4090 = Some page_string /\
  find_nul page_string = Some 4089%nat /\
  result (@pink_vm_cread_nul sim (sim_ops x86_64_linux true) x86_64_linux 100 7
    PINK_ABI_X86_64 0x1001 (replicate 8192 Byte.x00) 8192 (CState page_sim 0)) = Some 3840 /\
  result (@pink_vm_lread_nul sim (sim_ops x86_64_linux true) x86_64_linux 7
    0x1001 (replicate 8192 Byte.x00) 8192 (CState page_sim 0)) = Some 4089.
Proof. split_and!; vm_compute; reflexivity. Qed.

Section Witnesses.
Import Sim.X86Vm.

Lemma pink_vm_cread_nul_string_witness :
  exists dest', pink_vm_cread_nul x86_64_linux 12 7 PINK_ABI_X86_64 0x1003
      (replicate 12 Byte.xff) 11 (CState (sim_at 7 0x1003 trace_pink) 0)
    = Ret (6, dest') (CState (sim_at 7 0x1003 trace_pink) 0) /\
    take 6 dest' = take 6 trace_pink /\ length dest' = 12%nat /\ drop 11 dest' = [Byte.xff].
Proof.
  apply (pink_vm_cread_nul_string x86_64_linux (sim_at 7 0x1003 trace_pink) 0 7
    PINK_ABI_X86_64 0x1003 0x1003 (replicate 12 Byte.xff) 11 trace_pink 12);
    [done | by vm_compute | done | lia | lia | by vm_compute | by vm_compute | simpl; lia
    | by vm_compute].
Defined.

End Witnesses.
