(* ===== verification/TablesX86.v ===== *)
(** * linux/x86_64, linux/i386 and linux/x32: the system call names

    The tables as the sources list them, one entry per initializer; adjacent
    string literals without a comma between them are one initializer, as in C. *)

From Stdlib Require Import String.
From stdpp Require Import base list strings.
Local Open Scope string_scope.
Local Open Scope list_scope.

(** x86_64/syscallent.h, entries 0 to 139. *)
Definition x86_64_syscallent_0 : list (option string) := [
  Some "read"; Some "write"; Some "open"; Some "close"; Some "stat"; Some "fstat";
  Some "lstat"; Some "poll"; Some "lseek"; Some "mmap"; Some "mprotect"; Some "munmap";
  Some "brk"; Some "rt_sigaction"; Some "rt_sigprocmask"; Some "rt_sigreturn"; Some "ioctl";
  Some "pread"; Some "pwrite"; Some "readv"; Some "writev"; Some "access"; Some "pipe";
  Some "select"; Some "sched_yield"; Some "mremap"; Some "msync"; Some "mincore";
  Some "madvise"; Some "shmget"; Some "shmat"; Some "shmctl"; Some "dup"; Some "dup2";
  Some "pause"; Some "nanosleep"; Some "getitimer"; Some "alarm"; Some "setitimer";
  Some "getpid"; Some "sendfile"; Some "socket"; Some "connect"; Some "accept";
  Some "sendto"; Some "recvfrom"; Some "sendmsg"; Some "recvmsg"; Some "shutdown";
  Some "bind"; Some "listen"; Some "getsockname"; Some "getpeername"; Some "socketpair";
  Some "setsockopt"; Some "getsockopt"; Some "clone"; Some "fork"; Some "vfork";
  Some "execve"; Some "_exit"; Some "wait4"; Some "kill"; Some "uname"; Some "semget";
  Some "semop"; Some "semctl"; Some "shmdt"; Some "msgget"; Some "msgsnd"; Some "msgrcv";
  Some "msgctl"; Some "fcntl"; Some "flock"; Some "fsync"; Some "fdatasync"; Some "truncate";
  Some "ftruncate"; Some "getdents"; Some "getcwd"; Some "chdir"; Some "fchdir";
  Some "rename"; Some "mkdir"; Some "rmdir"; Some "creat"; Some "link"; Some "unlink";
  Some "symlink"; Some "readlink"; Some "chmod"; Some "fchmod"; Some "chown"; Some "fchown";
  Some "lchown"; Some "umask"; Some "gettimeofday"; Some "getrlimit"; Some "getrusage";
  Some "sysinfo"; Some "times"; Some "ptrace"; Some "getuid"; Some "syslog"; Some "getgid";
  Some "setuid"; Some "setgid"; Some "geteuid"; Some "getegid"; Some "setpgid";
  Some "getppid"; Some "getpgrp"; Some "setsid"; Some "setreuid"; Some "setregid";
  Some "getgroups"; Some "setgroups"; Some "setresuid"; Some "getresuid"; Some "setresgid";
  Some "getresgid"; Some "getpgid"; Some "setfsuid"; Some "setfsgid"; Some "getsid";
  Some "capget"; Some "capset"; Some "rt_sigpending"; Some "rt_sigtimedwait";
  Some "rt_sigqueueinfo"; Some "rt_sigsuspend"; Some "sigaltstack"; Some "utime";
  Some "mknod"; Some "uselib"; Some "personality"; Some "ustat"; Some "statfs";
  Some "fstatfs"; Some "sysfs"
].

(** x86_64/syscallent.h, entries 140 to 279. *)
Definition x86_64_syscallent_1 : list (option string) := [
  Some "getpriority"; Some "setpriority"; Some "sched_setparam"; Some "sched_getparam";
  Some "sched_setscheduler"; Some "sched_getscheduler"; Some "sched_get_priority_max";
  Some "sched_get_priority_min"; Some "sched_rr_get_interval"; Some "mlock"; Some "munlock";
  Some "mlockall"; Some "munlockall"; Some "vhangup"; Some "modify_ldt"; Some "pivot_root";
  Some "_sysctl"; Some "prctl"; Some "arch_prctl"; Some "adjtimex"; Some "setrlimit";
  Some "chroot"; Some "sync"; Some "acct"; Some "settimeofday"; Some "mount"; Some "umount";
  Some "swapon"; Some "swapoff"; Some "reboot"; Some "sethostname"; Some "setdomainname";
  Some "iopl"; Some "ioperm"; Some "create_module"; Some "init_module"; Some "delete_module";
  Some "get_kernel_syms"; Some "query_module"; Some "quotactl"; Some "nfsservctl";
  Some "getpmsg"; Some "putpmsg"; Some "afs_syscall"; Some "tuxcall"; Some "security";
  Some "gettid"; Some "readahead"; Some "setxattr"; Some "lsetxattr"; Some "fsetxattr";
  Some "getxattr"; Some "lgetxattr"; Some "fgetxattr"; Some "listxattr"; Some "llistxattr";
  Some "flistxattr"; Some "removexattr"; Some "lremovexattr"; Some "fremovexattr";
  Some "tkill"; Some "time"; Some "futex"; Some "sched_setaffinity";
  Some "sched_getaffinity"; Some "set_thread_area"; Some "io_setup"; Some "io_destroy";
  Some "io_getevents"; Some "io_submit"; Some "io_cancel"; Some "get_thread_area";
  Some "lookup_dcookie"; Some "epoll_create"; Some "epoll_ctl_old"; Some "epoll_wait_old";
  Some "remap_file_pages"; Some "getdents64"; Some "set_tid_address"; Some "restart_syscall";
  Some "semtimedop"; Some "fadvise64"; Some "timer_create"; Some "timer_settime";
  Some "timer_gettime"; Some "timer_getoverrun"; Some "timer_delete"; Some "clock_settime";
  Some "clock_gettime"; Some "clock_getres"; Some "clock_nanosleep"; Some "exit_group";
  Some "epoll_wait"; Some "epoll_ctl"; Some "tgkill"; Some "utimes"; Some "vserver";
  Some "mbind"; Some "set_mempolicy"; Some "get_mempolicy"; Some "mq_open"; Some "mq_unlink";
  Some "mq_timedsend"; Some "mq_timedreceive"; Some "mq_notify"; Some "mq_getsetattr";
  Some "kexec_load"; Some "waitid"; Some "add_key"; Some "request_key"; Some "keyctl";
  Some "ioprio_set"; Some "ioprio_get"; Some "inotify_init"; Some "inotify_add_watch";
  Some "inotify_rm_watch"; Some "migrate_pages"; Some "openat"; Some "mkdirat";
  Some "mknodat"; Some "fchownat"; Some "futimesat"; Some "newfstatat"; Some "unlinkat";
  Some "renameat"; Some "linkat"; Some "symlinkat"; Some "readlinkat"; Some "fchmodat";
  Some "faccessat"; Some "pselect6"; Some "ppoll"; Some "unshare"; Some "set_robust_list";
  Some "get_robust_list"; Some "splice"; Some "tee"; Some "sync_file_range"; Some "vmsplice";
  Some "move_pages"
].

(** x86_64/syscallent.h, entries 280 to 418. *)
Definition x86_64_syscallent_2 : list (option string) := [
  Some "utimensat"; Some "epoll_pwait"; Some "signalfd"; Some "timerfd_create";
  Some "eventfd"; Some "fallocate"; Some "timerfd_settime"; Some "timerfd_gettime";
  Some "accept4"; Some "signalfd4"; Some "eventfd2"; Some "epoll_create1"; Some "dup3";
  Some "pipe2"; Some "inotify_init1"; Some "preadv"; Some "pwritev";
  Some "rt_tgsigqueueinfo"; Some "perf_event_open"; Some "recvmmsg"; Some "fanotify_init";
  Some "fanotify_mark"; Some "prlimit64"; Some "name_to_handle_at"; Some "open_by_handle_at";
  Some "clock_adjtime"; Some "syncfs"; Some "sendmmsg"; Some "setns"; Some "getcpu";
  Some "process_vm_readv"; Some "process_vm_writev"; Some "kcmp"; Some "finit_module";
  Some "sched_setattr"; Some "sched_getattr"; Some "renameat2"; Some "seccomp";
  Some "getrandom"; Some "memfd_create"; Some "kexec_file_load"; Some "bpf"; Some "execveat";
  Some "userfaultfd"; Some "membarrier"; Some "mlock2"; Some "copy_file_range";
  Some "preadv2"; Some "pwritev2"; Some "pkey_mprotect"; Some "pkey_alloc"; Some "pkey_free";
  Some "statx"; Some "io_pgetevents"; Some "rseq"; None; None; None; None; None; None; None;
  None; None; None; None; None; None; None; None; None; None; None; None; None; None; None;
  None; None; None; None; None; None; None; None; None; None; None; None; None; None; None;
  None; None; None; None; None; None; None; None; None; None; None; None; None; None; None;
  None; None; None; None; None; None; None; None; None; None; None; None; None; None; None;
  None; None; None; None; None; None; None; None; None; None; None; None; None; None; None;
  None; None
].

(** x86_64/syscallent.h, entries 419 to 441. *)
Definition x86_64_syscallent_3 : list (option string) := [
  None; None; None; None; None; Some "pidfd_send_signal"; Some "io_uring_setup";
  Some "io_uring_enter"; Some "io_uring_register"; Some "open_tree"; Some "move_mount";
  Some "fsopen"; Some "fsconfig"; Some "fsmount"; Some "fspick"; Some "pidfd_open";
  Some "clone3"; Some "close_range"; Some "openat2"; Some "pidfd_getfd"; Some "faccessat2";
  Some "process_madvise"; Some "epoll_pwait2"
].

Definition x86_64_syscallent : list (option string) :=
  x86_64_syscallent_0 ++ x86_64_syscallent_1 ++ x86_64_syscallent_2 ++ x86_64_syscallent_3.

(** i386/syscallent.h, entries 0 to 139. *)
Definition i386_syscallent_0 : list (option string) := [
  Some "restart_syscall"; Some "_exit"; Some "fork"; Some "read"; Some "write"; Some "open";
  Some "close"; Some "waitpid"; Some "creat"; Some "link"; Some "unlink"; Some "execve";
  Some "chdir"; Some "time"; Some "mknod"; Some "chmod"; Some "lchown"; Some "break";
  Some "oldstat"; Some "lseek"; Some "getpid"; Some "mount"; Some "oldumount"; Some "setuid";
  Some "getuid"; Some "stime"; Some "ptrace"; Some "alarm"; Some "oldfstat"; Some "pause";
  Some "utime"; Some "stty"; Some "gtty"; Some "access"; Some "nice"; Some "ftime";
  Some "sync"; Some "kill"; Some "rename"; Some "mkdir"; Some "rmdir"; Some "dup";
  Some "pipe"; Some "times"; Some "prof"; Some "brk"; Some "setgid"; Some "getgid";
  Some "signal"; Some "geteuid"; Some "getegid"; Some "acct"; Some "umount"; Some "lock";
  Some "ioctl"; Some "fcntl"; Some "mpx"; Some "setpgid"; Some "ulimit"; Some "oldolduname";
  Some "umask"; Some "chroot"; Some "ustat"; Some "dup2"; Some "getppid"; Some "getpgrp";
  Some "setsid"; Some "sigaction"; Some "siggetmask"; Some "sigsetmask"; Some "setreuid";
  Some "setregid"; Some "sigsuspend"; Some "sigpending"; Some "sethostname";
  Some "setrlimit"; Some "old_getrlimit"; Some "getrusage"; Some "gettimeofday";
  Some "settimeofday"; Some "getgroups"; Some "setgroups"; Some "oldselect"; Some "symlink";
  Some "oldlstat"; Some "readlink"; Some "uselib"; Some "swapon"; Some "reboot";
  Some "readdir"; Some "old_mmap"; Some "munmap"; Some "truncate"; Some "ftruncate";
  Some "fchmod"; Some "fchown"; Some "getpriority"; Some "setpriority"; Some "profil";
  Some "statfs"; Some "fstatfs"; Some "ioperm"; Some "socketcall"; Some "syslog";
  Some "setitimer"; Some "getitimer"; Some "stat"; Some "lstat"; Some "fstat";
  Some "olduname"; Some "iopl"; Some "vhangup"; Some "idle"; Some "vm86old"; Some "wait4";
  Some "swapoff"; Some "sysinfo"; Some "ipc"; Some "fsync"; Some "sigreturn"; Some "clone";
  Some "setdomainname"; Some "uname"; Some "modify_ldt"; Some "adjtimex"; Some "mprotect";
  Some "sigprocmask"; Some "create_module"; Some "init_module"; Some "delete_module";
  Some "get_kernel_syms"; Some "quotactl"; Some "getpgid"; Some "fchdir"; Some "bdflush";
  Some "sysfs"; Some "personality"; Some "afs_syscall"; Some "setfsuid"; Some "setfsgid"
].

(** i386/syscallent.h, entries 140 to 279. *)
Definition i386_syscallent_1 : list (option string) := [
  Some "_llseek"; Some "getdents"; Some "select"; Some "flock"; Some "msync"; Some "readv";
  Some "writev"; Some "getsid"; Some "fdatasync"; Some "_sysctl"; Some "mlock";
  Some "munlock"; Some "mlockall"; Some "munlockall"; Some "sched_setparam";
  Some "sched_getparam"; Some "sched_setscheduler"; Some "sched_getscheduler";
  Some "sched_yield"; Some "sched_get_priority_max"; Some "sched_get_priority_min";
  Some "sched_rr_get_interval"; Some "nanosleep"; Some "mremap"; Some "setresuid";
  Some "getresuid"; Some "vm86"; Some "query_module"; Some "poll"; Some "nfsservctl";
  Some "setresgid"; Some "getresgid"; Some "prctl"; Some "rt_sigreturn"; Some "rt_sigaction";
  Some "rt_sigprocmask"; Some "rt_sigpending"; Some "rt_sigtimedwait";
  Some "rt_sigqueueinfo"; Some "rt_sigsuspend"; Some "pread64"; Some "pwrite64";
  Some "chown"; Some "getcwd"; Some "capget"; Some "capset"; Some "sigaltstack";
  Some "sendfile"; Some "getpmsg"; Some "putpmsg"; Some "vfork"; Some "getrlimit";
  Some "mmap2"; Some "truncate64"; Some "ftruncate64"; Some "stat64"; Some "lstat64";
  Some "fstat64"; Some "lchown32"; Some "getuid32"; Some "getgid32"; Some "geteuid32";
  Some "getegid32"; Some "setreuid32"; Some "setregid32"; Some "getgroups32";
  Some "setgroups32"; Some "fchown32"; Some "setresuid32"; Some "getresuid32";
  Some "setresgid32"; Some "getresgid32"; Some "chown32"; Some "setuid32"; Some "setgid32";
  Some "setfsuid32"; Some "setfsgid32"; Some "pivot_root"; Some "mincore"; Some "madvise";
  Some "getdents64"; Some "fcntl64"; Some "SYS_222"; Some "SYS_223"; Some "gettid";
  Some "readahead"; Some "setxattr"; Some "lsetxattr"; Some "fsetxattr"; Some "getxattr";
  Some "lgetxattr"; Some "fgetxattr"; Some "listxattr"; Some "llistxattr"; Some "flistxattr";
  Some "removexattr"; Some "lremovexattr"; Some "fremovexattr"; Some "tkill";
  Some "sendfile64"; Some "futex"; Some "sched_setaffinity"; Some "sched_getaffinity";
  Some "set_thread_area"; Some "get_thread_area"; Some "io_setup"; Some "io_destroy";
  Some "io_getevents"; Some "io_submit"; Some "io_cancel"; Some "fadvise64"; Some "SYS_251";
  Some "exit_group"; Some "lookup_dcookie"; Some "epoll_create"; Some "epoll_ctl";
  Some "epoll_wait"; Some "remap_file_pages"; Some "set_tid_address"; Some "timer_create";
  Some "timer_settime"; Some "timer_gettime"; Some "timer_getoverrun"; Some "timer_delete";
  Some "clock_settime"; Some "clock_gettime"; Some "clock_getres"; Some "clock_nanosleep";
  Some "statfs64"; Some "fstatfs64"; Some "tgkill"; Some "utimes"; Some "fadvise64_64";
  Some "vserver"; Some "mbind"; Some "get_mempolicy"; Some "set_mempolicy"; Some "mq_open";
  Some "mq_unlink"; Some "mq_timedsend"
].

(** i386/syscallent.h, entries 280 to 419. *)
Definition i386_syscallent_2 : list (option string) := [
  Some "mq_timedreceive"; Some "mq_notify"; Some "mq_getsetattr"; Some "sys_kexec_load";
  Some "waitid"; Some "SYS_285"; Some "add_key"; Some "request_key"; Some "keyctl";
  Some "ioprio_set"; Some "ioprio_get"; Some "inotify_init"; Some "inotify_add_watch";
  Some "inotify_rm_watch"; Some "migrate_pages"; Some "openat"; Some "mkdirat";
  Some "mknodat"; Some "fchownat"; Some "futimesat"; Some "fstatat64"; Some "unlinkat";
  Some "renameat"; Some "linkat"; Some "symlinkat"; Some "readlinkat"; Some "fchmodat";
  Some "faccessat"; Some "pselect6"; Some "ppoll"; Some "unshare"; Some "set_robust_list";
  Some "get_robust_list"; Some "splice"; Some "sync_file_range"; Some "tee"; Some "vmsplice";
  Some "move_pages"; Some "getcpu"; Some "epoll_pwait"; Some "utimensat"; Some "signalfd";
  Some "timerfd_create"; Some "eventfd"; Some "fallocate"; Some "timerfd_settime";
  Some "timerfd_gettime"; Some "signalfd4"; Some "eventfd2"; Some "epoll_create1";
  Some "dup3"; Some "pipe2"; Some "inotify_init1"; Some "preadv"; Some "pwritev";
  Some "rt_tgsigqueueinfo"; Some "perf_event_open"; Some "recvmmsg"; Some "fanotify_init";
  Some "fanotify_mark"; Some "prlimit64"; Some "name_to_handle_at"; Some "open_by_handle_at";
  Some "clock_adjtime"; Some "syncfs"; Some "sendmmsg"; Some "setns";
  Some "process_vm_readv"; Some "process_vm_writev"; Some "kcmp"; Some "finit_module";
  Some "sched_setattr"; Some "sched_getattr"; Some "renameat2"; Some "seccomp";
  Some "getrandom"; Some "memfd_create"; Some "bpf"; Some "execveat"; Some "socket";
  Some "socketpair"; Some "bind"; Some "connect"; Some "listen"; Some "accept4";
  Some "getsockopt"; Some "setsockopt"; Some "getsockname"; Some "getpeername";
  Some "sendto"; Some "sendmsg"; Some "recvfrom"; Some "recvmsg"; Some "shutdown";
  Some "userfaultfd"; Some "membarrier"; Some "mlock2"; Some "copy_file_range";
  Some "preadv2"; Some "pwritev2"; Some "pkey_mprotect"; Some "pkey_alloc"; Some "pkey_free";
  Some "statx"; Some "arch_prctl"; Some "io_pgetevents"; Some "rseq"; Some "SYS_387";
  Some "SYS_388"; Some "SYS_389"; Some "SYS_390"; Some "SYS_391"; Some "SYS_392";
  Some "semget"; Some "semctl"; Some "shmget"; Some "shmctl"; Some "shmat"; Some "shmdt";
  Some "msgget"; Some "msgsnd"; Some "msgrcv"; Some "msgctl"; Some "clock_gettime64";
  Some "clock_settime64"; Some "clock_adjtime64"; Some "clock_getres_time64";
  Some "clock_nanosleep_time64"; Some "timer_gettime64"; Some "timer_settime64";
  Some "timerfd_gettime64"; Some "timerfd_settime64"; Some "utimensat_time64";
  Some "pselect6_time64"; Some "ppoll_time64"; Some "SYS_415"; Some "io_pgetevents_time64";
  Some "recvmmsg_time64"; Some "mq_timedsend_time64"; Some "mq_timedreceive_time64"
].

(** i386/syscallent.h, entries 420 to 441. *)
Definition i386_syscallent_3 : list (option string) := [
  Some "semtimedop_time64"; Some "rt_sigtimedwait_time64"; Some "futex_time64";
  Some "sched_rr_get_interval_time64"; Some "pidfd_send_signal"; Some "io_uring_setup";
  Some "io_uring_enter"; Some "io_uring_register"; Some "open_tree"; Some "move_mount";
  Some "fsopen"; Some "fsconfig"; Some "fsmount"; Some "fspick"; Some "pidfd_open";
  Some "clone3"; Some "close_range"; Some "openat2"; Some "pidfd_getfd"; Some "faccessat2";
  Some "process_madvise"; Some "epoll_pwait2"
].

Definition i386_syscallent : list (option string) :=
  i386_syscallent_0 ++ i386_syscallent_1 ++ i386_syscallent_2 ++ i386_syscallent_3.

(** x32/syscallent.h, entries 0 to 139. *)
Definition x32_syscallent_0 : list (option string) := [
  Some "read"; Some "write"; Some "open"; Some "close"; Some "stat"; Some "fstat";
  Some "lstat"; Some "poll"; Some "lseek"; Some "mmap"; Some "mprotect"; Some "munmap";
  Some "brk"; Some "rt_sigaction#64"; Some "rt_sigprocmask"; Some "rt_sigreturn#64";
  Some "ioctl#64"; Some "pread"; Some "pwrite"; Some "readv#64"; Some "writev#64";
  Some "access"; Some "pipe"; Some "select"; Some "sched_yield"; Some "mremap"; Some "msync";
  Some "mincore"; Some "madvise"; Some "shmget"; Some "shmat"; Some "shmctl"; Some "dup";
  Some "dup2"; Some "pause"; Some "nanosleep"; Some "getitimer"; Some "alarm";
  Some "setitimer"; Some "getpid"; Some "sendfile"; Some "socket"; Some "connect";
  Some "accept"; Some "sendto"; Some "recvfrom#64"; Some "sendmsg#64"; Some "recvmsg#64";
  Some "shutdown"; Some "bind"; Some "listen"; Some "getsockname"; Some "getpeername";
  Some "socketpair"; Some "setsockopt#64"; Some "getsockopt#64"; Some "clone"; Some "fork";
  Some "vfork"; Some "execve#64"; Some "_exit"; Some "wait4"; Some "kill"; Some "uname";
  Some "semget"; Some "semop"; Some "semctl"; Some "shmdt"; Some "msgget"; Some "msgsnd";
  Some "msgrcv"; Some "msgctl"; Some "fcntl"; Some "flock"; Some "fsync"; Some "fdatasync";
  Some "truncate"; Some "ftruncate"; Some "getdents"; Some "getcwd"; Some "chdir";
  Some "fchdir"; Some "rename"; Some "mkdir"; Some "rmdir"; Some "creat"; Some "link";
  Some "unlink"; Some "symlink"; Some "readlink"; Some "chmod"; Some "fchmod"; Some "chown";
  Some "fchown"; Some "lchown"; Some "umask"; Some "gettimeofday"; Some "getrlimit";
  Some "getrusage"; Some "sysinfo"; Some "times"; Some "ptrace#64"; Some "getuid";
  Some "syslog"; Some "getgid"; Some "setuid"; Some "setgid"; Some "geteuid"; Some "getegid";
  Some "setpgid"; Some "getppid"; Some "getpgrp"; Some "setsid"; Some "setreuid";
  Some "setregid"; Some "getgroups"; Some "setgroups"; Some "setresuid"; Some "getresuid";
  Some "setresgid"; Some "getresgid"; Some "getpgid"; Some "setfsuid"; Some "setfsgid";
  Some "getsid"; Some "capget"; Some "capset"; Some "rt_sigpending#64";
  Some "rt_sigtimedwait#64"; Some "rt_sigqueueinfo#64"; Some "rt_sigsuspend";
  Some "sigaltstack#64"; Some "utime"; Some "mknod"; Some "uselib#64"; Some "personality";
  Some "ustat"; Some "statfs"; Some "fstatfs"; Some "sysfs"
].

(** x32/syscallent.h, entries 140 to 278. *)
Definition x32_syscallent_1 : list (option string) := [
  Some "getpriority"; Some "setpriority"; Some "sched_setparam"; Some "sched_getparam";
  Some "sched_setscheduler"; Some "sched_getscheduler"; Some "sched_get_priority_max";
  Some "sched_get_priority_min"; Some "sched_rr_get_interval"; Some "mlock"; Some "munlock";
  Some "mlockall"; Some "munlockall"; Some "vhangup"; Some "modify_ldt"; Some "pivot_root";
  Some "_sysctl#64"; Some "prctl"; Some "arch_prctl"; Some "adjtimex"; Some "setrlimit";
  Some "chroot"; Some "sync"; Some "acct"; Some "settimeofday"; Some "mount"; Some "umount";
  Some "swapon"; Some "swapoff"; Some "reboot"; Some "sethostname"; Some "setdomainname";
  Some "iopl"; Some "ioperm"; Some "create_module#64"; Some "init_module";
  Some "delete_module"; Some "get_kernel_syms#64"; Some "query_module#64"; Some "quotactl";
  Some "nfsservctl#64"; Some "getpmsg"; Some "putpmsg"; Some "afs_syscall"; Some "tuxcall";
  Some "security"; Some "gettid"; Some "readahead"; Some "setxattr"; Some "lsetxattr";
  Some "fsetxattr"; Some "getxattr"; Some "lgetxattr"; Some "fgetxattr"; Some "listxattr";
  Some "llistxattr"; Some "flistxattr"; Some "removexattr"; Some "lremovexattr";
  Some "fremovexattr"; Some "tkill"; Some "time"; Some "futex"; Some "sched_setaffinity";
  Some "sched_getaffinity"; Some "set_thread_area#64"; Some "io_setup#64"; Some "io_destroy";
  Some "io_getevents"; Some "io_submit#64"; Some "io_cancel"; Some "get_thread_area#64";
  Some "lookup_dcookie"; Some "epoll_create"; Some "epoll_ctl_old#64";
  Some "epoll_wait_old#64"; Some "remap_file_pages"; Some "getdents64";
  Some "set_tid_address"; Some "restart_syscall"; Some "semtimedop"; Some "fadvise64";
  Some "timer_create#64"; Some "timer_settime"; Some "timer_gettime";
  Some "timer_getoverrun"; Some "timer_delete"; Some "clock_settime"; Some "clock_gettime";
  Some "clock_getres"; Some "clock_nanosleep"; Some "exit_group"; Some "epoll_wait";
  Some "epoll_ctl"; Some "tgkill"; Some "utimes"; Some "vserver#64"; Some "mbind";
  Some "set_mempolicy"; Some "get_mempolicy"; Some "mq_open"; Some "mq_unlink";
  Some "mq_timedsend"; Some "mq_timedreceive";
  Some (String.append "mq_notify#64" "mq_getsetattr"); Some "kexec_load#64";
  Some "waitid#64"; Some "add_key"; Some "request_key"; Some "keyctl"; Some "ioprio_set";
  Some "ioprio_get"; Some "inotify_init"; Some "inotify_add_watch"; Some "inotify_rm_watch";
  Some "migrate_pages"; Some "openat"; Some "mkdirat"; Some "mknodat"; Some "fchownat";
  Some "futimesat"; Some "newfstatat"; Some "unlinkat"; Some "renameat"; Some "linkat";
  Some "symlinkat"; Some "readlinkat"; Some "fchmodat"; Some "faccessat"; Some "pselect6";
  Some "ppoll"; Some "unshare"; Some "set_robust_list#64"; Some "get_robust_list#64";
  Some "splice"; Some "tee"; Some "sync_file_range"; Some "vmsplice#64"; Some "move_pages#64"
].

(** x32/syscallent.h, entries 279 to 417. *)
Definition x32_syscallent_2 : list (option string) := [
  Some "utimensat"; Some "epoll_pwait"; Some "signalfd"; Some "timerfd_create";
  Some "eventfd"; Some "fallocate"; Some "timerfd_settime"; Some "timerfd_gettime";
  Some "accept4"; Some "signalfd4"; Some "eventfd2"; Some "epoll_create1"; Some "dup3";
  Some "pipe2"; Some "inotify_init1"; Some "preadv#64"; Some "pwritev#64";
  Some "rt_tgsigqueueinfo#64"; Some "perf_event_open"; Some "recvmmsg#64";
  Some "fanotify_init"; Some "fanotify_mark"; Some "prlimit64"; Some "name_to_handle_at";
  Some "open_by_handle_at"; Some "clock_adjtime"; Some "syncfs"; Some "sendmmsg#64";
  Some "setns"; Some "getcpu"; Some "process_vm_readv#64"; Some "process_vm_writev#64";
  Some "kcmp"; Some "finit_module"; Some "sched_setattr"; Some "sched_getattr";
  Some "renameat2"; Some "seccomp"; Some "getrandom"; Some "memfd_create";
  Some "kexec_file_load"; Some "bpf"; Some "execveat#64"; Some "userfaultfd";
  Some "membarrier"; Some "mlock2"; Some "copy_file_range"; Some "preadv2#64";
  Some "pwritev2#64"; Some "pkey_mprotect"; Some "pkey_alloc"; Some "pkey_free";
  Some "statx"; Some "io_pgetevents"; Some "rseq"; None; None; None; None; None; None; None;
  None; None; None; None; None; None; None; None; None; None; None; None; None; None; None;
  None; None; None; None; None; None; None; None; None; None; None; None; None; None; None;
  None; None; None; None; None; None; None; None; None; None; None; None; None; None; None;
  None; None; None; None; None; None; None; None; None; None; None; None; None; None; None;
  None; None; None; None; None; None; None; None; None; None; None; None; None; None; None;
  None; None
].

(** x32/syscallent.h, entries 418 to 546. *)
Definition x32_syscallent_3 : list (option string) := [
  None; None; None; None; None; Some "pidfd_send_signal"; Some "io_uring_setup";
  Some "io_uring_enter"; Some "io_uring_register"; Some "open_tree"; Some "move_mount";
  Some "fsopen"; Some "fsconfig"; Some "fsmount"; Some "fspick"; Some "pidfd_open";
  Some "clone3"; Some "close_range"; Some "openat2"; Some "pidfd_getfd"; Some "faccessat2";
  Some "process_madvise"; Some "epoll_pwait2"; None; None; None; None; None; None; None;
  None; None; None; None; None; None; None; None; None; None; None; None; None; None; None;
  None; None; None; None; None; None; None; None; None; None; None; None; None; None; None;
  None; None; None; None; None; None; None; None; None; None; None; None; None; None; None;
  None; None; None; None; None; None; None; None; None; None; None; None; None; None; None;
  None; None; None; Some "rt_sigaction"; Some "rt_sigreturn"; Some "ioctl"; Some "readv";
  Some "writev"; Some "recvfrom"; Some "sendmsg"; Some "recvmsg"; Some "execve";
  Some "ptrace"; Some "rt_sigpending"; Some "rt_sigtimedwait"; Some "rt_sigqueueinfo";
  Some "sigaltstack"; Some "timer_create"; Some "mq_notify"; Some "kexec_load";
  Some "waitid"; Some "set_robust_list"; Some "get_robust_list"; Some "vmsplice";
  Some "move_pages"; Some "preadv"; Some "pwritev"; Some "rt_tgsigqueueinfo";
  Some "recvmmsg"; Some "sendmmsg"; Some "process_vm_readv"; Some "process_vm_writev";
  Some "setsockopt"; Some "getsockopt"; Some "io_setup"; Some "io_submit"; Some "execveat";
  Some "preadv2"; Some "pwritev2"
].

Definition x32_syscallent : list (option string) :=
  x32_syscallent_0 ++ x32_syscallent_1 ++ x32_syscallent_2 ++ x32_syscallent_3.
