(* ===== verification/TablesArm.v ===== *)
(** * linux/aarch64 and linux/arm: the system call names *)

From Stdlib Require Import String.
From stdpp Require Import base list strings.
Local Open Scope string_scope.
Local Open Scope list_scope.

(** aarch64/syscallent.h, entries 0 to 139. *)
Definition aarch64_syscallent_0 : list (option string) := [
  Some "io_setup"; Some "io_destroy"; Some "io_submit"; Some "io_cancel";
  Some "io_getevents"; Some "setxattr"; Some "lsetxattr"; Some "fsetxattr"; Some "getxattr";
  Some "lgetxattr"; Some "fgetxattr"; Some "listxattr"; Some "llistxattr"; Some "flistxattr";
  Some "removexattr"; Some "lremovexattr"; Some "fremovexattr"; Some "getcwd";
  Some "lookup_dcookie"; Some "eventfd2"; Some "epoll_create1"; Some "epoll_ctl";
  Some "epoll_pwait"; Some "dup"; Some "dup3"; Some "fcntl"; Some "inotify_init1";
  Some "inotify_add_watch"; Some "inotify_rm_watch"; Some "ioctl"; Some "ioprio_set";
  Some "ioprio_get"; Some "flock"; Some "mknodat"; Some "mkdirat"; Some "unlinkat";
  Some "symlinkat"; Some "linkat"; Some "renameat"; Some "umount2"; Some "mount";
  Some "pivot_root"; Some "nfsservctl"; Some "statfs"; Some "fstatfs"; Some "truncate";
  Some "ftruncate"; Some "fallocate"; Some "faccessat"; Some "chdir"; Some "fchdir";
  Some "chroot"; Some "fchmod"; Some "fchmodat"; Some "fchownat"; Some "fchown";
  Some "openat"; Some "close"; Some "vhangup"; Some "pipe2"; Some "quotactl";
  Some "getdents64"; Some "lseek"; Some "read"; Some "write"; Some "readv"; Some "writev";
  Some "pread64"; Some "pwrite64"; Some "preadv"; Some "pwritev"; Some "sendfile";
  Some "pselect6"; Some "ppoll"; Some "signalfd4"; Some "vmsplice"; Some "splice";
  Some "tee"; Some "readlinkat"; Some "newfstatat"; Some "fstat"; Some "sync"; Some "fsync";
  Some "fdatasync"; Some "sync_file_range"; Some "timerfd_create"; Some "timerfd_settime";
  Some "timerfd_gettime"; Some "utimensat"; Some "acct"; Some "capget"; Some "capset";
  Some "personality"; Some "exit"; Some "exit_group"; Some "waitid"; Some "set_tid_address";
  Some "unshare"; Some "futex"; Some "set_robust_list"; Some "get_robust_list";
  Some "nanosleep"; Some "getitimer"; Some "setitimer"; Some "kexec_load";
  Some "init_module"; Some "delete_module"; Some "timer_create"; Some "timer_gettime";
  Some "timer_getoverrun"; Some "timer_settime"; Some "timer_delete"; Some "clock_settime";
  Some "clock_gettime"; Some "clock_getres"; Some "clock_nanosleep"; Some "syslog";
  Some "ptrace"; Some "sched_setparam"; Some "sched_setscheduler"; Some "sched_getscheduler";
  Some "sched_getparam"; Some "sched_setaffinity"; Some "sched_getaffinity";
  Some "sched_yield"; Some "sched_get_priority_max"; Some "sched_get_priority_min";
  Some "sched_rr_get_interval"; Some "restart_syscall"; Some "kill"; Some "tkill";
  Some "tgkill"; Some "sigaltstack"; Some "rt_sigsuspend"; Some "rt_sigaction";
  Some "rt_sigprocmask"; Some "rt_sigpending"; Some "rt_sigtimedwait";
  Some "rt_sigqueueinfo"; Some "rt_sigreturn"
].

(** aarch64/syscallent.h, entries 140 to 278. *)
Definition aarch64_syscallent_1 : list (option string) := [
  Some "setpriority"; Some "getpriority"; Some "reboot"; Some "setregid"; Some "setgid";
  Some "setreuid"; Some "setuid"; Some "setresuid"; Some "getresuid"; Some "setresgid";
  Some "getresgid"; Some "setfsuid"; Some "setfsgid"; Some "times"; Some "setpgid";
  Some "getpgid"; Some "getsid"; Some "setsid"; Some "getgroups"; Some "setgroups";
  Some "uname"; Some "sethostname"; Some "setdomainname"; Some "getrlimit"; Some "setrlimit";
  Some "getrusage"; Some "umask"; Some "prctl"; Some "getcpu"; Some "gettimeofday";
  Some "settimeofday"; Some "adjtimex"; Some "getpid"; Some "getppid"; Some "getuid";
  Some "geteuid"; Some "getgid"; Some "getegid"; Some "gettid"; Some "sysinfo";
  Some "mq_open"; Some "mq_unlink"; Some "mq_timedsend"; Some "mq_timedreceive";
  Some "mq_notify"; Some "mq_getsetattr"; Some "msgget"; Some "msgctl"; Some "msgrcv";
  Some "msgsnd"; Some "semget"; Some "semctl"; Some "semtimedop"; Some "semop";
  Some "shmget"; Some "shmctl"; Some "shmat"; Some "shmdt"; Some "socket"; Some "socketpair";
  Some "bind"; Some "listen"; Some "accept"; Some "connect"; Some "getsockname";
  Some "getpeername"; Some "sendto"; Some "recvfrom"; Some "setsockopt"; Some "getsockopt";
  Some "shutdown"; Some "sendmsg"; Some "recvmsg"; Some "readahead"; Some "brk";
  Some "munmap"; Some "mremap"; Some "add_key"; Some "request_key"; Some "keyctl";
  Some "clone"; Some "execve"; Some "mmap"; Some "fadvise64"; Some "swapon"; Some "swapoff";
  Some "mprotect"; Some "msync"; Some "mlock"; Some "munlock"; Some "mlockall";
  Some "munlockall"; Some "mincore"; Some "madvise"; Some "remap_file_pages"; Some "mbind";
  Some "get_mempolicy"; Some "set_mempolicy"; Some "migrate_pages"; Some "move_pages";
  Some "rt_tgsigqueueinfo"; Some "perf_event_open"; Some "accept4"; Some "recvmmsg"; None;
  None; None; None; None; None; None; None; None; None; None; None; None; None; None; None;
  Some "wait4"; Some "prlimit64"; Some "fanotify_init"; Some "fanotify_mark";
  Some "name_to_handle_at"; Some "open_by_handle_at"; Some "clock_adjtime"; Some "syncfs";
  Some "setns"; Some "sendmmsg"; Some "process_vm_readv"; Some "process_vm_writev";
  Some "kcmp"; Some "finit_module"; Some "sched_setattr"; Some "sched_getattr";
  Some "renameat2"; Some "seccomp"; Some "getrandom"
].

(** aarch64/syscallent.h, entries 279 to 417. *)
Definition aarch64_syscallent_2 : list (option string) := [
  Some "memfd_create"; Some "bpf"; Some "execveat"; Some "userfaultfd"; Some "membarrier";
  Some "mlock2"; Some "copy_file_range"; Some "preadv2"; Some "pwritev2";
  Some "pkey_mprotect"; Some "pkey_alloc"; Some "pkey_free"; Some "statx";
  Some "io_pgetevents"; Some "rseq"; Some "kexec_file_load"; None; None; None; None; None;
  None; None; None; None; None; None; None; None; None; None; None; None; None; None; None;
  None; None; None; None; None; None; None; None; None; None; None; None; None; None; None;
  None; None; None; None; None; None; None; None; None; None; None; None; None; None; None;
  None; None; None; None; None; None; None; None; None; None; None; None; None; None; None;
  None; None; None; None; None; None; None; None; None; None; None; None; None; None; None;
  None; None; None; None; None; None; None; None; None; None; None; None; None; None; None;
  None; None; None; None; None; None; None; None; None; None; None; None; None; None; None;
  None; None; None; None; None; None; None; None; None; None; None; None; None
].

(** aarch64/syscallent.h, entries 418 to 442. *)
Definition aarch64_syscallent_3 : list (option string) := [
  None; None; None; None; None; None; Some "pidfd_send_signal"; Some "io_uring_setup";
  Some "io_uring_enter"; Some "io_uring_register"; Some "open_tree"; Some "move_mount";
  Some "fsopen"; Some "fsconfig"; Some "fsmount"; Some "fspick"; Some "pidfd_open";
  Some "clone3"; Some "close_range"; Some "openat2"; Some "pidfd_getfd"; Some "faccessat2";
  Some "process_madvise"; Some "epoll_pwait2"; Some "mount_setattr"
].

Definition aarch64_syscallent : list (option string) :=
  aarch64_syscallent_0 ++ aarch64_syscallent_1 ++ aarch64_syscallent_2 ++ aarch64_syscallent_3.

(** arm/syscallent.h, entries 0 to 139. *)
Definition arm_syscallent_0 : list (option string) := [
  Some "restart_syscall"; Some "exit"; Some "fork"; Some "read"; Some "write"; Some "open";
  Some "close"; Some "waitpid"; Some "creat"; Some "link"; Some "unlink"; Some "execve";
  Some "chdir"; Some "time"; Some "mknod"; Some "chmod"; Some "lchown"; Some "break";
  Some "oldstat"; Some "lseek"; Some "getpid"; Some "mount"; Some "oldumount"; Some "setuid";
  Some "getuid"; Some "stime"; Some "ptrace"; Some "alarm"; Some "oldfstat"; Some "pause";
  Some "utime"; Some "stty"; Some "gtty"; Some "access"; Some "nice"; Some "ftime";
  Some "sync"; Some "kill"; Some "rename"; Some "mkdir"; Some "rmdir"; Some "dup";
  Some "pipe"; Some "times"; Some "prof"; Some "brk"; Some "setgid"; Some "getgid";
  Some "signal"; Some "geteuid"; Some "getegid"; Some "acct"; Some "umount"; Some "lock";
  Some "ioctl"; Some "fcntl"; Some "mpx"; Some "setpgid"; Some "ulimit"; Some "oldolduname";
  Some "umask"; Some "chroot"; Some "ustat"; Some "dup2"; Some "getppid"; Some "getpgrp";
  Some "setsid"; Some "sigaction"; Some "siggetmask"; Some "sigsetmask"; Some "setreuid";
  Some "setregid"; Some "sigsuspend"; Some "sigpending"; Some "sethostname";
  Some "setrlimit"; Some "old_getrlimit"; Some "getrusage"; Some "gettimeofday";
  Some "settimeofday"; Some "getgroups"; Some "setgroups"; Some "oldselect"; Some "symlink";
  Some "oldlstat"; Some "readlink"; Some "uselib"; Some "swapon"; Some "reboot";
  Some "readdir"; Some "old_mmap"; Some "munmap"; Some "truncate"; Some "ftruncate";
  Some "fchmod"; Some "fchown"; Some "getpriority"; Some "setpriority"; Some "profil";
  Some "statfs"; Some "fstatfs"; Some "ioperm"; Some "socketcall"; Some "syslog";
  Some "setitimer"; Some "getitimer"; Some "stat"; Some "lstat"; Some "fstat";
  Some "olduname"; Some "iopl"; Some "vhangup"; Some "idle"; Some "syscall"; Some "wait4";
  Some "swapoff"; Some "sysinfo"; Some "ipc"; Some "fsync"; Some "sigreturn"; Some "clone";
  Some "setdomainname"; Some "uname"; Some "modify_ldt"; Some "adjtimex"; Some "mprotect";
  Some "sigprocmask"; Some "create_module"; Some "init_module"; Some "delete_module";
  Some "get_kernel_syms"; Some "quotactl"; Some "getpgid"; Some "fchdir"; Some "bdflush";
  Some "sysfs"; Some "personality"; Some "afs_syscall"; Some "setfsuid"; Some "setfsgid"
].

(** arm/syscallent.h, entries 140 to 279. *)
Definition arm_syscallent_1 : list (option string) := [
  Some "_llseek"; Some "getdents"; Some "select"; Some "flock"; Some "msync"; Some "readv";
  Some "writev"; Some "getsid"; Some "fdatasync"; Some "_sysctl"; Some "mlock";
  Some "munlock"; Some "mlockall"; Some "munlockall"; Some "sched_setparam";
  Some "sched_getparam"; Some "sched_setscheduler"; Some "sched_getscheduler";
  Some "sched_yield"; Some "sched_get_priority_max"; Some "sched_get_priority_min";
  Some "sched_rr_get_interval"; Some "nanosleep"; Some "mremap"; Some "setresuid";
  Some "getresuid"; Some "vm86"; Some "query_module"; Some "poll"; Some "nfsservctl";
  Some "setresgid"; Some "getresgid"; Some "prctl"; Some "rt_sigreturn"; Some "rt_sigaction";
  Some "rt_sigprocmask"; Some "rt_sigpending"; Some "rt_sigtimedwait";
  Some "rt_sigqueueinfo"; Some "rt_sigsuspend"; Some "pread"; Some "pwrite"; Some "chown";
  Some "getcwd"; Some "capget"; Some "capset"; Some "sigaltstack"; Some "sendfile";
  Some "getpmsg"; Some "putpmsg"; Some "vfork"; Some "getrlimit"; Some "mmap2";
  Some "truncate64"; Some "ftruncate64"; Some "stat64"; Some "lstat64"; Some "fstat64";
  Some "lchown32"; Some "getuid32"; Some "getgid32"; Some "geteuid32"; Some "getegid32";
  Some "setreuid32"; Some "setregid32"; Some "getgroups32"; Some "setgroups32";
  Some "fchown32"; Some "setresuid32"; Some "getresuid32"; Some "setresgid32";
  Some "getresgid32"; Some "chown32"; Some "setuid32"; Some "setgid32"; Some "setfsuid32";
  Some "setfsgid32"; Some "getdents64"; Some "pivot_root"; Some "mincore"; Some "madvise";
  Some "fcntl64"; Some "SYS_222"; Some "SYS_223"; Some "gettid"; Some "readahead";
  Some "setxattr"; Some "lsetxattr"; Some "fsetxattr"; Some "getxattr"; Some "lgetxattr";
  Some "fgetxattr"; Some "listxattr"; Some "llistxattr"; Some "flistxattr";
  Some "removexattr"; Some "lremovexattr"; Some "fremovexattr"; Some "tkill";
  Some "sendfile64"; Some "futex"; Some "sched_setaffinity"; Some "sched_getaffinity";
  Some "io_setup"; Some "io_destroy"; Some "io_getevents"; Some "io_submit";
  Some "io_cancel"; Some "exit_group"; Some "lookup_dcookie"; Some "epoll_create";
  Some "epoll_ctl"; Some "epoll_wait"; Some "remap_file_pages"; Some "SYS_254";
  Some "SYS_255"; Some "set_tid_address"; Some "timer_create"; Some "timer_settime";
  Some "timer_gettime"; Some "timer_getoverrun"; Some "timer_delete"; Some "clock_settime";
  Some "clock_gettime"; Some "clock_getres"; Some "clock_nanosleep"; Some "statfs64";
  Some "fstatfs64"; Some "tgkill"; Some "utimes"; Some "fadvise64_64";
  Some "pciconfig_iobase"; Some "pciconfig_read"; Some "pciconfig_write"; Some "mq_open";
  Some "mq_unlink"; Some "mq_timedsend"; Some "mq_timedreceive"; Some "mq_notify";
  Some "mq_getsetattr"
].

(** arm/syscallent.h, entries 280 to 394. *)
Definition arm_syscallent_2 : list (option string) := [
  Some "waitid"; Some "socket"; Some "bind"; Some "connect"; Some "listen"; Some "accept";
  Some "getsockname"; Some "getpeername"; Some "socketpair"; Some "send"; Some "sendto";
  Some "recv"; Some "recvfrom"; Some "shutdown"; Some "setsockopt"; Some "getsockopt";
  Some "sendmsg"; Some "recvmsg"; Some "semop"; Some "semget"; Some "semctl"; Some "msgsnd";
  Some "msgrcv"; Some "msgget"; Some "msgctl"; Some "shmat"; Some "shmdt"; Some "shmget";
  Some "shmctl"; Some "add_key"; Some "request_key"; Some "keyctl"; Some "semtimedop";
  Some "vserver"; Some "ioprio_set"; Some "ioprio_get"; Some "inotify_init";
  Some "inotify_add_watch"; Some "inotify_rm_watch"; Some "mbind"; Some "set_mempolicy";
  Some "get_mempolicy"; Some "openat"; Some "mkdirat"; Some "mknodat"; Some "fchownat";
  Some "futimesat"; Some "newfstatat"; Some "unlinkat"; Some "renameat"; Some "linkat";
  Some "symlinkat"; Some "readlinkat"; Some "fchmodat"; Some "faccessat"; Some "PSELECT6";
  Some "ppoll"; Some "unshare"; Some "set_robust_list"; Some "get_robust_list";
  Some "splice"; Some "SYS_341"; Some "tee"; Some "vmsplice"; Some "move_pages";
  Some "getcpu"; Some "epoll_pwait"; Some "kexec_load"; Some "utimensat"; Some "signalfd";
  Some "timerfd"; Some "eventfd"; Some "fallocate"; Some "timerfd_settime";
  Some "timerfd_gettime"; Some "signalfd4"; Some "eventfd2"; Some "epoll_create1";
  Some "dup3"; Some "pipe2"; Some "inotify_init1"; Some "preadv"; Some "pwritev";
  Some "rt_tgsigqueueinfo"; Some "perf_event_open"; Some "recvmmsg"; Some "accept4";
  Some "fanotify_init"; Some "fanotify_mark"; Some "prlimit64"; Some "name_to_handle_at";
  Some "open_by_handle_at"; Some "clock_adjtime"; Some "syncfs"; Some "sendmmsg";
  Some "setns"; Some "process_vm_readv"; Some "process_vm_writev"; Some "kcmp";
  Some "finit_module"; Some "sched_setattr"; Some "sched_getattr"; Some "renameat2";
  Some "seccomp"; Some "getrandom"; Some "memfd_create"; Some "bpf"; Some "execveat";
  Some "cmpxchg"; None; Some "breakpoint"; Some "cacheflush"; Some "usr26"; Some "usr32";
  Some "set_tls"
].

Definition arm_syscallent : list (option string) :=
  arm_syscallent_0 ++ arm_syscallent_1 ++ arm_syscallent_2.
