(* ===== verification/TablesPpc.v ===== *)
(** * linux/powerpc: the system call names *)

From Stdlib Require Import String.
From stdpp Require Import base list strings.
Local Open Scope string_scope.
Local Open Scope list_scope.

(** powerpc/syscallent.h, entries 0 to 139. *)
Definition powerpc_syscallent_0 : list (option string) := [
  Some "restart_syscall"; Some "exit"; Some "fork"; Some "read"; Some "write"; Some "open";
  Some "close"; Some "waitpid"; Some "creat"; Some "link"; Some "unlink"; Some "execve";
  Some "chdir"; Some "time"; Some "mknod"; Some "chmod"; Some "lchown"; Some "break";
  Some "oldstat"; Some "lseek"; Some "getpid"; Some "mount"; Some "oldumount"; Some "setuid";
  Some "getuid"; Some "stime"; Some "ptrace"; Some "alarm"; Some "oldfstat"; Some "pause";
  Some "utime"; Some "stty"; Some "gtty"; Some "access"; Some "nice"; Some "ftime";
  Some "sync"; Some "kill"; Some "rename"; Some "mkdir"; Some "rmdir"; Some "dup";
  Some "pipe"; Some "times"; Some "prof"; Some "brk"; Some "setgid"; Some "getgid";
  Some "signal"; Some "geteuid"; Some "getegid"; Some "acct"; Some "umount"; Some "lock";
  Some "ioctl"; Some "fcntl"; Some "sys_mpx"; Some "setpgid"; Some "ulimit";
  Some "oldolduname"; Some "umask"; Some "chroot"; Some "ustat"; Some "dup2"; Some "getppid";
  Some "getpgrp"; Some "setsid"; Some "sigaction"; Some "sgetmask"; Some "ssetmask";
  Some "setreuid"; Some "setregid"; Some "sigsuspend"; Some "sigpending"; Some "sethostname";
  Some "setrlimit"; Some "oldgetrlimit"; Some "getrusage"; Some "gettimeofday";
  Some "settimeofday"; Some "getgroups"; Some "setgroups"; Some "oldselect"; Some "symlink";
  Some "oldlstat"; Some "readlink"; Some "uselib"; Some "swapon"; Some "reboot";
  Some "readdir"; Some "mmap"; Some "munmap"; Some "truncate"; Some "ftruncate";
  Some "fchmod"; Some "fchown"; Some "getpriority"; Some "setpriority"; Some "profil";
  Some "statfs"; Some "fstatfs"; Some "ioperm"; Some "socketcall"; Some "syslog";
  Some "setitimer"; Some "getitimer"; Some "stat"; Some "lstat"; Some "fstat";
  Some "olduname"; Some "SYS_110"; Some "vhangup"; Some "idle"; Some "SYS_113"; Some "wait4";
  Some "swapoff"; Some "sysinfo"; Some "ipc"; Some "fsync"; Some "sigreturn"; Some "clone";
  Some "setdomainname"; Some "uname"; Some "SYS_123"; Some "adjtimex"; Some "mprotect";
  Some "sigprocmask"; Some "create_module"; Some "init_module"; Some "delete_module";
  Some "get_kernel_syms"; Some "quotactl"; Some "getpgid"; Some "fchdir"; Some "bdflush";
  Some "sysfs"; Some "personality"; Some "afs_syscall"; Some "setfsuid"; Some "setfsgid"
].

(** powerpc/syscallent.h, entries 140 to 279. *)
Definition powerpc_syscallent_1 : list (option string) := [
  Some "_llseek"; Some "getdents"; Some "select"; Some "flock"; Some "msync"; Some "readv";
  Some "writev"; Some "getsid"; Some "fdatasync"; Some "_sysctl"; Some "mlock";
  Some "munlock"; Some "mlockall"; Some "munlockall"; Some "sched_setparam";
  Some "sched_getparam"; Some "sched_setscheduler"; Some "sched_getscheduler";
  Some "sched_yield"; Some "sched_get_priority_max"; Some "sched_get_priority_min";
  Some "sched_rr_get_interval"; Some "nanosleep"; Some "mremap"; Some "setresuid";
  Some "getresuid"; Some "query_module"; Some "poll"; Some "nfsservctl"; Some "setresgid";
  Some "getresgid"; Some "prctl"; Some "rt_sigreturn"; Some "rt_sigaction";
  Some "rt_sigprocmask"; Some "rt_sigpending"; Some "rt_sigtimedwait";
  Some "rt_sigqueueinfo"; Some "rt_sigsuspend"; Some "pread64"; Some "pwrite64";
  Some "chown"; Some "getcwd"; Some "capget"; Some "capset"; Some "sigaltstack";
  Some "sendfile"; Some "getpmsg"; Some "putpmsg"; Some "vfork"; Some "getrlimit";
  Some "readahead"; Some "mmap2"; Some "truncate64"; Some "ftruncate64"; Some "stat64";
  Some "lstat64"; Some "fstat64"; Some "pciconfig_read"; Some "pciconfig_write";
  Some "pciconfig_iobase"; Some "MOL"; Some "getdents64"; Some "pivot_root"; Some "fcntl64";
  Some "madvise"; Some "mincore"; Some "gettid"; Some "tkill"; Some "setxattr";
  Some "lsetxattr"; Some "fsetxattr"; Some "getxattr"; Some "lgetxattr"; Some "fgetxattr";
  Some "listxattr"; Some "llistxattr"; Some "flistxattr"; Some "removexattr";
  Some "lremovexattr"; Some "fremovexattr"; Some "futex"; Some "sched_setaffinity";
  Some "sched_getaffinity"; Some "SYS_224"; Some "tux"; Some "sendfile64"; Some "io_setup";
  Some "io_destroy"; Some "io_getevents"; Some "io_submit"; Some "io_cancel";
  Some "set_tid_address"; Some "fadvise64"; Some "exit_group"; Some "lookup_dcookie";
  Some "epoll_create"; Some "epoll_ctl"; Some "epoll_wait"; Some "remap_file_pages";
  Some "timer_create"; Some "timer_settime"; Some "timer_gettime"; Some "timer_getoverrun";
  Some "timer_delete"; Some "clock_settime"; Some "clock_gettime"; Some "clock_getres";
  Some "clock_nanosleep"; Some "swapcontext"; Some "tgkill"; Some "utimes"; Some "statfs64";
  Some "fstatfs64"; Some "fadvise64_64"; Some "rtas"; Some "debug_setcontext";
  Some "vserver"; Some "SYS_258"; Some "mbind"; Some "get_mempolicy"; Some "set_mempolicy";
  Some "mq_open"; Some "mq_unlink"; Some "mq_timedsend"; Some "mq_timedreceive";
  Some "mq_notify"; Some "mq_getsetattr"; Some "sys_kexec_load"; Some "add_key";
  Some "request_key"; Some "keyctl"; Some "waitid"; Some "ioprio_set"; Some "ioprio_get";
  Some "inotify_init"; Some "inotify_add_watch"; Some "inotify_rm_watch"; Some "spu_run";
  Some "spu_create"
].

(** powerpc/syscallent.h, entries 280 to 353. *)
Definition powerpc_syscallent_2 : list (option string) := [
  Some "pselect6"; Some "ppoll"; Some "unshare"; Some "splice"; Some "tee"; Some "vmsplice";
  Some "openat"; Some "mkdirat"; Some "mknodat"; Some "fchownat"; Some "futimesat";
  Some "newfstatat"; Some "unlinkat"; Some "renameat"; Some "linkat"; Some "symlinkat";
  Some "readlinkat"; Some "fchmodat"; Some "faccessat"; Some "set_robust_list";
  Some "get_robust_list"; Some "move_pages"; Some "getcpu"; Some "epoll_pwait";
  Some "SYS_304"; Some "signalfd"; Some "timerfd"; Some "eventfd"; Some "SYS_308";
  Some "fallocate"; Some "subpage_prot"; Some "timerfd_settime"; Some "timerfd_gettime";
  Some "signalfd4"; Some "eventfd2"; Some "epoll_create1"; Some "dup3"; Some "pipe2";
  Some "inotify_init1"; Some (String.append "perf_event_open" "preadv"); Some "pwritev";
  Some "rt_tgsigqueueinfo"; Some "fanotify_init"; Some "fanotify_mark"; Some "prlimit64";
  Some "socket"; Some "bind"; Some "connect"; Some "listen"; Some "accept";
  Some "getsockname"; Some "getpeername"; Some "socketpair"; Some "send"; Some "sendto";
  Some "recv"; Some "recvfrom"; Some "shutdown"; Some "setsockopt"; Some "getsockopt";
  Some "sendmsg"; Some "recvmsg"; Some "recvmmsg"; Some "accept4"; Some "name_to_handle_at";
  Some "open_by_handle_at"; Some "clock_adjtime"; Some "syncfs"; Some "sendmmsg";
  Some "setns"; Some "process_vm_readv"; Some "process_vm_writev"; Some "kcmp";
  Some "finit_module"
].

Definition powerpc_syscallent : list (option string) :=
  powerpc_syscallent_0 ++ powerpc_syscallent_1 ++ powerpc_syscallent_2.
