(* ===== verification/TablesErrno.v ===== *)
(** * linux/errnoent.h and linux/signalent.h: error and signal names *)

From Stdlib Require Import String.
From stdpp Require Import base list strings.
From S2P Require Import Config.
Local Open Scope string_scope.
Local Open Scope list_scope.

(** errnoent.h, errors 0 to 57. *)
Definition errnoent_0 : list (option string) := [
  Some "ERRNO_0"; Some "EPERM"; Some "ENOENT"; Some "ESRCH"; Some "EINTR"; Some "EIO";
  Some "ENXIO"; Some "E2BIG"; Some "ENOEXEC"; Some "EBADF"; Some "ECHILD"; Some "EAGAIN";
  Some "ENOMEM"; Some "EACCES"; Some "EFAULT"; Some "ENOTBLK"; Some "EBUSY"; Some "EEXIST";
  Some "EXDEV"; Some "ENODEV"; Some "ENOTDIR"; Some "EISDIR"; Some "EINVAL"; Some "ENFILE";
  Some "EMFILE"; Some "ENOTTY"; Some "ETXTBSY"; Some "EFBIG"; Some "ENOSPC"; Some "ESPIPE";
  Some "EROFS"; Some "EMLINK"; Some "EPIPE"; Some "EDOM"; Some "ERANGE"; Some "EDEADLK";
  Some "ENAMETOOLONG"; Some "ENOLCK"; Some "ENOSYS"; Some "ENOTEMPTY"; Some "ELOOP";
  Some "ERRNO_41"; Some "ENOMSG"; Some "EIDRM"; Some "ECHRNG"; Some "EL2NSYNC";
  Some "EL3HLT"; Some "EL3RST"; Some "ELNRNG"; Some "EUNATCH"; Some "ENOCSI"; Some "EL2HLT";
  Some "EBADE"; Some "EBADR"; Some "EXFULL"; Some "ENOANO"; Some "EBADRQC"; Some "EBADSLT"
].

(** errnoent.h, errors 59 to 198. *)
Definition errnoent_1 : list (option string) := [
  Some "EBFONT"; Some "ENOSTR"; Some "ENODATA"; Some "ETIME"; Some "ENOSR"; Some "ENONET";
  Some "ENOPKG"; Some "EREMOTE"; Some "ENOLINK"; Some "EADV"; Some "ESRMNT"; Some "ECOMM";
  Some "EPROTO"; Some "EMULTIHOP"; Some "EDOTDOT"; Some "EBADMSG"; Some "EOVERFLOW";
  Some "ENOTUNIQ"; Some "EBADFD"; Some "EREMCHG"; Some "ELIBACC"; Some "ELIBBAD";
  Some "ELIBSCN"; Some "ELIBMAX"; Some "ELIBEXEC"; Some "EILSEQ"; Some "ERESTART";
  Some "ESTRPIPE"; Some "EUSERS"; Some "ENOTSOCK"; Some "EDESTADDRREQ"; Some "EMSGSIZE";
  Some "EPROTOTYPE"; Some "ENOPROTOOPT"; Some "EPROTONOSUPPORT"; Some "ESOCKTNOSUPPORT";
  Some "EOPNOTSUPP"; Some "EPFNOSUPPORT"; Some "EAFNOSUPPORT"; Some "EADDRINUSE";
  Some "EADDRNOTAVAIL"; Some "ENETDOWN"; Some "ENETUNREACH"; Some "ENETRESET";
  Some "ECONNABORTED"; Some "ECONNRESET"; Some "ENOBUFS"; Some "EISCONN"; Some "ENOTCONN";
  Some "ESHUTDOWN"; Some "ETOOMANYREFS"; Some "ETIMEDOUT"; Some "ECONNREFUSED";
  Some "EHOSTDOWN"; Some "EHOSTUNREACH"; Some "EALREADY"; Some "EINPROGRESS"; Some "ESTALE";
  Some "EUCLEAN"; Some "ENOTNAM"; Some "ENAVAIL"; Some "EISNAM"; Some "EREMOTEIO";
  Some "EDQUOT"; Some "ENOMEDIUM"; Some "EMEDIUMTYPE"; Some "ECANCELED"; Some "ENOKEY";
  Some "EKEYEXPIRED"; Some "EKEYREVOKED"; Some "EKEYREJECTED"; Some "EOWNERDEAD";
  Some "ENOTRECOVERABLE"; Some "ERFKILL"; Some "EHWPOISON"; Some "ERRNO_134";
  Some "ERRNO_135"; Some "ERRNO_136"; Some "ERRNO_137"; Some "ERRNO_138"; Some "ERRNO_139";
  Some "ERRNO_140"; Some "ERRNO_141"; Some "ERRNO_142"; Some "ERRNO_143"; Some "ERRNO_144";
  Some "ERRNO_145"; Some "ERRNO_146"; Some "ERRNO_147"; Some "ERRNO_148"; Some "ERRNO_149";
  Some "ERRNO_150"; Some "ERRNO_151"; Some "ERRNO_152"; Some "ERRNO_153"; Some "ERRNO_154";
  Some "ERRNO_155"; Some "ERRNO_156"; Some "ERRNO_157"; Some "ERRNO_158"; Some "ERRNO_159";
  Some "ERRNO_160"; Some "ERRNO_161"; Some "ERRNO_162"; Some "ERRNO_163"; Some "ERRNO_164";
  Some "ERRNO_165"; Some "ERRNO_166"; Some "ERRNO_167"; Some "ERRNO_168"; Some "ERRNO_169";
  Some "ERRNO_170"; Some "ERRNO_171"; Some "ERRNO_172"; Some "ERRNO_173"; Some "ERRNO_174";
  Some "ERRNO_175"; Some "ERRNO_176"; Some "ERRNO_177"; Some "ERRNO_178"; Some "ERRNO_179";
  Some "ERRNO_180"; Some "ERRNO_181"; Some "ERRNO_182"; Some "ERRNO_183"; Some "ERRNO_184";
  Some "ERRNO_185"; Some "ERRNO_186"; Some "ERRNO_187"; Some "ERRNO_188"; Some "ERRNO_189";
  Some "ERRNO_190"; Some "ERRNO_191"; Some "ERRNO_192"; Some "ERRNO_193"; Some "ERRNO_194";
  Some "ERRNO_195"; Some "ERRNO_196"; Some "ERRNO_197"; Some "ERRNO_198"
].

(** errnoent.h, errors 199 to 338. *)
Definition errnoent_2 : list (option string) := [
  Some "ERRNO_199"; Some "ERRNO_200"; Some "ERRNO_201"; Some "ERRNO_202"; Some "ERRNO_203";
  Some "ERRNO_204"; Some "ERRNO_205"; Some "ERRNO_206"; Some "ERRNO_207"; Some "ERRNO_208";
  Some "ERRNO_209"; Some "ERRNO_210"; Some "ERRNO_211"; Some "ERRNO_212"; Some "ERRNO_213";
  Some "ERRNO_214"; Some "ERRNO_215"; Some "ERRNO_216"; Some "ERRNO_217"; Some "ERRNO_218";
  Some "ERRNO_219"; Some "ERRNO_220"; Some "ERRNO_221"; Some "ERRNO_222"; Some "ERRNO_223";
  Some "ERRNO_224"; Some "ERRNO_225"; Some "ERRNO_226"; Some "ERRNO_227"; Some "ERRNO_228";
  Some "ERRNO_229"; Some "ERRNO_230"; Some "ERRNO_231"; Some "ERRNO_232"; Some "ERRNO_233";
  Some "ERRNO_234"; Some "ERRNO_235"; Some "ERRNO_236"; Some "ERRNO_237"; Some "ERRNO_238";
  Some "ERRNO_239"; Some "ERRNO_240"; Some "ERRNO_241"; Some "ERRNO_242"; Some "ERRNO_243";
  Some "ERRNO_244"; Some "ERRNO_245"; Some "ERRNO_246"; Some "ERRNO_247"; Some "ERRNO_248";
  Some "ERRNO_249"; Some "ERRNO_250"; Some "ERRNO_251"; Some "ERRNO_252"; Some "ERRNO_253";
  Some "ERRNO_254"; Some "ERRNO_255"; Some "ERRNO_256"; Some "ERRNO_257"; Some "ERRNO_258";
  Some "ERRNO_259"; Some "ERRNO_260"; Some "ERRNO_261"; Some "ERRNO_262"; Some "ERRNO_263";
  Some "ERRNO_264"; Some "ERRNO_265"; Some "ERRNO_266"; Some "ERRNO_267"; Some "ERRNO_268";
  Some "ERRNO_269"; Some "ERRNO_270"; Some "ERRNO_271"; Some "ERRNO_272"; Some "ERRNO_273";
  Some "ERRNO_274"; Some "ERRNO_275"; Some "ERRNO_276"; Some "ERRNO_277"; Some "ERRNO_278";
  Some "ERRNO_279"; Some "ERRNO_280"; Some "ERRNO_281"; Some "ERRNO_282"; Some "ERRNO_283";
  Some "ERRNO_284"; Some "ERRNO_285"; Some "ERRNO_286"; Some "ERRNO_287"; Some "ERRNO_288";
  Some "ERRNO_289"; Some "ERRNO_290"; Some "ERRNO_291"; Some "ERRNO_292"; Some "ERRNO_293";
  Some "ERRNO_294"; Some "ERRNO_295"; Some "ERRNO_296"; Some "ERRNO_297"; Some "ERRNO_298";
  Some "ERRNO_299"; Some "ERRNO_300"; Some "ERRNO_301"; Some "ERRNO_302"; Some "ERRNO_303";
  Some "ERRNO_304"; Some "ERRNO_305"; Some "ERRNO_306"; Some "ERRNO_307"; Some "ERRNO_308";
  Some "ERRNO_309"; Some "ERRNO_310"; Some "ERRNO_311"; Some "ERRNO_312"; Some "ERRNO_313";
  Some "ERRNO_314"; Some "ERRNO_315"; Some "ERRNO_316"; Some "ERRNO_317"; Some "ERRNO_318";
  Some "ERRNO_319"; Some "ERRNO_320"; Some "ERRNO_321"; Some "ERRNO_322"; Some "ERRNO_323";
  Some "ERRNO_324"; Some "ERRNO_325"; Some "ERRNO_326"; Some "ERRNO_327"; Some "ERRNO_328";
  Some "ERRNO_329"; Some "ERRNO_330"; Some "ERRNO_331"; Some "ERRNO_332"; Some "ERRNO_333";
  Some "ERRNO_334"; Some "ERRNO_335"; Some "ERRNO_336"; Some "ERRNO_337"; Some "ERRNO_338"
].

(** errnoent.h, errors 339 to 478. *)
Definition errnoent_3 : list (option string) := [
  Some "ERRNO_339"; Some "ERRNO_340"; Some "ERRNO_341"; Some "ERRNO_342"; Some "ERRNO_343";
  Some "ERRNO_344"; Some "ERRNO_345"; Some "ERRNO_346"; Some "ERRNO_347"; Some "ERRNO_348";
  Some "ERRNO_349"; Some "ERRNO_350"; Some "ERRNO_351"; Some "ERRNO_352"; Some "ERRNO_353";
  Some "ERRNO_354"; Some "ERRNO_355"; Some "ERRNO_356"; Some "ERRNO_357"; Some "ERRNO_358";
  Some "ERRNO_359"; Some "ERRNO_360"; Some "ERRNO_361"; Some "ERRNO_362"; Some "ERRNO_363";
  Some "ERRNO_364"; Some "ERRNO_365"; Some "ERRNO_366"; Some "ERRNO_367"; Some "ERRNO_368";
  Some "ERRNO_369"; Some "ERRNO_370"; Some "ERRNO_371"; Some "ERRNO_372"; Some "ERRNO_373";
  Some "ERRNO_374"; Some "ERRNO_375"; Some "ERRNO_376"; Some "ERRNO_377"; Some "ERRNO_378";
  Some "ERRNO_379"; Some "ERRNO_380"; Some "ERRNO_381"; Some "ERRNO_382"; Some "ERRNO_383";
  Some "ERRNO_384"; Some "ERRNO_385"; Some "ERRNO_386"; Some "ERRNO_387"; Some "ERRNO_388";
  Some "ERRNO_389"; Some "ERRNO_390"; Some "ERRNO_391"; Some "ERRNO_392"; Some "ERRNO_393";
  Some "ERRNO_394"; Some "ERRNO_395"; Some "ERRNO_396"; Some "ERRNO_397"; Some "ERRNO_398";
  Some "ERRNO_399"; Some "ERRNO_400"; Some "ERRNO_401"; Some "ERRNO_402"; Some "ERRNO_403";
  Some "ERRNO_404"; Some "ERRNO_405"; Some "ERRNO_406"; Some "ERRNO_407"; Some "ERRNO_408";
  Some "ERRNO_409"; Some "ERRNO_410"; Some "ERRNO_411"; Some "ERRNO_412"; Some "ERRNO_413";
  Some "ERRNO_414"; Some "ERRNO_415"; Some "ERRNO_416"; Some "ERRNO_417"; Some "ERRNO_418";
  Some "ERRNO_419"; Some "ERRNO_420"; Some "ERRNO_421"; Some "ERRNO_422"; Some "ERRNO_423";
  Some "ERRNO_424"; Some "ERRNO_425"; Some "ERRNO_426"; Some "ERRNO_427"; Some "ERRNO_428";
  Some "ERRNO_429"; Some "ERRNO_430"; Some "ERRNO_431"; Some "ERRNO_432"; Some "ERRNO_433";
  Some "ERRNO_434"; Some "ERRNO_435"; Some "ERRNO_436"; Some "ERRNO_437"; Some "ERRNO_438";
  Some "ERRNO_439"; Some "ERRNO_440"; Some "ERRNO_441"; Some "ERRNO_442"; Some "ERRNO_443";
  Some "ERRNO_444"; Some "ERRNO_445"; Some "ERRNO_446"; Some "ERRNO_447"; Some "ERRNO_448";
  Some "ERRNO_449"; Some "ERRNO_450"; Some "ERRNO_451"; Some "ERRNO_452"; Some "ERRNO_453";
  Some "ERRNO_454"; Some "ERRNO_455"; Some "ERRNO_456"; Some "ERRNO_457"; Some "ERRNO_458";
  Some "ERRNO_459"; Some "ERRNO_460"; Some "ERRNO_461"; Some "ERRNO_462"; Some "ERRNO_463";
  Some "ERRNO_464"; Some "ERRNO_465"; Some "ERRNO_466"; Some "ERRNO_467"; Some "ERRNO_468";
  Some "ERRNO_469"; Some "ERRNO_470"; Some "ERRNO_471"; Some "ERRNO_472"; Some "ERRNO_473";
  Some "ERRNO_474"; Some "ERRNO_475"; Some "ERRNO_476"; Some "ERRNO_477"; Some "ERRNO_478"
].

(** errnoent.h, errors 479 to 530. *)
Definition errnoent_4 : list (option string) := [
  Some "ERRNO_479"; Some "ERRNO_480"; Some "ERRNO_481"; Some "ERRNO_482"; Some "ERRNO_483";
  Some "ERRNO_484"; Some "ERRNO_485"; Some "ERRNO_486"; Some "ERRNO_487"; Some "ERRNO_488";
  Some "ERRNO_489"; Some "ERRNO_490"; Some "ERRNO_491"; Some "ERRNO_492"; Some "ERRNO_493";
  Some "ERRNO_494"; Some "ERRNO_495"; Some "ERRNO_496"; Some "ERRNO_497"; Some "ERRNO_498";
  Some "ERRNO_499"; Some "ERRNO_500"; Some "ERRNO_501"; Some "ERRNO_502"; Some "ERRNO_503";
  Some "ERRNO_504"; Some "ERRNO_505"; Some "ERRNO_506"; Some "ERRNO_507"; Some "ERRNO_508";
  Some "ERRNO_509"; Some "ERRNO_510"; Some "ERRNO_511"; Some "ERESTARTSYS";
  Some "ERESTARTNOINTR"; Some "ERESTARTNOHAND"; Some "ENOIOCTLCMD";
  Some "ERESTART_RESTARTBLOCK"; Some "EPROBE_DEFER"; Some "EOPENSTALE"; Some "ERRNO_519";
  Some "ERRNO_520"; Some "EBADHANDLE"; Some "ENOTSYNC"; Some "EBADCOOKIE"; Some "ENOTSUPP";
  Some "ETOOSMALL"; Some "ESERVERFAULT"; Some "EBADTYPE"; Some "EJUKEBOX";
  Some "EIOCBQUEUED"; Some "ERECALLCONFLICT"
].

(** Error 58 depends on the architecture. *)
Definition errno_58 (a : arch) : option string :=
  match a with POWERPC => Some "EDEADLOCK" | _ => Some "ERRNO_58" end.

Definition errnoent (a : arch) : list (option string) :=
  errnoent_0 ++ [errno_58 a] ++ errnoent_1 ++ errnoent_2 ++ errnoent_3 ++ errnoent_4.

(** signalent.h. *)
Definition signalent : list (option string) := [
  Some "SIG_0"; Some "SIGHUP"; Some "SIGINT"; Some "SIGQUIT"; Some "SIGILL"; Some "SIGTRAP";
  Some "SIGABRT"; Some "SIGBUS"; Some "SIGFPE"; Some "SIGKILL"; Some "SIGUSR1";
  Some "SIGSEGV"; Some "SIGUSR2"; Some "SIGPIPE"; Some "SIGALRM"; Some "SIGTERM";
  Some "SIGSTKFLT"; Some "SIGCHLD"; Some "SIGCONT"; Some "SIGSTOP"; Some "SIGTSTP";
  Some "SIGTTIN"; Some "SIGTTOU"; Some "SIGURG"; Some "SIGXCPU"; Some "SIGXFSZ";
  Some "SIGVTALRM"; Some "SIGPROF"; Some "SIGWINCH"; Some "SIGIO"; Some "SIGPWR";
  Some "SIGSYS"; Some "SIGRTMIN"
].
