(* ===== verification/Name.v ===== *)
(** * name.c: names of system calls, errors, signals, events and socket calls *)

From Stdlib Require Import ZArith Lia String Ascii.
From stdpp Require Import base list numbers strings.
From S2P Require Import Prelude Config Kernel Trace TablesX86 TablesArm TablesPpc TablesErrno.
Local Open Scope string_scope.
Local Open Scope list_scope.
Local Open Scope Z_scope.

(** ** Tables by ABI *)

Definition sysent_vec (c : config) : list (list (option string)) :=
  match PINK_ARCH c with
  | AARCH64 => [aarch64_syscallent; arm_syscallent]
  | ARM => [arm_syscallent]
  | POWERPC => if PINK_ARCH_POWERPC64 c then [powerpc_syscallent; powerpc_syscallent]
               else [powerpc_syscallent]
  | I386 => [i386_syscallent]
  | X86_64 => [x86_64_syscallent; i386_syscallent; x32_syscallent]
  | X32 => [x32_syscallent; i386_syscallent]
  end.

Definition errnoent_vec (c : config) : list (list (option string)) :=
  replicate (Z.to_nat (PINK_ABIS_SUPPORTED c)) (errnoent (PINK_ARCH c)).

Definition signalent_vec (c : config) : list (list (option string)) :=
  replicate (Z.to_nat (PINK_ABIS_SUPPORTED c)) signalent.

(** ** Translation tables *)

(** [struct xlat]: an entry without a string ends the table. *)
Record xlat : Type := Xlat { xstr : option string; xval : Z }.

Definition events : list xlat := [
  Xlat (Some "FORK") (event_code PINK_EVENT_FORK);
  Xlat (Some "VFORK") (event_code PINK_EVENT_VFORK);
  Xlat (Some "CLONE") (event_code PINK_EVENT_CLONE);
  Xlat (Some "EXEC") (event_code PINK_EVENT_EXEC);
  Xlat (Some "VFORK_DONE") (event_code PINK_EVENT_VFORK_DONE);
  Xlat (Some "EXIT") (event_code PINK_EVENT_EXIT);
  Xlat (Some "SECCOMP") (event_code PINK_EVENT_SECCOMP);
  Xlat (Some "STOP") (event_code PINK_EVENT_STOP);
  Xlat None 0
].

Inductive pink_socket_subcall : Type :=
| PINK_SOCKET_SUBCALL_SOCKET | PINK_SOCKET_SUBCALL_BIND | PINK_SOCKET_SUBCALL_CONNECT
| PINK_SOCKET_SUBCALL_LISTEN | PINK_SOCKET_SUBCALL_ACCEPT
| PINK_SOCKET_SUBCALL_GETSOCKNAME | PINK_SOCKET_SUBCALL_GETPEERNAME
| PINK_SOCKET_SUBCALL_SOCKETPAIR | PINK_SOCKET_SUBCALL_SEND | PINK_SOCKET_SUBCALL_RECV
| PINK_SOCKET_SUBCALL_SENDTO | PINK_SOCKET_SUBCALL_RECVFROM
| PINK_SOCKET_SUBCALL_SHUTDOWN | PINK_SOCKET_SUBCALL_SETSOCKOPT
| PINK_SOCKET_SUBCALL_GETSOCKOPT | PINK_SOCKET_SUBCALL_SENDMSG
| PINK_SOCKET_SUBCALL_RECVMSG | PINK_SOCKET_SUBCALL_ACCEPT4.

Definition subcall_code (s : pink_socket_subcall) : Z :=
  match s with
  | PINK_SOCKET_SUBCALL_SOCKET => 1 | PINK_SOCKET_SUBCALL_BIND => 2
  | PINK_SOCKET_SUBCALL_CONNECT => 3 | PINK_SOCKET_SUBCALL_LISTEN => 4
  | PINK_SOCKET_SUBCALL_ACCEPT => 5 | PINK_SOCKET_SUBCALL_GETSOCKNAME => 6
  | PINK_SOCKET_SUBCALL_GETPEERNAME => 7 | PINK_SOCKET_SUBCALL_SOCKETPAIR => 8
  | PINK_SOCKET_SUBCALL_SEND => 9 | PINK_SOCKET_SUBCALL_RECV => 10
  | PINK_SOCKET_SUBCALL_SENDTO => 11 | PINK_SOCKET_SUBCALL_RECVFROM => 12
  | PINK_SOCKET_SUBCALL_SHUTDOWN => 13 | PINK_SOCKET_SUBCALL_SETSOCKOPT => 14
  | PINK_SOCKET_SUBCALL_GETSOCKOPT => 15 | PINK_SOCKET_SUBCALL_SENDMSG => 16
  | PINK_SOCKET_SUBCALL_RECVMSG => 17 | PINK_SOCKET_SUBCALL_ACCEPT4 => 18
  end.

Definition socket_subcalls : list xlat := [
  Xlat (Some "bind") (subcall_code PINK_SOCKET_SUBCALL_BIND);
  Xlat (Some "connect") (subcall_code PINK_SOCKET_SUBCALL_CONNECT);
  Xlat (Some "listen") (subcall_code PINK_SOCKET_SUBCALL_LISTEN);
  Xlat (Some "accept") (subcall_code PINK_SOCKET_SUBCALL_ACCEPT);
  Xlat (Some "getsockname") (subcall_code PINK_SOCKET_SUBCALL_GETSOCKNAME);
  Xlat (Some "getpeername") (subcall_code PINK_SOCKET_SUBCALL_GETPEERNAME);
  Xlat (Some "socketpair") (subcall_code PINK_SOCKET_SUBCALL_SOCKETPAIR);
  Xlat (Some "send") (subcall_code PINK_SOCKET_SUBCALL_SEND);
  Xlat (Some "recv") (subcall_code PINK_SOCKET_SUBCALL_RECV);
  Xlat (Some "sendto") (subcall_code PINK_SOCKET_SUBCALL_SENDTO);
  Xlat (Some "recvfrom") (subcall_code PINK_SOCKET_SUBCALL_RECVFROM);
  Xlat (Some "shutdown") (subcall_code PINK_SOCKET_SUBCALL_SHUTDOWN);
  Xlat (Some "setsockopt") (subcall_code PINK_SOCKET_SUBCALL_SETSOCKOPT);
  Xlat (Some "getsockopt") (subcall_code PINK_SOCKET_SUBCALL_GETSOCKOPT);
  Xlat (Some "sendmsg") (subcall_code PINK_SOCKET_SUBCALL_SENDMSG);
  Xlat (Some "recvmsg") (subcall_code PINK_SOCKET_SUBCALL_RECVMSG);
  Xlat (Some "accept4") (subcall_code PINK_SOCKET_SUBCALL_ACCEPT4);
  Xlat None 0
].

(** The families of the source's table, in its order. *)
Definition addrfam_names : list string := [
  "AF_ALG"; "AF_APPLETALK"; "AF_ASH"; "AF_ATMPVC"; "AF_ATMSVC"; "AF_AX25"; "AF_BLUETOOTH";
  "AF_BRIDGE"; "AF_CAIF"; "AF_CAN"; "AF_DECnet"; "AF_ECONET"; "AF_FILE"; "AF_IB";
  "AF_IEEE802154"; "AF_IMPLINK"; "AF_INET"; "AF_INET6"; "AF_IPX"; "AF_IRDA"; "AF_ISDN";
  "AF_ISO"; "AF_IUCV"; "AF_KCM"; "AF_KEY"; "AF_LLC"; "AF_LOCAL"; "AF_MAX"; "AF_MPLS";
  "AF_NETBEUI"; "AF_NETLINK"; "AF_NETROM"; "AF_NFC"; "AF_PACKET"; "AF_PHONET"; "AF_PPPOX";
  "AF_QIPCRTR"; "AF_RDS"; "AF_ROSE"; "AF_ROUTE"; "AF_RXRPC"; "AF_SECURITY"; "AF_SNA";
  "AF_SMC"; "AF_TIPC"; "AF_UNIX"; "AF_UNSPEC"; "AF_VSOCK"; "AF_WANPIPE"; "AF_X25"; "AF_XDP"
].

(** [addrfams]: [af] is the C library's header, the value of each AF_ macro that
    it defines; the others are left out by [#ifdef]. *)
Definition addrfams (af : string -> option Z) : list xlat :=
  omap (fun n => v ← af n; Some (Xlat (Some n) v)) addrfam_names ++ [Xlat None 0].

(** [xname]: the loop stops at the entry without a string. *)
Fixpoint xname (x : list xlat) (val : Z) : option string :=
  match x with
  | [] => None
  | e :: x' =>
      match xstr e with
      | None => None
      | Some s => if xval e =? val then Some s else xname x' val
      end
  end.

Fixpoint xlookup_loop (x : list xlat) (str : string) : Z :=
  match x with
  | [] => -1
  | e :: x' =>
      match xstr e with
      | None => -1
      | Some s => if String.eqb str s then xval e else xlookup_loop x' str
      end
  end.

(** [str] is a C string, [None] the null pointer. *)
Definition xlookup (x : list xlat) (str : option string) : Z :=
  match str with
  | None => -1
  | Some s => if String.eqb s "" then -1 else xlookup_loop x s
  end.

Definition pink_name_event (event : Z) : option string := xname events event.
Definition pink_lookup_event (name : option string) : Z := xlookup events name.
Definition pink_name_socket_family (af : string -> option Z) (family : Z) : option string :=
  xname (addrfams af) family.
Definition pink_lookup_socket_family (af : string -> option Z) (name : option string) : Z :=
  xlookup (addrfams af) name.
Definition pink_name_socket_subcall (subcall : Z) : option string :=
  xname socket_subcalls subcall.
Definition pink_lookup_socket_subcall (name : option string) : Z :=
  xlookup socket_subcalls name.

(** ** System call numbers *)

Definition ARM_FIRST_SHUFFLED_SYSCALL : Z := 388.
Definition ARM_LAST_SPECIAL_SYSCALL : Z := 5.
Definition ARM_SECOND_SHUFFLED_SYSCALL : Z := ARM_FIRST_SHUFFLED_SYSCALL + 1.

(** [shuffle_scno]; the argument is converted to [unsigned long]. *)
Definition shuffle_scno (c : config) (scno : Z) : Z :=
  match PINK_ARCH c with
  | ARM | AARCH64 =>
      let scno := to_ulong c scno in
      if scno <? ARM_FIRST_SHUFFLED_SYSCALL then to_long c scno
      else if scno =? ARM_FIRST_SHUFFLED_SYSCALL then 0x000ffff0
      else if scno =? 0x000ffff0 then ARM_FIRST_SHUFFLED_SYSCALL
      else if (0x000f0000 <=? scno) && (scno <=? 0x000f0000 + ARM_LAST_SPECIAL_SYSCALL) then
        to_long c (to_ulong c (scno - 0x000f0000 + ARM_SECOND_SHUFFLED_SYSCALL))
      else if scno <=? ARM_SECOND_SHUFFLED_SYSCALL + ARM_LAST_SPECIAL_SYSCALL then
        to_long c (to_ulong c (scno + 0x000f0000 - ARM_SECOND_SHUFFLED_SYSCALL))
      else to_long c scno
  | _ => to_long c scno
  end.

(** The table of an ABI, when the ABI exists. *)
Definition abi_table (c : config) (vec : list (list (option string))) (abi : Z)
  : option (list (option string)) :=
  if (abi <? 0) || (PINK_ABIS_SUPPORTED c <=? abi) then None else vec !! Z.to_nat abi.

(** [ent[n]] with the bounds check of the name functions. *)
Definition table_name (ent : list (option string)) (n : Z) : option string :=
  if (n <? 0) || (Z.of_nat (length ent) <=? n) then None else mjoin (ent !! Z.to_nat n).

(** The first entry equal to [name], by number. *)
Fixpoint table_find (ent : list (option string)) (name : string) (i : Z) : option Z :=
  match ent with
  | [] => None
  | e :: ent' =>
      if match e with Some s => String.eqb s name | None => false end then Some i
      else table_find ent' name (i + 1)
  end.

(** The guards of the lookup functions: a null pointer, an empty name or an
    unknown ABI is -1. *)
Definition table_lookup (c : config) (vec : list (list (option string)))
    (name : option string) (abi : Z) : option Z :=
  match name with
  | None => None
  | Some s =>
      if String.eqb s "" then None
      else ent ← abi_table c vec abi; table_find ent s 0
  end.

Definition pink_name_syscall (c : config) (scno abi : Z) : option string :=
  ent ← abi_table c (sysent_vec c) abi; table_name ent (shuffle_scno c scno).

Definition pink_lookup_syscall (c : config) (name : option string) (abi : Z) : Z :=
  match table_lookup c (sysent_vec c) name abi with
  | Some scno => shuffle_scno c scno
  | None => -1
  end.

Definition pink_name_errno (c : config) (err_no abi : Z) : option string :=
  ent ← abi_table c (errnoent_vec c) abi; table_name ent err_no.

Definition pink_lookup_errno (c : config) (name : option string) (abi : Z) : Z :=
  default (-1) (table_lookup c (errnoent_vec c) name abi).

Definition pink_name_signal (c : config) (sig abi : Z) : option string :=
  ent ← abi_table c (signalent_vec c) abi; table_name ent sig.

Definition pink_lookup_signal (c : config) (name : option string) (abi : Z) : Z :=
  default (-1) (table_lookup c (signalent_vec c) name abi).

(** ** Properties *)

(** The permutation of the unsigned numbers that [shuffle_scno] computes. *)
Definition shuffle_u (c : config) (n : Z) : Z :=
  match PINK_ARCH c with
  | ARM | AARCH64 =>
      if n <? 388 then n
      else if n =? 388 then 0xffff0
      else if n =? 0xffff0 then 388
      else if (0xf0000 <=? n) && (n <=? 0xf0005) then n - 0xf0000 + 389
      else if n <=? 394 then n + 0xf0000 - 389 else n
  | _ => n
  end.

Lemma pow32_bits c : 4294967296 <= 2 ^ bits_long c.
Proof. unfold bits_long. destruct (sizeof_long_cases c) as [-> | ->]; simpl; lia. Qed.

Lemma shuffle_u_range c n : 0 <= n < 2 ^ bits_long c -> 0 <= shuffle_u c n < 2 ^ bits_long c.
Proof.
  intros H. pose proof (pow32_bits c). unfold shuffle_u.
  destruct (PINK_ARCH c); try done; repeat case_match; lia.
Qed.

Lemma shuffle_u_involutive c n : 0 <= n -> shuffle_u c (shuffle_u c n) = n.
Proof.
  intros H. unfold shuffle_u.
  destruct (PINK_ARCH c); try done; repeat case_match; lia.
Qed.

Lemma shuffle_scno_u c n : to_ulong c (shuffle_scno c n) = shuffle_u c (to_ulong c n).
Proof.
  pose proof (bits_long_pos c) as Hb. pose proof (pow32_bits c) as H32.
  assert (Hn : 0 <= to_ulong c n < 2 ^ bits_long c) by (apply wrapu_range; lia).
  assert (Hul : forall z, to_ulong c (to_long c z) = to_ulong c z)
    by (intros; by apply wrapu_wraps).
  assert (Huu : forall z, to_ulong c (to_ulong c z) = to_ulong c z)
    by (intros; apply wrapu_wrapu; lia).
  assert (Hu : forall z, 0 <= z < 2 ^ bits_long c -> to_ulong c z = z)
    by (intros; by apply wrapu_small).
  unfold shuffle_scno, shuffle_u, ARM_SECOND_SHUFFLED_SYSCALL, ARM_FIRST_SHUFFLED_SYSCALL,
    ARM_LAST_SPECIAL_SYSCALL.
  destruct (PINK_ARCH c); rewrite ?Hul; try done;
    change (983040 + 5) with 983045; change (388 + 1 + 5) with 394;
    repeat case_match; rewrite ?Hul, ?Huu; try done; apply Hu; lia.
Qed.

Lemma shuffle_scno_long c n : to_long c (shuffle_scno c n) = shuffle_scno c n.
Proof.
  assert (Hll : forall z, to_long c (to_long c z) = to_long c z).
  { intros z. pose proof (bits_long_pos c). apply wraps_small; [done|]. by apply wraps_range. }
  unfold shuffle_scno.
  destruct (PINK_ARCH c); rewrite ?Hll; try done; repeat case_match; rewrite ?Hll; try done;
    apply wraps_small; try apply bits_long_pos; unfold bits_long, ARM_FIRST_SHUFFLED_SYSCALL;
    destruct (sizeof_long_cases c) as [-> | ->]; simpl; lia.
Qed.

Lemma shuffle_scno_twice c scno :
  shuffle_scno c (shuffle_scno c scno) = to_long c scno.
Proof.
  pose proof (bits_long_pos c) as Hb.
  assert (Hlu : forall z, to_long c (to_ulong c z) = to_long c z)
    by (intros; by apply wraps_wrapu).
  rewrite <- (shuffle_scno_long c (shuffle_scno c scno)), <- Hlu.
  rewrite !shuffle_scno_u, shuffle_u_involutive by (apply wrapu_range; lia).
  apply Hlu.
Qed.

(** [shuffle_scno] is an involution on every [long], as its comment asks, on
    every architecture, and agrees with a permutation of the unsigned numbers. *)
Theorem shuffle_scno_involution c scno :
  shuffle_scno c (shuffle_scno c scno) = to_long c scno /\
  to_ulong c (shuffle_scno c scno) = shuffle_u c (to_ulong c scno).
Proof. split; [apply shuffle_scno_twice | apply shuffle_scno_u]. Qed.

(** ** Names and numbers *)

(** No name occurs twice in a table and none is empty. *)
Fixpoint distinct_names (ent : list (option string)) : bool :=
  match ent with
  | [] => true
  | e :: ent' =>
      match e with
      | None => true
      | Some s => negb (String.eqb s "") &&
          forallb (fun e' => match e' with Some s' => negb (String.eqb s s') | None => true end) ent'
      end && distinct_names ent'
  end.

Lemma table_find_sound ent s i n :
  table_find ent s i = Some n ->
  i <= n < i + Z.of_nat (length ent) /\ ent !! Z.to_nat (n - i) = Some (Some s).
Proof.
  revert i. induction ent as [|e ent IH]; intros i H; simpl in H; [done|].
  destruct e as [s'|]; [destruct (String.eqb_spec s' s) as [->|]|].
  - simplify_eq. rewrite Z.sub_diag. simpl. split; [lia | done].
  - apply IH in H as [Hr Hl]. split; [simpl; lia|].
    by replace (Z.to_nat (n - i)) with (S (Z.to_nat (n - (i + 1)))) by lia.
  - apply IH in H as [Hr Hl]. split; [simpl; lia|].
    by replace (Z.to_nat (n - i)) with (S (Z.to_nat (n - (i + 1)))) by lia.
Qed.

Lemma table_find_complete ent s j i :
  distinct_names ent = true -> ent !! j = Some (Some s) ->
  table_find ent s i = Some (i + Z.of_nat j).
Proof.
  revert i j. induction ent as [|e ent IH]; intros i j Hd Hl; [done|].
  simpl in Hd. apply andb_prop in Hd as [Hh Hd].
  destruct j as [|j]; simpl in Hl.
  - simplify_eq. cbn [table_find]. rewrite String.eqb_refl. f_equal. lia.
  - cbn [table_find]. destruct e as [s'|]; [destruct (String.eqb_spec s' s) as [->|]|].
    + apply andb_prop in Hh as [_ Hf]. rewrite forallb_forall in Hf.
      specialize (Hf (Some s)). simpl in Hf. rewrite String.eqb_refl in Hf.
      exfalso. cut (negb true = true); [done|]. apply Hf.
      apply list_elem_of_In, list_elem_of_lookup. eauto.
    + rewrite (IH _ j) by done. f_equal. lia.
    + rewrite (IH _ j) by done. f_equal. lia.
Qed.

Lemma distinct_nonempty ent j s :
  distinct_names ent = true -> ent !! j = Some (Some s) -> s <> "".
Proof.
  revert j. induction ent as [|e ent IH]; intros j Hd Hl; [done|].
  simpl in Hd. apply andb_prop in Hd as [Hh Hd]. destruct j as [|j]; simpl in Hl; [|by eapply IH].
  simplify_eq. apply andb_prop in Hh as [Hh _]. intros ->. done.
Qed.

(** In a table of distinct names, the name at a number and the number of a name
    are inverse. *)
Lemma table_inverse c vec abi s n :
  (forall ent, ent ∈ vec -> distinct_names ent = true) ->
  table_lookup c vec (Some s) abi = Some n <->
  (ent ← abi_table c vec abi; table_name ent n) = Some s.
Proof.
  intros Hv. unfold table_lookup.
  destruct (abi_table c vec abi) as [ent|] eqn:Ht; simpl; cycle 1.
  { destruct (String.eqb s ""); split; done. }
  assert (Hd : distinct_names ent = true).
  { apply Hv. unfold abi_table in Ht. case_match; [done|].
    apply list_elem_of_lookup. eauto. }
  split.
  - destruct (String.eqb_spec s ""); [done|]. intros Hf.
    apply table_find_sound in Hf as [Hr Hl]. rewrite Z.sub_0_r in Hl. unfold table_name.
    destruct (Z.ltb_spec n 0), (Z.leb_spec (Z.of_nat (length ent)) n); try lia.
    simpl. by rewrite Hl.
  - unfold table_name. intros Hn.
    destruct (Z.ltb_spec n 0), (Z.leb_spec (Z.of_nat (length ent)) n); try done.
    simpl in Hn.
    destruct (ent !! Z.to_nat n) as [[s'|]|] eqn:Hl; simplify_eq/=.
    pose proof (distinct_nonempty _ _ _ Hd Hl).
    destruct (String.eqb_spec s ""); [done|].
    rewrite (table_find_complete _ _ _ 0 Hd Hl). f_equal. lia.
Qed.

Lemma sysent_distinct c ent : ent ∈ sysent_vec c -> distinct_names ent = true.
Proof.
  revert ent. apply Forall_forall. unfold sysent_vec.
  assert (H1 : distinct_names aarch64_syscallent = true) by (vm_compute; reflexivity).
  assert (H2 : distinct_names arm_syscallent = true) by (vm_compute; reflexivity).
  assert (H3 : distinct_names powerpc_syscallent = true) by (vm_compute; reflexivity).
  assert (H4 : distinct_names i386_syscallent = true) by (vm_compute; reflexivity).
  assert (H5 : distinct_names x86_64_syscallent = true) by (vm_compute; reflexivity).
  assert (H6 : distinct_names x32_syscallent = true) by (vm_compute; reflexivity).
  destruct (PINK_ARCH c), (PINK_ARCH_POWERPC64 c); repeat apply Forall_cons_2;
    try apply Forall_nil_2; assumption.
Qed.

Lemma errnoent_distinct c ent : ent ∈ errnoent_vec c -> distinct_names ent = true.
Proof.
  intros [-> _]%elem_of_replicate.
  assert (H1 : distinct_names (errnoent POWERPC) = true) by (vm_compute; reflexivity).
  assert (H2 : distinct_names (errnoent X86_64) = true) by (vm_compute; reflexivity).
  destruct (PINK_ARCH c); assumption.
Qed.

Lemma signalent_distinct c ent : ent ∈ signalent_vec c -> distinct_names ent = true.
Proof. intros [-> _]%elem_of_replicate. vm_compute. reflexivity. Qed.

(** The results of a successful search are small numbers. *)
Lemma table_lookup_bound c vec name abi n :
  (forall ent, ent ∈ vec -> (length ent < 1000)%nat) ->
  table_lookup c vec name abi = Some n -> 0 <= n < 1000.
Proof.
  intros Hv. unfold table_lookup. destruct name as [s|]; [|done].
  destruct (String.eqb s ""); [done|].
  destruct (abi_table c vec abi) as [ent|] eqn:Ht; [|done]. simpl. intros H.
  apply table_find_sound in H as [Hr _]. unfold abi_table in Ht. case_match; [done|].
  pose proof (Hv ent ltac:(apply list_elem_of_lookup; eauto)). lia.
Qed.

Lemma sysent_short c ent : ent ∈ sysent_vec c -> (length ent < 1000)%nat.
Proof.
  revert ent. apply Forall_forall. unfold sysent_vec.
  destruct (PINK_ARCH c), (PINK_ARCH_POWERPC64 c); repeat apply Forall_cons_2;
    try apply Forall_nil_2; apply Nat.ltb_lt; vm_compute; reflexivity.
Qed.

Lemma shuffle_scno_neg1 c n : to_long c n = -1 -> 0 <= shuffle_scno c n < 1000 -> False.
Proof.
  intros Hn Hr. pose proof (shuffle_scno_u c n) as Hs. pose proof (pow32_bits c) as H32.
  assert (Hu : to_ulong c n = 2 ^ bits_long c - 1).
  { unfold to_ulong. rewrite <- (wrapu_wraps (bits_long c) n) by apply bits_long_pos.
    fold (to_long c n). rewrite Hn. unfold wrapu. symmetry. apply (Zmod_unique _ _ (-1)); lia. }
  rewrite Hu in Hs. unfold to_ulong in Hs. rewrite wrapu_small in Hs by lia.
  unfold shuffle_u in Hs. destruct (PINK_ARCH c); repeat case_match; lia.
Qed.

Lemma syscall_inverse c abi s n :
  to_long c n = n ->
  pink_lookup_syscall c (Some s) abi = n /\ n <> -1 <-> pink_name_syscall c n abi = Some s.
Proof.
  intros Hn. unfold pink_name_syscall.
  rewrite <- (table_inverse c _ abi s _ (sysent_distinct c)). unfold pink_lookup_syscall.
  pose proof (table_lookup_bound c (sysent_vec c) (Some s) abi) as Hb.
  split.
  - intros [H Hne]. destruct (table_lookup _ _ _ _) as [m|]; [|done].
    specialize (Hb m (sysent_short c) eq_refl).
    rewrite <- H, shuffle_scno_twice. f_equal. symmetry. apply wraps_small; [apply bits_long_pos|].
    unfold bits_long. destruct (sizeof_long_cases c) as [-> | ->]; simpl; lia.
  - intros H. rewrite H in Hb |- *. rewrite shuffle_scno_twice. split; [done|].
    intros ->. eapply shuffle_scno_neg1; [done | by apply Hb; [apply sysent_short|]].
Qed.

(** C13. The name of a system call number and the number of a system call name
    are inverse, for every architecture and every ABI: a number other than the
    failure value -1 is found for a name exactly when it has that name. *)
Theorem pink_syscall_names_inverse c abi s n :
  to_long c n = n ->
  pink_lookup_syscall c (Some s) abi = n /\ n <> -1 <-> pink_name_syscall c n abi = Some s.
Proof. apply syscall_inverse. Qed.

Lemma pink_syscall_names_inverse_witness :
  pink_lookup_syscall aarch64_linux (Some "set_tls") 1 = 0xf0005 /\
  pink_name_syscall x86_64_linux 59 0 = Some "execve".
Proof.
  split.
  - apply (pink_syscall_names_inverse aarch64_linux 1 "set_tls" 0xf0005); vm_compute; reflexivity.
  - apply (pink_syscall_names_inverse x86_64_linux 0 "execve" 59); [reflexivity|].
    vm_compute. split; [reflexivity | discriminate].
Defined.

Lemma default_lookup_inverse c vec abi s n :
  (forall ent, ent ∈ vec -> distinct_names ent = true) ->
  default (-1) (table_lookup c vec (Some s) abi) = n /\ n <> -1 <->
  (ent ← abi_table c vec abi; table_name ent n) = Some s.
Proof.
  intros Hd. rewrite <- (table_inverse c _ abi s n Hd).
  destruct (table_lookup c vec (Some s) abi) as [m|] eqn:Hl; simpl; split.
  - by intros [-> _].
  - intros [= ->]. split; [done|]. intros ->.
    apply (table_inverse c vec abi s (-1) Hd) in Hl.
    destruct (abi_table c vec abi) as [ent|]; simpl in Hl; [|done].
    unfold table_name in Hl. done.
  - by intros [<- ?].
  - done.
Qed.

(** Error and signal names and numbers are inverse in the same sense, on
    every architecture and for every ABI. *)
Theorem pink_errno_signal_names_inverse c abi s n :
  (pink_lookup_errno c (Some s) abi = n /\ n <> -1 <-> pink_name_errno c n abi = Some s) /\
  (pink_lookup_signal c (Some s) abi = n /\ n <> -1 <-> pink_name_signal c n abi = Some s).
Proof.
  split; apply default_lookup_inverse; [apply errnoent_distinct | apply signalent_distinct].
Qed.

(** ** Agreement between the ABIs of the 64-bit build *)

(** The table marks the calls that x32 shares with x86-64 by a suffix. *)
Fixpoint strip_mark (s : string) : string :=
  match s with
  | EmptyString => EmptyString
  | String a s' => if Ascii.eqb a "#"%char then EmptyString else String a (strip_mark s')
  end.

Lemma range_decide (P : Z -> Prop) `{!forall n, Decision (P n)} lo hi n :
  forallb (fun n => bool_decide (P n)) (seqZ lo (hi - lo)) = true -> lo <= n < hi -> P n.
Proof.
  intros Hf Hn. rewrite forallb_forall in Hf. eapply bool_decide_eq_true_1, Hf.
  apply list_elem_of_In, elem_of_seqZ. lia.
Qed.

(** x32 and x86-64 share the kernel's numbers below 512.  The names of the
    two tables agree (up to the mark) for 0 to 243, but from 245 to 510 the x32
    table answers with the name of the next number: the entry of 244 has no comma
    after it, so it swallows "mq_getsetattr", which has no x32 number. *)
Theorem x32_names_shifted n :
  let x32 n := strip_mark <$> pink_name_syscall x86_64_linux n (PINK_ABI_X32 x86_64_linux) in
  let x86_64 n := pink_name_syscall x86_64_linux n PINK_ABI_X86_64 in
  (0 <= n < 244 -> x32 n = x86_64 n) /\
  (245 <= n < 511 -> x32 n = x86_64 (n + 1)) /\
  pink_name_syscall x86_64_linux 244 (PINK_ABI_X32 x86_64_linux)
    = Some "mq_notify#64mq_getsetattr" /\
  pink_lookup_syscall x86_64_linux (Some "mq_getsetattr") (PINK_ABI_X32 x86_64_linux) = -1.
Proof.
  intros x32 x86_64. split_and!; [| |vm_compute; reflexivity..].
  - apply (range_decide (fun n => x32 n = x86_64 n)). vm_compute. reflexivity.
  - apply (range_decide (fun n => x32 n = x86_64 (n + 1))). vm_compute. reflexivity.
Qed.

Lemma x32_names_shifted_witness :
  strip_mark <$> pink_name_syscall x86_64_linux 257 2 = Some "mkdirat" /\
  pink_name_syscall x86_64_linux 257 0 = Some "openat".
Proof.
  pose proof (proj1 (proj2 (x32_names_shifted 257)) ltac:(lia)) as H.
  split; [etransitivity; [exact H|] |]; vm_compute; reflexivity.
Defined.

(** ** Translation tables *)

(** No string occurs twice before the end of the table and none is empty. *)
Fixpoint distinct_xlat (x : list xlat) : bool :=
  match x with
  | [] => true
  | e :: x' =>
      match xstr e with
      | None => true
      | Some s => negb (String.eqb s "") &&
          forallb (fun e' => negb (bool_decide (xstr e' = Some s))) x' && distinct_xlat x'
      end
  end.

Lemma xname_In x v s : xname x v = Some s -> Xlat (Some s) v ∈ x.
Proof.
  induction x as [|[[s'|] v'] x IH]; simpl; [done| |done].
  destruct (Z.eqb_spec v' v) as [->|]; [intros [= ->]; by left | right; auto].
Qed.

Lemma xlookup_name x v s :
  distinct_xlat x = true -> xname x v = Some s -> xlookup x (Some s) = v.
Proof.
  intros Hd Hn. assert (Hs : s <> "").
  { revert Hd Hn. induction x as [|[[s'|] v'] x IH]; simpl; [done| |done].
    intros [[H1 _]%andb_prop H2]%andb_prop. case_match; [|auto].
    intros [= <-] ->. done. }
  unfold xlookup. destruct (String.eqb_spec s "") as [|_]; [done|].
  revert Hd Hn. induction x as [|[[s'|] v'] x IH]; simpl; [done| |done].
  intros [[_ H1]%andb_prop H2]%andb_prop Hn. destruct (String.eqb_spec s s') as [->|].
  - destruct (Z.eqb_spec v' v); [done|]. apply xname_In in Hn.
    rewrite forallb_forall in H1. apply list_elem_of_In, H1 in Hn. simpl in Hn.
    by rewrite bool_decide_true in Hn.
  - destruct (Z.eqb_spec v' v); [congruence | auto].
Qed.

(** Which families the C library defines does not matter. *)
Lemma addrfams_distinct af names :
  NoDup names -> "" ∉ names ->
  distinct_xlat (omap (fun n => v ← af n; Some (Xlat (Some n) v)) names ++ [Xlat None 0]) = true.
Proof.
  intros Hd. induction Hd as [|n names Hn Hd IH]; intros He; [done|].
  apply not_elem_of_cons in He as [Hne He]. cbn [omap list_omap].
  destruct (af n) as [v|]; simpl; [|auto].
  rewrite IH, andb_true_r by done. destruct (String.eqb_spec n ""); [congruence|]. simpl.
  apply forallb_forall. intros e [He'|He']%list_elem_of_In%elem_of_app.
  - apply list_elem_of_omap in He' as (m & Hm & Hv).
    destruct (af m); simplify_eq/=. rewrite bool_decide_false; [done | congruence].
  - apply list_elem_of_singleton in He' as ->. done.
Qed.

(** In each of the three translation tables the value found for a name is
    the value that has that name: for events, for the subcalls of socketcall(2),
    and for address families whatever set of them the C library defines. *)
Theorem pink_name_lookup_round_trip af v s :
  (pink_name_event v = Some s -> pink_lookup_event (Some s) = v) /\
  (pink_name_socket_subcall v = Some s -> pink_lookup_socket_subcall (Some s) = v) /\
  (pink_name_socket_family af v = Some s -> pink_lookup_socket_family af (Some s) = v).
Proof.
  split_and!; apply xlookup_name; [vm_compute; reflexivity..|].
  apply addrfams_distinct.
  - apply (bool_decide_eq_true_1 (NoDup addrfam_names)). vm_compute. reflexivity.
  - apply (bool_decide_eq_true_1 ("" ∉ addrfam_names)). vm_compute. reflexivity.
Qed.

(** The Linux values of four families. *)
Definition linux_af (n : string) : option Z :=
  if String.eqb n "AF_FILE" then Some 1 else if String.eqb n "AF_UNIX" then Some 1
  else if String.eqb n "AF_INET" then Some 2 else if String.eqb n "AF_INET6" then Some 10
  else None.

(** AF_FILE and AF_UNIX are the same number; the first of the table names it. *)
Lemma pink_name_lookup_round_trip_witness :
  pink_name_socket_family linux_af 1 = Some "AF_FILE" /\
  pink_lookup_socket_family linux_af (Some "AF_FILE") = 1 /\
  pink_lookup_socket_family linux_af (Some "AF_UNIX") = 1.
Proof.
  split; [reflexivity|]. split; [|reflexivity].
  exact (proj2 (proj2 (pink_name_lookup_round_trip linux_af 1 "AF_FILE")) eq_refl).
Defined.

(** Every event and every subcall of socketcall(2) has a name, but for
    PINK_EVENT_NONE and for socket(2) itself, which the table leaves out. *)
Lemma pink_names_total e sc :
  (pink_name_event (event_code e) = None <-> e = PINK_EVENT_NONE) /\
  (pink_name_socket_subcall (subcall_code sc) = None <-> sc = PINK_SOCKET_SUBCALL_SOCKET).
Proof. split; [destruct e | destruct sc]; vm_compute; done. Qed.
