(* ===== verification/Regset.v ===== *)
(** * regset.c: the register set of a tracee

    The state [struct pink_regset] keeps (the vector handed to ptrace(2), the
    registers, the ABI) and the operations that allocate and fill it. *)

From Stdlib Require Import ZArith Lia.
From stdpp Require Import base list numbers gmap.
From coqutil Require Import Byte Word.LittleEndianList.
From S2P Require Import Prelude Config Kernel Layout Sim Trace.
Local Open Scope Z_scope.
Local Open Scope c_scope.

(** [rs_iov_base] says whether [iov_base] points to [rs_regs] (it is null before
    the first fill); architectures without a vector leave both at their value. *)
Record pink_regset : Type := Regset {
  rs_iov_base : bool;
  rs_iov_len : Z;
  rs_regs : list byte;
  rs_abi : Z;
}.

Definition set_abi (r : pink_regset) (abi : Z) : pink_regset :=
  Regset (rs_iov_base r) (rs_iov_len r) (rs_regs r) abi.
Definition set_iov_len (r : pink_regset) (len : Z) : pink_regset :=
  Regset (rs_iov_base r) len (rs_regs r) (rs_abi r).
Definition set_regs (r : pink_regset) (regs : list byte) : pink_regset :=
  Regset (rs_iov_base r) (rs_iov_len r) regs (rs_abi r).

Definition __X32_SYSCALL_BIT : Z := 0x40000000.

Section Regset.
Context {K : Type} `{!KernelOps K} (c : config).

Definition pink_regset_zero : pink_regset :=
  Regset false 0 (replicate (sizeof_regs c) Byte.x00) 0.

(** [mem] is what malloc(3) returned: an object with indeterminate contents, or
    null with [errno] set. *)
Definition pink_regset_alloc (mem : option pink_regset)
  : comp (cstate K) (Z * option pink_regset) :=
  match mem with
  | None => let! e := get_errno in cret (- e, None)
  | Some _ => cret (0, Some pink_regset_zero)
  end.

(** ** Members of the unions *)

Definition x86_64_r (regs : list byte) (i : nat) : Z := get_member c regs (8 * i) 8.
Definition i386_r (regs : list byte) (i : nat) : Z := get_member c regs (4 * i) 4.
Definition set_i386_r (regs : list byte) (i : nat) (v : Z) : list byte :=
  set_member c regs (4 * i) 4 v.
Definition aarch64_r (regs : list byte) (i : nat) : Z := get_member c regs (8 * i) 8.
Definition arm_r (regs : list byte) (i : nat) : Z := get_member c regs (4 * i) 4.

(** A word of [struct pt_regs] or of the i386 [struct user_regs_struct]. *)
Definition regs_long (regs : list byte) (i : nat) : Z :=
  let w := Z.to_nat (sizeof_long c) in get_member c regs (w * i) w.

(** The assignments of the old method, in their order. *)
Definition i386_copies : list (nat * nat) :=
  [(EBX, RBX); (ECX, RCX); (EDX, RDX); (ESI, RSI); (EDI, RDI); (EBP, RBP); (EAX, RAX);
   (ORIG_EAX, ORIG_RAX); (EIP, RIP); (ESP, RSP)].

Definition copy_i386 (copies : list (nat * nat)) (regs : list byte) : list byte :=
  foldl (fun regs '(e, r) => set_i386_r regs e (x86_64_r regs r)) regs copies.

(** ** Filling *)

(** PTRACE_GETREGS into the register member. *)
Definition fill_regs (pid : Z) (r : pink_regset) : comp (cstate K) (Z * pink_regset) :=
  let! (rc, d) := pink_trace_get_regs c pid (rs_regs r) in
  match d with
  | DBuf regs => cret (rc, set_regs r regs)
  | _ => cundef
  end.

(** The vector is pointed at the register union; PTRACE_GETREGSET fills it and
    sets its length. *)
Definition fill_regset (pid : Z) (r : pink_regset) : comp (cstate K) (Z * pink_regset) :=
  let! (rc, d) := pink_trace_get_regset c pid
                    (DIov (rs_regs r) (Z.of_nat (sizeof_regs c))) NT_PRSTATUS in
  match d with
  | DIov regs len => cret (rc, Regset true len regs (rs_abi r))
  | _ => cundef
  end.

Definition x86_abi (r : pink_regset) : Z :=
  if rs_iov_len r =? Z.of_nat sizeof_i386_regs then PINK_ABI_I386
  else if negb (Z.land (x86_64_r (rs_regs r) ORIG_RAX) __X32_SYSCALL_BIT =? 0)
  then PINK_ABI_X32 c else PINK_ABI_X86_64.

Definition pink_regset_fill (pid : Z) (r : pink_regset) : comp (cstate K) (Z * pink_regset) :=
  let r := if PINK_ABIS_SUPPORTED c =? 1 then set_abi r PINK_ABI_DEFAULT else r in
  match PINK_ARCH c with
  | AARCH64 =>
      if PINK_HAVE_GETREGSET c then
        let! (rc, r) := fill_regset pid r in
        if rc <? 0 then cret (rc, r)
        else if rs_iov_len r =? Z.of_nat sizeof_aarch64_regs
        then cret (0, set_abi r PINK_ABI_AARCH64)
        else if rs_iov_len r =? Z.of_nat sizeof_arm_regs
        then cret (0, set_abi r PINK_ABI_ARM)
        else cabort
      else cret (- ENOSYS, r)
  | ARM | I386 =>
      let! (rc, r) := fill_regs pid r in
      if rc <? 0 then cret (rc, r) else cret (0, r)
  | POWERPC =>
      let! (rc, r) := fill_regs pid r in
      if rc <? 0 then cret (rc, r)
      else if PINK_ARCH_POWERPC64 c then
        cret (0, set_abi r (if negb (Z.land (regs_long (rs_regs r) PT_MSR) 0 =? 0)
                            then 0 else 1))
      else cret (0, r)
  | X86_64 | X32 =>
      if PINK_HAVE_GETREGSET c then
        let! (rc, r) := fill_regset pid r in
        if rc <? 0 then cret (rc, r) else cret (0, set_abi r (x86_abi r))
      else
        let r := set_iov_len r (Z.of_nat sizeof_x86_64_regs) in
        let! (rc, r) := fill_regs pid r in
        if rc <? 0 then cret (rc, r)
        else
          let r := if x86_64_r (rs_regs r) CS =? 0x23
                   then set_regs (set_iov_len r (Z.of_nat sizeof_i386_regs))
                          (copy_i386 i386_copies (rs_regs r))
                   else r in
          cret (0, set_abi r (x86_abi r))
  end.

End Regset.

#[global] Arguments copy_i386 : simpl never.

(** ** The overlay *)

Section Overlay.
Context (c : config).

(** Each destination is inside the structure and does not overlap what a later
    assignment reads or stores. *)
Fixpoint safe_copies (l : list (nat * nat)) : bool :=
  match l with
  | [] => true
  | (e, r) :: l' =>
      forallb (fun '(e', r') =>
        negb (e' =? e)%nat &&
        ((8 * r' + 8 <=? 4 * e)%nat || (4 * e + 4 <=? 8 * r')%nat)) l'
      && (4 * e + 4 <=? sizeof_i386_regs)%nat && safe_copies l'
  end.

Lemma length_copy_i386 l regs :
  safe_copies l = true -> length regs = sizeof_x86_64_regs ->
  length (copy_i386 c l regs) = sizeof_x86_64_regs.
Proof.
  revert regs. induction l as [|[e r] l IH]; intros regs Hs Hl; [done|].
  cbn [safe_copies] in Hs. apply andb_prop in Hs as [[_ He]%andb_prop Hs].
  apply Nat.leb_le in He. unfold sizeof_x86_64_regs, sizeof_i386_regs in *.
  unfold copy_i386. cbn [foldl]. apply IH; [done|].
  unfold set_i386_r. rewrite length_set_member; lia.
Qed.

Lemma copy_i386_other l regs e0 :
  length regs = sizeof_x86_64_regs -> safe_copies l = true ->
  forallb (fun '(e', _) => negb (e' =? e0)%nat) l = true ->
  i386_r c (copy_i386 c l regs) e0 = i386_r c regs e0.
Proof.
  revert regs. induction l as [|[e r] l IH]; intros regs Hl Hs Hn; [done|].
  cbn [safe_copies] in Hs. apply andb_prop in Hs as [[_ He]%andb_prop Hs].
  cbn [forallb] in Hn. apply andb_prop in Hn as [Hne Hn].
  apply Nat.leb_le in He. apply negb_true_iff, Nat.eqb_neq in Hne.
  unfold sizeof_x86_64_regs, sizeof_i386_regs in *.
  unfold copy_i386. cbn [foldl]. fold (copy_i386 c l (set_i386_r c regs e (x86_64_r c regs r))).
  rewrite IH; [|unfold set_i386_r; rewrite length_set_member; lia | done..].
  unfold i386_r, set_i386_r. apply get_set_member_ne; lia.
Qed.

(** In a safe order every assignment stores the low half of the register that the
    block held at the start. *)
Lemma copy_i386_ok l regs e r :
  length regs = sizeof_x86_64_regs -> safe_copies l = true -> (e, r) ∈ l ->
  i386_r c (copy_i386 c l regs) e = x86_64_r c regs r mod 2 ^ 32.
Proof.
  revert regs. induction l as [|[e0 r0] l IH]; intros regs Hl Hs Hin; [by apply not_elem_of_nil in Hin|].
  cbn [safe_copies] in Hs. apply andb_prop in Hs as [[Hf He]%andb_prop Hs].
  apply Nat.leb_le in He. unfold sizeof_x86_64_regs, sizeof_i386_regs in *.
  unfold copy_i386. cbn [foldl]. fold (copy_i386 c l (set_i386_r c regs e0 (x86_64_r c regs r0))).
  assert (Hl' : length (set_i386_r c regs e0 (x86_64_r c regs r0)) = 216%nat)
    by (unfold set_i386_r; rewrite length_set_member; lia).
  apply elem_of_cons in Hin as [[= -> ->]|Hin].
  - rewrite copy_i386_other; [|done..|].
    + unfold i386_r, set_i386_r. by rewrite get_set_member by lia.
    + rewrite forallb_forall in Hf |- *. intros [e' r'] Hin. specialize (Hf _ Hin). simpl in Hf.
      by apply andb_prop in Hf as [Hf _].
  - rewrite (IH _ Hl' Hs Hin). f_equal.
    rewrite forallb_forall in Hf. apply list_elem_of_In in Hin. specialize (Hf _ Hin). simpl in Hf.
    apply andb_prop in Hf as [_ Hf]. unfold x86_64_r, set_i386_r.
    apply get_set_member_ne; [lia|].
    apply orb_prop in Hf as [Hf|Hf]; apply Nat.leb_le in Hf; lia.
Qed.

Lemma i386_copies_safe : safe_copies i386_copies = true.
Proof. vm_compute. reflexivity. Qed.

End Overlay.

(** ** Filling on x86-64 *)

(** The ABI of a task: by the size of its registers, then by the system call
    number it entered with. *)
Definition x86_task_abi (c : config) (compat : bool) (u : list byte) : Z :=
  if compat then PINK_ABI_I386
  else if Z.testbit (x86_64_r c u ORIG_RAX) 30 then PINK_ABI_X32 c else PINK_ABI_X86_64.

#[global] Arguments x86_task_abi : simpl never.

(** The register set describes a task with user area [u]. *)
Definition x86_filled (c : config) (compat : bool) (u : list byte) (r : pink_regset) : Prop :=
  rs_abi r = x86_task_abi c compat u /\ length (rs_regs r) = sizeof_regs c /\
  if compat
  then forall e i, (e, i) ∈ i386_copies -> i386_r c (rs_regs r) e = x86_64_r c u i mod 2 ^ 32
  else rs_regs r = u.

Lemma x86_abi_spec c r u (compat : bool) :
  rs_iov_len r = (if compat then Z.of_nat sizeof_i386_regs else Z.of_nat sizeof_x86_64_regs) ->
  (compat = false -> rs_regs r = u) ->
  x86_abi c r = x86_task_abi c compat u.
Proof.
  intros Hl Hu. unfold x86_abi, x86_task_abi. rewrite Hl. destruct compat; [done|].
  rewrite Hu by done. rewrite (proj2 (Z.eqb_neq _ _)) by done.
  change __X32_SYSCALL_BIT with (Z.shiftl 1 30). rewrite land_bit by lia.
  by destruct (Z.testbit _ 30).
Qed.

Section Fill.
Context {K : Type} `{!KernelOps K} `{!TraceeView K} `{!RegView K} (c : config).
Context `{!PtraceErrno K}.

Lemma fill_regset_ok `{!PtraceRegset K} k e pid r :
  PINK_HAVE_GETREGSET c = true -> stopped k pid -> length (rs_regs r) = sizeof_regs c ->
  (length (prstatus k pid) <= sizeof_regs c)%nat ->
  fill_regset c pid r (CState k e)
  = Ret (0, Regset true (Z.of_nat (length (prstatus k pid)))
                   (splice (rs_regs r) 0 (prstatus k pid)) (rs_abi r)) (CState k 0).
Proof.
  intros Hh Hs Hr Hp. unfold fill_regset, pink_trace_get_regset, ptrace_out. rewrite Hh.
  assert (Hn : to_long c NT_PRSTATUS = NT_PRSTATUS).
  { apply wraps_small; [apply bits_long_pos|]. unfold bits_long, NT_PRSTATUS.
    destruct (sizeof_long_cases c) as [-> | ->]; simpl; lia. }
  rewrite Hn, <- Hr. rewrite <- Hr in Hp. unfold cbind.
  pose proof (pink_ptrace_cases _ _ _ _ (CState k e) _ _ _ (getregset_ok k pid _ Hs Hp)) as Hc.
  simpl in Hc. by rewrite Hc.
Qed.

Lemma fill_regs_ok `{!X86User c K} k e pid r :
  PINK_HAVE_GETREGS c = true -> stopped k pid -> length (rs_regs r) = sizeof_regs c ->
  length (user_area k pid) = sizeof_regs c ->
  fill_regs c pid r (CState k e) = Ret (0, set_regs r (user_area k pid)) (CState k 0).
Proof.
  intros Hh Hs Hr Hu. unfold fill_regs, pink_trace_get_regs, ptrace_out. rewrite Hh. unfold cbind.
  pose proof (pink_ptrace_cases _ _ _ _ (CState k e) _ _ _ (getregs_ok k pid _ Hs Hu Hr)) as Hc.
  simpl in Hc. by rewrite Hc.
Qed.

Lemma regset_fill_x86 `{!PtraceRegset K} `{!X86User c K} k e pid r :
  PINK_ARCH c = X86_64 -> big_endian c = false -> PINK_HAVE_GETREGSET c = true ->
  stopped k pid -> length (rs_regs r) = sizeof_regs c ->
  length (user_area k pid) = sizeof_regs c ->
  exists r', pink_regset_fill c pid r (CState k e) = Ret (0, r') (CState k 0) /\
    x86_filled c (compat_task k pid) (user_area k pid) r'.
Proof.
  intros Ha Hbe Hh Hs Hr Hu.
  assert (Hsz : sizeof_regs c = sizeof_x86_64_regs) by (unfold sizeof_regs; by rewrite Ha).
  set (u := user_area k pid) in *. pose proof (prstatus_x86 k pid Hs) as Hp. fold u in Hp.
  assert (Hlp : length (prstatus k pid)
    = if compat_task k pid then sizeof_i386_regs else sizeof_x86_64_regs).
  { rewrite Hp. destruct (compat_task k pid); [apply length_compat_regs|]; congruence. }
  assert (Hle : (length (prstatus k pid) <= sizeof_regs c)%nat).
  { rewrite Hlp, Hsz. unfold sizeof_i386_regs, sizeof_x86_64_regs. destruct (compat_task k pid); lia. }
  unfold pink_regset_fill, PINK_ABIS_SUPPORTED. rewrite Ha, Hh. simpl.
  rewrite (cbind_run _ _ _ _ _ (fill_regset_ok k e pid r Hh Hs Hr Hle)). simpl.
  eexists. split; [reflexivity|].
  set (regs' := splice (rs_regs r) 0 (prstatus k pid)).
  assert (Hl' : length regs' = sizeof_regs c) by (unfold regs'; rewrite length_splice; lia).
  assert (Hfull : compat_task k pid = false -> regs' = u).
  { intros Hc. unfold regs'. rewrite Hc in Hp. rewrite Hp. unfold splice. simpl.
    rewrite drop_ge by lia. apply app_nil_r. }
  split_and!; [|done|].
  - simpl. apply x86_abi_spec; simpl; [|done]. rewrite Hlp. by destruct (compat_task k pid).
  - simpl. destruct (compat_task k pid) eqn:Hc; [|auto].
    intros j i Hin. unfold i386_r, x86_64_r, regs'. rewrite Hp.
    apply compat_note_member; [done | congruence |].
    unfold i386_copies in Hin. revert Hin. repeat (rewrite elem_of_cons; intros [[= -> ->]|Hin]; [reflexivity | revert Hin]).
    intros Hin. by apply not_elem_of_nil in Hin.
Qed.

(** C7. On x86-64 with PTRACE_GETREGSET, [pink_regset_fill] on a stopped tracee
    succeeds and leaves the kernel as it was; the ABI is i386 exactly for a
    32-bit task, else x32 or x86-64 by bit 30 of the system call number; the
    registers are the tracee's, for a 32-bit task the low halves under their
    i386 names. *)
Theorem pink_regset_fill_x86 `{!PtraceRegset K} `{!X86User c K} k e pid r :
  PINK_ARCH c = X86_64 -> big_endian c = false -> PINK_HAVE_GETREGSET c = true ->
  stopped k pid -> length (rs_regs r) = sizeof_regs c ->
  length (user_area k pid) = sizeof_regs c ->
  exists r', pink_regset_fill c pid r (CState k e) = Ret (0, r') (CState k 0) /\
    x86_filled c (compat_task k pid) (user_area k pid) r'.
Proof. apply regset_fill_x86. Qed.

(** Without PTRACE_GETREGSET the registers come from PTRACE_GETREGS and the
    task's width from its code segment.  The ten assignments to the overlaid i386
    structure are in an order in which none destroys a register that a later one
    reads: where the segment tells the task's width, the result describes the
    task in the same sense as with PTRACE_GETREGSET. *)
Theorem pink_regset_fill_x86_old `{!X86User c K} k e pid r :
  PINK_ARCH c = X86_64 -> PINK_HAVE_GETREGSET c = false -> PINK_HAVE_GETREGS c = true ->
  stopped k pid -> length (rs_regs r) = sizeof_regs c ->
  length (user_area k pid) = sizeof_regs c ->
  (x86_64_r c (user_area k pid) CS =? 0x23) = compat_task k pid ->
  exists r', pink_regset_fill c pid r (CState k e) = Ret (0, r') (CState k 0) /\
    x86_filled c (compat_task k pid) (user_area k pid) r'.
Proof.
  intros Ha Hn Hh Hs Hr Hu Hcs.
  assert (Hsz : sizeof_regs c = sizeof_x86_64_regs) by (unfold sizeof_regs; by rewrite Ha).
  unfold pink_regset_fill, PINK_ABIS_SUPPORTED. rewrite Ha, Hn. simpl.
  rewrite (cbind_run _ _ _ _ _ (fill_regs_ok k e pid (set_iov_len r (Z.of_nat sizeof_x86_64_regs)) Hh Hs Hr Hu)). simpl.
  eexists. split; [reflexivity|]. rewrite Hcs.
  destruct (compat_task k pid); split_and!; simpl.
  - by apply x86_abi_spec.
  - rewrite Hsz. apply length_copy_i386; [apply i386_copies_safe | congruence].
  - intros j i Hin. apply copy_i386_ok; [congruence | apply i386_copies_safe | done].
  - by apply x86_abi_spec.
  - done.
  - done.
Qed.

(** In the builds that [configure] produces, [pink_regset_fill] cannot work
    on i386, ARM and PowerPC: PINK_HAVE_GETREGS never reaches the sources, so it
    returns -ENOSYS without a system call and keeps the registers. *)
Theorem pink_regset_fill_unavailable pid r (s : cstate K) :
  shipped c = true -> PINK_ARCH c = I386 \/ PINK_ARCH c = ARM \/ PINK_ARCH c = POWERPC ->
  pink_regset_fill c pid r s = Ret (- ENOSYS, set_abi r PINK_ABI_DEFAULT) s.
Proof.
  intros Hs Ha. unfold shipped in Hs. apply andb_prop in Hs as [[[Hg _]%andb_prop Hp]%andb_prop _].
  apply negb_true_iff in Hg, Hp.
  unfold pink_regset_fill, PINK_ABIS_SUPPORTED, fill_regs, pink_trace_get_regs.
  rewrite Hg, Hp. destruct Ha as [-> | [-> | ->]]; destruct r; reflexivity.
Qed.

(** On AArch64 the size of the note decides the ABI: [pink_regset_fill] gives
    the 64-bit ABI for the 64-bit structure, the ARM ABI for the 32-bit one with
    the registers at the start of the union, and stops the program by abort(3)
    for any other size. *)
Theorem pink_regset_fill_aarch64 `{!PtraceRegset K} k e pid r :
  PINK_ARCH c = AARCH64 -> PINK_HAVE_GETREGSET c = true ->
  stopped k pid -> length (rs_regs r) = sizeof_regs c ->
  (length (prstatus k pid) <= sizeof_regs c)%nat ->
  let filled abi := Regset true (Z.of_nat (length (prstatus k pid)))
                      (prstatus k pid ++ drop (length (prstatus k pid)) (rs_regs r)) abi in
  pink_regset_fill c pid r (CState k e) =
  if (length (prstatus k pid) =? sizeof_aarch64_regs)%nat
  then Ret (0, filled PINK_ABI_AARCH64) (CState k 0)
  else if (length (prstatus k pid) =? sizeof_arm_regs)%nat
  then Ret (0, filled PINK_ABI_ARM) (CState k 0)
  else Abort (CState k 0).
Proof.
  intros Ha Hh Hs Hr Hp filled. unfold pink_regset_fill, PINK_ABIS_SUPPORTED. rewrite Ha, Hh.
  cbn [Z.eqb Pos.eqb]. rewrite (cbind_run _ _ _ _ _ (fill_regset_ok k e pid _ Hh Hs Hr Hp)).
  cbn -[Nat.eqb Z.eqb sizeof_aarch64_regs sizeof_arm_regs].
  destruct (Nat.eqb_spec (length (prstatus k pid)) sizeof_aarch64_regs) as [Hl|Hl];
    [by rewrite (proj2 (Z.eqb_eq _ _)) by lia|].
  rewrite (proj2 (Z.eqb_neq _ _)) by lia.
  destruct (Nat.eqb_spec (length (prstatus k pid)) sizeof_arm_regs) as [Hl'|Hl'];
    [by rewrite (proj2 (Z.eqb_eq _ _)) by lia|].
  by rewrite (proj2 (Z.eqb_neq _ _)) by lia.
Qed.

End Fill.

(** ** Witnesses *)

(** A register block with the given x86-64 registers and zeros elsewhere. *)
Definition user_of (l : list (nat * Z)) : list byte :=
  foldr (fun '(i, v) u => set_member x86_64_linux u (8 * i) 8 v)
    (replicate sizeof_x86_64_regs Byte.x00) l.

(** A tracee of the given width, with no memory. *)
Definition sim_task (compat : bool) (l : list (nat * Z)) : sim := Sim 7 ∅ ∅ (user_of l) compat [].

(** The configuration of a C library without PTRACE_GETREGSET whose PTRACE_GETREGS
    reaches the sources. *)
Definition x86_64_old : config :=
  {| PINK_ARCH := X86_64; PINK_ARCH_POWERPC64 := false; model := LP64; big_endian := false;
     PINK_HAVE_OPTION_SYSGOOD := true; PINK_HAVE_OPTION_FORK := true;
     PINK_HAVE_OPTION_VFORK := true; PINK_HAVE_OPTION_CLONE := true;
     PINK_HAVE_OPTION_EXEC := true; PINK_HAVE_OPTION_VFORK_DONE := true;
     PINK_HAVE_OPTION_EXIT := true; PINK_HAVE_OPTION_SECCOMP := false;
     PINK_HAVE_OPTION_EXITKILL := false; PINK_HAVE_SETUP := true;
     PINK_HAVE_GETEVENTMSG := true; PINK_HAVE_GETSIGINFO := true;
     PINK_HAVE_GETREGS := true; PINK_HAVE_SETREGS := true;
     PINK_HAVE_GETREGSET := false; PINK_HAVE_SETREGSET := false;
     PINK_HAVE_SYSEMU := true; PINK_HAVE_SYSEMU_SINGLESTEP := true;
     PINK_HAVE_SEIZE := false; PINK_HAVE_INTERRUPT := false; PINK_HAVE_LISTEN := false;
     PINK_HAVE_TKILL := true; PINK_HAVE_TGKILL := true;
     PINK_HAVE_PROCESS_VM_READV := false; PINK_HAVE_PROCESS_VM_WRITEV := false |}.

(** A 32-bit task that calls open(2), and a 64-bit one stopped outside of a
    system call, whose number is -1: it is taken for an x32 task. *)
Definition task_open : sim := sim_task true [(ORIG_RAX, 5); (RBX, 0xffffd000); (CS, 0x23)].
Definition task_idle : sim := sim_task false [(ORIG_RAX, -1); (CS, 0x33)].

Section Witnesses.
Import Sim.X86.

Lemma pink_regset_fill_x86_witness :
  (exists r', pink_regset_fill x86_64_linux 7 (pink_regset_zero x86_64_linux)
      (CState task_open 0) = Ret (0, r') (CState task_open 0) /\
    rs_abi r' = PINK_ABI_I386 /\ i386_r x86_64_linux (rs_regs r') EBX = 0xffffd000) /\
  (exists r', pink_regset_fill x86_64_linux 7 (pink_regset_zero x86_64_linux)
      (CState task_idle 0) = Ret (0, r') (CState task_idle 0) /\
    rs_abi r' = PINK_ABI_X32 x86_64_linux).
Proof.
  split.
  - destruct (pink_regset_fill_x86 x86_64_linux task_open 0 7 (pink_regset_zero x86_64_linux))
      as (r' & H & Ha & _ & Hr); [by vm_compute..|].
    exists r'. split_and!; [exact H | exact Ha |].
    rewrite (Hr EBX RBX) by (unfold i386_copies; set_solver). by vm_compute.
  - destruct (pink_regset_fill_x86 x86_64_linux task_idle 0 7 (pink_regset_zero x86_64_linux))
      as (r' & H & Ha & _); [by vm_compute..|].
    exists r'. split; [exact H|]. rewrite Ha. by vm_compute.
Defined.

End Witnesses.

Lemma pink_regset_fill_x86_old_witness :
  exists r', @pink_regset_fill sim (sim_ops x86_64_old false) x86_64_old 7
      (pink_regset_zero x86_64_old) (CState task_open 0) = Ret (0, r') (CState task_open 0) /\
    rs_abi r' = PINK_ABI_I386 /\ i386_r x86_64_old (rs_regs r') ORIG_EAX = 5.
Proof.
  destruct (@pink_regset_fill_x86_old sim (sim_ops x86_64_old false) (sim_view x86_64_old) sim_regs
    x86_64_old (sim_ptrace_errno x86_64_old false)
    (sim_x86_user x86_64_old false eq_refl eq_refl) task_open 0 7 (pink_regset_zero x86_64_old))
    as (r' & H & Ha & _ & Hr); [by vm_compute..|].
  exists r'. split_and!; [exact H | exact Ha |].
  rewrite (Hr ORIG_EAX ORIG_RAX) by (unfold i386_copies; set_solver). by vm_compute.
Defined.

Lemma pink_regset_fill_unavailable_witness :
  @pink_regset_fill sim (sim_ops i386_linux false) i386_linux 7 (pink_regset_zero i386_linux)
    (CState task_open 0) = Ret (- ENOSYS, pink_regset_zero i386_linux) (CState task_open 0).
Proof.
  exact (@pink_regset_fill_unavailable sim (sim_ops i386_linux false) i386_linux 7
    (pink_regset_zero i386_linux) (CState task_open 0) eq_refl (or_introl eq_refl)).
Defined.

(** An ARM task and one whose note has no known size. *)
Definition arm_task (n : nat) : sim := Sim 7 ∅ ∅ (replicate n Byte.x01) false [].

Lemma pink_regset_fill_aarch64_witness :
  (exists r', @pink_regset_fill sim (sim_ops aarch64_linux false) aarch64_linux 7
      (pink_regset_zero aarch64_linux) (CState (arm_task 72) 0)
    = Ret (0, r') (CState (arm_task 72) 0) /\ rs_abi r' = PINK_ABI_ARM) /\
  @pink_regset_fill sim (sim_ops aarch64_linux false) aarch64_linux 7
    (pink_regset_zero aarch64_linux) (CState (arm_task 64) 0) = Abort (CState (arm_task 64) 0).
Proof.
  assert (H : forall n, (n <= 272)%nat -> _) by
    exact (fun n Hn => @pink_regset_fill_aarch64 sim (sim_ops aarch64_linux false)
      (sim_view aarch64_linux) sim_regs aarch64_linux (sim_ptrace_errno aarch64_linux false)
      (sim_ptrace_regset aarch64_linux false) (arm_task n) 0 7 (pink_regset_zero aarch64_linux)
      eq_refl eq_refl eq_refl eq_refl
      (eq_ind_r (fun m => m <= 272)%nat Hn (length_replicate n Byte.x01))).
  split.
  - eexists. split; [apply (H 72%nat); lia | reflexivity].
  - apply (H 64%nat). lia.
Defined.
