(* ===== verification/Read.v ===== *)
(** * read.c: reading a tracee's registers and memory *)

From Stdlib Require Import ZArith Lia.
From stdpp Require Import base list numbers.
From coqutil Require Import Byte Word.LittleEndianList.
From S2P Require Import Prelude Config Kernel Layout Trace Vm Regset Name.
Local Open Scope Z_scope.
Local Open Scope c_scope.

Section Read.
Context {K : Type} `{!KernelOps K} (c : config).

(** Each function returns its code together with what it stored through its
    pointer argument, [None] when it stored nothing. *)

Definition pink_read_abi (pid : Z) (r : pink_regset) : comp (cstate K) (Z * Z) :=
  cret (0, rs_abi r).

(** On ARM the members of [struct pt_regs] are signed. *)
Definition pink_read_syscall (pid : Z) (r : pink_regset) : comp (cstate K) (Z * option Z) :=
  match PINK_ARCH c with
  | AARCH64 =>
      if rs_abi r =? PINK_ABI_AARCH64
      then cret (0, Some (to_long c (aarch64_r c (rs_regs r) 8)))
      else if rs_abi r =? PINK_ABI_ARM
      then cret (0, Some (to_long c (arm_r c (rs_regs r) 7)))
      else cret (- EINVAL, None)
  | ARM =>
      let regs i := to_long c (regs_long c (rs_regs r) i) in
      if negb (regs ARM_ip =? 0) then cret (- EFAULT, None)
      else if negb (Z.land (regs ARM_cpsr) 0x20 =? 0) then cret (0, Some (regs ARM_r7))
      else
        let! off := checked (long_value c (regs ARM_pc - 4)) in
        let! (rc, v) := pink_read_word_data c pid off in
        if rc <? 0 then cret (rc, None)
        else
          let! sysval := checked v in
          if to_ulong c sysval =? 0xef000000 then cret (0, Some (regs ARM_r7))
          else if negb (Z.land sysval 0x0ff00000 =? 0x0f900000) then cret (- EFAULT, None)
          else cret (0, Some (Z.land sysval 0x000fffff))
  | POWERPC => cret (0, Some (to_long c (regs_long c (rs_regs r) 0)))
  | I386 => cret (0, Some (to_long c (regs_long c (rs_regs r) ORIG_EAX)))
  | X86_64 | X32 =>
      if rs_abi r =? PINK_ABI_I386
      then cret (0, Some (to_long c (i386_r c (rs_regs r) ORIG_EAX)))
      else
        let sysnum := to_long c (x86_64_r c (rs_regs r) ORIG_RAX) in
        if rs_abi r =? PINK_ABI_X32 c
        then let! n := checked (long_value c (sysnum - __X32_SYSCALL_BIT)) in cret (0, Some n)
        else cret (0, Some sysnum)
  end.

(** [nerrnos0], [nerrnos1], [nerrnos2], by the switch of [is_negated_errno]. *)
Definition nerrnos (abi : Z) : option Z :=
  (fun ent => Z.of_nat (length ent)) <$> abi_table c (errnoent_vec c) abi.

(** [val] is an [unsigned long]; an ABI outside the switch aborts. *)
Definition is_negated_errno (val abi : Z) : comp (cstate K) bool :=
  match nerrnos abi with
  | None => cabort
  | Some n =>
      let max := to_ulong c (- n) in
      if (1 <? PINK_ABIS_SUPPORTED c) && (4 <? sizeof_long c) then
        let! wordsize := checked (pink_abi_wordsize c abi) in
        if wordsize <? sizeof_long c then cret (to_uint max <? to_uint val)
        else cret (max <? val)
      else cret (max <? val)
  end.

(** The branches of [pink_read_retval] after the register is read into [v]. *)
Definition decode_retval (abi v : Z) : comp (cstate K) (Z * Z * Z) :=
  let! neg := is_negated_errno (to_ulong c v) abi in
  if neg then cret (0, -1, to_int (- v)) else cret (0, to_long c v, 0).

Definition SO_MASK : Z := 0x10000000.

(** The code, the return value and the error.  The x32 branch calls
    [is_negated_errno_x32] with too few arguments and does not compile. *)
Definition pink_read_retval (pid : Z) (r : pink_regset) : comp (cstate K) (Z * Z * Z) :=
  match PINK_ARCH c with
  | AARCH64 =>
      if rs_abi r =? PINK_ABI_ARM
      then decode_retval (rs_abi r) (arm_r c (rs_regs r) 0)
      else decode_retval (rs_abi r) (aarch64_r c (rs_regs r) 0)
  | ARM => decode_retval (rs_abi r) (to_long c (regs_long c (rs_regs r) ARM_r0))
  | POWERPC =>
      let ppc_result := to_long c (regs_long c (rs_regs r) PT_R3) in
      let! ppc_result :=
        if negb (Z.land (regs_long c (rs_regs r) PT_CCR) SO_MASK =? 0)
        then checked (long_value c (- ppc_result)) else cret ppc_result in
      decode_retval (rs_abi r) ppc_result
  | I386 => decode_retval (rs_abi r) (to_long c (regs_long c (rs_regs r) EAX))
  | X86_64 =>
      let rax := if rs_abi r =? PINK_ABI_I386
                 then to_int (i386_r c (rs_regs r) EAX)
                 else to_long c (x86_64_r c (rs_regs r) RAX) in
      decode_retval (rs_abi r) rax
  | X32 => cundef
  end.

(** The registers of the arguments, in order. *)
Definition x86_64_args : list nat := [RDI; RSI; RDX; R10; R8; R9].
Definition i386_args : list nat := [EBX; ECX; EDX; ESI; EDI; EBP].

Definition pink_read_argument (pid : Z) (r : pink_regset) (arg_index : Z)
  : comp (cstate K) (Z * option Z) :=
  if PINK_MAX_ARGS <=? arg_index then cret (- EINVAL, None)
  else
    let i := Z.to_nat arg_index in
    match PINK_ARCH c with
    | AARCH64 =>
        if rs_abi r =? PINK_ABI_AARCH64
        then cret (0, Some (to_long c (aarch64_r c (rs_regs r) i)))
        else cret (0, Some (to_long c (arm_r c (rs_regs r) i)))
    | ARM =>
        cret (0, Some (to_long c (regs_long c (rs_regs r)
                                    (if arg_index =? 0 then ARM_ORIG_r0 else i))))
    | POWERPC =>
        cret (0, Some (to_long c (regs_long c (rs_regs r)
                                    (if arg_index =? 0 then PT_ORIG_R3 else (i + 3)%nat))))
    | I386 =>
        match i386_args !! i with
        | Some e => cret (0, Some (to_long c (regs_long c (rs_regs r) e)))
        | None => cabort
        end
    | X86_64 | X32 =>
        if negb (rs_abi r =? PINK_ABI_I386) then
          match x86_64_args !! i with
          | Some e => cret (0, Some (to_long c (x86_64_r c (rs_regs r) e)))
          | None => cabort
          end
        else
          match i386_args !! i with
          | Some e => cret (0, Some (to_int (i386_r c (rs_regs r) e)))
          | None => cabort
          end
    end.

(** ** Memory *)

Definition vm_unavailable : comp (cstate K) bool :=
  let! e := get_errno in cret ((e =? ENOSYS) || (e =? EPERM)).

Definition pink_read_vm_data (pid : Z) (r : pink_regset) (addr : Z) (dest : list byte)
    (len : Z) : comp (cstate K) (Z * list byte) :=
  set_errno 0 ;;
  let! (n, dest) := pink_vm_cread c pid (rs_abi r) addr dest len in
  let! fallback := vm_unavailable in
  if fallback then pink_vm_lread c pid addr dest len else cret (n, dest).

Definition pink_read_vm_data_full (pid : Z) (r : pink_regset) (addr : Z) (dest : list byte)
    (len : Z) : comp (cstate K) (Z * list byte) :=
  set_errno 0 ;;
  let! (l, dest) := pink_read_vm_data pid r addr dest len in
  if l <? 0 then let! e := get_errno in cret (- e, dest)
  else if negb (len =? to_ulong c l) then cret (- EFAULT, dest)
  else cret (0, dest).

(** [fuel] bounds the loop of [pink_vm_cread_nul]. *)
Definition pink_read_vm_data_nul (fuel : nat) (pid : Z) (r : pink_regset) (addr : Z)
    (dest : list byte) (len : Z) : comp (cstate K) (Z * list byte) :=
  set_errno 0 ;;
  let! (n, dest) := pink_vm_cread_nul c fuel pid (rs_abi r) addr dest len in
  let! fallback := vm_unavailable in
  if fallback then pink_vm_lread_nul c pid addr dest len else cret (n, dest).

(** The pointer held by the union [cp]: its [p32] for an ABI of short words, else
    its [p64]. *)
Definition cp_pointer (wsize : Z) (data : list byte) : Z :=
  if wsize <? sizeof_long c then get_member c data 0 4
  else get_member c data 0 (Z.to_nat (sizeof_long c)).

(** The result, the destination, and what is stored through [nullptr]; [cp] is
    the indeterminate content of the union. *)
Definition pink_read_string_array (fuel : nat) (cp : list byte) (pid : Z) (r : pink_regset)
    (arg arr_index : Z) (dest : list byte) (dest_len : Z)
  : comp (cstate K) (Z * list byte * option bool) :=
  let! wsize := checked (pink_abi_wordsize c (rs_abi r)) in
  let arg := to_long c (arg + arr_index * wsize) in
  set_errno 0 ;;
  let! (_, data) := pink_read_vm_data pid r arg
                      (resize (Z.to_nat (sizeof_long c)) Byte.x00 cp) wsize in
  let! e := get_errno in
  if negb (e =? 0) then cret (0, dest, None)
  else if cp_pointer wsize data =? 0 then cret (0, dest, Some true)
  else
    let! (n, dest) := pink_read_vm_data_nul fuel pid r (to_long c (cp_pointer wsize data))
                        dest dest_len in
    cret (n, dest, Some false).

End Read.
