(* ===== verification/ArmSyscall.v ===== *)
(** * The system call number on 32-bit ARM, by calling convention *)

From Stdlib Require Import ZArith Lia.
From stdpp Require Import base list numbers gmap.
From coqutil Require Import Byte Word.LittleEndianList.
From S2P Require Import Prelude Config Kernel Layout Sim Trace Vm Regset Name Read.
Local Open Scope Z_scope.

(** What a register block says about the stop: not a system call entry, a Thumb
    entry, or an ARM entry whose instruction tells the convention. *)
Inductive arm_entry : Type :=
| NotEntry
| Thumb
| ArmMode (pc : Z).

Section Arm.
Context (c : config).

Definition arm_reg (r : pink_regset) (i : nat) : Z := regs_long c (rs_regs r) i.

Definition arm_stop (r : pink_regset) : arm_entry :=
  if negb (arm_reg r ARM_ip =? 0) then NotEntry
  else if Z.testbit (arm_reg r ARM_cpsr) 5 then Thumb
  else ArmMode (arm_reg r ARM_pc).

(** The number that the instruction word [w] stands for: swi 0 takes it from r7,
    the old convention has it in the instruction, with 9 on top. *)
Definition arm_number (r7 w : Z) : option Z :=
  if w =? 0xef000000 then Some r7
  else if Z.land w 0x0ff00000 =? 0x0f900000 then Some (w mod 2 ^ 20)
  else None.

(** The program counters, as [unsigned long], whose value as [long] has no
    predecessor by four. *)
Definition pc_overflows (pc : Z) : bool := (2 ^ 31 <=? pc) && (pc <? 2 ^ 31 + 4).

Lemma arm_reg_range r i :
  ((i + 1) * Z.to_nat (sizeof_long c) <= length (rs_regs r))%nat ->
  0 <= arm_reg r i < 2 ^ bits_long c.
Proof.
  intros H. unfold arm_reg, regs_long, get_member.
  set (m := take _ _). assert (Hl : length m = Z.to_nat (sizeof_long c)).
  { unfold m. rewrite length_take, length_drop. lia. }
  assert (Hb : forall l : list byte, length l = Z.to_nat (sizeof_long c) ->
    0 <= le_combine l < 2 ^ bits_long c).
  { intros l Hll. pose proof (le_combine_bound l) as Hb. rewrite Hll in Hb.
    unfold bits_long. pose proof (sizeof_long_pos c).
    by replace (Z.of_nat (Z.to_nat (sizeof_long c))) with (sizeof_long c) in Hb by lia. }
  apply Hb. destruct (big_endian c); rewrite ?length_reverse; done.
Qed.

Lemma to_long_zero z : 0 <= z < 2 ^ bits_long c -> (to_long c z =? 0) = (z =? 0).
Proof.
  intros Hz. destruct (Z.eqb_spec z 0) as [->|Hne].
  - unfold to_long. rewrite wraps_small; [done | apply bits_long_pos |].
    pose proof (pow2_pos (bits_long c - 1)). pose proof (bits_long_pos c). lia.
  - apply Z.eqb_neq. intros H0. apply Hne.
    rewrite <- (to_ulong_small c z Hz), <- to_ulong_long, H0. apply to_ulong_small.
    pose proof (pow2_pos (bits_long c)). pose proof (bits_long_pos c). lia.
Qed.

(** The low bits of a word do not depend on its sign. *)
Lemma testbit_to_long z i : 0 <= i < bits_long c -> Z.testbit (to_long c z) i = Z.testbit z i.
Proof.
  intros Hi. rewrite <- (Z.mod_pow2_bits_low (to_long c z) (bits_long c)) by lia.
  rewrite <- (Z.mod_pow2_bits_low z (bits_long c)) by lia.
  f_equal. apply (to_ulong_long c z).
Qed.

Lemma land_to_long z m :
  0 <= m < 2 ^ 32 -> bits_long c = 32 -> Z.land (to_long c z) m = Z.land z m.
Proof.
  intros Hm Hb. apply Z.bits_inj'. intros n Hn. rewrite !Z.land_spec.
  destruct (Z.lt_ge_cases n 32).
  - by rewrite testbit_to_long by lia.
  - rewrite (Z.bits_above_log2 m n), !andb_false_r; [done | lia |].
    destruct (decide (m = 0)) as [->|]; [simpl; lia|]. apply Z.log2_lt_pow2; [lia|].
    pose proof (Z.pow_le_mono_r 2 32 n). lia.
Qed.

Lemma pc_less_four pc :
  bits_long c = 32 -> 0 <= pc < 2 ^ 32 ->
  long_value c (to_long c pc - 4)
  = if pc_overflows pc then None else Some (to_long c pc - 4).
Proof.
  intros Hb Hpc. unfold pc_overflows, to_long. rewrite Hb.
  destruct (Z.lt_ge_cases pc (2 ^ 31)) as [Hlt|Hge].
  - rewrite (proj2 (Z.leb_gt _ _) Hlt). cbn [andb].
    apply long_value_ok. rewrite wraps_small by (simpl in *; lia). rewrite Hb. simpl in *. lia.
  - rewrite (proj2 (Z.leb_le _ _) Hge). cbn [andb].
    assert (wraps 32 pc = pc - 2 ^ 32) as ->.
    { unfold wraps. change (32 - 1) with 31. symmetry.
      rewrite <- (Zmod_unique (pc + 2 ^ 31) (2 ^ 32) 1 (pc + 2 ^ 31 - 2 ^ 32)) by lia. lia. }
    destruct (Z.ltb_spec pc (2 ^ 31 + 4)).
    + apply long_value_none. rewrite Hb. simpl in *. lia.
    + apply long_value_ok. rewrite Hb. simpl in *. lia.
Qed.

Context {K : Type} `{!KernelOps K} `{!TraceeView K} `{!PtraceErrno K} `{!PtraceMem c K}.

(** C37. [pink_read_syscall] on 32-bit ARM, on each of its branches: a stop that is
    not a system call entry is -EFAULT; a Thumb entry has its number in r7; in ARM
    mode the instruction before the program counter decides: swi 0 takes r7, the
    old convention has the number in the low 20 bits of the instruction, any other
    instruction and an unreadable one are -EFAULT.  The instruction is the word at
    [pc - 4], as a 32-bit address; [ARM_pc] is a [long], so for the four program
    counters from 2^31 on the subtraction overflows, which is undefined. *)
Theorem pink_read_syscall_arm pid r k e :
  PINK_ARCH c = ARM -> sizeof_long c = 4 -> stopped k pid ->
  length (rs_regs r) = sizeof_regs c ->
  let r7 := to_long c (arm_reg r ARM_r7) in
  exists e', pink_read_syscall c pid r (CState k e) =
  match arm_stop r with
  | NotEntry => Ret (- EFAULT, None) (CState k e')
  | Thumb => Ret (0, Some r7) (CState k e')
  | ArmMode pc =>
      if pc_overflows pc then Undef else
      match read_mem (tmem k pid) (to_ulong c (pc - 4)) 4 with
      | None => Ret (- EFAULT, None) (CState k e')
      | Some bs =>
          match arm_number r7 (to_ulong c (bytes_word c bs)) with
          | Some n => Ret (0, Some n) (CState k e')
          | None => Ret (- EFAULT, None) (CState k e')
          end
      end
  end.
Proof.
  intros Ha Hs4 Hs Hl r7. unfold pink_read_syscall. rewrite Ha.
  assert (Hbits : bits_long c = 32) by (unfold bits_long; by rewrite Hs4).
  assert (Hsz : length (rs_regs r) = 72%nat) by (rewrite Hl; unfold sizeof_regs; by rewrite Ha).
  fold (arm_reg r ARM_ip) (arm_reg r ARM_cpsr) (arm_reg r ARM_r7) (arm_reg r ARM_pc) r7.
  rewrite to_long_zero by (apply arm_reg_range; rewrite Hsz, Hs4; unfold ARM_ip; simpl; lia).
  unfold arm_stop in *. destruct (arm_reg r ARM_ip =? 0); cbn [negb] in *; [|by exists e].
  rewrite land_to_long by (lia || done). change 0x20 with (Z.shiftl 1 5). rewrite land_bit by lia.
  destruct (Z.testbit (arm_reg r ARM_cpsr) 5); cbn [negb Z.eqb] in *; [by exists e|].
  assert (Hpc : 0 <= arm_reg r ARM_pc < 2 ^ 32).
  { rewrite <- Hbits. apply arm_reg_range. rewrite Hsz, Hs4. unfold ARM_pc. simpl. lia. }
  set (pc := arm_reg r ARM_pc) in *. rewrite (pc_less_four pc Hbits Hpc).
  destruct (pc_overflows pc); [exists e; apply cbind_unchecked|].
  rewrite (cbind_checked _ _ _ _ eq_refl).
  assert (Hul : to_ulong c (to_long c pc - 4) = to_ulong c (pc - 4)).
  { unfold to_ulong at 1. unfold Z.sub. rewrite <- wrapu_add_l.
    change (wrapu (bits_long c) (to_long c pc)) with (to_ulong c (to_long c pc)).
    rewrite to_ulong_long. apply wrapu_add_l. }
  pose proof (read_word_ok c k pid e (to_long c pc - 4)) as Hok.
  pose proof (read_word_fault c k pid e (to_long c pc - 4) Hs) as Hbad.
  rewrite Hul, Hs4 in Hok, Hbad. change (Z.to_nat 4) with 4%nat in Hok, Hbad.
  destruct (read_mem _ _ _) as [bs|].
  - exists 0. rewrite (cbind_run _ _ _ _ _ (Hok bs Hs eq_refl)). cbn [Z.ltb Z.compare].
    rewrite (cbind_checked _ _ _ _ eq_refl). unfold arm_number.
    set (w := bytes_word c bs) in *. destruct (to_ulong c w =? 0xef000000); [done|].
    assert (Hw : forall m, 0 <= m < 2 ^ 32 -> Z.land (to_ulong c w) m = Z.land w m).
    { intros m Hm. rewrite <- (land_to_long (to_ulong c w) m Hm Hbits).
      rewrite <- (land_to_long w m Hm Hbits). f_equal. apply wraps_wrapu, bits_long_pos. }
    rewrite Hw by lia. destruct (Z.land w 0x0ff00000 =? 0x0f900000); cbn [negb]; [|done].
    rewrite <- land_low, Hw by (simpl; lia). done.
  - exists EFAULT. by rewrite (cbind_run _ _ _ _ _ (Hbad eq_refl)).
Qed.

End Arm.

(** ** Witness *)

(** A register block with the given words and zeros elsewhere. *)
Definition arm_block (l : list (nat * Z)) : list byte :=
  foldr (fun '(i, v) u => set_member arm_linux u (4 * i) 4 v) (replicate 72 Byte.x00) l.

(** ARM mode in a library above 2 GB, behind swi 0x900005: open(2) of the old
    convention. *)
Definition oabi_regset : pink_regset :=
  Regset false 0 (arm_block [(ARM_pc, 0xb6f01008); (ARM_r7, 1)]) 0.
Definition oabi_sim : sim := sim_at 7 0xb6f01004 (le_split 4 0xef900005).

Lemma pink_read_syscall_arm_witness :
  exists e', @pink_read_syscall sim (sim_ops arm_linux false) arm_linux 7 oabi_regset
    (CState oabi_sim 0) = Ret (0, Some 5) (CState oabi_sim e').
Proof.
  apply (@pink_read_syscall_arm arm_linux sim (sim_ops arm_linux false) (sim_view arm_linux)
    (sim_ptrace_errno arm_linux false) (sim_ptrace_mem arm_linux false) 7 oabi_regset oabi_sim 0);
    reflexivity.
Defined.
