(* ===== verification/ReadVm.v ===== *)
(** * Reading memory through either transfer

    [VmTransfer] is what read.c promises to its clients about memory: whether the
    kernel offers cross-memory attach or not, a read gives the bytes.  The
    clients in read.c and socket.c are proved against it. *)

From Stdlib Require Import ZArith Lia.
From stdpp Require Import base list numbers gmap.
From coqutil Require Import Byte Word.LittleEndianList.
From S2P Require Import Prelude Config Kernel Layout Sim Trace Vm VmRead VmCross Regset Name Read.
Local Open Scope Z_scope.

(** How the bytes travel: by process_vm_readv(2), or word by word because the call
    does not exist or is refused. *)
Inductive transfer (c : config) (K : Type) `{!KernelOps K} `{!TraceeView K} : Prop :=
| by_attach : PINK_HAVE_PROCESS_VM_READV c = true -> ProcessVm K -> transfer c K
| by_words : PINK_HAVE_PROCESS_VM_READV c = false \/ NoProcessVm K ->
    PtraceErrno K -> PtraceMem c K -> transfer c K.

(** The address means itself under the ABI: nothing is cut off. *)
Definition plain_addr (c : config) (abi addr : Z) : Prop :=
  exists addr', setup_addr c abi addr = Some addr' /\ to_ulong c addr' = to_ulong c addr.

(** The first chunk of a string at the address does not end past the largest
    [long], where the address arithmetic of [pink_vm_cread_nul] overflows. *)
Definition string_fits (c : config) (abi addr len : Z) : Prop :=
  forall addr', setup_addr c abi addr = Some addr' -> chunk_fits c addr' len.

(** process_vm_readv(2) may also transfer a part of the request, which its return
    value tells, or fail for any reason. *)
Class PartialVm (K : Type) `{!KernelOps K} `{!TraceeView K} : Prop :=
  readv_partial k pid a len :
    stopped k pid -> 0 <= len ->
    (exists bs, sys_process_vm_readv pid a len k = (SysRet (Z.of_nat (length bs)) None, bs, k) /\
       (length bs <= Z.to_nat len)%nat /\ read_mem (tmem k pid) a (length bs) = Some bs) \/
    (exists e, 0 < e /\ sys_process_vm_readv pid a len k = (SysRet (-1) (Some e), [], k)).

(** A destination after a failed read of [len] bytes: only these may differ. *)
Definition scratched (dest' dest : list byte) (len : Z) : Prop :=
  length dest' = length dest /\ drop (Z.to_nat len) dest' = drop (Z.to_nat len) dest.

Class VmReads (c : config) (K : Type) `{!KernelOps K} `{!TraceeView K} : Prop :=
  vm_reads k e pid r addr dest len :
    stopped k pid -> plain_addr c (rs_abi r) addr -> 0 < len < 2 ^ 31 ->
    (Z.to_nat len <= length dest)%nat -> to_ulong c addr + len <= 2 ^ bits_long c ->
    match read_mem (tmem k pid) (to_ulong c addr) (Z.to_nat len) with
    | Some bs => pink_read_vm_data c pid r addr dest len (CState k e)
                 = Ret (len, bs ++ drop (Z.to_nat len) dest) (CState k 0)
    | None => exists dest', pink_read_vm_data c pid r addr dest len (CState k e)
                = Ret (-1, dest') (CState k EFAULT) /\ scratched dest' dest len
    end.

Section Transfer.
Context {K : Type} `{!KernelOps K} `{!TraceeView K} (c : config).

Lemma scratched_refl dest len : scratched dest dest len.
Proof. done. Qed.

(** Where attach is refused, the read falls through to the words. *)
Lemma cread_refused k e pid abi addr addr' dest len :
  PINK_HAVE_PROCESS_VM_READV c = false \/ NoProcessVm K ->
  setup_addr c abi addr = Some addr' ->
  exists e', (e' = ENOSYS \/ e' = EPERM) /\
    pink_vm_cread c pid abi addr dest len (CState k e) = Ret (-1, dest) (CState k e').
Proof.
  intros Hno Ha. unfold pink_vm_cread.
  destruct (PINK_HAVE_PROCESS_VM_READV c) eqn:Hh.
  - destruct Hno as [|Hno]; [done|]. rewrite (cbind_checked _ _ _ _ Ha).
    destruct (readv_denied k pid (to_ulong c addr') len) as (e' & He & Hr).
    exists e'. split; [done|]. unfold pink_process_vm_readv. rewrite Hh.
    rewrite (cbind_run _ _ _ _ _ (process_vm_readv_run _ e _ _ _ _ _ _ _ Hr)).
    erewrite cbind_checked by (apply memcpy_to_ok; simpl; lia). by rewrite splice_nil.
  - exists ENOSYS. split; [by left | done].
Qed.

Lemma read_vm_data_attach k e pid r addr dest len :
  PINK_HAVE_PROCESS_VM_READV c = true -> ProcessVm K ->
  stopped k pid -> plain_addr c (rs_abi r) addr -> 0 <= len ->
  (Z.to_nat len <= length dest)%nat ->
  pink_read_vm_data c pid r addr dest len (CState k e) =
  match read_mem (tmem k pid) (to_ulong c addr) (Z.to_nat len) with
  | Some bs => Ret (len, bs ++ drop (Z.to_nat len) dest) (CState k 0)
  | None => Ret (-1, dest) (CState k EFAULT)
  end.
Proof.
  intros Hh Hvm Hs (addr' & Ha & Hu) Hl Hd. unfold pink_read_vm_data.
  rewrite (cbind_run _ _ _ tt (CState k 0)) by done.
  pose proof (cread_run c k 0 pid (rs_abi r) addr addr' dest len Hh Ha Hs Hl Hd) as Hc.
  rewrite Hu in Hc. unfold cbind. rewrite Hc. by destruct (read_mem _ _ _).
Qed.

Lemma read_vm_data_words k e pid r addr dest len :
  PINK_HAVE_PROCESS_VM_READV c = false \/ NoProcessVm K ->
  plain_addr c (rs_abi r) addr ->
  exists e', pink_read_vm_data c pid r addr dest len (CState k e)
             = pink_vm_lread c pid addr dest len (CState k e').
Proof.
  intros Hno (addr' & Ha & _). unfold pink_read_vm_data.
  rewrite (cbind_run _ _ _ tt (CState k 0)) by done.
  destruct (cread_refused k 0 pid (rs_abi r) addr addr' dest len Hno Ha) as (e' & He & Hc).
  exists e'. rewrite (cbind_run _ _ _ _ _ Hc). by destruct He as [-> | ->].
Qed.

(** Both transfers keep the promise. *)
#[export] Instance transfer_reads : transfer c K -> VmReads c K.
Proof.
  intros Ht k e pid r addr dest len Hs Hp Hl Hd Hend. destruct Ht as [Hh Hvm|Hno Herr Hmem].
  - rewrite read_vm_data_attach by (done || lia).
    destruct (read_mem _ _ _); [done|]. exists dest. split; [done | apply scratched_refl].
  - destruct (read_vm_data_words k e pid r addr dest len Hno Hp) as (e' & ->).
    destruct (read_mem _ _ _) as [bs|] eqn:Hm.
    + rewrite (lread_run c k e' pid addr dest len bs) by (done || lia).
      by rewrite (proj2 (Z.eqb_neq len 0)) by lia.
    + destruct (lread_run_fault c k e' pid addr dest len) as (dest' & H & H1 & H2); [done | lia | done..|].
      by exists dest'.
Qed.

End Transfer.

Section Clients.
Context {K : Type} `{!KernelOps K} `{!TraceeView K} (c : config).

(** C1. [pink_read_vm_data] meets one specification whether the bytes travel by
    process_vm_readv(2) or, where that call does not exist or is refused, word by
    word.  For an address that the truncation to the ABI's width leaves as it is, a
    positive length below 2^31 and a range that does not run past the end of the
    address space: the bytes of the tracee and their number when the range is
    mapped, else -1 with EFAULT; the tracee and the destination beyond [len] stay as
    they were.  (For an address that the truncation changes, a sign-extended pointer
    of a 32-bit task, the transfers differ: [pink_read_vm_data_sign_extended].) *)
Theorem pink_read_vm_data_any_transfer k e pid r addr dest len :
  transfer c K -> stopped k pid -> plain_addr c (rs_abi r) addr -> 0 < len < 2 ^ 31 ->
  (Z.to_nat len <= length dest)%nat -> to_ulong c addr + len <= 2 ^ bits_long c ->
  match read_mem (tmem k pid) (to_ulong c addr) (Z.to_nat len) with
  | Some bs => pink_read_vm_data c pid r addr dest len (CState k e)
               = Ret (len, bs ++ drop (Z.to_nat len) dest) (CState k 0)
  | None => exists dest', pink_read_vm_data c pid r addr dest len (CState k e)
              = Ret (-1, dest') (CState k EFAULT) /\ scratched dest' dest len
  end.
Proof. intros Ht. apply (transfer_reads c Ht). Qed.

Section Reads.
Context `{!VmReads c K}.

Lemma read_full_run k e pid r addr dest len :
  stopped k pid -> plain_addr c (rs_abi r) addr -> 0 < len < 2 ^ 31 ->
  (Z.to_nat len <= length dest)%nat -> to_ulong c addr + len <= 2 ^ bits_long c ->
  match read_mem (tmem k pid) (to_ulong c addr) (Z.to_nat len) with
  | Some bs => pink_read_vm_data_full c pid r addr dest len (CState k e)
               = Ret (0, bs ++ drop (Z.to_nat len) dest) (CState k 0)
  | None => exists dest', pink_read_vm_data_full c pid r addr dest len (CState k e)
              = Ret (- EFAULT, dest') (CState k EFAULT) /\ scratched dest' dest len
  end.
Proof.
  intros Hs Hp Hl Hd Hend. pose proof (vm_reads k 0 pid r addr dest len Hs Hp Hl Hd Hend) as Hr.
  unfold pink_read_vm_data_full. rewrite (cbind_run _ _ _ tt (CState k 0)) by done.
  destruct (read_mem _ _ _) as [bs|].
  - rewrite (cbind_run _ _ _ _ _ Hr). cbn beta iota.
    rewrite (proj2 (Z.ltb_ge len 0)) by lia.
    rewrite to_ulong_small by (pose proof (pow32_bits c); lia).
    by rewrite Z.eqb_refl.
  - destruct Hr as (dest' & Hr & Hsc). exists dest'. split; [|done].
    by rewrite (cbind_run _ _ _ _ _ Hr).
Qed.

(** The pointer in an array entry. *)
Definition entry_pointer (bs : list byte) : Z := get_member c bs 0 (length bs).

Lemma cp_pointer_entry wsize bs rest :
  (wsize = 4 \/ wsize = 8) -> wsize <= sizeof_long c -> length bs = Z.to_nat wsize ->
  cp_pointer c wsize (bs ++ rest) = entry_pointer bs.
Proof.
  intros Hw Hle Hb. unfold cp_pointer, entry_pointer.
  assert (Hg : get_member c (bs ++ rest) 0 (length bs) = get_member c bs 0 (length bs)).
  { unfold get_member. rewrite !drop_0, take_app_length, take_ge by lia. done. }
  rewrite <- Hg, Hb.
  destruct (sizeof_long_cases c) as [Hs|Hs], Hw as [-> | ->]; rewrite Hs in *; done || lia.
Qed.

(** An entry of an array of strings. *)
Lemma string_array_run fuel cp k e pid r arg i dest dest_len wsize :
  stopped k pid -> pink_abi_wordsize c (rs_abi r) = Some wsize ->
  wsize = 4 \/ wsize = 8 -> wsize <= sizeof_long c ->
  plain_addr c (rs_abi r) (to_long c (arg + i * wsize)) ->
  to_ulong c (arg + i * wsize) + wsize <= 2 ^ bits_long c ->
  pink_read_string_array c fuel cp pid r arg i dest dest_len (CState k e) =
  match read_mem (tmem k pid) (to_ulong c (arg + i * wsize)) (Z.to_nat wsize) with
  | None => Ret (0, dest, None) (CState k EFAULT)
  | Some bs =>
      if entry_pointer bs =? 0 then Ret (0, dest, Some true) (CState k 0)
      else cbind (pink_read_vm_data_nul c fuel pid r (to_long c (entry_pointer bs)) dest dest_len)
             (fun '(n, dest') => cret (n, dest', Some false)) (CState k 0)
  end.
Proof.
  intros Hs Hw Hcase Hle Hp Hend. unfold pink_read_string_array.
  rewrite (cbind_checked _ _ _ _ Hw). rewrite (cbind_run _ _ _ tt (CState k 0)) by done.
  set (cp' := resize (Z.to_nat (sizeof_long c)) Byte.x00 cp).
  assert (Hlc : (Z.to_nat wsize <= length cp')%nat) by (unfold cp'; rewrite length_resize; lia).
  assert (Hw31 : 0 < wsize < 2 ^ 31) by (simpl; lia).
  pose proof (vm_reads k 0 pid r (to_long c (arg + i * wsize)) cp' wsize Hs Hp Hw31 Hlc) as Hr.
  rewrite to_ulong_long in Hr. specialize (Hr Hend).
  destruct (read_mem _ _ _) as [bs|] eqn:Hm.
  - pose proof (length_read_mem _ _ _ _ Hm) as Hlb.
    rewrite (cbind_run _ _ _ _ _ Hr). cbn beta iota. unfold get_errno at 1.
    rewrite (cbind_run _ _ _ 0 (CState k 0)) by done. cbn [Z.eqb negb].
    rewrite cp_pointer_entry by done. by destruct (entry_pointer bs =? 0).
  - destruct Hr as (d' & Hr & _). by rewrite (cbind_run _ _ _ _ _ Hr).
Qed.

(** C36. [pink_read_string_array] reads entry [arr_index] of an array of pointers of
    the ABI's width.  When the entry is not readable it returns 0 and stores
    nothing, so that the caller cannot tell it from an empty string but by
    [errno]; a null entry returns 0 and sets [nullptr]; otherwise the result is
    that of reading the string the entry points to, and [nullptr] is cleared. *)
Theorem pink_read_string_array_entry fuel cp k e pid r arg i dest dest_len wsize :
  stopped k pid -> pink_abi_wordsize c (rs_abi r) = Some wsize ->
  wsize = 4 \/ wsize = 8 -> wsize <= sizeof_long c ->
  plain_addr c (rs_abi r) (to_long c (arg + i * wsize)) ->
  to_ulong c (arg + i * wsize) + wsize <= 2 ^ bits_long c ->
  pink_read_string_array c fuel cp pid r arg i dest dest_len (CState k e) =
  match read_mem (tmem k pid) (to_ulong c (arg + i * wsize)) (Z.to_nat wsize) with
  | None => Ret (0, dest, None) (CState k EFAULT)
  | Some bs =>
      if entry_pointer bs =? 0 then Ret (0, dest, Some true) (CState k 0)
      else cbind (pink_read_vm_data_nul c fuel pid r (to_long c (entry_pointer bs)) dest dest_len)
             (fun '(n, dest') => cret (n, dest', Some false)) (CState k 0)
  end.
Proof. apply string_array_run. Qed.

End Reads.

(** ** Partial transfers *)

Section Partial.
Context `{!PartialVm K} `{!PtraceErrno K} `{!PtraceMem c K}.

(** A read returns how far it came, and what it stored there is the tracee's. *)
Lemma read_vm_data_partial k e pid r addr dest len :
  stopped k pid -> plain_addr c (rs_abi r) addr -> 0 < len < 2 ^ 31 ->
  (Z.to_nat len <= length dest)%nat -> to_ulong c addr + len <= 2 ^ bits_long c ->
  exists n dest' e', pink_read_vm_data c pid r addr dest len (CState k e)
      = Ret (n, dest') (CState k e') /\ -1 <= n <= len /\ scratched dest' dest len /\
    (n < 0 -> 0 < e') /\
    (0 <= n -> read_mem (tmem k pid) (to_ulong c addr) (Z.to_nat n) = Some (take (Z.to_nat n) dest')).
Proof.
  intros Hs (addr' & Ha & Hu) Hl Hd Hend. unfold pink_read_vm_data.
  rewrite (cbind_run _ _ _ tt (CState k 0)) by done.
  assert (Hc : (exists bs, pink_vm_cread c pid (rs_abi r) addr dest len (CState k 0)
       = Ret (Z.of_nat (length bs), splice dest 0 bs) (CState k 0) /\ (length bs <= Z.to_nat len)%nat /\
       read_mem (tmem k pid) (to_ulong c addr) (length bs) = Some bs) \/
     (exists e', 0 < e' /\ pink_vm_cread c pid (rs_abi r) addr dest len (CState k 0)
       = Ret (-1, dest) (CState k e'))).
  { unfold pink_vm_cread. destruct (PINK_HAVE_PROCESS_VM_READV c) eqn:Hh; cycle 1.
    { right. exists ENOSYS. by split. }
    unfold pink_process_vm_readv. rewrite Hh, (cbind_checked _ _ _ _ Ha), Hu.
    destruct (readv_partial k pid (to_ulong c addr) len Hs ltac:(lia))
      as [(bs & Hr & Hb & Hm)|(e' & He & Hr)].
    - left. exists bs. split; [|done].
      rewrite (cbind_run _ _ _ _ _ (process_vm_readv_run _ 0 _ _ _ _ _ _ _ Hr)).
      by erewrite cbind_checked by (apply memcpy_to_ok; lia).
    - right. exists e'. split; [done|].
      rewrite (cbind_run _ _ _ _ _ (process_vm_readv_run _ 0 _ _ _ _ _ _ _ Hr)).
      erewrite cbind_checked by (apply memcpy_to_ok; simpl; lia). by rewrite splice_nil. }
  destruct Hc as [(bs & Hc & Hb & Hm)|(e' & He & Hc)]; rewrite (cbind_run _ _ _ _ _ Hc).
  - exists (Z.of_nat (length bs)), (splice dest 0 bs), 0. split; [done|].
    split_and!; [lia | lia | | lia |].
    + split; [rewrite length_splice; lia|].
      unfold splice. simpl. rewrite drop_app_ge, drop_drop by lia. f_equal. lia.
    + intros _. rewrite Nat2Z.id. unfold splice. simpl. by rewrite take_app_length.
  - unfold vm_unavailable, get_errno. cbn -[pink_vm_lread].
    destruct ((e' =? ENOSYS) || (e' =? EPERM)).
    + destruct (read_mem (tmem k pid) (to_ulong c addr) (Z.to_nat len)) as [bs|] eqn:Hm.
      * pose proof (length_read_mem _ _ _ _ Hm) as Hlb.
        exists len, (bs ++ drop (Z.to_nat len) dest), 0.
        pose proof (lread_run c k e' pid addr dest len bs Hs ltac:(lia) Hd Hm) as Hr.
        rewrite (proj2 (Z.eqb_neq len 0)) in Hr by lia. split; [exact Hr|].
        split_and!; [lia | lia | | lia |].
        -- split; [rewrite length_app, length_drop; lia | by rewrite drop_app_length' by lia].
        -- intros _. by rewrite take_app_length' by lia.
      * destruct (lread_run_fault c k e' pid addr dest len) as (dest' & Hr & H1 & H2); [done | lia | done..|].
        exists (-1), dest', EFAULT. split; [exact Hr|]. split_and!; (done || lia).
    + exists (-1), dest, e'. split; [done|]. split_and!; (done || lia).
Qed.


End Partial.

(** ** Where the two transfers differ *)

Lemma read_nul_words k e fuel pid r addr dest len :
  PINK_HAVE_PROCESS_VM_READV c = false \/ NoProcessVm K -> (0 < fuel)%nat ->
  plain_addr c (rs_abi r) addr -> 0 < len < 2 ^ 31 -> string_fits c (rs_abi r) addr len ->
  exists e', pink_read_vm_data_nul c fuel pid r addr dest len (CState k e)
             = pink_vm_lread_nul c pid addr dest len (CState k e').
Proof.
  intros Hno Hf (addr' & Ha & _) Hl Hfit. unfold pink_read_vm_data_nul.
  destruct (cread_chunk_range c addr' len (Hfit _ Ha) Hl) as (m & Hc & _).
  rewrite (cbind_run _ _ _ tt (CState k 0)) by done. destruct fuel as [|fuel]; [lia|].
  assert (exists e', (e' = ENOSYS \/ e' = EPERM) /\
    pink_vm_cread_nul c (S fuel) pid (rs_abi r) addr dest len (CState k 0)
    = Ret (-1, dest) (CState k e')) as (e' & He & Hcr).
  { unfold pink_vm_cread_nul. rewrite (cbind_checked _ _ _ _ Ha).
    cbn [cread_nul_loop]. rewrite (proj2 (Z.eqb_neq len 0)) by lia.
    rewrite (cbind_checked _ _ _ _ Hc). unfold pink_process_vm_readv. destruct (PINK_HAVE_PROCESS_VM_READV c) eqn:Hh.
    - destruct Hno as [|Hno]; [done|].
      destruct (readv_denied k pid (to_ulong c addr') (to_ulong c m))
        as (e' & He & Hr). exists e'. split; [done|].
      rewrite (cbind_run _ _ _ _ _ (process_vm_readv_run _ 0 _ _ _ _ _ _ _ Hr)).
      erewrite cbind_checked by (apply memcpy_to_ok; simpl; lia). by rewrite splice_nil.
    - exists ENOSYS. split; [by left|].
      rewrite (cbind_run _ _ _ (-1, []) (CState k ENOSYS)) by done.
      erewrite cbind_checked by (apply memcpy_to_ok; simpl; lia). by rewrite splice_nil. }
  exists e'. rewrite (cbind_run _ _ _ _ _ Hcr). by destruct He as [-> | ->].
Qed.

Lemma read_nul_attach k e fuel pid r addr dest len bs :
  PINK_HAVE_PROCESS_VM_READV c = true -> ProcessVm K ->
  stopped k pid -> plain_addr c (rs_abi r) addr -> 0 <= len < 2 ^ 31 ->
  (Z.to_nat len < fuel)%nat -> (Z.to_nat len <= length dest)%nat ->
  string_fits c (rs_abi r) addr len -> to_ulong c addr + len <= 2 ^ bits_long c ->
  read_mem (tmem k pid) (to_ulong c addr) (Z.to_nat len) = Some bs ->
  exists dest', pink_read_vm_data_nul c fuel pid r addr dest len (CState k e)
    = Ret (nul_count bs, dest') (CState k 0) /\
    take (Z.to_nat (nul_count bs)) dest' = take (Z.to_nat (nul_count bs)) bs /\
    scratched dest' dest len.
Proof.
  intros Hh Hvm Hs (addr' & Ha & Hu) Hl Hf Hd Hfit Hend Hm. rewrite <- Hu in Hend, Hm.
  unfold pink_read_vm_data_nul. rewrite (cbind_run _ _ _ tt (CState k 0)) by done.
  destruct (cread_nul_run c k 0 pid (rs_abi r) addr addr' dest len bs fuel)
    as (dest' & Hrun & H1 & H2 & H3); [by auto..|].
  exists dest'. by rewrite (cbind_run _ _ _ _ _ Hrun).
Qed.

(** [pink_read_vm_data_nul] on a string of [n] characters in a mapped buffer
    stores the string and its zero byte on either transfer, but counts
    differently: cross-memory attach returns [n + 1], the words return [n], or
    [n] plus the misalignment of the address when the string ends in its first
    word. *)
Theorem pink_read_vm_data_nul_counts k e fuel pid r addr dest len bs n :
  stopped k pid -> plain_addr c (rs_abi r) addr -> 0 < len < 2 ^ 31 ->
  (Z.to_nat len < fuel)%nat -> (Z.to_nat len <= length dest)%nat ->
  string_fits c (rs_abi r) addr len -> to_ulong c addr + len <= 2 ^ bits_long c ->
  read_mem (tmem k pid) (to_ulong c addr) (Z.to_nat len) = Some bs ->
  find_nul bs = Some n ->
  transfer c K ->
  exists count dest' e', pink_read_vm_data_nul c fuel pid r addr dest len (CState k e)
      = Ret (count, dest') (CState k e') /\
    take (S n) dest' = take (S n) bs /\ scratched dest' dest len /\
    (count = Z.of_nat n + 1 /\ PINK_HAVE_PROCESS_VM_READV c = true /\ ProcessVm K \/
     count = Z.of_nat n + nul_skew c addr n /\
       (PINK_HAVE_PROCESS_VM_READV c = false \/ NoProcessVm K)).
Proof.
  intros Hs Hp Hl Hf Hd Hfit Hend Hm Hn Ht. pose proof (find_nul_lt _ _ Hn) as Hnl.
  pose proof (length_read_mem _ _ _ _ Hm) as Hlb.
  destruct Ht as [Hh Hvm|Hno Herr Hmem].
  - destruct (read_nul_attach k e fuel pid r addr dest len bs) as (dest' & Hrun & H1 & H2);
      [done | done | done | done | lia | done..|].
    unfold nul_count in *. rewrite Hn in *. exists (Z.of_nat n + 1), dest', 0.
    replace (Z.to_nat (Z.of_nat n + 1)) with (S n) in H1 by lia.
    split_and!; [done..|]. by left.
  - destruct (read_nul_words k e fuel pid r addr dest len Hno ltac:(lia) Hp Hl Hfit) as (e' & ->).
    replace (Z.to_nat len) with (S n + (Z.to_nat len - S n))%nat in Hm by lia.
    apply read_mem_split in Hm as [Hm _].
    destruct (lread_nul_run c k e' pid addr dest len (take (S n) bs) n) as (dest' & Hrun & H1 & H2 & H3);
      [done | lia | done | done | rewrite (find_nul_take _ _ _ Hn); by rewrite decide_True by lia |].
    exists (Z.of_nat n + nul_skew c addr n), dest', 0. split_and!; [done..|]. by right.
Qed.

(** A 32-bit pointer above 2 GB, sign-extended as [pink_read_argument] returns
    it, is readable by cross-memory attach, which cuts it back to 32 bits, but
    not word by word: [pink_vm_lread] uses it as it is, far outside the tracee's
    address space, and the read of a mapped buffer fails with EFAULT. *)
Theorem pink_read_vm_data_sign_extended k e pid r p dest len bs :
  model c = LP64 -> 1 < PINK_ABIS_SUPPORTED c -> pink_abi_wordsize c (rs_abi r) = Some 4 ->
  transfer c K -> stopped k pid -> 2 ^ 31 <= p < 2 ^ 32 -> 0 < len ->
  p + len <= 2 ^ 32 -> (Z.to_nat len <= length dest)%nat ->
  read_mem (tmem k pid) p (Z.to_nat len) = Some bs ->
  tmem k pid (2 ^ 64 - 2 ^ 32 + p) = None ->
  exists n dest' e', pink_read_vm_data c pid r (to_int p) dest len (CState k e)
      = Ret (n, dest') (CState k e') /\
    (n = len /\ dest' = bs ++ drop (Z.to_nat len) dest /\
       PINK_HAVE_PROCESS_VM_READV c = true /\ ProcessVm K \/
     n = -1 /\ e' = EFAULT /\ (PINK_HAVE_PROCESS_VM_READV c = false \/ NoProcessVm K)).
Proof.
  intros Hm Hab Hw Ht Hs Hp Hl Hend Hd Hr Hout.
  assert (Hsz : sizeof_long c = 8) by (unfold sizeof_long; by rewrite Hm).
  assert (Hint : to_int p = p - 2 ^ 32).
  { unfold to_int, wraps. change (32 - 1) with 31. symmetry.
    rewrite <- (Zmod_unique (p + 2 ^ 31) (2 ^ 32) 1 (p + 2 ^ 31 - 2 ^ 32)) by lia. lia. }
  assert (Hul : to_ulong c (to_int p) = 2 ^ 64 - 2 ^ 32 + p).
  { rewrite Hint. unfold to_ulong, bits_long, wrapu. rewrite Hsz. change (8 * 8) with 64.
    symmetry. apply (Zmod_unique _ _ (-1)); lia. }
  assert (exists addr', setup_addr c (rs_abi r) (to_int p) = Some addr' /\ to_ulong c addr' = p)
    as (addr' & Hsa & Hsu).
  { destruct (setup_addr_run c (rs_abi r) (to_int p) Hm Hab) as (w & addr' & Hw' & Ha & Hu).
    { unfold pink_abi_wordsize in Hw. rewrite (proj2 (Z.eqb_neq _ 1)) in Hw by lia.
      destruct (Z.ltb_spec (rs_abi r) 0); [done|]. apply lookup_lt_Some in Hw.
      destruct (Z.ltb_spec 2 (PINK_ABIS_SUPPORTED c)); simpl in Hw; lia. }
    rewrite Hw in Hw'. injection Hw' as <-. exists addr'. split; [done|].
    rewrite Hu. unfold abi_addr. rewrite Hul. symmetry. change (8 * 4) with 32.
    apply (Zmod_unique _ _ (2 ^ 32 - 1)); lia. }
  destruct Ht as [Hh Hvm|Hno Herr Hmem].
  - unfold pink_read_vm_data. rewrite (cbind_run _ _ _ tt (CState k 0)) by done.
    pose proof (cread_run c k 0 pid (rs_abi r) (to_int p) addr' dest len Hh Hsa Hs ltac:(lia) Hd) as Hc.
    rewrite Hsu, Hr in Hc. rewrite (cbind_run _ _ _ _ _ Hc).
    exists len, (bs ++ drop (Z.to_nat len) dest), 0. split; [done|]. by left.
  - unfold pink_read_vm_data. rewrite (cbind_run _ _ _ tt (CState k 0)) by done.
    destruct (cread_refused c k 0 pid (rs_abi r) (to_int p) addr' dest len Hno Hsa) as (e1 & He & Hc).
    rewrite (cbind_run _ _ _ _ _ Hc).
    destruct (lread_run_fault c k e1 pid (to_int p) dest len) as (dest' & Hrun & _);
      [done | done | done | rewrite Hul; unfold bits_long; rewrite Hsz; change (8 * 8) with 64; lia | |].
    { apply (read_mem_None _ _ _ 0); [lia|]. by rewrite Hul, Z.add_0_r. }
    exists (-1), dest', EFAULT. split; [by destruct He as [-> | ->]|]. by right.
Qed.

End Clients.

(** ** Witnesses *)

(** The register set of a task of the given ABI of the 64-bit build. *)
Definition regset_abi (abi : Z) : pink_regset := set_abi (pink_regset_zero x86_64_linux) abi.

Lemma plain_x86_64 a : plain_addr x86_64_linux (rs_abi (regset_abi PINK_ABI_X86_64)) a.
Proof. by exists a. Qed.

(** An array of one pointer and a null pointer, and the string. *)
Definition argv_sim : sim :=
  sim_at 7 0x1000 (le_split 8 0x1010 ++ le_split 8 0 ++ trace_pink).

(** A 32-bit task's stack page. *)
Definition stack32_sim : sim := sim_at 7 0xffffd000 trace_pink.

Section WitnessesWords.
Import Sim.X86.

Lemma words_transfer : transfer x86_64_linux sim.
Proof. apply by_words; [right; apply _ | apply _ | apply _]. Qed.

Lemma pink_read_vm_data_any_transfer_witness :
  pink_read_vm_data x86_64_linux 7 (regset_abi PINK_ABI_X86_64) 0x1003 (replicate 12 Byte.xff) 11
    (CState (sim_at 7 0x1003 trace_pink) 9)
  = Ret (11, trace_pink ++ [Byte.xff]) (CState (sim_at 7 0x1003 trace_pink) 0).
Proof.
  pose proof (pink_read_vm_data_any_transfer x86_64_linux (sim_at 7 0x1003 trace_pink) 9 7
    (regset_abi PINK_ABI_X86_64) 0x1003 (replicate 12 Byte.xff) 11 words_transfer) as H.
  assert (Hm : read_mem (tmem (sim_at 7 0x1003 trace_pink) 7) (to_ulong x86_64_linux 0x1003)
    (Z.to_nat 11) = Some trace_pink) by (vm_compute; reflexivity).
  rewrite Hm in H. apply H; [reflexivity | apply plain_x86_64 | lia | simpl; lia | by vm_compute].
Defined.

Lemma pink_read_string_array_entry_witness :
  pink_read_string_array x86_64_linux 12 [] 7 (regset_abi PINK_ABI_X86_64) 0x1000 1
    [Byte.xff] 1 (CState argv_sim 0) = Ret (0, [Byte.xff], Some true) (CState argv_sim 0).
Proof.
  rewrite (pink_read_string_array_entry x86_64_linux
    (VmReads0 := transfer_reads x86_64_linux words_transfer) 12 [] argv_sim 0 7
    (regset_abi PINK_ABI_X86_64) 0x1000 1 [Byte.xff] 1 8);
    [vm_compute; reflexivity | reflexivity | reflexivity | by right | vm_compute; discriminate
    | apply plain_x86_64 | vm_compute; discriminate].
Defined.

Lemma pink_read_vm_data_sign_extended_witness :
  exists n dest' e', pink_read_vm_data x86_64_linux 7 (regset_abi PINK_ABI_I386)
      (to_int 0xffffd000) (replicate 4 Byte.x00) 4 (CState stack32_sim 0)
    = Ret (n, dest') (CState stack32_sim e') /\ n = -1.
Proof.
  destruct (pink_read_vm_data_sign_extended x86_64_linux stack32_sim 0 7 (regset_abi PINK_ABI_I386)
    0xffffd000 (replicate 4 Byte.x00) 4 (take 4 trace_pink)) as (n & d & e' & H & Hor);
    [reflexivity | reflexivity | reflexivity | apply words_transfer | reflexivity | lia | lia | lia
    | simpl; lia | vm_compute; reflexivity | vm_compute; reflexivity |].
  exists n, d, e'. split; [exact H|]. destruct Hor as [(-> & _)|(-> & _)]; [|reflexivity].
  vm_compute in H. discriminate.
Defined.

End WitnessesWords.

Section WitnessesAttach.
Import Sim.X86Vm.

Lemma pink_read_vm_data_nul_counts_witness :
  exists count dest' e', pink_read_vm_data_nul x86_64_linux 12 7 (regset_abi PINK_ABI_X86_64)
      0x1003 (replicate 12 Byte.xff) 11 (CState (sim_at 7 0x1003 trace_pink) 0)
    = Ret (count, dest') (CState (sim_at 7 0x1003 trace_pink) e') /\
    take 6 dest' = take 6 trace_pink.
Proof.
  destruct (pink_read_vm_data_nul_counts x86_64_linux (sim_at 7 0x1003 trace_pink) 0 12 7
    (regset_abi PINK_ABI_X86_64) 0x1003 (replicate 12 Byte.xff) 11 trace_pink 5)
    as (n & d & e' & H & Ht & _);
    [reflexivity | apply plain_x86_64 | lia | lia | simpl; lia
    | intros a [= <-]; by vm_compute | by vm_compute
    | vm_compute; reflexivity | reflexivity | apply by_attach; [reflexivity | apply _] |].
  exists n, d, e'. split; [exact H | exact Ht].
Defined.

End WitnessesAttach.

(** A kernel whose process_vm_readv(2) transfers at most four bytes. *)
Section WitnessesShort.
Definition short_ops : KernelOps sim := {|
  sys_ptrace := sim_ptrace x86_64_linux;
  sys_process_vm_readv := fun pid a len => sim_readv x86_64_linux true pid a (Z.min len 4);
  sys_process_vm_writev := sim_writev x86_64_linux true;
  sys_tgkill := fun _ _ _ k => (SysRet 0 None, k);
  sys_tkill := fun _ _ k => (SysRet 0 None, k);
  sys_kill := fun _ _ k => (SysRet 0 None, k);
|}.

#[local] Existing Instance short_ops.
#[local] Instance short_view : TraceeView sim := sim_view x86_64_linux.
#[local] Instance short_errno : PtraceErrno sim.
Proof. destruct (sim_ptrace_errno x86_64_linux true). by split. Qed.
#[local] Instance short_mem : PtraceMem x86_64_linux sim.
Proof. destruct (sim_ptrace_mem x86_64_linux true). by split. Qed.
#[local] Instance short_partial : PartialVm sim.
Proof.
  intros k pid a len Hs Hl. simpl. unfold sim_readv.
  destruct (read_mem _ _ _) as [bs|] eqn:Hm; [left | right; by exists EFAULT].
  pose proof (length_read_mem _ _ _ _ Hm) as Hb. exists bs. rewrite Hb, Z2Nat.id by lia.
  split_and!; [done | lia | exact Hm].
Qed.


End WitnessesShort.
