(* ===== verification/Write.v ===== *)
(** * write.c: writing a tracee's registers and memory *)

From Stdlib Require Import ZArith Lia.
From stdpp Require Import base list numbers.
From coqutil Require Import Byte Word.LittleEndianList.
From S2P Require Import Prelude Config Kernel Layout Trace Vm Regset Read.
Local Open Scope Z_scope.
Local Open Scope c_scope.

Section Write.
Context {K : Type} `{!KernelOps K} (c : config).

Definition NT_ARM_SYSTEM_CALL : Z := 0x404.

(** The bytes of an [unsigned int]. *)
Definition uint_bytes (n : Z) : list byte :=
  if big_endian c then reverse (le_split 4 n) else le_split 4 n.

Definition pink_write_syscall (pid : Z) (r : pink_regset) (sysnum : Z) : comp (cstate K) Z :=
  match PINK_ARCH c with
  | AARCH64 =>
      let n := wrapu 16 sysnum in
      pink_trace_set_regset c pid (DIov (uint_bytes n) 4) NT_ARM_SYSTEM_CALL
  | ARM => ptrace_rc PTRACE_SET_SYSCALL pid 0 (DVal (Z.land sysnum 0xffff))
  | POWERPC => pink_write_word_user c pid (sizeof_long c * Z.of_nat PT_R0) sysnum
  | I386 => pink_write_word_user c pid (4 * Z.of_nat ORIG_EAX) sysnum
  | X86_64 | X32 => pink_write_word_user c pid (8 * Z.of_nat ORIG_RAX) sysnum
  end.

(** The vector of an AArch64 register set, as it is handed to the kernel. *)
Definition regset_iov (r : pink_regset) : pdata :=
  if rs_iov_base r then DIov (rs_regs r) (rs_iov_len r) else DIov [] (rs_iov_len r).

Definition set_aarch64_r (r : pink_regset) (i : nat) (v : Z) : pink_regset :=
  set_regs r (set_member c (rs_regs r) (8 * i) 8 v).
Definition set_arm_r (r : pink_regset) (i : nat) (v : Z) : pink_regset :=
  set_regs r (set_member c (rs_regs r) (4 * i) 4 v).

(** [error ? -error : retval]; negating the least [int] is undefined. *)
Definition retval_or_error (retval error : Z) : comp (cstate K) Z :=
  if negb (error =? 0) then checked (int_value (- error)) else cret retval.

(** The code, and the register set, which AArch64 updates.  The ARM branch names
    members that only the AArch64 register set has and does not compile. *)
Definition pink_write_retval (pid : Z) (r : pink_regset) (retval error : Z)
  : comp (cstate K) (Z * pink_regset) :=
  match PINK_ARCH c with
  | AARCH64 =>
      let! v := retval_or_error retval error in
      if rs_abi r =? PINK_ABI_ARM then
        let! rc := pink_write_word_user c pid 0 v in cret (rc, r)
      else
        let r := set_aarch64_r r 0 v in
        let! rc := pink_trace_set_regset c pid (regset_iov r) NT_PRSTATUS in cret (rc, r)
  | ARM => cundef
  | POWERPC =>
      let! (rc, v) := pink_read_word_user c pid (sizeof_long c * Z.of_nat PT_CCR) in
      if rc <? 0 then cret (rc, r)
      else
        let! flags := checked v in
        let retval := if negb (error =? 0) then error else retval in
        let flags := if negb (error =? 0) then Z.lor flags SO_MASK
                     else Z.land flags (Z.lnot SO_MASK) in
        let! rc := pink_write_word_user c pid (sizeof_long c * Z.of_nat PT_R3) retval in
        if rc <? 0 then cret (rc, r)
        else
          let! rc := pink_write_word_user c pid (sizeof_long c * Z.of_nat PT_CCR) flags in
          cret (rc, r)
  | I386 =>
      let! v := retval_or_error retval error in
      let! rc := pink_write_word_user c pid (4 * Z.of_nat EAX) v in cret (rc, r)
  | X86_64 | X32 =>
      let! v := retval_or_error retval error in
      let! rc := pink_write_word_user c pid (8 * Z.of_nat RAX) v in cret (rc, r)
  end.

(** The registers that hold the arguments of a 32-bit task of the 64-bit build. *)
Definition compat_args : list nat := [RBX; RCX; RDX; RSI; RDI; RBP].

(** One of the inner switches: PTRACE_POKEUSER on the register of the argument. *)
Definition poke_arg (pid width : Z) (args : list nat) (i : nat) (argval : Z)
  : comp (cstate K) Z :=
  match args !! i with
  | Some e => pink_write_word_user c pid (width * Z.of_nat e) argval
  | None => cabort
  end.

Definition pink_write_argument (pid : Z) (r : pink_regset) (arg_index argval : Z)
  : comp (cstate K) (Z * pink_regset) :=
  if PINK_MAX_ARGS <=? arg_index then cret (- EINVAL, r)
  else
    let i := Z.to_nat arg_index in
    match PINK_ARCH c with
    | AARCH64 =>
        let r := if rs_abi r =? PINK_ABI_AARCH64 then set_aarch64_r r i argval
                 else set_arm_r r i argval in
        let! rc := pink_trace_set_regset c pid (regset_iov r) NT_PRSTATUS in cret (rc, r)
    | ARM =>
        let! rc := pink_write_word_user c pid
                     (sizeof_long c * (if arg_index =? 0 then 17 else arg_index)) argval in
        cret (rc, r)
    | POWERPC =>
        let! rc := pink_write_word_user c pid
                     (if arg_index =? 0 then sizeof_long c * Z.of_nat PT_ORIG_R3
                      else (arg_index + Z.of_nat PT_R3) * sizeof_long c) argval in
        cret (rc, r)
    | I386 => let! rc := poke_arg pid 4 i386_args i argval in cret (rc, r)
    | X86_64 | X32 =>
        if rs_abi r =? PINK_ABI_I386 then
          let! rc := poke_arg pid 8 compat_args i argval in cret (rc, r)
        else if (rs_abi r =? PINK_ABI_X32 c)
                || (bool_decide (PINK_ARCH c = X86_64) && (rs_abi r =? PINK_ABI_X86_64)) then
          let! rc := poke_arg pid 8 x86_64_args i argval in cret (rc, r)
        else cret (- EINVAL, r)
    end.

(** [indet] is the indeterminate union of [pink_vm_lwrite]. *)
Definition pink_write_vm_data (indet : Z -> list byte) (pid : Z) (r : pink_regset)
    (addr : Z) (src : list byte) (len : Z) : comp (cstate K) Z :=
  set_errno 0 ;;
  let! n := pink_vm_cwrite c pid (rs_abi r) addr src len in
  let! fallback := vm_unavailable in
  if fallback then pink_vm_lwrite c indet pid addr src len else cret n.

End Write.
