(* ===== verification/WriteVm.v ===== *)
(** * Writing memory through either transfer, and reading it back *)

From Stdlib Require Import ZArith Lia.
From stdpp Require Import base list numbers gmap.
From coqutil Require Import Byte Word.LittleEndianList.
From S2P Require Import Prelude Config Kernel Layout Sim Trace Vm VmRead VmWrite VmCross Regset Name Read ReadVm Write.
Local Open Scope Z_scope.

(** How the written bytes travel: by process_vm_writev(2), or word by word to an
    aligned address. *)
Inductive write_transfer (c : config) (K : Type) `{!KernelOps K} `{!TraceeView K} (addr : Z) : Prop :=
| write_by_attach : PINK_HAVE_PROCESS_VM_WRITEV c = true -> ProcessVm K -> write_transfer c K addr
| write_by_words : PINK_HAVE_PROCESS_VM_WRITEV c = false \/ NoProcessVm K ->
    PtraceErrno K -> PtraceMem c K -> addr_residue c addr = 0 -> write_transfer c K addr.

(** What such a write stores behind the [len] bytes: nothing, or what fills up the
    last word. *)
Definition write_padding (c : config) (K : Type) `{!KernelOps K} `{!TraceeView K}
    (len : Z) (pad : list byte) : Prop :=
  PINK_HAVE_PROCESS_VM_WRITEV c = true /\ ProcessVm K /\ pad = [] \/
  (PINK_HAVE_PROCESS_VM_WRITEV c = false \/ NoProcessVm K) /\
    Z.of_nat (length pad) = (- len) mod sizeof_long c.

Section WriteVm.
Context {K : Type} `{!KernelOps K} `{!TraceeView K} (c : config).

Lemma process_vm_writev_run k e pid a bs v eo k' :
  sys_process_vm_writev pid a bs k = (SysRet v eo, k') ->
  process_vm_writev pid a bs (CState k e) = Ret v (CState k' (default e eo)).
Proof. intros H. unfold process_vm_writev. simpl. by rewrite H. Qed.

Lemma cwrite_run `{!ProcessVm K} k e pid abi addr addr' src len :
  PINK_HAVE_PROCESS_VM_WRITEV c = true -> setup_addr c abi addr = Some addr' ->
  stopped k pid -> 0 <= len -> (Z.to_nat len <= length src)%nat ->
  is_Some (read_mem (wmem k pid) (to_ulong c addr') (Z.to_nat len)) ->
  exists k', pink_vm_cwrite c pid abi addr src len (CState k e) = Ret len (CState k' e) /\
    stopped k' pid /\
    (forall x, tmem k' pid x = write_mem (tmem k pid) (to_ulong c addr') (take (Z.to_nat len) src) x).
Proof.
  intros Hh Ha Hs Hl Hd Hm.
  assert (Hlt : length (take (Z.to_nat len) src) = Z.to_nat len) by (rewrite length_take; lia).
  destruct (writev_ok k pid (to_ulong c addr') (take (Z.to_nat len) src) Hs) as (k' & Hw & Hs' & Ht & _);
    [by rewrite Hlt|].
  exists k'. split_and!; [|done..]. unfold pink_vm_cwrite, pink_process_vm_writev. rewrite Hh.
  rewrite (cbind_checked _ _ _ _ Ha), slice_ok, drop_0 by lia.
  rewrite (cbind_checked _ _ _ _ eq_refl), (process_vm_writev_run _ e _ _ _ _ _ _ Hw), Hlt.
  by rewrite Z2Nat.id by lia.
Qed.

Lemma cwrite_refused k e pid abi addr addr' src len :
  PINK_HAVE_PROCESS_VM_WRITEV c = false \/ NoProcessVm K ->
  setup_addr c abi addr = Some addr' -> (Z.to_nat len <= length src)%nat ->
  exists e', (e' = ENOSYS \/ e' = EPERM) /\
    pink_vm_cwrite c pid abi addr src len (CState k e) = Ret (-1) (CState k e').
Proof.
  intros Hno Ha Hd. unfold pink_vm_cwrite.
  destruct (PINK_HAVE_PROCESS_VM_WRITEV c) eqn:Hh.
  - destruct Hno as [|Hno]; [done|]. rewrite (cbind_checked _ _ _ _ Ha), slice_ok, drop_0 by lia.
    rewrite (cbind_checked _ _ _ _ eq_refl).
    destruct (writev_denied k pid (to_ulong c addr') (take (Z.to_nat len) src)) as (e' & He & Hr).
    exists e'. split; [done|]. unfold pink_process_vm_writev. rewrite Hh.
    by rewrite (process_vm_writev_run _ e _ _ _ _ _ _ Hr).
  - exists ENOSYS. split; [by left | done].
Qed.

(** A mapped range is still mapped after a store, and shows the bytes stored. *)
Lemma read_back m m' a bs pad :
  (forall x, m' x = write_mem m a (bs ++ pad) x) -> read_mem m' a (length bs) = Some bs.
Proof.
  intros H. rewrite (read_mem_ext _ (write_mem m a (bs ++ pad))) by (intros; apply H).
  pose proof (read_write_mem m a (bs ++ pad)) as Hr. rewrite length_app in Hr.
  apply read_mem_split in Hr as [Hr _]. by rewrite take_app_length in Hr.
Qed.

(** Writes of either transfer: the bytes, then [pad], which is empty for attach and
    fills the last word otherwise. *)
Lemma write_vm_data_run indet k e pid r addr src len :
  write_transfer c K addr -> stopped k pid -> plain_addr c (rs_abi r) addr ->
  0 < len < 2 ^ 31 -> (Z.to_nat len <= length src)%nat ->
  is_Some (read_mem (wmem k pid) (to_ulong c addr) (Z.to_nat len)) ->
  exists k' pad, pink_write_vm_data c indet pid r addr src len (CState k e) = Ret len (CState k' 0) /\
    stopped k' pid /\ write_padding c K len pad /\
    (forall x, tmem k' pid x =
       write_mem (tmem k pid) (to_ulong c addr) (take (Z.to_nat len) src ++ pad) x).
Proof.
  intros Ht Hs (addr' & Ha & Hu) Hl Hd Hm. unfold pink_write_vm_data.
  rewrite (cbind_run _ _ _ tt (CState k 0)) by done. destruct Ht as [Hh Hvm|Hno Herr Hmem Hal].
  - rewrite <- Hu in Hm.
    destruct (cwrite_run k 0 pid (rs_abi r) addr addr' src len Hh Ha Hs ltac:(lia) Hd Hm)
      as (k' & Hrun & Hs' & Hw).
    exists k', []. rewrite (cbind_run _ _ _ _ _ Hrun), app_nil_r, <- Hu.
    split_and!; [done | done | by left | done].
  - destruct (cwrite_refused k 0 pid (rs_abi r) addr addr' src len Hno Ha Hd) as (e' & He & Hc).
    rewrite (cbind_run _ _ _ _ _ Hc).
    destruct (lwrite_aligned_run c indet k e' pid addr src len Hs Hal ltac:(lia) Hd Hm)
      as (k' & pad & Hrun & Hs' & Hp & Hw & _).
    exists k', pad. split_and!; [|done| by right |done].
    rewrite (proj2 (Z.eqb_neq len 0)) in Hrun by lia. by destruct He as [-> | ->].
Qed.


End WriteVm.

Section Witnesses.
Import Sim.X86.


End Witnesses.
