(* ===== verification/Registers.v ===== *)
(** * Register round trips through the kernel, on 64-bit x86

    What read.c reads from a filled register set, and what a write of write.c
    followed by a new fill reads back: arguments, return values, numbers. *)

From Stdlib Require Import ZArith Lia.
From stdpp Require Import base list numbers gmap.
From coqutil Require Import Byte Word.LittleEndianList.
From S2P Require Import Prelude Config Kernel Layout Sim Trace Vm TablesErrno Name Regset Read Write.
Local Open Scope Z_scope.
Local Open Scope c_scope.

(** A 64-bit x86 build with PTRACE_GETREGSET. *)
Class X86Build (c : config) : Prop := {
  build_arch : PINK_ARCH c = X86_64;
  build_model : model c = LP64;
  build_endian : big_endian c = false;
  build_getregset : PINK_HAVE_GETREGSET c = true;
}.

#[export] Instance x86_64_linux_build : X86Build x86_64_linux.
Proof. done. Qed.

(** ** Error numbers in return values *)

Lemma to_int_mod v : to_int (v mod 2 ^ 32) = to_int v.
Proof. apply (wraps_wrapu 32). lia. Qed.

(** The width at which an ABI's return values are compared: the first ABI of a 64-bit
    build, PINK_ABI_X86_64 or PINK_ABI_AARCH64, has 64-bit words, the others not. *)
Definition abi_bits (abi : Z) : Z := if abi =? PINK_ABI_X86_64 then 64 else 32.

(** The number of error names of the build; the last error is one less. *)
Definition errors : Z := Z.of_nat (length (errnoent X86_64)).

(** Whether the register holds a negated error number, at the ABI's width. *)
Definition is_error (abi v : Z) : bool :=
  2 ^ abi_bits abi - errors <? v mod 2 ^ abi_bits abi.

Lemma errors_value : errors = 531.
Proof. reflexivity. Qed.

Lemma errnoent_length a : Z.of_nat (length (errnoent a)) = errors.
Proof. by destruct a. Qed.

(** [is_negated_errno] on the builds of more than one ABI with 64-bit words. *)
Lemma is_negated_errno_lp64 {K} c v abi (s : cstate K) :
  sizeof_long c = 8 -> 0 <= abi < PINK_ABIS_SUPPORTED c -> 1 < PINK_ABIS_SUPPORTED c ->
  pink_abi_wordsize c abi = Some (if abi =? PINK_ABI_X86_64 then 8 else 4) ->
  is_negated_errno c (to_ulong c v) abi s = Ret (is_error abi v) s.
Proof.
  intros Hs Ha Hn Hw. unfold is_negated_errno, nerrnos, abi_table.
  rewrite (proj2 (Z.ltb_ge abi 0)), (proj2 (Z.leb_gt _ abi)) by lia. cbn [orb].
  unfold errnoent_vec. rewrite lookup_replicate_2 by lia.
  cbn [fmap option_fmap option_map]. rewrite errnoent_length, Hs.
  rewrite (proj2 (Z.ltb_lt 1 _) Hn). cbn [Z.ltb Z.compare Pos.compare Pos.compare_cont andb].
  assert (Hb : bits_long c = 64) by (unfold bits_long; by rewrite Hs).
  assert (Hu : to_ulong c v = v mod 2 ^ 64) by (unfold to_ulong, wrapu; by rewrite Hb).
  assert (Hmax : to_ulong c (- errors) = 2 ^ 64 - errors).
  { unfold to_ulong, wrapu. rewrite Hb, errors_value. reflexivity. }
  rewrite (cbind_checked _ _ _ _ Hw). unfold is_error, abi_bits. rewrite Hmax, Hu.
  destruct (abi =? PINK_ABI_X86_64); [done|]. cbn [Z.ltb Z.compare Pos.compare Pos.compare_cont].
  unfold to_uint, wrapu. rewrite Z.mod_mod_divide by (by exists (2 ^ 32)).
  rewrite errors_value. done.
Qed.

Lemma is_error_iff abi v :
  is_error abi v = true <-> exists n, 0 < n < errors /\ v mod 2 ^ abi_bits abi = 2 ^ abi_bits abi - n.
Proof.
  unfold is_error. rewrite Z.ltb_lt, errors_value.
  assert (Hb : 0 < 2 ^ abi_bits abi) by (unfold abi_bits; case_match; simpl; lia).
  pose proof (Z.mod_pos_bound v (2 ^ abi_bits abi) Hb). split.
  - intros Hlt. exists (2 ^ abi_bits abi - v mod 2 ^ abi_bits abi). lia.
  - intros (n & Hn & ->). lia.
Qed.

(** The error that the code computes is the one the register negates. *)
Lemma error_number abi v n :
  0 < n < errors -> v mod 2 ^ abi_bits abi = 2 ^ abi_bits abi - n -> to_int (- v) = n.
Proof.
  intros Hn Hv. rewrite errors_value in Hn.
  assert (Hm : (- v) mod 2 ^ 32 = n).
  { assert (Hv32 : v mod 2 ^ 32 = 2 ^ 32 - n).
    { unfold abi_bits in Hv. case_match; [|done].
      rewrite <- (Z.mod_mod_divide v (2 ^ 64) (2 ^ 32)) by (by exists (2 ^ 32)).
      rewrite Hv. symmetry. apply (Zmod_unique _ _ (2 ^ 32 - 1)); lia. }
    rewrite Z.mod_opp_l_nz by lia. lia. }
  rewrite <- (to_int_mod (- v)), Hm. apply wraps_small; simpl; lia.
Qed.

Section Build.
Context (c : config) `{!X86Build c}.

Lemma build_sizeof : sizeof_long c = 8.
Proof. unfold sizeof_long. by rewrite build_model. Qed.

Lemma build_bits : bits_long c = 64.
Proof. unfold bits_long. by rewrite build_sizeof. Qed.

Lemma build_regs : sizeof_regs c = sizeof_x86_64_regs.
Proof. unfold sizeof_regs. by rewrite build_arch. Qed.

Lemma build_abis : PINK_ABIS_SUPPORTED c = 3.
Proof. unfold PINK_ABIS_SUPPORTED. by rewrite build_arch. Qed.

Lemma build_x32 : PINK_ABI_X32 c = 2.
Proof. unfold PINK_ABI_X32. by rewrite build_arch. Qed.

Lemma build_word_bytes u i v :
  splice u (8 * i) (word_bytes c v) = set_member c u (8 * i) 8 v.
Proof. unfold word_bytes, set_member. by rewrite build_endian, build_sizeof. Qed.

(** Registers of a block after one is stored. *)
Lemma x86_64_r_set u i v j :
  length u = sizeof_regs c -> (i < 27)%nat ->
  x86_64_r c (set_member c u (8 * i) 8 v) j =
  if decide (j = i) then v mod 2 ^ 64 else x86_64_r c u j.
Proof.
  rewrite build_regs. unfold sizeof_x86_64_regs, x86_64_r. intros Hu Hi.
  case_decide as Hj; [subst; by rewrite get_set_member by lia|].
  apply get_set_member_ne; lia.
Qed.

Lemma to_long_mod v : to_long c (v mod 2 ^ 64) = to_long c v.
Proof. unfold to_long. rewrite build_bits. apply (wraps_wrapu 64). lia. Qed.

Lemma task_abi_cases compat u :
  x86_task_abi c compat u = if compat then 1 else if Z.testbit (x86_64_r c u ORIG_RAX) 30 then 2 else 0.
Proof. unfold x86_task_abi. rewrite build_x32. by destruct compat. Qed.

(** ** Arguments *)

(** The registers of the arguments by the width of the task, and what an argument
    is: the register, or the sign-extended low half of it. *)
Definition task_args (compat : bool) : list nat := if compat then compat_args else x86_64_args.

Definition task_value (compat : bool) (v : Z) : Z := if compat then to_int v else to_long c v.

Definition task_arg (compat : bool) (u : list byte) (i : Z) : Z :=
  task_value compat (x86_64_r c u (nth (Z.to_nat i) (task_args compat) 0%nat)).

Context {K : Type} `{!KernelOps K}.

Lemma arg_pair i :
  0 <= i < 6 ->
  exists e a q, i386_args !! Z.to_nat i = Some e /\ compat_args !! Z.to_nat i = Some a /\
    x86_64_args !! Z.to_nat i = Some q /\ (e, a) ∈ i386_copies /\
    nth (Z.to_nat i) compat_args 0%nat = a /\ nth (Z.to_nat i) x86_64_args 0%nat = q /\
    (a <= 14)%nat /\ (q <= 14)%nat.
Proof.
  intros H. assert (i = 0 \/ i = 1 \/ i = 2 \/ i = 3 \/ i = 4 \/ i = 5) as Hi by lia.
  repeat destruct Hi as [->|Hi]; [..|subst]; do 3 eexists; split_and!; try reflexivity;
    try (apply Nat.leb_le; reflexivity);
    apply (bool_decide_eq_true_1 (_ ∈ _)); vm_compute; reflexivity.
Qed.

Lemma read_argument_filled pid compat u r i (s : cstate K) :
  x86_filled c compat u r -> 0 <= i < 6 ->
  pink_read_argument c pid r i s = Ret (0, Some (task_arg compat u i)) s.
Proof.
  intros (Ha & _ & Hr) Hi. destruct (arg_pair i Hi) as (e & a & q & He & Hca & Hq & Hin & Hna & Hnq & _).
  unfold pink_read_argument, PINK_MAX_ARGS. rewrite (proj2 (Z.leb_gt 6 i)) by lia.
  rewrite build_arch, Ha, task_abi_cases. unfold task_arg, task_args, task_value, PINK_ABI_I386.
  destruct compat; cbn [Z.eqb Pos.eqb negb].
  - rewrite He, (Hr _ _ Hin), to_int_mod, Hna. done.
  - assert (Hn : negb ((if Z.testbit (x86_64_r c u ORIG_RAX) 30 then 2 else 0) =? 1) = true)
      by (by destruct (Z.testbit _ 30)).
    rewrite Hn, Hq, Hr, Hnq. done.
Qed.

Lemma args_distinct compat i j :
  0 <= i < 6 -> 0 <= j < 6 -> i <> j ->
  nth (Z.to_nat i) (task_args compat) 0%nat <> nth (Z.to_nat j) (task_args compat) 0%nat.
Proof.
  intros Hi Hj Hne.
  assert (Hd : NoDup (task_args compat) /\ length (task_args compat) = 6%nat).
  { destruct compat; (split; [|reflexivity]); apply (bool_decide_eq_true_1 (NoDup _));
      vm_compute; reflexivity. }
  destruct Hd as [Hd Hl]. intros Heq. apply NoDup_ListNoDup in Hd.
  pose proof (proj1 (NoDup_nth (task_args compat) 0%nat) Hd (Z.to_nat i) (Z.to_nat j)
    ltac:(lia) ltac:(lia) Heq). lia.
Qed.

Context `{!TraceeView K} `{!RegView K} `{!PtraceErrno K} `{!PtraceRegset K} `{!X86User c K}.

Lemma write_user_ok k e pid i v :
  stopped k pid -> (i <= 16)%nat -> length (user_area k pid) = sizeof_regs c ->
  exists k', pink_write_word_user c pid (8 * Z.of_nat i) v (CState k e) = Ret 0 (CState k' 0) /\
    stopped k' pid /\ compat_task k' pid = compat_task k pid /\
    user_area k' pid = set_member c (user_area k pid) (8 * i) 8 v /\
    (forall a, tmem k' pid a = tmem k pid a).
Proof.
  intros Hs Hi Hu.
  assert (Hg : general_reg c i = true) by (unfold general_reg; rewrite build_arch; by apply Nat.leb_le).
  destruct (pokeuser_ok k pid i v Hs Hg Hu) as (k' & Hp & Hs' & Hc & Hu' & Ht).
  rewrite build_word_bytes in Hu'. exists k'. split_and!; try done.
  unfold pink_write_word_user. rewrite to_ulong_small by (rewrite build_bits; simpl; lia).
  by rewrite (ptrace_rc_cases _ _ _ _ (CState k e) _ _ _ Hp).
Qed.

(** What a tracee looks like after one of its registers was set. *)
Definition register_set (k k' : K) (pid : Z) (i : nat) (v : Z) : Prop :=
  stopped k' pid /\ compat_task k' pid = compat_task k pid /\
  user_area k' pid = set_member c (user_area k pid) (8 * i) 8 v /\
  (forall a, tmem k' pid a = tmem k pid a).

(** A new fill after that. *)
Lemma fill_after_set k k' e pid i v r :
  register_set k k' pid i v -> (i <= 16)%nat ->
  length (user_area k pid) = sizeof_regs c -> length (rs_regs r) = sizeof_regs c ->
  exists r', pink_regset_fill c pid r (CState k' e) = Ret (0, r') (CState k' 0) /\
    x86_filled c (compat_task k pid) (set_member c (user_area k pid) (8 * i) 8 v) r'.
Proof.
  intros (Hs & Hc & Hu' & _) Hi Hu Hr.
  rewrite <- Hc, <- Hu'.
  apply regset_fill_x86; try done; try apply build_arch; try apply build_endian;
    try apply build_getregset.
  rewrite Hu', length_set_member; [done|]. rewrite Hu, build_regs. unfold sizeof_x86_64_regs. lia.
Qed.

Lemma write_argument_run k e pid r i v :
  stopped k pid -> length (user_area k pid) = sizeof_regs c ->
  rs_abi r = x86_task_abi c (compat_task k pid) (user_area k pid) -> 0 <= i < 6 ->
  exists k', pink_write_argument c pid r i v (CState k e) = Ret (0, r) (CState k' 0) /\
    register_set k k' pid (nth (Z.to_nat i) (task_args (compat_task k pid)) 0%nat) v.
Proof.
  intros Hs Hu Ha Hi. destruct (arg_pair i Hi) as (j & a & q & He & Hca & Hq & _ & Hna & Hnq & Hla & Hlq).
  unfold pink_write_argument, PINK_MAX_ARGS. rewrite (proj2 (Z.leb_gt 6 i)) by lia.
  rewrite build_arch, Ha, task_abi_cases, build_x32. unfold task_args, poke_arg, PINK_ABI_I386, PINK_ABI_X86_64.
  rewrite bool_decide_true by done.
  destruct (compat_task k pid) eqn:Hc; cbn [Z.eqb Pos.eqb].
  - rewrite Hca, Hna. destruct (write_user_ok k e pid a v Hs ltac:(lia) Hu) as (k' & Hw & H).
    exists k'. rewrite (cbind_run _ _ _ _ _ Hw). done.
  - rewrite Hq, Hnq. destruct (write_user_ok k e pid q v Hs ltac:(lia) Hu) as (k' & Hw & H).
    exists k'. destruct (Z.testbit _ 30); cbn [Z.eqb Pos.eqb orb andb];
      rewrite (cbind_run _ _ _ _ _ Hw); done.
Qed.

(** C2. Arguments on 64-bit x86, through the kernel: [pink_write_argument] on a
    stopped tracee, then a new [pink_regset_fill], then [pink_read_argument]
    gives back the value written (for a 32-bit task its sign-extended low half), and
    the other five arguments and the ABI are as before.  In the tracee the user area
    differs in the eight bytes of that argument's register and nowhere else; its
    memory, and whether it is a 32-bit task, are as they were. *)
Theorem pink_write_read_argument k e pid r i v :
  stopped k pid -> length (user_area k pid) = sizeof_regs c ->
  x86_filled c (compat_task k pid) (user_area k pid) r -> 0 <= i < 6 ->
  exists k' r',
    pink_write_argument c pid r i v (CState k e) = Ret (0, r) (CState k' 0) /\
    pink_regset_fill c pid r (CState k' 0) = Ret (0, r') (CState k' 0) /\
    user_area k' pid =
      splice (user_area k pid) (8 * nth (Z.to_nat i) (task_args (compat_task k pid)) 0%nat)
        (le_split 8 v) /\
    compat_task k' pid = compat_task k pid /\ (forall a, tmem k' pid a = tmem k pid a) /\
    rs_abi r' = rs_abi r /\
    (forall j, 0 <= j < 6 ->
       pink_read_argument c pid r' j (CState k' 0) =
       if j =? i then Ret (0, Some (task_value (compat_task k pid) v)) (CState k' 0)
       else match pink_read_argument c pid r j (CState k 0) with
            | Ret a _ => Ret a (CState k' 0)
            | _ => Undef
            end).
Proof.
  intros Hs Hu Hf Hi. pose proof Hf as (Ha & Hl & _).
  destruct (write_argument_run k e pid r i v Hs Hu Ha Hi) as (k' & Hw & Hset).
  set (compat := compat_task k pid) in *. set (u := user_area k pid) in *.
  set (reg := nth (Z.to_nat i) (task_args compat) 0%nat) in *.
  assert (Hreg : (reg <= 14)%nat).
  { destruct (arg_pair i Hi) as (? & a & q & _ & _ & _ & _ & Hna & Hnq & ? & ?).
    unfold reg, task_args. destruct compat; lia. }
  destruct (fill_after_set k k' 0 pid reg v r Hset ltac:(lia) Hu Hl) as (r' & Hfill & Hf').
  fold compat u in Hf'.
  exists k', r'. split_and!; [done | done | | apply Hset.. | |].
  - destruct Hset as (_ & _ & -> & _). unfold set_member. by rewrite build_endian.
  - destruct Hf' as (Ha' & _). rewrite Ha', Ha, !task_abi_cases, x86_64_r_set by (done || lia).
    rewrite decide_False; [done|]. unfold ORIG_RAX. lia.
  - intros j Hj. rewrite (read_argument_filled _ compat _ _ _ _ Hf' Hj).
    rewrite (read_argument_filled _ compat _ _ _ _ Hf Hj). unfold task_arg.
    rewrite x86_64_r_set by (done || lia).
    destruct (Z.eqb_spec j i) as [->|Hne].
    + rewrite decide_True by done. unfold task_value. destruct compat; [|by rewrite to_long_mod].
      rewrite <- (to_int_mod (v mod 2 ^ 64)), <- (to_int_mod v). do 4 f_equal.
      rewrite Z.mod_mod_divide; [done|]. by exists (2 ^ 32).
    + rewrite decide_False; [done|]. unfold reg. intros Heq.
      eapply (args_distinct compat j i) in Heq; [done..|]. done.
Qed.

(** ** Return values *)

Lemma is_negated_errno_spec v abi (s : cstate K) :
  0 <= abi < 3 -> is_negated_errno c (to_ulong c v) abi s = Ret (is_error abi v) s.
Proof.
  intros Ha. apply is_negated_errno_lp64; rewrite ?build_abis; [apply build_sizeof | lia | lia |].
  unfold pink_abi_wordsize, ABI0_WORDSIZE. rewrite build_abis, build_arch.
  assert (abi = 0 \/ abi = 1 \/ abi = 2) as [-> | [-> | ->]] by lia; reflexivity.
Qed.

(** The return value register as the task shows it. *)
Definition task_rax (compat : bool) (u : list byte) : Z := task_value compat (x86_64_r c u RAX).

Lemma task_abi_range compat u : 0 <= x86_task_abi c compat u < 3.
Proof. rewrite task_abi_cases. destruct compat, (Z.testbit (x86_64_r c u ORIG_RAX) 30); lia. Qed.

Lemma read_retval_filled pid compat u r (s : cstate K) :
  x86_filled c compat u r ->
  pink_read_retval c pid r s =
  if is_error (rs_abi r) (task_rax compat u)
  then Ret (0, -1, to_int (- task_rax compat u)) s
  else Ret (0, task_rax compat u, 0) s.
Proof.
  intros (Ha & _ & Hr). unfold pink_read_retval. rewrite build_arch.
  assert (Hrax : (if rs_abi r =? PINK_ABI_I386 then to_int (i386_r c (rs_regs r) EAX)
                  else to_long c (x86_64_r c (rs_regs r) RAX)) = task_rax compat u).
  { rewrite Ha, task_abi_cases. unfold task_rax, task_value, PINK_ABI_I386.
    destruct compat; cbn [Z.eqb Pos.eqb].
    - rewrite (Hr EAX RAX), to_int_mod; [done|].
      apply (bool_decide_eq_true_1 (_ ∈ _)); vm_compute; reflexivity.
    - rewrite Hr. by destruct (Z.testbit _ 30). }
  rewrite Hrax. unfold decode_retval.
  assert (Hab : 0 <= rs_abi r < 3) by (rewrite Ha; apply task_abi_range).
  rewrite (cbind_run _ _ _ _ _ (is_negated_errno_spec _ _ _ Hab)).
  destruct (is_error _ _); [done|]. unfold cret. do 3 f_equal.
  unfold task_rax, task_value. destruct compat.
  - apply wraps_small; [apply bits_long_pos|]. rewrite build_bits.
    pose proof (wraps_range 32 (x86_64_r c u RAX) ltac:(lia)) as Hb. unfold to_int. simpl in *. lia.
  - apply wraps_small; [apply bits_long_pos|]. apply wraps_range, bits_long_pos.
Qed.

Lemma write_retval_run k e pid r retval error v :
  stopped k pid -> length (user_area k pid) = sizeof_regs c ->
  (if error =? 0 then Some retval else int_value (- error)) = Some v ->
  exists k', pink_write_retval c pid r retval error (CState k e) = Ret (0, r) (CState k' 0) /\
    register_set k k' pid RAX v.
Proof.
  intros Hs Hu Hv. unfold pink_write_retval, retval_or_error. rewrite build_arch.
  destruct (write_user_ok k e pid RAX v Hs ltac:(unfold RAX; lia) Hu) as (k' & Hw & H).
  exists k'. split; [|done]. destruct (error =? 0); cbn [negb].
  - simplify_eq. rewrite cbind_cret. by rewrite (cbind_run _ _ _ _ _ Hw).
  - rewrite (cbind_checked _ _ _ _ Hv). by rewrite (cbind_run _ _ _ _ _ Hw).
Qed.

(** C28. [pink_read_retval] on a filled register set of 64-bit x86 never aborts,
    and tells errors from values: the result is -1 with error [n] exactly when
    the register holds the negation of a known error number [n], at the width of
    the ABI, and else the register with error 0.  For x32 the width is 32 bits
    although the register has 64, so that a 64-bit offset is taken for an error
    when its low half looks like one. *)
Theorem pink_read_retval_errors pid compat u r (s : cstate K) :
  x86_filled c compat u r ->
  let v := task_rax compat u in
  (forall n, 0 < n < errors -> v mod 2 ^ abi_bits (rs_abi r) = 2 ^ abi_bits (rs_abi r) - n ->
     pink_read_retval c pid r s = Ret (0, -1, n) s) /\
  ((forall n, 0 < n < errors -> v mod 2 ^ abi_bits (rs_abi r) <> 2 ^ abi_bits (rs_abi r) - n) ->
     pink_read_retval c pid r s = Ret (0, v, 0) s).
Proof.
  intros Hf v. rewrite (read_retval_filled _ _ _ _ _ Hf). fold v. split.
  - intros n Hn Hv. rewrite (proj2 (is_error_iff _ _)) by eauto.
    do 2 f_equal. by apply (error_number (rs_abi r)).
  - intros Hn. destruct (is_error (rs_abi r) v) eqn:He; [|done].
    apply is_error_iff in He as (n & H1 & H2). by destruct (Hn n).
Qed.

(** C4. Return values round trip through the kernel: after [pink_write_retval] and
    a new [pink_regset_fill], [pink_read_retval] gives -1 and the error for every
    known error number, and the value with error 0 for every value that is not a
    negated error number at the ABI's width. *)
Theorem pink_write_read_retval k e pid r retval error :
  stopped k pid -> length (user_area k pid) = sizeof_regs c ->
  x86_filled c (compat_task k pid) (user_area k pid) r ->
  0 <= error < errors ->
  (error = 0 -> is_error (rs_abi r) (task_value (compat_task k pid) retval) = false) ->
  exists k' r',
    pink_write_retval c pid r retval error (CState k e) = Ret (0, r) (CState k' 0) /\
    pink_regset_fill c pid r (CState k' 0) = Ret (0, r') (CState k' 0) /\
    pink_read_retval c pid r' (CState k' 0) =
    Ret (0, if error =? 0 then task_value (compat_task k pid) retval else -1, error) (CState k' 0).
Proof.
  intros Hs Hu Hf Herr Hok. pose proof Hf as (Ha & Hl & _). rewrite errors_value in Herr.
  set (v := if error =? 0 then retval else - error).
  destruct (write_retval_run k e pid r retval error v Hs Hu) as (k' & Hw & Hset).
  { unfold v, int_value. destruct (error =? 0); [done|].
    rewrite (proj2 (Z.leb_le _ _)), (proj2 (Z.ltb_lt _ _)) by lia. done. }
  destruct (fill_after_set k k' 0 pid RAX v r Hset ltac:(unfold RAX; lia) Hu Hl) as (r' & Hfill & Hf').
  exists k', r'. split_and!; [done | done |].
  set (compat := compat_task k pid) in *. set (u := user_area k pid) in *.
  rewrite (read_retval_filled _ _ _ _ _ Hf').
  assert (Habi : rs_abi r' = rs_abi r).
  { destruct Hf' as (Ha' & _). rewrite Ha', Ha, !task_abi_cases, x86_64_r_set by (done || (unfold RAX; lia)). done. }
  assert (Hrax : task_rax compat (set_member c u (8 * RAX) 8 v) = task_value compat v).
  { unfold task_rax. rewrite x86_64_r_set by (done || (unfold RAX; lia)). rewrite decide_True by done.
    unfold task_value. destruct compat; [|by rewrite to_long_mod].
    rewrite <- (to_int_mod (v mod 2 ^ 64)), <- (to_int_mod v).
    by rewrite Z.mod_mod_divide by (by exists (2 ^ 32)). }
  rewrite Habi, Hrax. unfold v. destruct (Z.eqb_spec error 0) as [->|Hne]; [by rewrite Hok|].
  assert (Hneg : task_value compat (- error) = - error).
  { unfold task_value. destruct compat; apply wraps_small; try apply bits_long_pos; try lia.
    rewrite build_bits. simpl. lia. }
  rewrite Hneg, (proj2 (is_error_iff _ _)).
  - do 2 f_equal. rewrite Z.opp_involutive. apply wraps_small; simpl; lia.
  - exists error. rewrite errors_value. split; [lia|]. symmetry. unfold abi_bits.
    case_match; apply (Zmod_unique _ _ (-1)); lia.
Qed.

(** ** System call numbers *)

Lemma write_syscall_run k e pid r n :
  stopped k pid -> length (user_area k pid) = sizeof_regs c ->
  exists k', pink_write_syscall c pid r n (CState k e) = Ret 0 (CState k' 0) /\
    register_set k k' pid ORIG_RAX n.
Proof.
  intros Hs Hu. unfold pink_write_syscall. rewrite build_arch.
  apply write_user_ok; [done | unfold ORIG_RAX; lia | done].
Qed.

Lemma read_syscall_filled pid compat u r n (s : cstate K) :
  x86_filled c compat u r -> x86_64_r c u ORIG_RAX = n -> 0 <= n < 2 ^ 32 ->
  pink_read_syscall c pid r s =
  Ret (0, Some (if compat then n else if Z.testbit n 30 then n - 2 ^ 30 else n)) s.
Proof.
  intros (Ha & _ & Hr) Hn Hb. unfold pink_read_syscall. rewrite build_arch, Ha, task_abi_cases, build_x32, Hn.
  assert (Hl : to_long c n = n).
  { apply wraps_small; [apply bits_long_pos|]. rewrite build_bits. simpl in *. lia. }
  unfold PINK_ABI_I386. destruct compat; cbn [Z.eqb Pos.eqb].
  - rewrite (Hr ORIG_EAX ORIG_RAX), Hn, Z.mod_small, Hl; [done | lia |].
    apply (bool_decide_eq_true_1 (_ ∈ _)); vm_compute; reflexivity.
  - rewrite Hr, Hn, Hl. destruct (Z.testbit n 30); cbn [Z.eqb Pos.eqb]; [|done].
    erewrite cbind_checked; [done|]. unfold long_value. rewrite build_bits.
    change __X32_SYSCALL_BIT with (2 ^ 30).
    rewrite (proj2 (Z.leb_le _ _)), (proj2 (Z.ltb_lt _ _)) by (simpl in *; lia). done.
Qed.

(** The number of a 64-bit task, for every content of its register. *)
Definition task_scno (u : list byte) : Z :=
  let v := x86_64_r c u ORIG_RAX in
  if Z.testbit v 30 then to_long c v - 2 ^ 30 else to_long c v.

(** A number with bit 30 set stays in range without it. *)
Lemma clear_bit30_range v :
  Z.testbit v 30 = true -> - 2 ^ 63 <= to_long c v - 2 ^ 30 < 2 ^ 63.
Proof.
  intros Hb. unfold to_long. rewrite build_bits.
  pose proof (wraps_range 64 v ltac:(lia)) as Hr. change (64 - 1) with 63 in Hr.
  assert (Hbw : Z.testbit (wraps 64 v) 30 = true).
  { rewrite <- (Z.mod_pow2_bits_low _ 64) by lia. fold (wrapu 64 (wraps 64 v)).
    rewrite wrapu_wraps by lia. unfold wrapu. by rewrite Z.mod_pow2_bits_low by lia. }
  set (w := wraps 64 v) in *. apply Z.testbit_true in Hbw; [|lia].
  pose proof (Z.div_mod (w / 2 ^ 30) 2 ltac:(lia)). pose proof (Z.div_mod w (2 ^ 30) ltac:(lia)).
  pose proof (Z.mod_pos_bound w (2 ^ 30) ltac:(lia)). lia.
Qed.

Lemma read_syscall_native pid u r (s : cstate K) :
  x86_filled c false u r -> pink_read_syscall c pid r s = Ret (0, Some (task_scno u)) s.
Proof.
  intros (Ha & _ & Hr). unfold pink_read_syscall, task_scno.
  rewrite build_arch, Ha, task_abi_cases, build_x32, Hr. unfold PINK_ABI_I386.
  destruct (Z.testbit (x86_64_r c u ORIG_RAX) 30) eqn:Hb; cbn [Z.eqb Pos.eqb]; [|done].
  pose proof (clear_bit30_range _ Hb) as Hrange.
  erewrite cbind_checked; [done|]. unfold long_value. rewrite build_bits.
  change __X32_SYSCALL_BIT with (2 ^ 30).
  by rewrite (proj2 (Z.leb_le _ _)), (proj2 (Z.ltb_lt _ _)) by (simpl in *; lia).
Qed.

(** C30. System call numbers through the kernel: a number below 2^30 that
    [pink_write_syscall] stores is the number [pink_read_syscall] reads after a
    new fill, for a 64-bit and for a 32-bit task.  The write does not add the x32
    mark that the read removes: an x32 task whose own number is written back
    becomes an x86-64 task. *)
Theorem pink_write_read_syscall k e pid r n :
  stopped k pid -> length (user_area k pid) = sizeof_regs c ->
  length (rs_regs r) = sizeof_regs c -> 0 <= n < 2 ^ 30 ->
  exists k' r',
    pink_write_syscall c pid r n (CState k e) = Ret 0 (CState k' 0) /\
    pink_regset_fill c pid r (CState k' 0) = Ret (0, r') (CState k' 0) /\
    pink_read_syscall c pid r' (CState k' 0) = Ret (0, Some n) (CState k' 0) /\
    rs_abi r' = if compat_task k pid then PINK_ABI_I386 else PINK_ABI_X86_64.
Proof.
  intros Hs Hu Hl Hn. destruct (write_syscall_run k e pid r n Hs Hu) as (k' & Hw & Hset).
  destruct (fill_after_set k k' 0 pid ORIG_RAX n r Hset ltac:(unfold ORIG_RAX; lia) Hu Hl)
    as (r' & Hfill & Hf').
  assert (Hreg : x86_64_r c (set_member c (user_area k pid) (8 * ORIG_RAX) 8 n) ORIG_RAX = n).
  { rewrite x86_64_r_set by (done || (unfold ORIG_RAX; lia)). rewrite decide_True by done.
    apply Z.mod_small. simpl in *. lia. }
  assert (Hbit : Z.testbit n 30 = false).
  { apply Z.testbit_false; [lia|]. by rewrite Z.div_small by lia. }
  exists k', r'. split_and!; [done | done | |].
  - rewrite (read_syscall_filled _ _ _ _ n _ Hf' Hreg), Hbit by (simpl in *; lia).
    by destruct (compat_task k pid).
  - destruct Hf' as (Ha' & _). by rewrite Ha', task_abi_cases, Hreg, Hbit.
Qed.

End Build.

(** ** Witnesses *)

(** An x32 task in the system call 1 whose result has the low half of -5. *)
Definition task_x32 : sim := sim_task false [(ORIG_RAX, 0x40000001); (RAX, 0x1fffffffb); (RDI, 3)].

Section Witnesses.
Import Sim.X86.
#[local] Abbreviation c := x86_64_linux.

Lemma filled_example k :
  sim_pid k = 7 -> length (sim_user k) = sizeof_x86_64_regs ->
  exists r, x86_filled c (sim_compat k) (sim_user k) r.
Proof.
  intros Hp Hu.
  destruct (regset_fill_x86 c k 0 7 (pink_regset_zero c)) as (r & _ & Hf); try done.
  by exists r.
Qed.

Lemma pink_write_read_argument_witness :
  exists r k' r',
    pink_write_argument c 7 r 0 (-1) (CState task_open 0) = Ret (0, r) (CState k' 0) /\
    pink_regset_fill c 7 r (CState k' 0) = Ret (0, r') (CState k' 0) /\
    pink_read_argument c 7 r' 0 (CState k' 0) = Ret (0, Some (-1)) (CState k' 0).
Proof.
  destruct (filled_example task_open eq_refl eq_refl) as [r Hf]. exists r.
  destruct (pink_write_read_argument c task_open 0 7 r 0 (-1))
    as (k' & r' & Hw & Hfill & _ & _ & _ & _ & Hr);
    [reflexivity | reflexivity | exact Hf | lia |].
  exists k', r'. split_and!; [exact Hw | exact Hfill |]. exact (Hr 0 ltac:(lia)).
Defined.

Lemma pink_read_retval_errors_witness :
  exists r, x86_filled c false (user_of [(ORIG_RAX, 0x40000001); (RAX, 0x1fffffffb); (RDI, 3)]) r /\
    pink_read_retval c 7 r (CState task_x32 0) = Ret (0, -1, 5) (CState task_x32 0).
Proof.
  destruct (filled_example task_x32 eq_refl eq_refl) as [r Hf]. exists r. split; [exact Hf|].
  apply (proj1 (pink_read_retval_errors c 7 false _ r (CState task_x32 0) Hf)).
  - rewrite errors_value. lia.
  - destruct Hf as (-> & _). vm_compute. reflexivity.
Defined.

Lemma pink_write_read_retval_witness :
  exists r k' r',
    pink_write_retval c 7 r 42 13 (CState task_open 0) = Ret (0, r) (CState k' 0) /\
    pink_regset_fill c 7 r (CState k' 0) = Ret (0, r') (CState k' 0) /\
    pink_read_retval c 7 r' (CState k' 0) = Ret (0, -1, 13) (CState k' 0).
Proof.
  destruct (filled_example task_open eq_refl eq_refl) as [r Hf]. exists r.
  apply (pink_write_read_retval c task_open 0 7 r 42 13);
    [reflexivity | reflexivity | exact Hf | rewrite errors_value; lia | discriminate].
Defined.

Lemma pink_write_read_syscall_witness :
  exists k' r',
    pink_write_syscall c 7 (pink_regset_zero c) 1 (CState task_x32 0) = Ret 0 (CState k' 0) /\
    pink_regset_fill c 7 (pink_regset_zero c) (CState k' 0) = Ret (0, r') (CState k' 0) /\
    pink_read_syscall c 7 r' (CState k' 0) = Ret (0, Some 1) (CState k' 0) /\
    rs_abi r' = PINK_ABI_X86_64.
Proof.
  destruct (pink_write_read_syscall c task_x32 0 7 (pink_regset_zero c) 1)
    as (k' & r' & H1 & H2 & H3 & H4); [reflexivity | reflexivity | reflexivity | lia |].
  exists k', r'. split_and!; [exact H1 | exact H2 | exact H3 | exact H4].
Defined.

End Witnesses.
