(* ===== verification/RegistersArm64.v ===== *)
(** * Register round trips through the kernel, on AArch64

    The same questions as in [Registers], on the architecture whose registers are
    written as a whole note with PTRACE_SETREGSET: what write.c stores and what a
    new fill and read.c give back, for 64-bit tasks and for 32-bit ARM tasks. *)

From Stdlib Require Import ZArith Lia.
From stdpp Require Import base list numbers gmap.
From coqutil Require Import Byte Word.LittleEndianList.
From S2P Require Import Prelude Config Kernel Layout Sim Trace Vm Regset Read Write Registers.
Local Open Scope Z_scope.
Local Open Scope c_scope.

(** An AArch64 build with the note requests; its byte order is either one. *)
Class Arm64Build (c : config) : Prop := {
  arm64_arch : PINK_ARCH c = AARCH64;
  arm64_model : model c = LP64;
  arm64_getregset : PINK_HAVE_GETREGSET c = true;
  arm64_setregset : PINK_HAVE_SETREGSET c = true;
}.

#[export] Instance aarch64_linux_build : Arm64Build aarch64_linux.
Proof. done. Qed.

(** The note of a task by its width: the size, the width of a register and the
    number of general registers. *)
Definition note_size (compat : bool) : nat :=
  if compat then sizeof_arm_regs else sizeof_aarch64_regs.
Definition note_width (compat : bool) : nat := if compat then 4 else 8.
Definition note_general (compat : bool) : nat := if compat then 15 else 31.

(** The system call that the kernel is about to make for the tracee. *)
Class CallView (K : Type) : Type := { syscallno : K -> Z -> Z }.

(** ptrace(2) on AArch64: the note has the size of the task's width; a note in
    which at most one general register differs is accepted and becomes the
    tracee's, which leaves the number of the call alone; NT_ARM_SYSTEM_CALL sets the number of the call and no register; there
    is no user area to poke into. *)
Class Arm64Regs (c : config) (K : Type) `{!KernelOps K} `{!TraceeView K} `{!RegView K}
    `{!CallView K} : Prop := {
  prstatus_size k pid :
    stopped k pid -> length (prstatus k pid) = note_size (compat_task k pid);
  setregset_ok k pid base i v :
    stopped k pid -> (i < note_general (compat_task k pid))%nat ->
    let n := note_size (compat_task k pid) in
    let w := note_width (compat_task k pid) in
    take n base = set_member c (prstatus k pid) (w * i) w v ->
    exists k', sys_ptrace PTRACE_SETREGSET pid NT_PRSTATUS (DIov base (Z.of_nat n)) k
               = (SysRet 0 None, DIov base (Z.of_nat n), k') /\
      stopped k' pid /\ compat_task k' pid = compat_task k pid /\
      prstatus k' pid = take n base /\ (forall a, tmem k' pid a = tmem k pid a) /\
      syscallno k' pid = syscallno k pid;
  setregset_call k pid bs :
    stopped k pid -> length bs = 4%nat ->
    exists k', sys_ptrace PTRACE_SETREGSET pid NT_ARM_SYSTEM_CALL (DIov bs 4) k
               = (SysRet 0 None, DIov bs 4, k') /\
      stopped k' pid /\ compat_task k' pid = compat_task k pid /\
      prstatus k' pid = prstatus k pid /\ syscallno k' pid = get_member c bs 0 4;
  pokeuser_refused k pid a v :
    stopped k pid -> sys_ptrace PTRACE_POKEUSER pid a (DVal v) k = (SysRet (-1) (Some EIO), DVal v, k);
}.

Section Arm64.
Context (c : config) `{!Arm64Build c}.

Lemma arm64_bits : bits_long c = 64.
Proof. unfold bits_long, sizeof_long. by rewrite arm64_model. Qed.

Lemma arm64_regs : sizeof_regs c = sizeof_aarch64_regs.
Proof. unfold sizeof_regs. by rewrite arm64_arch. Qed.

Definition arm64_abi (compat : bool) : Z := if compat then PINK_ABI_ARM else PINK_ABI_AARCH64.

(** A register of a note, and its value as a [long]: the registers are unsigned,
    so that those of a 32-bit task are extended with zeros. *)
Definition note_reg (compat : bool) (note : list byte) (i : nat) : Z :=
  get_member c note (note_width compat * i) (note_width compat).
Definition arm64_value (compat : bool) (v : Z) : Z :=
  to_long c (v mod 2 ^ (8 * Z.of_nat (note_width compat))).

(** A register set that describes a task with the given note. *)
Definition arm64_filled (compat : bool) (note : list byte) (r : pink_regset) : Prop :=
  rs_abi r = arm64_abi compat /\ rs_iov_base r = true /\
  rs_iov_len r = Z.of_nat (note_size compat) /\ length (rs_regs r) = sizeof_regs c /\
  take (note_size compat) (rs_regs r) = note.

(** ** Members of a prefix *)

Lemma get_member_take bs n off w :
  (off + w <= n)%nat -> get_member c (take n bs) off w = get_member c bs off w.
Proof. intros H. unfold get_member. by rewrite skipn_firstn_comm, take_take_le by lia. Qed.

Lemma set_member_take bs n off w v :
  (off + w <= n <= length bs)%nat ->
  take n (set_member c bs off w v) = set_member c (take n bs) off w v.
Proof.
  intros H. unfold set_member.
  assert (Hl : length (if big_endian c then reverse (le_split w v) else le_split w v) = w).
  { destruct (big_endian c); rewrite ?length_reverse; apply length_le_split. }
  revert Hl. generalize (if big_endian c then reverse (le_split w v) else le_split w v).
  intros m Hm. unfold splice. rewrite take_take_le by lia.
  rewrite take_app_ge by (rewrite length_take; lia). f_equal.
  rewrite take_app_ge by (rewrite length_take; lia). f_equal.
  rewrite skipn_firstn_comm. f_equal. rewrite length_take. lia.
Qed.

Lemma note_general_fits compat i :
  (i < note_general compat)%nat -> (note_width compat * i + note_width compat <= note_size compat)%nat.
Proof.
  destruct compat; unfold note_width, note_size, note_general, sizeof_arm_regs, sizeof_aarch64_regs; lia.
Qed.

Lemma note_size_fits compat : (note_size compat <= sizeof_regs c)%nat.
Proof. rewrite arm64_regs. destruct compat; unfold note_size, sizeof_arm_regs, sizeof_aarch64_regs; lia. Qed.

Lemma note_reg_set compat note i j v :
  length note = note_size compat -> (i < note_general compat)%nat ->
  note_reg compat (set_member c note (note_width compat * i) (note_width compat) v) j =
  if decide (j = i) then v mod 2 ^ (8 * Z.of_nat (note_width compat)) else note_reg compat note j.
Proof.
  intros Hn Hi. pose proof (note_general_fits compat i Hi). unfold note_reg.
  case_decide as Hj; [subst j; rewrite get_set_member by lia; by rewrite Z.mul_comm|].
  apply get_set_member_ne; [lia|]. destruct compat; simpl; lia.
Qed.

(** The register of a filled set that the code names is the one of the note. *)
Lemma filled_reg compat note r i :
  arm64_filled compat note r -> (i < note_general compat)%nat ->
  (if compat then arm_r c (rs_regs r) i else aarch64_r c (rs_regs r) i) = note_reg compat note i.
Proof.
  intros (_ & _ & _ & _ & <-) Hi. unfold note_reg.
  rewrite get_member_take by (by apply note_general_fits). by destruct compat.
Qed.

(** ** Reading *)

Section Read.
Context {K : Type} `{!KernelOps K}.

Lemma arm64_read_argument pid compat note r i (s : cstate K) :
  arm64_filled compat note r -> 0 <= i < 6 ->
  pink_read_argument c pid r i s = Ret (0, Some (to_long c (note_reg compat note (Z.to_nat i)))) s.
Proof.
  intros Hf Hi. pose proof Hf as (Ha & _).
  rewrite <- (filled_reg _ _ _ (Z.to_nat i) Hf) by (destruct compat; simpl; lia).
  unfold pink_read_argument, PINK_MAX_ARGS. rewrite (proj2 (Z.leb_gt 6 i)) by lia.
  rewrite arm64_arch, Ha. by destruct compat.
Qed.

(** The number is read from x8 or r7. *)
Lemma arm64_read_syscall pid compat note r (s : cstate K) :
  arm64_filled compat note r ->
  pink_read_syscall c pid r s
  = Ret (0, Some (to_long c (note_reg compat note (if compat then 7 else 8)%nat))) s.
Proof.
  intros Hf. pose proof Hf as (Ha & _).
  rewrite <- (filled_reg _ _ _ _ Hf) by (destruct compat; simpl; lia).
  unfold pink_read_syscall. rewrite arm64_arch, Ha. by destruct compat.
Qed.

Lemma arm64_read_retval pid compat note r (s : cstate K) :
  arm64_filled compat note r ->
  let v := note_reg compat note 0 in
  pink_read_retval c pid r s =
  if is_error (arm64_abi compat) v then Ret (0, -1, to_int (- v)) s else Ret (0, to_long c v, 0) s.
Proof.
  intros Hf v. pose proof Hf as (Ha & _). unfold pink_read_retval. rewrite arm64_arch, Ha.
  assert (Hv : v = if compat then arm_r c (rs_regs r) 0 else aarch64_r c (rs_regs r) 0).
  { unfold v. rewrite <- (filled_reg _ _ _ 0 Hf); [done|]. destruct compat; simpl; lia. }
  assert (Hdec : decode_retval c (arm64_abi compat) v s =
    if is_error (arm64_abi compat) v then Ret (0, -1, to_int (- v)) s
    else Ret (0, to_long c v, 0) s).
  { unfold decode_retval. rewrite (cbind_run _ _ _ (is_error (arm64_abi compat) v) s);
      [by destruct (is_error _ _)|].
    apply is_negated_errno_lp64; unfold sizeof_long, pink_abi_wordsize, ABI0_WORDSIZE,
      PINK_ABIS_SUPPORTED; rewrite ?arm64_model, ?arm64_arch; destruct compat; done. }
  rewrite <- Hdec, Hv. by destruct compat.
Qed.

End Read.

(** What is read back of a stored return value. *)
Lemma arm64_retval_decode {K} retval error (s : cstate K) :
  - 2 ^ 63 <= retval < 2 ^ 63 -> (error = 0 -> is_error PINK_ABI_AARCH64 retval = false) ->
  0 <= error < 531 ->
  let v := (if error =? 0 then retval else - error) mod 2 ^ (8 * Z.of_nat (note_width false)) in
  (if is_error (arm64_abi false) v then Ret (0, -1, to_int (- v)) s else Ret (0, to_long c v, 0) s)
  = Ret (0, if error =? 0 then retval else -1, error) s.
Proof.
  intros Hret Hok Herr v.
  assert (Hmod : is_error (arm64_abi false) v = is_error PINK_ABI_AARCH64 (if error =? 0 then retval else - error)).
  { unfold is_error, abi_bits, v. cbn. by rewrite Z.mod_mod by lia. }
  rewrite Hmod. unfold v. cbn [note_width]. change (8 * Z.of_nat 8) with 64.
  destruct (Z.eqb_spec error 0) as [->|Hne].
  - rewrite Hok by done. unfold to_long. rewrite arm64_bits. do 3 f_equal.
    fold (wrapu 64 retval). rewrite (wraps_wrapu 64) by lia. by apply wraps_small.
  - assert (Hm : (- error) mod 2 ^ 64 = 2 ^ 64 - error) by (symmetry; apply (Zmod_unique _ _ (-1)); lia).
    rewrite (proj2 (is_error_iff _ _)) by (exists error; rewrite errors_value; split; [lia | exact Hm]).
    do 3 f_equal. apply (error_number 0); [rewrite errors_value; lia|]. cbn [abi_bits PINK_ABI_X86_64 Z.eqb].
    by rewrite Hm, Z.mod_small by lia.
Qed.

(** ** Writing *)

Section Write.
Context {K : Type} `{!KernelOps K} `{!TraceeView K} `{!RegView K} `{!CallView K}.
Context `{!PtraceErrno K} `{!PtraceRegset K} `{!Arm64Regs c K}.

(** A new fill describes the tracee. *)
Lemma arm64_fill k e pid r :
  stopped k pid -> length (rs_regs r) = sizeof_regs c ->
  exists r', pink_regset_fill c pid r (CState k e) = Ret (0, r') (CState k 0) /\
    arm64_filled (compat_task k pid) (prstatus k pid) r'.
Proof.
  intros Hs Hr. pose proof (prstatus_size k pid Hs) as Hp.
  pose proof (note_size_fits (compat_task k pid)) as Hle.
  exists (Regset true (Z.of_nat (note_size (compat_task k pid)))
    (prstatus k pid ++ drop (note_size (compat_task k pid)) (rs_regs r))
    (arm64_abi (compat_task k pid))).
  split.
  - rewrite (pink_regset_fill_aarch64 c k e pid r arm64_arch arm64_getregset Hs Hr ltac:(lia)).
    rewrite Hp. by destruct (compat_task k pid).
  - split_and!; [done..| | by apply take_app_length'].
    cbn [rs_regs]. rewrite length_app, length_drop. lia.
Qed.

(** The tracee after one of its registers was set. *)
Definition note_set (k k' : K) (pid : Z) (i : nat) (v : Z) : Prop :=
  let w := note_width (compat_task k pid) in
  stopped k' pid /\ compat_task k' pid = compat_task k pid /\
  prstatus k' pid = set_member c (prstatus k pid) (w * i) w v /\
  (forall a, tmem k' pid a = tmem k pid a) /\ syscallno k' pid = syscallno k pid.

(** Storing one register in a filled set and handing the set to the kernel. *)
Lemma store_note k e pid r i v :
  stopped k pid -> arm64_filled (compat_task k pid) (prstatus k pid) r ->
  (i < note_general (compat_task k pid))%nat ->
  let w := note_width (compat_task k pid) in
  let r' := set_regs r (set_member c (rs_regs r) (w * i) w v) in
  exists k', pink_trace_set_regset c pid (regset_iov r') NT_PRSTATUS (CState k e)
             = Ret 0 (CState k' 0) /\
    note_set k k' pid i v /\ arm64_filled (compat_task k' pid) (prstatus k' pid) r'.
Proof.
  intros Hs (Ha & Hb & Hn & Hl & Hp) Hi w r'. set (compat := compat_task k pid) in *.
  pose proof (note_general_fits compat i Hi) as Hfit. pose proof (note_size_fits compat) as Hle.
  fold w in Hfit.
  assert (Ht : take (note_size compat) (rs_regs r') = set_member c (prstatus k pid) (w * i) w v).
  { simpl. rewrite set_member_take by lia. by rewrite Hp. }
  destruct (setregset_ok k pid (rs_regs r') i v Hs Hi Ht) as (k' & Hk & Hs' & Hc & Hp' & Hm & Hno).
  exists k'. split; [|split].
  - unfold pink_trace_set_regset, regset_iov. rewrite arm64_setregset.
    change (rs_iov_base r') with (rs_iov_base r). change (rs_iov_len r') with (rs_iov_len r).
    assert (Hnt : to_long c NT_PRSTATUS = NT_PRSTATUS).
    { apply wraps_small; [apply bits_long_pos|]. rewrite arm64_bits. unfold NT_PRSTATUS. lia. }
    fold compat in Hk. rewrite Hb, Hn, Hnt. by rewrite (ptrace_rc_cases _ _ _ _ (CState k e) _ _ _ Hk).
  - unfold note_set. by rewrite Hp'.
  - rewrite Hc, Hp'. split_and!; [done..| |done]. simpl. rewrite length_set_member; lia.
Qed.

(** C12. Arguments on AArch64, through the kernel: [pink_write_argument] stores the
    register in the set it is given and hands the whole set to the kernel; the set
    and a new [pink_regset_fill] then both give the value written (for a 32-bit
    task its low half, extended with zeros), and the other five arguments and the
    ABI are as before.  The tracee's register note differs in the bytes of that one
    register and nowhere else; its memory, its width and the system call the kernel
    is about to make for it are as they were. *)
Theorem pink_write_read_argument_arm64 k e pid r i v :
  stopped k pid -> arm64_filled (compat_task k pid) (prstatus k pid) r -> 0 <= i < 6 ->
  exists k' r1 r2,
    pink_write_argument c pid r i v (CState k e) = Ret (0, r1) (CState k' 0) /\
    pink_regset_fill c pid r1 (CState k' 0) = Ret (0, r2) (CState k' 0) /\
    (let w := note_width (compat_task k pid) in
     prstatus k' pid = set_member c (prstatus k pid) (w * Z.to_nat i) w v) /\
    compat_task k' pid = compat_task k pid /\ (forall a, tmem k' pid a = tmem k pid a) /\
    syscallno k' pid = syscallno k pid /\ rs_abi r2 = rs_abi r /\
    (forall r' j, r' = r1 \/ r' = r2 -> 0 <= j < 6 ->
       pink_read_argument c pid r' j (CState k' 0) =
       if j =? i then Ret (0, Some (arm64_value (compat_task k pid) v)) (CState k' 0)
       else match pink_read_argument c pid r j (CState k 0) with
            | Ret a _ => Ret a (CState k' 0)
            | _ => Undef
            end).
Proof.
  intros Hs Hf Hi. pose proof Hf as (Ha & _ & _ & Hl & _).
  assert (Hgen : forall j, 0 <= j < 6 -> (Z.to_nat j < note_general (compat_task k pid))%nat)
    by (intros; destruct (compat_task k pid); simpl; lia).
  destruct (store_note k e pid r (Z.to_nat i) v Hs Hf (Hgen i Hi)) as (k' & Hk & (Hs' & Hc & Hp & Hm & Hno) & Hf1).
  set (r1 := set_regs _ _) in *.
  destruct (arm64_fill k' 0 pid r1 Hs') as (r2 & Hfill & Hf2); [apply Hf1|].
  exists k', r1, r2. split_and!; [|done | exact Hp | done | done | done | |].
  - unfold pink_write_argument, PINK_MAX_ARGS. rewrite (proj2 (Z.leb_gt 6 i)) by lia.
    rewrite arm64_arch, Ha. unfold r1, set_aarch64_r, set_arm_r in *.
    destruct (compat_task k pid); cbn [arm64_abi PINK_ABI_ARM PINK_ABI_AARCH64 Z.eqb] in *;
      by rewrite (cbind_run _ _ _ _ _ Hk).
  - destruct Hf2 as (-> & _). by rewrite Ha, Hc.
  - intros r' j Hr' Hj. assert (Hf' : arm64_filled (compat_task k' pid) (prstatus k' pid) r')
      by (destruct Hr' as [-> | ->]; done).
    rewrite (arm64_read_argument _ _ _ _ _ _ Hf' Hj), (arm64_read_argument _ _ _ _ _ _ Hf Hj).
    rewrite Hc, Hp, note_reg_set by (by apply prstatus_size || by apply Hgen).
    destruct (Z.eqb_spec j i) as [->|Hne]; [by rewrite decide_True|].
    by rewrite decide_False by lia.
Qed.

(** The error register of a task: what [pink_write_retval] leaves and what is read
    back, by the width of the task. *)
Lemma arm64_write_retval k e pid r retval error v :
  stopped k pid -> arm64_filled false (prstatus k pid) r -> compat_task k pid = false ->
  (if error =? 0 then Some retval else int_value (- error)) = Some v ->
  exists k' r1, pink_write_retval c pid r retval error (CState k e) = Ret (0, r1) (CState k' 0) /\
    note_set k k' pid 0 v /\ arm64_filled (compat_task k' pid) (prstatus k' pid) r1.
Proof.
  intros Hs Hf Hc Hv. pose proof Hf as (Ha & _). rewrite <- Hc in Hf.
  destruct (store_note k e pid r 0 v Hs Hf) as (k' & Hk & Hset & Hf1); [rewrite Hc; simpl; lia|].
  eexists k', _. split_and!; [| exact Hset | exact Hf1].
  unfold pink_write_retval, retval_or_error. rewrite arm64_arch, Ha. rewrite Hc in Hk |- *.
  cbn [arm64_abi PINK_ABI_ARM PINK_ABI_AARCH64 Z.eqb note_width].
  destruct (error =? 0); cbn [negb].
  - simplify_eq. rewrite cbind_cret. by rewrite (cbind_run _ _ _ _ _ Hk).
  - rewrite (cbind_checked _ _ _ _ Hv). by rewrite (cbind_run _ _ _ _ _ Hk).
Qed.

(** C31. Return values on AArch64, through the kernel: for a 64-bit task every known
    error number, and every value that is not a negated one, is read back after
    [pink_write_retval] and a new [pink_regset_fill].  For a 32-bit task the code
    pokes into the user area, which the kernel does not have: the call always
    fails with -EFAULT and the tracee is as before. *)
Theorem pink_write_read_retval_arm64 k e pid r retval error :
  stopped k pid -> arm64_filled (compat_task k pid) (prstatus k pid) r ->
  0 <= error < errors -> - 2 ^ 63 <= retval < 2 ^ 63 ->
  (error = 0 -> is_error PINK_ABI_AARCH64 retval = false) ->
  if compat_task k pid
  then pink_write_retval c pid r retval error (CState k e) = Ret (- EFAULT, r) (CState k EFAULT)
  else exists k' r1 r2,
    pink_write_retval c pid r retval error (CState k e) = Ret (0, r1) (CState k' 0) /\
    pink_regset_fill c pid r1 (CState k' 0) = Ret (0, r2) (CState k' 0) /\
    pink_read_retval c pid r2 (CState k' 0) =
    Ret (0, if error =? 0 then retval else -1, error) (CState k' 0).
Proof.
  intros Hs Hf Herr Hret Hok. rewrite errors_value in Herr.
  set (v := if error =? 0 then retval else - error).
  assert (Hv : (if error =? 0 then Some retval else int_value (- error)) = Some v).
  { unfold v, int_value. destruct (error =? 0); [done|].
    by rewrite (proj2 (Z.leb_le _ _)), (proj2 (Z.ltb_lt _ _)) by lia. }
  destruct (compat_task k pid) eqn:Hc.
  - destruct Hf as (Ha & _). unfold pink_write_retval, retval_or_error. rewrite arm64_arch, Ha.
    assert (Hw : pink_write_word_user c pid 0 v (CState k e) = Ret (- EFAULT) (CState k EFAULT)).
    { unfold pink_write_word_user.
      by rewrite (ptrace_rc_cases _ _ _ _ (CState k e) _ _ _ (pokeuser_refused k pid _ v Hs)). }
    destruct (error =? 0); cbn [negb]; [rewrite cbind_cret; simplify_eq | rewrite (cbind_checked _ _ _ _ Hv)];
      cbn [arm64_abi PINK_ABI_ARM Z.eqb Pos.eqb]; by rewrite (cbind_run _ _ _ _ _ Hw).
  - destruct (arm64_write_retval k e pid r retval error v Hs Hf Hc Hv)
      as (k' & r1 & Hw & (Hs' & Hc' & Hp & _) & Hf1).
    destruct (arm64_fill k' 0 pid r1 Hs') as (r2 & Hfill & Hf2); [apply Hf1|].
    exists k', r1, r2. split_and!; [done..|]. rewrite (arm64_read_retval _ _ _ _ _ Hf2).
    pose proof (prstatus_size k pid Hs) as Hsz. rewrite Hc in Hsz.
    rewrite Hc', Hp, Hc, note_reg_set by (done || (simpl; lia)). rewrite decide_True by done.
    by apply arm64_retval_decode.
Qed.

(** System call numbers on AArch64: [pink_write_syscall] gives the kernel the
    low 16 bits of the number, so that -1 becomes 65535, and no register changes:
    [pink_read_syscall] after a new [pink_regset_fill] still gives the old number. *)
Theorem pink_write_syscall_arm64 k e pid r n :
  stopped k pid -> length (rs_regs r) = sizeof_regs c ->
  exists k' r0 r1,
    pink_write_syscall c pid r n (CState k e) = Ret 0 (CState k' 0) /\
    syscallno k' pid = n mod 2 ^ 16 /\
    pink_regset_fill c pid r (CState k e) = Ret (0, r0) (CState k 0) /\
    pink_regset_fill c pid r (CState k' 0) = Ret (0, r1) (CState k' 0) /\
    pink_read_syscall c pid r1 (CState k' 0)
    = match pink_read_syscall c pid r0 (CState k 0) with
      | Ret a _ => Ret a (CState k' 0)
      | _ => Undef
      end.
Proof.
  intros Hs Hl. set (bs := uint_bytes c (wrapu 16 n)).
  assert (Hlen : length bs = 4%nat).
  { unfold bs, uint_bytes. destruct (big_endian c); by rewrite ?length_reverse, length_le_split. }
  destruct (setregset_call k pid bs Hs Hlen) as (k' & Hk & Hs' & Hc & Hp & Hn).
  destruct (arm64_fill k e pid r Hs Hl) as (r0 & Hf0 & H0).
  destruct (arm64_fill k' 0 pid r Hs' Hl) as (r1 & Hf1 & H1).
  exists k', r0, r1. split_and!; [| |done..|].
  - unfold pink_write_syscall, pink_trace_set_regset. rewrite arm64_arch, arm64_setregset.
    assert (Hnt : to_long c NT_ARM_SYSTEM_CALL = NT_ARM_SYSTEM_CALL).
    { apply wraps_small; [apply bits_long_pos|]. rewrite arm64_bits. unfold NT_ARM_SYSTEM_CALL. lia. }
    cbv zeta. fold bs. rewrite Hnt. by rewrite (ptrace_rc_cases _ _ _ _ (CState k e) _ _ _ Hk).
  - rewrite Hn. unfold get_member. rewrite drop_0, take_ge by lia. unfold bs, uint_bytes.
    pose proof (Z.mod_pos_bound n (2 ^ 16) ltac:(lia)).
    destruct (big_endian c); rewrite ?reverse_involutive, le_combine_split;
      (apply Z.mod_small; unfold wrapu; simpl Z.mul; lia).
  - rewrite (arm64_read_syscall _ _ _ _ _ H1), (arm64_read_syscall _ _ _ _ _ H0). by rewrite Hc, Hp.
Qed.

End Write.

End Arm64.

(** ** A concrete kernel

    The kernel of [Sim] with the note requests of AArch64: the register block is
    the task's note, and its size tells the task's width. *)

Record armsim : Type := ArmSim { as_task : sim; as_call : Z }.

Section ArmSim.
Context (c : config).

Definition armsim_ptrace (req : ptrace_request) (pid addr : Z) (d : pdata) (k : armsim)
  : sysret * pdata * armsim :=
  match req, d with
  | PTRACE_SETREGSET, DIov base len =>
      if negb (pid =? sim_pid (as_task k)) then (SysRet (-1) (Some ESRCH), d, k)
      else if (addr =? NT_PRSTATUS) && (len =? Z.of_nat (length (sim_user (as_task k))))
      then (SysRet 0 None, d, ArmSim (set_user (as_task k) (take (Z.to_nat len) base)) (as_call k))
      else if (addr =? NT_ARM_SYSTEM_CALL) && (len =? 4)
      then (SysRet 0 None, d, ArmSim (as_task k) (get_member c base 0 4))
      else (SysRet (-1) (Some EINVAL), d, k)
  | PTRACE_POKEUSER, _ => (SysRet (-1) (Some EIO), d, k)
  | _, _ => let '(r, d', s) := sim_ptrace c req pid addr d (as_task k) in (r, d', ArmSim s (as_call k))
  end.

#[local] Instance armsim_ops : KernelOps armsim := {|
  sys_ptrace := armsim_ptrace;
  sys_process_vm_readv := fun pid a len k =>
    let '(r, bs, s) := sim_readv c false pid a len (as_task k) in (r, bs, ArmSim s (as_call k));
  sys_process_vm_writev := fun pid a bs k =>
    let '(r, s) := sim_writev c false pid a bs (as_task k) in (r, ArmSim s (as_call k));
  sys_tgkill := fun tgid tid sig k => (SysRet 0 None, k);
  sys_tkill := fun tid sig k => (SysRet 0 None, k);
  sys_kill := fun pid sig k => (SysRet 0 None, k);
|}.

#[local] Instance armsim_view : TraceeView armsim := {|
  stopped := fun k pid => pid = sim_pid (as_task k) /\ sim_compat (as_task k) = false /\
    (length (sim_user (as_task k)) = 72 \/ length (sim_user (as_task k)) = 272)%nat;
  tmem := fun k => sim_tmem c (as_task k);
  writable := fun _ _ _ => true;
|}.

#[local] Instance armsim_regs : RegView armsim := {|
  prstatus := fun k _ => sim_prstatus (as_task k);
  user_area := fun k _ => sim_user (as_task k);
  compat_task := fun k _ => (length (sim_user (as_task k)) =? 72)%nat;
|}.

#[local] Instance armsim_calls : CallView armsim := {| syscallno := fun k _ => as_call k |}.

Lemma armsim_errno : PtraceErrno armsim.
Proof.
  split. intros req pid a d k r d' k' e H He. simpl in H. unfold armsim_ptrace in H.
  destruct (sim_ptrace c req pid a d (as_task k)) as [[r0 d0] s0] eqn:Hs.
  assert (Hr : (r, d', k') = (r0, d0, ArmSim s0 (as_call k)) -> sr_val r = -1 /\ 0 < e).
  { intros [= -> -> ->].
    by apply (@ptrace_error sim (sim_ops c false) (sim_ptrace_errno c false) req pid a d _ _ _ _ _ Hs). }
  repeat case_match; simplify_eq/=; try (by apply Hr); unfold EIO, ESRCH, EINVAL; lia.
Qed.

Lemma armsim_regset : PtraceRegset armsim.
Proof.
  split. simpl. intros k pid base (-> & _) Hl.
  pose proof (@getregset_ok sim (sim_ops c false) (sim_view c) sim_regs (sim_ptrace_regset c false)
    (as_task k) _ base eq_refl Hl) as H. simpl in H. rewrite H. by destruct k.
Qed.

Lemma armsim_laws : Arm64Regs c armsim.
Proof.
  split; simpl.
  - intros k pid (_ & Hc & Hl). unfold sim_prstatus. rewrite Hc.
    destruct Hl as [Hl|Hl]; by rewrite Hl.
  - intros k pid base i v (-> & Hc & Hl) Hi Ht.
    set (n := note_size _) in *. set (w := note_width _) in *.
    assert (Hn : n = length (sim_user (as_task k))) by (unfold n; destruct Hl as [Hl|Hl]; by rewrite Hl).
    pose proof (note_general_fits _ _ Hi) as Hfit. fold n w in Hfit.
    unfold sim_prstatus in *. rewrite Hc in *.
    assert (Htl : length (take n base) = n) by (rewrite Ht, length_set_member; lia).
    unfold armsim_ptrace. rewrite Z.eqb_refl. cbn [negb Z.eqb NT_PRSTATUS Pos.eqb andb].
    rewrite <- Hn, Z.eqb_refl. eexists. split; [reflexivity|]. simpl. rewrite Nat2Z.id, Htl, Hc.
    split_and!; (done || by rewrite Hn).
  - intros k pid bs (-> & Hc & Hl) Hb. unfold armsim_ptrace. rewrite Z.eqb_refl. simpl.
    eexists. split; [reflexivity|]. done.
  - done.
Qed.

End ArmSim.

(** ** Witnesses *)

(** A 64-bit and a 32-bit task with zeros in their registers but for [x8] or [r7],
    in the call write. *)
Definition arm64_stopped (compat : bool) : armsim :=
  ArmSim (Sim 7 ∅ ∅ (set_member aarch64_linux (replicate (note_size compat) Byte.x00)
                       (if compat then 28 else 64) (note_width compat) 64) false []) 64.

Module Arm64Linux.
#[export] Instance ops : KernelOps armsim := armsim_ops aarch64_linux.
#[export] Instance view : TraceeView armsim := armsim_view aarch64_linux.
#[export] Instance regs : RegView armsim := armsim_regs.
#[export] Instance calls : CallView armsim := armsim_calls.
#[export] Instance errno_law : PtraceErrno armsim := armsim_errno aarch64_linux.
#[export] Instance regset_law : PtraceRegset armsim := armsim_regset aarch64_linux.
#[export] Instance regs_law : Arm64Regs aarch64_linux armsim := armsim_laws aarch64_linux.
End Arm64Linux.

Section Witnesses.
Import Arm64Linux.
#[local] Abbreviation c := aarch64_linux.

Lemma arm64_example compat :
  stopped (arm64_stopped compat) 7 /\
  exists r, pink_regset_fill c 7 (pink_regset_zero c) (CState (arm64_stopped compat) 0)
      = Ret (0, r) (CState (arm64_stopped compat) 0) /\
    arm64_filled c (compat_task (arm64_stopped compat) 7) (prstatus (arm64_stopped compat) 7) r.
Proof.
  assert (Hs : stopped (arm64_stopped compat) 7).
  { split_and!; [done..|]. destruct compat; [by left | by right]. }
  split; [exact Hs|].
  exact (arm64_fill c (arm64_stopped compat) 0 7 (pink_regset_zero c) Hs eq_refl).
Qed.

Lemma pink_write_read_argument_arm64_witness :
  exists r k' r1 r2,
    pink_write_argument c 7 r 3 (-1) (CState (arm64_stopped true) 0) = Ret (0, r1) (CState k' 0) /\
    pink_regset_fill c 7 r1 (CState k' 0) = Ret (0, r2) (CState k' 0) /\
    pink_read_argument c 7 r2 3 (CState k' 0) = Ret (0, Some 0xffffffff) (CState k' 0).
Proof.
  destruct (arm64_example true) as (Hs & r & _ & Hf). exists r.
  destruct (pink_write_read_argument_arm64 c (arm64_stopped true) 0 7 r 3 (-1) Hs Hf ltac:(lia))
    as (k' & r1 & r2 & Hw & Hfill & _ & _ & _ & _ & _ & Hr).
  exists k', r1, r2. split_and!; [exact Hw | exact Hfill |].
  exact (Hr r2 3 (or_intror eq_refl) ltac:(lia)).
Defined.

Lemma pink_write_read_retval_arm64_witness :
  (exists r, pink_write_retval c 7 r 0 13 (CState (arm64_stopped true) 0)
    = Ret (- EFAULT, r) (CState (arm64_stopped true) EFAULT)) /\
  (exists r k' r1 r2,
    pink_write_retval c 7 r 0 13 (CState (arm64_stopped false) 0) = Ret (0, r1) (CState k' 0) /\
    pink_regset_fill c 7 r1 (CState k' 0) = Ret (0, r2) (CState k' 0) /\
    pink_read_retval c 7 r2 (CState k' 0) = Ret (0, -1, 13) (CState k' 0)).
Proof.
  split.
  - destruct (arm64_example true) as (Hs & r & _ & Hf). exists r.
    apply (pink_write_read_retval_arm64 c (arm64_stopped true) 0 7 r 0 13 Hs Hf);
      [rewrite errors_value; lia | lia | discriminate].
  - destruct (arm64_example false) as (Hs & r & _ & Hf). exists r.
    apply (pink_write_read_retval_arm64 c (arm64_stopped false) 0 7 r 0 13 Hs Hf);
      [rewrite errors_value; lia | lia | discriminate].
Defined.

Lemma pink_write_syscall_arm64_witness :
  exists k' r0 r1,
    pink_write_syscall c 7 (pink_regset_zero c) (-1) (CState (arm64_stopped false) 0)
    = Ret 0 (CState k' 0) /\ syscallno k' 7 = 65535 /\
    pink_regset_fill c 7 (pink_regset_zero c) (CState (arm64_stopped false) 0)
    = Ret (0, r0) (CState (arm64_stopped false) 0) /\
    pink_regset_fill c 7 (pink_regset_zero c) (CState k' 0) = Ret (0, r1) (CState k' 0).
Proof.
  destruct (arm64_example false) as (Hs & _).
  destruct (pink_write_syscall_arm64 c (arm64_stopped false) 0 7 (pink_regset_zero c) (-1) Hs eq_refl)
    as (k' & r0 & r1 & H1 & H2 & H3 & H4 & _).
  exists k', r0, r1. split_and!; [exact H1 | exact H2 | exact H3 | exact H4].
Defined.

End Witnesses.
