(* ===== verification/Socket.v ===== *)
(** * socket.c: socket arguments and socket addresses *)

From Stdlib Require Import ZArith Lia.
From stdpp Require Import base list numbers gmap.
From coqutil Require Import Byte Word.LittleEndianList.
From S2P Require Import Prelude Config Kernel Layout Sim Trace Vm VmRead VmCross Regset Name Read ReadVm Write Registers.
Local Open Scope Z_scope.
Local Open Scope c_scope.

(** [struct pink_sockaddr]; [sa_u] is the union, by its bytes. *)
Record pink_sockaddr : Type := Sockaddr {
  sa_family : Z;
  sa_length : Z;
  sa_u : list byte;
}.

Definition sizeof_sockaddr_u : Z := 128.

Section Socket.
Context {K : Type} `{!KernelOps K} (c : config).

(** [indet] is the content of the uninitialised local [arg]; the pointer
    [argval] is not null, as its attribute promises. *)
Definition pink_read_socket_argument (indet : list byte) (pid : Z) (r : pink_regset)
    (decode_socketcall : bool) (arg_index : Z) : comp (cstate K) (Z * option Z) :=
  if negb decode_socketcall then
    let! (rc, v) := pink_read_argument c pid r arg_index in
    if rc <? 0 then cret (rc, None)
    else let! arg := checked v in cret (0, Some (to_ulong c arg))
  else
    let! (rc, v) := pink_read_argument c pid r 1 in
    if rc <? 0 then cret (rc, None)
    else
      let! addr := checked v in
      let! wsize := checked (pink_abi_wordsize c (rs_abi r)) in
      let u_addr := to_ulong c (to_ulong c addr + arg_index * wsize) in
      let size := if wsize =? sizeof_int then sizeof_int else sizeof_long c in
      let! (rc, arg) := pink_read_vm_data_full c pid r (to_long c u_addr)
                          (resize (Z.to_nat size) Byte.x00 indet) size in
      if rc <? 0 then cret (rc, None)
      else cret (0, Some (get_member c arg 0 (Z.to_nat size))).

(** [want_fd] says whether [fd] is not null; the result is the code, the
    descriptor when one was stored, and the address. *)
Definition pink_read_socket_address (indet : list byte) (pid : Z) (r : pink_regset)
    (decode_socketcall : bool) (arg_index : Z) (want_fd : bool) (sa : pink_sockaddr)
  : comp (cstate K) (Z * option Z * pink_sockaddr) :=
  let! (rc, myfd) := if want_fd
                     then pink_read_socket_argument indet pid r decode_socketcall 0
                     else cret (0, None) in
  if rc <? 0 then cret (rc, None, sa)
  else
    let fd := to_int <$> myfd in
    let! (rc, v) := pink_read_socket_argument indet pid r decode_socketcall arg_index in
    if rc <? 0 then cret (rc, fd, sa)
    else
      let! addr := checked v in
      let! (rc, v) := pink_read_socket_argument indet pid r decode_socketcall
                        (to_uint (arg_index + 1)) in
      if rc <? 0 then cret (rc, fd, sa)
      else
        let! addrlen := checked v in
        if addr =? 0 then cret (0, fd, Sockaddr (-1) 0 (sa_u sa))
        else
          let addrlen := if (addrlen <? 2) || (sizeof_sockaddr_u <? addrlen)
                         then sizeof_sockaddr_u else addrlen in
          let! (rc, u) := pink_read_vm_data_full c pid r (to_long c addr)
                            (replicate (Z.to_nat sizeof_sockaddr_u) Byte.x00) addrlen in
          if rc <? 0 then cret (rc, fd, Sockaddr (sa_family sa) (sa_length sa) u)
          else
            let u := splice u 127 [Byte.x00] in
            cret (0, fd, Sockaddr (get_member c u 0 2) addrlen u).

End Socket.

(** ** Properties *)

(** What read.c promises about arguments: the six values, with no effect. *)
Class ReadsArgs (c : config) (K : Type) `{!KernelOps K} (pid : Z) (r : pink_regset)
    (args : Z -> Z) : Prop :=
  reads_args i (s : cstate K) : 0 <= i < PINK_MAX_ARGS ->
    pink_read_argument c pid r i s = Ret (0, Some (args i)) s.

(** A filled register set of 64-bit x86 keeps it. *)
Lemma filled_reads_args c `{!X86Build c} {K} `{!KernelOps K} pid compat u r :
  x86_filled c compat u r -> ReadsArgs c K pid r (task_arg c compat u).
Proof. intros Hf i s Hi. by apply read_argument_filled. Qed.

Section Properties.
Context {K : Type} `{!KernelOps K} `{!TraceeView K} (c : config).
Context (pid : Z) (r : pink_regset) (args : Z -> Z) `{!ReadsArgs c K pid r args}.

(** The address of element [i] of the array that socketcall(2) is given. *)
Definition call_slot (wsize i : Z) : Z := to_ulong c (args 1 + i * wsize).

(** Argument [i] of a socket call, as the tracee's memory [k] has it. *)
Definition socket_arg (decode : bool) (wsize : Z) (k : K) (i : Z) : option Z :=
  if decode then
    bs ← read_mem (tmem k pid) (call_slot wsize i) (Z.to_nat wsize);
    Some (get_member c bs 0 (Z.to_nat wsize))
  else Some (to_ulong c (args i)).

(** The conditions under which argument [i] can be asked for. *)
Definition socket_arg_ok (decode : bool) (wsize : Z) (i : Z) : Prop :=
  if decode then plain_addr c (rs_abi r) (to_long c (call_slot wsize i)) /\
                 call_slot wsize i + wsize <= 2 ^ bits_long c
  else 0 <= i < PINK_MAX_ARGS.

Context `{!VmReads c K} (wsize : Z).
Context (Hw : pink_abi_wordsize c (rs_abi r) = Some wsize)
        (Hw48 : wsize = 4 \/ wsize = 8) (Hws : wsize = 4 \/ wsize = sizeof_long c).

Lemma socket_argument_run indet decode i k e :
  stopped k pid -> socket_arg_ok decode wsize i ->
  exists e', pink_read_socket_argument c indet pid r decode i (CState k e) =
  match socket_arg decode wsize k i with
  | Some v => Ret (0, Some v) (CState k e')
  | None => Ret (- EFAULT, None) (CState k e')
  end.
Proof.
  intros Hs Hok. unfold pink_read_socket_argument, socket_arg.
  destruct decode; cbn [negb].
  - rewrite (cbind_run _ _ _ _ _ (reads_args 1 (CState k e) ltac:(unfold PINK_MAX_ARGS; lia))).
    cbn [Z.ltb Z.compare]. rewrite (cbind_checked _ _ _ _ eq_refl), (cbind_checked _ _ _ _ Hw).
    assert (Hsz : (if wsize =? sizeof_int then sizeof_int else sizeof_long c) = wsize).
    { unfold sizeof_int. destruct (Z.eqb_spec wsize 4); [done|]. destruct Hws; congruence. }
    rewrite Hsz. destruct Hok as [Hp Hend].
    assert (Hslot : to_ulong c (to_ulong c (args 1) + i * wsize) = call_slot wsize i).
    { unfold call_slot, to_ulong. apply wrapu_add_l. }
    rewrite Hslot.
    assert (Hul : to_ulong c (to_long c (call_slot wsize i)) = call_slot wsize i).
    { rewrite to_ulong_long. unfold call_slot. apply wrapu_wrapu.
      pose proof (bits_long_pos c). lia. }
    pose proof (read_full_run c k e pid r (to_long c (call_slot wsize i))
      (resize (Z.to_nat wsize) Byte.x00 indet) wsize Hs Hp ltac:(lia)
      ltac:(rewrite length_resize; lia)) as Hr.
    rewrite Hul in Hr. specialize (Hr Hend).
    destruct (read_mem _ _ _) as [bs|] eqn:Hm.
    + exists 0. rewrite (cbind_run _ _ _ _ _ Hr). cbn [Z.ltb Z.compare].
      pose proof (length_read_mem _ _ _ _ Hm) as Hl.
      rewrite drop_ge, app_nil_r by (rewrite length_resize; lia). done.
    + destruct Hr as (d & Hr & _). exists EFAULT. by rewrite (cbind_run _ _ _ _ _ Hr).
  - exists e. by rewrite (cbind_run _ _ _ _ _ (reads_args i (CState k e) Hok)).
Qed.

(** [pink_read_socket_argument] gives argument [i] of a socket call: of a
    system call of its own, the register argument; of socketcall(2), element [i]
    of the array the second argument points to, at the ABI's width and
    zero-extended, or -EFAULT when the element is not mapped.  The tracee is not
    changed. *)
Theorem pink_read_socket_argument_value indet decode i k e :
  stopped k pid -> socket_arg_ok decode wsize i ->
  exists e', pink_read_socket_argument c indet pid r decode i (CState k e) =
  match socket_arg decode wsize k i with
  | Some v => Ret (0, Some v) (CState k e')
  | None => Ret (- EFAULT, None) (CState k e')
  end.
Proof. apply socket_argument_run. Qed.

(** The number of bytes read for a given address length. *)
Definition clamp_len (addrlen : Z) : Z :=
  if (addrlen <? 2) || (sizeof_sockaddr_u <? addrlen) then sizeof_sockaddr_u else addrlen.

Lemma clamp_len_range addrlen : 2 <= clamp_len addrlen <= 128.
Proof.
  unfold clamp_len, sizeof_sockaddr_u.
  destruct (Z.ltb_spec addrlen 2), (Z.ltb_spec 128 addrlen); simpl; lia.
Qed.

(** The union after [bs] was read into zeros and the last byte was cleared. *)
Definition sockaddr_bytes (bs : list byte) : list byte :=
  take 127 (bs ++ replicate (128 - length bs) Byte.x00) ++ [Byte.x00].

(** The last part of [pink_read_socket_address], from the three values on. *)
Lemma socket_address_tail (fd : option Z) sa k e addr addrlen :
  stopped k pid -> 0 < addr < 2 ^ bits_long c -> plain_addr c (rs_abi r) (to_long c addr) ->
  addr + clamp_len addrlen <= 2 ^ bits_long c ->
  let run := cbind (pink_read_vm_data_full c pid r (to_long c addr)
                      (replicate (Z.to_nat sizeof_sockaddr_u) Byte.x00) (clamp_len addrlen))
               (fun '(rc, u) =>
                  if rc <? 0 then cret (rc, fd, Sockaddr (sa_family sa) (sa_length sa) u)
                  else cret (0, fd, Sockaddr (get_member c (splice u 127 [Byte.x00]) 0 2)
                                 (clamp_len addrlen) (splice u 127 [Byte.x00]))) in
  match read_mem (tmem k pid) addr (Z.to_nat (clamp_len addrlen)) with
  | Some bs =>
      run (CState k e) = Ret (0, fd, Sockaddr (get_member c (sockaddr_bytes bs) 0 2)
                                (clamp_len addrlen) (sockaddr_bytes bs)) (CState k 0)
  | None =>
      exists u, length u = 128%nat /\
        run (CState k e) = Ret (- EFAULT, fd, Sockaddr (sa_family sa) (sa_length sa) u)
                             (CState k EFAULT)
  end.
Proof.
  intros Hs Ha Hp Hend run. pose proof (clamp_len_range addrlen) as Hcl.
  assert (Hul : to_ulong c (to_long c addr) = addr)
    by (rewrite to_ulong_long; apply to_ulong_small; lia).
  pose proof (read_full_run c k e pid r (to_long c addr)
    (replicate (Z.to_nat sizeof_sockaddr_u) Byte.x00) (clamp_len addrlen) Hs Hp ltac:(lia)
    ltac:(rewrite length_replicate; unfold sizeof_sockaddr_u; lia)) as Hr.
  rewrite Hul in Hr. specialize (Hr Hend). subst run.
  destruct (read_mem _ _ _) as [bs|] eqn:Hm.
  - rewrite (cbind_run _ _ _ _ _ Hr). cbn [Z.ltb Z.compare].
    pose proof (length_read_mem _ _ _ _ Hm) as Hl.
    assert (Hu : splice (bs ++ drop (Z.to_nat (clamp_len addrlen))
        (replicate (Z.to_nat sizeof_sockaddr_u) Byte.x00)) 127 [Byte.x00] = sockaddr_bytes bs).
    { unfold splice, sockaddr_bytes. rewrite drop_replicate, <- Hl.
      change (Z.to_nat sizeof_sockaddr_u) with 128%nat.
      rewrite (drop_ge (_ ++ _)); [done|]. rewrite length_app, length_replicate. simpl. lia. }
    rewrite Hu. done.
  - destruct Hr as (u & Hr & Hlu & _). exists u. rewrite length_replicate in Hlu.
    split; [done|]. by rewrite (cbind_run _ _ _ _ _ Hr).
Qed.

(** What asking for argument [i] gives: its value, or the error: -EFAULT for an
    element of the array that is not mapped, -EINVAL for a register argument that
    does not exist. *)
Definition socket_arg_result (decode : bool) (k : K) (i : Z) : Z + Z :=
  if decode then
    match read_mem (tmem k pid) (call_slot wsize i) (Z.to_nat wsize) with
    | Some bs => inr (get_member c bs 0 (Z.to_nat wsize))
    | None => inl (- EFAULT)
    end
  else if i <? PINK_MAX_ARGS then inr (to_ulong c (args i)) else inl (- EINVAL).

(** The elements of the array lie inside the address space of the ABI. *)
Definition slot_ok (decode : bool) (i : Z) : Prop :=
  decode = true -> plain_addr c (rs_abi r) (to_long c (call_slot wsize i)) /\
                   call_slot wsize i + wsize <= 2 ^ bits_long c.

Lemma socket_arg_result_nonneg decode k i v : socket_arg_result decode k i = inr v -> 0 <= v.
Proof.
  unfold socket_arg_result, get_member. intros H. repeat case_match; simplify_eq;
    try apply le_combine_bound. apply to_ulong_range.
Qed.

Lemma socket_arg_result_run indet decode i k e :
  stopped k pid -> 0 <= i -> slot_ok decode i ->
  exists e', pink_read_socket_argument c indet pid r decode i (CState k e) =
  match socket_arg_result decode k i with
  | inr v => Ret (0, Some v) (CState k e')
  | inl rc => Ret (rc, None) (CState k e')
  end.
Proof.
  intros Hs Hi Hok. destruct decode.
  - destruct (socket_argument_run indet true i k e Hs (Hok eq_refl)) as (e' & Hr). exists e'.
    rewrite Hr. unfold socket_arg, socket_arg_result. by destruct (read_mem _ _ _).
  - unfold socket_arg_result. destruct (Z.ltb_spec i PINK_MAX_ARGS).
    + exact (socket_argument_run indet false i k e Hs (conj Hi H)).
    + exists e. unfold pink_read_socket_argument, pink_read_argument. cbn [negb].
      by rewrite (proj2 (Z.leb_le _ _) H).
Qed.

(** The call when its descriptor, its address and its length are [fdv], [addr] and
    [addrlen]. *)
Definition socket_address_result (want_fd : bool) (sa : pink_sockaddr) (u : list byte)
    (k : K) (fdv addr addrlen : Z + Z) : Z * option Z * pink_sockaddr :=
  match (if want_fd then fdv else inr 0) with
  | inl rc => (rc, None, sa)
  | inr f =>
      let fd := if want_fd then Some (to_int f) else None in
      match addr, addrlen with
      | inl rc, _ | inr _, inl rc => (rc, fd, sa)
      | inr a, inr l =>
          if a =? 0 then (0, fd, Sockaddr (-1) 0 (sa_u sa))
          else match read_mem (tmem k pid) a (Z.to_nat (clamp_len l)) with
               | Some bs => (0, fd, Sockaddr (get_member c (sockaddr_bytes bs) 0 2)
                                      (clamp_len l) (sockaddr_bytes bs))
               | None => (- EFAULT, fd, Sockaddr (sa_family sa) (sa_length sa) u)
               end
      end
  end.

Lemma socket_address_cases indet decode i (want_fd : bool) sa k e :
  let arg := socket_arg_result decode k in
  stopped k pid -> 0 <= i < 2 ^ 32 ->
  (forall j, j ∈ [0; i; to_uint (i + 1)] -> slot_ok decode j) ->
  (forall a l, arg i = inr a -> arg (to_uint (i + 1)) = inr l -> a <> 0 ->
     a + clamp_len l <= 2 ^ bits_long c /\ plain_addr c (rs_abi r) (to_long c a)) ->
  exists e' (u : list byte), length u = 128%nat /\
  pink_read_socket_address c indet pid r decode i want_fd sa (CState k e)
  = Ret (socket_address_result want_fd sa u k (arg 0) (arg i) (arg (to_uint (i + 1)))) (CState k e').
Proof.
  intros arg Hs Hi Hok Hend. unfold pink_read_socket_address, socket_address_result.
  assert (Hneg : forall j rc, arg j = inl rc -> (rc <? 0) = true)
    by (unfold arg, socket_arg_result; intros; repeat case_match; by simplify_eq).
  assert (exists e1, (if want_fd then pink_read_socket_argument c indet pid r decode 0
                      else cret (0, None)) (CState k e) =
    match (if want_fd then arg 0 else inr 0) with
    | inr v => Ret (0, if want_fd then Some v else None) (CState k e1)
    | inl rc => Ret (rc, None) (CState k e1)
    end) as (e1 & Hr0).
  { destruct want_fd; [|by exists e].
    apply socket_arg_result_run; [done | lia | apply Hok; rewrite !elem_of_cons; tauto]. }
  destruct (if want_fd then arg 0 else inr 0) as [rc|f] eqn:H0.
  { exists e1, (replicate 128 Byte.x00). split; [apply length_replicate|].
    rewrite (cbind_run _ _ _ _ _ Hr0). destruct want_fd; [|done]. by rewrite (Hneg _ _ H0). }
  rewrite (cbind_run _ _ _ _ _ Hr0). cbn [Z.ltb Z.compare].
  set (fd := if want_fd then Some (to_int f) else None).
  assert (Hfd : to_int <$> (if want_fd then Some f else None) = fd) by (by destruct want_fd).
  rewrite Hfd.
  destruct (socket_arg_result_run indet decode i k e1) as (e2 & Hr1);
    [done | lia | apply Hok; rewrite !elem_of_cons; tauto |]. fold (arg i) in Hr1.
  destruct (arg i) as [rc|a] eqn:H1; rewrite (cbind_run _ _ _ _ _ Hr1).
  { exists e2, (replicate 128 Byte.x00). split; [apply length_replicate|].
    by rewrite (Hneg _ _ H1). }
  cbn [Z.ltb Z.compare]. rewrite (cbind_checked _ _ _ _ eq_refl).
  destruct (socket_arg_result_run indet decode (to_uint (i + 1)) k e2) as (e3 & Hr2);
    [done | apply wrapu_range; lia | apply Hok; rewrite !elem_of_cons; tauto |]. fold (arg (to_uint (i + 1))) in Hr2.
  destruct (arg (to_uint (i + 1))) as [rc|l] eqn:H2; rewrite (cbind_run _ _ _ _ _ Hr2).
  { exists e3, (replicate 128 Byte.x00). split; [apply length_replicate|].
    by rewrite (Hneg _ _ H2). }
  cbn [Z.ltb Z.compare]. rewrite (cbind_checked _ _ _ _ eq_refl).
  destruct (Z.eqb_spec a 0) as [->|Hne];
    [exists e3, (replicate 128 Byte.x00); split; [apply length_replicate | done]|].
  destruct (Hend a l eq_refl eq_refl Hne) as [Hend' Hp].
  pose proof (clamp_len_range l). pose proof (socket_arg_result_nonneg _ _ _ _ H1).
  pose proof (socket_address_tail fd sa k e3 a l Hs ltac:(lia) Hp Hend') as Ht.
  fold (clamp_len l). cbv zeta in Ht.
  destruct (read_mem _ _ _) as [bs|].
  - exists 0, (replicate 128 Byte.x00). split; [apply length_replicate | exact Ht].
  - destruct Ht as (u & Hu & Ht). exists EFAULT, u. split; [exact Hu | exact Ht].
Qed.

(** The case that all three arguments are there. *)
Lemma socket_address_run indet decode i (want_fd : bool) sa k e fdv addr addrlen :
  stopped k pid -> 0 <= i < 2 ^ 32 - 1 ->
  socket_arg_ok decode wsize 0 -> socket_arg_ok decode wsize i ->
  socket_arg_ok decode wsize (i + 1) ->
  socket_arg decode wsize k 0 = Some fdv -> socket_arg decode wsize k i = Some addr ->
  socket_arg decode wsize k (i + 1) = Some addrlen ->
  (0 < addr -> addr + clamp_len addrlen <= 2 ^ bits_long c /\
               plain_addr c (rs_abi r) (to_long c addr)) -> 0 <= addr ->
  let fd := if want_fd then Some (to_int fdv) else None in
  exists e' (u : list byte), length u = 128%nat /\
  pink_read_socket_address c indet pid r decode i want_fd sa (CState k e) =
  if addr =? 0 then Ret (0, fd, Sockaddr (-1) 0 (sa_u sa)) (CState k e')
  else match read_mem (tmem k pid) addr (Z.to_nat (clamp_len addrlen)) with
       | Some bs => Ret (0, fd, Sockaddr (get_member c (sockaddr_bytes bs) 0 2)
                                  (clamp_len addrlen) (sockaddr_bytes bs)) (CState k e')
       | None => Ret (- EFAULT, fd, Sockaddr (sa_family sa) (sa_length sa) u) (CState k e')
       end.
Proof.
  intros Hs Hi H0 H1 H2 Hv0 Hv1 Hv2 Hend Haddr fd.
  assert (Harg : forall j v, socket_arg_ok decode wsize j -> socket_arg decode wsize k j = Some v ->
    socket_arg_result decode k j = inr v /\ slot_ok decode j).
  { intros j v Hj Hv. unfold socket_arg_ok, socket_arg, socket_arg_result, slot_ok in Hj, Hv |- *.
    clear Hv0 Hv1 Hv2 Hend.
    destruct decode; [|by rewrite (proj2 (Z.ltb_lt _ _) (proj2 Hj)); simplify_eq].
    destruct (read_mem _ _ _); by simplify_eq/=. }
  destruct (Harg _ _ H0 Hv0) as [Hr0 Hs0], (Harg _ _ H1 Hv1) as [Hr1 Hs1], (Harg _ _ H2 Hv2) as [Hr2 Hs2].
  assert (Hi1 : to_uint (i + 1) = i + 1) by (apply wrapu_small; lia).
  destruct (socket_address_cases indet decode i want_fd sa k e) as (e' & u & Hu & Hrun); [done | lia | | |].
  - rewrite Hi1. intros j Hj. repeat (apply elem_of_cons in Hj as [->|Hj]; [done|]). inversion Hj.
  - rewrite Hi1, Hr1, Hr2. intros a l [= <-] [= <-] Hne. apply Hend. lia.
  - exists e', u. split; [done|]. rewrite Hrun, Hi1, Hr0, Hr1, Hr2. unfold socket_address_result, fd.
    destruct want_fd; repeat case_match; done.
Qed.

(** C14. [pink_read_socket_address] on every branch.  The descriptor, when it is asked
    for, the address and the address length are arguments 0, [arg_index] and
    [arg_index + 1] of the call; the first of them that cannot be read -- an element
    of the socketcall(2) array that is not mapped, -EFAULT, or a register argument
    that does not exist, -EINVAL -- ends the call with its error, the address
    structure as it was, and the descriptor stored if it was read before.  A null
    address is family -1 and length 0.  Otherwise as many bytes are read as the
    address length says, 128 when that is below 2 or above 128; the rest of the
    union is zero, and so is its last byte, so a path in it is terminated; family
    and length describe what was read.  When the bytes are not mapped the result is
    -EFAULT, and family and length are kept. *)
Theorem pink_read_socket_address_value indet decode i (want_fd : bool) sa k e :
  let arg := socket_arg_result decode k in
  stopped k pid -> 0 <= i < 2 ^ 32 ->
  (forall j, j ∈ [0; i; to_uint (i + 1)] -> slot_ok decode j) ->
  (forall a l, arg i = inr a -> arg (to_uint (i + 1)) = inr l -> a <> 0 ->
     a + clamp_len l <= 2 ^ bits_long c /\ plain_addr c (rs_abi r) (to_long c a)) ->
  exists e' (u : list byte), length u = 128%nat /\
  pink_read_socket_address c indet pid r decode i want_fd sa (CState k e)
  = Ret (socket_address_result want_fd sa u k (arg 0) (arg i) (arg (to_uint (i + 1)))) (CState k e').
Proof. apply socket_address_cases. Qed.

(** The union that is reported has its size and ends in a zero byte. *)
Lemma sockaddr_bytes_terminated bs :
  (length bs <= 128)%nat ->
  length (sockaddr_bytes bs) = 128%nat /\ sockaddr_bytes bs !! 127%nat = Some Byte.x00.
Proof.
  intros H. unfold sockaddr_bytes.
  assert (Hl : length (take 127 (bs ++ replicate (128 - length bs) Byte.x00)) = 127%nat)
    by (rewrite length_take, length_app, length_replicate; lia).
  split; [rewrite length_app, Hl; done|]. rewrite lookup_app_r by lia. by rewrite Hl.
Qed.

End Properties.

(** ** Witnesses *)

(** A 64-bit task in connect(3, 0x1000, 3), and a 32-bit one in socketcall(2) with
    the argument array at 0x1000. *)
Definition connect_user : list byte := user_of [(ORIG_RAX, 42); (RDI, 3); (RSI, 0x1000); (RDX, 3)].
Definition connect_sim : sim :=
  Sim 7 {[1]} (store_bytes ∅ 0x1000 [Byte.x01; Byte.x00; Byte.x41; Byte.x42]) connect_user false [].
Definition socketcall_user : list byte := user_of [(ORIG_RAX, 102); (RBX, 3); (RCX, 0x1000)].
Definition socketcall_sim : sim :=
  Sim 7 {[1]} (store_bytes ∅ 0x1000 (le_split 4 3 ++ le_split 4 0xfffff000 ++ le_split 4 16))
    socketcall_user true [].

Section Witnesses.
Import Sim.X86.
#[local] Abbreviation c := x86_64_linux.

Lemma plain_x86 abi a : 0 <= a < 2 ^ 31 -> 0 <= abi < 3 -> plain_addr c abi a.
Proof.
  intros Ha Hab. destruct (setup_addr_run c abi a) as (w & a' & Hw & Hs & Hu);
    [done | done | change (PINK_ABIS_SUPPORTED c) with 3; lia |].
  exists a'. split; [exact Hs|]. rewrite Hu. unfold abi_addr.
  assert (Hul : to_ulong c a = a) by (apply to_ulong_small; change (2 ^ bits_long c) with (2 ^ 64); lia).
  rewrite Hul. apply Z.mod_small.
  destruct (pink_abi_wordsize_defined c abi) as [Hd|Hd]; [done| |];
    rewrite Hd in Hw; injection Hw as <-; simpl in *; lia.
Qed.

Lemma pink_read_socket_argument_value_witness :
  exists r e', pink_read_socket_argument c [] 7 r true 1 (CState socketcall_sim 0)
    = Ret (0, Some 0xfffff000) (CState socketcall_sim e').
Proof.
  destruct (filled_example socketcall_sim eq_refl eq_refl) as [r Hf]. exists r.
  assert (Hab : rs_abi r = 1) by (destruct Hf as (-> & _); vm_compute; reflexivity).
  apply (@pink_read_socket_argument_value sim _ _ c 7 r (task_arg c true socketcall_user)
    (filled_reads_args c 7 true socketcall_user r Hf) (transfer_reads c words_transfer) 4);
    [rewrite Hab; reflexivity | by left | by left | reflexivity |].
  split; [rewrite Hab; apply plain_x86; [vm_compute; split; (discriminate || reflexivity) | lia]
         | vm_compute; discriminate].
Defined.

(** A connect(2), and a socketcall(2) whose array is not mapped from its third
    element on. *)
Definition socketcall_edge : sim :=
  Sim 7 {[1]} (store_bytes ∅ 0x1ff8 (le_split 4 3 ++ le_split 4 0x1000))
    (user_of [(ORIG_RAX, 102); (RBX, 3); (RCX, 0x1ff8)]) true [].

Lemma pink_read_socket_address_value_witness :
  (exists r e' (u : list byte), length u = 128%nat /\
    pink_read_socket_address c [] 7 r false 1 true (Sockaddr 0 0 []) (CState connect_sim 0)
    = Ret (0, Some 3, Sockaddr 1 3 (sockaddr_bytes [Byte.x01; Byte.x00; Byte.x41]))
        (CState connect_sim e')) /\
  (exists r e' (u : list byte), length u = 128%nat /\
    pink_read_socket_address c [] 7 r true 1 true (Sockaddr 0 0 []) (CState socketcall_edge 0)
    = Ret (- EFAULT, Some 3, Sockaddr 0 0 []) (CState socketcall_edge e')).
Proof.
  split.
  - destruct (filled_example connect_sim eq_refl eq_refl) as [r Hf]. exists r.
    assert (Hab : rs_abi r = 0) by (destruct Hf as (-> & _); vm_compute; reflexivity).
    apply (@pink_read_socket_address_value sim _ _ c 7 r (task_arg c false connect_user)
      (filled_reads_args c 7 false connect_user r Hf) (transfer_reads c words_transfer) 8
      ltac:(rewrite Hab; reflexivity) ltac:(by right) ltac:(by right) [] false 1 true
      (Sockaddr 0 0 []) connect_sim 0); [reflexivity | lia | done |].
    intros a l Ha Hl _. vm_compute in Ha, Hl. injection Ha as <-. injection Hl as <-.
    split; [vm_compute; discriminate|]. rewrite Hab. apply plain_x86; [|lia].
    vm_compute. split; (discriminate || reflexivity).
  - destruct (filled_example socketcall_edge eq_refl eq_refl) as [r Hf]. exists r.
    assert (Hab : rs_abi r = 1) by (destruct Hf as (-> & _); vm_compute; reflexivity).
    apply (@pink_read_socket_address_value sim _ _ c 7 r (task_arg c true (sim_user socketcall_edge))
      (filled_reads_args c 7 true (sim_user socketcall_edge) r Hf) (transfer_reads c words_transfer) 4
      ltac:(rewrite Hab; reflexivity) ltac:(by left) ltac:(by left) [] true 1 true
      (Sockaddr 0 0 []) socketcall_edge 0); [reflexivity | lia | |].
    + intros j Hj _. rewrite Hab.
      repeat (apply elem_of_cons in Hj as [->|Hj];
        [split; [apply plain_x86; [vm_compute; split; (discriminate || reflexivity) | lia]
                | vm_compute; discriminate]|]). inversion Hj.
    + intros a l _ Hl. vm_compute in Hl. discriminate.
Defined.

End Witnesses.
