(* ===== verification/Observe.v ===== *)
(** * The readers only observe

    A computation observes a kernel state when it returns, whatever [errno] was,
    and leaves the kernel as it found it.  The readers of read.c, vm.c, regset.c
    and socket.c are shown to observe every kernel in which the reading system
    calls have no effect: for a tracee that is stopped, running or gone, for every
    length that the destination holds, and for every address; the reader of strings
    is undefined for the addresses just below the largest [long], and only there. *)

From Stdlib Require Import ZArith Lia.
From stdpp Require Import base list numbers gmap.
From coqutil Require Import Byte Word.LittleEndianList.
From S2P Require Import Prelude Config Kernel Layout Sim Trace Vm VmRead VmCross Regset Name Read ReadVm Write Registers Socket.
Local Open Scope Z_scope.

(** ** The law *)

Definition quiet_request (req : ptrace_request) : bool :=
  match req with
  | PTRACE_PEEKDATA | PTRACE_PEEKUSER | PTRACE_GETREGS | PTRACE_GETREGSET => true
  | _ => false
  end.

(** The object behind [data] keeps its size. *)
Definition same_shape (d d' : pdata) : Prop :=
  match d, d' with
  | DVal _, DVal _ => True
  | DBuf b, DBuf b' => length b' = length b
  | DIov b _, DIov b' _ => length b' = length b
  | _, _ => False
  end.

(** ptrace(2) and process_vm_readv(2): the requests that read change nothing in
    the kernel and write only to the object they are given; a transfer is at most
    as long as asked for, and is not empty unless it fails. *)
Class QuietReads (K : Type) `{!KernelOps K} : Prop := {
  ptrace_quiet req pid a d k r d' k' :
    quiet_request req = true -> sys_ptrace req pid a d k = (r, d', k') ->
    k' = k /\ same_shape d d';
  readv_quiet pid a len k r bs k' :
    0 <= len -> sys_process_vm_readv pid a len k = (r, bs, k') ->
    k' = k /\ (sr_val r = -1 /\ bs = [] \/
               sr_val r = Z.of_nat (length bs) /\ Z.of_nat (length bs) <= len /\
               (0 < len -> bs <> []));
}.

(** ** Observers *)

Definition observes {K A} (k : K) (f : comp (cstate K) A) (Q : A -> Prop) : Prop :=
  forall e, exists a e', f (CState k e) = Ret a (CState k e') /\ Q a.

Section Rules.
Context {K : Type} (k : K).

Lemma obs_ret {A} (a : A) (Q : A -> Prop) : Q a -> observes k (cret a) Q.
Proof. intros H e. by exists a, e. Qed.

Lemma obs_bind {A B} (f : comp (cstate K) A) (g : A -> comp (cstate K) B) (R : A -> Prop) Q :
  observes k f R -> (forall a, R a -> observes k (g a) Q) -> observes k (cbind f g) Q.
Proof.
  intros Hf Hg e. destruct (Hf e) as (a & e1 & Hr & Ha).
  destruct (Hg a Ha e1) as (b & e2 & Hb & HQ). exists b, e2.
  by rewrite (cbind_run _ _ _ _ _ Hr).
Qed.

Lemma obs_mono {A} (f : comp (cstate K) A) (R Q : A -> Prop) :
  observes k f R -> (forall a, R a -> Q a) -> observes k f Q.
Proof. intros Hf HRQ e. destruct (Hf e) as (a & e' & Hr & Ha). exists a, e'. auto. Qed.

Lemma obs_and {A} (f : comp (cstate K) A) (Q R : A -> Prop) :
  observes k f Q -> observes k f R -> observes k f (fun a => Q a /\ R a).
Proof.
  intros HQ HR e. destruct (HQ e) as (a & e1 & H1 & Ha), (HR e) as (b & e2 & H2 & Hb).
  rewrite H1 in H2. injection H2 as <- <-. by exists a, e1.
Qed.

Lemma obs_checked {A B} (o : option A) (a : A) (g : A -> comp (cstate K) B) Q :
  o = Some a -> observes k (g a) Q -> observes k (cbind (checked o) g) Q.
Proof. by intros ->. Qed.

Lemma obs_get_errno Q : (forall e, Q e) -> observes k get_errno Q.
Proof. intros H e. by exists e, e. Qed.

Lemma obs_set_errno e0 (Q : unit -> Prop) : Q tt -> observes k (set_errno e0) Q.
Proof. intros H e. by exists tt, e0. Qed.

End Rules.

(** Takes one step of a computation built from the rules. *)
Ltac obs_step :=
  match goal with
  | |- observes _ (cret _) _ => apply obs_ret
  | |- observes _ (set_errno _) _ => apply obs_set_errno; exact I
  | |- observes _ (cbind (set_errno _) _) _ =>
      eapply (obs_bind _ _ _ (fun _ => True)); [apply obs_set_errno; exact I | intros _ _]
  | |- observes _ (cbind get_errno _) _ =>
      eapply (obs_bind _ _ _ (fun _ => True)); [apply obs_get_errno; done | intros ? _]
  | |- observes _ (if ?b then _ else _) _ => let E := fresh "E" in destruct b eqn:E
  end.

(** Uses a fact about the first computation of a sequence. *)
Ltac obs_use H := eapply obs_bind; [eapply H | cbn beta].

Section Readers.
Context {K : Type} `{!KernelOps K} `{!PtraceErrno K} `{!QuietReads K} (c : config) (k : K).

Lemma obs_ptrace req pid a d :
  quiet_request req = true ->
  observes k (pink_ptrace req pid a d)
    (fun '(rc, v, d') => same_shape d d' /\ (rc < 0 \/ rc = 0 /\ is_Some v)).
Proof.
  intros Hq e. destruct (sys_ptrace req pid a d k) as [[r d'] k'] eqn:Hp.
  destruct (ptrace_quiet _ _ _ _ _ _ _ _ Hq Hp) as [-> Hsh].
  pose proof (pink_ptrace_cases req pid a d (CState k e) r d' k Hp) as Hc.
  destruct (sr_errno r) as [e1|] eqn:He; do 2 eexists; (split; [exact Hc|]); (split; [exact Hsh|]).
  - left. destruct (ptrace_error _ _ _ _ _ _ _ _ _ Hp He) as [_ Hpos].
    unfold EFAULT. destruct (e1 =? EIO); lia.
  - right. split; [done | by eexists].
Qed.

Lemma obs_word pid off :
  observes k (pink_read_word_data c pid off) (fun '(rc, v) => rc < 0 \/ rc = 0 /\ is_Some v).
Proof.
  unfold pink_read_word_data. obs_use obs_ptrace; [done|].
  intros [[rc v] d] [_ H]. by obs_step.
Qed.

(** One iteration of the word-at-a-time loops: the piece of the word is inside the
    word, and its place is inside the destination. *)
Lemma word_piece val residue len (buf : list byte) d :
  0 <= residue < sizeof_long c -> 0 < len -> (d + Z.to_nat len <= length buf)%nat ->
  let m := Z.min (sizeof_long c - residue) len in
  0 < m <= len /\
  exists piece, slice (word_bytes c val) (Z.to_nat residue) (Z.to_nat m) = Some piece /\
    length piece = Z.to_nat m /\ memcpy_to buf d piece = Some (splice buf d piece) /\
    length (splice buf d piece) = length buf.
Proof.
  intros Hr Hl Hb m. assert (Hm : 0 < m <= len /\ residue + m <= sizeof_long c) by lia.
  split; [lia|]. eexists. split; [apply slice_ok; rewrite length_word_bytes; lia|].
  assert (Hlp : length (take (Z.to_nat m) (drop (Z.to_nat residue) (word_bytes c val))) = Z.to_nat m)
    by (rewrite length_take, length_drop, length_word_bytes; lia).
  split_and!; [done | apply memcpy_to_ok; lia | apply length_splice; lia].
Qed.

Definition same_length (buf : list byte) : Z * list byte -> Prop :=
  fun '(_, buf') => length buf' = length buf.

Lemma obs_lread_loop fuel : forall pid addr buf d residue cnt len,
  0 <= residue < sizeof_long c -> 0 <= len < Z.of_nat fuel ->
  (d + Z.to_nat len <= length buf)%nat ->
  observes k (lread_loop c fuel pid addr buf d residue cnt len) (same_length buf).
Proof.
  induction fuel as [|fuel IH]; intros pid addr buf d residue cnt len Hr Hl Hb; [lia|].
  cbn [lread_loop]. destruct (Z.eqb_spec len 0); [by obs_step|].
  obs_use obs_word. intros [rc v] Hv. obs_step; [obs_step; by obs_step|].
  apply Z.ltb_ge in E. destruct Hv as [|[_ [val ->]]]; [lia|].
  eapply obs_checked; [done|].
  destruct (word_piece val residue len buf d Hr ltac:(lia) Hb) as (Hm & piece & Hs & Hlp & Hc & Hls).
  eapply obs_checked; [exact Hs|]. eapply obs_checked; [exact Hc|]. eapply obs_mono; [apply IH; pose proof (sizeof_long_pos c); lia|].
  intros [? buf']. unfold same_length. lia.
Qed.

Lemma obs_lread pid addr dest len :
  0 <= len -> (Z.to_nat len <= length dest)%nat ->
  observes k (pink_vm_lread c pid addr dest len) (same_length dest).
Proof. intros Hl Hd. apply obs_lread_loop; [apply addr_residue_range | lia | simpl; lia]. Qed.

Lemma obs_lread_nul_loop fuel : forall pid addr buf d residue cnt len,
  0 <= residue < sizeof_long c -> 0 <= len < Z.of_nat fuel ->
  (d + Z.to_nat len <= length buf)%nat ->
  observes k (lread_nul_loop c fuel pid addr buf d residue cnt len) (same_length buf).
Proof.
  induction fuel as [|fuel IH]; intros pid addr buf d residue cnt len Hr Hl Hb; [lia|].
  cbn [lread_nul_loop]. destruct (Z.eqb_spec len 0); [by obs_step|].
  obs_use obs_word. intros [rc v] Hv. obs_step; [obs_step; by obs_step|].
  apply Z.ltb_ge in E. destruct Hv as [|[_ [val ->]]]; [lia|].
  eapply obs_checked; [done|].
  destruct (word_piece val residue len buf d Hr ltac:(lia) Hb) as (Hm & piece & Hs & Hlp & Hc & Hls).
  eapply obs_checked; [exact Hs|]. eapply obs_checked; [exact Hc|]. destruct (word_nul _ _); [by obs_step|].
  eapply obs_mono; [apply IH; pose proof (sizeof_long_pos c); lia|].
  intros [? buf']. unfold same_length. lia.
Qed.

Lemma obs_lread_nul pid addr dest len :
  0 <= len -> (Z.to_nat len <= length dest)%nat ->
  observes k (pink_vm_lread_nul c pid addr dest len) (same_length dest).
Proof. intros Hl Hd. apply obs_lread_nul_loop; [apply addr_residue_range | lia | simpl; lia]. Qed.

(** ** Cross-memory attach *)

Lemma obs_readv pid a len :
  0 <= len ->
  observes k (pink_process_vm_readv c pid a len)
    (fun '(r, bs) => r = -1 /\ bs = [] \/
       r = Z.of_nat (length bs) /\ r <= len /\ (0 < len -> 0 < r)).
Proof.
  intros Hl. unfold pink_process_vm_readv. destruct (PINK_HAVE_PROCESS_VM_READV c).
  - intros e. unfold process_vm_readv. simpl.
    destruct (sys_process_vm_readv pid a len k) as [[r bs] k'] eqn:Hr.
    destruct (readv_quiet _ _ _ _ _ _ _ Hl Hr) as [-> Hq]. do 2 eexists. split; [done|].
    destruct Hq as [[-> ->]|(-> & Hle & Hne)]; [by left|right]. split_and!; [done | done |].
    intros H. destruct bs; [by destruct Hne | simpl; lia].
  - obs_step. obs_step. by left.
Qed.

(** An ABI for which addresses are defined. *)
Definition valid_abi (abi : Z) : Prop := 0 <= abi < PINK_ABIS_SUPPORTED c.

Lemma setup_addr_defined abi addr : valid_abi abi -> is_Some (setup_addr c abi addr).
Proof.
  intros H. unfold setup_addr. case_match; [|by eexists].
  destruct (pink_abi_wordsize_defined c abi H) as [-> | ->]; simpl; case_match; by eexists.
Qed.

(** An address stays a [long]. *)
Lemma setup_addr_long abi addr a :
  to_long c addr = addr -> setup_addr c abi addr = Some a -> to_long c a = a.
Proof.
  intros Hlong. unfold setup_addr. case_match; [|by intros [= <-]].
  destruct (pink_abi_wordsize c abi); [|done]. simpl. case_match; intros [= <-]; [|done].
  apply wraps_small; [apply bits_long_pos|]. apply wraps_range, bits_long_pos.
Qed.

Lemma obs_cread pid abi addr dest len :
  valid_abi abi -> 0 <= len -> (Z.to_nat len <= length dest)%nat ->
  observes k (pink_vm_cread c pid abi addr dest len) (same_length dest).
Proof.
  intros Ha Hl Hd. unfold pink_vm_cread. destruct (PINK_HAVE_PROCESS_VM_READV c).
  - destruct (setup_addr_defined abi addr Ha) as [a Hs]. eapply obs_checked; [exact Hs|].
    obs_use obs_readv; [done|]. intros [r bs] Hr.
    assert (Hb : (length bs <= length dest)%nat).
    { destruct Hr as [[_ ->]|(-> & ? & _)]; [simpl; lia | lia]. }
    eapply obs_checked; [apply memcpy_to_ok; simpl; lia|]. obs_step. by apply length_splice.
  - obs_step. by obs_step.
Qed.

Lemma obs_cread_nul_loop fuel : forall pid addr remote buf base cnt len,
  0 <= len < Z.of_nat fuel -> len < 2 ^ 31 -> chunk_fits c addr len ->
  (base + Z.to_nat len <= length buf)%nat ->
  observes k (cread_nul_loop c fuel pid addr remote buf base cnt len) (same_length buf).
Proof.
  induction fuel as [|fuel IH]; intros pid addr remote buf base cnt len Hl H31 Hfit Hb; [lia|].
  cbn [cread_nul_loop]. destruct (Z.eqb_spec len 0); [by obs_step|].
  destruct (cread_chunk_range c addr len Hfit ltac:(lia)) as (m & Hc & Hc1 & Hc2).
  eapply obs_checked; [exact Hc|].
  pose proof (pow32_bits c) as H32.
  rewrite (to_ulong_small c m) by lia.
  obs_use obs_readv; [lia|]. intros [r bs] Hr.
  assert (Hbs : (length bs <= Z.to_nat len)%nat).
  { destruct Hr as [[_ ->]|(-> & ? & _)]; [simpl; lia | lia]. }
  eapply obs_checked; [apply memcpy_to_ok; lia|].
  assert (Hls : length (splice buf base bs) = length buf) by (apply length_splice; lia).
  assert (Hi : to_int r = r).
  { apply wraps_small; [lia|]. simpl. destruct Hr as [[-> _]|(-> & ? & _)]; lia. }
  rewrite Hi. destruct Hr as [[-> ->]|(Hrl & Hle & Hpos)]; [obs_step; [by obs_step | done]|].
  rewrite (proj2 (Z.ltb_ge r 0)) by lia. specialize (Hpos ltac:(lia)).
  eapply obs_checked; [apply slice_ok; lia|]. destruct (find_nul _); [by obs_step|].
  rewrite (to_ulong_small c (len - r)) by lia.
  eapply obs_mono; [apply IH; try lia; by apply (chunk_fits_le c _ len); [|lia]|].
  intros [? buf']. unfold same_length. lia.
Qed.

Lemma obs_cread_nul fuel pid abi addr dest len :
  valid_abi abi -> 0 <= len < Z.of_nat fuel -> len < 2 ^ 31 -> (Z.to_nat len <= length dest)%nat ->
  len = 0 \/ string_fits c abi addr len ->
  observes k (pink_vm_cread_nul c fuel pid abi addr dest len) (same_length dest).
Proof.
  intros Ha Hl H31 Hd Hfit. unfold pink_vm_cread_nul.
  destruct (setup_addr_defined abi addr Ha) as [a Hs]. eapply obs_checked; [exact Hs|].
  destruct Hfit as [->|Hfit]; [destruct fuel; [simpl in *; lia | by apply obs_ret]|].
  by apply obs_cread_nul_loop; auto.
Qed.

(** Outside of these addresses the first iteration overflows. *)
Lemma cread_nul_overflow fuel pid abi addr dest len :
  valid_abi abi -> to_long c addr = addr -> 0 < len < 2 ^ 31 -> (0 < fuel)%nat ->
  ~ string_fits c abi addr len ->
  forall s : cstate K, pink_vm_cread_nul c fuel pid abi addr dest len s = Undef.
Proof.
  intros Ha Hlong Hl Hf Hno s. unfold pink_vm_cread_nul.
  destruct (setup_addr_defined abi addr Ha) as [a Hs]. rewrite (cbind_checked _ _ _ _ Hs).
  destruct fuel; [lia|]. cbn [cread_nul_loop]. rewrite (proj2 (Z.eqb_neq len 0)) by lia.
  rewrite cread_chunk_overflow; [apply cbind_unchecked | done | |].
  - assert (to_long c a = a) as <- by (by apply (setup_addr_long abi addr)).
    apply wraps_range, bits_long_pos.
  - intros Hfit. apply Hno. intros a' Ha'. congruence.
Qed.

(** ** read.c *)

Lemma obs_read_vm_data pid r addr dest len :
  valid_abi (rs_abi r) -> 0 <= len -> (Z.to_nat len <= length dest)%nat ->
  observes k (pink_read_vm_data c pid r addr dest len) (same_length dest).
Proof.
  intros Ha Hl Hd. unfold pink_read_vm_data, vm_unavailable. obs_step.
  obs_use obs_cread; [done..|]. intros [n dest'] Hn. unfold same_length in Hn.
  eapply (obs_bind _ _ _ (fun _ => True)); [obs_step; by obs_step|]. intros b _.
  obs_step; [|by obs_step]. eapply obs_mono; [apply obs_lread; lia|].
  intros [? d']. unfold same_length. lia.
Qed.

Lemma obs_read_full pid r addr dest len :
  valid_abi (rs_abi r) -> 0 <= len -> (Z.to_nat len <= length dest)%nat ->
  observes k (pink_read_vm_data_full c pid r addr dest len) (same_length dest).
Proof.
  intros Ha Hl Hd. unfold pink_read_vm_data_full. obs_step.
  obs_use obs_read_vm_data; [done..|]. intros [n dest'] Hn.
  obs_step; [obs_step; by obs_step|]. obs_step; by obs_step.
Qed.

Lemma obs_read_nul fuel pid r addr dest len :
  valid_abi (rs_abi r) -> 0 <= len < Z.of_nat fuel -> len < 2 ^ 31 ->
  (Z.to_nat len <= length dest)%nat -> len = 0 \/ string_fits c (rs_abi r) addr len ->
  observes k (pink_read_vm_data_nul c fuel pid r addr dest len) (same_length dest).
Proof.
  intros Ha Hl H31 Hd Hfit. unfold pink_read_vm_data_nul, vm_unavailable. obs_step.
  obs_use obs_cread_nul; [done..|]. intros [n dest'] Hn. unfold same_length in Hn.
  eapply (obs_bind _ _ _ (fun _ => True)); [obs_step; by obs_step|]. intros b _.
  obs_step; [|by obs_step]. eapply obs_mono; [apply obs_lread_nul; lia|].
  intros [? d']. unfold same_length. lia.
Qed.

(** A result code and a value, which is stored exactly on success. *)
Definition code_and_value {A} : Z * option A -> Prop :=
  fun '(rc, v) => rc < 0 /\ v = None \/ rc = 0 /\ is_Some v.

Lemma obs_argument pid r i :
  0 <= i -> observes k (pink_read_argument c pid r i) code_and_value.
Proof.
  intros Hi. unfold pink_read_argument, PINK_MAX_ARGS, EINVAL.
  destruct (Z.leb_spec 6 i); [by apply obs_ret; left|].
  assert (Hx : is_Some (x86_64_args !! Z.to_nat i)) by (apply lookup_lt_is_Some; simpl; lia).
  assert (He : is_Some (i386_args !! Z.to_nat i)) by (apply lookup_lt_is_Some; simpl; lia).
  destruct Hx as [x ->], He as [e ->].
  destruct (PINK_ARCH c); repeat case_match; apply obs_ret; right; split; done.
Qed.

(** ** socket.c *)

Lemma obs_socket_argument indet pid r decode i w :
  valid_abi (rs_abi r) -> pink_abi_wordsize c (rs_abi r) = Some w -> 0 <= i ->
  observes k (pink_read_socket_argument c indet pid r decode i)
    (fun '(rc, v) => rc < 0 \/ is_Some v).
Proof.
  intros Ha Hw Hi. unfold pink_read_socket_argument. destruct decode; simpl.
  - obs_use obs_argument; [lia|]. intros [rc v] Hv.
    obs_step; [obs_step; left; lia|].
    destruct Hv as [[? _]|[-> [a ->]]]; [lia|].
    eapply obs_checked; [done|]. eapply obs_checked; [exact Hw|].
    pose proof (sizeof_long_pos c) as Hp.
    obs_use obs_read_full; [done | destruct (w =? sizeof_int); unfold sizeof_int; lia
      | rewrite length_resize; lia |].
    intros [rc' arg] _. obs_step; [obs_step; left; lia|]. obs_step. right. by eexists.
  - obs_use obs_argument; [done|]. intros [rc v] Hv.
    obs_step; [obs_step; left; lia|].
    destruct Hv as [[? _]|[-> [a ->]]]; [lia|].
    eapply obs_checked; [done|]. obs_step. right. by eexists.
Qed.

(** A socket address that was read: no address, or a union whose last byte is
    zero. *)
Definition sockaddr_read (sa : pink_sockaddr) : Prop :=
  sa_family sa = -1 \/
  length (sa_u sa) = 128%nat /\ sa_u sa !! 127%nat = Some Byte.x00.

(** What [pink_read_socket_address] leaves: a negated error, or 0 with such an
    address, and with a descriptor when one was asked for. *)
Definition address_safe (want_fd : bool) : Z * option Z * pink_sockaddr -> Prop :=
  fun '(rc, fd, sa) => rc < 0 \/ rc = 0 /\ sockaddr_read sa /\ (want_fd = true -> is_Some fd).

Lemma obs_socket_address indet pid r decode i want_fd sa w :
  valid_abi (rs_abi r) -> pink_abi_wordsize c (rs_abi r) = Some w -> 0 <= i ->
  observes k (pink_read_socket_address c indet pid r decode i want_fd sa) (address_safe want_fd).
Proof.
  intros Ha Hw Hi. unfold pink_read_socket_address.
  eapply (obs_bind _ _ _ (fun '(rc, v) => rc < 0 \/ (want_fd = true -> is_Some v))).
  { destruct want_fd; [|obs_step; right; done].
    eapply obs_mono; [eapply obs_socket_argument; [exact Ha | exact Hw | lia]|].
    intros [rc v] [?|?]; [by left | by right]. }
  intros [rc v] Hfd. obs_step; [obs_step; left; lia|]. destruct Hfd as [?|Hfd]; [lia|].
  obs_use obs_socket_argument; [exact Ha | exact Hw | done |]. intros [rc1 v1] H1.
  obs_step; [obs_step; left; lia|]. destruct H1 as [?|[addr ->]]; [lia|].
  eapply obs_checked; [done|].
  obs_use obs_socket_argument; [exact Ha | exact Hw | apply wrapu_range; lia |].
  intros [rc2 v2] H2. obs_step; [obs_step; left; lia|]. destruct H2 as [?|[len ->]]; [lia|].
  eapply obs_checked; [done|].
  assert (Hf : want_fd = true -> is_Some (to_int <$> v)).
  { intros Ht. apply fmap_is_Some, Hfd, Ht. }
  obs_step; [obs_step; right; split_and!; [done | by left | done]|].
  set (n := if (len <? 2) || (sizeof_sockaddr_u <? len) then sizeof_sockaddr_u else len).
  assert (Hn : 0 <= n <= 128).
  { unfold n, sizeof_sockaddr_u. destruct (Z.ltb_spec len 2), (Z.ltb_spec 128 len); simpl; lia. }
  obs_use obs_read_full; [exact Ha | lia | rewrite length_replicate; unfold sizeof_sockaddr_u; lia|].
  intros [rc3 u] Hu. unfold same_length in Hu. rewrite length_replicate in Hu. simpl in Hu.
  obs_step; [obs_step; left; lia|]. obs_step. right. split_and!; [done | | done]. right. simpl.
  assert (Hl : length u = 128%nat) by (rewrite Hu; reflexivity).
  split; [rewrite length_splice; simpl; lia|].
  unfold splice. rewrite lookup_app_r by (rewrite length_take; lia).
  rewrite length_take, Hl. done.
Qed.

End Readers.

#[global] Arguments same_length : simpl never.

(** ** Properties *)

Section Properties.
Context {K : Type} `{!KernelOps K} `{!PtraceErrno K} `{!QuietReads K} (c : config) (k : K).

(** C5. The memory readers on every kernel in which reading has no effect, for every
    process (a stopped tracee, a running one, none at all), every address, length
    and supported ABI, as long as the destination holds [len] bytes.
    [pink_read_vm_data] and [pink_read_vm_data_full] return, with no undefined
    behaviour and no abort, leave the kernel as it was and write inside the
    destination.  [pink_read_vm_data_nul] does so too, its loop ending within
    [len + 1] iterations, unless the address, cut to the ABI's width, is so close to
    the largest [long] that adding the length of the first chunk overflows; for
    exactly these addresses its behaviour is undefined. *)
Theorem pink_read_memory_safe pid r addr dest len fuel :
  valid_abi c (rs_abi r) -> to_long c addr = addr -> 0 <= len < 2 ^ 31 ->
  (Z.to_nat len <= length dest)%nat -> (Z.to_nat len < fuel)%nat ->
  observes k (pink_read_vm_data c pid r addr dest len) (same_length dest) /\
  observes k (pink_read_vm_data_full c pid r addr dest len) (same_length dest) /\
  (len = 0 \/ string_fits c (rs_abi r) addr len ->
   observes k (pink_read_vm_data_nul c fuel pid r addr dest len) (same_length dest)) /\
  (0 < len -> ~ string_fits c (rs_abi r) addr len ->
   forall s : cstate K, pink_read_vm_data_nul c fuel pid r addr dest len s = Undef).
Proof.
  intros Ha Hlong Hl Hd Hf. split_and!.
  - apply obs_read_vm_data; [done | lia | done].
  - apply obs_read_full; [done | lia | done].
  - apply obs_read_nul; [done | lia | lia | done].
  - intros Hp Hno s. unfold pink_read_vm_data_nul, cbind, set_errno.
    by rewrite (cread_nul_overflow c fuel pid (rs_abi r) addr dest len) by (done || lia).
Qed.

(** C15. [pink_read_socket_address] is safe in the same sense, for the plain socket
    calls and for socketcall(2): it returns a negated error, or 0 with a
    descriptor when one was asked for and with an address that is absent or ends
    in a zero byte inside its union. *)
Theorem pink_read_socket_address_safe indet pid r decode i want_fd sa w :
  valid_abi c (rs_abi r) -> pink_abi_wordsize c (rs_abi r) = Some w -> 0 <= i ->
  observes k (pink_read_socket_address c indet pid r decode i want_fd sa) (address_safe want_fd).
Proof. intros Ha Hw Hi. by eapply obs_socket_address. Qed.

End Properties.

(** On 64-bit x86 the addresses of strings up to 256 bytes below the largest [long]
    are fine. *)
Lemma string_fits_low c `{!X86Build c} abi a len :
  - 2 ^ 63 <= a -> a + 256 < 2 ^ 63 -> string_fits c abi a len.
Proof.
  intros H1 H2 a' Ha'. unfold chunk_fits. rewrite (build_bits c). change (64 - 1) with 63.
  enough (- 2 ^ 63 <= a' < 2 ^ 63 - 256) by lia.
  revert Ha'. unfold setup_addr. case_match; [|by intros [= <-]; lia].
  destruct (pink_abi_wordsize c abi) as [w|] eqn:Hw; [|done]. simpl.
  case_match; intros [= <-]; [|lia].
  assert (Hw4 : w = 4 \/ w = 8).
  { unfold pink_abi_wordsize, ABI0_WORDSIZE in Hw. rewrite (build_abis c), build_arch in Hw.
    simpl in Hw. destruct (abi <? 0); [done|].
    destruct (Z.to_nat abi) as [|[|[|n]]]; simplify_eq/=; auto. }
  assert (Hl : Z.land (to_ulong c a) (Z.shiftl 1 (8 * w) - 1) = to_ulong c a mod 2 ^ (8 * w)).
  { rewrite Z.shiftl_mul_pow2, Z.mul_1_l by lia. apply land_low. lia. }
  match goal with H : (_ <? sizeof_long c) = true |- _ => apply Z.ltb_lt in H; rewrite (build_sizeof c) in H end.
  assert (w = 4) as -> by lia. rewrite Hl. change (8 * 4) with 32.
  pose proof (Z.mod_pos_bound (to_ulong c a) (2 ^ 32) ltac:(lia)).
  unfold to_long. rewrite (build_bits c), wraps_small by (simpl in *; lia). lia.
Qed.

Lemma sim_quiet_reads c vm : @QuietReads sim (sim_ops c vm).
Proof.
  split; simpl.
  - intros req pid a d k r d' k' Hq H. unfold sim_ptrace, fail in H.
    assert (Hs : same_shape d d) by (destruct d; done).
    destruct req; try discriminate Hq; repeat case_match; simplify_eq/=;
      (split; [reflexivity|]); simpl;
      first [exact I | reflexivity | exact Hs | eapply length_memcpy_to; eassumption].
  - intros pid a len k r bs k' Hl H. unfold sim_readv, fail in H. repeat case_match; simplify_eq/=;
      (split; [done|]); try (by left). right.
    match goal with Hm : read_mem _ _ _ = Some _ |- _ => pose proof (length_read_mem _ _ _ _ Hm) end.
    split_and!; [lia | lia |]. intros Hp ->. simpl in *. lia.
Qed.

Section Witnesses.
Import Sim.X86.
#[local] Abbreviation c := x86_64_linux.
#[local] Existing Instance sim_quiet_reads.

(** Nothing is mapped at the address, and the process is not the tracee; and the
    largest address. *)
Lemma pink_read_memory_safe_witness :
  observes (sim_at 7 0x1003 trace_pink)
    (pink_read_vm_data_nul c 9 8 (regset_abi PINK_ABI_I386) (-1) (replicate 8 Byte.xff) 8)
    (same_length (replicate 8 Byte.xff)) /\
  pink_read_vm_data_nul c 9 7 (regset_abi PINK_ABI_X86_64) (2 ^ 63 - 1) (replicate 8 Byte.xff) 8
    (CState (sim_at 7 0x1003 trace_pink) 0) = Undef.
Proof.
  split.
  - apply (pink_read_memory_safe c (sim_at 7 0x1003 trace_pink) 8 (regset_abi PINK_ABI_I386) (-1)
      (replicate 8 Byte.xff) 8 9); [split; vm_compute; (discriminate || reflexivity)
      | reflexivity | lia | simpl; lia | simpl; lia |].
    right. intros a Ha. vm_compute in Ha. injection Ha as <-. split; vm_compute;
      (discriminate || reflexivity).
  - apply (pink_read_memory_safe c (sim_at 7 0x1003 trace_pink) 7 (regset_abi PINK_ABI_X86_64)
      (2 ^ 63 - 1) (replicate 8 Byte.xff) 8 9); [split; vm_compute; (discriminate || reflexivity)
      | reflexivity | lia | simpl; lia | simpl; lia | lia |].
    intros Hfit. destruct (Hfit (2 ^ 63 - 1) eq_refl) as [_ H]. vm_compute in H. discriminate H.
Defined.

Lemma pink_read_socket_address_safe_witness :
  exists rc fd sa' e', pink_read_socket_address c [] 7 (regset_abi PINK_ABI_I386) true 1 true
      (Sockaddr 0 0 []) (CState socketcall_sim 0) = Ret (rc, fd, sa') (CState socketcall_sim e')
    /\ rc < 0.
Proof.
  destruct (pink_read_socket_address_safe c socketcall_sim [] 7 (regset_abi PINK_ABI_I386) true 1 true
    (Sockaddr 0 0 []) 4 ltac:(split; vm_compute; (discriminate || reflexivity)) eq_refl
    ltac:(lia) 0) as ([[rc fd] sa'] & e' & Hrun & Hq).
  exists rc, fd, sa', e'. split; [exact Hrun|]. vm_compute in Hrun. injection Hrun as <- _ _ _.
  reflexivity.
Defined.

End Witnesses.
