(* ===== verification/Pipe.v ===== *)
(** * pipe.c: passing integers through a pipe

    read(2), write(2) and the other calls are the operations of a class; the laws
    transcribe pipe(7), read(2) and write(2), where a call may transfer fewer
    bytes than asked for. *)

From Stdlib Require Import ZArith Lia.
From stdpp Require Import base list numbers gmap.
From coqutil Require Import Byte Word.LittleEndianList.
From S2P Require Import Prelude Config Kernel.
Local Open Scope Z_scope.
Local Open Scope c_scope.

Class PipeOps (P : Type) : Type := {
  sys_read : Z -> Z -> P -> sysret * list byte * P;
  sys_write : Z -> list byte -> P -> sysret * P;
  sys_close : Z -> P -> sysret * P;
  sys_pipe : P -> sysret * (Z * Z) * P;
  sys_pipe2 : Z -> P -> sysret * (Z * Z) * P;
  sys_getfd : Z -> P -> sysret * P;
  sys_setfd : Z -> Z -> P -> sysret * P;
}.

(** fcntl.h *)
Definition FD_CLOEXEC : Z := 1.
Definition O_CLOEXEC : Z := 0x80000.

Section Pipe.
Context {P : Type} `{!PipeOps P} (c : config) (HAVE_PIPE2 : bool).

(** A call as the C library makes it: on failure it sets [errno]. *)
Definition libcall {A} (call : P -> sysret * A * P) : comp (cstate P) (Z * A) :=
  fun s => let '(r, a, p) := call (ker s) in
           Ret (sr_val r, a) (CState p (errno_after r (errno s))).

Definition plain (call : P -> sysret * P) : P -> sysret * unit * P :=
  fun p => let '(r, p') := call p in (r, tt, p').

Definition set_cloexec_flag (fd : Z) : comp (cstate P) Z :=
  let! (flags, _) := libcall (plain (sys_getfd fd)) in
  if flags <? 0 then let! e := get_errno in cret (- e)
  else
    let newflags := Z.lor flags FD_CLOEXEC in
    if flags =? newflags then cret 0
    else
      let! (r, _) := libcall (plain (sys_setfd fd newflags)) in
      if negb (r =? 0) then let! e := get_errno in cret (- e) else cret 0.

(** The loops; [off] is how far the buffer pointer has moved. *)
Fixpoint atomic_read (fuel : nat) (fd : Z) (buf : list byte) (off : nat) (total count : Z)
  : comp (cstate P) (Z * list byte) :=
  match fuel with
  | O => cnofuel
  | S fuel' =>
      if count <=? 0 then cret (total, buf)
      else
        let! (retval, bs) := libcall (sys_read fd count) in
        let! buf := checked (memcpy_to buf off bs) in
        if retval <? 0 then cret (if 0 <? total then total else -1, buf)
        else if retval =? 0 then cret (total, buf)
        else atomic_read fuel' fd buf (off + Z.to_nat retval) (total + retval) (count - retval)
  end.

Fixpoint atomic_write (fuel : nat) (fd : Z) (buf : list byte) (off : nat) (total count : Z)
  : comp (cstate P) Z :=
  match fuel with
  | O => cnofuel
  | S fuel' =>
      if count <=? 0 then cret total
      else
        let! bs := checked (slice buf off (Z.to_nat count)) in
        let! (retval, _) := libcall (plain (sys_write fd bs)) in
        if retval <? 0 then cret (if 0 <? total then total else -1)
        else if retval =? 0 then cret total
        else atomic_write fuel' fd buf (off + Z.to_nat retval) (total + retval) (count - retval)
  end.

Definition pink_pipe_init : comp (cstate P) (Z * (Z * Z)) :=
  let! (retval, fds) := if HAVE_PIPE2 then libcall (sys_pipe2 O_CLOEXEC) else libcall sys_pipe in
  if retval <? 0 then let! e := get_errno in cret (- e, fds)
  else if HAVE_PIPE2 then cret (0, fds)
  else
    let! r := set_cloexec_flag fds.1 in
    if r <? 0 then let! e := get_errno in cret (- e, fds)
    else
      let! r := set_cloexec_flag fds.2 in
      if r <? 0 then let! e := get_errno in cret (- e, fds) else cret (0, fds).

Definition pink_pipe_close (fd : Z) : comp (cstate P) Z :=
  let! (r, _) := libcall (plain (sys_close fd)) in
  if r <? 0 then let! e := get_errno in cret (- e) else cret 0.

(** The bytes of an [int]. *)
Definition int_bytes (i : Z) : list byte :=
  if big_endian c then reverse (le_split 4 i) else le_split 4 i.
Definition bytes_int (bs : list byte) : Z :=
  to_int (le_combine (if big_endian c then reverse bs else bs)).

(** [count != sizeof(int) ? (errno ? -errno : -EINVAL) : 0] *)
Definition int_result (count : Z) : comp (cstate P) Z :=
  if negb (count =? sizeof_int)
  then let! e := get_errno in cret (if negb (e =? 0) then - e else - EINVAL)
  else cret 0.

(** The code and the integer behind [i], which held [old]. *)
Definition pink_pipe_read_int (fd old : Z) : comp (cstate P) (Z * Z) :=
  set_errno 0 ;;
  let! (count, buf) := atomic_read 5 fd (int_bytes old) 0 0 sizeof_int in
  let! rc := int_result count in
  cret (rc, bytes_int buf).

Definition pink_pipe_write_int (fd i : Z) : comp (cstate P) Z :=
  set_errno 0 ;;
  let! count := atomic_write 5 fd (int_bytes i) 0 0 sizeof_int in
  int_result count.

End Pipe.

(** ** The laws *)

(** A pipe as its manual page sees it: the bytes in transit, the room left, and
    whether its write end is still open; and the descriptor flags. *)
Class PipeView (P : Type) : Type := {
  reader : P -> Z -> Prop;
  writer : P -> Z -> Prop;
  queue : P -> list byte;
  room : P -> Z;
  at_eof : P -> Prop;
  fd_flags : P -> Z -> option Z;
}.

Class PipeLaws (P : Type) `{!PipeOps P} `{!PipeView P} : Prop := {
  read_some p fd count :
    reader p fd -> 0 < count -> queue p <> [] ->
    exists n p', (0 < n <= length (queue p))%nat /\ Z.of_nat n <= count /\
      sys_read fd count p = (SysRet (Z.of_nat n) None, take n (queue p), p') /\
      queue p' = drop n (queue p) /\ (forall f, reader p f -> reader p' f) /\
      (at_eof p -> at_eof p');
  read_eof p fd count :
    reader p fd -> 0 < count -> queue p = [] -> at_eof p ->
    sys_read fd count p = (SysRet 0 None, [], p);
  write_some p fd bs :
    writer p fd -> bs <> [] -> Z.of_nat (length bs) <= room p ->
    exists n p', (0 < n <= length bs)%nat /\
      sys_write fd bs p = (SysRet (Z.of_nat n) None, p') /\
      queue p' = queue p ++ take n bs /\ room p' = room p - Z.of_nat n /\
      (forall f, reader p f -> reader p' f) /\ (forall f, writer p f -> writer p' f);
  pipe_ok p a b p' r :
    sys_pipe p = (r, (a, b), p') -> 0 <= sr_val r ->
    a <> b /\ fd_flags p' a = Some 0 /\ fd_flags p' b = Some 0;
  pipe2_ok p a b p' r :
    sys_pipe2 O_CLOEXEC p = (r, (a, b), p') -> 0 <= sr_val r ->
    a <> b /\ fd_flags p' a = Some FD_CLOEXEC /\ fd_flags p' b = Some FD_CLOEXEC;
  getfd_ok p fd f : fd_flags p fd = Some f -> sys_getfd fd p = (SysRet f None, p);
  setfd_ok p fd f v :
    fd_flags p fd = Some f ->
    exists p', sys_setfd fd v p = (SysRet 0 None, p') /\
      (forall x, fd_flags p' x = if decide (x = fd) then Some v else fd_flags p x);
}.

(** ** Properties *)

Section Properties.
Context {P : Type} `{!PipeOps P} `{!PipeView P} `{!PipeLaws P} (c : config).

Lemma libcall_run {A} (call : P -> sysret * A * P) p e v eo a p' :
  call p = (SysRet v eo, a, p') ->
  libcall call (CState p e) = Ret (v, a) (CState p' (default e eo)).
Proof. intros H. unfold libcall. simpl. by rewrite H. Qed.

Lemma plain_run (call : P -> sysret * P) p v eo p' :
  call p = (SysRet v eo, p') -> plain call p = (SysRet v eo, tt, p').
Proof. intros H. unfold plain. by rewrite H. Qed.

(** The write loop transfers everything, in however many pieces. *)
Lemma atomic_write_ok fuel : forall p e fd buf off total count,
  writer p fd -> (off + Z.to_nat count = length buf)%nat -> 0 <= count < Z.of_nat fuel ->
  count <= room p ->
  exists p', atomic_write fuel fd buf off total count (CState p e)
      = Ret (total + count) (CState p' e) /\
    queue p' = queue p ++ drop off buf /\ room p' = room p - count /\
    (forall f, reader p f -> reader p' f) /\ (forall f, writer p f -> writer p' f).
Proof.
  induction fuel as [|fuel IH]; intros p e fd buf off total count Hw Hb Hf Hr; [lia|].
  cbn [atomic_write]. destruct (Z.leb_spec count 0) as [Hc|Hc].
  { exists p. assert (count = 0) as -> by lia. rewrite drop_ge, app_nil_r by lia.
    split; [unfold cret; do 2 f_equal; lia|]. split_and!; (done || lia). }
  rewrite slice_ok by lia. rewrite (cbind_checked _ _ _ _ eq_refl).
  rewrite take_ge by (rewrite length_drop; lia).
  assert (Hl : length (drop off buf) = Z.to_nat count) by (rewrite length_drop; lia).
  destruct (write_some p fd (drop off buf)) as (n & p1 & Hn & Hcall & Hq & Hroom & Hrd & Hwr);
    [done | intros H; rewrite H in Hl; simpl in Hl; lia | lia |].
  rewrite (cbind_run _ _ _ _ _ (libcall_run _ p e _ _ _ _ (plain_run _ _ _ _ _ Hcall))).
  cbn beta iota. rewrite (proj2 (Z.ltb_ge _ 0)), (proj2 (Z.eqb_neq _ 0)), Nat2Z.id by lia.
  destruct (IH p1 e fd buf (off + n)%nat (total + Z.of_nat n) (count - Z.of_nat n))
    as (p' & Hrun & Hq' & Hroom' & Hrd' & Hwr'); [by apply Hwr | lia | lia | lia |].
  exists p'. simpl. rewrite Hrun. split_and!; [f_equal; lia | | lia | auto | auto].
  rewrite Hq', Hq, <- app_assoc, <- drop_drop. f_equal. apply take_drop.
Qed.

(** The read loop collects [count] bytes, or all there are before the end. *)
Lemma atomic_read_ok fuel : forall p e fd buf off total count,
  reader p fd -> (off + Z.to_nat count = length buf)%nat -> 0 <= count < Z.of_nat fuel ->
  count <= Z.of_nat (length (queue p)) \/ at_eof p ->
  let m := Nat.min (Z.to_nat count) (length (queue p)) in
  exists p', atomic_read fuel fd buf off total count (CState p e)
      = Ret (total + Z.of_nat m, splice buf off (take m (queue p))) (CState p' e) /\
    queue p' = drop m (queue p) /\ (forall f, reader p f -> reader p' f).
Proof.
  induction fuel as [|fuel IH]; intros p e fd buf off total count Hrd Hb Hf Hq m; [lia|].
  cbn [atomic_read]. destruct (Z.leb_spec count 0) as [Hc|Hc].
  { exists p. assert (m = 0)%nat as -> by lia. rewrite splice_nil.
    split; [unfold cret; do 3 f_equal; lia | done]. }
  destruct (decide (queue p = [])) as [Hnil|Hne].
  { destruct Hq as [Hq|Heof]; [rewrite Hnil in Hq; simpl in Hq; lia|].
    assert (m = 0)%nat as -> by (unfold m; rewrite Hnil; simpl; lia).
    rewrite (cbind_run _ _ _ _ _ (libcall_run _ p e _ _ _ _ (read_eof _ _ _ Hrd Hc Hnil Heof))).
    rewrite memcpy_to_ok by (simpl; lia). rewrite (cbind_checked _ _ _ _ eq_refl).
    exists p. rewrite !splice_nil. split; [cbn; unfold cret; do 3 f_equal; lia | done]. }
  destruct (read_some p fd count Hrd Hc Hne) as (n & p1 & Hn & Hnc & Hcall & Hq1 & Hrd1 & Heof1).
  rewrite (cbind_run _ _ _ _ _ (libcall_run _ p e _ _ _ _ Hcall)).
  assert (Hlt : length (take n (queue p)) = n) by (rewrite length_take; lia).
  rewrite memcpy_to_ok by lia. rewrite (cbind_checked _ _ _ _ eq_refl).
  rewrite (proj2 (Z.ltb_ge _ 0)), (proj2 (Z.eqb_neq _ 0)), Nat2Z.id by lia.
  destruct (IH p1 e fd (splice buf off (take n (queue p))) (off + n)%nat (total + Z.of_nat n)
    (count - Z.of_nat n)) as (p' & Hrun & Hq' & Hrd');
    [by apply Hrd1 | rewrite length_splice by lia; lia | lia
    | rewrite Hq1, length_drop; destruct Hq; [left; lia | right; auto] |].
  set (m1 := Nat.min (Z.to_nat (count - Z.of_nat n)) (length (queue p1))) in *.
  assert (Hm : m = (n + m1)%nat) by (unfold m, m1; rewrite Hq1, length_drop; lia).
  exists p'. cbn [default]. rewrite Hrun, Hm. split_and!; [|by rewrite Hq', Hq1, drop_drop | auto].
  rewrite Hq1. replace (off + n)%nat with (off + length (take n (queue p)))%nat by lia.
  rewrite splice_splice, take_take_drop by lia. do 2 f_equal. lia.
Qed.

Lemma length_int_bytes i : length (int_bytes c i) = 4%nat.
Proof. unfold int_bytes. destruct (big_endian c); rewrite ?length_reverse; apply length_le_split. Qed.

Lemma bytes_int_bytes i : bytes_int c (int_bytes c i) = to_int i.
Proof.
  unfold bytes_int, int_bytes.
  assert (H : to_int (le_combine (le_split 4 i)) = to_int i).
  { rewrite le_combine_split. apply (wraps_wrapu 32). lia. }
  destruct (big_endian c); [rewrite reverse_involutive|]; apply H.
Qed.

Lemma write_int_run p e fd i :
  writer p fd -> 4 <= room p ->
  exists p', pink_pipe_write_int c fd i (CState p e) = Ret 0 (CState p' 0) /\
    queue p' = queue p ++ int_bytes c i /\ room p' = room p - 4 /\
    (forall f, reader p f -> reader p' f) /\ (forall f, writer p f -> writer p' f).
Proof.
  intros Hw Hr. destruct (atomic_write_ok 5 p 0 fd (int_bytes c i) 0 0 sizeof_int)
    as (p' & Hrun & H); [done | by rewrite length_int_bytes | done | done |].
  exists p'. split; [|exact H]. unfold pink_pipe_write_int.
  rewrite (cbind_run _ _ _ tt (CState p 0)) by done. by rewrite (cbind_run _ _ _ _ _ Hrun).
Qed.

Lemma read_int_run p e fd old i rest :
  reader p fd -> queue p = int_bytes c i ++ rest ->
  exists p', pink_pipe_read_int c fd old (CState p e) = Ret (0, to_int i) (CState p' 0) /\
    queue p' = rest /\ (forall f, reader p f -> reader p' f).
Proof.
  intros Hrd Hq. pose proof (length_int_bytes i) as Hli.
  destruct (atomic_read_ok 5 p 0 fd (int_bytes c old) 0 0 sizeof_int)
    as (p' & Hrun & Hq' & Hrd');
    [done | by rewrite length_int_bytes | done | left; rewrite Hq, length_app, Hli; unfold sizeof_int; lia |].
  assert (Hm : Nat.min (Z.to_nat sizeof_int) (length (queue p)) = length (int_bytes c i)).
  { rewrite Hq, length_app, Hli. simpl. lia. }
  rewrite Hm, Hq in *. rewrite take_app_length in Hrun. rewrite drop_app_length in Hq'.
  exists p'. split; [|done]. unfold pink_pipe_read_int.
  rewrite (cbind_run _ _ _ tt (CState p 0)) by done. rewrite (cbind_run _ _ _ _ _ Hrun).
  assert (Hs : splice (int_bytes c old) 0 (int_bytes c i) = int_bytes c i).
  { unfold splice. rewrite drop_ge by (rewrite length_int_bytes, Hli; lia). apply app_nil_r. }
  rewrite Hs, Hli. rewrite (cbind_run _ _ _ 0 (CState p' 0)) by done.
  by rewrite bytes_int_bytes.
Qed.

(** Writing a list of integers, and reading as many. *)
Fixpoint write_ints (fd : Z) (l : list Z) : comp (cstate P) bool :=
  match l with
  | [] => cret true
  | i :: l' =>
      let! rc := pink_pipe_write_int c fd i in
      let! ok := write_ints fd l' in cret ((rc =? 0) && ok)
  end.

Fixpoint read_ints (fd : Z) (n : nat) : comp (cstate P) (list (Z * Z)) :=
  match n with
  | O => cret []
  | S n' =>
      let! x := pink_pipe_read_int c fd 0 in
      let! l := read_ints fd n' in cret (x :: l)
  end.

Lemma write_ints_run l : forall p e fd,
  writer p fd -> 4 * Z.of_nat (length l) <= room p ->
  exists p' e', write_ints fd l (CState p e) = Ret true (CState p' e') /\
    queue p' = queue p ++ concat (int_bytes c <$> l) /\ (forall f, reader p f -> reader p' f).
Proof.
  induction l as [|i l IH]; intros p e fd Hw Hr; cbn [write_ints length] in *.
  { exists p, e. by rewrite app_nil_r. }
  destruct (write_int_run p e fd i Hw ltac:(lia)) as (p1 & Hrun & Hq & Hroom & Hrd & Hwr).
  destruct (IH p1 0 fd) as (p' & e' & Hrun' & Hq' & Hrd'); [auto | lia |].
  exists p', e'. rewrite (cbind_run _ _ _ _ _ Hrun), (cbind_run _ _ _ _ _ Hrun').
  split_and!; [done | | auto]. rewrite Hq', Hq, <- app_assoc. done.
Qed.

Lemma read_ints_run l : forall p e fd rest,
  reader p fd -> queue p = concat (int_bytes c <$> l) ++ rest ->
  exists p' e', read_ints fd (length l) (CState p e)
    = Ret ((fun i => (0, to_int i)) <$> l) (CState p' e') /\ queue p' = rest.
Proof.
  induction l as [|i l IH]; intros p e fd rest Hrd Hq; [by exists p, e|].
  cbn [fmap list_fmap concat] in Hq. rewrite <- app_assoc in Hq.
  destruct (read_int_run p e fd 0 i _ Hrd Hq) as (p1 & Hrun & Hq1 & Hrd1).
  destruct (IH p1 0 fd rest (Hrd1 _ Hrd) Hq1) as (p' & e' & Hrun' & Hq').
  exists p', e'. split; [|done]. cbn [read_ints length].
  by rewrite (cbind_run _ _ _ _ _ Hrun), (cbind_run _ _ _ _ _ Hrun').
Qed.

(** C32. Integers pass through a pipe in order, however the kernel splits the
    transfers: writing a list of them with [pink_pipe_write_int] and then reading
    as many with [pink_pipe_read_int] succeeds each time and gives the same list,
    and leaves the pipe empty. *)
Theorem pink_pipe_ints_fifo l p e rfd wfd :
  reader p rfd -> writer p wfd -> queue p = [] -> 4 * Z.of_nat (length l) <= room p ->
  Forall (fun i => - 2 ^ 31 <= i < 2 ^ 31) l ->
  exists p' e',
    cbind (write_ints wfd l) (fun ok => cbind (read_ints rfd (length l))
      (fun got => cret (ok, got))) (CState p e)
    = Ret (true, (fun i => (0, i)) <$> l) (CState p' e') /\ queue p' = [].
Proof.
  intros Hrd Hw Hq Hr Hl. destruct (write_ints_run l p e wfd Hw Hr) as (p1 & e1 & Hrun & Hq1 & Hrd1).
  rewrite Hq in Hq1. simpl in Hq1.
  destruct (read_ints_run l p1 e1 rfd [] (Hrd1 _ Hrd)) as (p' & e' & Hrun' & Hq');
    [by rewrite app_nil_r|].
  exists p', e'. split; [|done]. rewrite (cbind_run _ _ _ _ _ Hrun), (cbind_run _ _ _ _ _ Hrun').
  unfold cret. do 2 f_equal. apply list_fmap_ext. intros k i Hk. f_equal.
  apply wraps_small; [lia|]. by apply (Forall_lookup_1 _ _ _ _ Hl Hk).
Qed.

(** At the end of the stream [pink_pipe_read_int] returns -EINVAL when fewer
    than four bytes are left, having consumed them. *)
Theorem pink_pipe_read_int_eof p e fd old :
  reader p fd -> at_eof p -> (length (queue p) < 4)%nat ->
  exists p' i, pink_pipe_read_int c fd old (CState p e) = Ret (- EINVAL, i) (CState p' 0) /\
    queue p' = [].
Proof.
  intros Hrd Heof Hq.
  destruct (atomic_read_ok 5 p 0 fd (int_bytes c old) 0 0 sizeof_int) as (p' & Hrun & Hq' & _);
    [done | by rewrite length_int_bytes | done | by right |].
  rewrite Nat.min_r in Hrun, Hq' by (change (Z.to_nat sizeof_int) with 4%nat; lia). rewrite drop_ge in Hq' by lia.
  exists p'. unfold pink_pipe_read_int.
  rewrite (cbind_run _ _ _ tt (CState p 0)) by done. rewrite (cbind_run _ _ _ _ _ Hrun).
  unfold int_result, sizeof_int. rewrite (proj2 (Z.eqb_neq _ 4)) by lia. by eexists.
Qed.

Lemma set_cloexec_run p e fd :
  fd_flags p fd = Some 0 ->
  exists p', set_cloexec_flag fd (CState p e) = Ret 0 (CState p' e) /\
    (forall x, fd_flags p' x = if decide (x = fd) then Some FD_CLOEXEC else fd_flags p x).
Proof.
  intros Hf. destruct (setfd_ok p fd 0 FD_CLOEXEC Hf) as (p' & Hset & Hx).
  exists p'. split; [|done]. unfold set_cloexec_flag.
  rewrite (cbind_run _ _ _ _ _ (libcall_run _ p e _ _ _ _ (plain_run _ _ _ _ _ (getfd_ok _ _ _ Hf)))).
  change (Z.lor 0 FD_CLOEXEC) with FD_CLOEXEC. cbn [Z.ltb Z.eqb Z.compare FD_CLOEXEC default].
  by rewrite (cbind_run _ _ _ _ _ (libcall_run _ p e _ _ _ _ (plain_run _ _ _ _ _ Hset))).
Qed.

(** [pink_pipe_init] gives two descriptors that are both closed on exec, with
    pipe2(2) as well as by the two fcntl(2) steps where it does not exist. *)
Theorem pink_pipe_init_cloexec (have_pipe2 : bool) p e a b p1 r :
  (if have_pipe2 then sys_pipe2 O_CLOEXEC p else sys_pipe p) = (r, (a, b), p1) ->
  0 <= sr_val r -> sr_errno r = None ->
  exists p', pink_pipe_init have_pipe2 (CState p e) = Ret (0, (a, b)) (CState p' e) /\
    fd_flags p' a = Some FD_CLOEXEC /\ fd_flags p' b = Some FD_CLOEXEC.
Proof.
  destruct r as [v eo]. simpl. intros Hp Hv ->. unfold pink_pipe_init.
  destruct have_pipe2.
  - destruct (pipe2_ok _ _ _ _ _ Hp Hv) as (Hab & Ha & Hb). exists p1.
    rewrite (cbind_run _ _ _ _ _ (libcall_run _ p e _ _ _ _ Hp)).
    by rewrite (proj2 (Z.ltb_ge v 0)) by lia.
  - destruct (pipe_ok _ _ _ _ _ Hp Hv) as (Hab & Ha & Hb).
    rewrite (cbind_run _ _ _ _ _ (libcall_run _ p e _ _ _ _ Hp)).
    rewrite (proj2 (Z.ltb_ge v 0)) by lia. cbn [fst snd default].
    destruct (set_cloexec_run p1 e a Ha) as (p2 & H2 & Hf2).
    rewrite (cbind_run _ _ _ _ _ H2). cbn [Z.ltb Z.compare].
    destruct (set_cloexec_run p2 e b) as (p3 & H3 & Hf3); [rewrite Hf2, decide_False; [done | congruence]|].
    rewrite (cbind_run _ _ _ _ _ H3). exists p3. split; [done|].
    rewrite (Hf3 a), (Hf3 b), (Hf2 a). split; [|by rewrite decide_True].
    by rewrite decide_False, decide_True.
Qed.

End Properties.

(** ** A concrete pipe

    It reads one byte at a time and writes at most three. *)

Record psim : Type := PSim {
  ps_queue : list byte;
  ps_room : Z;
  ps_flags : gmap Z Z;
}.

#[export] Instance psim_ops : PipeOps psim := {|
  sys_read := fun fd count p =>
    match ps_queue p with
    | [] => (SysRet 0 None, [], p)
    | b :: q => (SysRet 1 None, [b], PSim q (ps_room p + 1) (ps_flags p))
    end;
  sys_write := fun fd bs p =>
    let bs' := take 3 bs in
    (SysRet (Z.of_nat (length bs')) None,
     PSim (ps_queue p ++ bs') (ps_room p - Z.of_nat (length bs')) (ps_flags p));
  sys_close := fun fd p => (SysRet 0 None, PSim (ps_queue p) (ps_room p) (delete fd (ps_flags p)));
  sys_pipe := fun p =>
    (SysRet 0 None, (3, 4), PSim (ps_queue p) (ps_room p) (<[3 := 0]> (<[4 := 0]> (ps_flags p))));
  sys_pipe2 := fun flags p =>
    let f := if decide (flags = O_CLOEXEC) then FD_CLOEXEC else 0 in
    (SysRet 0 None, (3, 4), PSim (ps_queue p) (ps_room p) (<[3 := f]> (<[4 := f]> (ps_flags p))));
  sys_getfd := fun fd p =>
    match ps_flags p !! fd with
    | Some f => (SysRet f None, p)
    | None => (SysRet (-1) (Some 9), p)
    end;
  sys_setfd := fun fd v p =>
    match ps_flags p !! fd with
    | Some _ => (SysRet 0 None, PSim (ps_queue p) (ps_room p) (<[fd := v]> (ps_flags p)))
    | None => (SysRet (-1) (Some 9), p)
    end;
|}.

#[export] Instance psim_view : PipeView psim := {|
  reader := fun _ fd => fd = 3;
  writer := fun _ fd => fd = 4;
  queue := ps_queue;
  room := ps_room;
  at_eof := fun _ => True;
  fd_flags := fun p fd => ps_flags p !! fd;
|}.

#[export] Instance psim_laws : PipeLaws psim.
Proof.
  split; simpl.
  - intros p fd count _ Hc Hq. destruct (ps_queue p) as [|b q] eqn:E; [done|].
    eexists 1%nat, _. split_and!; simpl; (done || lia).
  - intros p fd count _ _ ->. done.
  - intros p fd bs _ Hb Hr. eexists (length (take 3 bs)), _.
    assert (0 < length bs)%nat by (destruct bs; simpl; [done | lia]).
    assert (Ht : take (length (take 3 bs)) bs = take 3 bs)
      by (by destruct bs as [|? [|? [|? ?]]]).
    split_and!; [rewrite length_take; lia | rewrite length_take; lia | done | by rewrite Ht | done..].
  - intros p a b p' r [= <- <- <- <-] _. simpl.
    split_and!; [done | by rewrite lookup_insert_eq |].
    by rewrite lookup_insert_ne, lookup_insert_eq.
  - intros p a b p' r [= <- <- <- <-] _. simpl.
    split_and!; [done | by rewrite lookup_insert_eq |].
    by rewrite lookup_insert_ne, lookup_insert_eq.
  - intros p fd f ->. done.
  - intros p fd f v ->. eexists. split; [done|]. intros x. simpl.
    case_decide; subst; [by rewrite lookup_insert_eq | by rewrite lookup_insert_ne].
Qed.

Lemma pink_pipe_ints_fifo_witness :
  exists p' e',
    cbind (write_ints x86_64_linux 4 [7; -1; 65536]) (fun ok => cbind (read_ints x86_64_linux 3 3)
      (fun got => cret (ok, got))) (CState (PSim [] 64 ∅) 0)
    = Ret (true, [(0, 7); (0, -1); (0, 65536)]) (CState p' e') /\ queue p' = [].
Proof.
  apply (pink_pipe_ints_fifo x86_64_linux [7; -1; 65536] (PSim [] 64 ∅) 0 3 4);
    [reflexivity | reflexivity | reflexivity | simpl; lia |].
  repeat (apply Forall_cons_2; [lia|]). apply Forall_nil_2.
Defined.

Lemma pink_pipe_read_int_eof_witness :
  exists p' i, pink_pipe_read_int x86_64_linux 3 0 (CState (PSim [Byte.x01; Byte.x02] 64 ∅) 0)
    = Ret (- EINVAL, i) (CState p' 0) /\ queue p' = [].
Proof.
  apply (pink_pipe_read_int_eof x86_64_linux (PSim [Byte.x01; Byte.x02] 64 ∅) 0 3 0);
    [reflexivity | exact I | simpl; lia].
Defined.

Lemma pink_pipe_init_cloexec_witness :
  exists p', pink_pipe_init false (CState (PSim [] 64 ∅) 0) = Ret (0, (3, 4)) (CState p' 0) /\
    fd_flags p' 3 = Some FD_CLOEXEC /\ fd_flags p' 4 = Some FD_CLOEXEC.
Proof.
  apply (pink_pipe_init_cloexec false (PSim [] 64 ∅) 0 3 4
    (PSim [] 64 (<[3 := 0]> (<[4 := 0]> ∅))) (SysRet 0 None));
    [reflexivity | simpl; lia | reflexivity].
Defined.
