(* ===== verification/Tracer.v ===== *)
(** * A process that uses the library

    What the programs under examples/ need besides the library: the standard
    streams, the conversions of printf(3), inet_ntop(3), the process system calls
    and the macros of sys/wait.h.  A program runs in a [tstate]: the state of the
    library calls and the text written so far to the two streams. *)

From Stdlib Require Import ZArith Lia String Ascii.
From stdpp Require Import base list numbers strings pretty.
From coqutil Require Import Byte Word.LittleEndianList.
From S2P Require Import Prelude Config Kernel Layout Sim Trace Vm Observe.
Local Open Scope string_scope.
Local Open Scope Z_scope.
Local Open Scope c_scope.

(** ** Streams *)

(** The newline and the double quote. *)
Definition nl : string := String (ascii_of_nat 10) EmptyString.
Definition quote : string := String (ascii_of_nat 34) EmptyString.

Record tstate (K : Type) : Type := TState {
  lib_state : cstate K;
  out : string;
  err : string;
}.
Arguments TState {K} _ _ _.
Arguments lib_state {K} _.
Arguments out {K} _.
Arguments err {K} _.

Section Streams.
Context {K : Type} (strerror : Z -> string).

(** A library call made by the program. *)
Definition lib {A} (f : comp (cstate K) A) : comp (tstate K) A :=
  fun s => match f (lib_state s) with
           | Ret a s' => Ret a (TState s' (out s) (err s))
           | Abort s' => Abort (TState s' (out s) (err s))
           | Undef => Undef
           | NoFuel => NoFuel
           end.

(** printf(3), fputc(3) on stdout, with the text they produce. *)
Definition printf (t : string) : comp (tstate K) unit :=
  fun s => Ret tt (TState (lib_state s) (out s +:+ t) (err s)).

Definition eprintf (t : string) : comp (tstate K) unit :=
  fun s => Ret tt (TState (lib_state s) (out s) (err s +:+ t)).

(** The text depends on the locale, so strerror(3) is an argument. *)
Definition perror (t : string) : comp (tstate K) unit :=
  let! e := lib get_errno in eprintf (t +:+ ": " +:+ strerror e +:+ nl).

(** [errno = -r; perror(t)] *)
Definition fail_with (r : Z) (t : string) : comp (tstate K) unit :=
  lib (set_errno (- r)) ;; perror t.

End Streams.

(** ** Conversions of printf(3) *)

Definition fmt_d (z : Z) : string := pretty z.

Definition hex_digit (n : nat) : ascii :=
  default "?"%char (String.get n "0123456789abcdef").

(** The hexadecimal digits of a number below 16^[fuel]. *)
Fixpoint hex_digits (fuel : nat) (z : Z) (acc : string) : string :=
  match fuel with
  | O => acc
  | S fuel' =>
      let acc := String (hex_digit (Z.to_nat (z mod 16))) acc in
      if z / 16 =? 0 then acc else hex_digits fuel' (z / 16) acc
  end.

Definition fmt_x (z : Z) : string := hex_digits 8 z "".
(** [%#x] *)
Definition fmt_sharp_x (z : Z) : string := if z =? 0 then "0" else "0x" +:+ fmt_x z.
(** [%08x] *)
Fixpoint zeros (n : nat) : string :=
  match n with O => "" | S n' => String "0" (zeros n') end.
Definition fmt_08x (z : Z) : string :=
  let t := fmt_x z in zeros (8 - String.length t) +:+ t.

(** The string at the start of a buffer; reading beyond it is undefined. *)
Definition cstring (bs : list byte) : option string :=
  n ← find_nul bs; Some (string_of_list_byte (take n bs)).

(** A terminated buffer has a string. *)
Lemma find_nul_lookup (l : list byte) i :
  l !! i = Some Byte.x00 -> is_Some (find_nul l).
Proof.
  revert i. induction l as [|b l IH]; intros i H; [done|]. simpl.
  destruct (byte.unsigned b =? 0) eqn:E; [by eexists|].
  destruct i as [|i]; simpl in H; [simplify_eq; done|].
  destruct (IH i H) as [n ->]. by eexists.
Qed.

Lemma cstring_lookup (l : list byte) i : l !! i = Some Byte.x00 -> is_Some (cstring l).
Proof. intros H. unfold cstring. destruct (find_nul_lookup l i H) as [n ->]. by eexists. Qed.

(** ** inet_ntop(3) *)

Definition nth_byte (bs : list byte) (i : nat) : Z :=
  byte.unsigned (default Byte.x00 (bs !! i)).

(** A 16-bit number in network order; ntohs(3) is this conversion. *)
Definition be16 (bs : list byte) (i : nat) : Z := 256 * nth_byte bs i + nth_byte bs (S i).

Definition inet_ntop4 (a : list byte) : string :=
  fmt_d (nth_byte a 0) +:+ "." +:+ fmt_d (nth_byte a 1) +:+ "." +:+
  fmt_d (nth_byte a 2) +:+ "." +:+ fmt_d (nth_byte a 3).

Definition words16 (a : list byte) : list Z := (fun i => be16 a (2 * i)) <$> seq 0 8.

(** The length of the run of zero words at the front. *)
Fixpoint zero_run (ws : list Z) : nat :=
  match ws with w :: ws' => if w =? 0 then S (zero_run ws') else O | [] => O end.

(** The first longest run of zero words: its start and length. *)
Definition best_run (ws : list Z) : nat * nat :=
  foldl (fun '(b, l) i => let n := zero_run (drop i ws) in
                          if (l <? n)%nat then (i, n) else (b, l)) (O, O) (seq 0 8).

(** The text of the words from [i] on, when the run at [b] of length [l] is
    abbreviated ([l] is 0 when no run is). *)
Fixpoint ntop6_words (a : list byte) (b l : nat) (ws : list Z) (i : nat) : string :=
  match ws with
  | [] => if (0 <? l)%nat && (b + l =? 8)%nat then ":" else ""
  | w :: ws' =>
      if (b <=? i)%nat && (i <? b + l)%nat then
        (if (i =? b)%nat then ":" else "") +:+ ntop6_words a b l ws' (S i)
      else
        (if (i =? 0)%nat then "" else ":") +:+
        if (i =? 6)%nat && (b =? 0)%nat && ((l =? 6)%nat || (l =? 5)%nat && (be16 a 10 =? 0xffff))
        then inet_ntop4 (drop 12 a)
        else fmt_x w +:+ ntop6_words a b l ws' (S i)
  end.

Definition inet_ntop6 (a : list byte) : string :=
  let '(b, l) := best_run (words16 a) in
  if (l <? 2)%nat then ntop6_words a 0 0 (words16 a) 0 else ntop6_words a b l (words16 a) 0.

(** ** Processes *)

(** [sys_waitpid] gives the status it stored, if it stored one; [sys_execvp]
    gives [inr] when the process image was replaced, so that it does not
    return. *)
Class ProcOps (K : Type) : Type := {
  sys_fork : K -> sysret * K;
  sys_waitpid : Z -> K -> sysret * option Z * K;
  sys_getpid : K -> Z;
  sys_execvp : list string -> K -> (sysret * K) + K;
}.

Section Calls.
Context {K : Type} `{!ProcOps K}.

Definition fork : comp (cstate K) Z := signal_call sys_fork.

Definition waitpid (pid : Z) : comp (cstate K) (Z * option Z) :=
  fun s => let '(r, st, k) := sys_waitpid pid (ker s) in
           Ret (sr_val r, st) (CState k (errno_after r (errno s))).

Definition getpid : comp (cstate K) Z := fun s => Ret (sys_getpid (ker s)) s.

(** Whether the image was replaced. *)
Definition execvp (argv : list string) : comp (cstate K) bool :=
  fun s => match sys_execvp argv (ker s) with
           | inl (r, k) => Ret false (CState k (errno_after r (errno s)))
           | inr k => Ret true (CState k (errno s))
           end.

End Calls.

(** How the process ends. *)
Inductive outcome : Type :=
| Returned (code : Z)
| Exited (code : Z)
| Execed (argv : list string).

Definition EXIT_SUCCESS : Z := 0.
Definition EXIT_FAILURE : Z := 1.
Definition SIGKILL : Z := 9.
Definition SIGSTOP : Z := 19.
Definition ECHILD : Z := 10.

(** ** sys/wait.h *)

Definition WTERMSIG (status : Z) : Z := Z.land status 0x7f.
Definition WEXITSTATUS (status : Z) : Z := Z.shiftr (Z.land status 0xff00) 8.
Definition WIFEXITED (status : Z) : bool := WTERMSIG status =? 0.
(** [((signed char) ((status & 0x7f) + 1) >> 1) > 0] *)
Definition WIFSIGNALED (status : Z) : bool :=
  0 <? Z.shiftr (wraps 8 (Z.land status 0x7f + 1)) 1.
Definition WIFSTOPPED (status : Z) : bool := Z.land status 0xff =? 0x7f.

(** ** Lemmas *)

(** A status that reports a stop reports neither an exit nor a death by signal. *)
Lemma stopped_status st :
  WIFSTOPPED st = true -> WIFEXITED st = false /\ WIFSIGNALED st = false.
Proof.
  unfold WIFSTOPPED, WIFEXITED, WIFSIGNALED, WTERMSIG. intros H. apply Z.eqb_eq in H.
  assert (Z.land st 0x7f = 0x7f) as ->; [|done].
  change 0x7f with (Z.land 0xff 0x7f) at 1. by rewrite Z.land_assoc, H.
Qed.

Section Run.
Context {K : Type} (strerror : Z -> string).

Lemma lib_run {A} (f : comp (cstate K) A) s o r a s' :
  f s = Ret a s' -> lib f (TState s o r) = Ret a (TState s' o r).
Proof. intros H. unfold lib. simpl. by rewrite H. Qed.

Lemma cbind_lib {A B} (f : comp (cstate K) A) (g : A -> comp (tstate K) B) s o r a s' :
  f s = Ret a s' -> cbind (lib f) g (TState s o r) = g a (TState s' o r).
Proof. intros H. apply cbind_run. by apply lib_run. Qed.

End Run.

Lemma append_assoc (a b d : string) : (a +:+ b) +:+ d = a +:+ b +:+ d.
Proof. induction a as [|x a IH]; [done|]. exact (f_equal (String x) IH). Qed.

Lemma append_nil_r (a : string) : a +:+ "" = a.
Proof. induction a as [|x a IH]; [done|]. exact (f_equal (String x) IH). Qed.

(** ** Observers that print

    The program returns, the kernel is as it was, and the text added to stdout
    satisfies [Q] with the result; stderr may have grown. *)
Definition tobserves {K A} (k : K) (f : comp (tstate K) A) (Q : A -> string -> Prop) : Prop :=
  forall e o r, exists a t e' r',
    f (TState (CState k e) o r) = Ret a (TState (CState k e') (o +:+ t) r') /\ Q a t.

Section Rules.
Context {K : Type} (k : K) (strerror : Z -> string).

Lemma tobs_ret {A} (a : A) (Q : A -> string -> Prop) : Q a "" -> tobserves k (cret a) Q.
Proof. intros H e o r. exists a, "", e, r. by rewrite append_nil_r. Qed.

Lemma tobs_bind {A B} (f : comp (tstate K) A) (g : A -> comp (tstate K) B) R Q :
  tobserves k f R -> (forall a t, R a t -> tobserves k (g a) (fun b t' => Q b (t +:+ t'))) ->
  tobserves k (cbind f g) Q.
Proof.
  intros Hf Hg e o r. destruct (Hf e o r) as (a & t & e1 & r1 & Hr & Ha).
  destruct (Hg a t Ha e1 (o +:+ t) r1) as (b & t' & e2 & r2 & Hb & HQ).
  exists b, (t +:+ t'), e2, r2. rewrite (cbind_run _ _ _ _ _ Hr), Hb. by rewrite append_assoc.
Qed.

Lemma tobs_lib {A} (f : comp (cstate K) A) (R : A -> Prop) :
  observes k f R -> tobserves k (lib f) (fun a t => t = "" /\ R a).
Proof.
  intros Hf e o r. destruct (Hf e) as (a & e' & Hr & Ha). exists a, "", e', r.
  split; [|done]. rewrite append_nil_r. by apply lib_run.
Qed.

(** After a computation that prints nothing. *)
Lemma tobs_quiet {A B} (f : comp (tstate K) A) (g : A -> comp (tstate K) B) (R : A -> Prop) Q :
  tobserves k f (fun a t => t = "" /\ R a) -> (forall a, R a -> tobserves k (g a) Q) ->
  tobserves k (cbind f g) Q.
Proof.
  intros Hf Hg. eapply tobs_bind; [exact Hf|]. intros a t [-> Ha]. exact (Hg a Ha).
Qed.

Lemma tobs_mono {A} (f : comp (tstate K) A) (R Q : A -> string -> Prop) :
  tobserves k f R -> (forall a t, R a t -> Q a t) -> tobserves k f Q.
Proof.
  intros Hf HRQ e o r. destruct (Hf e o r) as (a & t & e' & r' & Hr & Ha). exists a, t, e', r'. auto.
Qed.

Lemma tobs_printf t0 (Q : unit -> string -> Prop) : Q tt t0 -> tobserves k (printf t0) Q.
Proof. intros H e o r. by exists tt, t0, e, r. Qed.

Lemma tobs_print {B} t0 (g : unit -> comp (tstate K) B) Q :
  tobserves k (g tt) (fun b t => Q b (t0 +:+ t)) -> tobserves k (cbind (printf t0) g) Q.
Proof.
  intros H. apply (tobs_bind _ _ (fun _ t => t = t0)); [by apply tobs_printf|].
  by intros [] t ->.
Qed.

Lemma tobs_fail_with z t0 : tobserves k (fail_with strerror z t0) (fun _ t => t = "").
Proof.
  intros e o r. exists tt, "", (- z), (r +:+ t0 +:+ ": " +:+ strerror (- z) +:+ nl).
  split; [|done]. by rewrite append_nil_r.
Qed.

Lemma tobs_checked {A B} (x : option A) (a : A) (g : A -> comp (tstate K) B) Q :
  x = Some a -> tobserves k (g a) Q -> tobserves k (cbind (checked x) g) Q.
Proof. by intros ->. Qed.

End Rules.
