(* ===== verification/Script.v ===== *)
(** * A concrete kernel with a scripted child

    The kernel of [Sim] with one child whose stops are given in advance: each with
    the status that waitpid(2) reports and the tracee as it is at that stop.  It
    models no code of the library; the witnesses about the programs under
    examples/ run on it. *)

From Stdlib Require Import ZArith Lia String.
From stdpp Require Import base list numbers gmap strings.
From coqutil Require Import Byte Word.LittleEndianList.
From S2P Require Import Prelude Config Kernel Layout Sim Trace Vm Regset Read ReadVm Registers Observe Tracer.
Local Open Scope Z_scope.

Record script : Type := Script {
  sc_now : sim;                 (* the child as it is at its latest stop *)
  sc_running : bool;
  sc_rest : list (Z * sim);     (* its next stops *)
}.

Definition set_now (k : script) (s : sim) : script := Script s (sc_running k) (sc_rest k).
Definition set_running (k : script) (b : bool) : script := Script (sc_now k) b (sc_rest k).

Definition script_ptrace (c : config) (req : ptrace_request) (pid addr : Z) (d : pdata) (k : script)
  : sysret * pdata * script :=
  if sc_running k then (SysRet (-1) (Some ESRCH), d, k)
  else match req with
       | PTRACE_SYSCALL | PTRACE_CONT =>
           if decide (pid = sim_pid (sc_now k)) then (SysRet 0 None, d, set_running k true)
           else (SysRet (-1) (Some ESRCH), d, k)
       | _ => let '(r, d', s) := sim_ptrace c req pid addr d (sc_now k) in (r, d', set_now k s)
       end.

Section Laws.
Context (c : config).

#[export] Instance script_ops : KernelOps script := {|
  sys_ptrace := script_ptrace c;
  sys_process_vm_readv := fun pid a len k =>
    let '(r, bs, s) := sim_readv c true pid a len (sc_now k) in (r, bs, set_now k s);
  sys_process_vm_writev := fun pid a bs k =>
    let '(r, s) := sim_writev c true pid a bs (sc_now k) in (r, set_now k s);
  sys_tgkill := fun _ _ _ k => (SysRet 0 None, k);
  sys_tkill := fun _ _ k => (SysRet 0 None, k);
  sys_kill := fun _ _ k => (SysRet 0 None, k);
|}.

#[export] Instance script_procs : ProcOps script := {|
  sys_fork := fun k => (SysRet (sim_pid (sc_now k)) None, set_running k true);
  sys_waitpid := fun pid k =>
    match sc_rest k with
    | (st, s) :: l => (SysRet (sim_pid s) None, Some st, Script s false l)
    | [] => (SysRet (-1) (Some ECHILD), None, k)
    end;
  sys_getpid := fun _ => 1;
  sys_execvp := fun _ k => inr k;
|}.

#[export] Instance script_view : TraceeView script := {|
  stopped := fun k pid => sc_running k = false /\ pid = sim_pid (sc_now k);
  tmem := fun k => sim_tmem c (sc_now k);
  writable := fun _ _ _ => true;
|}.

#[export] Instance script_regs : RegView script := {|
  prstatus := fun k _ => sim_prstatus (sc_now k);
  user_area := fun k _ => sim_user (sc_now k);
  compat_task := fun k _ => sim_compat (sc_now k);
|}.

(** A request that is no resumption reaches the tracee of [Sim]. *)
Lemma script_ptrace_sim req pid a d k r d' s :
  sc_running k = false -> sim_ptrace c req pid a d (sc_now k) = (r, d', s) ->
  req <> PTRACE_SYSCALL -> req <> PTRACE_CONT ->
  script_ptrace c req pid a d k = (r, d', set_now k s).
Proof. intros Hr Hs H1 H2. unfold script_ptrace. rewrite Hr. destruct req; try done; by rewrite Hs. Qed.

Lemma set_now_id k : set_now k (sc_now k) = k.
Proof. by destruct k. Qed.

Lemma script_errno : PtraceErrno script.
Proof.
  split. intros req pid a d k r d' k' e H He. simpl in H. unfold script_ptrace in H.
  destruct (sc_running k); [simplify_eq/=; unfold ESRCH; split; (done || lia)|].
  destruct (sim_ptrace c req pid a d (sc_now k)) as [[r0 d0] s0] eqn:Hs.
  pose proof (@ptrace_error _ _ (sim_ptrace_errno c true) _ _ _ _ _ _ _ _ e Hs) as Hlaw.
  destruct req; repeat case_match; simplify_eq/=; eauto; unfold ESRCH; split; (done || lia).
Qed.

Lemma script_quiet : QuietReads script.
Proof.
  split.
  - intros req pid a d k r d' k' Hq H. cbn [sys_ptrace script_ops] in H. unfold script_ptrace in H.
    destruct (sc_running k); [simplify_eq; split; [done | by destruct d']|].
    destruct (sim_ptrace c req pid a d (sc_now k)) as [[r0 d0] s0] eqn:Hs.
    destruct (@ptrace_quiet _ _ (sim_quiet_reads c true) _ _ _ _ _ _ _ _ Hq Hs) as [-> Hsh].
    destruct req; try discriminate Hq; injection H as <- <- <-; by rewrite set_now_id.
  - intros pid a len k r bs k' Hl H. cbn [sys_process_vm_readv script_ops] in H.
    destruct (sim_readv c true pid a len (sc_now k)) as [[r0 b0] s0] eqn:Hs.
    destruct (@readv_quiet _ _ (sim_quiet_reads c true) _ _ _ _ _ _ _ Hl Hs) as [-> Hsh].
    injection H as <- <- <-. by rewrite set_now_id.
Qed.

Lemma script_regset : PtraceRegset script.
Proof.
  split. simpl. intros k pid base [Hr Hp] Hl.
  pose proof (@getregset_ok _ _ _ _ (sim_ptrace_regset c true) (sc_now k) pid base Hp Hl) as H.
  rewrite (script_ptrace_sim _ _ _ _ _ _ _ _ Hr H) by done. by rewrite set_now_id.
Qed.

Lemma script_x86_user : PINK_ARCH c = X86_64 -> sizeof_long c = 8 -> X86User c script.
Proof.
  intros Ha Hsz. pose proof (sim_x86_user c true Ha Hsz) as Hlaw. split; simpl.
  - intros k pid i v [Hr Hp] Hg Hu.
    destruct (@pokeuser_ok _ _ _ _ _ Hlaw (sc_now k) pid i v Hp Hg Hu) as (s & Hs & H1 & H2 & H3 & H4).
    exists (set_now k s). by rewrite (script_ptrace_sim _ _ _ _ _ _ _ _ Hr Hs) by done.
  - intros k pid base [Hr Hp] Hu Hb.
    pose proof (@getregs_ok _ _ _ _ _ Hlaw (sc_now k) pid base Hp Hu Hb) as H.
    rewrite (script_ptrace_sim _ _ _ _ _ _ _ _ Hr H) by done. by rewrite set_now_id.
  - intros k pid [Hr Hp]. apply (@prstatus_x86 _ _ _ _ _ Hlaw (sc_now k) pid Hp).
Qed.

Lemma script_process_vm : ProcessVm script.
Proof.
  pose proof (sim_process_vm c) as Hlaw. split; simpl.
  - intros k pid a len bs [Hr Hp] Hl Hm.
    pose proof (@readv_ok _ _ _ Hlaw (sc_now k) pid a len bs Hp Hl Hm) as H. simpl in H.
    by rewrite H, set_now_id.
  - intros k pid a len [Hr Hp] Hl Hm.
    pose proof (@readv_fault _ _ _ Hlaw (sc_now k) pid a len Hp Hl Hm) as H. simpl in H.
    by rewrite H, set_now_id.
  - intros k pid a bs [Hr Hp] Hm.
    destruct (@writev_ok _ _ _ Hlaw (sc_now k) pid a bs Hp Hm) as (s & H & H1 & H2). simpl in H.
    exists (set_now k s). by rewrite H.
Qed.

Lemma script_ptrace_mem : PtraceMem c script.
Proof.
  pose proof (sim_ptrace_mem c true) as Hlaw. split; simpl.
  - intros k. apply (@tmem_range _ _ _ _ Hlaw (sc_now k)).
  - intros k. apply (@tmem_page _ _ _ _ Hlaw (sc_now k)).
  - done.
  - intros k pid a bs d [Hr Hp] Hm.
    pose proof (@peekdata_ok _ _ _ _ Hlaw (sc_now k) pid a bs d Hp Hm) as H.
    rewrite (script_ptrace_sim _ _ _ _ _ _ _ _ Hr H) by done. by rewrite set_now_id.
  - intros k pid a d [Hr Hp] Hm.
    destruct (@peekdata_fault _ _ _ _ Hlaw (sc_now k) pid a d Hp Hm) as (e & He & H).
    exists e. rewrite (script_ptrace_sim _ _ _ _ _ _ _ _ Hr H) by done. by rewrite set_now_id.
  - intros k pid a v [Hr Hp] Hm.
    destruct (@pokedata_ok _ _ _ _ Hlaw (sc_now k) pid a v Hp Hm) as (s & H & H1 & H2).
    exists (set_now k s). by rewrite (script_ptrace_sim _ _ _ _ _ _ _ _ Hr H) by done.
  - intros k pid a v [Hr Hp] Hm.
    destruct (@pokedata_fault _ _ _ _ Hlaw (sc_now k) pid a v Hp Hm) as (e & He & H).
    exists e. rewrite (script_ptrace_sim _ _ _ _ _ _ _ _ Hr H) by done. by rewrite set_now_id.
Qed.

End Laws.

(** The kernel of the witnesses: 64-bit x86. *)
Module X86.
#[export] Instance ops : KernelOps script := script_ops x86_64_linux.
#[export] Instance view : TraceeView script := script_view x86_64_linux.
#[export] Instance procs : ProcOps script := script_procs.
#[export] Instance regs : RegView script := script_regs.
#[export] Instance errno_law : PtraceErrno script := script_errno x86_64_linux.
#[export] Instance quiet_law : QuietReads script := script_quiet x86_64_linux.
#[export] Instance regset_law : PtraceRegset script := script_regset x86_64_linux.
#[export] Instance user_law : X86User x86_64_linux script :=
  script_x86_user x86_64_linux eq_refl eq_refl.
#[export] Instance vm_law : ProcessVm script := script_process_vm x86_64_linux.
#[export] Instance mem_law : PtraceMem x86_64_linux script := script_ptrace_mem x86_64_linux.

Lemma attach : transfer x86_64_linux script.
Proof. apply by_attach; [reflexivity | apply _]. Qed.
End X86.
