(* ===== verification/Strace.v ===== *)
(** * examples/pink-simple-strace.c: a small system call tracer

    The whole program over the library of the other files.  Its calls to the
    kernel outside of the library are those of [ProcOps]. *)

From Stdlib Require Import ZArith Lia String.
From stdpp Require Import base list numbers strings.
From coqutil Require Import Byte Word.LittleEndianList.
From S2P Require Import Prelude Config Kernel Layout Trace Vm Regset Name Read Socket Tracer.
Local Open Scope string_scope.
Local Open Scope list_scope.
Local Open Scope Z_scope.
Local Open Scope c_scope.

(** [struct process]; [regs] is the object behind the pointer. *)
Record process : Type := Process {
  p_pid : Z;
  p_abi : Z;
  insyscall : bool;
  p_regs : pink_regset;
}.

(** The indeterminate contents of the locals that are not initialised. *)
Record indet : Type := Indet {
  i_buf : list byte;          (* buf of the decoders *)
  i_flags : Z;                (* flags of decode_open *)
  i_arg : list byte;          (* arg of pink_read_socket_argument *)
  i_cp : list byte;           (* cp of pink_read_string_array *)
  i_sockaddr : pink_sockaddr; (* sockaddr of decode_socketcall *)
  i_status : Z;               (* status of main *)
  i_abi : Z;                  (* proc.abi of main *)
}.

(** limits.h, fcntl.h and sys/socket.h *)
Definition PATH_MAX : Z := 4096.
Definition O_RDONLY : Z := 0.
Definition O_WRONLY : Z := 1.
Definition O_RDWR : Z := 2.
Definition O_CREAT : Z := 0x40.
Definition AF_UNIX : Z := 1.
Definition AF_INET : Z := 2.
Definition AF_INET6 : Z := 10.
Definition AF_NETLINK : Z := 16.

(** More iterations than a string of [PATH_MAX] bytes can need. *)
Definition nul_fuel : nat := S (Z.to_nat PATH_MAX).

Section Strace.
Context {K : Type} `{!KernelOps K} `{!ProcOps K} (c : config).
Context (PINK_HAVE_NETLINK : bool) (strerror : Z -> string) (j : indet).

#[local] Abbreviation M := (comp (tstate K)).
#[local] Abbreviation fail_with := (fail_with strerror).
#[local] Abbreviation perror := (perror strerror).

Definition local_buf : list byte := resize (Z.to_nat PATH_MAX) Byte.x00 (i_buf j).

Definition process_update (proc : process) : M process :=
  let! (r, regs) := lib (pink_regset_fill c (p_pid proc) (p_regs proc)) in
  let proc := Process (p_pid proc) (p_abi proc) (insyscall proc) regs in
  if r <? 0 then fail_with r "pink_regset_fill" ;; cret proc
  else
    let! (r, abi) := lib (pink_read_abi (p_pid proc) (p_regs proc)) in
    let proc := Process (p_pid proc) abi (insyscall proc) (p_regs proc) in
    if r <? 0 then fail_with r "pink_regset_fill" ;; cret proc else cret proc.

Definition print_ret (proc : process) : M unit :=
  let! (r, ret, error) := lib (pink_read_retval c (p_pid proc) (p_regs proc)) in
  if r <? 0 then fail_with r "pink_read_retval"
  else if negb (error =? 0) then
    let! m := checked (int_value (- error)) in
    printf ("= " +:+ fmt_d m +:+ " (" +:+ strerror m +:+ ")")
  else printf ("= " +:+ fmt_d ret).

(** The text that the function prints. *)
Definition open_flags_text (flags : Z) : string :=
  let aflags := Z.land flags 3 in
  let found := (aflags =? O_RDONLY) || (aflags =? O_WRONLY) || (aflags =? O_RDWR) in
  let creat := negb (Z.land flags O_CREAT =? 0) in
  (if aflags =? O_RDONLY then "O_RDONLY"
   else if aflags =? O_WRONLY then "O_WRONLY"
   else if aflags =? O_RDWR then "O_RDWR" else "")
  +:+ (if creat then (if found then "" else "0") +:+ " | O_CREAT" else "")
  +:+ (if negb (found || creat) then fmt_sharp_x (to_uint flags) else "").

Definition print_open_flags (flags : Z) : M unit := printf (open_flags_text flags).

(** The condition on the second argument is inverted: a call that succeeds, and
    returns 0, takes the error path, with the [r] of the string. *)
Definition decode_open (proc : process) : M unit :=
  let! (r, addr) := lib (pink_read_argument c (p_pid proc) (p_regs proc) 0) in
  if r <? 0 then fail_with r "pink_read_argument"
  else
    let! addr := checked addr in
    let! (n, buf) := lib (pink_read_vm_data_nul c nul_fuel (p_pid proc) (p_regs proc) addr
                            local_buf PATH_MAX) in
    let r := to_int n in
    if r <? 0 then fail_with r "pink_read_string"
    else
      let! (r1, flags) := lib (pink_read_argument c (p_pid proc) (p_regs proc) 1) in
      if r1 =? 0 then fail_with r "pink_read_argument"
      else
        let flags := default (i_flags j) flags in
        let! path := checked (cstring buf) in
        printf ("open(" +:+ quote +:+ path +:+ quote +:+ ", ") ;;
        print_open_flags flags ;;
        printf ")".

Fixpoint execve_loop (fuel : nat) (proc : process) (arg i : Z) (nil : bool) (sep : string)
    (buf : list byte) : M unit :=
  match fuel with
  | O => cnofuel
  | S fuel' =>
      let i := to_uint (i + 1) in
      let! (n, buf, stored) := lib (pink_read_string_array c nul_fuel (i_cp j) (p_pid proc)
                                      (p_regs proc) arg i buf PATH_MAX) in
      let nil := default nil stored in
      let r := to_int n in
      if r <? 0 then fail_with r "pink_read_string_array"
      else
        printf sep ;;
        printf quote ;;
        let! t := checked (cstring buf) in
        printf t ;;
        printf quote ;;
        if nil then printf "], envp[])"
        else execve_loop fuel' proc arg i nil ", " buf
  end.

(** The path is read at address 0, not at the first argument. *)
Definition decode_execve (fuel : nat) (proc : process) : M unit :=
  let! (r, arg) := lib (pink_read_argument c (p_pid proc) (p_regs proc) 0) in
  if r <? 0 then fail_with r "pink_read_argument"
  else
    let! _ := checked arg in
    let! (n, buf) := lib (pink_read_vm_data_nul c nul_fuel (p_pid proc) (p_regs proc) 0
                            local_buf PATH_MAX) in
    let r := to_int n in
    if r <? 0 then fail_with r "pink_read_string"
    else
      let! (r, arg) := lib (pink_read_argument c (p_pid proc) (p_regs proc) 1) in
      if r <? 0 then fail_with r "pink_read_argument"
      else
        let! arg := checked arg in
        let! path := checked (cstring buf) in
        printf ("execve(" +:+ quote +:+ path +:+ quote +:+ ", [") ;;
        execve_loop fuel proc arg 0 false "" buf.

(** The switch over the family; [u] is the union, whose last byte is zero. *)
Definition sockaddr_text (sa : pink_sockaddr) : option string :=
  let u := sa_u sa in
  if sa_family sa =? -1 then Some "NULL"
  else if sa_family sa =? AF_UNIX then
    let path := drop 2 u in
    if (nth_byte path 0 =? 0) && negb (nth_byte path 1 =? 0)
    then t ← cstring (drop 1 path);
         Some ("{sa_family=AF_UNIX, path=" +:+ quote +:+ "@" +:+ t +:+ quote +:+ "}")
    else t ← cstring path;
         Some ("{sa_family=AF_UNIX, path=" +:+ quote +:+ t +:+ quote +:+ "}")
  else if sa_family sa =? AF_INET then
    Some ("{sa_family=AF_INET, sin_port=htons(" +:+ fmt_d (be16 u 2) +:+
          "), sin_sockaddr=inet_addr(" +:+ quote +:+ inet_ntop4 (drop 4 u) +:+ quote +:+ ")}")
  else if sa_family sa =? AF_INET6 then
    Some ("{sa_family=AF_INET6, sin_port=htons(" +:+ fmt_d (be16 u 2) +:+
          "), sin6_sockaddr=inet_addr(" +:+ quote +:+ inet_ntop6 (drop 8 u) +:+ quote +:+ ")}")
  else if PINK_HAVE_NETLINK && (sa_family sa =? AF_NETLINK) then
    Some ("{sa_family=AF_NETLINK, nl_pid=" +:+ fmt_d (to_int (get_member c u 4 4)) +:+
          ", nl_groups=" +:+ fmt_08x (get_member c u 8 4) +:+ "}")
  else Some "{sa_family=???}".

(** [subname] is set only where the function returns at once: printing it for a
    bind or connect of socketcall(2) reads an indeterminate pointer.  A sub call
    without a name gives strcmp(3) a null pointer. *)
Definition decode_socketcall (proc : process) (scname : string) : M unit :=
  let! (r, subcall) :=
    if String.eqb scname "socketcall" then
      let! (r, v) := lib (pink_read_argument c (p_pid proc) (p_regs proc) 0) in
      cret (r, default (-1) v)
    else cret (0, -1) in
  if r <? 0 then fail_with r "pink_read_socket_subcall"
  else if negb ((subcall =? -1) || (subcall =? subcall_code PINK_SOCKET_SUBCALL_BIND)
                || (subcall =? subcall_code PINK_SOCKET_SUBCALL_CONNECT)) then
    match pink_name_socket_subcall (to_int subcall) with
    | None => cundef
    | Some subname =>
        if String.eqb subname "bind" || String.eqb subname "connect" then cret tt
        else printf (subname +:+ "()")
    end
  else
    let! (r, fd, sockaddr) := lib (pink_read_socket_address c (i_arg j) (p_pid proc)
                                     (p_regs proc) false 1 true (i_sockaddr j)) in
    if r <? 0 then fail_with r "pink_read_socket_address"
    else
      let! fd := checked fd in
      let! name := if 0 <? subcall then cundef else cret scname in
      printf (name +:+ "(" +:+ fmt_d fd +:+ ", ") ;;
      let! t := checked (sockaddr_text sockaddr) in
      printf t ;;
      printf (", " +:+ fmt_d (to_uint (sa_length sockaddr)) +:+ ")").

Definition handle_syscall (fuel : nat) (proc : process) : M process :=
  if insyscall proc then
    let proc := Process (p_pid proc) (p_abi proc) false (p_regs proc) in
    printf " " ;;
    print_ret proc ;;
    printf nl ;;
    cret proc
  else
    let proc := Process (p_pid proc) (p_abi proc) true (p_regs proc) in
    let! (r, scno) := lib (pink_read_syscall c (p_pid proc) (p_regs proc)) in
    if r <? 0 then fail_with r "pink_read_syscall" ;; cret proc
    else
      let! scno := checked scno in
      (match pink_name_syscall c scno (p_abi proc) with
       | None => printf (fmt_d scno +:+ "()")
       | Some scname =>
           if String.eqb scname "open" then decode_open proc
           else if String.eqb scname "execve" then decode_execve fuel proc
           else if String.eqb scname "socketcall" || String.eqb scname "bind"
                   || String.eqb scname "connect"
           then decode_socketcall proc scname
           else printf (scname +:+ "()")
       end) ;;
      cret proc.

(** ** main *)

(** One iteration of the loop: [inl] is what main returns, [inr] the variables of
    the next iteration, in which [sig] is 0. *)
Definition trace_iteration (fuel : nat) (proc : process) (sig status : Z)
  : M (Z + process * Z) :=
  let! r := lib (pink_trace_syscall (p_pid proc) sig) in
  if r <? 0 then
    perror "pink_trace_syscall" ;; cret (inl (if r =? - ESRCH then 0 else 1))
  else
    let! (pid, st) := lib (waitpid (p_pid proc)) in
    let proc := Process pid (p_abi proc) (insyscall proc) (p_regs proc) in
    if pid <? 0 then
      perror "waitpid" ;;
      let! e := lib get_errno in
      cret (inl (if e =? ECHILD then 0 else 1))
    else
      let status := default status st in
      if WIFEXITED status then
        printf ("Child " +:+ fmt_d (p_pid proc) +:+ " exited normally with return code "
                +:+ fmt_d (WEXITSTATUS status) +:+ nl) ;;
        cret (inl (WEXITSTATUS status))
      else if WIFSIGNALED status then
        printf ("Child " +:+ fmt_d (p_pid proc) +:+ " exited with signal "
                +:+ fmt_d (WTERMSIG status) +:+ nl) ;;
        cret (inl (128 + WTERMSIG status))
      else
        let event := pink_event_decide status in
        if event =? 0 then
          let! proc := process_update proc in
          let! proc := handle_syscall fuel proc in
          cret (inr (proc, status))
        else if event =? event_code PINK_EVENT_EXEC then
          let! proc := process_update proc in
          cret (inr (proc, status))
        else cret (inr (proc, status)).

Fixpoint trace_loop (fuel : nat) (proc : process) (sig status : Z) : M Z :=
  match fuel with
  | O => cnofuel
  | S fuel' =>
      let! r := trace_iteration fuel' proc sig status in
      match r with
      | inl code => cret code
      | inr (proc, status) => trace_loop fuel' proc 0 status
      end
  end.

(** [mem] is what malloc(3) gives to [pink_regset_alloc]. *)
Definition main (fuel : nat) (mem : option pink_regset) (argv : list string) : M outcome :=
  if (length argv <? 2)%nat then
    let! argv0 := checked (head argv) in
    eprintf ("Usage: " +:+ argv0 +:+ " program [argument...]" +:+ nl) ;;
    cret (Returned EXIT_FAILURE)
  else
    let! (r, regs) := lib (pink_regset_alloc c mem) in
    if r <? 0 then fail_with r "pink_regset_alloc" ;; cret (Returned EXIT_FAILURE)
    else
      let! regs := checked regs in
      let! pid := lib fork in
      if pid <? 0 then perror "fork" ;; cret (Returned EXIT_FAILURE)
      else if pid =? 0 then
        let! r := lib pink_trace_me in
        if r <? 0 then fail_with r "pink_trace_me" ;; cret (Exited EXIT_FAILURE)
        else
          let! self := lib getpid in
          let! _ := lib (signal_call (sys_kill self SIGSTOP)) in
          let! replaced := lib (execvp (tail argv)) in
          if replaced then cret (Execed (tail argv))
          else perror "execvp" ;; cret (Exited (-1))
      else
        let! (_, st) := lib (waitpid pid) in
        let status := default (i_status j) st in
        if negb (pink_event_decide status =? 0) then cabort
        else
          let! r := lib (pink_trace_setup c pid
                           (Z.lor PINK_TRACE_OPTION_SYSGOOD PINK_TRACE_OPTION_EXEC)) in
          if r <? 0 then
            fail_with r "pink_trace_setup" ;;
            let! _ := lib (pink_trace_kill c pid (-1) SIGKILL) in
            cret (Returned EXIT_FAILURE)
          else
            let! proc := process_update (Process pid (i_abi j) false regs) in
            printf ("Child " +:+ fmt_d (p_pid proc) +:+ " runs in ABI:" +:+ fmt_d (p_abi proc)
                    +:+ nl) ;;
            let! code := trace_loop fuel (Process (p_pid proc) (p_abi proc) false (p_regs proc))
                           0 status in
            cret (Returned code).

End Strace.
