(* ===== verification/StraceStop.v ===== *)
(** * What the tracer does at one stop of its child

    The child is a 64-bit program whose first page is not mapped, and which does not
    call open(2) with a path at the very end of the addresses that fit a [long].  At
    each of its system call stops the handler returns, flips [insyscall] and prints the text
    given here, whatever the registers and the memory of the child hold. *)

From Stdlib Require Import ZArith Lia String.
From stdpp Require Import base list numbers strings.
From coqutil Require Import Byte Word.LittleEndianList.
From S2P Require Import Prelude Config Kernel Layout Sim Trace Vm VmRead VmCross Regset TablesX86 Name Read ReadVm Write Registers Socket Observe Tracer Strace.
Local Open Scope string_scope.
Local Open Scope list_scope.
Local Open Scope Z_scope.
Local Open Scope c_scope.

(** ** Addresses that were read *)

Lemma sockaddr_text_defined c netlink sa :
  sockaddr_read sa -> is_Some (sockaddr_text c netlink sa).
Proof.
  intros Hs. unfold sockaddr_text. destruct (Z.eqb_spec (sa_family sa) (-1)); [by eexists|].
  destruct Hs as [|[_ Hz]]; [done|].
  destruct (sa_family sa =? AF_UNIX).
  - destruct (cstring_lookup (drop 2 (sa_u sa)) 125) as [t1 Ht1]; [by rewrite lookup_drop|].
    destruct (cstring_lookup (drop 1 (drop 2 (sa_u sa))) 124) as [t2 Ht2];
      [by rewrite !lookup_drop|].
    rewrite Ht1, Ht2. case_match; by eexists.
  - repeat case_match; by eexists.
Qed.

(** ** Names *)

Lemma no_socketcall_x86 c scno abi s :
  PINK_ARCH c = X86_64 -> abi = 0 \/ abi = 2 ->
  pink_name_syscall c scno abi = Some s -> s <> "socketcall".
Proof.
  intros Ha Hab H ->. unfold pink_name_syscall, abi_table, sysent_vec, table_name in H.
  rewrite Ha in H. unfold PINK_ABIS_SUPPORTED in H. rewrite Ha in H.
  assert (Hno : forall ent, ent = x86_64_syscallent \/ ent = x32_syscallent ->
            forall i, ent !! i <> Some (Some "socketcall")).
  { assert (Hf : forall l, forallb (fun e => negb (bool_decide (e = Some "socketcall"))) l = true ->
              forall i, l !! i <> Some (Some "socketcall")).
    { intros l Hl i Hi. rewrite forallb_forall in Hl. apply list_elem_of_lookup_2 in Hi.
      apply list_elem_of_In in Hi. specialize (Hl _ Hi). by rewrite bool_decide_true in Hl. }
    intros ent [-> | ->]; apply Hf; vm_compute; reflexivity. }
  destruct Hab as [-> | ->]; simpl in H; case_match; try done.
  - destruct (x86_64_syscallent !! _) as [[s|]|] eqn:E; simplify_eq/=.
    by eapply (Hno x86_64_syscallent); [left | exact E].
  - destruct (x32_syscallent !! _) as [[s|]|] eqn:E; simplify_eq/=.
    by eapply (Hno x32_syscallent); [right | exact E].
Qed.

(** ** A child at a stop *)

Section Stop.
Context {K : Type} `{!KernelOps K} `{!TraceeView K} `{!RegView K} (c : config) `{!X86Build c}.
Context `{!PtraceErrno K} `{!QuietReads K} `{!PtraceRegset K} `{!X86User c K}.
Context (Htransfer : transfer c K).
Context (netlink : bool) (strerror : Z -> string) (j : indet).

(** If the task is in open(2), the path is not so close to the largest [long] that
    the reader of strings overflows. *)
Definition open_path_ok (u : list byte) : Prop :=
  pink_name_syscall c (task_scno c u) (x86_task_abi c false u) = Some "open" ->
  string_fits c (x86_task_abi c false u) (task_arg c false u 0) PATH_MAX.

(** A stopped 64-bit program whose first page is not mapped, with such a path. *)
Record native_stop (k : K) (pid : Z) : Prop := {
  native_stopped : stopped k pid;
  native_width : compat_task k pid = false;
  native_user : length (user_area k pid) = sizeof_regs c;
  native_null : forall a, 0 <= a < 4096 -> tmem k pid a = None;
  native_path : open_path_ok (user_area k pid);
}.

Lemma to_ulong_zero : to_ulong c 0 = 0.
Proof. apply to_ulong_small. rewrite (build_bits c). lia. Qed.

Lemma setup_addr_zero abi : 0 <= abi < 3 -> setup_addr c abi 0 = Some 0.
Proof.
  intros Ha. unfold setup_addr. case_match; [|done].
  destruct (pink_abi_wordsize_defined c abi) as [-> | ->]; [by rewrite (build_abis c)|..];
    simpl; case_match; rewrite ?to_ulong_zero; try done;
    by rewrite Z.land_0_l, (to_long_small c) by (simpl; lia).
Qed.

(** A string at address 0 is not readable. *)
Lemma obs_null_string fuel k pid r dest len :
  native_stop k pid -> 0 <= rs_abi r < 3 -> 0 < len < 2 ^ 31 -> (Z.to_nat len <= length dest)%nat ->
  (0 < fuel)%nat ->
  observes k (pink_read_vm_data_nul c fuel pid r 0 dest len) (fun '(n, _) => n = -1).
Proof.
  intros Hn Ha Hl Hd Hf e. pose proof (setup_addr_zero _ Ha) as Hz.
  pose proof to_ulong_zero as H0. exists (-1, dest), EFAULT. split; [|done].
  assert (Hfit : string_fits c (rs_abi r) 0 len) by (apply (string_fits_low c); lia).
  destruct Htransfer as [Hh Hvm|Hno Herr Hmem].
  - unfold pink_read_vm_data_nul, pink_vm_cread_nul.
    rewrite (cbind_run _ _ _ tt (CState k 0)) by done.
    destruct (cread_chunk_range c 0 len (Hfit 0 Hz) Hl) as (m & Hc & Hc1 & Hc2).
    assert (Hr : sys_process_vm_readv pid 0 m k
                 = (SysRet (-1) (Some EFAULT), [], k)).
    { apply readv_fault; [apply Hn | lia|]. apply (read_mem_None _ _ _ 0); [lia|].
      apply Hn. simpl. lia. }
    destruct fuel as [|fuel]; [lia|].
    assert (Hloop : cread_nul_loop c (S fuel) pid 0 0 dest 0 0 len (CState k 0)
                    = Ret (-1, dest) (CState k EFAULT)).
    { cbn [cread_nul_loop]. rewrite (proj2 (Z.eqb_neq len 0)) by lia.
      rewrite (cbind_checked _ _ _ _ Hc). rewrite (to_ulong_small c m) by (rewrite (build_bits c); lia).
      unfold pink_process_vm_readv. rewrite Hh.
      rewrite (cbind_run _ _ _ _ _ (process_vm_readv_run _ 0 _ _ _ _ _ _ _ Hr)).
      erewrite cbind_checked by (apply memcpy_to_ok; simpl; lia). by rewrite splice_nil. }
    rewrite (cbind_run _ _ _ (-1, dest) (CState k EFAULT)); [done|].
    rewrite (cbind_checked _ _ _ _ Hz), H0. exact Hloop.
  - assert (Hp : plain_addr c (rs_abi r) 0) by (by exists 0).
    destruct (read_nul_words c k e fuel pid r 0 dest len Hno Hf Hp Hl Hfit) as (e1 & ->).
    unfold pink_vm_lread_nul. cbn [lread_nul_loop]. rewrite (proj2 (Z.eqb_neq len 0)) by lia.
    assert (Hal : to_ulong c (align_addr c 0) = 0).
    { rewrite to_ulong_align, addr_residue_mod, H0. done. }
    assert (Hw : pink_read_word_data c pid (align_addr c 0) (CState k e1)
                 = Ret (- EFAULT, None) (CState k EFAULT)).
    { refine (read_word_fault c k pid e1 _ (native_stopped _ _ Hn) _). rewrite Hal.
      apply (read_mem_None _ _ _ 0); [rewrite (build_sizeof c); lia|]. apply Hn. lia. }
    by rewrite (cbind_run _ _ _ _ _ Hw).
Qed.

(** ** The register functions *)

Lemma process_update_obs k proc :
  native_stop k (p_pid proc) -> length (rs_regs (p_regs proc)) = sizeof_regs c ->
  tobserves k (process_update c strerror proc)
    (fun proc' t => t = "" /\ exists r,
       proc' = Process (p_pid proc) (rs_abi r) (insyscall proc) r /\
       x86_filled c false (user_area k (p_pid proc)) r).
Proof.
  intros Hn Hr. unfold process_update.
  eapply tobs_quiet; [apply (tobs_lib k _ (fun '(rc, r) =>
    rc = 0 /\ x86_filled c false (user_area k (p_pid proc)) r))|].
  - intros e. destruct (regset_fill_x86 c k e (p_pid proc) (p_regs proc)) as (r & Hrun & Hf);
      [apply build_arch | apply build_endian | apply build_getregset | apply Hn | done | apply Hn |].
    rewrite (native_width _ _ Hn) in Hf. by exists (0, r), 0.
  - intros [rc r] [-> Hf]. cbn [Z.ltb Z.compare].
    eapply (tobs_quiet _ _ _ (eq (0, rs_abi r))); [apply tobs_lib, obs_ret; done|].
    intros [rc abi] [= <- <-]. apply tobs_ret. split; [done|]. by exists r.
Qed.

(** The text of a return value: strerror(3) is given the negated error. *)
Definition ret_text (abi : Z) (u : list byte) : string :=
  let v := task_rax c false u in
  if is_error abi v then
    "= " +:+ fmt_d (- to_int (- v)) +:+ " (" +:+ strerror (- to_int (- v)) +:+ ")"
  else "= " +:+ fmt_d v.

Lemma print_ret_obs (k : K) proc u :
  x86_filled c false u (p_regs proc) ->
  tobserves k (print_ret c strerror proc) (fun _ t => t = ret_text (rs_abi (p_regs proc)) u).
Proof.
  intros Hf. unfold print_ret, ret_text. set (v := task_rax c false u).
  eapply (tobs_quiet _ _ _ (eq (0, if is_error (rs_abi (p_regs proc)) v then -1 else v,
    if is_error (rs_abi (p_regs proc)) v then to_int (- v) else 0))).
  { apply tobs_lib. intros e.
    pose proof (read_retval_filled c (p_pid proc) false u (p_regs proc) (CState k e) Hf) as Hr.
    fold v in Hr. destruct (is_error _ v); do 2 eexists; (split; [exact Hr | done]). }
  intros [[rc ret] err] [= <- <- <-]. cbn [Z.ltb Z.compare].
  destruct (is_error _ v) eqn:He; [|by apply tobs_printf].
  apply is_error_iff in He as (n & Hn & Hv). rewrite (error_number _ _ _ Hn Hv).
  rewrite errors_value in Hn. rewrite (proj2 (Z.eqb_neq n 0)) by lia. cbn [negb].
  eapply tobs_checked; [|by apply tobs_printf]. unfold int_value.
  by rewrite (proj2 (Z.leb_le _ _)), (proj2 (Z.ltb_lt _ _)) by (simpl; lia).
Qed.

Lemma native_abi u r : x86_filled c false u r -> rs_abi r = 0 \/ rs_abi r = 2.
Proof. intros (-> & _). rewrite (task_abi_cases c). destruct (Z.testbit _ 30); auto. Qed.

Lemma native_valid_abi u r : x86_filled c false u r -> valid_abi c (rs_abi r).
Proof. intros H. unfold valid_abi. rewrite (build_abis c). destruct (native_abi _ _ H); lia. Qed.

Lemma tobs_argument (k : K) proc u i :
  x86_filled c false u (p_regs proc) -> 0 <= i < 6 ->
  tobserves k (lib (pink_read_argument c (p_pid proc) (p_regs proc) i))
    (fun a t => t = "" /\ (0, Some (task_arg c false u i)) = a).
Proof.
  intros Hf Hi. apply tobs_lib. intros e. do 2 eexists.
  by rewrite (read_argument_filled _ _ _ _ _ _ _ Hf Hi).
Qed.

(** ** The decoders *)

Lemma length_local_buf : length (local_buf j) = Z.to_nat PATH_MAX.
Proof. apply length_resize. Qed.

(** Nothing is printed for open(2): the decoder takes its error path. *)
Lemma decode_open_obs (k : K) proc u :
  x86_filled c false u (p_regs proc) ->
  string_fits c (rs_abi (p_regs proc)) (task_arg c false u 0) PATH_MAX ->
  tobserves k (decode_open c strerror j proc) (fun _ t => t = "").
Proof.
  intros Hf Hfit. unfold decode_open. eapply tobs_quiet; [apply (tobs_argument _ _ _ _ Hf); lia|].
  intros [rc addr] [= <- <-]. cbn [Z.ltb Z.compare]. eapply tobs_checked; [done|].
  eapply tobs_quiet; [apply tobs_lib, obs_read_nul; [apply (native_valid_abi _ _ Hf)
    | unfold nul_fuel, PATH_MAX; lia | unfold PATH_MAX; lia | rewrite length_local_buf; lia | by right]|].
  intros [n buf] _. cbn beta iota. destruct (to_int n <? 0); [apply tobs_fail_with|].
  eapply tobs_quiet; [apply (tobs_argument _ _ _ _ Hf); lia|].
  intros [rc flags] [= <- <-]. cbn [Z.eqb]. apply tobs_fail_with.
Qed.

(** Nothing is printed for execve(2): its path is looked for at address 0. *)
Lemma decode_execve_obs fuel (k : K) proc u :
  native_stop k (p_pid proc) -> x86_filled c false u (p_regs proc) ->
  tobserves k (decode_execve c strerror j fuel proc) (fun _ t => t = "").
Proof.
  intros Hn Hf. unfold decode_execve. eapply tobs_quiet; [apply (tobs_argument _ _ _ _ Hf); lia|].
  intros [rc arg] [= <- <-]. cbn [Z.ltb Z.compare]. eapply tobs_checked; [done|].
  eapply tobs_quiet; [apply tobs_lib, obs_null_string; [exact Hn
    | destruct (native_abi _ _ Hf); lia | unfold PATH_MAX; lia
    | rewrite length_local_buf; lia | unfold nul_fuel; lia]|].
  intros [n buf] ->. apply tobs_fail_with.
Qed.

(** The arguments of a system call as [unsigned long]. *)
Definition uarg (u : list byte) (i : Z) : Z := to_ulong c (task_arg c false u i).

(** What is known of the address that is read: its text, when the registers are
    those of an x86-64 call and the address does not run over the end of the
    address space. *)
Definition address_known (u : list byte) : bool :=
  negb (Z.testbit (x86_64_r c u ORIG_RAX) 30)
  && ((uarg u 1 =? 0) || (uarg u 1 + clamp_len (uarg u 2) <=? 2 ^ 64)).

Definition address_read (k : K) (pid : Z) (u : list byte) : Z * option Z * pink_sockaddr -> Prop :=
  fun '(rc, fd, sa) => fd = Some (to_int (uarg u 0)) /\
  if uarg u 1 =? 0 then rc = 0 /\ sa_family sa = -1 /\ sa_length sa = 0
  else match read_mem (tmem k pid) (uarg u 1) (Z.to_nat (clamp_len (uarg u 2))) with
       | Some bs => rc = 0 /\
           sa = Sockaddr (get_member c (sockaddr_bytes bs) 0 2) (clamp_len (uarg u 2)) (sockaddr_bytes bs)
       | None => rc < 0
       end.

Lemma obs_address_read k pid u r sa :
  native_stop k pid -> x86_filled c false u r -> address_known u = true ->
  observes k (pink_read_socket_address c (i_arg j) pid r false 1 true sa) (address_read k pid u).
Proof.
  intros Hn Hf Hk e. unfold address_known in Hk. apply andb_prop in Hk as [Hx Hb].
  assert (Ha : rs_abi r = 0).
  { destruct Hf as (-> & _). rewrite (task_abi_cases c). by destruct (Z.testbit _ 30). }
  assert (Hw : pink_abi_wordsize c (rs_abi r) = Some 8).
  { rewrite Ha. unfold pink_abi_wordsize, ABI0_WORDSIZE. rewrite (build_abis c), build_arch. done. }
  assert (Hp : forall a, plain_addr c (rs_abi r) a).
  { intros a. exists a. split; [|done]. unfold setup_addr. rewrite Hw, (build_sizeof c).
    by case_match. }
  assert (Hok : forall i, 0 <= i < 6 -> socket_arg_ok c r (task_arg c false u) false 8 i)
    by (intros i Hi; exact Hi).
  destruct (@socket_address_run K _ _ c pid r (task_arg c false u)
    (filled_reads_args c pid false u r Hf) (transfer_reads c Htransfer) 8 Hw
    ltac:(by right) ltac:(right; symmetry; apply (build_sizeof c)) (i_arg j) false 1 true sa k e
    (uarg u 0) (uarg u 1) (uarg u 2)) as (e' & un & _ & Hrun);
    [apply Hn | lia | apply Hok; lia | apply Hok; lia | apply Hok; lia | done | done | done | |
     apply to_ulong_range |].
  - intros Hpos. rewrite (proj2 (Z.eqb_neq (uarg u 1) 0)) in Hb by lia. apply Z.leb_le in Hb.
    split; [by rewrite (build_bits c) | apply Hp].
  - rewrite Hrun. unfold address_read. destruct (uarg u 1 =? 0); [by do 2 eexists|].
    destruct (read_mem _ _ _); by do 2 eexists.
Qed.

(** The text for bind(2) and connect(2). *)
Definition address_text (k : K) (pid : Z) (name : string) (u : list byte) : option string :=
  let head := name +:+ "(" +:+ fmt_d (to_int (uarg u 0)) +:+ ", " in
  if uarg u 1 =? 0 then Some (head +:+ "NULL" +:+ ", 0)")
  else
    let len := clamp_len (uarg u 2) in
    match read_mem (tmem k pid) (uarg u 1) (Z.to_nat len) with
    | None => Some ""
    | Some bs =>
        t ← sockaddr_text c netlink
              (Sockaddr (get_member c (sockaddr_bytes bs) 0 2) len (sockaddr_bytes bs));
        Some (head +:+ t +:+ ", " +:+ fmt_d len +:+ ")")
    end.

Lemma decode_socketcall_obs k proc u name :
  native_stop k (p_pid proc) -> x86_filled c false u (p_regs proc) -> name <> "socketcall" ->
  tobserves k (decode_socketcall c netlink strerror j proc name)
    (fun _ t => address_known u = true -> address_text k (p_pid proc) name u = Some t).
Proof.
  intros Hn Hf Hname. unfold decode_socketcall. rewrite (proj2 (String.eqb_neq _ _) Hname).
  rewrite cbind_cret_l. cbn [Z.ltb Z.compare Z.eqb orb negb].
  eapply (tobs_quiet _ _ _ (fun a => address_safe true a /\ (address_known u = true ->
            address_read k (p_pid proc) u a))).
  { apply tobs_lib. pose proof (native_valid_abi _ _ Hf) as Hv.
    destruct (pink_abi_wordsize_defined c (rs_abi (p_regs proc)) Hv) as [Hw|Hw];
    (apply obs_and; [by eapply obs_socket_address|]); destruct (address_known u) eqn:Hk;
      try (eapply obs_mono; [by eapply obs_address_read | done]);
      (eapply obs_mono; [by eapply obs_socket_address | done]). }
  intros [[rc fd] sa] [HQ Hread]. unfold address_text.
  destruct (Z.ltb_spec rc 0) as [Hneg|Hpos].
  - eapply tobs_mono; [apply tobs_fail_with|]. intros _ t -> Hk. specialize (Hread Hk).
    unfold address_read in Hread. destruct (uarg u 1 =? 0); [lia|].
    destruct (read_mem _ _ _); [lia | done].
  - destruct HQ as [|(-> & Hsa & Hfd)]; [lia|]. destruct (Hfd eq_refl) as [fdv ->].
    eapply tobs_checked; [done|]. rewrite cbind_cret_l.
    destruct (sockaddr_text_defined c netlink sa Hsa) as [t Ht].
    apply tobs_print. eapply tobs_checked; [exact Ht|]. apply tobs_print, tobs_printf. intros Hk. specialize (Hread Hk). unfold address_read in Hread.
    destruct Hread as [[= ->] Hread]. destruct (uarg u 1 =? 0).
    + destruct Hread as (_ & Hfam & Hlen). unfold sockaddr_text in Ht. rewrite Hfam in Ht.
      simpl in Ht. simplify_eq. rewrite Hlen. by rewrite !append_assoc.
    + destruct (read_mem _ _ _) as [bs|]; [|lia]. destruct Hread as (_ & ->). rewrite Ht. simpl.
      rewrite (wrapu_small 32) by (pose proof (clamp_len_range (uarg u 2)); lia).
      by rewrite !append_assoc.
Qed.

(** ** The handler *)

(** The text at the entry of a system call; [None] where it is not determined by
    what [address_known] asks for. *)
Definition call_text (k : K) (pid : Z) : option string :=
  let u := user_area k pid in
  match pink_name_syscall c (task_scno c u) (x86_task_abi c false u) with
  | None => Some (fmt_d (task_scno c u) +:+ "()")
  | Some s =>
      if String.eqb s "open" || String.eqb s "execve" then Some ""
      else if String.eqb s "bind" || String.eqb s "connect"
      then (if address_known u then address_text k pid s u else None)
      else Some (s +:+ "()")
  end.

(** The text of a system call stop, by what the stop is taken for. *)
Definition stop_text (inside : bool) (k : K) (pid : Z) : option string :=
  if inside
  then let u := user_area k pid in Some (" " +:+ ret_text (x86_task_abi c false u) u +:+ nl)
  else call_text k pid.

(** The text [t] is the one specified, where one is specified. *)
Definition prints_stop (inside : bool) (k : K) (pid : Z) (t : string) : Prop :=
  forall t', stop_text inside k pid = Some t' -> t = t'.

Definition flip (proc : process) : process :=
  Process (p_pid proc) (p_abi proc) (negb (insyscall proc)) (p_regs proc).

Lemma call_obs fuel k proc :
  native_stop k (p_pid proc) -> x86_filled c false (user_area k (p_pid proc)) (p_regs proc) ->
  p_abi proc = rs_abi (p_regs proc) ->
  tobserves k
    (match pink_name_syscall c (task_scno c (user_area k (p_pid proc))) (p_abi proc) with
     | None => printf (fmt_d (task_scno c (user_area k (p_pid proc))) +:+ "()")
     | Some scname =>
         if String.eqb scname "open" then decode_open c strerror j proc
         else if String.eqb scname "execve" then decode_execve c strerror j fuel proc
         else if String.eqb scname "socketcall" || String.eqb scname "bind"
                 || String.eqb scname "connect"
         then decode_socketcall c netlink strerror j proc scname
         else printf (scname +:+ "()")
     end) (fun _ t => prints_stop false k (p_pid proc) t).
Proof.
  intros Hn Hf Habi. unfold prints_stop, stop_text, call_text.
  set (u := user_area k (p_pid proc)) in *.
  assert (Hab : p_abi proc = x86_task_abi c false u) by (rewrite Habi; apply Hf).
  rewrite <- Hab. destruct (pink_name_syscall c (task_scno c u) (p_abi proc)) as [s|] eqn:Hs;
    [|apply tobs_printf; congruence].
  assert (Hns : s <> "socketcall").
  { eapply no_socketcall_x86; [apply build_arch | | exact Hs]. rewrite Habi.
    apply (native_abi _ _ Hf). }
  rewrite (proj2 (String.eqb_neq _ _) Hns).
  destruct (String.eqb_spec s "open") as [->|]; [|destruct (String.eqb s "execve")]; cbn [orb].
  - eapply tobs_mono; [apply (decode_open_obs _ _ _ Hf)|congruence].
    rewrite <- Habi, Hab. apply (native_path _ _ Hn). fold u. by rewrite <- Hab.
  - eapply tobs_mono; [apply (decode_execve_obs _ _ _ _ Hn Hf)|]. congruence.
  - destruct (String.eqb s "bind" || String.eqb s "connect"); [|apply tobs_printf; congruence].
    eapply tobs_mono; [by apply decode_socketcall_obs|]. cbn beta. intros _ t Ht t'.
    destruct (address_known u); [|done]. rewrite Ht by done. congruence.
Qed.

Lemma handle_syscall_obs fuel k proc :
  native_stop k (p_pid proc) -> x86_filled c false (user_area k (p_pid proc)) (p_regs proc) ->
  p_abi proc = rs_abi (p_regs proc) ->
  tobserves k (handle_syscall c netlink strerror j fuel proc)
    (fun proc' t => proc' = flip proc /\ prints_stop (insyscall proc) k (p_pid proc) t).
Proof.
  intros Hn Hf Habi. unfold handle_syscall, flip. destruct (insyscall proc) eqn:Hin; cbn [negb].
  - apply tobs_print. eapply tobs_bind; [apply (print_ret_obs _ (Process _ _ _ (p_regs proc)) _ Hf)|].
    intros _ t ->. apply tobs_print, tobs_ret. split; [done|]. unfold prints_stop, stop_text.
    intros t' [= <-]. rewrite append_nil_r. by destruct Hf as (<- & _).
  - eapply (tobs_quiet _ _ _ (eq (0, Some (task_scno c (user_area k (p_pid proc)))))).
    { apply tobs_lib. intros e. do 2 eexists. by rewrite (read_syscall_native _ _ _ _ _ Hf). }
    intros [rc scno] [= <- <-]. cbn [Z.ltb Z.compare]. eapply tobs_checked; [done|].
    eapply tobs_bind; [exact (call_obs fuel k (Process (p_pid proc) (p_abi proc) true (p_regs proc))
      Hn Hf Habi)|].
    intros ? t Ht. apply tobs_ret. split; [done|]. rewrite append_nil_r. exact Ht.
Qed.

End Stop.
