(* ===== verification/StraceRun.v ===== *)
(** * The tracing loop and main of examples/pink-simple-strace.c

    The life of the child is the sequence of its stops as the kernel reports them;
    the specification of a tracer reads this sequence as alternating entries and
    returns of system calls.  The loop implements the specification, ends when the
    child ends, and gives its exit status. *)

From Stdlib Require Import ZArith Lia String.
From stdpp Require Import base list numbers gmap strings.
From coqutil Require Import Byte Word.LittleEndianList.
From S2P Require Import Prelude Config Kernel Layout Sim Trace Vm VmRead VmCross Regset TablesX86 Name Read ReadVm Write Registers Socket Observe Tracer Script Strace StraceStop.
Local Open Scope string_scope.
Local Open Scope list_scope.
Local Open Scope Z_scope.
Local Open Scope c_scope.

(** The return value of main for the last status of the child. *)
Definition exit_code (fin : Z) : Z :=
  if WIFEXITED fin then WEXITSTATUS fin else 128 + WTERMSIG fin.

Definition end_text (pid fin : Z) : string :=
  if WIFEXITED fin
  then "Child " +:+ fmt_d pid +:+ " exited normally with return code " +:+ fmt_d (WEXITSTATUS fin) +:+ nl
  else "Child " +:+ fmt_d pid +:+ " exited with signal " +:+ fmt_d (WTERMSIG fin) +:+ nl.

Section Run.
Context {K : Type} `{!KernelOps K} `{!ProcOps K} `{!TraceeView K} `{!RegView K}.
Context (c : config) `{!X86Build c}.
Context `{!PtraceErrno K} `{!QuietReads K} `{!PtraceRegset K} `{!X86User c K}.
Context (Htransfer : transfer c K).
Context (netlink : bool) (strerror : Z -> string) (j : indet) (pid : Z) (Hpid : 0 < pid).

(** ** The child *)

(** The tracee is resumed until its next system call, and reports a status. *)
Definition next_status (k : K) (st : Z) (k' : K) : Prop :=
  exists r d k1 r2,
    sys_ptrace PTRACE_SYSCALL pid 0 (DVal 0) k = (r, d, k1) /\ sr_errno r = None /\
    sys_waitpid pid k1 = (r2, Some st, k') /\ sr_val r2 = pid.

(** The stops of the child, each with the kernel at that stop, and its last
    status. *)
Inductive life : K -> list (Z * K) -> Z -> Prop :=
| life_end k st k' :
    next_status k st k' -> WIFEXITED st || WIFSIGNALED st = true -> life k [] st
| life_stop k st k' stops fin :
    next_status k st k' -> WIFSTOPPED st = true ->
    (pink_event_decide st = 0 \/ pink_event_decide st = event_code PINK_EVENT_EXEC ->
     native_stop c k' pid) ->
    life k' stops fin -> life k ((st, k') :: stops) fin.

(** ** The specification *)

(** Stops without an event are system call stops, and alternate between entry and
    return; the other stops print nothing. *)
Inductive prints : bool -> list (Z * K) -> string -> Prop :=
| prints_end inside : prints inside [] ""
| prints_syscall inside st k stops t rest :
    pink_event_decide st = 0 -> prints_stop c netlink strerror inside k pid t ->
    prints (negb inside) stops rest -> prints inside ((st, k) :: stops) (t +:+ rest)
| prints_event inside st k stops rest :
    pink_event_decide st <> 0 -> prints inside stops rest ->
    prints inside ((st, k) :: stops) rest.

(** ** One iteration *)

#[local] Abbreviation iteration := (trace_iteration c netlink strerror j).
#[local] Abbreviation loop := (trace_loop c netlink strerror j).

(** Up to the status: the two system calls. *)
Lemma iteration_status fuel proc status k e o r st k' :
  next_status k st k' -> p_pid proc = pid ->
  exists e',
  iteration fuel proc 0 status (TState (CState k e) o r) =
  (let proc := Process pid (p_abi proc) (insyscall proc) (p_regs proc) in
   if WIFEXITED st then
     printf ("Child " +:+ fmt_d pid +:+ " exited normally with return code "
             +:+ fmt_d (WEXITSTATUS st) +:+ nl) ;; cret (inl (WEXITSTATUS st))
   else if WIFSIGNALED st then
     printf ("Child " +:+ fmt_d pid +:+ " exited with signal " +:+ fmt_d (WTERMSIG st) +:+ nl) ;;
     cret (inl (128 + WTERMSIG st))
   else if pink_event_decide st =? 0 then
     let! proc := process_update c strerror proc in
     let! proc := handle_syscall c netlink strerror j fuel proc in
     cret (inr (proc, st))
   else if pink_event_decide st =? event_code PINK_EVENT_EXEC then
     let! proc := process_update c strerror proc in cret (inr (proc, st))
   else cret (inr (proc, st))) (TState (CState k' e') o r).
Proof.
  intros (r1 & d & k1 & r2 & Hp & He & Hw & Hv) Hpp. exists (errno_after r2 0).
  unfold trace_iteration. rewrite Hpp.
  pose proof (ptrace_rc_cases _ _ _ _ (CState k e) _ _ _ Hp) as Hrc. rewrite He in Hrc.
  rewrite (cbind_lib _ _ _ _ _ _ _ Hrc). cbn [Z.ltb Z.compare].
  assert (Hwp : waitpid pid (CState k1 0) = Ret (pid, Some st) (CState k' (errno_after r2 0))).
  { unfold waitpid. simpl. by rewrite Hw, Hv. }
  rewrite (cbind_lib _ _ _ _ _ _ _ Hwp). cbn beta iota.
  by rewrite (proj2 (Z.ltb_ge pid 0)) by lia.
Qed.

Lemma iteration_end fuel proc status k e o r st k' :
  next_status k st k' -> p_pid proc = pid -> WIFEXITED st || WIFSIGNALED st = true ->
  exists e', iteration fuel proc 0 status (TState (CState k e) o r)
    = Ret (inl (exit_code st)) (TState (CState k' e') (o +:+ end_text pid st) r).
Proof.
  intros Hn Hpp Hend. destruct (iteration_status fuel proc status k e o r st k' Hn Hpp) as (e' & ->).
  exists e'. unfold exit_code, end_text. destruct (WIFEXITED st); [done|].
  simpl in Hend. by rewrite Hend.
Qed.

(** The state of the process after a stop. *)
Definition stopped_process (proc : process) (st : Z) (proc' : process) : Prop :=
  p_pid proc' = pid /\ length (rs_regs (p_regs proc')) = sizeof_regs c /\
  insyscall proc' = if pink_event_decide st =? 0 then negb (insyscall proc) else insyscall proc.

Lemma iteration_stop fuel proc status k e o r st k' :
  next_status k st k' -> p_pid proc = pid -> length (rs_regs (p_regs proc)) = sizeof_regs c ->
  WIFSTOPPED st = true ->
  (pink_event_decide st = 0 \/ pink_event_decide st = event_code PINK_EVENT_EXEC ->
   native_stop c k' pid) ->
  exists proc' t e' r',
    iteration fuel proc 0 status (TState (CState k e) o r)
    = Ret (inr (proc', st)) (TState (CState k' e') (o +:+ t) r') /\
    stopped_process proc st proc' /\
    if pink_event_decide st =? 0
    then prints_stop c netlink strerror (insyscall proc) k' pid t else t = "".
Proof.
  intros Hn Hpp Hr Hst Hnat.
  destruct (iteration_status fuel proc status k e o r st k' Hn Hpp) as (e1 & ->).
  destruct (stopped_status st Hst) as [-> ->]. unfold stopped_process.
  set (proc0 := Process pid (p_abi proc) (insyscall proc) (p_regs proc)). cbv zeta.
  destruct (Z.eqb_spec (pink_event_decide st) 0) as [H0|H0];
    [|destruct (Z.eqb_spec (pink_event_decide st) (event_code PINK_EVENT_EXEC)) as [H4|H4]].
  - specialize (Hnat (or_introl H0)).
    destruct (process_update_obs c strerror k' proc0 Hnat Hr e1 o r)
      as (proc1 & t & e2 & r2 & Hrun & -> & regs & -> & Hf).
    rewrite (cbind_run _ _ _ _ _ Hrun).
    destruct (handle_syscall_obs c Htransfer netlink strerror j fuel k'
      (Process (p_pid proc0) (rs_abi regs) (insyscall proc0) regs) Hnat Hf eq_refl e2 (o +:+ "") r2)
      as (proc2 & t & e3 & r3 & Hrun2 & -> & Ht).
    rewrite (cbind_run _ _ _ _ _ Hrun2). rewrite append_nil_r.
    do 4 eexists. split; [reflexivity|]. split; [|exact Ht].
    split_and!; [done | apply Hf | done].
  - specialize (Hnat (or_intror H4)).
    destruct (process_update_obs c strerror k' proc0 Hnat Hr e1 o r)
      as (proc1 & t & e2 & r2 & Hrun & -> & regs & -> & Hf).
    rewrite (cbind_run _ _ _ _ _ Hrun). do 4 eexists. split; [reflexivity|].
    split_and!; [done | apply Hf | done | done].
  - exists proc0, "", e1, r. rewrite append_nil_r. by split_and!.
Qed.

(** ** The loop *)

Lemma loop_life k stops fin :
  life k stops fin -> forall fuel proc status e o r,
  p_pid proc = pid -> length (rs_regs (p_regs proc)) = sizeof_regs c ->
  (length stops < fuel)%nat ->
  exists out k' e' r',
    loop fuel proc 0 status (TState (CState k e) o r)
    = Ret (exit_code fin) (TState (CState k' e') (o +:+ out +:+ end_text pid fin) r') /\
    prints (insyscall proc) stops out.
Proof.
  induction 1 as [k st k' Hn Hend|k st k' stops fin Hn Hst Hnat Hl IH];
    intros fuel proc status e o r Hpp Hr Hf; (destruct fuel as [|fuel]; [simpl in Hf; lia|]).
  - destruct (iteration_end fuel proc status k e o r st k' Hn Hpp Hend) as (e' & Hrun).
    exists "", k', e', r. split; [|constructor]. cbn [trace_loop].
    by rewrite (cbind_run _ _ _ _ _ Hrun).
  - destruct (iteration_stop fuel proc status k e o r st k' Hn Hpp Hr Hst Hnat)
      as (proc' & t & e1 & r1 & Hrun & (Hp' & Hr' & Hin) & Ht).
    destruct (IH fuel proc' st e1 (o +:+ t) r1 Hp' Hr') as (out & k2 & e2 & r2 & Hloop & Hpr);
      [simpl in Hf; lia|].
    exists (t +:+ out), k2, e2, r2. split.
    + cbn [trace_loop]. rewrite (cbind_run _ _ _ _ _ Hrun). cbn beta iota.
      by rewrite Hloop, !append_assoc.
    + rewrite Hin in Hpr. destruct (Z.eqb_spec (pink_event_decide st) 0).
      * by constructor.
      * subst t. by apply prints_event.
Qed.

(** C3. The loop of the tracer implements its specification, for a child that is a
    64-bit program with its first page unmapped at each stop that the loop handles
    (a stop without an event, or an exec), and whose open(2) calls, if it makes any,
    have no path at the very end of the addresses that fit a [long]: whatever else
    its registers and memory hold, with more fuel than the child has stops, the loop
    returns, and what it has printed is the text of the stops read as alternating
    entries and returns, then the message about the end.  (For 32-bit children see
    [decode_socketcall_undefined].) *)
Theorem trace_loop_refines k stops fin fuel proc status e o r :
  life k stops fin -> p_pid proc = pid -> length (rs_regs (p_regs proc)) = sizeof_regs c ->
  (length stops < fuel)%nat ->
  exists out k' e' r',
    loop fuel proc 0 status (TState (CState k e) o r)
    = Ret (exit_code fin) (TState (CState k' e') (o +:+ out +:+ end_text pid fin) r') /\
    prints (insyscall proc) stops out.
Proof. intros Hl. by apply loop_life. Qed.

(** ** main *)

(** fork(2) gives a child, which stops itself and accepts the options, and then
    lives. *)
Record session (k0 : K) (stops : list (Z * K)) (fin : Z) : Prop := {
  session_start :
    exists k1 k2 st0 r2 r3 d k3,
      sys_fork k0 = (SysRet pid None, k1) /\
      sys_waitpid pid k1 = (r2, Some st0, k2) /\ pink_event_decide st0 = 0 /\
      sys_ptrace PTRACE_SETOPTIONS pid 0
        (DVal (kernel_options (Z.lor PINK_TRACE_OPTION_SYSGOOD PINK_TRACE_OPTION_EXEC))) k2
      = (r3, d, k3) /\ sr_errno r3 = None /\
      native_stop c k3 pid /\ life k3 stops fin;
}.

Lemma main_run k0 stops fin fuel mem argv e o r :
  session k0 stops fin -> PINK_HAVE_SETUP c = true ->
  options_supported c (Z.lor PINK_TRACE_OPTION_SYSGOOD PINK_TRACE_OPTION_EXEC) = true ->
  (2 <= length argv)%nat -> (length stops < fuel)%nat ->
  exists abi out k' e' r',
    main c netlink strerror j fuel (Some mem) argv (TState (CState k0 e) o r)
    = Ret (Returned (exit_code fin))
        (TState (CState k' e')
           (o +:+ ("Child " +:+ fmt_d pid +:+ " runs in ABI:" +:+ fmt_d abi +:+ nl)
              +:+ out +:+ end_text pid fin) r') /\
    prints false stops out /\ (abi = 0 \/ abi = 2).
Proof.
  intros [(k1 & k2 & st0 & r2 & r3 & d & k3 & Hfork & Hw & Hev & Hopt & He3 & Hnat & Hlife)] Hsetup Hsup Ha Hf.
  unfold main. rewrite (proj2 (Nat.ltb_ge (length argv) 2)) by lia.
  rewrite (cbind_lib _ _ (CState k0 e) o r (0, Some (pink_regset_zero c)) (CState k0 e)) by done.
  cbn [Z.ltb Z.compare]. rewrite (cbind_checked _ _ _ _ eq_refl).
  assert (Hfk : fork (CState k0 e) = Ret pid (CState k1 e)).
  { unfold fork, signal_call. simpl. by rewrite Hfork. }
  rewrite (cbind_lib _ _ _ _ _ _ _ Hfk). cbn beta.
  rewrite (proj2 (Z.ltb_ge pid 0)), (proj2 (Z.eqb_neq pid 0)) by lia.
  assert (Hwp : waitpid pid (CState k1 e) = Ret (sr_val r2, Some st0) (CState k2 (errno_after r2 e))).
  { unfold waitpid. simpl. by rewrite Hw. }
  rewrite (cbind_lib _ _ _ _ _ _ _ Hwp). cbn beta iota zeta.
  change (default (i_status j) (Some st0)) with st0. rewrite Hev. cbn [Z.eqb negb].
  assert (Hset : pink_trace_setup c pid (Z.lor PINK_TRACE_OPTION_SYSGOOD PINK_TRACE_OPTION_EXEC)
            (CState k2 (errno_after r2 e)) = Ret 0 (CState k3 0)).
  { unfold pink_trace_setup. rewrite Hsetup, setup_options_spec, Hsup.
    rewrite (ptrace_rc_cases _ _ _ _ (CState k2 _) _ _ _ Hopt). by rewrite He3. }
  rewrite (cbind_lib _ _ _ _ _ _ _ Hset). cbn [Z.ltb Z.compare].
  destruct (process_update_obs c strerror k3 (Process pid (i_abi j) false (pink_regset_zero c))
    Hnat (length_replicate _ _) 0 o r) as (proc1 & t & e2 & r4 & Hrun & -> & regs & -> & Hfill).
  rewrite (cbind_run _ _ _ _ _ Hrun). cbn [p_pid p_abi].
  rewrite (cbind_run _ _ _ tt (TState (CState k3 e2) (o +:+ "Child " +:+ fmt_d pid
    +:+ " runs in ABI:" +:+ fmt_d (rs_abi regs) +:+ nl) r4)) by (by rewrite append_nil_r).
  destruct (loop_life k3 stops fin Hlife fuel (Process pid (rs_abi regs) false regs) st0 e2
    (o +:+ "Child " +:+ fmt_d pid +:+ " runs in ABI:" +:+ fmt_d (rs_abi regs) +:+ nl) r4 eq_refl
    (proj1 (proj2 Hfill)) Hf) as (out & k' & e' & r' & Hloop & Hpr).
  exists (rs_abi regs), out, k', e', r'. split_and!; [|done | apply (native_abi _ _ _ Hfill)].
  rewrite (cbind_run _ _ _ _ _ Hloop). by rewrite append_assoc.
Qed.

(** C8. The tracer ends with its child: main starts a child that, at its first stop
    and at each later stop that the loop handles, is a 64-bit program with its first
    page unmapped and no open(2) path at the very end of the addresses that fit a
    [long].  When it ends after finitely many stops (system calls, execs, signals),
    main returns, with no abort and no undefined behaviour, and its value is the
    exit status of the child, or 128 plus the signal that killed it. *)
Theorem main_exit_status k0 stops fin fuel mem argv e o r :
  session k0 stops fin -> PINK_HAVE_SETUP c = true ->
  options_supported c (Z.lor PINK_TRACE_OPTION_SYSGOOD PINK_TRACE_OPTION_EXEC) = true ->
  (2 <= length argv)%nat -> (length stops < fuel)%nat ->
  exists s', main c netlink strerror j fuel (Some mem) argv (TState (CState k0 e) o r)
             = Ret (Returned (if WIFEXITED fin then WEXITSTATUS fin else 128 + WTERMSIG fin)) s'.
Proof.
  intros Hs H1 H2 H3 H4.
  destruct (main_run k0 stops fin fuel mem argv e o r Hs H1 H2 H3 H4)
    as (abi & out & k' & e' & r' & Hrun & _).
  eexists. exact Hrun.
Qed.

End Run.

(** ** Witnesses *)

(** A 64-bit program that stops itself, connects to 127.0.0.1 port 80, is refused,
    executes another program and exits with status 3. *)
Definition inet_80 : list byte :=
  [Byte.x02; Byte.x00; Byte.x00; Byte.x50; Byte.x7f; Byte.x00; Byte.x00; Byte.x01]
  ++ replicate 8 Byte.x00.
Definition child_at (l : list (nat * Z)) : sim :=
  Sim 7 {[1]} (store_bytes ∅ 0x1000 inet_80) (user_of l) false [].
Definition child_start : sim := child_at [].
Definition child_entry : sim := child_at [(ORIG_RAX, 42); (RDI, 3); (RSI, 0x1000); (RDX, 16)].
Definition child_return : sim := child_at [(ORIG_RAX, 42); (RAX, -111)].
Definition child_exec : sim := child_at [(ORIG_RAX, 59)].
Definition child_rest : list (Z * sim) :=
  [(0x857f, child_entry); (0x857f, child_return); (0x4057f, child_exec); (0x300, child_exec)].

(** The kernel before fork(2), when the options are set, and at the stops. *)
Definition before_fork : script := Script child_start false ((0x137f, child_start) :: child_rest).
Definition options_set : sim := logged child_start PTRACE_SETOPTIONS 7 (DVal 0x11).
Definition child_stops : list (Z * script) :=
  [(0x857f, Script child_entry false (drop 1 child_rest));
   (0x857f, Script child_return false (drop 2 child_rest));
   (0x4057f, Script child_exec false (drop 3 child_rest))].

Definition some_indet : indet := Indet [] 0 [] [] (Sockaddr 0 0 []) 0 0.
Definition some_strerror (_ : Z) : string := "message".

Section Children.
Import Script.X86.
#[local] Abbreviation c := x86_64_linux.

Lemma script_native s l :
  sim_pid s = 7 -> sim_compat s = false -> length (sim_user s) = sizeof_x86_64_regs ->
  0 ∉ sim_pages s -> open_path_ok c (sim_user s) -> native_stop c (Script s false l) 7.
Proof.
  intros Hp Hc Hu Hz Ho. split; [by split | done | done | | exact Ho]. intros a Ha. simpl. unfold sim_tmem.
  case_decide as H; [|done]. destruct H as (_ & _ & H). by rewrite Z.div_small in H by lia.
Qed.

Lemma no_first_page : (0 : Z) ∉ ({[1]} : gset Z).
Proof. by rewrite not_elem_of_singleton. Qed.

Lemma child_native l rest :
  length (user_of l) = sizeof_x86_64_regs -> - 2 ^ 63 <= task_arg c false (user_of l) 0 < 2 ^ 63 - 256 ->
  native_stop c (Script (child_at l) false rest) 7.
Proof.
  intros H Ha. apply script_native; [done | done | exact H | exact no_first_page |].
  intros _. apply (string_fits_low c); simpl sim_user; lia.
Qed.

End Children.

(** Settles the conditions on a concrete child. *)
Ltac child_stopped :=
  apply child_native; vm_compute; first [reflexivity | split; (discriminate || reflexivity)].

Section Witnesses.
Import Script.X86.
#[local] Abbreviation c := x86_64_linux.

Lemma child_life : life c 7 (Script options_set false child_rest) child_stops 0x300.
Proof.
  apply life_stop; [by do 4 eexists | reflexivity | intros _; child_stopped |].
  apply life_stop; [by do 4 eexists | reflexivity | intros _; child_stopped |].
  apply life_stop; [by do 4 eexists | reflexivity | intros _; child_stopped |].
  eapply life_end; [by do 4 eexists | reflexivity].
Qed.

Lemma trace_loop_refines_witness :
  exists out k' e' r',
    trace_loop c true some_strerror some_indet 4
      (Process 7 0 false (pink_regset_zero c)) 0 0
      (TState (CState (Script options_set false child_rest) 0) "" "")
    = Ret 3 (TState (CState k' e') ("" +:+ out +:+ end_text 7 0x300) r') /\
    prints c true some_strerror 7 false child_stops out.
Proof.
  apply (trace_loop_refines c attach true some_strerror some_indet 7 ltac:(lia)
    (Script options_set false child_rest) child_stops 0x300 4
    (Process 7 0 false (pink_regset_zero c)) 0 0 "" "" child_life);
    [reflexivity | apply length_replicate | simpl; lia].
Defined.

Lemma main_exit_status_witness :
  exists s', main c true some_strerror some_indet 4 (Some (pink_regset_zero c)) ["strace"; "true"]
    (TState (CState before_fork 0) "" "") = Ret (Returned 3) s'.
Proof.
  apply (main_exit_status c attach true some_strerror some_indet 7 ltac:(lia) before_fork
    child_stops 0x300 4 (pink_regset_zero c) ["strace"; "true"] 0 "" "");
    [| reflexivity | vm_compute; reflexivity | simpl; lia | simpl; lia].
  split. exists (set_running before_fork true), (Script child_start false child_rest), 0x137f.
  do 3 eexists. exists (Script options_set false child_rest).
  split; [reflexivity|]. split; [reflexivity|]. split; [reflexivity|]. split; [reflexivity|].
  split; [reflexivity|]. split; [|exact child_life].
  apply script_native; [reflexivity | reflexivity | vm_compute; reflexivity | exact no_first_page |].
  intros _. apply (string_fits_low c); vm_compute; (discriminate || reflexivity).
Defined.

End Witnesses.
