(* ===== verification/StraceProps.v ===== *)
(** * Invariants, errors and deviations of the tracer

    What holds of examples/pink-simple-strace.c in every kernel, and where it does
    not do what it means to. *)

From Stdlib Require Import ZArith Lia String.
From stdpp Require Import base list numbers gmap strings.
From coqutil Require Import Byte Word.LittleEndianList.
From S2P Require Import Prelude Config Kernel Layout Sim Trace Vm VmRead VmCross Regset TablesX86 Name Read ReadVm Write Registers Socket Observe Tracer Script Strace StraceStop StraceRun.
Local Open Scope string_scope.
Local Open Scope list_scope.
Local Open Scope Z_scope.
Local Open Scope c_scope.

(** ** An invariant of the loop, in every kernel *)

(** The text ends a line. *)
Definition ends_line (t : string) : Prop := exists t', t = t' +:+ nl.

Section Lines.
Context {K : Type} `{!KernelOps K} `{!ProcOps K} (c : config).
Context (netlink : bool) (strerror : Z -> string) (j : indet).

#[local] Abbreviation iteration := (trace_iteration c netlink strerror j).

(** The states at the head of the loop. *)
Inductive reachable (proc0 : process) (status0 : Z) (s0 : tstate K)
  : process -> Z -> tstate K -> Prop :=
| reach_start : reachable proc0 status0 s0 proc0 status0 s0
| reach_step fuel proc status s proc' status' s' :
    reachable proc0 status0 s0 proc status s ->
    iteration fuel proc 0 status s = Ret (inr (proc', status')) s' ->
    reachable proc0 status0 s0 proc' status' s'.

Lemma cbind_Ret_inv {S A B} (f : comp S A) (g : A -> comp S B) s b s' :
  cbind f g s = Ret b s' -> exists a s1, f s = Ret a s1 /\ g a s1 = Ret b s'.
Proof. unfold cbind. destruct (f s) as [a s1| | |]; try done. eauto. Qed.

(** The computation does not write to stdout. *)
Definition mute {A} (f : comp (tstate K) A) : Prop :=
  forall s a s', f s = Ret a s' -> out s' = out s.

Lemma mute_ret {A} (a : A) : mute (cret a).
Proof. by intros s a' s' [= _ <-]. Qed.

Lemma mute_lib {A} (f : comp (cstate K) A) : mute (lib f).
Proof. intros s a s' H. unfold lib in H. destruct (f (lib_state s)); by simplify_eq. Qed.

Lemma mute_bind {A B} (f : comp (tstate K) A) (g : A -> comp (tstate K) B) :
  mute f -> (forall a, mute (g a)) -> mute (cbind f g).
Proof.
  intros Hf Hg s b s' H. apply cbind_Ret_inv in H as (a & s1 & H1 & H2).
  by rewrite (Hg _ _ _ _ H2), (Hf _ _ _ H1).
Qed.

Lemma mute_fail_with z t : mute (fail_with strerror z t).
Proof. intros s a s' H. vm_compute in H. by injection H as _ <-. Qed.

#[local] Hint Resolve mute_ret mute_lib mute_fail_with : pink.

Lemma mute_process_update proc : mute (process_update c strerror proc).
Proof.
  apply mute_bind; [apply mute_lib|]. intros [r regs]. case_match.
  - apply mute_bind; auto with pink.
  - apply mute_bind; [apply mute_lib|]. intros [r' abi]. case_match; [|apply mute_ret].
    apply mute_bind; auto with pink.
Qed.

Lemma process_update_insyscall proc s proc' s' :
  process_update c strerror proc s = Ret proc' s' -> insyscall proc' = insyscall proc.
Proof.
  intros H. apply cbind_Ret_inv in H as ([r regs] & s1 & _ & H). case_match.
  - by apply cbind_Ret_inv in H as (a & s2 & _ & [= <- _]).
  - apply cbind_Ret_inv in H as ([r' abi] & s2 & _ & H). case_match; [|by injection H as <- _].
    by apply cbind_Ret_inv in H as (a & s3 & _ & [= <- _]).
Qed.

Lemma handle_syscall_regs fuel proc s proc' s' :
  handle_syscall c netlink strerror j fuel proc s = Ret proc' s' ->
  p_regs proc' = p_regs proc /\ p_abi proc' = p_abi proc.
Proof.
  unfold handle_syscall. case_match; intros H'.
  - repeat (apply cbind_Ret_inv in H' as (? & ? & _ & H')). by injection H' as <- _.
  - apply cbind_Ret_inv in H' as ([r scno] & s1 & _ & H'). case_match;
      repeat (apply cbind_Ret_inv in H' as (? & ? & _ & H')); by injection H' as <- _.
Qed.

(** The handler flips the flag; when it clears the flag it ends the line. *)
Lemma handle_syscall_lines fuel proc s proc' s' :
  handle_syscall c netlink strerror j fuel proc s = Ret proc' s' ->
  insyscall proc' = negb (insyscall proc) /\ (insyscall proc' = false -> ends_line (out s')).
Proof.
  unfold handle_syscall. destruct (insyscall proc) eqn:Hin; intros H.
  - apply cbind_Ret_inv in H as (? & s1 & _ & H). apply cbind_Ret_inv in H as (? & s2 & _ & H).
    apply cbind_Ret_inv in H as (? & s3 & [= <- <-] & [= <- <-]). split; [done|].
    intros _. by eexists.
  - apply cbind_Ret_inv in H as ([r scno] & s1 & _ & H). case_match.
    + by apply cbind_Ret_inv in H as (? & s2 & _ & [= <- _]).
    + apply cbind_Ret_inv in H as (n & s2 & _ & H).
      by apply cbind_Ret_inv in H as (? & s3 & _ & [= <- _]).
Qed.

Definition line_invariant (proc : process) (s : tstate K) : Prop :=
  insyscall proc = false -> ends_line (out s).

Lemma iteration_lines fuel proc status s proc' status' s' :
  iteration fuel proc 0 status s = Ret (inr (proc', status')) s' ->
  line_invariant proc s -> line_invariant proc' s'.
Proof.
  intros Hrun Hinv. unfold trace_iteration in Hrun.
  apply cbind_Ret_inv in Hrun as (r & s1 & E1 & Hrun). apply mute_lib in E1.
  case_match; [by apply cbind_Ret_inv in Hrun as (? & ? & _ & [= ])|].
  apply cbind_Ret_inv in Hrun as ([pid st] & s2 & E2 & Hrun). apply mute_lib in E2.
  case_match.
  { apply cbind_Ret_inv in Hrun as (? & ? & _ & Hrun). by apply cbind_Ret_inv in Hrun as (? & ? & _ & [= ]). }
  case_match; [by apply cbind_Ret_inv in Hrun as (? & ? & _ & [= ])|].
  case_match; [by apply cbind_Ret_inv in Hrun as (? & ? & _ & [= ])|].
  case_match; [|case_match].
  - apply cbind_Ret_inv in Hrun as (p1 & s3 & E3 & Hrun). apply cbind_Ret_inv in Hrun as (p2 & s4 & E4 & Hrun).
    injection Hrun as <- _ <-. intros Hf. by apply (handle_syscall_lines _ _ _ _ _ E4).
  - apply cbind_Ret_inv in Hrun as (p1 & s3 & E3 & Hrun). injection Hrun as <- _ <-.
    unfold line_invariant. rewrite (process_update_insyscall _ _ _ _ E3). cbn [insyscall].
    rewrite (mute_process_update _ _ _ _ E3), E2, E1. exact Hinv.
  - injection Hrun as <- _ <-. unfold line_invariant. cbn [insyscall]. by rewrite E2, E1.
Qed.

(** C6. The lines of the trace: in every kernel, whatever the system calls return,
    at the head of the loop the output ends a line whenever the flag [insyscall] is
    clear, that is, whenever the tracer takes the next stop for an entry.  The flag
    says what the tracer believes, not where the tracee is: a stop for a signal flips
    it too ([signal_taken_for_syscall]).  So what the handler prints for an entry
    starts a line, and what it prints at a stop it takes for a return ends the line
    of the entry before; the final message starts a line unless the flag is set. *)
Theorem trace_lines proc0 status0 s0 proc status s :
  reachable proc0 status0 s0 proc status s ->
  ends_line (out s0) -> insyscall proc = false -> ends_line (out s).
Proof.
  intros Hr H0. assert (Hinv : line_invariant proc s); [|exact Hinv].
  induction Hr as [|fuel proc status s proc' status' s' Hr IH Hs]; [by intros _|].
  by eapply iteration_lines.
Qed.

End Lines.

(** ** The process record *)

Section Process.
Context {K : Type} `{!KernelOps K} `{!ProcOps K} (c : config) `{!X86Build c}.
Context `{!PtraceErrno K} `{!QuietReads K}.
Context (netlink : bool) (strerror : Z -> string) (j : indet).

(** The registers have their size and a supported ABI, and [abi] is theirs. *)
Definition process_wf (proc : process) : Prop :=
  length (rs_regs (p_regs proc)) = sizeof_regs c /\
  valid_abi c (rs_abi (p_regs proc)) /\ p_abi proc = rs_abi (p_regs proc).

Lemma obs_fill_regset (k : K) pid r :
  observes k (fill_regset c pid r)
    (fun '(rc, r') => length (rs_regs r') = length (rs_regs r) /\ (rc < 0 \/ rc = 0) /\
                      rs_abi r' = rs_abi r).
Proof.
  unfold fill_regset, pink_trace_get_regset, ptrace_out. rewrite build_getregset.
  eapply (obs_bind _ _ _ (fun '(rc, d) =>
    same_shape (DIov (rs_regs r) (Z.of_nat (sizeof_regs c))) d /\ (rc < 0 \/ rc = 0))).
  - obs_use obs_ptrace; [done|]. intros [[rc v] d] [Hsh Hrc]. apply obs_ret. split; [done|].
    destruct Hrc as [|[-> _]]; auto.
  - intros [rc d] [Hsh Hrc]. destruct d as [| |regs len]; try done. by apply obs_ret.
Qed.

(** Filling keeps the size; the ABI is new and supported, or the fill failed and it
    is the old one. *)
Lemma obs_regset_fill (k : K) pid r :
  observes k (pink_regset_fill c pid r)
    (fun '(rc, r') => length (rs_regs r') = length (rs_regs r) /\
       (rc < 0 /\ rs_abi r' = rs_abi r \/ rc = 0 /\ valid_abi c (rs_abi r'))).
Proof.
  unfold pink_regset_fill. rewrite (build_abis c), build_arch, build_getregset. cbn [Z.eqb Pos.eqb].
  obs_use obs_fill_regset. intros [rc r'] (Hl & Hrc & Ha).
  destruct (Z.ltb_spec rc 0); apply obs_ret; (split; [done|]); [by left|right].
  split; [done|]. unfold valid_abi. rewrite (build_abis c). cbn [rs_abi set_abi]. unfold x86_abi.
  rewrite (build_x32 c). unfold PINK_ABI_I386, PINK_ABI_X86_64. repeat case_match; lia.
Qed.

Lemma process_update_keeps (k : K) proc :
  process_wf proc ->
  tobserves k (process_update c strerror proc)
    (fun proc' t => process_wf proc' /\ p_pid proc' = p_pid proc /\
                    insyscall proc' = insyscall proc /\ t = "").
Proof.
  intros (Hl & Hv & Ha). unfold process_update.
  eapply tobs_quiet; [apply tobs_lib, obs_regset_fill|]. intros [rc r] (Hlr & Hr).
  destruct (Z.ltb_spec rc 0).
  - eapply (tobs_quiet _ _ _ (fun _ => True)).
    { eapply tobs_mono; [apply tobs_fail_with|]. by intros _ t ->. }
    intros _ _. destruct Hr as [[_ Hr]|]; [|lia]. apply tobs_ret.
    split; [|done]. unfold process_wf. simpl. rewrite Hr. split; [congruence | done].
  - destruct Hr as [|[-> Hr]]; [lia|].
    eapply (tobs_quiet _ _ _ (eq (0, rs_abi r))); [apply tobs_lib, obs_ret; done|].
    intros [rc abi] [= <- <-]. apply tobs_ret.
    split; [|done]. split; [simpl; congruence | done].
Qed.

Lemma process_update_keeps_run proc s proc' s' :
  process_wf proc -> process_update c strerror proc s = Ret proc' s' -> process_wf proc'.
Proof.
  intros Hwf H. destruct s as [[k e] o r].
  destruct (process_update_keeps k proc Hwf e o r) as (p & t & e' & r' & Hrun & Hp & _).
  rewrite H in Hrun. by injection Hrun as -> _.
Qed.

Lemma handle_syscall_keeps fuel proc s proc' s' :
  process_wf proc -> handle_syscall c netlink strerror j fuel proc s = Ret proc' s' ->
  process_wf proc'.
Proof.
  intros Hwf H. apply handle_syscall_regs in H as [H1 H2]. unfold process_wf. by rewrite H1, H2.
Qed.

Lemma iteration_keeps fuel proc sig status s proc' status' s' :
  process_wf proc ->
  trace_iteration c netlink strerror j fuel proc sig status s = Ret (inr (proc', status')) s' ->
  process_wf proc'.
Proof.
  intros Hwf Hrun. unfold trace_iteration in Hrun.
  apply cbind_Ret_inv in Hrun as (r & s1 & _ & Hrun).
  case_match; [by apply cbind_Ret_inv in Hrun as (? & ? & _ & [= ])|].
  apply cbind_Ret_inv in Hrun as ([pid st] & s2 & _ & Hrun).
  assert (Hwf0 : process_wf (Process pid (p_abi proc) (insyscall proc) (p_regs proc))) by exact Hwf.
  case_match.
  { apply cbind_Ret_inv in Hrun as (? & ? & _ & Hrun). by apply cbind_Ret_inv in Hrun as (? & ? & _ & [= ]). }
  case_match; [by apply cbind_Ret_inv in Hrun as (? & ? & _ & [= ])|].
  case_match; [by apply cbind_Ret_inv in Hrun as (? & ? & _ & [= ])|].
  case_match; [|case_match].
  - apply cbind_Ret_inv in Hrun as (p1 & s3 & E3 & Hrun). apply cbind_Ret_inv in Hrun as (p2 & s4 & E4 & Hrun).
    injection Hrun as <- _ _. eapply handle_syscall_keeps, E4. by eapply process_update_keeps_run.
  - apply cbind_Ret_inv in Hrun as (p1 & s3 & E3 & Hrun). injection Hrun as <- _ _.
    by eapply process_update_keeps_run.
  - by injection Hrun as <- _ _.
Qed.


(** ** Errors of the loop *)

(** C34. The loop ends on errors as intended: when the tracee cannot be resumed,
    with 0 if it is gone (ESRCH) and else with 1; when waitpid(2) fails, with 0 if
    there is no child left (ECHILD) and else with 1.  Nothing is printed to
    stdout, and stderr gets the message of that error. *)
Theorem trace_iteration_errors fuel proc sig status (k : K) e o r0 :
  (forall r d k1 n, sys_ptrace PTRACE_SYSCALL (p_pid proc) 0 (DVal sig) k = (r, d, k1) ->
     sr_errno r = Some n -> n <> EIO ->
     trace_iteration c netlink strerror j fuel proc sig status (TState (CState k e) o r0)
     = Ret (inl (if n =? ESRCH then 0 else 1))
         (TState (CState k1 n) o (r0 +:+ "pink_trace_syscall: " +:+ strerror n +:+ nl))) /\
  (forall r d k1 r2 st k2 n, sys_ptrace PTRACE_SYSCALL (p_pid proc) 0 (DVal sig) k = (r, d, k1) ->
     sr_errno r = None ->
     sys_waitpid (p_pid proc) k1 = (r2, st, k2) -> sr_val r2 = -1 -> sr_errno r2 = Some n ->
     trace_iteration c netlink strerror j fuel proc sig status (TState (CState k e) o r0)
     = Ret (inl (if n =? ECHILD then 0 else 1))
         (TState (CState k2 n) o (r0 +:+ "waitpid: " +:+ strerror n +:+ nl))).
Proof.
  split.
  - intros r d k1 n Hp He Hio. unfold trace_iteration.
    destruct (ptrace_error _ _ _ _ _ _ _ _ _ Hp He) as [_ Hpos].
    pose proof (ptrace_rc_cases _ _ _ _ (CState k e) _ _ _ Hp) as Hrc. rewrite He in Hrc.
    rewrite (proj2 (Z.eqb_neq n EIO)) in Hrc by done. cbv zeta in Hrc.
    rewrite (cbind_lib _ _ _ _ _ _ _ Hrc). rewrite (proj2 (Z.ltb_lt (- n) 0)) by lia.
    replace (- n =? - ESRCH) with (n =? ESRCH)
      by (destruct (Z.eqb_spec n ESRCH), (Z.eqb_spec (- n) (- ESRCH)); (done || lia)).
    done.
  - intros r d k1 r2 st k2 n Hp He Hw Hv Hn. unfold trace_iteration.
    pose proof (ptrace_rc_cases _ _ _ _ (CState k e) _ _ _ Hp) as Hrc. rewrite He in Hrc.
    rewrite (cbind_lib _ _ _ _ _ _ _ Hrc). cbn [Z.ltb Z.compare].
    assert (Hwp : waitpid (p_pid proc) (CState k1 0) = Ret (-1, st) (CState k2 n)).
    { unfold waitpid, errno_after. simpl. by rewrite Hw, Hv, Hn. }
    by rewrite (cbind_lib _ _ _ _ _ _ _ Hwp).
Qed.

End Process.

(** ** Deviations *)

Section Deviations.
Context {K : Type} `{!KernelOps K} `{!ProcOps K} `{!TraceeView K} `{!RegView K}.
Context (c : config) `{!X86Build c}.
Context `{!PtraceErrno K} `{!QuietReads K} `{!PtraceRegset K} `{!X86User c K}.
Context (netlink : bool) (strerror : Z -> string) (j : indet).

(** The decoders of open(2) and execve(2) never print the call: the first has
    the test of its second argument inverted, and takes its error path exactly when
    the argument was read; the second looks for the path at address 0, where a
    program has nothing mapped. *)
Theorem decoders_silent (k : K) fuel proc u :
  transfer c K -> native_stop c k (p_pid proc) -> x86_filled c false u (p_regs proc) ->
  string_fits c (rs_abi (p_regs proc)) (task_arg c false u 0) PATH_MAX ->
  tobserves k (decode_open c strerror j proc) (fun _ t => t = "") /\
  tobserves k (decode_execve c strerror j fuel proc) (fun _ t => t = "").
Proof.
  intros Ht Hn Hf Hfit. split; [by eapply decode_open_obs | by eapply decode_execve_obs].
Qed.

(** The decoder of socketcall(2) is undefined for the calls it is written for:
    for bind and connect, once their address was read, it prints a name that was
    never set; for socket(2), which has no name, it compares a null pointer. *)
Theorem decode_socketcall_undefined proc u (s : tstate K) :
  x86_filled c true u (p_regs proc) ->
  (task_arg c true u 0 = subcall_code PINK_SOCKET_SUBCALL_SOCKET ->
   decode_socketcall c netlink strerror j proc "socketcall" s = Undef) /\
  (task_arg c true u 0 = subcall_code PINK_SOCKET_SUBCALL_BIND \/
   task_arg c true u 0 = subcall_code PINK_SOCKET_SUBCALL_CONNECT ->
   forall fd sa s1,
     pink_read_socket_address c (i_arg j) (p_pid proc) (p_regs proc) false 1 true (i_sockaddr j)
       (lib_state s) = Ret (0, Some fd, sa) s1 ->
     decode_socketcall c netlink strerror j proc "socketcall" s = Undef).
Proof.
  intros Hf. destruct s as [s o e].
  assert (Hr : forall s : cstate K, pink_read_argument c (p_pid proc) (p_regs proc) 0 s
                         = Ret (0, Some (task_arg c true u 0)) s)
    by (intros s'; apply (read_argument_filled _ _ _ _ _ _ _ Hf); lia).
  unfold decode_socketcall. change (String.eqb "socketcall" "socketcall") with true. cbn iota.
  erewrite cbind_run by (erewrite cbind_lib by apply Hr; reflexivity). cbn [Z.ltb Z.compare]. split.
  - intros Harg. cbn [default from_option id]. by rewrite Harg.
  - intros Harg fd sa s1 Ha. cbn [default from_option id lib_state] in *.
    destruct Harg as [-> | ->]; cbn [subcall_code Z.eqb Pos.eqb orb negb];
      by rewrite (cbind_lib _ _ _ _ _ _ _ Ha).
Qed.

(** A signal for the child is taken for a system call: at the stop before the
    delivery of signal [sig] the handler runs and flips [insyscall], so that
    entries and returns are confused from then on, and the loop goes on with
    signal 0, so that the child never gets the signal. *)
Theorem signal_taken_for_syscall (k : K) fuel proc status e o r sig k' :
  transfer c K -> 0 < p_pid proc -> length (rs_regs (p_regs proc)) = sizeof_regs c ->
  0 < sig < 128 -> next_status (p_pid proc) k (event_stop_status 0 sig) k' ->
  native_stop c k' (p_pid proc) ->
  exists proc' s',
    trace_iteration c netlink strerror j fuel proc 0 status (TState (CState k e) o r)
    = Ret (inr (proc', event_stop_status 0 sig)) s' /\
    insyscall proc' = negb (insyscall proc) /\
    trace_loop c netlink strerror j (S fuel) proc 0 status (TState (CState k e) o r)
    = trace_loop c netlink strerror j fuel proc' 0 (event_stop_status 0 sig) s'.
Proof.
  intros Ht Hp Hr Hsig Hn Hnat.
  destruct (event_decide_run PINK_EVENT_NONE sig 0 ltac:(lia)) as [He _].
  assert (Hst : WIFSTOPPED (event_stop_status 0 sig) = true).
  { unfold WIFSTOPPED, event_stop_status. rewrite Z.shiftl_0_l, Z.lor_0_l.
    rewrite Z.land_lor_distr_l. change 0xff with (2 ^ 8 - 1). rewrite land_low by lia.
    by rewrite Z.shiftl_mul_pow2, Z.mod_mul by lia. }
  destruct (iteration_stop c Ht netlink strerror j (p_pid proc) Hp fuel proc status k e o r _ k'
    Hn eq_refl Hr Hst (fun _ => Hnat)) as (proc' & t & e' & r' & Hrun & (_ & _ & Hin) & _).
  exists proc'. eexists. split; [exact Hrun|]. simpl in He. rewrite He in Hin. split; [done|].
  cbn [trace_loop]. by rewrite (cbind_run _ _ _ _ _ Hrun).
Qed.

End Deviations.

(** ** Witnesses *)

(** A program that opens a file, one that calls socketcall(2) for a socket, and one
    that gets signal 10. *)
Definition open_user : list byte := user_of [(ORIG_RAX, 2); (RDI, 0x1000)].
Definition socketcall_child : script :=
  Script (Sim 7 {[1]} ∅ (user_of [(ORIG_RAX, 102); (RBX, 1)]) true []) false [].
Definition signalled : script :=
  Script child_start false [(event_stop_status 0 10, child_at [(ORIG_RAX, -1)])].

Section Witnesses.
Import Script.X86.
#[local] Abbreviation c := x86_64_linux.
#[local] Abbreviation zero := (pink_regset_zero x86_64_linux).

Lemma trace_lines_witness :
  exists proc s,
    reachable c true some_strerror some_indet (Process 7 0 false zero) 0
      (TState (CState (Script child_start false child_rest) 0) nl "") proc 0x857f s /\
    insyscall proc = false /\ ends_line (out s).
Proof.
  eexists. eexists. match goal with |- ?R /\ _ => assert (Hr : R) end.
  { apply (reach_step _ _ _ _ _ _ _ 5 (Process 7 0 true (Regset true 216 (sim_user child_entry) 0))
      0x857f (TState (CState (Script child_entry false (drop 1 child_rest)) 0)
        (nl +:+ "connect(3, " +:+ "{sa_family=AF_INET, sin_port=htons(80), sin_sockaddr=inet_addr("
         +:+ quote +:+ "127.0.0.1" +:+ quote +:+ ")}" +:+ ", 16)") "")).
    - eapply (reach_step _ _ _ _ _ _ _ 5); [apply reach_start | vm_compute; reflexivity].
    - vm_compute; reflexivity. }
  split; [exact Hr|]. split; [reflexivity|].
  apply (trace_lines c true some_strerror some_indet _ _ _ _ _ _ Hr); [by exists "" | reflexivity].
Defined.


Lemma trace_iteration_errors_witness :
  trace_iteration c true some_strerror some_indet 0 (Process 7 0 false zero) 0 0
    (TState (CState (Script child_start true []) 0) "" "")
  = Ret (inl 0) (TState (CState (Script child_start true []) ESRCH) ""
      ("" +:+ "pink_trace_syscall: " +:+ some_strerror ESRCH +:+ nl)) /\
  trace_iteration c true some_strerror some_indet 0 (Process 7 0 false zero) 0 0
    (TState (CState (Script child_start false []) 0) "" "")
  = Ret (inl 0) (TState (CState (Script child_start true []) ECHILD) ""
      ("" +:+ "waitpid: " +:+ some_strerror ECHILD +:+ nl)).
Proof.
  split.
  - apply (proj1 (trace_iteration_errors c true some_strerror some_indet 0
      (Process 7 0 false zero) 0 0 (Script child_start true []) 0 "" ""))
      with (r := SysRet (-1) (Some ESRCH)) (d := DVal 0) (k1 := Script child_start true []) (n := ESRCH);
      [reflexivity | reflexivity | discriminate].
  - apply (proj2 (trace_iteration_errors c true some_strerror some_indet 0
      (Process 7 0 false zero) 0 0 (Script child_start false []) 0 "" ""))
      with (r := SysRet 0 None) (d := DVal 0) (k1 := Script child_start true [])
           (r2 := SysRet (-1) (Some ECHILD)) (st := None) (k2 := Script child_start true [])
           (n := ECHILD); reflexivity.
Defined.

Lemma decoders_silent_witness :
  exists r, x86_filled c false open_user r /\
  exists a t e' r',
    decode_open c some_strerror some_indet (Process 7 0 true r)
      (TState (CState (Script (child_at [(ORIG_RAX, 2); (RDI, 0x1000)]) false []) 0) "" "")
    = Ret a (TState (CState (Script (child_at [(ORIG_RAX, 2); (RDI, 0x1000)]) false []) e')
               ("" +:+ t) r') /\ t = "".
Proof.
  exists (Regset true 216 open_user 0).
  assert (Hf : x86_filled c false open_user (Regset true 216 open_user 0)).
  { split; [vm_compute; reflexivity|]. split; [vm_compute; reflexivity | reflexivity]. }
  split; [exact Hf|].
  apply (proj1 (decoders_silent c some_strerror some_indet
    (Script (child_at [(ORIG_RAX, 2); (RDI, 0x1000)]) false []) 0
    (Process 7 0 true (Regset true 216 open_user 0)) open_user attach
    ltac:(child_stopped) Hf ltac:(apply (string_fits_low c); vm_compute; (discriminate || reflexivity)))).
Defined.

Lemma decode_socketcall_undefined_witness :
  exists r, x86_filled c true (sim_user (sc_now socketcall_child)) r /\
  decode_socketcall c true some_strerror some_indet (Process 7 1 true r) "socketcall"
    (TState (CState socketcall_child 0) "" "") = Undef.
Proof.
  destruct (filled_example (sc_now socketcall_child) eq_refl eq_refl) as [r Hf]. exists r.
  split; [exact Hf|].
  apply (proj1 (decode_socketcall_undefined c true some_strerror some_indet (Process 7 1 true r)
    (sim_user (sc_now socketcall_child)) (TState (CState socketcall_child 0) "" "") Hf)).
  vm_compute. reflexivity.
Defined.

Lemma signal_taken_for_syscall_witness :
  exists proc' s',
    trace_iteration c true some_strerror some_indet 0 (Process 7 0 false zero) 0 0
      (TState (CState signalled 0) "" "")
    = Ret (inr (proc', event_stop_status 0 10)) s' /\ insyscall proc' = true.
Proof.
  destruct (signal_taken_for_syscall c true some_strerror some_indet signalled 0
    (Process 7 0 false zero) 0 0 "" "" 10 (Script (child_at [(ORIG_RAX, -1)]) false []))
    as (proc' & s' & Hrun & Hin & _);
    [apply attach | reflexivity | reflexivity | lia | by do 4 eexists
    | child_stopped |].
  exists proc', s'. split; [exact Hrun | exact Hin].
Defined.

End Witnesses.
