(* ===== verification/Examples.v ===== *)
(** * examples/pink-fork.c and examples/pink-about.c *)

From Stdlib Require Import ZArith Lia String.
From stdpp Require Import base list numbers gmap strings.
From coqutil Require Import Byte Word.LittleEndianList.
From S2P Require Import Prelude Config Kernel Layout Sim Trace Vm Regset Read ReadVm Registers Observe Tracer Script Strace StraceStop StraceRun.
Local Open Scope string_scope.
Local Open Scope list_scope.
Local Open Scope Z_scope.
Local Open Scope c_scope.

(** ** pink-about.c *)

(** The constants come from generated headers. *)
Record version : Type := Version {
  PINKTRACE_PACKAGE : string;
  PINKTRACE_VERSION_MAJOR : Z;
  PINKTRACE_VERSION_MINOR : Z;
  PINKTRACE_VERSION_MICRO : Z;
  PINKTRACE_VERSION_SUFFIX : string;
  PINKTRACE_GIT_HEAD : string;
}.

Definition about_main {K} (v : version) : comp (tstate K) outcome :=
  printf ("Built using " +:+ PINKTRACE_PACKAGE v +:+ " " +:+ fmt_d (PINKTRACE_VERSION_MAJOR v)
          +:+ "." +:+ fmt_d (PINKTRACE_VERSION_MINOR v) +:+ "." +:+ fmt_d (PINKTRACE_VERSION_MICRO v)
          +:+ PINKTRACE_VERSION_SUFFIX v) ;;
  (if String.eqb (PINKTRACE_GIT_HEAD v) "" then cret tt else printf (" " +:+ PINKTRACE_GIT_HEAD v)) ;;
  printf nl ;;
  cret (Returned EXIT_SUCCESS).

(** ** pink-fork.c *)

Section Fork.
Context {K : Type} `{!KernelOps K} `{!ProcOps K} (c : config) (strerror : Z -> string).

(** [status0] is the indeterminate content of [status]. *)
Definition fork_main (status0 : Z) : comp (tstate K) outcome :=
  let! pid := lib fork in
  if pid <? 0 then perror strerror "fork" ;; cret (Returned EXIT_FAILURE)
  else if pid =? 0 then
    let! r := lib pink_trace_me in
    if r <? 0 then
      eprintf ("pink_trace_me: " +:+ fmt_d (- r) +:+ " " +:+ strerror (- r) +:+ nl) ;;
      cret (Exited EXIT_FAILURE)
    else
      let! self := lib getpid in
      let! _ := lib (signal_call (sys_kill self SIGSTOP)) in
      printf ("hello world" +:+ nl) ;;
      cret (Exited EXIT_SUCCESS)
  else
    let! (_, st) := lib (waitpid pid) in
    if negb (pink_event_decide (default status0 st) =? event_code PINK_EVENT_NONE) then cabort
    else
      let! r := lib (pink_trace_setup c pid PINK_TRACE_OPTION_SYSGOOD) in
      if r <? 0 then
        perror strerror "pink_trace_setup" ;;
        let! _ := lib (pink_trace_kill c pid (-1) SIGKILL) in
        cret (Returned EXIT_FAILURE)
      else
        let! _ := lib (pink_trace_resume pid 0) in
        let! _ := lib (waitpid pid) in
        cret (Returned EXIT_SUCCESS).

End Fork.

(** ** Properties *)

Section Properties.
Context {K : Type} `{!KernelOps K} `{!ProcOps K} `{!PtraceErrno K} (c : config).
Context (strerror : Z -> string) (status0 pid : Z) (Hpid : 0 < pid).

(** The parent of pink-fork makes exactly this sequence of system calls on a child
    that stops itself and accepts the option, and succeeds whatever the resumption
    and the last wait give. *)
Lemma fork_main_parent k0 e o r0 k1 r2 st k2 r3 d k3 :
  PINK_HAVE_SETUP c = true -> PINK_HAVE_OPTION_SYSGOOD c = true ->
  sys_fork k0 = (SysRet pid None, k1) -> sys_waitpid pid k1 = (r2, Some st, k2) ->
  pink_event_decide st = 0 ->
  sys_ptrace PTRACE_SETOPTIONS pid 0 (DVal PTRACE_O_TRACESYSGOOD) k2 = (r3, d, k3) ->
  sr_errno r3 = None ->
  let k4 := (sys_ptrace PTRACE_CONT pid 0 (DVal 0) k3).2 in
  let k5 := (sys_waitpid pid k4).2 in
  exists e', fork_main c strerror status0 (TState (CState k0 e) o r0)
    = Ret (Returned EXIT_SUCCESS) (TState (CState k5 e') o r0).
Proof.
  intros Hs Ho Hf Hw Hev Hp He k4 k5. unfold fork_main.
  assert (Hfk : fork (CState k0 e) = Ret pid (CState k1 e)).
  { unfold fork, signal_call. simpl. by rewrite Hf. }
  rewrite (cbind_lib _ _ _ _ _ _ _ Hfk). cbn beta.
  rewrite (proj2 (Z.ltb_ge pid 0)), (proj2 (Z.eqb_neq pid 0)) by lia.
  assert (Hwp : waitpid pid (CState k1 e) = Ret (sr_val r2, Some st) (CState k2 (errno_after r2 e))).
  { unfold waitpid. simpl. by rewrite Hw. }
  rewrite (cbind_lib _ _ _ _ _ _ _ Hwp). cbn beta iota zeta.
  change (default status0 (Some st)) with st. rewrite Hev. cbn [event_code Z.eqb negb].
  assert (Hset : pink_trace_setup c pid PINK_TRACE_OPTION_SYSGOOD (CState k2 (errno_after r2 e))
                 = Ret 0 (CState k3 0)).
  { unfold pink_trace_setup. rewrite Hs, setup_options_spec.
    replace (options_supported c PINK_TRACE_OPTION_SYSGOOD) with true
      by (unfold options_supported; simpl; by rewrite Ho).
    rewrite (ptrace_rc_cases _ _ _ _ (CState k2 _) _ _ _ Hp). by rewrite He. }
  rewrite (cbind_lib _ _ _ _ _ _ _ Hset). cbn [Z.ltb Z.compare].
  subst k5 k4. destruct (sys_ptrace PTRACE_CONT pid 0 (DVal 0) k3) as [[r4 d4] k4] eqn:Hc.
  pose proof (ptrace_rc_cases _ _ _ _ (CState k3 0) _ _ _ Hc) as Hrc. simpl.
  assert (exists v e4, pink_trace_resume pid 0 (CState k3 0) = Ret v (CState k4 e4)) as (v & e4 & Hr).
  { unfold pink_trace_resume. destruct (sr_errno r4); eauto. }
  rewrite (cbind_lib _ _ _ _ _ _ _ Hr).
  destruct (sys_waitpid pid k4) as [[r5 st5] k5] eqn:Hw5.
  assert (Hwp5 : waitpid pid (CState k4 e4) = Ret (sr_val r5, st5) (CState k5 (errno_after r5 e4))).
  { unfold waitpid. simpl. by rewrite Hw5. }
  eexists. by rewrite (cbind_lib _ _ _ _ _ _ _ Hwp5).
Qed.

End Properties.

Section Runs.
Import Script.X86.

(** The program on a child that stops itself and exits. *)
Example fork_main_example :
  fork_main x86_64_linux some_strerror 0
    (TState (CState (Script child_start false [(0x137f, child_start); (0, child_start)]) 0) "" "")
  = Ret (Returned EXIT_SUCCESS)
      (TState (CState (Script child_start false []) 0) "" "").
Proof. vm_compute. reflexivity. Qed.

Example about_main_example :
  about_main (K := unit) (Version "pinktrace" 0 9 5 "" "abc")
    (TState (CState tt 0) "" "")
  = Ret (Returned EXIT_SUCCESS)
      (TState (CState tt 0) ("Built using pinktrace 0.9.5 abc" +:+ nl) "").
Proof. vm_compute. reflexivity. Qed.

End Runs.
