(* ===== verification/Python.v ===== *)
(** * python/pinktrace/: the Python bindings

    The functions of the extension modules and their constants; PyModules has the modules
    and the objects that hold a register set.  CPython is not code of the repository:
    the outcome of PyArg_ParseTuple is an argument of each binding ([None] when it
    failed, which leaves an exception set; an optional argument that was not given
    is [None] inside).  A binding returns an object or NULL, and the exception that
    is set is part of the state, since the two can disagree. *)

From Stdlib Require Import ZArith Lia String.
From stdpp Require Import base list numbers sets strings.
From coqutil Require Import Byte Word.LittleEndianList.
From S2P Require Import Prelude Config Kernel Layout Sim Trace Regset Name Observe Tracer.
Local Open Scope string_scope.
Local Open Scope list_scope.
Local Open Scope Z_scope.
Local Open Scope c_scope.

Inductive pyobj : Type :=
| PyTrue
| PyLong (z : Z)
| PyStr (s : string).

Inductive pyexc : Type :=
| PyExc_Parse
| PyExc_SystemError (msg : string)
| PyExc_OSError (error : Z)
| PyExc_ValueError (msg : string)
| PyExc_MemoryError.

#[export] Instance pyobj_eq_dec : EqDecision pyobj.
Proof. solve_decision. Defined.
#[export] Instance pyexc_eq_dec : EqDecision pyexc.
Proof. solve_decision. Defined.

Record pystate (K : Type) : Type := PyState {
  py_lib : cstate K;
  py_exc : option pyexc;
}.
Arguments PyState {K} _ _.
Arguments py_lib {K} _.
Arguments py_exc {K} _.

(** signal.h *)
Definition NSIG : Z := 65.

Section Python.
Context {K : Type} `{!KernelOps K} (c : config).

#[local] Abbreviation M := (comp (pystate K)).

(** A library call made by a binding. *)
Definition pylib {A} (f : comp (cstate K) A) : M A :=
  fun s => match f (py_lib s) with
           | Ret a s' => Ret a (PyState s' (py_exc s))
           | Abort s' => Abort (PyState s' (py_exc s))
           | Undef => Undef
           | NoFuel => NoFuel
           end.

(** PyErr_Format and PyErr_NoMemory; they return NULL. *)
Definition set_exc (e : pyexc) : M (option pyobj) :=
  fun s => Ret None (PyState (py_lib s) (Some e)).

Definition PyErr_SetFromErrno : M (option pyobj) :=
  let! e := pylib get_errno in set_exc (PyExc_OSError e).

(** ** py-pink.h *)

(** The part of PINK_CALL after the call: -ENOSYS sets an exception and goes on. *)
Definition pink_check (r : Z) (rest : M (option pyobj)) : M (option pyobj) :=
  if r =? - ENOSYS then
    let! _ := set_exc (PyExc_SystemError "Not supported by host system") in rest
  else if r <? 0 then pylib (set_errno (- r)) ;; PyErr_SetFromErrno
  else rest.

Definition PINK_CALL (call : comp (cstate K) Z) (rest : M (option pyobj)) : M (option pyobj) :=
  let! r := pylib call in pink_check r rest.

Definition PINK_CALL_TRUE (call : comp (cstate K) Z) : M (option pyobj) :=
  PINK_CALL call (cret (Some PyTrue)).

Definition PINK_CHECK_SIGNAL (signum : Z) (rest : M (option pyobj)) : M (option pyobj) :=
  if (signum <? 0) || (NSIG <=? signum)
  then set_exc (PyExc_ValueError ("Invalid signal '" +:+ fmt_d signum +:+ "'"))
  else rest.

Definition PINK_CHECK_NULL (name : option string) (msg : string) : M (option pyobj) :=
  match name with
  | None => set_exc (PyExc_ValueError msg)
  | Some s => cret (Some (PyStr s))
  end.

(** [invalid] is -1 converted to the type of the variable. *)
Definition PINK_CHECK_LOOKUP (retval invalid : Z) (msg : string) : M (option pyobj) :=
  if retval =? invalid then set_exc (PyExc_ValueError msg) else cret (Some (PyLong retval)).

(** [if (!PyArg_ParseTuple(...)) return NULL;] *)
Definition parsed {A} (args : option A) (f : A -> M (option pyobj)) : M (option pyobj) :=
  match args with
  | None => set_exc PyExc_Parse
  | Some a => f a
  end.

(** ** py-trace.c *)

Definition pinkpy_trace_me : M (option pyobj) := PINK_CALL_TRUE pink_trace_me.

Definition pinkpy_trace_resume (args : option (Z * option Z)) : M (option pyobj) :=
  parsed args (fun '(pid, o) => let sig := default 0 o in
    PINK_CHECK_SIGNAL sig (PINK_CALL_TRUE (pink_trace_resume pid sig))).

Definition pinkpy_trace_kill (args : option (Z * option Z * option Z)) : M (option pyobj) :=
  parsed args (fun '(tid, o, o') => let tgid := default (-1) o in let sig := default SIGKILL o' in
    PINK_CHECK_SIGNAL sig (PINK_CALL_TRUE (pink_trace_kill c tid tgid sig))).

Definition pinkpy_trace_singlestep (args : option (Z * option Z)) : M (option pyobj) :=
  parsed args (fun '(pid, o) => let sig := default 0 o in
    PINK_CHECK_SIGNAL sig (PINK_CALL_TRUE (pink_trace_singlestep pid sig))).

Definition pinkpy_trace_syscall (args : option (Z * option Z)) : M (option pyobj) :=
  parsed args (fun '(pid, o) => let sig := default 0 o in
    PINK_CHECK_SIGNAL sig (PINK_CALL_TRUE (pink_trace_syscall pid sig))).

(** [data] is the indeterminate content of the local. *)
Definition pinkpy_trace_geteventmsg (data : list byte) (args : option Z) : M (option pyobj) :=
  parsed args (fun pid =>
    let w := Z.to_nat (sizeof_long c) in
    let! (r, d) := pylib (pink_trace_geteventmsg c pid (resize w Byte.x00 data)) in
    match d with
    | DBuf bs => pink_check r (cret (Some (PyLong (get_member c bs 0 w))))
    | _ => cundef
    end).

Definition pinkpy_trace_setup (args : option (Z * Z)) : M (option pyobj) :=
  parsed args (fun '(pid, options) => PINK_CALL_TRUE (pink_trace_setup c pid options)).

Definition pinkpy_trace_sysemu (args : option (Z * option Z)) : M (option pyobj) :=
  parsed args (fun '(pid, o) => let sig := default 0 o in
    PINK_CHECK_SIGNAL sig (PINK_CALL_TRUE (pink_trace_sysemu c pid sig))).

Definition pinkpy_trace_sysemu_singlestep (args : option (Z * option Z)) : M (option pyobj) :=
  parsed args (fun '(pid, o) => let sig := default 0 o in
    PINK_CHECK_SIGNAL sig (PINK_CALL_TRUE (pink_trace_sysemu_singlestep c pid sig))).

Definition pinkpy_trace_attach (args : option Z) : M (option pyobj) :=
  parsed args (fun pid => PINK_CALL_TRUE (pink_trace_attach pid)).

Definition pinkpy_trace_detach (args : option (Z * option Z)) : M (option pyobj) :=
  parsed args (fun '(pid, o) => let sig := default 0 o in
    PINK_CHECK_SIGNAL sig (PINK_CALL_TRUE (pink_trace_detach pid sig))).

(** The second argument is the option word, but it is checked as a signal. *)
Definition pinkpy_trace_seize (args : option (Z * option Z)) : M (option pyobj) :=
  parsed args (fun '(pid, o) => let sig := default 0 o in
    PINK_CHECK_SIGNAL sig (PINK_CALL_TRUE (pink_trace_seize c pid sig))).

Definition pinkpy_trace_interrupt (args : option Z) : M (option pyobj) :=
  parsed args (fun pid => PINK_CALL_TRUE (pink_trace_interrupt c pid)).

Definition pinkpy_trace_listen (args : option Z) : M (option pyobj) :=
  parsed args (fun pid => PINK_CALL_TRUE (pink_trace_listen c pid)).

(** ** py-name.c *)

(** An enumeration object holds an [unsigned int]. *)
Definition enum_of (z : Z) : Z := to_uint z.

Definition pinkpy_name_event (args : option Z) : M (option pyobj) :=
  parsed args (fun event => PINK_CHECK_NULL (pink_name_event (to_int event)) "Invalid event").

Definition pinkpy_lookup_event (args : option string) : M (option pyobj) :=
  parsed args (fun name =>
    PINK_CHECK_LOOKUP (enum_of (pink_lookup_event (Some name))) (enum_of (-1)) "No matching event").

Definition pinkpy_name_syscall (args : option (Z * option Z)) : M (option pyobj) :=
  parsed args (fun '(scno, o) =>
    PINK_CHECK_NULL (pink_name_syscall c scno (default PINK_ABI_DEFAULT o)) "Invalid scno").

Definition pinkpy_lookup_syscall (args : option (string * option Z)) : M (option pyobj) :=
  parsed args (fun '(name, o) =>
    PINK_CHECK_LOOKUP (pink_lookup_syscall c (Some name) (default PINK_ABI_DEFAULT o)) (-1)
      "No matching syscall").

Definition pinkpy_name_socket_family (af : string -> option Z) (args : option Z) : M (option pyobj) :=
  parsed args (fun family => PINK_CHECK_NULL (pink_name_socket_family af family) "Invalid family").

Definition pinkpy_lookup_socket_family (af : string -> option Z) (args : option string)
  : M (option pyobj) :=
  parsed args (fun name =>
    PINK_CHECK_LOOKUP (pink_lookup_socket_family af (Some name)) (-1) "No matching socket_family").

Definition pinkpy_name_socket_subcall (args : option Z) : M (option pyobj) :=
  parsed args (fun subcall =>
    PINK_CHECK_NULL (pink_name_socket_subcall (to_int subcall)) "Invalid subcall").

Definition pinkpy_lookup_socket_subcall (args : option string) : M (option pyobj) :=
  parsed args (fun name =>
    PINK_CHECK_LOOKUP (enum_of (pink_lookup_socket_subcall (Some name))) (enum_of (-1))
      "No matching socket_subcall").

Definition pinkpy_name_errno (args : option (Z * option Z)) : M (option pyobj) :=
  parsed args (fun '(err_no, o) =>
    PINK_CHECK_NULL (pink_name_errno c err_no (default PINK_ABI_DEFAULT o)) "Invalid err_no").

Definition pinkpy_lookup_errno (args : option (string * option Z)) : M (option pyobj) :=
  parsed args (fun '(name, o) =>
    PINK_CHECK_LOOKUP (pink_lookup_errno c (Some name) (default PINK_ABI_DEFAULT o)) (-1)
      "No matching errno").

Definition pinkpy_name_signal (args : option (Z * option Z)) : M (option pyobj) :=
  parsed args (fun '(signum, o) =>
    PINK_CHECK_NULL (pink_name_signal c signum (default PINK_ABI_DEFAULT o)) "Invalid signum").

Definition pinkpy_lookup_signal (args : option (string * option Z)) : M (option pyobj) :=
  parsed args (fun '(name, o) =>
    PINK_CHECK_LOOKUP (pink_lookup_signal c (Some name) (default PINK_ABI_DEFAULT o)) (-1)
      "No matching signal").

(** ** py-event.c and py-abi.c *)

Definition pinkpy_event_decide (args : option Z) : M (option pyobj) :=
  parsed args (fun status => cret (Some (PyLong (pink_event_decide status)))).

(** The argument is not checked before it indexes the table of word sizes. *)
Definition pinkpy_abi_wordsize (args : option (option Z)) : M (option pyobj) :=
  parsed args (fun o =>
    let! wsize := checked (pink_abi_wordsize c (default PINK_ABI_DEFAULT o)) in
    cret (Some (PyLong wsize))).

End Python.

(** ** The constants of the modules *)

(** What configure decides and the configuration does not hold. *)
Record features : Type := Features {
  PINK_HAVE_IPV6 : bool;
  PINK_HAVE_NETLINK : bool;
  PINK_SYSCALL_INVALID : Z;
  PINK_HAVE_EVENT : pink_event -> bool;
}.

(** PyModule_AddIntConstant on the same name replaces the value. *)
Definition module_get (consts : list (string * Z)) (name : string) : option Z :=
  foldl (fun r '(n, v) => if String.eqb n name then Some v else r) None consts.

Definition abi_init (c : config) : list (string * Z) :=
  [("ABIS_SUPPORTED", PINK_ABIS_SUPPORTED c); ("ABI_DEFAULT", PINK_ABI_DEFAULT)] ++
  match PINK_ARCH c with
  | X86_64 => [("ABI_X86_64", PINK_ABI_X86_64); ("ABI_I386", PINK_ABI_I386);
               ("ABI_X32", PINK_ABI_X32 c)]
  | X32 => [("ABI_X32", PINK_ABI_X32 c); ("ABI_I386", PINK_ABI_I386)]
  | POWERPC => if PINK_ARCH_POWERPC64 c then [("ABI_PPC64", 0); ("ABI_PPC32", 1)] else []
  | _ => []
  end.

Definition event_init : list (string * Z) :=
  [("EVENT_NONE", event_code PINK_EVENT_NONE); ("EVENT_FORK", event_code PINK_EVENT_FORK);
   ("EVENT_VFORK", event_code PINK_EVENT_VFORK); ("EVENT_CLONE", event_code PINK_EVENT_CLONE);
   ("EVENT_EXEC", event_code PINK_EVENT_EXEC);
   ("EVENT_VFORK_DONE", event_code PINK_EVENT_VFORK_DONE);
   ("EVENT_EXIT", event_code PINK_EVENT_EXIT); ("EVENT_SECCOMP", event_code PINK_EVENT_SECCOMP);
   ("EVENT_STOP", event_code PINK_EVENT_STOP)].

Definition trace_init : list (string * Z) :=
  [("OPTION_SYSGOOD", PINK_TRACE_OPTION_SYSGOOD); ("OPTION_FORK", PINK_TRACE_OPTION_FORK);
   ("OPTION_VFORK", PINK_TRACE_OPTION_VFORK); ("OPTION_CLONE", PINK_TRACE_OPTION_CLONE);
   ("OPTION_EXEC", PINK_TRACE_OPTION_EXEC); ("OPTION_VFORK_DONE", PINK_TRACE_OPTION_VFORK_DONE);
   ("OPTION_EXIT", PINK_TRACE_OPTION_EXIT); ("OPTION_EXITKILL", PINK_TRACE_OPTION_EXITKILL)].

Definition of_bool (b : bool) : Z := if b then 1 else 0.

Definition system_init (c : config) (f : features) : list (string * Z) :=
  let arch a := of_bool (bool_decide (PINK_ARCH c = a)) in
  let event e := of_bool (PINK_HAVE_EVENT f e) in
  [("ARCH_I386", arch I386); ("ARCH_X86_64", arch X86_64); ("ARCH_X32", arch X32);
   ("ARCH_POWERPC", arch POWERPC); ("ARCH_POWERPC64", of_bool (PINK_ARCH_POWERPC64 c));
   ("ARCH_IA64", 0); ("ARCH_ARM", arch ARM);
   ("MAX_ARGS", PINK_MAX_ARGS); ("SYSCALL_INVALID", PINK_SYSCALL_INVALID f);
   ("HAVE_IPV6", of_bool (PINK_HAVE_IPV6 f)); ("HAVE_NETLINK", of_bool (PINK_HAVE_NETLINK f));
   ("HAVE_OPTION_SYSGOOD", of_bool (PINK_HAVE_OPTION_SYSGOOD c));
   ("HAVE_OPTION_FORK", of_bool (PINK_HAVE_OPTION_FORK c));
   ("HAVE_OPTION_VFORK", of_bool (PINK_HAVE_OPTION_VFORK c));
   ("HAVE_OPTION_CLONE", of_bool (PINK_HAVE_OPTION_CLONE c));
   ("HAVE_OPTION_EXEC", of_bool (PINK_HAVE_OPTION_EXEC c));
   ("HAVE_OPTION_VFORK_DONE", of_bool (PINK_HAVE_OPTION_VFORK_DONE c));
   ("HAVE_OPTION_EXIT", of_bool (PINK_HAVE_OPTION_EXIT c));
   ("HAVE_OPTION_SECCOMP", of_bool (PINK_HAVE_OPTION_SECCOMP c));
   ("HAVE_OPTION_SECCOMP", of_bool (PINK_HAVE_OPTION_EXITKILL c));
   ("HAVE_SETUP", of_bool (PINK_HAVE_SETUP c));
   ("HAVE_GETEVENTMSG", of_bool (PINK_HAVE_GETEVENTMSG c));
   ("HAVE_GETSIGINFO", of_bool (PINK_HAVE_GETSIGINFO c));
   ("HAVE_GETREGSET", of_bool (PINK_HAVE_GETREGSET c));
   ("HAVE_SETREGSET", of_bool (PINK_HAVE_SETREGSET c));
   ("HAVE_SYSEMU", of_bool (PINK_HAVE_SYSEMU c));
   ("HAVE_SYSEMU_SINGLESTEP", of_bool (PINK_HAVE_SYSEMU_SINGLESTEP c));
   ("HAVE_SEIZE", of_bool (PINK_HAVE_SEIZE c));
   ("HAVE_INTERRUPT", of_bool (PINK_HAVE_INTERRUPT c));
   ("HAVE_LISTEN", of_bool (PINK_HAVE_LISTEN c));
   ("HAVE_EVENT_FORK", event PINK_EVENT_FORK); ("HAVE_EVENT_VFORK", event PINK_EVENT_VFORK);
   ("HAVE_EVENT_CLONE", event PINK_EVENT_CLONE); ("HAVE_EVENT_EXEC", event PINK_EVENT_EXEC);
   ("HAVE_EVENT_VFORK_DONE", event PINK_EVENT_VFORK_DONE);
   ("HAVE_EVENT_EXIT", event PINK_EVENT_EXIT);
   ("HAVE_EVENT_SECCOMP", event PINK_EVENT_SECCOMP); ("HAVE_EVENT_STOP", event PINK_EVENT_STOP);
   ("HAVE_TKILL", of_bool (PINK_HAVE_TKILL c)); ("HAVE_TGKILL", of_bool (PINK_HAVE_TGKILL c));
   ("HAVE_PROCESS_VM_READV", of_bool (PINK_HAVE_PROCESS_VM_READV c));
   ("HAVE_PROCESS_VM_WRITEV", of_bool (PINK_HAVE_PROCESS_VM_WRITEV c))].

(** ** Properties *)

Section Contract.
Context {K : Type} `{!KernelOps K} (c : config).

(** The bindings whose second argument is an optional signal, with the library
    function of each. *)
Definition signal_bindings
  : list ((option (Z * option Z) -> comp (pystate K) (option pyobj)) * (Z -> Z -> comp (cstate K) Z)) :=
  [(pinkpy_trace_resume, pink_trace_resume); (pinkpy_trace_singlestep, pink_trace_singlestep);
   (pinkpy_trace_syscall, pink_trace_syscall); (pinkpy_trace_sysemu c, pink_trace_sysemu c);
   (pinkpy_trace_sysemu_singlestep c, pink_trace_sysemu_singlestep c);
   (pinkpy_trace_detach, pink_trace_detach); (pinkpy_trace_seize c, pink_trace_seize c)].

(** A binding that takes a signal, applied to its arguments: the signal it checks and
    the library call it makes.  These are the bindings above, and kill, whose second
    argument is a thread group and whose signal is the third. *)
Inductive signal_applied : comp (pystate K) (option pyobj) -> Z -> comp (cstate K) Z -> Prop :=
| applied_second b f pid o :
    (b, f) ∈ signal_bindings ->
    signal_applied (b (Some (pid, o))) (default 0 o) (f pid (default 0 o))
| applied_kill tid tgid o :
    signal_applied (pinkpy_trace_kill c (Some (tid, tgid, o))) (default SIGKILL o)
      (pink_trace_kill c tid (default (-1) tgid) (default SIGKILL o)).

(** All are built alike. *)
Lemma signal_binding_shape b sig f :
  signal_applied b sig f -> b = PINK_CHECK_SIGNAL sig (PINK_CALL_TRUE f).
Proof.
  intros [b' f' pid o H|]; [|done]. revert H. unfold signal_bindings. set_unfold. intros H.
  destruct_or! H; simplify_eq; done.
Qed.

(** The rule of the C interface of Python: NULL is returned exactly when an
    exception is set. *)
Definition api_contract (o : option pyobj) (s : pystate K) : Prop :=
  o = None <-> is_Some (py_exc s).

Lemma pink_call_true_run (f : comp (cstate K) Z) s r s' :
  f s = Ret r s' ->
  PINK_CALL_TRUE f (PyState s None) =
  if r =? - ENOSYS
  then Ret (Some PyTrue) (PyState s' (Some (PyExc_SystemError "Not supported by host system")))
  else if r <? 0 then Ret None (PyState (CState (ker s') (- r)) (Some (PyExc_OSError (- r))))
  else Ret (Some PyTrue) (PyState s' None).
Proof.
  intros H. unfold PINK_CALL_TRUE, PINK_CALL, pink_check, pylib, cbind. simpl. rewrite H.
  destruct (r =? - ENOSYS); [done|]. by destruct (r <? 0).
Qed.

(** C33. The bindings that take a signal (resume, singlestep, syscall, sysemu,
    sysemu_singlestep, detach, seize and kill): a signal outside of 0..64 raises
    ValueError, returns NULL and makes no system call.  Otherwise the library call is
    made, and True is returned when it succeeds and when it fails with ENOSYS, in
    which case SystemError is set as well: the macro forgets to return, and this is
    the one case that breaks the rule that NULL goes with an exception.  Every other
    failure returns NULL with OSError and its error number. *)
Theorem pinkpy_signal_contract b sig f s :
  signal_applied b sig f ->
  (sig < 0 \/ NSIG <= sig ->
   b (PyState s None)
   = Ret None (PyState s (Some (PyExc_ValueError ("Invalid signal '" +:+ fmt_d sig +:+ "'"))))) /\
  (0 <= sig < NSIG -> forall r s', f s = Ret r s' ->
   exists res st, b (PyState s None) = Ret res st /\ ker (py_lib st) = ker s' /\
     (res = Some PyTrue <-> 0 <= r \/ r = - ENOSYS) /\ (res = None <-> r < 0 /\ r <> - ENOSYS) /\
     py_exc st = (if r =? - ENOSYS then Some (PyExc_SystemError "Not supported by host system")
                  else if r <? 0 then Some (PyExc_OSError (- r)) else None) /\
     (api_contract res st <-> r <> - ENOSYS)).
Proof.
  intros Hb. rewrite (signal_binding_shape _ _ _ Hb). unfold PINK_CHECK_SIGNAL. split.
  - intros Hs. by replace ((sig <? 0) || (NSIG <=? sig)) with true
      by (destruct (Z.ltb_spec sig 0), (Z.leb_spec NSIG sig); (done || lia)).
  - intros Hs r s' Hf. rewrite (proj2 (Z.ltb_ge sig 0)), (proj2 (Z.leb_gt NSIG sig)) by lia.
    cbn [orb]. rewrite (pink_call_true_run _ _ _ _ Hf). unfold api_contract.
    destruct (Z.eqb_spec r (- ENOSYS)) as [->|Hne]; [|destruct (Z.ltb_spec r 0)];
      do 2 eexists; (split; [reflexivity|]); simpl; unfold ENOSYS in *.
    + split_and!; [done | split; auto | split; [done|lia] | done |].
      split; [|done]. intros [_ H] _. discriminate H. by eexists.
    + split_and!; [done | split; [done|lia] | done | done |]. by split.
    + split_and!; [done | split; auto | split; [done|lia] | done |].
      split; [done|]. intros _. split; [done|]. by intros [].
Qed.

(** [trace.seize] takes its option word for a signal: every word of 65 and
    above is refused with ValueError and no system call is made, so SECCOMP and
    EXITKILL cannot be asked for. *)
Theorem pinkpy_seize_refuses pid options (s : cstate K) :
  NSIG <= options ->
  pinkpy_trace_seize c (Some (pid, Some options)) (PyState s None)
  = Ret None (PyState s (Some (PyExc_ValueError ("Invalid signal '" +:+ fmt_d options +:+ "'")))) /\
  NSIG <= PINK_TRACE_OPTION_SECCOMP /\ NSIG <= PINK_TRACE_OPTION_EXITKILL.
Proof.
  intros H. split; [|split; done]. unfold pinkpy_trace_seize, parsed, PINK_CHECK_SIGNAL. simpl.
  by rewrite (proj2 (Z.leb_le NSIG options) H), orb_true_r.
Qed.

(** The constants of the system module: the flag of SECCOMP is the one of
    EXITKILL, which has no name of its own, and the option SECCOMP is missing from
    the trace module. *)
Theorem python_constants f :
  module_get (system_init c f) "HAVE_OPTION_SECCOMP" = Some (of_bool (PINK_HAVE_OPTION_EXITKILL c)) /\
  module_get (system_init c f) "HAVE_OPTION_EXITKILL" = None /\
  module_get trace_init "OPTION_SECCOMP" = None.
Proof. done. Qed.

(** The word sizes of the ABIs, by architecture; a build with a single ABI has one
    size for every number. *)
Definition wordsize_of (abi : Z) : option Z :=
  match PINK_ARCH c with
  | X86_64 => if abi =? PINK_ABI_X86_64 then Some 8
              else if (abi =? PINK_ABI_I386) || (abi =? 2) then Some 4 else None
  | X32 => if (abi =? 0) || (abi =? 1) then Some 4 else None
  | AARCH64 => if abi =? PINK_ABI_AARCH64 then Some 8
               else if abi =? PINK_ABI_ARM then Some 4 else None
  | POWERPC =>
      if PINK_ARCH_POWERPC64 c
      then if abi =? 0 then Some 8 else if abi =? 1 then Some 4 else None
      else Some (sizeof_long c)
  | ARM | I386 => Some (sizeof_long c)
  end.

Lemma wordsize_of_spec abi : pink_abi_wordsize c abi = wordsize_of abi.
Proof.
  unfold pink_abi_wordsize, wordsize_of, ABI0_WORDSIZE, PINK_ABIS_SUPPORTED, ABI1_WORDSIZE,
    ABI2_WORDSIZE, PINK_ABI_X86_64, PINK_ABI_I386, PINK_ABI_AARCH64, PINK_ABI_ARM.
  destruct (PINK_ARCH c); try done; try (destruct (PINK_ARCH_POWERPC64 c); [|done]);
    cbn -[lookup Z.to_nat Z.ltb Z.eqb];
    (destruct (Z.ltb_spec abi 0); [repeat (rewrite (proj2 (Z.eqb_neq abi _)) by lia); done|]);
    destruct (Z.eqb_spec abi 0) as [->|]; try done; destruct (Z.eqb_spec abi 1) as [->|]; try done;
    try (destruct (Z.eqb_spec abi 2) as [->|]; [done|]); cbn [orb];
    apply lookup_ge_None_2; simpl; lia.
Qed.

(** C40. [abi.wordsize] gives the word size of the ABI: 8 bytes for the first ABI of
    x86-64, AArch64 and 64-bit PowerPC builds and 4 for their others and for x32
    builds; a build with a single ABI gives the size of its [long] whatever the
    number is.  In a build with several ABIs a number that is none of them is not
    checked, and the behaviour is undefined.  The default is the first ABI. *)
Theorem pinkpy_abi_wordsize_bounds o (s : pystate K) :
  pinkpy_abi_wordsize c (Some o) s =
  match wordsize_of (default 0 o) with
  | Some w => Ret (Some (PyLong w)) s
  | None => Undef
  end.
Proof.
  unfold pinkpy_abi_wordsize, parsed. rewrite wordsize_of_spec.
  by destruct (wordsize_of _).
Qed.

Lemma check_null_str name msg s (st : pystate K) :
  PINK_CHECK_NULL name msg st = Ret (Some (PyStr s)) st <-> name = Some s.
Proof. unfold PINK_CHECK_NULL, cret, set_exc. destruct name; split; congruence. Qed.

Lemma check_lookup_long v msg n (st : pystate K) :
  PINK_CHECK_LOOKUP v (-1) msg st = Ret (Some (PyLong n)) st <-> v = n /\ n <> -1.
Proof.
  unfold PINK_CHECK_LOOKUP, cret. destruct (Z.eqb_spec v (-1)); split.
  - done.
  - lia.
  - intros H. by simplify_eq.
  - by intros [-> _].
Qed.

(** Names and numbers through Python are inverse: for system calls, errors and
    signals of every ABI, the name function returns the string [s] for [n] exactly
    when the lookup function returns [n] for [s]; otherwise they raise. *)
Theorem pinkpy_names_inverse abi s n (st : pystate K) :
  to_long c n = n ->
  (pinkpy_name_syscall c (Some (n, Some abi)) st = Ret (Some (PyStr s)) st <->
   pinkpy_lookup_syscall c (Some (s, Some abi)) st = Ret (Some (PyLong n)) st) /\
  (pinkpy_name_errno c (Some (n, Some abi)) st = Ret (Some (PyStr s)) st <->
   pinkpy_lookup_errno c (Some (s, Some abi)) st = Ret (Some (PyLong n)) st) /\
  (pinkpy_name_signal c (Some (n, Some abi)) st = Ret (Some (PyStr s)) st <->
   pinkpy_lookup_signal c (Some (s, Some abi)) st = Ret (Some (PyLong n)) st).
Proof.
  intros Hn. unfold pinkpy_name_syscall, pinkpy_lookup_syscall, pinkpy_name_errno,
    pinkpy_lookup_errno, pinkpy_name_signal, pinkpy_lookup_signal, parsed.
  cbn [default from_option id]. rewrite !check_null_str, !check_lookup_long. split_and!; symmetry.
  - by apply syscall_inverse.
  - apply default_lookup_inverse, errnoent_distinct.
  - apply default_lookup_inverse, signalent_distinct.
Qed.

End Contract.

(** ** Witnesses *)

(** A build whose kernel headers have no PTRACE_SYSEMU. *)
Definition no_sysemu : config :=
  {| PINK_ARCH := X86_64; PINK_ARCH_POWERPC64 := false; model := LP64; big_endian := false;
     PINK_HAVE_OPTION_SYSGOOD := true; PINK_HAVE_OPTION_FORK := true;
     PINK_HAVE_OPTION_VFORK := true; PINK_HAVE_OPTION_CLONE := true;
     PINK_HAVE_OPTION_EXEC := true; PINK_HAVE_OPTION_VFORK_DONE := true;
     PINK_HAVE_OPTION_EXIT := true; PINK_HAVE_OPTION_SECCOMP := true;
     PINK_HAVE_OPTION_EXITKILL := true; PINK_HAVE_SETUP := true;
     PINK_HAVE_GETEVENTMSG := true; PINK_HAVE_GETSIGINFO := true;
     PINK_HAVE_GETREGS := false; PINK_HAVE_SETREGS := false;
     PINK_HAVE_GETREGSET := true; PINK_HAVE_SETREGSET := true;
     PINK_HAVE_SYSEMU := false; PINK_HAVE_SYSEMU_SINGLESTEP := false;
     PINK_HAVE_SEIZE := true; PINK_HAVE_INTERRUPT := true; PINK_HAVE_LISTEN := true;
     PINK_HAVE_TKILL := true; PINK_HAVE_TGKILL := true;
     PINK_HAVE_PROCESS_VM_READV := true; PINK_HAVE_PROCESS_VM_WRITEV := true |}.

Section Witnesses.
Import Sim.X86.

(** sysemu on that build: True with an exception set; and kill with a signal that
    does not exist. *)
Lemma pinkpy_signal_contract_witness :
  (exists res st, pinkpy_trace_sysemu no_sysemu (Some (7, Some 0)) (PyState (CState task_idle 0) None)
    = Ret res st /\ res = Some PyTrue /\ ~ api_contract res st) /\
  pinkpy_trace_kill no_sysemu (Some (7, None, Some 65)) (PyState (CState task_idle 0) None)
  = Ret None (PyState (CState task_idle 0) (Some (PyExc_ValueError "Invalid signal '65'"))).
Proof.
  split.
  - assert (Hb : signal_applied no_sysemu (pinkpy_trace_sysemu no_sysemu (Some (7, Some 0))) 0
              (pink_trace_sysemu no_sysemu 7 0)).
    { apply (applied_second no_sysemu _ _ 7 (Some 0)). unfold signal_bindings. set_solver. }
    destruct (proj2 (pinkpy_signal_contract no_sysemu _ 0 _ (CState task_idle 0) Hb)
      ltac:(unfold NSIG; lia) (- ENOSYS) (CState task_idle 0) eq_refl)
      as (res & st & Hrun & _ & Ht & _ & _ & Hc).
    exists res, st. split; [exact Hrun|]. split; [apply Ht; by right|]. intros H. by apply Hc.
  - exact (proj1 (pinkpy_signal_contract no_sysemu _ 65 _ (CState task_idle 0)
      (applied_kill no_sysemu 7 None (Some 65))) ltac:(unfold NSIG; lia)).
Defined.

Lemma pinkpy_seize_refuses_witness :
  pinkpy_trace_seize x86_64_linux (Some (7, Some PINK_TRACE_OPTION_EXITKILL))
    (PyState (CState task_idle 0) None)
  = Ret None (PyState (CState task_idle 0) (Some (PyExc_ValueError "Invalid signal '256'"))).
Proof.
  apply (proj1 (pinkpy_seize_refuses x86_64_linux 7 PINK_TRACE_OPTION_EXITKILL (CState task_idle 0)
    ltac:(done))).
Defined.

Lemma pinkpy_names_inverse_witness :
  pinkpy_lookup_syscall x86_64_linux (Some ("execve", Some 0)) (PyState (CState task_idle 0) None)
  = Ret (Some (PyLong 59)) (PyState (CState task_idle 0) None).
Proof.
  apply (proj1 (pinkpy_names_inverse x86_64_linux 0 "execve" 59 (PyState (CState task_idle 0) None)
    eq_refl)). vm_compute. reflexivity.
Defined.

End Witnesses.
