(* ===== verification/PyModules.v ===== *)
(** * python/pinktrace/: the modules and the register set objects

    The method tables and the creation of the extension modules, and the life of the
    objects of py-regset.c: each owns a register set that regset.c allocated, so that
    memory is part of the state here.  What CPython decides is an argument: the parsed
    arguments of a call, the memory of an object, and whether a module could be made. *)

From Stdlib Require Import ZArith Lia String.
From stdpp Require Import base list numbers sets strings gmap.
From coqutil Require Import Byte.
From S2P Require Import Prelude Config Kernel Layout Sim Trace Regset Name Observe Tracer Python.
Local Open Scope string_scope.
Local Open Scope list_scope.
Local Open Scope Z_scope.
Local Open Scope c_scope.

(** ** The register set objects *)

(** The objects by their address, each with the pointer it holds, and the register sets
    by theirs; 0 is the null pointer. *)
Record pyheap (K : Type) : Type := PyHeap {
  ph_py : pystate K;
  ph_objs : gmap Z Z;
  ph_regs : gmap Z pink_regset;
}.
Arguments PyHeap {K} _ _ _.
Arguments ph_py {K} _.
Arguments ph_objs {K} _.
Arguments ph_regs {K} _.

Section Objects.
Context {K : Type} `{!KernelOps K} (c : config).

#[local] Abbreviation M := (comp (pyheap K)).

Definition on_py {A} (f : comp (pystate K) A) : M A :=
  fun h => match f (ph_py h) with
           | Ret a s => Ret a (PyHeap s (ph_objs h) (ph_regs h))
           | Abort s => Abort (PyHeap s (ph_objs h) (ph_regs h))
           | Undef => Undef
           | NoFuel => NoFuel
           end.

Definition get_objs : M (gmap Z Z) := fun h => Ret (ph_objs h) h.
Definition get_regs : M (gmap Z pink_regset) := fun h => Ret (ph_regs h) h.
Definition put_objs (m : gmap Z Z) : M unit := fun h => Ret tt (PyHeap (ph_py h) m (ph_regs h)).
Definition put_regs (m : gmap Z pink_regset) : M unit := fun h => Ret tt (PyHeap (ph_py h) (ph_objs h) m).

(** free(3) of a pointer that was not allocated is undefined. *)
Definition pink_regset_free (p : Z) : M unit :=
  if p =? 0 then cret tt
  else
    let! regs := get_regs in
    let! _ := checked (regs !! p) in
    put_regs (delete p regs).

(** [tp_alloc] and [mem] are the addresses that CPython and malloc(3) give, if they do;
    tp_alloc clears the object and raises MemoryError when it fails. *)
Definition ProcessRegistrySet_new (tp_alloc mem : option Z) : M (option Z) :=
  match tp_alloc with
  | None => let! _ := on_py (set_exc PyExc_MemoryError) in cret None
  | Some self =>
      let! objs := get_objs in
      put_objs (<[self := 0]> objs) ;;
      let! (r, regset) := on_py (pylib (pink_regset_alloc c ((fun _ => pink_regset_zero c) <$> mem))) in
      match mem, regset with
      | Some p, Some regset =>
          let! regs := get_regs in
          put_regs (<[p := regset]> regs) ;;
          put_objs (<[self := p]> objs)
      | _, _ => cret tt
      end ;;
      if r <? 0 then
        on_py (pylib (set_errno (- r))) ;;
        let! _ := on_py (set_exc PyExc_MemoryError) in cret None
      else cret (Some self)
  end.

Definition ProcessRegistrySet_dealloc (obj : Z) : M unit :=
  let! objs := get_objs in
  let! p := checked (objs !! obj) in
  pink_regset_free p ;;
  let! objs := get_objs in
  put_objs (delete obj objs).

Definition pinkpy_regset_fill (obj : Z) (args : option Z) : M (option pyobj) :=
  match args with
  | None => on_py (set_exc PyExc_Parse)
  | Some pid =>
      let! objs := get_objs in
      let! p := checked (objs !! obj) in
      let! regs := get_regs in
      let! self := checked (regs !! p) in
      let! (r, self) := on_py (pylib (pink_regset_fill c pid self)) in
      put_regs (<[p := self]> regs) ;;
      on_py (pink_check r (cret (Some PyTrue)))
  end.

(** ** Ownership *)

(** Every object holds a register set of its own, or, when its construction failed, the
    null pointer; no register set is at the null pointer, and each has its object. *)
Definition owned (h : pyheap K) : Prop :=
  ph_regs h !! 0 = None /\
  (forall obj p, ph_objs h !! obj = Some p -> p <> 0 -> is_Some (ph_regs h !! p)) /\
  (forall obj obj' p, ph_objs h !! obj = Some p -> ph_objs h !! obj' = Some p -> p <> 0 -> obj = obj') /\
  (forall p, is_Some (ph_regs h !! p) -> exists obj, ph_objs h !! obj = Some p).

(** What the interpreter does with these objects: it makes one in memory that was free,
    fills one that it holds, and releases one that it holds. *)
Inductive heap_step : pyheap K -> pyheap K -> Prop :=
| step_new tp_alloc mem r h h' :
    (forall self, tp_alloc = Some self -> ph_objs h !! self = None) ->
    (forall p, mem = Some p -> p <> 0 /\ ph_regs h !! p = None) ->
    ProcessRegistrySet_new tp_alloc mem h = Ret r h' -> heap_step h h'
| step_fill obj args r h h' : pinkpy_regset_fill obj args h = Ret r h' -> heap_step h h'
| step_dealloc obj h h' : ProcessRegistrySet_dealloc obj h = Ret tt h' -> heap_step h h'.

(** The construction on each branch. *)
Lemma new_run tp_alloc mem h :
  ProcessRegistrySet_new tp_alloc mem h =
  match tp_alloc, mem with
  | None, _ => Ret None (PyHeap (PyState (py_lib (ph_py h)) (Some PyExc_MemoryError)) (ph_objs h) (ph_regs h))
  | Some self, Some p =>
      Ret (Some self) (PyHeap (ph_py h) (<[self := p]> (ph_objs h)) (<[p := pink_regset_zero c]> (ph_regs h)))
  | Some self, None =>
      let e := errno (py_lib (ph_py h)) in
      if - e <? 0
      then Ret None (PyHeap (PyState (CState (ker (py_lib (ph_py h))) (- - e)) (Some PyExc_MemoryError))
                       (<[self := 0]> (ph_objs h)) (ph_regs h))
      else Ret (Some self) (PyHeap (ph_py h) (<[self := 0]> (ph_objs h)) (ph_regs h))
  end.
Proof.
  destruct h as [[[k e] exc] objs regs], tp_alloc as [self|], mem as [p|];
    try reflexivity; unfold ProcessRegistrySet_new, pink_regset_alloc, on_py, pylib, get_errno, cbind; simpl.
  by destruct (- e <? 0).
Qed.

Lemma dealloc_run obj p h :
  ph_objs h !! obj = Some p -> (p <> 0 -> is_Some (ph_regs h !! p)) -> ph_regs h !! 0 = None ->
  ProcessRegistrySet_dealloc obj h = Ret tt (PyHeap (ph_py h) (delete obj (ph_objs h)) (delete p (ph_regs h))).
Proof.
  intros Ho Hp H0. unfold ProcessRegistrySet_dealloc, pink_regset_free, get_objs, get_regs, cbind. simpl.
  rewrite Ho. simpl. destruct (Z.eqb_spec p 0) as [->|Hne]; simpl.
  - rewrite (delete_id (ph_regs h)) by done. by destruct h.
  - destruct (Hp Hne) as [x ->]. done.
Qed.

(** A fill changes the register set of its object, and nothing else of the two maps. *)
Lemma fill_run obj args r h h' :
  pinkpy_regset_fill obj args h = Ret r h' ->
  ph_objs h' = ph_objs h /\
  (ph_regs h' = ph_regs h \/
   exists p regs, ph_objs h !! obj = Some p /\ is_Some (ph_regs h !! p) /\
     ph_regs h' = <[p := regs]> (ph_regs h)).
Proof.
  unfold pinkpy_regset_fill. destruct args as [pid|]; [|intros H; injection H as <- <-; auto].
  unfold get_objs, get_regs, put_regs, cbind, checked, on_py. intros H. simpl in H.
  destruct (ph_objs h !! obj) as [p|] eqn:Ho; simpl in H; [|done].
  destruct (ph_regs h !! p) as [self|] eqn:Hp; simpl in H; [|done].
  destruct (pylib _ _) as [[r' self']| | |]; simpl in H; try done.
  destruct (pink_check _ _ _); simplify_eq/=. split; [done|]. right.
  exists p, self'. split_and!; [done | by eexists | done].
Qed.

Lemma owned_new tp_alloc mem r h h' :
  owned h ->
  (forall self, tp_alloc = Some self -> ph_objs h !! self = None) ->
  (forall p, mem = Some p -> p <> 0 /\ ph_regs h !! p = None) ->
  ProcessRegistrySet_new tp_alloc mem h = Ret r h' -> owned h'.
Proof.
  intros (H0 & Hp & Hi & Ho) Hself Hmem. rewrite new_run.
  destruct tp_alloc as [self|]; [|by intros [= <- <-]]. specialize (Hself _ eq_refl).
  destruct mem as [q|].
  - destruct (Hmem _ eq_refl) as [Hq Hfree]. intros [= <- <-]. unfold owned. simpl. split_and!.
    + by rewrite lookup_insert_ne.
    + intros obj p Hobj Hne. destruct (decide (p = q)) as [->|]; [rewrite lookup_insert_eq; by eexists|].
      rewrite lookup_insert_ne by done. apply lookup_insert_Some in Hobj as [[_ <-]|[_ Hobj]]; [done | eauto].
    + assert (Hno : forall obj, ph_objs h !! obj <> Some q).
      { intros obj Hobj. destruct (Hp obj q Hobj Hq). congruence. }
      intros obj obj' p. rewrite !lookup_insert_Some.
      intros [[? ?]|[? H1]] [[? ?]|[? H2]] Hne; subst; [done | | | eauto];
        [by destruct (Hno _ H2) | by destruct (Hno _ H1)].
    + intros p. rewrite lookup_insert_is_Some. intros [<-|[Hne Hs]].
      * exists self. by rewrite lookup_insert_eq.
      * destruct (Ho p Hs) as [obj Hobj]. exists obj. rewrite lookup_insert_ne; [done | congruence].
  - intros Hrun.
    assert (Hmaps : ph_objs h' = <[self := 0]> (ph_objs h) /\ ph_regs h' = ph_regs h).
    { revert Hrun. simpl. case_match; by intros [= <- <-]. }
    destruct Hmaps as [Hobjs Hregs]. unfold owned. rewrite Hobjs, Hregs. split_and!; [done | | |].
    + intros obj p. rewrite lookup_insert_Some. intros [[? <-]|[? ?]]; [done | eauto].
    + intros obj obj' p. rewrite !lookup_insert_Some.
      intros [[? ?]|[? ?]] [[? ?]|[? ?]] Hne; subst; [done.. | eauto].
    + intros p Hs. destruct (Ho p Hs) as [obj Hobj]. exists obj. rewrite lookup_insert_ne; [done | congruence].
Qed.

Lemma owned_dealloc obj p h :
  owned h -> ph_objs h !! obj = Some p ->
  owned (PyHeap (ph_py h) (delete obj (ph_objs h)) (delete p (ph_regs h))).
Proof.
  intros (H0 & Hp & Hi & Ho) Hobj. unfold owned. simpl. split_and!.
  - rewrite lookup_delete_None. auto.
  - intros o q. rewrite lookup_delete_Some. intros [Hne Hq] Hq0. rewrite lookup_delete_ne; [eauto|].
    intros <-. apply Hne. eauto.
  - intros o o' q. rewrite !lookup_delete_Some. intros [_ ?] [_ ?]. eauto.
  - intros q. rewrite lookup_delete_is_Some. intros [Hne Hs]. destruct (Ho q Hs) as [o Hq].
    exists o. rewrite lookup_delete_Some. split; congruence.
Qed.

Lemma owned_fill obj args r h h' :
  owned h -> pinkpy_regset_fill obj args h = Ret r h' -> owned h'.
Proof.
  intros (H0 & Hp & Hi & Ho) Hrun. destruct (fill_run _ _ _ _ _ Hrun) as [Hobjs [Hregs|(q & v & Hq & Hs & Hregs)]];
    unfold owned; rewrite Hobjs, Hregs; [by split_and!|].
  assert (Hiff : forall p, is_Some (<[q := v]> (ph_regs h) !! p) <-> is_Some (ph_regs h !! p)).
  { intros p. rewrite lookup_insert_is_Some. destruct (decide (q = p)) as [<-|]; tauto. }
  split_and!; [|intros; rewrite Hiff; eauto | done | intros p; rewrite Hiff; eauto].
  apply eq_None_not_Some. rewrite Hiff. by apply eq_None_not_Some.
Qed.

Lemma owned_step h h' : owned h -> heap_step h h' -> owned h'.
Proof.
  intros Hh Hstep. destruct Hstep as [tp mem r h h' Hs Hm Hrun | obj args r h h' Hrun | obj h h' Hrun].
  - by eapply owned_new.
  - by eapply owned_fill.
  - destruct (ph_objs h !! obj) as [p|] eqn:Ho.
    + assert (Hp : p <> 0 -> is_Some (ph_regs h !! p)) by (destruct Hh as (_ & Hh & _); eauto).
      rewrite (dealloc_run _ _ _ Ho Hp (proj1 Hh)) in Hrun. injection Hrun as <-. by apply owned_dealloc.
    + unfold ProcessRegistrySet_dealloc, get_objs, cbind in Hrun. rewrite Ho in Hrun. done.
Qed.

Lemma owned_empty s : owned (PyHeap s ∅ ∅).
Proof.
  unfold owned. simpl. split_and!; [apply lookup_empty | intros ?? H | intros ??? H | intros ? [? H]];
    by rewrite lookup_empty in H.
Qed.

Lemma owned_steps h h' : owned h -> rtc heap_step h h' -> owned h'.
Proof. intros Hh Hsteps. induction Hsteps as [|h h1 h2 Hs _ IH]; [done|]. apply IH. by eapply owned_step. Qed.

(** C27. No register set is freed twice, used after it was freed, or lost: whatever objects the
    interpreter made, filled and released, in any order and with any failures, starting with
    none, an object that it still holds has its register set unless its pointer is null;
    releasing the object returns and frees exactly that register set; and once no object is
    left, no register set is either. *)
Theorem registry_set_ownership s h' :
  rtc heap_step (PyHeap s ∅ ∅) h' ->
  (forall obj p, ph_objs h' !! obj = Some p ->
     (p <> 0 -> is_Some (ph_regs h' !! p)) /\
     ProcessRegistrySet_dealloc obj h'
     = Ret tt (PyHeap (ph_py h') (delete obj (ph_objs h')) (delete p (ph_regs h')))) /\
  (ph_objs h' = ∅ -> ph_regs h' = ∅).
Proof.
  intros Hsteps. assert (Hown : owned h') by (eapply owned_steps, Hsteps; apply owned_empty).
  destruct Hown as (H0 & Hp & _ & Ho). split.
  - intros obj p Hobj. split; [eauto|]. apply dealloc_run; [done | eauto | done].
  - intros Hempty. apply map_empty. intros p. destruct (ph_regs h' !! p) eqn:E; [|done].
    destruct (Ho p) as [obj Hobj]; [by eexists|]. by rewrite Hempty, lookup_empty in Hobj.
Qed.

(** When malloc(3) fails and sets [errno] the caller gets MemoryError, but the object that
    tp_alloc made is not released: it stays, with the null pointer. *)
Theorem registry_set_leak self h :
  0 < errno (py_lib (ph_py h)) ->
  exists h', ProcessRegistrySet_new (Some self) None h = Ret None h' /\
    py_exc (ph_py h') = Some PyExc_MemoryError /\ ph_objs h' = <[self := 0]> (ph_objs h).
Proof.
  intros He. rewrite new_run. cbv zeta. rewrite (proj2 (Z.ltb_lt _ 0)) by lia. by eexists.
Qed.

End Objects.

(** ** The modules *)

(** The results of PyArg_ParseTuple for the formats that the bindings use, where an
    argument after the bar can be missing; pid_t is an [int]. *)
Class PyArgs (A : Type) : Type := {
  parse_i : A -> option Z;
  parse_I : A -> option Z;
  parse_s : A -> option string;
  parse_ii : A -> option (Z * Z);
  parse_opt_h : A -> option (option Z);
  parse_i_opt_i : A -> option (Z * option Z);
  parse_i_opt_ii : A -> option (Z * option Z * option Z);
  parse_i_opt_h : A -> option (Z * option Z);
  parse_l_opt_h : A -> option (Z * option Z);
  parse_s_opt_h : A -> option (string * option Z);
}.

Section Modules.
Context {K : Type} `{!KernelOps K} (c : config).
Context {A : Type} `{!PyArgs A}.

Definition method : Type := A -> comp (pystate K) (option pyobj).

(** A module: its functions, its constants and its classes. *)
Record pymodule : Type := PyModule {
  pm_name : string;
  pm_methods : list (string * method);
  pm_consts : list (string * Z);
  pm_classes : list string;
}.

Definition abi_methods : list (string * method) :=
  [("wordsize", fun args => pinkpy_abi_wordsize c (parse_opt_h args))].

Definition event_methods : list (string * method) :=
  [("decide", fun args => pinkpy_event_decide (parse_i args))].

Definition name_methods (af : string -> option Z) : list (string * method) :=
  [("name_event", fun args => pinkpy_name_event (parse_I args));
   ("lookup_event", fun args => pinkpy_lookup_event (parse_s args));
   ("name_syscall", fun args => pinkpy_name_syscall c (parse_l_opt_h args));
   ("lookup_syscall", fun args => pinkpy_lookup_syscall c (parse_s_opt_h args));
   ("name_socket_family", fun args => pinkpy_name_socket_family af (parse_i args));
   ("lookup_socket_family", fun args => pinkpy_lookup_socket_family af (parse_s args));
   ("name_socket_subcall", fun args => pinkpy_name_socket_subcall (parse_I args));
   ("lookup_socket_subcall", fun args => pinkpy_lookup_socket_subcall (parse_s args));
   ("name_errno", fun args => pinkpy_name_errno c (parse_i_opt_h args));
   ("lookup_errno", fun args => pinkpy_lookup_errno c (parse_s_opt_h args));
   ("name_signal", fun args => pinkpy_name_signal c (parse_i_opt_h args));
   ("lookup_signal", fun args => pinkpy_lookup_signal c (parse_s_opt_h args))].

(** [me] takes no arguments; [data] is the local of [geteventmsg]. *)
Definition trace_methods (data : list byte) : list (string * method) :=
  [("me", fun _ => pinkpy_trace_me);
   ("resume", fun args => pinkpy_trace_resume (parse_i_opt_i args));
   ("kill", fun args => pinkpy_trace_kill c (parse_i_opt_ii args));
   ("singlestep", fun args => pinkpy_trace_singlestep (parse_i_opt_i args));
   ("syscall", fun args => pinkpy_trace_syscall (parse_i_opt_i args));
   ("geteventmsg", fun args => pinkpy_trace_geteventmsg c data (parse_i args));
   ("setup", fun args => pinkpy_trace_setup c (parse_ii args));
   ("sysemu", fun args => pinkpy_trace_sysemu c (parse_i_opt_i args));
   ("sysemu_singlestep", fun args => pinkpy_trace_sysemu_singlestep c (parse_i_opt_i args));
   ("attach", fun args => pinkpy_trace_attach (parse_i args));
   ("detach", fun args => pinkpy_trace_detach (parse_i_opt_i args));
   ("seize", fun args => pinkpy_trace_seize c (parse_i_opt_i args));
   ("interrupt", fun args => pinkpy_trace_interrupt c (parse_i args));
   ("listen", fun args => pinkpy_trace_listen c (parse_i args))].

Definition system_methods : list (string * method) := [].
Definition regset_methods : list (string * method) := [].

(** PyModule_Create gives a module with the methods, or NULL; [created] says which. *)
Definition PyInit_abi (created : bool) : option pymodule :=
  if negb created then None else Some (PyModule "abi" abi_methods (abi_init c) []).
Definition PyInit_event (created : bool) : option pymodule :=
  if negb created then None else Some (PyModule "event" event_methods event_init []).
Definition PyInit_name (af : string -> option Z) (created : bool) : option pymodule :=
  if negb created then None else Some (PyModule "name" (name_methods af) [] []).
Definition PyInit_trace (data : list byte) (created : bool) : option pymodule :=
  if negb created then None else Some (PyModule "trace" (trace_methods data) trace_init []).
Definition PyInit_system (f : features) (created : bool) : option pymodule :=
  if negb created then None else Some (PyModule "system" system_methods (system_init c f) []).

(** [ready] is the success of PyType_Ready. *)
Definition PyInit_regset (ready created : bool) : option pymodule :=
  if negb ready then None
  else if negb created then None else Some (PyModule "regset" regset_methods [] ["ProcessRegistrySet"]).

(** What Python finds under a name: a constant is added after the methods and replaces
    what had its name. *)
Definition attribute (m : pymodule) (name : string) : option (method + Z) :=
  match module_get (pm_consts m) name with
  | Some z => Some (inr z)
  | None => (fun p => inl p.2.2) <$> list_find (fun p => p.1 = name) (pm_methods m)
  end.

(** ** Attributes *)

Lemma module_get_app l l' name :
  module_get (l ++ l') name = match module_get l' name with Some v => Some v | None => module_get l name end.
Proof.
  revert l. induction l' as [|[n v] l' IH] using rev_ind; intros l.
  - by rewrite app_nil_r.
  - rewrite app_assoc. unfold module_get in *. rewrite !foldl_app. simpl. destruct (String.eqb n name); [done|].
    rewrite <- IH. by rewrite foldl_app.
Qed.

Lemma module_get_None l name : name ∉ l.*1 -> module_get l name = None.
Proof.
  induction l as [|[n v] l IH] using rev_ind; [done|]. rewrite fmap_app, not_elem_of_app. simpl.
  intros [Hl Hn]. rewrite module_get_app. unfold module_get at 1. simpl.
  rewrite (proj2 (String.eqb_neq n name)) by set_solver. auto.
Qed.

Lemma module_get_Some l name v : NoDup l.*1 -> (name, v) ∈ l -> module_get l name = Some v.
Proof.
  induction l as [|[n x] l IH] using rev_ind; [intros _ H; by apply not_elem_of_nil in H|].
  rewrite fmap_app, NoDup_app. intros (Hl & Hd & _) Hin. rewrite module_get_app. unfold module_get at 1. simpl.
  apply elem_of_app in Hin as [Hin|Hin]; [|apply list_elem_of_singleton in Hin; simplify_eq; by rewrite String.eqb_refl].
  assert (Hne : n <> name).
  { intros ->. apply (Hd name); [|set_solver]. apply list_elem_of_fmap. by exists (name, v). }
  rewrite (proj2 (String.eqb_neq n name)) by done. auto.
Qed.

Lemma list_find_method (l : list (string * method)) name f :
  NoDup l.*1 -> (name, f) ∈ l ->
  (fun p => p.2.2) <$> list_find (fun p => p.1 = name) l = Some f.
Proof.
  induction l as [|[n g] l IH]; [intros _ H; by apply not_elem_of_nil in H|].
  rewrite fmap_cons, NoDup_cons. intros [Hn Hl] [Heq|Hin]%elem_of_cons; simpl.
  - simplify_eq. by rewrite decide_True.
  - rewrite decide_False by (intros ->; apply Hn, list_elem_of_fmap; by exists (name, f)).
    rewrite <- option_fmap_compose. specialize (IH Hl Hin). by destruct (list_find _ l).
Qed.

(** No name is used twice. *)
Definition unambiguous (m : pymodule) : Prop :=
  NoDup ((pm_methods m).*1 ++ (pm_consts m).*1).

Lemma unambiguous_attributes m :
  unambiguous m ->
  (forall name f, (name, f) ∈ pm_methods m -> attribute m name = Some (inl f)) /\
  (forall name z, (name, z) ∈ pm_consts m -> attribute m name = Some (inr z)).
Proof.
  intros (Hm & Hd & Hc)%NoDup_app. unfold attribute. split; intros name x Hin.
  - rewrite module_get_None; [|apply Hd, list_elem_of_fmap; by exists (name, x)].
    pose proof (list_find_method _ _ _ Hm Hin) as H. by destruct (list_find _ _) as [[? [? ?]]|]; simplify_eq/=.
  - by rewrite (module_get_Some _ _ _ Hc Hin).
Qed.

(** Every function and constant of the modules is found under its name, in every build,
    with one exception: the constants of the system module name HAVE_OPTION_SECCOMP
    twice. *)
Theorem python_attributes af data f :
  (forall m, m ∈ [PyInit_abi true; PyInit_event true; PyInit_name af true; PyInit_trace data true] ->
   exists p, m = Some p /\
     (forall name g, (name, g) ∈ pm_methods p -> attribute p name = Some (inl g)) /\
     (forall name z, (name, z) ∈ pm_consts p -> attribute p name = Some (inr z))) /\
  NoDup (filter (fun name => name <> "HAVE_OPTION_SECCOMP") (system_init c f).*1).
Proof.
  split; [|by apply (bool_decide_unpack _); vm_compute].
  intros m Hm. repeat (apply elem_of_cons in Hm as [->|Hm]; [eexists; split; [reflexivity|];
    apply unambiguous_attributes; unfold unambiguous|]); [..|by apply not_elem_of_nil in Hm].
  - unfold PyInit_abi, abi_init. simpl. destruct (PINK_ARCH c), (PINK_ARCH_POWERPC64 c);
      by apply (bool_decide_unpack _); vm_compute.
  - by apply (bool_decide_unpack _); vm_compute.
  - by apply (bool_decide_unpack _); vm_compute.
  - by apply (bool_decide_unpack _); vm_compute.
Qed.

End Modules.

(** ** Witness

    One object is made, another one fails for want of memory, and the first is filled:
    both can be released. *)
Section Witness.
Import Sim.X86.

Definition idle := PyState (CState task_idle 12) None.

Lemma registry_set_ownership_witness :
  exists h, rtc (heap_step x86_64_linux) (PyHeap idle ∅ ∅) h /\ ph_objs h = {[100 := 2000; 200 := 0]} /\
    exists h', ProcessRegistrySet_dealloc 100 h = Ret tt h' /\ ph_regs h' = ∅.
Proof.
  assert (Hsteps : exists h, rtc (heap_step x86_64_linux) (PyHeap idle ∅ ∅) h /\
    ph_objs h = {[100 := 2000; 200 := 0]} /\ delete 2000 (ph_regs h) = ∅).
  { eexists. split; [|split]; [eapply rtc_l; [|eapply rtc_l; [|eapply rtc_l; [|apply rtc_refl]]] | |].
    - eapply (step_new _ (Some 100) (Some 2000)); [by intros ? [= <-] | by intros ? [= <-] | vm_compute; reflexivity].
    - eapply (step_new _ (Some 200) None); [by intros ? [= <-] | done | vm_compute; reflexivity].
    - eapply (step_fill _ 100 (Some 7)). vm_compute. reflexivity.
    - vm_compute. reflexivity.
    - vm_compute. reflexivity. }
  destruct Hsteps as (h & Hs & Ho & Hr). exists h. split; [exact Hs|]. split; [exact Ho|].
  destruct (registry_set_ownership x86_64_linux idle h Hs) as [Hd _].
  destruct (Hd 100 2000) as [_ Hrun]; [rewrite Ho; vm_compute; reflexivity|].
  eexists. split; [exact Hrun | exact Hr].
Defined.

End Witness.
