(* ===== verification/Seatest.v ===== *)
(** * seatest.c: the unit test framework

    The file-scope variables of seatest.c are a record; what the framework writes to
    stdout is collected in it.  The functions run in any state that holds such a
    record ([SeaState]), so that tests can be run by them.  A hook for setup or teardown is
    a pointer to a function of the program: it is kept by its name, and [HookCode] says
    what the functions do.  Strings are C strings without their terminator. *)

From Stdlib Require Import ZArith Lia String Ascii SpecFloat.
From stdpp Require Import base list numbers strings pretty.
From S2P Require Import Prelude Config Tracer.
Local Open Scope string_scope.
Local Open Scope Z_scope.
Local Open Scope c_scope.

(** The hooks of the suite and of the fixture; [None] is a null pointer. *)
Record hooks : Type := Hooks {
  seatest_suite_setup_func : option string;
  seatest_suite_teardown_func : option string;
  seatest_fixture_setup : option string;
  seatest_fixture_teardown : option string;
}.

Definition no_hooks : hooks := Hooks None None None None.

Record sea : Type := Sea {
  sea_tests_run : Z;
  sea_tests_passed : Z;
  sea_tests_failed : Z;
  seatest_display_only : bool;
  seatest_verbose : bool;
  seatest_machine_readable : bool;
  seatest_current_fixture_path : option string;
  seatest_current_fixture : option string;
  seatest_magic_marker : string;
  seatest_fixture_tests_run : Z;
  seatest_fixture_tests_failed : Z;
  seatest_fixture_filter : option string;
  seatest_test_filter : option string;
  sea_hooks : hooks;
  sea_out : string;
}.

(** The initial values. *)
Definition sea_init : sea :=
  Sea 0 0 0 false false false None None "" 0 0 None None no_hooks "".

Definition clear_fixture (h : hooks) : hooks :=
  Hooks (seatest_suite_setup_func h) (seatest_suite_teardown_func h) None None.

Definition write_out (t : string) (w : sea) : sea :=
  Sea (sea_tests_run w) (sea_tests_passed w) (sea_tests_failed w) (seatest_display_only w)
    (seatest_verbose w) (seatest_machine_readable w) (seatest_current_fixture_path w)
    (seatest_current_fixture w) (seatest_magic_marker w) (seatest_fixture_tests_run w)
    (seatest_fixture_tests_failed w) (seatest_fixture_filter w) (seatest_test_filter w)
    (sea_hooks w) (sea_out w +:+ t).
Definition with_out (t : string) (w : sea) : sea :=
  Sea (sea_tests_run w) (sea_tests_passed w) (sea_tests_failed w) (seatest_display_only w)
    (seatest_verbose w) (seatest_machine_readable w) (seatest_current_fixture_path w)
    (seatest_current_fixture w) (seatest_magic_marker w) (seatest_fixture_tests_run w)
    (seatest_fixture_tests_failed w) (seatest_fixture_filter w) (seatest_test_filter w) (sea_hooks w) t.
Definition set_tests_run (n : Z) (w : sea) : sea :=
  Sea n (sea_tests_passed w) (sea_tests_failed w) (seatest_display_only w) (seatest_verbose
    w) (seatest_machine_readable w) (seatest_current_fixture_path w)
    (seatest_current_fixture w) (seatest_magic_marker w) (seatest_fixture_tests_run w)
    (seatest_fixture_tests_failed w) (seatest_fixture_filter w) (seatest_test_filter w)
    (sea_hooks w) (sea_out w).
Definition set_tests_passed (n : Z) (w : sea) : sea :=
  Sea (sea_tests_run w) n (sea_tests_failed w) (seatest_display_only w) (seatest_verbose w)
    (seatest_machine_readable w) (seatest_current_fixture_path w) (seatest_current_fixture
    w) (seatest_magic_marker w) (seatest_fixture_tests_run w) (seatest_fixture_tests_failed
    w) (seatest_fixture_filter w) (seatest_test_filter w) (sea_hooks w) (sea_out w).
Definition set_tests_failed (n : Z) (w : sea) : sea :=
  Sea (sea_tests_run w) (sea_tests_passed w) n (seatest_display_only w) (seatest_verbose w)
    (seatest_machine_readable w) (seatest_current_fixture_path w) (seatest_current_fixture
    w) (seatest_magic_marker w) (seatest_fixture_tests_run w) (seatest_fixture_tests_failed
    w) (seatest_fixture_filter w) (seatest_test_filter w) (sea_hooks w) (sea_out w).
Definition set_display_only (b : bool) (w : sea) : sea :=
  Sea (sea_tests_run w) (sea_tests_passed w) (sea_tests_failed w) b (seatest_verbose w)
    (seatest_machine_readable w) (seatest_current_fixture_path w) (seatest_current_fixture
    w) (seatest_magic_marker w) (seatest_fixture_tests_run w) (seatest_fixture_tests_failed
    w) (seatest_fixture_filter w) (seatest_test_filter w) (sea_hooks w) (sea_out w).
Definition set_verbose (b : bool) (w : sea) : sea :=
  Sea (sea_tests_run w) (sea_tests_passed w) (sea_tests_failed w) (seatest_display_only w) b
    (seatest_machine_readable w) (seatest_current_fixture_path w) (seatest_current_fixture
    w) (seatest_magic_marker w) (seatest_fixture_tests_run w) (seatest_fixture_tests_failed
    w) (seatest_fixture_filter w) (seatest_test_filter w) (sea_hooks w) (sea_out w).
Definition set_machine_readable (b : bool) (w : sea) : sea :=
  Sea (sea_tests_run w) (sea_tests_passed w) (sea_tests_failed w) (seatest_display_only w)
    (seatest_verbose w) b (seatest_current_fixture_path w) (seatest_current_fixture w)
    (seatest_magic_marker w) (seatest_fixture_tests_run w) (seatest_fixture_tests_failed w)
    (seatest_fixture_filter w) (seatest_test_filter w) (sea_hooks w) (sea_out w).
Definition set_fixture (path file : string) (run failed : Z) (w : sea) : sea :=
  Sea (sea_tests_run w) (sea_tests_passed w) (sea_tests_failed w) (seatest_display_only w)
    (seatest_verbose w) (seatest_machine_readable w) (Some path) (Some file)
    (seatest_magic_marker w) run failed (seatest_fixture_filter w) (seatest_test_filter w)
    (clear_fixture (sea_hooks w)) (sea_out w).
Definition set_fixture_filter (t : string) (w : sea) : sea :=
  Sea (sea_tests_run w) (sea_tests_passed w) (sea_tests_failed w) (seatest_display_only w)
    (seatest_verbose w) (seatest_machine_readable w) (seatest_current_fixture_path w)
    (seatest_current_fixture w) (seatest_magic_marker w) (seatest_fixture_tests_run w)
    (seatest_fixture_tests_failed w) (Some t) (seatest_test_filter w) (sea_hooks w) (sea_out w).
Definition set_test_filter (t : string) (w : sea) : sea :=
  Sea (sea_tests_run w) (sea_tests_passed w) (sea_tests_failed w) (seatest_display_only w)
    (seatest_verbose w) (seatest_machine_readable w) (seatest_current_fixture_path w)
    (seatest_current_fixture w) (seatest_magic_marker w) (seatest_fixture_tests_run w)
    (seatest_fixture_tests_failed w) (seatest_fixture_filter w) (Some t) (sea_hooks w) (sea_out w).
Definition set_marker (t : string) (w : sea) : sea :=
  Sea (sea_tests_run w) (sea_tests_passed w) (sea_tests_failed w) (seatest_display_only w)
    (seatest_verbose w) (seatest_machine_readable w) (seatest_current_fixture_path w)
    (seatest_current_fixture w) t (seatest_fixture_tests_run w)
    (seatest_fixture_tests_failed w) (seatest_fixture_filter w) (seatest_test_filter w)
    (sea_hooks w) (sea_out w).
Definition set_hooks (h : hooks) (w : sea) : sea :=
  Sea (sea_tests_run w) (sea_tests_passed w) (sea_tests_failed w) (seatest_display_only w)
    (seatest_verbose w) (seatest_machine_readable w) (seatest_current_fixture_path w)
    (seatest_current_fixture w) (seatest_magic_marker w) (seatest_fixture_tests_run w)
    (seatest_fixture_tests_failed w) (seatest_fixture_filter w) (seatest_test_filter w) h (sea_out w).

(** States that hold the framework's variables. *)
Class SeaState (W : Type) : Type := {
  get_sea : W -> sea;
  put_sea : sea -> W -> W;
  get_put_sea g w : get_sea (put_sea g w) = g;
  put_put_sea g g' w : put_sea g (put_sea g' w) = put_sea g w;
  put_get_sea w : put_sea (get_sea w) w = w;
}.

(** The functions of the program that a hook can name. *)
Class HookCode (W : Type) : Type := { call_hook : string -> comp W unit }.

#[export] Instance sea_state : SeaState sea.
Proof. refine {| get_sea := fun w => w; put_sea := fun g _ => g |}; done. Defined.

(** ** Text *)

(** The carriage return and line feed. *)
Definition crlf : string := String (ascii_of_nat 13) (String (ascii_of_nat 10) EmptyString).
Definition tab : string := String (ascii_of_nat 9) EmptyString.
Definition backslash : ascii := ascii_of_nat 92.

(** [n] copies of a character: a loop of [printf("%c", f)]. *)
Fixpoint copies (n : nat) (f : ascii) : string :=
  match n with O => "" | S n' => String f (copies n' f) end.

(** [%-ns] and [%-nd] *)
Definition pad (n : nat) (t : string) : string := t +:+ copies (n - String.length t) " ".

(** strcasecmp(3) in the C locale. *)
Definition to_lower (a : ascii) : ascii :=
  let n := nat_of_ascii a in
  if (65 <=? n)%nat && (n <=? 90)%nat then ascii_of_nat (n + 32) else a.
Fixpoint seatest_is_string_equal_i (s1 s2 : string) : bool :=
  match s1, s2 with
  | EmptyString, EmptyString => true
  | String a s1', String b s2' =>
      Ascii.eqb (to_lower a) (to_lower b) && seatest_is_string_equal_i s1' s2'
  | _, _ => false
  end.

(** The text after the last backslash, searched from the end; [n] is the place of
    [file] in [path]. *)
Fixpoint file_name_loop (path : string) (n : nat) : nat :=
  match n with
  | O => O
  | S n' => if bool_decide (String.get n path = Some backslash) then n else file_name_loop path n'
  end.
Definition test_file_name (path : string) : string :=
  let file := file_name_loop path (String.length path) in
  let file := if bool_decide (String.get file path = Some backslash) then S file else file in
  substring file (String.length path - file) path.

(** *** Floating point numbers

    [float] and [double] are the binary formats of IEEE 754, rounding to nearest. *)
Definition flt_prec : Z := 24.
Definition flt_emax : Z := 128.
Definition dbl_prec : Z := 53.
Definition dbl_emax : Z := 1024.

(** The quotient, rounded to nearest, ties to even. *)
Definition round_div (a b : Z) : Z :=
  let q := a / b in
  let r := 2 * (a mod b) in
  if (b <? r) || ((r =? b) && Z.odd q) then q + 1 else q.

(** [%f] of a positive number m * 2^e: six decimals. *)
Definition fmt_f_finite (m : positive) (e : Z) : string :=
  let scaled := Z.pos m * 10 ^ 6 * 2 ^ Z.max e 0 in
  let n := round_div scaled (2 ^ Z.max (- e) 0) in
  let frac := fmt_d (n mod 10 ^ 6) in
  fmt_d (n / 10 ^ 6) +:+ "." +:+ zeros (6 - String.length frac) +:+ frac.

Definition sign_text (s : bool) : string := if s then "-" else "".

(** The sign of a NaN is not kept. *)
Definition fmt_f (x : spec_float) : string :=
  match x with
  | S754_zero s => sign_text s +:+ "0.000000"
  | S754_infinity s => sign_text s +:+ "inf"
  | S754_nan => "nan"
  | S754_finite s m e => sign_text s +:+ fmt_f_finite m e
  end.

Definition is_negative (x : spec_float) : bool := SFltb x (S754_zero false).

(** ** Results *)

Section Framework.
Context {W : Type} `{!SeaState W}.

Definition sea_get {A} (f : sea -> A) : comp W A := fun w => Ret (f (get_sea w)) w.
Definition sea_mod (f : sea -> sea) : comp W unit := fun w => Ret tt (put_sea (f (get_sea w)) w).

(** printf(3) of the framework. *)
Definition sea_printf (t : string) : comp W unit := sea_mod (write_out t).

(** [n++] on an [int]. *)
Definition increment (n : Z) : comp W Z := checked (int_value (n + 1)).

(** A null pointer printed by %s. *)
Definition or_null (t : option string) : string := default "(null)" t.

Definition seatest_simple_test_result_log (passed : bool) (reason function : string) (line : Z)
  : comp W unit :=
  let! machine := sea_get seatest_machine_readable in
  let! marker := sea_get seatest_magic_marker in
  let! path := sea_get seatest_current_fixture_path in
  if negb passed then
    (if (machine : bool)
     then sea_printf (marker +:+ or_null path +:+ "," +:+ function +:+ "," +:+ fmt_d line +:+ ","
                      +:+ reason +:+ crlf)
     else sea_printf (pad 30 function +:+ " Line " +:+ pad 5 (fmt_d line) +:+ " " +:+ reason +:+ crlf)) ;;
    let! n := sea_get sea_tests_failed in
    let! n := increment n in
    sea_mod (set_tests_failed n)
  else
    let! verbose := sea_get seatest_verbose in
    (if (verbose : bool) then
       if (machine : bool)
       then sea_printf (marker +:+ or_null path +:+ "," +:+ function +:+ "," +:+ fmt_d line
                        +:+ ",Passed" +:+ crlf)
       else sea_printf (pad 30 function +:+ " Line " +:+ pad 5 (fmt_d line) +:+ " Passed" +:+ crlf)
     else cret tt) ;;
    let! n := sea_get sea_tests_passed in
    let! n := increment n in
    sea_mod (set_tests_passed n).

Definition SEATEST_PRINT_BUFFER_SIZE : nat := Pos.to_nat 100000.

(** sprintf(3) into a buffer of that size, which must also hold the terminator. *)
Definition sprintf_buffer (t : string) : comp W string :=
  if (Z.of_nat (String.length t) <? 100000) then cret t else cundef.

Definition seatest_assert_true (test : bool) (function : string) (line : Z) : comp W unit :=
  seatest_simple_test_result_log test "Should have been true" function line.

Definition seatest_assert_false (test : bool) (function : string) (line : Z) : comp W unit :=
  seatest_simple_test_result_log (negb test) "Should have been false" function line.

Definition seatest_assert_int_equal (expected actual : Z) (function : string) (line : Z)
  : comp W unit :=
  let! s := sprintf_buffer ("Expected " +:+ fmt_d expected +:+ " but was " +:+ fmt_d actual) in
  seatest_simple_test_result_log (expected =? actual) s function line.

Definition seatest_assert_ulong_equal (expected actual : Z) (function : string) (line : Z)
  : comp W unit :=
  let! s := sprintf_buffer ("Expected " +:+ fmt_d expected +:+ " but was " +:+ fmt_d actual) in
  seatest_simple_test_result_log (expected =? actual) s function line.

(** The comparison of the two functions for floating point numbers. *)
Definition close_enough (prec emax : Z) (expected actual delta : spec_float) : bool :=
  let result := SFsub prec emax expected actual in
  let result := if is_negative result then SFsub prec emax (S754_zero false) result else result in
  SFleb result delta.

Definition seatest_assert_float_equal (expected actual delta : spec_float) (function : string)
    (line : Z) : comp W unit :=
  let! s := sprintf_buffer ("Expected " +:+ fmt_f expected +:+ " but was " +:+ fmt_f actual) in
  seatest_simple_test_result_log (close_enough flt_prec flt_emax expected actual delta) s function line.

Definition seatest_assert_double_equal (expected actual delta : spec_float) (function : string)
    (line : Z) : comp W unit :=
  let! s := sprintf_buffer ("Expected " +:+ fmt_f expected +:+ " but was " +:+ fmt_f actual) in
  seatest_simple_test_result_log (close_enough dbl_prec dbl_emax expected actual delta) s function line.

Definition seatest_assert_string_equal (expected actual : option string) (function : string)
    (line : Z) : comp W unit :=
  let! s :=
    sprintf_buffer
      match expected, actual with
      | None, None => "Expected <NULL> but was <NULL>"
      | None, Some a => "Expected <NULL> but was " +:+ a
      | Some e, None => "Expected " +:+ e +:+ " but was <NULL>"
      | Some e, Some a => "Expected " +:+ e +:+ " but was " +:+ a
      end in
  seatest_simple_test_result_log (bool_decide (expected = actual)) s function line.

(** The pointer leaves the string when [expected] is the longer one. *)
Definition seatest_assert_string_ends_with (expected actual : string) (function : string) (line : Z)
  : comp W unit :=
  let! s := sprintf_buffer ("Expected " +:+ actual +:+ " to end with " +:+ expected) in
  let la := String.length actual in
  let le := String.length expected in
  if (la <? le)%nat then cundef
  else seatest_simple_test_result_log (String.eqb expected (substring (la - le) le actual))
         s function line.

Definition seatest_assert_string_starts_with (expected actual : string) (function : string)
    (line : Z) : comp W unit :=
  let! s := sprintf_buffer ("Expected " +:+ actual +:+ " to start with " +:+ expected) in
  seatest_simple_test_result_log (String.prefix expected actual) s function line.

Definition seatest_assert_string_contains (expected actual : string) (function : string) (line : Z)
  : comp W unit :=
  let! s := sprintf_buffer ("Expected " +:+ expected +:+ " to be in " +:+ actual) in
  seatest_simple_test_result_log (bool_decide (is_Some (String.index 0 expected actual))) s function line.

Definition seatest_assert_string_doesnt_contain (expected actual : string) (function : string)
    (line : Z) : comp W unit :=
  let! s := sprintf_buffer ("Expected " +:+ actual +:+ " not to have " +:+ expected +:+ " in it") in
  seatest_simple_test_result_log (negb (bool_decide (is_Some (String.index 0 expected actual))))
    s function line.

(** The macros that check by themselves.  The array macro goes through [n] elements; one
    outside of an array is undefined. *)
Fixpoint n_array_loop (todo : nat) (i : nat) (expected actual : list Z) (function : string) (line : Z)
  : comp W unit :=
  match todo with
  | O => cret tt
  | S todo' =>
      let! a := checked (actual !! i) in
      let! e := checked (expected !! i) in
      let! s := sprintf_buffer ("Expected " +:+ fmt_d a +:+ " to be " +:+ fmt_d e +:+ " at position "
                                +:+ fmt_d (Z.of_nat i)) in
      seatest_simple_test_result_log (e =? a) s function line ;;
      n_array_loop todo' (S i) expected actual function line
  end.
Definition assert_n_array_equal (expected actual : list Z) (n : Z) : string -> Z -> comp W unit :=
  n_array_loop (Z.to_nat n) 0 expected actual.

(** [1 << bit_number] of an [int]. *)
Definition int_bit (bit_number : Z) : option Z :=
  if (0 <=? bit_number) && (bit_number <? 31) then Some (Z.shiftl 1 bit_number) else None.

Definition assert_bit_set (bit_number value : Z) (function : string) (line : Z) : comp W unit :=
  let! b := checked (int_bit bit_number) in
  seatest_simple_test_result_log (negb (Z.land b value =? 0)) " Expected bit to be set" function line.
Definition assert_bit_not_set (bit_number value : Z) (function : string) (line : Z) : comp W unit :=
  let! b := checked (int_bit bit_number) in
  seatest_simple_test_result_log (Z.land b value =? 0) " Expected bit not to to be set" function line.
Definition assert_bit_mask_matches (value mask : Z) (function : string) (line : Z) : comp W unit :=
  seatest_simple_test_result_log (Z.land value mask =? mask) " Expected all bits of mask to be set"
    function line.
Definition assert_fail (message function : string) (line : Z) : comp W unit :=
  seatest_simple_test_result_log false message function line.

(** ** Fixtures *)

Definition seatest_run_test : comp W unit :=
  let! n := sea_get sea_tests_run in
  let! n := increment n in
  sea_mod (set_tests_run n).

Definition seatest_screen_width : Z := 70.

(** What the three loops print. *)
Definition header_text (s : string) (length : Z) (f : ascii) : string :=
  let l := Z.of_nat (String.length s) in
  let d := Z.quot (length - (l + 2)) 2 in
  copies (Z.to_nat d) f +:+
  (if l =? 0 then copies 2 f else " " +:+ s +:+ " ") +:+
  copies (Z.to_nat (length - (d + l + 2))) f +:+ crlf.

Definition seatest_header_printer (s : string) (length : Z) (f : ascii) : comp W unit :=
  let! display := sea_get seatest_display_only in
  let! machine := sea_get seatest_machine_readable in
  if (display : bool) || (machine : bool) then cret tt else sea_printf (header_text s length f).

Definition seatest_test_fixture_start (filepath : string) : comp W unit :=
  sea_mod (fun w => set_fixture filepath (test_file_name filepath) (sea_tests_run w)
                      (sea_tests_failed w) w) ;;
  seatest_header_printer (test_file_name filepath) seatest_screen_width "-".

Definition seatest_test_fixture_end : comp W unit :=
  let! run := sea_get (fun w => sea_tests_run w - seatest_fixture_tests_run w) in
  let! failed := sea_get (fun w => sea_tests_failed w - seatest_fixture_tests_failed w) in
  seatest_header_printer (fmt_d run +:+ " run  " +:+ fmt_d failed +:+ " failed")
    seatest_screen_width " " ;;
  sea_printf crlf.

Definition seatest_display_test (fixture_name : string) (test_name : option string) : comp W unit :=
  match test_name with
  | None => cret tt
  | Some t => sea_printf (fixture_name +:+ "," +:+ t +:+ crlf)
  end.

(** A filter that is not set or that is a prefix. *)
Definition matches_filter (filter : option string) (name : string) : bool :=
  match filter with None => true | Some f => String.prefix f name end.

Definition seatest_should_run (fixture : string) (test : option string) : comp W bool :=
  let! ff := sea_get seatest_fixture_filter in
  let! tf := sea_get seatest_test_filter in
  let! display := sea_get seatest_display_only in
  let run := matches_filter ff fixture
             && match test with None => true | Some t => matches_filter tf t end in
  if run && (display : bool) then seatest_display_test fixture test ;; cret false
  else cret run.

(** ** Hooks *)

Definition mod_hooks (f : hooks -> hooks) : comp W unit :=
  sea_mod (fun w => set_hooks (f (sea_hooks w)) w).

Definition suite_setup (setup : option string) : comp W unit :=
  mod_hooks (fun h => Hooks setup (seatest_suite_teardown_func h) (seatest_fixture_setup h)
                        (seatest_fixture_teardown h)).
Definition suite_teardown (teardown : option string) : comp W unit :=
  mod_hooks (fun h => Hooks (seatest_suite_setup_func h) teardown (seatest_fixture_setup h)
                        (seatest_fixture_teardown h)).
Definition fixture_setup (setup : option string) : comp W unit :=
  mod_hooks (fun h => Hooks (seatest_suite_setup_func h) (seatest_suite_teardown_func h) setup
                        (seatest_fixture_teardown h)).
Definition fixture_teardown (teardown : option string) : comp W unit :=
  mod_hooks (fun h => Hooks (seatest_suite_setup_func h) (seatest_suite_teardown_func h)
                        (seatest_fixture_setup h) teardown).

(** [if (hook != 0) hook();] *)
Definition call_if `{!HookCode W} (hook : hooks -> option string) : comp W unit :=
  let! f := sea_get (fun w => hook (sea_hooks w)) in
  match f with Some f => call_hook f | None => cret tt end.

Definition seatest_suite_setup `{!HookCode W} : comp W unit := call_if seatest_suite_setup_func.
Definition seatest_suite_teardown `{!HookCode W} : comp W unit := call_if seatest_suite_teardown_func.
Definition seatest_setup `{!HookCode W} : comp W unit := call_if seatest_fixture_setup.
Definition seatest_teardown `{!HookCode W} : comp W unit := call_if seatest_fixture_teardown.

(** A test can end the process it runs in: a child that it forks exits inside of it.
    [Some e] says so and how. *)
Context {E : Type}.

Definition and_then (f g : comp W (option E)) : comp W (option E) :=
  let! e := f in
  match e with Some e => cret (Some e) | None => g end.

(** The macro run_test. *)
Definition run_test `{!HookCode W} (file name : string) (test : comp W (option E))
  : comp W (option E) :=
  let! run := seatest_should_run file (Some name) in
  if (run : bool) then
    seatest_suite_setup ;;
    seatest_setup ;;
    and_then test (seatest_teardown ;; seatest_suite_teardown ;; seatest_run_test ;; cret None)
  else cret None.

(** A list of tests, one after the other. *)
Definition run_all (l : list (comp W (option E))) : comp W (option E) :=
  foldr and_then (cret None) l.

(** ** Running *)

Definition report : comp W bool :=
  let! display := sea_get seatest_display_only in
  let! machine := sea_get seatest_machine_readable in
  if (display : bool) || (machine : bool) then cret true
  else
    sea_printf (crlf +:+ crlf) ;;
    seatest_header_printer "SEATEST v0.5" seatest_screen_width "=" ;;
    sea_printf crlf ;;
    let! failed := sea_get sea_tests_failed in
    seatest_header_printer (if 0 <? failed then "Failed" else "ALL TESTS PASSED")
      seatest_screen_width " " ;;
    let! run := sea_get sea_tests_run in
    seatest_header_printer (fmt_d run +:+ " tests run") seatest_screen_width " " ;;
    seatest_header_printer "in 0 ms" seatest_screen_width " " ;;
    sea_printf crlf ;;
    seatest_header_printer "" seatest_screen_width "=" ;;
    let! failed := sea_get sea_tests_failed in
    cret (failed =? 0).

Definition run_tests (tests : comp W (option E)) : comp W (bool + E) :=
  let! e := tests in
  match e with
  | Some e => cret (inr e)
  | None => let! b := report in cret (inl b)
  end.

(** ** The command line *)

Inductive seatest_action_t : Type :=
| SEATEST_DISPLAY_TESTS
| SEATEST_RUN_TESTS
| SEATEST_DO_NOTHING
| SEATEST_DO_ABORT.

#[export] Instance seatest_action_eq_dec : EqDecision seatest_action_t.
Proof. solve_decision. Defined.

Definition seatest_show_help : comp W unit :=
  sea_printf
    ("Usage: [-t <testname>] [-f <fixturename>] [-d] [help] [-v] [-m] [-k <marker>" +:+ crlf +:+
     "Flags:" +:+ crlf +:+
     tab +:+ "help:" +:+ tab +:+ "will display this help" +:+ crlf +:+
     tab +:+ "-t:" +:+ tab +:+ "will only run tests that match <testname>" +:+ crlf +:+
     tab +:+ "-f:" +:+ tab +:+ "will only run fixtures that match <fixturename>" +:+ crlf +:+
     tab +:+ "-d:" +:+ tab +:+ "will just display test names and fixtures without" +:+ crlf +:+
     tab +:+ "-d:" +:+ tab +:+ "running the test" +:+ crlf +:+
     tab +:+ "-v:" +:+ tab +:+ "will print a more verbose version of the test run" +:+ crlf +:+
     tab +:+ "-m:" +:+ tab +:+ "will print a machine readable format of the test run, ie :- " +:+ crlf +:+
     tab +:+ "   " +:+ tab +:+ "<textfixture>,<testname>,<linenumber>,<testresult><EOL>" +:+ crlf +:+
     tab +:+ "-k:" +:+ tab +:+ "will prepend <marker> before machine readable output " +:+ crlf +:+
     tab +:+ "   " +:+ tab +:+ "<marker> cannot start with a '-'" +:+ crlf).

Definition fixture_filter (filter : string) : comp W unit := sea_mod (set_fixture_filter filter).
Definition test_filter (filter : string) : comp W unit := sea_mod (set_test_filter filter).

(** strcpy(3) into an array of 20. *)
Definition set_magic_marker (marker : string) : comp W unit :=
  if (String.length marker <? 20)%nat then sea_mod (set_marker marker) else cundef.

Definition seatest_commandline_has_value_after (argv : list string) (arg : nat) : comp W bool :=
  if negb (S arg <? length argv)%nat then cret false
  else
    let! next := checked (argv !! S arg) in
    cret (negb (bool_decide (String.get 0 next = Some "-"%char))).

(** Whether the option was there with its value, and the action. *)
Definition seatest_parse_commandline_option_with_value (argv : list string)
    (action : seatest_action_t) (arg : nat) (opt : string) (setter : string -> comp W unit)
  : comp W (bool * seatest_action_t) :=
  let! a := checked (argv !! arg) in
  if seatest_is_string_equal_i a opt then
    let! has := seatest_commandline_has_value_after argv arg in
    if negb has then
      sea_printf ("Error: The " +:+ opt +:+ " option expects to be followed by a value" +:+ crlf) ;;
      cret (false, SEATEST_DO_ABORT)
    else
      let! value := checked (argv !! S arg) in
      setter value ;; cret (true, action)
  else cret (false, action).

(** One option after the other at the same place; a value that was taken is
    skipped. *)
Definition option_at (argv : list string) (opt : string) (setter : string -> comp W unit)
    (p : seatest_action_t * nat) : comp W (seatest_action_t * nat) :=
  let! (taken, action) :=
    seatest_parse_commandline_option_with_value argv p.1 p.2 opt setter in
  cret (action, if taken then S p.2 else p.2).

(** The loop of the interpreter, from [arg] on. *)
Fixpoint interpret_loop (fuel : nat) (argv : list string) (action : seatest_action_t) (arg : nat)
  : comp W seatest_action_t :=
  match fuel with
  | O => cnofuel
  | S fuel' =>
      if negb ((arg <? length argv)%nat && bool_decide (action <> SEATEST_DO_ABORT)) then cret action
      else
        let! a := checked (argv !! arg) in
        if seatest_is_string_equal_i a "help" then seatest_show_help ;; cret SEATEST_DO_NOTHING
        else
          let action := if seatest_is_string_equal_i a "-d" then SEATEST_DISPLAY_TESTS else action in
          (if seatest_is_string_equal_i a "-v" then sea_mod (set_verbose true) else cret tt) ;;
          (if seatest_is_string_equal_i a "-m" then sea_mod (set_machine_readable true) else cret tt) ;;
          let! p := option_at argv "-t" test_filter (action, arg) in
          let! p := option_at argv "-f" fixture_filter p in
          let! p := option_at argv "-k" set_magic_marker p in
          interpret_loop fuel' argv p.1 (S p.2)
  end.

(** Every iteration moves on by at least one argument. *)
Definition seatest_interpret_commandline (argv : list string) (action : seatest_action_t)
  : comp W seatest_action_t :=
  interpret_loop (S (length argv)) argv action 0.

Definition seatest_testrunner (argv : list string) (tests : comp W (option E))
    (setup teardown : option string) : comp W (bool + E) :=
  let! action := seatest_interpret_commandline argv SEATEST_RUN_TESTS in
  match action with
  | SEATEST_DISPLAY_TESTS =>
      sea_mod (set_display_only true) ;;
      let! r := run_tests tests in
      cret match r with inl _ => inl true | inr e => inr e end
  | SEATEST_RUN_TESTS => suite_setup setup ;; suite_teardown teardown ;; run_tests tests
  | SEATEST_DO_NOTHING | SEATEST_DO_ABORT => cret (inl true)
  end.

End Framework.

(** ** Properties *)

Lemma length_append a b : String.length (a +:+ b) = (String.length a + String.length b)%nat.
Proof. induction a as [|x a IH]; [done|]. exact (f_equal S IH). Qed.

Lemma length_copies n f : String.length (copies n f) = n.
Proof. induction n as [|n IH]; [done|]. exact (f_equal S IH). Qed.

(** A header line fills the width exactly: it has as many characters as the width,
    or two more than its text when that does not fit, and the end of the line. *)
Theorem header_text_width s length f :
  Z.of_nat (String.length (header_text s length f))
  = Z.max length (Z.of_nat (String.length s) + 2) + 2.
Proof.
  unfold header_text. rewrite !length_append, !length_copies. change (String.length crlf) with 2%nat.
  set (l := Z.of_nat (String.length s)).
  assert (Hm : Z.of_nat (String.length (if l =? 0 then copies 2 f else " " +:+ s +:+ " ")) = l + 2).
  { unfold l. destruct (Z.eqb_spec (Z.of_nat (String.length s)) 0) as [->|_]; [done|].
    rewrite !length_append. simpl. lia. }
  rewrite !Nat2Z.inj_add, Hm.
  pose proof (Z.quot_rem' (length - (l + 2)) 2) as Hq.
  destruct (Z.le_gt_cases (l + 2) length).
  - pose proof (Z.rem_bound_pos (length - (l + 2)) 2 ltac:(lia) ltac:(lia)).
    rewrite !Z2Nat.id by lia. lia.
  - pose proof (Z.rem_bound_pos_neg (length - (l + 2)) 2 ltac:(lia) ltac:(lia)).
    rewrite (Z2Nat.nonpos (Z.quot (length - (l + 2)) 2)) by lia.
    rewrite Z2Nat.nonpos by lia. lia.
Qed.

(** Floating point numbers are close enough when the absolute value of their difference is
    at most delta; a NaN is close to nothing. *)
Theorem close_enough_abs prec emax expected actual delta :
  close_enough prec emax expected actual delta = SFleb (SFabs (SFsub prec emax expected actual)) delta.
Proof.
  unfold close_enough. generalize (SFsub prec emax expected actual). intros r. unfold is_negative.
  destruct r as [s|[]| |[] m e]; cbn; try done; by destruct delta as [| | |].
Qed.

(** [%f] is exact up to half of the last digit. *)
Lemma round_div_near a b : 0 < b -> 2 * Z.abs (round_div a b * b - a) <= b.
Proof.
  intros Hb. unfold round_div. pose proof (Z.div_mod a b ltac:(lia)). pose proof (Z.mod_pos_bound a b Hb).
  destruct (_ || _) eqn:E; lia.
Qed.

(** One tenth and its neighbour 2^-4, in [double]. *)
Example fmt_f_examples :
  fmt_f (S754_finite false 3602879701896397 (-55)) = "0.100000" /\
  fmt_f (S754_finite true 1 (-4)) = "-0.062500" /\ fmt_f (S754_finite false 5 3) = "40.000000".
Proof. by vm_compute. Qed.

Section Properties.
Context {W : Type} `{!SeaState W}.

(** What the framework says of a run does not depend on its output. *)
Definition counts (w : W) : Z * Z * Z :=
  (sea_tests_run (get_sea w), sea_tests_passed (get_sea w), sea_tests_failed (get_sea w)).
Definition quiet_mode (w : W) : bool :=
  seatest_display_only (get_sea w) || seatest_machine_readable (get_sea w).

(** A computation that returns [a] and only adds to the output. *)
Definition only_prints {A} (f : comp W A) (a : A) (w : W) : Prop :=
  exists t, f w = Ret a (put_sea (write_out t (get_sea w)) w).

Lemma put_id w : put_sea (get_sea w) w = w.
Proof. apply put_get_sea. Qed.

Lemma write_out_nil g : write_out "" g = g.
Proof. destruct g. unfold write_out. simpl. by rewrite append_nil_r. Qed.

Lemma prints_ret {A} (a : A) w : only_prints (cret a) a w.
Proof. exists "". by rewrite write_out_nil, put_id. Qed.

Lemma prints_printf t w : only_prints (sea_printf t) tt w.
Proof. by exists t. Qed.

Lemma prints_bind {A B} (f : comp W A) (g : A -> comp W B) a b w :
  only_prints f a w ->
  (forall t, only_prints (g a) b (put_sea (write_out t (get_sea w)) w)) ->
  only_prints (cbind f g) b w.
Proof.
  intros [t Hf] Hg. destruct (Hg t) as [t' Ht']. exists (t +:+ t').
  rewrite (cbind_run _ _ _ _ _ Hf), Ht', get_put_sea, put_put_sea. f_equal. f_equal.
  destruct (get_sea w). unfold write_out. simpl. by rewrite append_assoc.
Qed.

Lemma prints_get {A B} (h : sea -> A) (g : A -> comp W B) b w :
  only_prints (g (h (get_sea w))) b w -> only_prints (cbind (sea_get h) g) b w.
Proof. done. Qed.

Lemma prints_header s l f w : only_prints (seatest_header_printer s l f) tt w.
Proof.
  unfold seatest_header_printer. do 2 apply prints_get. case_match; [apply prints_ret | apply prints_printf].
Qed.

Lemma prints_report w :
  only_prints report (quiet_mode w || (sea_tests_failed (get_sea w) =? 0)) w.
Proof.
  unfold report. do 2 apply prints_get. unfold quiet_mode. case_match; [apply prints_ret|]. simpl.
  repeat (first [apply prints_get
    | eapply prints_bind; [first [apply prints_printf | apply prints_header] | intros ?]]).
  rewrite !get_put_sea. simpl. apply prints_ret.
Qed.

Lemma run_tests_run {E} (tests : comp W (option E)) w w' :
  tests w = Ret None w' ->
  exists t, run_tests tests w
    = Ret (inl (quiet_mode w' || (sea_tests_failed (get_sea w') =? 0)))
        (put_sea (write_out t (get_sea w')) w').
Proof.
  intros Ht. destruct (prints_report w') as [t Hr]. exists t. unfold run_tests.
  by rewrite (cbind_run _ _ _ _ _ Ht), (cbind_run _ _ _ _ _ Hr).
Qed.

(** The program once the runner has installed the hooks of the suite. *)
Definition with_suite (setup teardown : option string) (w : W) : W :=
  put_sea (set_hooks (Hooks setup teardown (seatest_fixture_setup (sea_hooks (get_sea w)))
                        (seatest_fixture_teardown (sea_hooks (get_sea w)))) (get_sea w)) w.

Lemma testrunner_run {E} argv (tests : comp W (option E)) setup teardown w w1 :
  seatest_interpret_commandline argv SEATEST_RUN_TESTS w = Ret SEATEST_RUN_TESTS w1 ->
  seatest_testrunner argv tests setup teardown w = run_tests tests (with_suite setup teardown w1).
Proof.
  intros Hi. unfold seatest_testrunner. rewrite (cbind_run _ _ _ _ _ Hi).
  unfold suite_setup, suite_teardown, mod_hooks, sea_mod, cbind, with_suite. cbn beta iota.
  by rewrite !get_put_sea, put_put_sea.
Qed.

(** The status of a run: once the command line asks for a run and the tests have
    returned, the runner returns, and its result is success exactly when no check
    failed, in the modes that report it; in the machine readable mode the result
    is success whatever failed. *)
Theorem seatest_testrunner_status {E} argv (tests : comp W (option E)) setup teardown (w w1 w2 : W) :
  seatest_interpret_commandline argv SEATEST_RUN_TESTS w = Ret SEATEST_RUN_TESTS w1 ->
  tests (with_suite setup teardown w1) = Ret None w2 ->
  exists b w', seatest_testrunner argv tests setup teardown w = Ret (inl b) w' /\ counts w' = counts w2 /\
    (quiet_mode w2 = false -> b = true <-> sea_tests_failed (get_sea w2) = 0) /\
    (quiet_mode w2 = true -> b = true).
Proof.
  intros Hi Ht. destruct (run_tests_run tests _ w2 Ht) as [t Hr].
  eexists _, _. split; [rewrite (testrunner_run _ _ _ _ _ _ Hi); exact Hr|].
  split_and!.
  - unfold counts. by rewrite get_put_sea.
  - intros ->. simpl. apply Z.eqb_eq.
  - by intros ->.
Qed.

(** *** Hooks *)

(** The hooks of a fixture do not outlive it: at the start of the next one there are none,
    and those of the suite stay. *)
Theorem fixture_start_clears `{!HookCode W} file (w : W) :
  exists w', seatest_test_fixture_start file w = Ret tt w' /\
    seatest_setup w' = Ret tt w' /\ seatest_teardown w' = Ret tt w' /\
    sea_hooks (get_sea w') = clear_fixture (sea_hooks (get_sea w)).
Proof.
  unfold seatest_test_fixture_start. set (f := fun w => set_fixture _ _ _ _ w).
  rewrite (cbind_run (sea_mod f) _ w tt (put_sea (f (get_sea w)) w)) by done.
  destruct (prints_header (test_file_name file) seatest_screen_width "-" (put_sea (f (get_sea w)) w)) as [t Ht].
  rewrite Ht. eexists. split; [reflexivity|].
  unfold seatest_setup, seatest_teardown, call_if, sea_get, cbind. by rewrite !get_put_sea.
Qed.

(** *** The command line *)

(** The place of a marker that is too long. *)
Definition long_marker (argv : list string) : Prop :=
  exists i o m, argv !! i = Some o /\ seatest_is_string_equal_i o "-k" = true /\
    argv !! S i = Some m /\ (20 <= String.length m)%nat.

Definition returns {A} (f : comp W A) (Q : A -> Prop) (w : W) : Prop :=
  exists a w', f w = Ret a w' /\ Q a.

Lemma returns_bind {A B} (f : comp W A) (g : A -> comp W B) (R : A -> Prop) (Q : B -> Prop) w :
  returns f R w -> (forall a w', R a -> returns (g a) Q w') -> returns (cbind f g) Q w.
Proof.
  intros (a & w1 & Hf & Ha) Hg. destruct (Hg a w1 Ha) as (b & w2 & Hb & HQ).
  exists b, w2. by rewrite (cbind_run _ _ _ _ _ Hf).
Qed.

(** A setter that returns on the strings it accepts. *)
Lemma option_at_returns argv opt setter (ok : string -> Prop) p w :
  (p.2 < length argv)%nat -> (forall v w, ok v -> returns (setter v) (fun _ => True) w) ->
  (forall v, argv !! S p.2 = Some v ->
     (exists o, argv !! p.2 = Some o /\ seatest_is_string_equal_i o opt = true) -> ok v) ->
  returns (option_at argv opt setter p) (fun p' => p'.2 < length argv /\ p.2 <= p'.2)%nat w.
Proof.
  destruct p as [act arg]. cbn [fst snd]. intros Hp Hs Hok.
  destruct (lookup_lt_is_Some_2 argv arg Hp) as [a Ha].
  unfold option_at, seatest_parse_commandline_option_with_value, seatest_commandline_has_value_after.
  unfold returns, checked. cbn [fst snd]. rewrite Ha. unfold cbind, cret, cundef. cbn beta iota.
  destruct (seatest_is_string_equal_i a opt) eqn:He; [|eexists _, _; split; [reflexivity|]; simpl; lia].
  destruct (Nat.ltb_spec (S arg) (length argv)) as [Hl|Hl]; cbn [negb];
    [|eexists _, _; split; [reflexivity|]; simpl; lia].
  destruct (lookup_lt_is_Some_2 argv (S arg) Hl) as [v Hv]. rewrite Hv. cbn beta iota.
  destruct (bool_decide (String.get 0 v = Some "-"%char)) eqn:Hd; cbn [negb];
    [eexists _, _; split; [reflexivity|]; simpl; lia|].
  destruct (Hs v w (Hok v Hv (ex_intro _ a (conj Ha He)))) as ([] & w' & Hset & _).
  rewrite Hset. eexists _, _. split; [reflexivity|]. simpl. lia.
Qed.

Lemma interpret_loop_returns argv fuel act arg w :
  ~ long_marker argv -> (arg <= length argv < fuel + arg)%nat ->
  returns (interpret_loop fuel argv act arg) (fun _ => True) w.
Proof.
  intros Hm. revert act arg w. induction fuel as [|fuel IH]; intros act arg w Hf; cbn [interpret_loop].
  { lia. }
  destruct (Nat.ltb_spec arg (length argv)) as [Hl|Hl]; cbn [andb negb]; [|by eexists _, _].
  destruct (bool_decide (act <> SEATEST_DO_ABORT)); cbn [negb]; [|by eexists _, _].
  destruct (lookup_lt_is_Some_2 argv arg Hl) as [a Ha]. rewrite Ha. cbn [checked].
  rewrite cbind_cret_l. destruct (seatest_is_string_equal_i a "help"); [by eexists _, _|].
  set (act' := if seatest_is_string_equal_i a "-d" then SEATEST_DISPLAY_TESTS else act).
  eapply (returns_bind _ _ (fun _ => True)); [case_match; by eexists _, _|]. intros _ w1 _.
  eapply (returns_bind _ _ (fun _ => True)); [case_match; by eexists _, _|]. intros _ w2 _.
  eapply returns_bind; [apply (option_at_returns _ _ _ (fun _ => True)); [done | by eexists _, _ | done]|].
  intros p1 w3 [Hp1 Hle1].
  eapply returns_bind; [apply (option_at_returns _ _ _ (fun _ => True)); [done | by eexists _, _ | done]|].
  intros p2 w4 [Hp2 Hle2].
  eapply returns_bind; [apply (option_at_returns _ _ _ (fun v => String.length v < 20)%nat); [done| |]|].
  - intros v w' Hv. unfold set_magic_marker. rewrite (proj2 (Nat.ltb_lt _ _) Hv). by eexists _, _.
  - intros v Hv (o & Ho & Hk). apply Nat.nle_gt. intros Hlong. apply Hm. by exists p2.2, o, v.
  - intros p3 w5 [Hp3 Hle3]. apply IH. simpl in *. lia.
Qed.

(** C39. The command line is interpreted without leaving the argument vector and in as
    many steps as there are arguments, whatever it holds: the interpreter returns
    unless -k is followed by a marker of 20 or more characters, which overflows its
    array. *)
Theorem seatest_interpret_commandline_returns argv action (w : W) :
  ~ long_marker argv -> exists action' w',
    seatest_interpret_commandline argv action w = Ret action' w'.
Proof.
  intros Hm. destruct (interpret_loop_returns argv (S (length argv)) action 0 w Hm) as (a & w' & H & _);
    [lia|]. by exists a, w'.
Qed.

End Properties.

(** ** Witnesses *)

(** A failing test, run with machine readable output, and the status of success. *)
Definition failing : comp sea (option unit) :=
  seatest_assert_true false "some_test" 10 ;; cret None.
Definition machine : sea := set_machine_readable true sea_init.

Lemma seatest_testrunner_status_witness :
  exists b w', seatest_testrunner ["check"; "-m"] failing None None sea_init = Ret (inl b) w' /\
    b = true /\ sea_tests_failed w' = 1.
Proof.
  destruct (seatest_testrunner_status ["check"; "-m"] failing None None sea_init machine
    (match failing machine with Ret _ w => w | _ => machine end))
    as (b & w' & H & Hc & _ & Hq); [vm_compute; reflexivity | vm_compute; reflexivity |].
  exists b, w'. split_and!; [exact H | apply Hq; vm_compute; reflexivity |].
  unfold counts in Hc. by injection Hc.
Defined.

Lemma seatest_interpret_commandline_returns_witness :
  exists action' w', seatest_interpret_commandline ["check"; "-v"; "-k"; "x"] SEATEST_RUN_TESTS sea_init
    = Ret action' w'.
Proof.
  apply seatest_interpret_commandline_returns. intros (i & o & m & Ho & Hk & Hm & Hl).
  do 4 (destruct i as [|i]; [vm_compute in Ho; simplify_eq; vm_compute in Hk, Hm, Hl;
    simplify_eq; vm_compute in Hl; lia|]). done.
Defined.
