(* ===== verification/Check.v ===== *)
(** * pinktrace-check.c: the helpers of the test program

    The test program runs in a state made of the library's state, the variables of
    the test framework and its own globals.  What its children do is part of the
    same program: a fork that returns 0 goes on as the child, whose system calls are
    operations of the kernel.  A failed check is recorded with its message, its
    function and its line, as the macro fail_verbose does it; the line of a macro is
    the one its name is on.  What pprintf prints goes to the same stdout as the output of
    the framework; it asks isatty(3) each time, which may set [errno]. *)

From Stdlib Require Import ZArith Lia String Ascii.
From stdpp Require Import base list numbers strings.
From coqutil Require Import Byte Word.LittleEndianList.
From S2P Require Import Prelude Config Kernel Layout Trace Vm VmCross Name Regset Read Write Socket Pipe Tracer Seatest.
Local Open Scope string_scope.
Local Open Scope list_scope.
Local Open Scope Z_scope.
Local Open Scope c_scope.

(** ** The program's state *)

Record tests (K : Type) : Type := Tests {
  t_lib : cstate K;
  t_sea : sea;
  t_i : Z;
  t_pgid : Z;
  t_release : Z;
}.
Arguments Tests {K} _ _ _ _ _.
Arguments t_lib {K} _.
Arguments t_sea {K} _.
Arguments t_i {K} _.
Arguments t_pgid {K} _.
Arguments t_release {K} _.

#[export] Instance tests_sea {K} : SeaState (tests K).
Proof.
  refine {| get_sea := t_sea;
            put_sea := fun g w => Tests (t_lib w) g (t_i w) (t_pgid w) (t_release w) |}; by intros; case_match || destruct w.
Defined.

(** No function of the program is a hook. *)
#[export] Instance tests_hooks {K} : HookCode (tests K) := {| call_hook := fun _ => cundef |}.

(** Arguments of a system call: numbers, pointers to objects, and pointers to arrays
    of pointers. *)
Inductive carg : Type :=
| CVal (v : Z)
| CObj (bs : list byte)
| CArr (ps : list (option (list byte))).

(** A system call is made by number, with syscall(2), or by the name of its wrapper. *)
Inductive call_id : Type :=
| Numbered (nr : Z)
| Named (name : string).

(** What the test program asks of the kernel beside what the library and fork(2) do.
    [sys_execve] gives [inr] when it does not return. *)
Class CheckOps (K : Type) : Type := {
  sys_setpgid : Z -> Z -> K -> sysret * K;
  sys_call : call_id -> list carg -> K -> sysret * K;
  sys_execve : string -> list string -> K -> (sysret * K) + K;
  sys_uname : K -> sysret * string * K;
}.

(** Its surroundings: the build, the C library's texts, what malloc(3) gives for a
    register set, the indeterminate contents of local variables by their name, the
    text that %p prints for a pointer, __FILE__, what isatty(3) says of stdout, the
    environment, the numbers of <sys/syscall.h>, and a bound on the iterations of its
    loops. *)
Class Setting : Type := {
  cfg : config;
  HAVE_PIPE2 : bool;
  have_ipv6 : bool;
  have_netlink : bool;
  SYS_socketcall : option Z;
  SYS_number : string -> Z;
  strerror : Z -> string;
  strsignal : Z -> string;
  malloc_regset : option pink_regset;
  indet : string -> Z;
  indet_bytes : string -> list byte;
  fmt_p : string -> string;
  FILE : string -> string;
  isatty_stdout : sysret;
  PINKTRACE_CHECK_NOCOLOUR : option string;
  PINK_CHECK_SKIP : option string;
  fuel : nat;
}.

(** <sys/socket.h> *)
Definition AF_UNIX : Z := 1.
Definition AF_INET : Z := 2.
Definition AF_INET6 : Z := 10.
Definition AF_NETLINK : Z := 16.

Definition SIGTRAP : Z := 5.
Definition EINTR : Z := 4.
Definition ENOTTY : Z := 25.
Definition SIGCONT : Z := 18.
Definition WSTOPSIG (status : Z) : Z := WEXITSTATUS status.
Definition WCOREDUMP (status : Z) : bool := negb (Z.land status 0x80 =? 0).
Definition WIFCONTINUED (status : Z) : bool := to_uint status =? 0xffff.

Definition PINK_SYSCALL_INVALID (c : config) : Z :=
  match PINK_ARCH c with ARM => 0xbad | _ => 0xbadca11 end.

Definition KERNEL_VERSION (a b d : Z) : Z := Z.shiftl a 16 + Z.shiftl b 8 + d.

(** The socket.h macro. *)
Definition pink_read_socket_subcall {K} `{!KernelOps K} (c : config) (pid : Z) (r : pink_regset)
    (decode_socketcall : bool) : comp (cstate K) (Z * option Z) :=
  if decode_socketcall then pink_read_argument c pid r 0 else pink_read_syscall c pid r.

#[export] Instance byte_eq_decision : EqDecision byte := Byte.byte_eq_dec.

(** ** string.h, on bytes; [None] is a read beyond an object. *)

Definition memcmp_eq (a b : list byte) (n : nat) : option bool :=
  if (n <=? length a)%nat && (n <=? length b)%nat
  then Some (bool_decide (take n a = take n b)) else None.

Fixpoint strncmp_eq (a b : list byte) (n : nat) : option bool :=
  match n with
  | O => Some true
  | S n' =>
      match a, b with
      | x :: a', y :: b' =>
          if bool_decide (x = y) then
            if bool_decide (x = Byte.x00) then Some true else strncmp_eq a' b' n'
          else Some false
      | _, _ => None
      end
  end.

Definition strcmp_eq (a b : list byte) : option bool :=
  s ← cstring a; t ← cstring b; Some (String.eqb s t).

Section Check.
Context {K : Type} `{!KernelOps K} `{!ProcOps K} `{!CheckOps K} `{!Setting}.

#[local] Abbreviation M := (comp (tests K)).

(** A call of the library or of the C library. *)
Definition on_lib {A} (f : comp (cstate K) A) : M A :=
  fun w => match f (t_lib w) with
           | Ret a s => Ret a (Tests s (t_sea w) (t_i w) (t_pgid w) (t_release w))
           | Abort s => Abort (Tests s (t_sea w) (t_i w) (t_pgid w) (t_release w))
           | Undef => Undef
           | NoFuel => NoFuel
           end.

Definition errno_now : M Z := on_lib get_errno.
Definition kill (pid sig : Z) : M Z := on_lib (signal_call (sys_kill pid sig)).
Definition syscall (call : call_id) (args : list carg) : M Z :=
  on_lib (signal_call (sys_call call args)).

Definition execve (path : string) (argv : list string) : M (option outcome) :=
  on_lib (fun s => match sys_execve path argv (ker s) with
                   | inl (r, k) => Ret None (CState k (errno_after r (errno s)))
                   | inr k => Ret (Some (Execed argv)) (CState k (errno s))
                   end).

Definition get_i : M Z := fun w => Ret (t_i w) w.
Definition set_i (i : Z) : M unit :=
  fun w => Ret tt (Tests (t_lib w) (t_sea w) i (t_pgid w) (t_release w)).
Definition get_pgid : M Z := fun w => Ret (t_pgid w) w.
Definition set_pgid (pid : Z) : M unit :=
  fun w => Ret tt (Tests (t_lib w) (t_sea w) (t_i w) pid (t_release w)).
Definition get_release : M Z := fun w => Ret (t_release w) w.
Definition set_release (rel : Z) : M unit :=
  fun w => Ret tt (Tests (t_lib w) (t_sea w) (t_i w) (t_pgid w) rel).

(** ** Output *)

(** The levels of pprintf. *)
Definition DEBUG : Z := 0.
Definition INFO : Z := 1.
Definition MESSAGE : Z := 2.
Definition WARNING : Z := 3.

(** An escape sequence. *)
Definition ansi (t : string) : string := String (ascii_of_nat 27) t.
Definition ANSI_NORMAL : string := ansi "[00;00m".
Definition ANSI_DARK_MAGENTA : string := ansi "[01;35m".
Definition ANSI_GREEN : string := ansi "[00;32m".
Definition ANSI_YELLOW : string := ansi "[00;33m".
Definition ANSI_CYAN : string := ansi "[00;36m".

Definition pprintf_pre (pretty : Z) : string :=
  if pretty =? DEBUG then ANSI_CYAN
  else if pretty =? INFO then ANSI_YELLOW
  else if pretty =? MESSAGE then ANSI_GREEN
  else if pretty =? WARNING then ANSI_DARK_MAGENTA
  else "".

Definition isatty : M Z :=
  on_lib (fun s => Ret (sr_val isatty_stdout) (CState (ker s) (errno_after isatty_stdout (errno s)))).

(** [text] is what the format and its arguments make; the result is its length. *)
Definition pprintf_va (pretty : Z) (text : string) : M Z :=
  let! tty := isatty in
  let r := Z.of_nat (String.length text) in
  if (tty =? 0) || bool_decide (is_Some PINKTRACE_CHECK_NOCOLOUR) then sea_printf text ;; cret r
  else
    sea_printf (pprintf_pre pretty) ;;
    sea_printf text ;;
    sea_printf ANSI_NORMAL ;;
    (if pretty =? WARNING then sea_printf nl else cret tt) ;;
    cret r.

Definition pprintf (pretty : Z) (text : string) : M Z :=
  let! r := pprintf_va pretty text in cret r.

Definition debug (text : string) : M unit := pprintf DEBUG text ;; cret tt.
Definition info (text : string) : M unit := pprintf INFO text ;; cret tt.
Definition message (text : string) : M unit := pprintf MESSAGE text ;; cret tt.
Definition warning (text : string) : M unit := pprintf WARNING text ;; cret tt.

(** The [debug] of several texts in a row. *)
Fixpoint debug_all (texts : list string) : M unit :=
  match texts with [] => cret tt | t :: texts' => debug t ;; debug_all texts' end.

Definition PINKTRACE_FAIL_MSG_BUFSIZE : nat := 512.

(** The macro evaluates its arguments twice: the text is a function of [errno], which the
    first use of it may change.  The second text is cut to its buffer. *)
Definition fail_verbose_errno (text : Z -> string) (function : string) (line : Z) : M unit :=
  let! e := errno_now in
  let! _ := pprintf WARNING (text e) in
  let! e := errno_now in
  seatest_simple_test_result_log false (substring 0 (PINKTRACE_FAIL_MSG_BUFSIZE - 1) (text e))
    function line.

(** The macro with arguments that do not depend on [errno]. *)
Definition fail_verbose (text function : string) (line : Z) : M unit :=
  fail_verbose_errno (fun _ => text) function line.

(** [errno:%d %s] of an error number *)
Definition err_text (e : Z) : string := "errno:" +:+ fmt_d e +:+ " " +:+ strerror e.
Definition fmt_u (z : Z) : string := fmt_d (to_uint z).
(** [%02x], [%04x], [%lx] and [%#lx] *)
Definition fmt_02x (z : Z) : string := let t := fmt_x z in zeros (2 - String.length t) +:+ t.
Definition fmt_04x (z : Z) : string := let t := fmt_x z in zeros (4 - String.length t) +:+ t.
Definition fmt_lx (z : Z) : string := hex_digits 16 z "".
Definition fmt_sharp_lx (z : Z) : string := if z =? 0 then "0" else "0x" +:+ fmt_lx z.

(** ** Dumps *)

(** An array whose content is indeterminate. *)
Definition fresh (name : string) (size : nat) : list byte :=
  resize size Byte.x00 (indet_bytes name).

Definition BYTES_IN_LINE : Z := 16.

(** The character shown for a byte. *)
Definition shown (b : byte) : byte :=
  if (byte.unsigned b <? 0x20) || (0x7e <? byte.unsigned b) then Byte.x2e else b.

(** The loop from [off] on; [off] is an [unsigned] and [len] a [size_t].  [buf] holds the
    characters of the current line and its terminator. *)
Fixpoint hex_loop (n : nat) (caddr : list byte) (len off : Z) (buf : list byte)
  : M (Z * list byte) :=
  match n with
  | O => cnofuel
  | S n' =>
      if off <? len then
        (if off mod BYTES_IN_LINE =? 0 then
           (if negb (off =? 0) then
              let! line := checked (cstring buf) in debug (tab +:+ tab +:+ line +:+ nl)
            else cret tt) ;;
           debug (tab +:+ tab +:+ fmt_04x off +:+ " ")
         else cret tt) ;;
        let! b := checked (caddr !! Z.to_nat off) in
        debug (" " +:+ fmt_02x (byte.unsigned b)) ;;
        let i := Z.to_nat (off mod BYTES_IN_LINE) in
        let buf := <[S i := Byte.x00]> (<[i := shown b]> buf) in
        hex_loop n' caddr len (to_uint (off + 1)) buf
      else cret (off, buf)
  end.

(** [while (off % BYTES_IN_LINE != 0)] *)
Fixpoint pad_loop (n : nat) (off : Z) : M unit :=
  match n with
  | O => cnofuel
  | S n' =>
      if negb (off mod BYTES_IN_LINE =? 0) then debug "  " ;; pad_loop n' (to_uint (off + 1))
      else cret tt
  end.

(** [p] names the pointer to [addr].  The first loop leaves [addr] after as many turns as
    it has bytes, and the second one needs less than a line of them. *)
Definition dump_basic_hex (p : string) (addr : list byte) (len : Z) : M unit :=
  debug (tab +:+ " --8< HEXDUMP " +:+ fmt_p p +:+ " >8--" +:+ nl) ;;
  let! (off, buf) := hex_loop (S (length addr)) addr (to_ulong cfg len) 0
                       (fresh "buf" (S (Z.to_nat BYTES_IN_LINE))) in
  pad_loop (Z.to_nat BYTES_IN_LINE) off ;;
  let! line := checked (cstring buf) in
  debug ("  " +:+ line +:+ nl) ;;
  debug (tab +:+ " --8< DUMPEND " +:+ fmt_p p +:+ " >8--" +:+ nl).

(** The registers in the order they are shown in, which is that of the structures except
    on ARM. *)
Definition arm_names : list (string * nat) :=
  [("ARM_cpsr", 16); ("ARM_pc", 15); ("ARM_lr", 14); ("ARM_sp", 13); ("ARM_ip", 12);
   ("ARM_fp", 11); ("ARM_r10", 10); ("ARM_r9", 9); ("ARM_r8", 8); ("ARM_r7", 7); ("ARM_r6", 6);
   ("ARM_r5", 5); ("ARM_r4", 4); ("ARM_r3", 3); ("ARM_r2", 2); ("ARM_r1", 1); ("ARM_r0", 0);
   ("ARM_ORIG_r0", 17)]%nat.
Definition i386_names : list string :=
  ["ebx"; "ecx"; "edx"; "esi"; "edi"; "ebp"; "eax"; "xds"; "xes"; "xfs"; "xgs"; "orig_eax"; "eip";
   "xcs"; "eflags"; "esp"; "xss"].
Definition x86_64_names : list string :=
  ["r15"; "r14"; "r13"; "r12"; "rbp"; "rbx"; "r11"; "r10"; "r9"; "r8"; "rax"; "rcx"; "rdx"; "rsi";
   "rdi"; "orig_rax"; "rip"; "cs"; "eflags"; "rsp"; "ss"; "fs_base"; "gs_base"; "ds"; "es"; "fs";
   "gs"].

Definition reg_line (name value : string) : string :=
  tab +:+ tab +:+ "regs." +:+ name +:+ " = " +:+ value +:+ nl.

Definition regs_lines (regs : list byte) : list string :=
  match PINK_ARCH cfg with
  | AARCH64 | POWERPC => [tab +:+ tab +:+ "regs = TODO" +:+ nl]
  | ARM => (fun '(name, i) => reg_line name (fmt_sharp_lx (arm_r cfg regs i))) <$> arm_names
  | I386 => imap (fun i name => reg_line name (fmt_sharp_lx (i386_r cfg regs i))) i386_names
  | X86_64 | X32 => imap (fun i name => reg_line name (fmt_lx (x86_64_r cfg regs i))) x86_64_names
  end.

Definition dump_regset (regset : pink_regset) : M unit :=
  debug (tab +:+ " --8< REGSET DUMP " +:+ fmt_p "regset" +:+ " >8--" +:+ nl) ;;
  (if 1 <? PINK_ABIS_SUPPORTED cfg
   then debug (tab +:+ tab +:+ "regset->abi = " +:+ fmt_d (rs_abi regset) +:+ nl) else cret tt) ;;
  debug_all (regs_lines (rs_regs regset)) ;;
  debug (tab +:+ " --8< REGSET DUMP END " +:+ fmt_p "regset" +:+ " >8--" +:+ nl).

(** The path of a [struct sockaddr_un]. *)
Definition sun_path (u : list byte) : list byte := drop 2 u.

(** The line of an address; [None] when its family has none. *)
Definition socket_address_line (sockaddr : pink_sockaddr) : M (option string) :=
  let u := sa_u sockaddr in
  let family := sa_family sockaddr in
  if family =? AF_UNIX then
    let! first := checked (head (sun_path u)) in
    let abstract := bool_decide (first = Byte.x00) in
    let! path := checked (cstring (if abstract then drop 1 (sun_path u) else sun_path u)) in
    cret (Some ((if abstract then "unix-abstract" else "unix") +:+ ": `" +:+ path +:+ "'"))
  else if family =? AF_INET then
    cret (Some ("inet: " +:+ inet_ntop4 (drop 4 u) +:+ "@" +:+ fmt_d (be16 u 2)))
  else if (family =? AF_INET6) && have_ipv6 then
    cret (Some ("inet6: " +:+ inet_ntop6 (drop 8 u) +:+ "@" +:+ fmt_d (be16 u 2)))
  else if (family =? AF_NETLINK) && have_netlink then
    cret (Some ("netlink: nl_pid=" +:+ fmt_d (get_member cfg u 4 4) +:+ " nl_groups=" +:+
                fmt_d (get_member cfg u 8 4)))
  else cret None.

Definition dump_socket_address (sockaddr : pink_sockaddr) : M unit :=
  debug (tab +:+ " --8< SOCKADDRDUMP " +:+ fmt_p "sockaddr" +:+ " >8--" +:+ nl) ;;
  debug (tab +:+ tab +:+ "family:" +:+ fmt_d (sa_family sockaddr) +:+ nl) ;;
  let! line := socket_address_line sockaddr in
  match line with Some t => debug (tab +:+ tab +:+ t +:+ nl) | None => cret tt end ;;
  debug (tab +:+ " --8< SOCKADDRDUMP END " +:+ fmt_p "sockaddr" +:+ " >8--" +:+ nl).

(** ** Processes *)

Definition fork_assert : M Z :=
  let! pid := on_lib fork in
  (if pid =? -1 then
     fail_verbose_errno (fun e => "fork (" +:+ err_text e +:+ ")") "fork_assert" 251
   else cret tt) ;;
  if pid =? 0 then cret pid
  else
    let! r := on_lib (signal_call (sys_setpgid pid 0)) in
    let! save_errno := errno_now in
    if r =? 0 then set_pgid pid ;; cret pid
    else
      let! _ := kill pid SIGKILL in
      on_lib (set_errno save_errno) ;;
      fail_verbose_errno (fun e => "setpgid (" +:+ err_text e +:+ ")") "fork_assert" 264 ;;
      cret (-1).

Definition kill_save_errno (pid sig : Z) : M unit :=
  let! saved_errno := errno_now in
  let! r := kill pid sig in
  let! e := errno_now in
  warning (tab +:+ "kill(" +:+ fmt_u pid +:+ ", " +:+ fmt_d sig +:+ ") = " +:+ fmt_d r +:+ " (" +:+
           err_text e +:+ ")" +:+ nl) ;;
  on_lib (set_errno saved_errno).

(** The result, and the status when one was stored. *)
Fixpoint waitpid_no_intr (n : nat) (pid : Z) : comp (cstate K) (Z * option Z) :=
  match n with
  | O => cnofuel
  | S n' =>
      set_errno 0 ;;
      let! (r, status) := waitpid pid in
      let! e := get_errno in
      if (r <=? 0) && (e =? EINTR) then waitpid_no_intr n' pid else cret (r, status)
  end.

(** A place in the program: __FILE__, __func__ and __LINE__. *)
Record site : Type := Site { s_file : string; s_func : string; s_line : Z }.

(** The text for a status. *)
Definition status_text (s : Z) : string :=
  if WIFSTOPPED s then "{stop:" +:+ fmt_d (WSTOPSIG s) +:+ " " +:+ strsignal (WSTOPSIG s) +:+ "}"
  else if WIFEXITED s then "{exit:" +:+ fmt_d (WEXITSTATUS s) +:+ "}"
  else if WIFSIGNALED s then
    "{term:" +:+ fmt_d (WTERMSIG s) +:+ " " +:+ strsignal (WTERMSIG s) +:+
    (if WCOREDUMP s then " (core dumped)" else "") +:+ "}"
  else if WIFCONTINUED s then "{cont:" +:+ fmt_d SIGCONT +:+ " " +:+ strsignal SIGCONT +:+ "}"
  else "".

(** [status] points to an indeterminate variable, and the options are 0. *)
Definition waitpid_no_intr_debug (loopcnt : Z) (here : site) (pid : Z) : M (Z * option Z) :=
  let! (tracee_pid, st) := on_lib (waitpid_no_intr fuel pid) in
  let! saved_errno := errno_now in
  message (s_file here +:+ ":" +:+ s_func here +:+ "@" +:+ fmt_d (s_line here) +:+ "[" +:+
           fmt_u loopcnt +:+ "] wait(pid:" +:+ fmt_d pid +:+ " status:" +:+ fmt_p "status" +:+
           " opts:" +:+ fmt_d 0 +:+ ") = " +:+ fmt_d tracee_pid +:+ " ") ;;
  (if 0 <? tracee_pid then
     let s := default (indet "status") st in
     debug ("(status:" +:+ fmt_sharp_x (to_uint s)) ;;
     (if WIFSTOPPED s || WIFEXITED s || WIFSIGNALED s || WIFCONTINUED s
      then debug (status_text s) else cret tt) ;;
     debug (")" +:+ nl)
   else warning ("(" +:+ err_text saved_errno +:+ ")" +:+ nl)) ;;
  on_lib (set_errno saved_errno) ;;
  cret (tracee_pid, st).

Definition wait_no_intr : M (Z * option Z) := on_lib (waitpid_no_intr fuel (-1)).

(** The wait_verbose macro, at [here] in a turn of LOOP_WHILE_TRUE. *)
Definition wait_no_intr_debug (loopcnt : Z) (here : site) : M (Z * option Z) :=
  let! pgid := get_pgid in waitpid_no_intr_debug loopcnt here (- pgid).

(** ** Checks *)

Definition check_echild_or_kill (pid retval : Z) : M bool :=
  let! e := errno_now in
  if e =? ECHILD then cret true
  else
    kill_save_errno pid SIGKILL ;;
    fail_verbose_errno (fun e => "unexpected wait result " +:+ fmt_d retval +:+ " (" +:+
                                 err_text e +:+ ")") "check_echild_or_kill" 348 ;;
    cret false.

Definition check_exit_code_or_fail (status code : Z) : M bool :=
  if negb (WIFEXITED status) then cret false
  else if WEXITSTATUS status =? code then cret true
  else
    fail_verbose ("unexpected exit status " +:+ fmt_u (WEXITSTATUS status))
      "check_exit_code_or_fail" 358 ;;
    cabort.

Definition check_signal_or_fail (status sig : Z) : M bool :=
  if negb (WIFSIGNALED status) then cret false
  else if WTERMSIG status =? sig then cret true
  else
    fail_verbose ("unexpected signal (signal:" +:+ fmt_u (WTERMSIG status) +:+ " " +:+
                  strsignal (WTERMSIG status) +:+ ")") "check_signal_or_fail" 368 ;;
    cabort.

Definition check_stopped_or_kill (pid status : Z) : M bool :=
  if WIFSTOPPED status then cret false
  else
    let! _ := kill pid SIGKILL in
    fail_verbose ("unexpected wait status " +:+ fmt_sharp_x (to_uint status))
      "check_stopped_or_kill" 377 ;;
    cabort.

Definition check_syscall_equal_or_kill (pid sysnum sysnum_expected : Z) : M unit :=
  if sysnum =? sysnum_expected then cret tt
  else
    let! _ := kill pid SIGKILL in
    fail_verbose ("unexpected syscall " +:+ fmt_d sysnum +:+ " (name:" +:+
                  or_null (pink_name_syscall cfg sysnum PINK_ABI_DEFAULT) +:+ " expected:" +:+
                  fmt_d sysnum_expected +:+ " " +:+
                  (if sysnum_expected =? PINK_SYSCALL_INVALID cfg then "PINK_SYSCALL_INVALID"
                   else or_null (pink_name_syscall cfg sysnum_expected PINK_ABI_DEFAULT)) +:+ ")")
      "check_syscall_equal_or_kill" 386 ;;
    cabort.

Definition check_retval_equal_or_kill (pid retval retval_expected error error_expected : Z)
  : M unit :=
  if (retval =? retval_expected) && (error =? error_expected) then cret tt
  else
    let! _ := kill pid SIGKILL in
    fail_verbose ("unexpected retval " +:+ fmt_d retval +:+ " (" +:+ err_text error +:+
                  "), expected " +:+ fmt_d retval_expected +:+ " (" +:+ err_text error_expected +:+
                  ")") "check_retval_equal_or_kill" 399 ;;
    cabort.

Definition check_argument_equal_or_kill (pid arg arg_expected : Z) : M unit :=
  if arg =? arg_expected then cret tt
  else
    let! _ := kill pid SIGKILL in
    fail_verbose ("unexpected argument " +:+ fmt_d arg +:+ " expected " +:+ fmt_d arg_expected)
      "check_argument_equal_or_kill" 410 ;;
    cabort.

Definition check_memory_equal_or_kill (pid : Z) (val val_expected : list byte) (n : Z) : M unit :=
  let! same := checked (memcmp_eq val val_expected (Z.to_nat n)) in
  if (same : bool) then cret tt
  else
    let! _ := kill pid SIGKILL in
    let text := "Memory area " +:+ fmt_p "val" +:+ " not identical with the expected " +:+
                fmt_p "val_expected" in
    warning text ;;
    dump_basic_hex "val" val n ;;
    dump_basic_hex "val_expected" val_expected n ;;
    fail_verbose text "check_memory_equal_or_kill" 422 ;;
    cabort.

Definition check_string_equal_or_kill (pid : Z) (str str_expected : list byte) (len : Z) : M unit :=
  let! same := checked (strncmp_eq str str_expected (Z.to_nat len)) in
  if (same : bool) then cret tt
  else
    let! _ := kill pid SIGKILL in
    let! t := checked (cstring str) in
    let! t_expected := checked (cstring str_expected) in
    let text := "String " +:+ fmt_p "str" +:+ ":`" +:+ t +:+ "' not identical with the expected "
                +:+ fmt_p "str_expected" +:+ ":`" +:+ t_expected +:+ "'" in
    warning text ;;
    dump_basic_hex "str" str len ;;
    dump_basic_hex "str_expected" str_expected len ;;
    fail_verbose text "check_string_equal_or_kill" 434 ;;
    cabort.

Definition check_string_endswith_or_kill (pid : Z) (str suffix_expected : list byte) : M unit :=
  let! slen := checked (find_nul str) in
  let! elen := checked (find_nul suffix_expected) in
  if (elen =? 0)%nat then cret tt
  else
    let! same := if (slen <? elen)%nat then cret false
                 else checked (memcmp_eq (drop (slen - elen) str) suffix_expected elen) in
    if (same : bool) then cret tt
    else
      let! _ := kill pid SIGKILL in
      let! t := checked (cstring str) in
      let! t_expected := checked (cstring suffix_expected) in
      let text := "String " +:+ fmt_p "str" +:+ ":`" +:+ t +:+ "' doesn't end with the expected "
                  +:+ fmt_p "suffix_expected" +:+ ":`" +:+ t_expected +:+ "'" in
      warning text ;;
      dump_basic_hex "str" str (Z.of_nat slen) ;;
      dump_basic_hex "suffix_expected" suffix_expected (Z.of_nat elen) ;;
      fail_verbose text "check_string_endswith_or_kill" 457 ;;
      cabort.

Definition INADDR_LOOPBACK : Z := 0x7f000001.

(** [addr] is the four bytes of an [in_addr_t] in network order; the message shows
    their value in the host's order. *)
Definition check_addr_loopback_or_kill (pid : Z) (addr : list byte) : M unit :=
  if 65536 * be16 addr 0 + be16 addr 2 =? INADDR_LOOPBACK then cret tt
  else
    let text := "in_addr " +:+ fmt_sharp_x (get_member cfg addr 0 4) +:+ " (ip: `" +:+
                inet_ntop4 addr +:+ "') not identical with INADDR_LOOPBACK:" +:+
                fmt_sharp_x INADDR_LOOPBACK in
    warning text ;;
    fail_verbose text "check_addr_loopback_or_kill" 472 ;;
    cabort.

(** [::1] *)
Definition in6addr_loopback : list byte := replicate 15 Byte.x00 ++ [Byte.x01].

Definition check_addr6_loopback_or_kill (pid : Z) (addr6 : list byte) : M unit :=
  if bool_decide (addr6 = in6addr_loopback) then cret tt
  else
    let text := "in6_addr: `" +:+ inet_ntop6 addr6 +:+
                "' not identical to in6addr_loopback: `::1'" in
    warning text ;;
    fail_verbose text "check_addr6_loopback_or_kill" 488 ;;
    cabort.

(** ** Calls that must succeed

    After a failure has been recorded the functions go on. *)

(** In the child: whether it has exited. *)
Definition trace_me_and_stop : M (option outcome) :=
  let! pid := on_lib getpid in
  let! r := on_lib pink_trace_me in
  if r <? 0 then
    warning ("pink_trace_me (" +:+ err_text (- r) +:+ ")") ;;
    cret (Some (Exited 127))
  else let! _ := kill pid SIGSTOP in cret None.

Definition trace_syscall_or_kill (pid sig : Z) : M unit :=
  let! r := on_lib (pink_trace_syscall pid sig) in
  let! e := errno_now in
  info (tab +:+ "trace_syscall(" +:+ fmt_u pid +:+ ", " +:+ fmt_d sig +:+ ") = " +:+ fmt_d r +:+
        " (" +:+ err_text e +:+ ")" +:+ nl) ;;
  if r <? 0 then
    kill_save_errno pid SIGKILL ;;
    fail_verbose ("PTRACE_SYSCALL (pid:" +:+ fmt_u pid +:+ " sig:" +:+ fmt_d sig +:+ " " +:+
                  err_text (- r) +:+ ")") "trace_syscall_or_kill" 517
  else cret tt.

Definition trace_setup_or_kill (pid options : Z) : M unit :=
  let! r := on_lib (pink_trace_setup cfg pid options) in
  let! e := errno_now in
  info (tab +:+ "trace_setup(" +:+ fmt_u pid +:+ ", " +:+ fmt_sharp_x (to_uint options) +:+ ") = "
        +:+ fmt_d r +:+ " (" +:+ err_text e +:+ ")" +:+ nl) ;;
  if r <? 0 then
    kill_save_errno pid SIGKILL ;;
    fail_verbose ("PTRACE_SETOPTIONS (pid:" +:+ fmt_u pid +:+ " opts:" +:+ fmt_sharp_x (to_uint options)
                  +:+ " " +:+ err_text (- r) +:+ ")") "trace_setup_or_kill" 533
  else cret tt.

(** The value of [*data] afterwards, of which [data] is the value before. *)
Definition trace_geteventmsg_or_kill (pid data : Z) : M Z :=
  let! (r, d) := on_lib (pink_trace_geteventmsg cfg pid (word_bytes cfg data)) in
  let! data := match d with
               | DBuf bs => cret (to_ulong cfg (bytes_word cfg bs))
               | _ => cundef
               end in
  let! e := errno_now in
  info (tab +:+ "trace_geteventmsg(" +:+ fmt_u pid +:+ ", " +:+
        fmt_sharp_lx (if r <? 0 then 0xbad else data) +:+ ") = " +:+ fmt_d r +:+ " (" +:+
        err_text e +:+ ")" +:+ nl) ;;
  (if r <? 0 then
     kill_save_errno pid SIGKILL ;;
     fail_verbose ("PTRACE_GETEVENTMSG (pid:" +:+ fmt_u pid +:+ " " +:+ err_text (- r) +:+ ")")
       "trace_geteventmsg_or_kill" 548
   else cret tt) ;;
  cret data.

Definition event_decide_and_print (status : Z) : M Z :=
  let e := pink_event_decide status in
  info (tab +:+ "event_decide(" +:+ fmt_sharp_x (to_uint status) +:+ ") = " +:+ fmt_u e +:+ " " +:+
        or_null (pink_name_event e) +:+ nl) ;;
  cret e.

Definition regset_alloc_or_kill (pid : Z) : M (option pink_regset) :=
  let! (r, regset) := on_lib (pink_regset_alloc cfg malloc_regset) in
  (if r <? 0 then
     kill_save_errno pid SIGKILL ;;
     fail_verbose ("pink_regset_alloc (" +:+ err_text (- r) +:+ ")") "regset_alloc_or_kill" 569
   else cret tt) ;;
  cret regset.

Definition regset_fill_or_kill (pid : Z) (regset : pink_regset) : M pink_regset :=
  let! (r, regset) := on_lib (pink_regset_fill cfg pid regset) in
  (if r <? 0 then
     kill_save_errno pid SIGKILL ;;
     fail_verbose ("pink_regset_fill (pid:" +:+ fmt_u pid +:+ " " +:+ err_text (- r) +:+ ")")
       "regset_fill_or_kill" 580
   else cret tt) ;;
  dump_regset regset ;;
  cret regset.

(** The part that vm_lread_or_kill, read_vm_data_or_kill and their variants for strings
    share: the failure, with [errno] as it is, and the dump.  [label] is what the last
    message calls the function, and [close] what it ends with. *)
Definition transfer_or_kill (name label close function : string) (line pid addr len : Z)
    (read : comp (cstate K) (Z * list byte)) : M (Z * list byte) :=
  on_lib (set_errno 0) ;;
  let! (r, dest) := on_lib read in
  (if r <? 0 then
     kill_save_errno pid SIGKILL ;;
     fail_verbose_errno (fun e => name +:+ " (pid:" +:+ fmt_u pid +:+ ", addr:" +:+ fmt_d addr +:+
                                  ", len:" +:+ fmt_d len +:+ " " +:+ err_text e +:+ ")") function line
   else if r <? len then
     message (tab +:+ name +:+ " partial read, expected:" +:+ fmt_d len +:+ " got:" +:+ fmt_d r +:+ nl)
   else cret tt) ;;
  info (tab +:+ label +:+ " (pid:" +:+ fmt_u pid +:+ ", addr:" +:+ fmt_d addr +:+ " len:" +:+
        fmt_d len +:+ ") = " +:+ fmt_d r +:+ close) ;;
  dump_basic_hex "dest" dest r ;;
  cret (r, dest).

(** The buffers are given by what they hold before, and given back. *)
Definition vm_lread_or_kill (pid : Z) (regset : pink_regset) (addr : Z) (dest : list byte) (len : Z)
  : M (list byte) :=
  let! (_, dest) := transfer_or_kill "pink_vm_lread" "pink_vm_lread" "" "vm_lread_or_kill" 594
                      pid addr len (pink_vm_lread cfg pid addr dest len) in
  cret dest.

Definition vm_lread_nul_or_kill (pid : Z) (regset : pink_regset) (addr : Z) (dest : list byte)
    (len : Z) : M (Z * list byte) :=
  transfer_or_kill "pink_vm_lread_nul" "read_vm_lread_nul" nl "vm_lread_nul_or_kill" 612
    pid addr len (pink_vm_lread_nul cfg pid addr dest len).

(** [*sysnum] afterwards; it keeps its value on a failure. *)
Definition read_syscall_or_kill (pid : Z) (regset : pink_regset) (sysnum : Z) : M Z :=
  let! (r, v) := on_lib (pink_read_syscall cfg pid regset) in
  (if r <? 0 then
     kill_save_errno pid SIGKILL ;;
     fail_verbose ("pink_read_syscall (pid:" +:+ fmt_u pid +:+ ", " +:+ err_text (- r) +:+ ")")
       "read_syscall_or_kill" 633
   else if r =? 0 then
     info (tab +:+ "read_syscall (pid:" +:+ fmt_u pid +:+ ") = " +:+ fmt_d (default sysnum v) +:+ nl)
   else cret tt) ;;
  cret (default sysnum v).

Definition read_retval_or_kill (pid : Z) (regset : pink_regset) : M (Z * Z) :=
  let! (r, retval, error) := on_lib (pink_read_retval cfg pid regset) in
  (if r <? 0 then
     kill_save_errno pid SIGKILL ;;
     fail_verbose ("pink_read_retval (pid:" +:+ fmt_u pid +:+ ", " +:+ err_text (- r) +:+ ")")
       "read_retval_or_kill" 648
   else if r =? 0 then
     info (tab +:+ "read_retval (pid:" +:+ fmt_u pid +:+ ") = " +:+ fmt_d retval +:+ "," +:+
           fmt_d error +:+ nl)
   else cret tt) ;;
  cret (retval, error).

Definition read_argument_or_kill (pid : Z) (regset : pink_regset) (arg_index argval : Z) : M Z :=
  let! (r, v) := on_lib (pink_read_argument cfg pid regset (to_uint arg_index)) in
  (if r <? 0 then
     kill_save_errno pid SIGKILL ;;
     fail_verbose ("pink_read_argument (pid:" +:+ fmt_u pid +:+ ", index:" +:+ fmt_u arg_index +:+
                   ", " +:+ err_text (- r) +:+ ")") "read_argument_or_kill" 663
   else if r =? 0 then
     info (tab +:+ "read_argument (pid:" +:+ fmt_u pid +:+ ", index:" +:+ fmt_u arg_index +:+ ") = "
           +:+ fmt_d (default argval v) +:+ nl)
   else cret tt) ;;
  cret (default argval v).

Definition read_vm_data_or_kill (pid : Z) (regset : pink_regset) (addr : Z) (dest : list byte)
    (len : Z) : M (list byte) :=
  let! (_, dest) := transfer_or_kill "pink_read_vm_data" "read_vm_data" "" "read_vm_data_or_kill" 676
                      pid addr len (pink_read_vm_data cfg pid regset addr dest len) in
  cret dest.

Definition read_vm_data_nul_or_kill (pid : Z) (regset : pink_regset) (addr : Z) (dest : list byte)
    (len : Z) : M (Z * list byte) :=
  transfer_or_kill "pink_read_vm_data_nul" "read_vm_data_nul" nl "read_vm_data_nul_or_kill" 694
    pid addr len (pink_read_vm_data_nul cfg fuel pid regset addr dest len).

(** The buffer, and [*nullptr] when it was stored. *)
Definition read_string_array_or_kill (pid : Z) (regset : pink_regset) (arg arr_index : Z)
    (dest : list byte) (dest_len : Z) : M (list byte * option bool) :=
  let! (r, dest, nullptr) :=
    on_lib (pink_read_string_array cfg fuel (indet_bytes "cp") pid regset arg arr_index dest dest_len) in
  (if r <? 0 then
     kill_save_errno pid SIGKILL ;;
     fail_verbose_errno
       (fun e => "pink_read_string_array (pid:" +:+ fmt_u pid +:+ ", arg:" +:+ fmt_d arg +:+
                 ", arr_index:" +:+ fmt_u arr_index +:+ " dest_len:" +:+ fmt_d dest_len +:+ " "
                 +:+ err_text e +:+ ")") "read_string_array_or_kill" 716
   else if r <? dest_len then
     message (tab +:+ "pink_read_string_array partial read, expected:" +:+ fmt_d dest_len +:+
              " got:" +:+ fmt_d r +:+ nl)
   else cret tt) ;;
  info ("read_string_array (pid:" +:+ fmt_u pid +:+ " arg:" +:+ fmt_d arg +:+ " arr_index:" +:+
        fmt_u arr_index +:+ ", dest_len:" +:+ fmt_d dest_len +:+ ") = " +:+ fmt_d r) ;;
  dump_basic_hex "dest" dest r ;;
  cret (dest, nullptr).

Definition read_socket_subcall_or_kill (pid : Z) (regset : pink_regset) (decode_socketcall : bool)
    (subcall : Z) : M Z :=
  let! (r, v) := on_lib (pink_read_socket_subcall cfg pid regset decode_socketcall) in
  (if r <? 0 then
     kill_save_errno pid SIGKILL ;;
     fail_verbose ("pink_read_socket_subcall (pid:" +:+ fmt_u pid +:+ " decode:" +:+
                   fmt_d (Z.b2z decode_socketcall) +:+ " " +:+ err_text (- r) +:+ ")")
       "read_socket_subcall_or_kill" 737
   else cret tt) ;;
  info (tab +:+ "read_socket_subcall (pid:" +:+ fmt_u pid +:+ " decode:" +:+
        fmt_d (Z.b2z decode_socketcall) +:+ ") = " +:+ fmt_d (default subcall v)) ;;
  cret (default subcall v).

Definition read_socket_argument_or_kill (pid : Z) (regset : pink_regset) (decode_socketcall : bool)
    (arg_index argval : Z) : M Z :=
  let! (r, v) := on_lib (pink_read_socket_argument cfg (indet_bytes "arg") pid regset
                           decode_socketcall arg_index) in
  (if r <? 0 then
     kill_save_errno pid SIGKILL ;;
     fail_verbose ("pink_read_socket_argument (pid:" +:+ fmt_u pid +:+ " decode:" +:+
                   fmt_d (Z.b2z decode_socketcall) +:+ " arg_index:" +:+ fmt_u arg_index +:+ " " +:+
                   err_text (- r)) "read_socket_argument_or_kill" 752
   else cret tt) ;;
  info (tab +:+ "read_socket_argument (pid:" +:+ fmt_u pid +:+ " decode:" +:+
        fmt_d (Z.b2z decode_socketcall) +:+ " arg_index:" +:+ fmt_u arg_index +:+ ") = " +:+
        fmt_d (to_long cfg (default argval v))) ;;
  cret (default argval v).

(** [*fd] and [*sockaddr] afterwards; both pointers are not null. *)
Definition read_socket_address_or_kill (pid : Z) (regset : pink_regset) (decode_socketcall : bool)
    (arg_index fd : Z) (sockaddr : pink_sockaddr) : M (Z * pink_sockaddr) :=
  let! (r, v, sockaddr) := on_lib (pink_read_socket_address cfg (indet_bytes "arg") pid regset
                                     decode_socketcall arg_index true sockaddr) in
  (if r <? 0 then
     kill_save_errno pid SIGKILL ;;
     fail_verbose ("pink_read_socket_address (pid:" +:+ fmt_u pid +:+ " decode:" +:+
                   fmt_d (Z.b2z decode_socketcall) +:+ " arg_index:" +:+ fmt_u arg_index +:+ " " +:+
                   err_text (- r) +:+ ")") "read_socket_address_or_kill" 768
   else cret tt) ;;
  info (tab +:+ "read_socket_address (pid:" +:+ fmt_u pid +:+ " decode:" +:+
        fmt_d (Z.b2z decode_socketcall) +:+ " arg_index:" +:+ fmt_u arg_index +:+ ") = " +:+
        fmt_d (default fd v) +:+ "," +:+ fmt_p "sockaddr") ;;
  dump_socket_address sockaddr ;;
  cret (default fd v, sockaddr).

Definition write_syscall_or_kill (pid : Z) (regset : pink_regset) (sysnum : Z) : M unit :=
  let! r := on_lib (pink_write_syscall cfg pid regset sysnum) in
  (if r <? 0 then
     kill_save_errno pid SIGKILL ;;
     fail_verbose ("pink_write_syscall (pid:" +:+ fmt_u pid +:+ " sysnum:" +:+ fmt_d sysnum +:+ " "
                   +:+ err_text (- r) +:+ ")") "write_syscall_or_kill" 784
   else cret tt) ;;
  info (tab +:+ "write_syscall (pid:" +:+ fmt_u pid +:+ " sysnum:" +:+ fmt_d sysnum +:+ ") = 0").

Definition write_retval_or_kill (pid : Z) (regset : pink_regset) (retval error : Z)
  : M pink_regset :=
  let! (r, regset) := on_lib (pink_write_retval cfg pid regset retval error) in
  (if r <? 0 then
     kill_save_errno pid SIGKILL ;;
     fail_verbose ("pink_write_retval (pid:" +:+ fmt_u pid +:+ " retval:" +:+ fmt_d retval +:+
                   " error:" +:+ fmt_d error +:+ " " +:+ err_text (- r) +:+ ")")
       "write_retval_or_kill" 798
   else cret tt) ;;
  info (tab +:+ "write_syscall (pid:" +:+ fmt_u pid +:+ " retval:" +:+ fmt_d retval +:+ " error:" +:+
        fmt_d error +:+ ") = 0") ;;
  cret regset.

Definition write_argument_or_kill (pid : Z) (regset : pink_regset) (arg_index argval : Z)
  : M pink_regset :=
  let! (r, regset) := on_lib (pink_write_argument cfg pid regset (to_uint arg_index) argval) in
  (if r <? 0 then
     kill_save_errno pid SIGKILL ;;
     fail_verbose ("pink_write_argument (pid:" +:+ fmt_u pid +:+ " arg_index:" +:+ fmt_u arg_index
                   +:+ " argval:" +:+ fmt_d argval +:+ " " +:+ err_text (- r) +:+ ")")
       "write_argument_or_kill" 812
   else cret tt) ;;
  info (tab +:+ "write_argument (pid:" +:+ fmt_u pid +:+ " arg_index:" +:+ fmt_u arg_index +:+
        " argval:" +:+ fmt_d argval +:+ ") = 0") ;;
  cret regset.

(** The union in the loop of the word-wise write is indeterminate. *)
Definition write_vm_data_or_kill (pid : Z) (regset : pink_regset) (addr : Z) (src : list byte)
    (len : Z) : M unit :=
  on_lib (set_errno 0) ;;
  let! r := on_lib (pink_write_vm_data cfg (fun _ => indet_bytes "u") pid regset addr src len) in
  (if r <? 0 then
     kill_save_errno pid SIGKILL ;;
     fail_verbose_errno
       (fun e => "pink_write_vm_data (pid:" +:+ fmt_u pid +:+ " addr:" +:+ fmt_d addr +:+ " src:" +:+
                 fmt_p "src" +:+ " len:" +:+ fmt_d len +:+ " " +:+ err_text e +:+ ")")
       "write_vm_data_or_kill" 827
   else if r <? len then
     message (tab +:+ "write_vm_data partial write, expected:" +:+ fmt_d len +:+ " got:" +:+ fmt_d r
              +:+ nl)
   else cret tt) ;;
  info (tab +:+ "write_vm_data (pid:" +:+ fmt_u pid +:+ " addr:" +:+ fmt_d addr +:+ " src:" +:+
        fmt_p "src" +:+ " len:" +:+ fmt_d len +:+ ") = " +:+ fmt_d (to_ulong cfg r)).

End Check.
