(* ===== verification/TestRead.v ===== *)
(** * read-TEST.c and vm-TEST.c: the tests of reading

    The tests share the way they follow their child: wait for it, set the options at
    its first stop, look at it at a stop for a system call, and let it run to the next
    one.  [test_loop] is this loop; a test gives what it does at a stop.  [Some] as the
    result of a test says how the child that it forked ended. *)

From Stdlib Require Import ZArith Lia String Ascii.
From stdpp Require Import base list numbers strings.
From coqutil Require Import Byte Word.LittleEndianList.
From S2P Require Import Prelude Config Kernel Layout Trace Vm Name Regset Read Tracer Seatest Check.
Local Open Scope string_scope.
Local Open Scope list_scope.
Local Open Scope Z_scope.
Local Open Scope c_scope.

(** ** The loop *)

(** The local variables that live across the iterations. *)
Record locals : Type := Locals {
  v_regset : option pink_regset;
  it_worked : bool;
  insyscall : bool;
  write_done : bool;
}.

Definition start_locals (regset : option pink_regset) : locals := Locals regset false false false.
Definition set_regset (r : pink_regset) (l : locals) : locals :=
  Locals (Some r) (it_worked l) (insyscall l) (write_done l).
Definition set_worked (l : locals) : locals :=
  Locals (v_regset l) true (insyscall l) (write_done l).
Definition set_insyscall (l : locals) : locals :=
  Locals (v_regset l) (it_worked l) true (write_done l).
Definition set_write_done (l : locals) : locals :=
  Locals (v_regset l) (it_worked l) (insyscall l) true.

(** Strings of the tests as the compiler stores them. *)
Definition literal (t : string) : list byte := list_byte_of_string t ++ [Byte.x00].
(** ["trace\0pink"] *)
Definition trace_nul_pink : list byte := literal "trace" ++ literal "pink".

Section Tests.
Context {K : Type} `{!KernelOps K} `{!ProcOps K} `{!CheckOps K} `{!Setting}.

#[local] Abbreviation M := (comp (tests K)).

(** [at_stop] gives whether the loop ends, and the variables; [checked_pid] is the
    process that check_stopped_or_kill kills, [pid] or the one that was waited for.
    [here] is the place of the wait, and [loopcnt] counts the turns. *)
Fixpoint test_loop (here : site) (loopcnt : Z) (n : nat) (pid : Z) (checked_pid : Z -> Z) (at_exit : locals -> locals)
    (at_stop : Z -> locals -> M (bool * locals)) (l : locals) : M locals :=
  match n with
  | O => cnofuel
  | S n' =>
      let! (tracee_pid, st) := wait_no_intr_debug loopcnt here in
      let status := default (indet "status") st in
      let! gone := if tracee_pid <=? 0 then check_echild_or_kill pid tracee_pid else cret false in
      if (gone : bool) then cret l
      else
        let! exited := check_exit_code_or_fail status 0 in
        if (exited : bool) then cret (at_exit l)
        else
          let! _ := check_signal_or_fail status 0 in
          let! _ := check_stopped_or_kill (checked_pid tracee_pid) status in
          let! (break, l) := at_stop status l in
          if (break : bool) then cret l
          else
            trace_syscall_or_kill pid 0 ;;
            test_loop here (to_uint (loopcnt + 1)) n' pid checked_pid at_exit at_stop l
  end.

(** The branches on the stop signal. *)
Definition at_syscall (pid test_options : Z) (body : locals -> M (bool * locals)) (status : Z)
    (l : locals) : M (bool * locals) :=
  if WSTOPSIG status =? SIGSTOP then trace_setup_or_kill pid test_options ;; cret (false, l)
  else if WSTOPSIG status =? Z.lor SIGTRAP 0x80 then body l
  else cret (false, l).

(** What follows the fork in the parent. *)
Definition follow (here : site) (pid : Z) (checked_pid : Z -> Z) (at_exit : locals -> locals)
    (at_stop : Z -> locals -> M (bool * locals)) (failed : M unit) : M (option outcome) :=
  let! regset := regset_alloc_or_kill pid in
  let! l := test_loop here 0 fuel pid checked_pid at_exit at_stop (start_locals regset) in
  (if it_worked l then cret tt else failed) ;;
  cret None.

Definition test_options : Z := PINK_TRACE_OPTION_SYSGOOD.

(** The first lines of every body: fill the register set and read the number. *)
Definition fill_locals (pid : Z) (l : locals) : M (pink_regset * locals) :=
  let! regset := checked (v_regset l) in
  let! regset := regset_fill_or_kill pid regset in
  cret (regset, set_regset regset l).

Definition expect_syscall (pid nr : Z) (regset : pink_regset) : M unit :=
  let! sysnum := read_syscall_or_kill pid regset (indet "sysnum") in
  check_syscall_equal_or_kill pid sysnum nr.

(** The last lines of a body that is done. *)
Definition worked (pid : Z) (l : locals) : M (bool * locals) :=
  let! _ := kill pid SIGKILL in cret (true, set_worked l).

(** The child that makes a call with [v] as argument [arg_index] and [others] as the
    other ones, and then exits. *)
Definition invalid_call (arg_index : Z) (v : carg) (others : list carg) (code : Z)
  : M (option outcome) :=
  and_then trace_me_and_stop
    (if (0 <=? arg_index) && (arg_index <? 6) then
       let! _ := syscall (Numbered (PINK_SYSCALL_INVALID cfg))
                   (<[Z.to_nat arg_index := v]> others) in
       cret (Some (Exited code))
     else cret (Some (Exited 1))).

Definition other_args : list carg := [CVal 0; CVal 0; CVal 0; CVal 0; CVal (-1); CVal 0].

(** The child that makes one call. *)
Definition plain_call (call : call_id) (args : list carg) : M (option outcome) :=
  and_then trace_me_and_stop
    (let! _ := syscall call args in cret (Some (Exited 0))).

(** [pink_lookup_syscall] with the failure that is recorded for an unknown name. *)
Definition lookup_or_fail (name message function : string) (line : Z) : M Z :=
  let nr := pink_lookup_syscall cfg (Some name) PINK_ABI_DEFAULT in
  (if nr =? -1 then fail_verbose message function line else cret tt) ;;
  cret nr.

(** ** read-TEST.c *)

Definition test_read_syscall : M (option outcome) :=
  let! sys_getpid := lookup_or_fail "getpid" "don't know the syscall number of getpid()"
                       "test_read_syscall" 43 in
  let! pid := fork_assert in
  if pid =? 0 then plain_call (Numbered sys_getpid) []
  else
    follow (Site (FILE "read-TEST.c") "test_read_syscall" 58) pid (fun _ => pid) id
      (at_syscall pid test_options (fun l =>
         let! (regset, l) := fill_locals pid l in
         expect_syscall pid sys_getpid regset ;;
         worked pid l))
      (fail_verbose "Test for reading system call number with PINK_TRACE_OPTION_SYSGOOD failed"
         "test_read_syscall" 79).

Definition test_read_retval_good : M (option outcome) :=
  let! sys_getpid := lookup_or_fail "getpid" "don't know the syscall number of getpid()"
                       "test_read_retval_good" 98 in
  let! pid := fork_assert in
  if pid =? 0 then plain_call (Numbered sys_getpid) []
  else
    follow (Site (FILE "read-TEST.c") "test_read_retval_good" 114) pid (fun _ => pid) id
      (at_syscall pid test_options (fun l =>
         let! (regset, l) := fill_locals pid l in
         if negb (insyscall l) then
           expect_syscall pid sys_getpid regset ;;
           cret (false, set_insyscall l)
         else
           let! (rval, error) := read_retval_or_kill pid regset in
           check_retval_equal_or_kill pid rval pid error 0 ;;
           worked pid l))
      (fail_verbose "Test for reading success return value failed" "test_read_retval_good" 142).

Definition test_read_retval_fail : M (option outcome) :=
  let! sys_openat := lookup_or_fail "openat" "don't know the syscall number of openat()"
                       "test_read_retval_fail" 160 in
  let! pid := fork_assert in
  if pid =? 0 then plain_call (Numbered sys_openat) [CVal 0; CVal 0; CVal 0]
  else
    follow (Site (FILE "read-TEST.c") "test_read_retval_fail" 176) pid (fun _ => pid) id
      (at_syscall pid test_options (fun l =>
         let! (regset, l) := fill_locals pid l in
         if negb (insyscall l) then
           expect_syscall pid sys_openat regset ;;
           cret (false, set_insyscall l)
         else
           let! (rval, error) := read_retval_or_kill pid regset in
           check_retval_equal_or_kill pid rval (-1) error EFAULT ;;
           worked pid l))
      (fail_verbose "Test for reading error return value failed" "test_read_retval_fail" 204).

Definition test_read_argument : M (option outcome) :=
  let! arg_index := get_i in
  let expval := 0xbad in
  let! pid := fork_assert in
  if pid =? 0 then invalid_call arg_index (CVal expval) other_args 0
  else
    follow (Site (FILE "read-TEST.c") "test_read_argument" 242) pid (fun _ => pid) id
      (at_syscall pid test_options (fun l =>
         let! (regset, l) := fill_locals pid l in
         expect_syscall pid (PINK_SYSCALL_INVALID cfg) regset ;;
         let! argval := read_argument_or_kill pid regset arg_index (indet "argval") in
         check_argument_equal_or_kill pid argval expval ;;
         worked pid l))
      (fail_verbose ("Test for reading syscall argument " +:+ fmt_d arg_index +:+ " failed")
         "test_read_argument" 265).

Definition test_read_vm_data : M (option outcome) :=
  let! arg_index := get_i in
  let expstr := literal "pinktrace" in
  let newstr := fresh "newstr" (length expstr) in
  let! pid := fork_assert in
  if pid =? 0 then invalid_call arg_index (CObj expstr) other_args 1
  else
    follow (Site (FILE "read-TEST.c") "test_read_vm_data" 304) pid id id
      (at_syscall pid test_options (fun l =>
         let! (regset, l) := fill_locals pid l in
         expect_syscall pid (PINK_SYSCALL_INVALID cfg) regset ;;
         let! argval := read_argument_or_kill pid regset arg_index (indet "argval") in
         let! newstr := read_vm_data_or_kill pid regset argval newstr
                          (Z.of_nat (length expstr)) in
         check_memory_equal_or_kill pid newstr expstr (Z.of_nat (length expstr)) ;;
         worked pid l))
      (fail_verbose ("Test for reading VM data at argument " +:+ fmt_d arg_index +:+ " failed")
         "test_read_vm_data" 328).

Definition test_read_vm_data_nul : M (option outcome) :=
  let! arg_index := get_i in
  let expstr := trace_nul_pink in
  let newstr := fresh "newstr" (length expstr) in
  let! pid := fork_assert in
  if pid =? 0 then invalid_call arg_index (CObj expstr) other_args 0
  else
    follow (Site (FILE "read-TEST.c") "test_read_vm_data_nul" 369) pid id id
      (at_syscall pid test_options (fun l =>
         let! (regset, l) := fill_locals pid l in
         expect_syscall pid (PINK_SYSCALL_INVALID cfg) regset ;;
         let! argval := read_argument_or_kill pid regset arg_index (indet "argval") in
         let! (_, newstr) := read_vm_data_nul_or_kill pid regset argval newstr
                               (Z.of_nat (length expstr)) in
         check_string_equal_or_kill pid newstr expstr 6 ;;
         worked pid l))
      (fail_verbose ("Test for reading nul-terminated VM data at argument " +:+ fmt_d arg_index
                     +:+ " failed") "test_read_vm_data_nul" 393).

Definition PATH_MAX : nat := Z.to_nat 4096.

(** [expstr] after the assignments: a long of Ps, [ink Floyd] and the terminator, in an
    array of which the rest is indeterminate. *)
Definition pink_floyd : list byte :=
  list_byte_of_string (copies (Z.to_nat (sizeof_long cfg)) "P" +:+ "ink Floyd").
Definition pink_floyd_array : list byte :=
  resize PATH_MAX Byte.x00 (pink_floyd ++ [Byte.x00] ++ drop (S (length pink_floyd))
                              (fresh "expstr" PATH_MAX)).

(** [if ((size_t)r <= l) newstr[r] = '\0';] *)
Definition terminate (r : Z) (l : nat) (newstr : list byte) : list byte :=
  if to_ulong cfg r <=? Z.of_nat l then <[Z.to_nat r := Byte.x00]> newstr else newstr.

Definition three_args : list carg := replicate 6 (CVal 3).

Definition test_read_vm_data_nul_long : M (option outcome) :=
  let! arg_index := get_i in
  let l := length pink_floyd in
  let! pid := fork_assert in
  if pid =? 0 then invalid_call arg_index (CObj pink_floyd_array) three_args 0
  else
    follow (Site (FILE "read-TEST.c") "test_read_vm_data_nul_long" 456) pid id id
      (at_syscall pid test_options (fun lc =>
         let! (regset, lc) := fill_locals pid lc in
         expect_syscall pid (PINK_SYSCALL_INVALID cfg) regset ;;
         let! argval := read_argument_or_kill pid regset arg_index (indet "argval") in
         let! (r, newstr) := read_vm_data_nul_or_kill pid regset argval (fresh "newstr" PATH_MAX)
                               (Z.of_nat l) in
         info ("read_vm_data_nul() returned r:" +:+ fmt_d (to_ulong cfg r) +:+ " for l:" +:+
               fmt_d (Z.of_nat l) +:+ nl) ;;
         check_string_endswith_or_kill pid (terminate r l newstr) (literal "Pink Floyd") ;;
         worked pid lc))
      (fail_verbose ("Test for reading nul-terminated VM data subsequently at argument " +:+
                     fmt_d arg_index +:+ " failed") "test_read_vm_data_nul_long" 483).

Definition EXPARR_SIZ : nat := 2.
Definition EXPSTR_SIZ : nat := 12.

(** The loop over the array from [i] on; [todo] is the rest of [exparr], and a null
    pointer handed to strncmp is undefined. *)
Fixpoint string_array_loop (pid argval : Z) (regset : pink_regset) (i : Z)
    (todo : list (option (list byte))) : M unit :=
  match todo with
  | [] => cret tt
  | exp :: todo' =>
      info (tab +:+ "Checking array index " +:+ fmt_d i +:+ nl) ;;
      let! (newstr, nullptr) := read_string_array_or_kill pid regset argval i
                                  (fresh "newarr" EXPSTR_SIZ) (Z.of_nat EXPSTR_SIZ) in
      let null := default (negb (indet "nullptr" =? 0)) nullptr in
      if null && (i + 1 =? Z.of_nat EXPARR_SIZ) then cret tt
      else
        (if null then
           let! _ := kill pid SIGKILL in
           fail_verbose ("unexpected NULL pointer at index " +:+ fmt_d i +:+ " (expected:" +:+
                         fmt_d (Z.of_nat EXPARR_SIZ - 1) +:+ ")") "test_read_string_array" 556
         else cret tt) ;;
        let! exp := checked exp in
        check_string_equal_or_kill pid newstr exp 5 ;;
        string_array_loop pid argval regset (i + 1) todo'
  end.

Definition exparr : list (option (list byte)) := [Some trace_nul_pink; None].

Definition test_read_string_array : M (option outcome) :=
  let! arg_index := get_i in
  let! pid := fork_assert in
  if pid =? 0 then invalid_call arg_index (CArr exparr) other_args 0
  else
    follow (Site (FILE "read-TEST.c") "test_read_string_array" 532) pid id id
      (at_syscall pid test_options (fun l =>
         let! (regset, l) := fill_locals pid l in
         expect_syscall pid (PINK_SYSCALL_INVALID cfg) regset ;;
         let! argval := read_argument_or_kill pid regset arg_index (indet "argval") in
         string_array_loop pid argval regset 0 exparr ;;
         worked pid l))
      (fail_verbose ("Test for reading NULL-terminated string array at argument " +:+
                     fmt_d arg_index +:+ " failed") "test_read_string_array" 571).

(** [for (_i = 0; _i < n; _i++) run_test(test);], [n] times from [i] on *)
Fixpoint for_i (file name : string) (test : M (option outcome)) (n : nat) (i : Z)
  : M (option outcome) :=
  set_i i ;;
  match n with
  | O => cret None
  | S n' => and_then (run_test file name test) (for_i file name test n' (i + 1))
  end.
Definition for_args (file name : string) (test : M (option outcome)) : M (option outcome) :=
  for_i file name test (Z.to_nat PINK_MAX_ARGS) 0.

Definition fixture (file : string) (l : list (M (option outcome))) : M (option outcome) :=
  seatest_test_fixture_start file ;;
  and_then (run_all l) (seatest_test_fixture_end ;; cret None).

Definition test_fixture_read : M (option outcome) :=
  let file := FILE "read-TEST.c" in
  fixture file
    [run_test file "test_read_syscall" test_read_syscall;
     run_test file "test_read_retval_good" test_read_retval_good;
     run_test file "test_read_retval_fail" test_read_retval_fail;
     for_args file "test_read_argument" test_read_argument;
     for_args file "test_read_vm_data" test_read_vm_data;
     for_args file "test_read_vm_data_nul" test_read_vm_data_nul;
     for_args file "test_read_vm_data_nul_long" test_read_vm_data_nul_long;
     for_args file "test_read_string_array" test_read_string_array].

Definition test_suite_read : M (option outcome) := test_fixture_read.

(** ** vm-TEST.c *)

Definition test_vm_lread : M (option outcome) :=
  let! arg_index := get_i in
  let expstr := literal "pinktrace" in
  let newstr := fresh "newstr" (length expstr) in
  let! pid := fork_assert in
  if pid =? 0 then invalid_call arg_index (CObj expstr) other_args 1
  else
    follow (Site (FILE "vm-TEST.c") "test_vm_lread" 60) pid id id
      (at_syscall pid test_options (fun l =>
         let! (regset, l) := fill_locals pid l in
         expect_syscall pid (PINK_SYSCALL_INVALID cfg) regset ;;
         let! argval := read_argument_or_kill pid regset arg_index (indet "argval") in
         let! newstr := vm_lread_or_kill pid regset argval newstr (Z.of_nat (length expstr)) in
         check_memory_equal_or_kill pid newstr expstr (Z.of_nat (length expstr)) ;;
         worked pid l))
      (fail_verbose ("Test for (ptrace) reading VM data at argument " +:+ fmt_d arg_index +:+
                     " failed") "test_vm_lread" 84).

Definition test_vm_lread_nul : M (option outcome) :=
  let! arg_index := get_i in
  let expstr := trace_nul_pink in
  let newstr := fresh "newstr" (length expstr) in
  let! pid := fork_assert in
  if pid =? 0 then invalid_call arg_index (CObj expstr) other_args 0
  else
    follow (Site (FILE "vm-TEST.c") "test_vm_lread_nul" 125) pid id id
      (at_syscall pid test_options (fun l =>
         let! (regset, l) := fill_locals pid l in
         expect_syscall pid (PINK_SYSCALL_INVALID cfg) regset ;;
         let! argval := read_argument_or_kill pid regset arg_index (indet "argval") in
         let! (_, newstr) := vm_lread_nul_or_kill pid regset argval newstr
                               (Z.of_nat (length expstr)) in
         check_string_equal_or_kill pid newstr expstr 6 ;;
         worked pid l))
      (fail_verbose ("Test for (ptrace) reading nul-terminated VM data at argument " +:+
                     fmt_d arg_index +:+ " failed") "test_vm_lread_nul" 149).

Definition test_vm_lread_nul_long : M (option outcome) :=
  let! arg_index := get_i in
  let l := length pink_floyd in
  let! pid := fork_assert in
  if pid =? 0 then invalid_call arg_index (CObj pink_floyd_array) three_args 0
  else
    follow (Site (FILE "vm-TEST.c") "test_vm_lread_nul_long" 210) pid id id
      (at_syscall pid test_options (fun lc =>
         let! (regset, lc) := fill_locals pid lc in
         expect_syscall pid (PINK_SYSCALL_INVALID cfg) regset ;;
         let! argval := read_argument_or_kill pid regset arg_index (indet "argval") in
         let! (r, newstr) := vm_lread_nul_or_kill pid regset argval (fresh "newstr" PATH_MAX)
                               (Z.of_nat l) in
         info ("read_vm_data_nul() returned r:" +:+ fmt_d (to_ulong cfg r) +:+ " for l:" +:+
               fmt_d (Z.of_nat l) +:+ nl) ;;
         check_string_endswith_or_kill pid (terminate r l newstr) (literal "Pink Floyd") ;;
         worked pid lc))
      (fail_verbose ("Test for (ptrace) reading nul-terminated VM data subsequently at argument "
                     +:+ fmt_d arg_index +:+ " failed") "test_vm_lread_nul_long" 237).

Definition test_fixture_vm : M (option outcome) :=
  let file := FILE "vm-TEST.c" in
  fixture file
    [for_args file "test_vm_lread" test_vm_lread;
     for_args file "test_vm_lread_nul" test_vm_lread_nul;
     for_args file "test_vm_lread_nul_long" test_vm_lread_nul_long].

Definition test_suite_vm : M (option outcome) := test_fixture_vm.

End Tests.
