(* ===== verification/TestWrite.v ===== *)
(** * write-TEST.c, trace-TEST.c and pipe-TEST.c: the tests of writing, of the options
      for tracing, and of pipes *)

From Stdlib Require Import ZArith Lia String Ascii.
From stdpp Require Import base list numbers strings.
From coqutil Require Import Byte Word.LittleEndianList.
From S2P Require Import Prelude Config Kernel Layout Trace Vm Name Regset Read Write Pipe Tracer Seatest Check TestRead.
Local Open Scope string_scope.
Local Open Scope list_scope.
Local Open Scope Z_scope.
Local Open Scope c_scope.

Section Tests.
Context {K : Type} `{!KernelOps K} `{!ProcOps K} `{!CheckOps K} `{!PipeOps K} `{!Setting}.

#[local] Abbreviation M := (comp (tests K)).

(** ** write-TEST.c *)

(** What test [test] changes: its name, the call of the child with its arguments, the
    call to change it to, and the error expected. *)
Definition write_syscall_case (test : Z) : M (string * Z * list carg * Z * Z) :=
  if test =? 0 then
    let! test_call := lookup_or_fail "getpid" "don't know the syscall number of getpid()"
                        "test_write_syscall" 50 in
    cret ("getpid", test_call, [], PINK_SYSCALL_INVALID cfg, ENOSYS)
  else if test =? 1 then
    let! change_call := lookup_or_fail "openat" "don't know the syscall number of openat()"
                          "test_write_syscall" 56 in
    let! test_call := lookup_or_fail "lseek" ("don't know the syscall number of lseek()" +:+ nl)
                        "test_write_syscall" 59 in
    cret ("lseek", test_call, [CVal 0; CVal 0; CVal 0], change_call, EFAULT)
  else
    fail_verbose "invalid loop number" "test_write_syscall" 61 ;;
    cabort.

Definition test_write_syscall : M (option outcome) :=
  let! test := get_i in
  let! (test_name, test_call, args, change_call, errno_expected) := write_syscall_case test in
  message ("test_syscall_" +:+ test_name +:+ ": call:" +:+ fmt_d test_call +:+ " expected errno:" +:+
           fmt_d errno_expected +:+ " " +:+ strerror errno_expected +:+ nl) ;;
  let! pid := fork_assert in
  if pid =? 0 then plain_call (Numbered test_call) args
  else
    follow (Site (FILE "write-TEST.c") "test_write_syscall" 89) pid id id
      (at_syscall pid test_options (fun l =>
         let! (regset, l) := fill_locals pid l in
         if negb (insyscall l) then
           expect_syscall pid test_call regset ;;
           write_syscall_or_kill pid regset change_call ;;
           cret (false, set_insyscall l)
         else
           let! (rval, error) := read_retval_or_kill pid regset in
           check_retval_equal_or_kill pid rval (-1) error errno_expected ;;
           worked pid l))
      (fail_verbose ("Test for writing system call `" +:+ test_name +:+ "' failed")
         "test_write_syscall" 118).

(** The child compares the value as an [int] with what the parent writes. *)
Definition retval_child (sys_getpid change_retval change_error : Z) : M (option outcome) :=
  and_then trace_me_and_stop
    (let! retval := syscall (Numbered sys_getpid) [] in
     let! e := errno_now in
     if negb (to_int retval =? change_retval) || negb (e =? change_error)
     then
       warning (nl +:+ "child: unexpected return " +:+ fmt_d (to_int retval) +:+ " (" +:+ err_text e
                +:+ "), expected " +:+ fmt_d change_retval +:+ " (" +:+ err_text change_error +:+ ")") ;;
       cret (Some (Exited EXIT_FAILURE))
     else cret (Some (Exited EXIT_SUCCESS))).

Definition retval_at_stop (pid change_retval change_error status : Z) (l : locals)
  : M (bool * locals) :=
  if WSTOPSIG status =? SIGSTOP then
    trace_setup_or_kill pid test_options ;; cret (false, l)
  else if negb (write_done l) && (WSTOPSIG status =? Z.lor SIGTRAP 0x80) then
    if negb (insyscall l) then cret (false, set_insyscall l)
    else
      let! (regset, l) := fill_locals pid l in
      let! regset := write_retval_or_kill pid regset change_retval change_error in
      cret (false, set_write_done (set_regset regset l))
  else cret (false, l).

Definition test_write_retval : M (option outcome) :=
  let! test := get_i in
  let! sys_getpid := lookup_or_fail "getpid" "don't know the syscall number of getpid()"
                       "test_write_retval" 145 in
  let '(test_name, change_error, change_retval) :=
    if test =? 0 then ("good", 0, 0xdead) else ("fail", EPERM, -1) in
  message ("test_retval_" +:+ test_name +:+ ": changing retval:" +:+ fmt_d change_retval +:+
           " errno:" +:+ fmt_d change_error +:+ " " +:+ strerror change_error +:+ nl) ;;
  let! pid := fork_assert in
  if pid =? 0 then retval_child sys_getpid change_retval change_error
  else
    follow (Site (FILE "write-TEST.c") "test_write_retval" 183) pid id set_worked (retval_at_stop pid change_retval change_error)
      (fail_verbose ("Test for reading return value of `" +:+ test_name +:+ "' failed")
         "test_write_retval" 207).

Definition is_aarch64 : bool := match PINK_ARCH cfg with AARCH64 => true | _ => false end.

(** Where AArch64 checks only at the entry, the others check at the exit, too. *)
Definition test_write_argument : M (option outcome) :=
  let! arg_index := get_i in
  let origval := 0xaaa in
  let newval := 0xbad in
  let! pid := fork_assert in
  if pid =? 0 then invalid_call arg_index (CVal origval) other_args 0
  else
    follow (Site (FILE "write-TEST.c") "test_write_argument" 248) pid id id
      (at_syscall pid test_options (fun l =>
         if negb (insyscall l) then
           let! (regset, l) := fill_locals pid l in
           expect_syscall pid (PINK_SYSCALL_INVALID cfg) regset ;;
           let! regset := write_argument_or_kill pid regset arg_index newval in
           let! (regset, l) := fill_locals pid (set_regset regset l) in
           let! argval := read_argument_or_kill pid regset arg_index (indet "argval") in
           check_argument_equal_or_kill pid argval newval ;;
           cret (false, set_insyscall (if is_aarch64 then set_worked l else l))
         else if is_aarch64 then
           let! _ := kill pid SIGKILL in cret (true, l)
         else
           let! (regset, l) := fill_locals pid l in
           let! argval := read_argument_or_kill pid regset arg_index (indet "argval") in
           check_argument_equal_or_kill pid argval newval ;;
           worked pid l))
      (fail_verbose ("Test for writing syscall argument " +:+ fmt_d arg_index +:+ " failed")
         "test_write_argument" 286).

(** Read the data back and compare it. *)
Definition expect_vm_data (pid argval : Z) (regset : pink_regset) (newstr : list byte) (line : Z)
  : M unit :=
  let! getstr := read_vm_data_or_kill pid regset argval (fresh "getstr" (length newstr))
                   (Z.of_nat (length newstr)) in
  let! same := checked (strcmp_eq newstr getstr) in
  if (same : bool) then cret tt
  else
    let! _ := kill pid SIGKILL in
    let! t := checked (cstring newstr) in
    let! t' := checked (cstring getstr) in
    fail_verbose ("VM data not identical (expected:`" +:+ t +:+ "' got:`" +:+ t' +:+ "')")
      "test_write_vm_data" line.

Definition test_write_vm_data : M (option outcome) :=
  let! arg_index := get_i in
  let origstr := literal "pinktrace" in
  let newstr := literal "tracepink" in
  let! pid := fork_assert in
  if pid =? 0 then invalid_call arg_index (CObj origstr) other_args 0
  else
    follow (Site (FILE "write-TEST.c") "test_write_vm_data" 328) pid id id
      (at_syscall pid test_options (fun l =>
         if negb (insyscall l) then
           let! (regset, l) := fill_locals pid l in
           expect_syscall pid (PINK_SYSCALL_INVALID cfg) regset ;;
           let! argval := read_argument_or_kill pid regset arg_index (indet "argval") in
           write_vm_data_or_kill pid regset argval newstr (Z.of_nat (length newstr)) ;;
           (if is_aarch64 then expect_vm_data pid argval regset newstr 348 else cret tt) ;;
           cret (false, set_insyscall (if is_aarch64 then set_worked l else l))
         else if is_aarch64 then
           let! _ := kill pid SIGKILL in cret (true, l)
         else
           let! (regset, l) := fill_locals pid l in
           let! argval := read_argument_or_kill pid regset arg_index (indet "argval") in
           expect_vm_data pid argval regset newstr 363 ;;
           worked pid l))
      (fail_verbose ("Test for writing VM data to argument " +:+ fmt_d arg_index +:+ " failed")
         "test_write_vm_data" 377).

Definition test_fixture_write : M (option outcome) :=
  let file := FILE "write-TEST.c" in
  fixture file
    [for_i file "test_write_syscall" test_write_syscall 2 0;
     for_i file "test_write_retval" test_write_retval 2 0;
     for_args file "test_write_argument" test_write_argument;
     for_args file "test_write_vm_data" test_write_vm_data].

Definition test_suite_write : M (option outcome) := test_fixture_write.

(** ** trace-TEST.c *)

(** The loop of the test of the clone options: [expected] and [found] are the process
    that the event announces and the one that stopped. *)
Fixpoint clone_loop (loopcnt : Z) (n : nat) (pid options expected found : Z) : M (Z * Z) :=
  match n with
  | O => cnofuel
  | S n' =>
      on_lib (set_errno 0) ;;
      let! (tracee_pid, st) := wait_no_intr_debug loopcnt
                                 (Site (FILE "trace-TEST.c") "test_trace_clone" 48) in
      let status := default (indet "status") st in
      let! gone := if tracee_pid <=? 0 then check_echild_or_kill pid tracee_pid else cret false in
      if (gone : bool) then cret (expected, found)
      else if WIFEXITED status then
        (if negb (WEXITSTATUS status =? 0) then
           (if negb (tracee_pid =? pid) then kill_save_errno pid SIGKILL else cret tt) ;;
           fail_verbose ("unexpected exit status " +:+ fmt_u (WEXITSTATUS status))
             "test_trace_clone" 55
         else cret tt) ;;
        clone_loop (to_uint (loopcnt + 1)) n' pid options expected found
      else
        (if WIFSIGNALED status then
           (if negb (tracee_pid =? pid) then kill_save_errno pid SIGKILL else cret tt) ;;
           fail_verbose ("unexpected signal " +:+ fmt_u (WTERMSIG status)) "test_trace_clone" 63
         else cret tt) ;;
        (if negb (WIFSTOPPED status) then
           (if negb (tracee_pid =? pid) then kill_save_errno tracee_pid SIGKILL else cret tt) ;;
           kill_save_errno pid SIGKILL ;;
           fail_verbose ("unexpected wait status " +:+ fmt_sharp_x (to_uint status))
             "test_trace_clone" 69
         else cret tt) ;;
        if negb (tracee_pid =? pid) then
          let! r := on_lib (pink_trace_resume tracee_pid 0) in
          (if r <? 0 then
             kill_save_errno tracee_pid SIGKILL ;;
             kill_save_errno pid SIGKILL ;;
             fail_verbose ("PTRACE_CONT (" +:+ err_text (- r) +:+ ")") "test_trace_clone" 77
           else cret tt) ;;
          clone_loop (to_uint (loopcnt + 1)) n' pid options expected tracee_pid
        else
          let! expected :=
            if WSTOPSIG status =? SIGSTOP then trace_setup_or_kill pid options ;; cret expected
            else if WSTOPSIG status =? SIGTRAP then
              let! e := event_decide_and_print status in
              if e =? event_code PINK_EVENT_FORK then
                let! msg := trace_geteventmsg_or_kill pid 0 in cret (to_int msg)
              else cret expected
            else cret expected in
          trace_syscall_or_kill pid 0 ;;
          clone_loop (to_uint (loopcnt + 1)) n' pid options expected found
  end.

Definition clone_options : Z :=
  Z.lor (Z.lor PINK_TRACE_OPTION_CLONE PINK_TRACE_OPTION_FORK) PINK_TRACE_OPTION_VFORK.

Definition test_trace_clone : M (option outcome) :=
  let! pid := fork_assert in
  if pid =? 0 then
    and_then trace_me_and_stop
      (let! r := on_lib fork in
       cret (Some (Exited (if r <? 0 then 2 else 0))))
  else
    let! (expected_grandchild, found_grandchild) := clone_loop 0 fuel pid clone_options 0 0 in
    (if negb (expected_grandchild =? 0) && (expected_grandchild =? found_grandchild) then cret tt
     else fail_verbose "Test for PINK_TRACE_OPTION_CLONE failed" "test_trace_clone" 99) ;;
    cret None.

(** The tests that keep no register set. *)
Definition follow_only (here : site) (pid : Z) (at_stop : Z -> locals -> M (bool * locals))
    (failed : M unit) : M (option outcome) :=
  let! l := test_loop here 0 fuel pid id id at_stop (start_locals None) in
  (if it_worked l then cret tt else failed) ;;
  cret None.

Definition sysgood_at_stop (pid status : Z) (l : locals) : M (bool * locals) :=
  (if WSTOPSIG status =? SIGSTOP
   then trace_setup_or_kill pid PINK_TRACE_OPTION_SYSGOOD else cret tt) ;;
  cret (false, if WSTOPSIG status =? Z.lor SIGTRAP 0x80 then set_worked l else l).

Definition test_trace_sysgood : M (option outcome) :=
  let! pid := fork_assert in
  if pid =? 0 then and_then trace_me_and_stop (cret (Some (Exited 0)))
  else
    follow_only (Site (FILE "trace-TEST.c") "test_trace_sysgood" 132) pid (sysgood_at_stop pid)
      (fail_verbose "Test for PINK_TRACE_OPTION_SYSGOOD failed" "test_trace_sysgood" 149).

(** The message of the event is the process that called execve(2), from Linux 3.0 on. *)
Definition exec_event (pid : Z) (l : locals) : M (bool * locals) :=
  let! os_release := get_release in
  if os_release <? KERNEL_VERSION 3 0 0 then worked pid l
  else
    let! old_pid := trace_geteventmsg_or_kill pid 0 in
    (if negb (to_int old_pid =? pid) then
       let! _ := kill pid SIGKILL in
       fail_verbose "PINK_TRACE_OPTION_EXEC works but can't tell the old pid" "test_trace_exec" 192
     else cret tt) ;;
    worked pid l.

Definition exec_at_stop (pid status : Z) (l : locals) : M (bool * locals) :=
  (if WSTOPSIG status =? SIGSTOP
   then trace_setup_or_kill pid PINK_TRACE_OPTION_EXEC else cret tt) ;;
  if WSTOPSIG status =? SIGTRAP then
    let! e := event_decide_and_print status in
    if e =? event_code PINK_EVENT_EXEC then exec_event pid l else cret (false, l)
  else cret (false, l).

Definition test_trace_exec : M (option outcome) :=
  let! pid := fork_assert in
  if pid =? 0 then
    and_then trace_me_and_stop
      (and_then (execve "/bin/true" []) (cret (Some (Exited 1))))
  else
    follow_only (Site (FILE "trace-TEST.c") "test_trace_exec" 172) pid (exec_at_stop pid)
      (fail_verbose "Test for PINK_TRACE_OPTION_EXEC failed" "test_trace_exec" 203).

Definition test_fixture_trace : M (option outcome) :=
  let file := FILE "trace-TEST.c" in
  fixture file
    [run_test file "test_trace_clone" test_trace_clone;
     run_test file "test_trace_sysgood" test_trace_sysgood;
     run_test file "test_trace_exec" test_trace_exec].

Definition test_suite_trace : M (option outcome) := test_fixture_trace.

(** ** pipe-TEST.c *)

(** [if ((r = call)) fail_verbose("name failed: %d(%s)", -r, strerror(-r));] *)
Definition pipe_check (r : Z) (name : string) (line : Z) : M unit :=
  if negb (r =? 0) then
    fail_verbose (name +:+ " failed: " +:+ fmt_d (- r) +:+ "(" +:+ strerror (- r) +:+ ")")
      "test_read_write_int" line
  else cret tt.

Definition test_read_write_int : M (option outcome) :=
  let wint := 42 in
  let! (r, pipefd) := on_lib (pink_pipe_init HAVE_PIPE2) in
  pipe_check r "pink_pipe_init" 15 ;;
  let! r := on_lib (pink_pipe_write_int cfg pipefd.2 wint) in
  pipe_check r "pink_pipe_write_int" 17 ;;
  let! (r, rint) := on_lib (pink_pipe_read_int cfg pipefd.1 0) in
  pipe_check r "pink_pipe_read_int" 20 ;;
  (if negb (rint =? wint)
   then fail_verbose ("pipe read: " +:+ fmt_d rint +:+ " != pipe write: " +:+ fmt_d wint)
          "test_read_write_int" 23
   else cret tt) ;;
  let! r := on_lib (pink_pipe_close pipefd.1) in
  pipe_check r "pink_pipe_close(0)" 25 ;;
  let! r := on_lib (pink_pipe_close pipefd.2) in
  pipe_check r "pink_pipe_close(1)" 28 ;;
  cret None.

Definition test_fixture_pipe : M (option outcome) :=
  let file := FILE "pipe-TEST.c" in
  fixture file [run_test file "test_read_write_int" test_read_write_int].

Definition test_suite_pipe : M (option outcome) := test_fixture_pipe.

End Tests.
