(* ===== verification/TestSocket.v ===== *)
(** * socket-TEST.c, and the end of pinktrace-check.c: the tests of reading socket
      addresses, all the tests, and main *)

From Stdlib Require Import ZArith Lia String Ascii.
From stdpp Require Import base list numbers strings.
From coqutil Require Import Byte Word.LittleEndianList.
From S2P Require Import Prelude Config Kernel Layout Trace Vm Name Regset Read Write Socket Pipe Tracer Seatest Check TestRead TestWrite.
Local Open Scope string_scope.
Local Open Scope list_scope.
Local Open Scope Z_scope.
Local Open Scope c_scope.

Section Tests.
Context {K : Type} `{!KernelOps K} `{!ProcOps K} `{!CheckOps K} `{!PipeOps K} `{!Setting}.

#[local] Abbreviation M := (comp (tests K)).

Definition SOCKDECODE : bool := bool_decide (is_Some SYS_socketcall).
Definition SYS_bind : Z :=
  if SOCKDECODE then subcall_code PINK_SOCKET_SUBCALL_BIND else SYS_number "bind".
Definition SYS_connect : Z :=
  if SOCKDECODE then subcall_code PINK_SOCKET_SUBCALL_CONNECT else SYS_number "connect".
Definition SYS_sendto : Z :=
  if SOCKDECODE then subcall_code PINK_SOCKET_SUBCALL_SENDTO else SYS_number "sendto".

Inductive test_sys : Type := TEST_SYS_BIND | TEST_SYS_CONNECT | TEST_SYS_SENDTO.

(** [None] is any other value of the [int]. *)
Definition to_test_sys (i : Z) : option test_sys :=
  if i =? 0 then Some TEST_SYS_BIND
  else if i =? 1 then Some TEST_SYS_CONNECT
  else if i =? 2 then Some TEST_SYS_SENDTO else None.

Definition test_sys_index (t : option test_sys) : M Z :=
  match t with
  | Some TEST_SYS_BIND | Some TEST_SYS_CONNECT => cret 1
  | Some TEST_SYS_SENDTO => cret 4
  | None => cabort
  end.

Definition test_sys_name (t : option test_sys) : string :=
  match t with
  | Some TEST_SYS_BIND => "bind"
  | Some TEST_SYS_CONNECT => "connect"
  | Some TEST_SYS_SENDTO => "sendto"
  | None => "wtf?"
  end.

(** The name of a (sub)call in a message. *)
Definition subcall_name (n : Z) : string :=
  or_null (if SOCKDECODE then pink_name_socket_subcall (to_uint n)
           else pink_name_syscall cfg n PINK_ABI_DEFAULT).

Definition check_socketcall_equal_or_kill (pid : Z) (t : option test_sys) (subcall : Z) : M unit :=
  let! subcall_expected := match t with
                           | Some TEST_SYS_BIND => cret SYS_bind
                           | Some TEST_SYS_CONNECT => cret SYS_connect
                           | Some TEST_SYS_SENDTO => cret SYS_sendto
                           | None => cabort
                           end in
  if subcall =? subcall_expected then cret tt
  else
    let! _ := kill pid SIGKILL in
    fail_verbose ("unexpected socketcall " +:+ fmt_d subcall +:+ " (name:" +:+ subcall_name subcall
                  +:+ " expected:" +:+ fmt_d subcall_expected +:+ " " +:+
                  (if subcall_expected =? PINK_SYSCALL_INVALID cfg then "PINK_SYSCALL_INVALID"
                   else subcall_name subcall_expected) +:+ ")")
      "check_socketcall_equal_or_kill" 91 ;;
    cabort.

(** ** The tests *)

Definition expfd : Z := 23.

(** The child: the call of the test with the address and its length. *)
Definition socket_child (t : option test_sys) (addr : carg) (socklen : Z) : M (option outcome) :=
  and_then trace_me_and_stop
    match t with
    | Some TEST_SYS_BIND =>
        let! _ := syscall (Named "bind") [CVal expfd; addr; CVal socklen] in cret (Some (Exited 0))
    | Some TEST_SYS_CONNECT =>
        let! _ := syscall (Named "connect") [CVal expfd; addr; CVal socklen] in cret (Some (Exited 0))
    | Some TEST_SYS_SENDTO =>
        let! _ := syscall (Named "sendto")
                    [CVal expfd; CVal 0xbad; CVal 0xbad; CVal 0xbad; addr; CVal socklen] in
        cret (Some (Exited 0))
    | None => cret (Some (Exited 1))
    end.

(** A comparison that kills the child and records its failure, and goes on. *)
Definition expect_or_kill (pid : Z) (same : bool) (message function : string) (line : Z) : M unit :=
  if same then cret tt
  else let! _ := kill pid SIGKILL in fail_verbose message function line.

Definition expect_equal (pid expected got : Z) (what function : string) (line : Z) : M unit :=
  expect_or_kill pid (got =? expected)
    (what +:+ " not equal (expected:" +:+ fmt_d expected +:+ " got:" +:+ fmt_d got +:+ ")")
    function line.

(** The indeterminate [newaddr]. *)
Definition newaddr0 : pink_sockaddr :=
  Sockaddr (indet "newaddr.family") (indet "newaddr.length")
    (fresh "newaddr.u" (Z.to_nat sizeof_sockaddr_u)).

(** What the six tests share: the child's call, and at its entry the descriptor and the
    family; [check] is what the test checks of the address.  [lines] are those of the
    wait and of the failures of the descriptor, the family and the test. *)
Definition socket_test (test_name function : string) (lines : Z * Z * Z * Z) (addr : carg)
    (socklen family : Z) (check : Z -> pink_sockaddr -> M unit) : M (option outcome) :=
  let '(line_wait, line_fd, line_family, line_test) := lines in
  let! i := get_i in
  let t := to_test_sys i in
  info ("Test: " +:+ test_name +:+ nl) ;;
  let! pid := fork_assert in
  if pid =? 0 then socket_child t addr socklen
  else
    follow (Site (FILE "socket-TEST.c") function line_wait) pid id id
      (at_syscall pid test_options (fun l =>
         let! (regset, l) := fill_locals pid l in
         let! subcall := read_socket_subcall_or_kill pid regset SOCKDECODE (indet "subcall") in
         check_socketcall_equal_or_kill pid t subcall ;;
         let! index := test_sys_index t in
         let! (newfd, newaddr) := read_socket_address_or_kill pid regset SOCKDECODE index
                                    (indet "newfd") newaddr0 in
         expect_equal pid expfd newfd "File descriptors" function line_fd ;;
         expect_equal pid family (sa_family newaddr) "Address families" function line_family ;;
         check pid newaddr ;;
         worked pid l))
      (fail_verbose (test_name +:+ ": Test for reading socket address for " +:+ test_sys_name t +:+
                     "() failed") function line_test).

Definition test_read_socket_address_af_null : M (option outcome) :=
  socket_test "test_af_null" "test_read_socket_address_af_null" (150, 168, 174, 187) (CVal 0) 0 (-1)
    (fun _ _ => cret tt).

(** The union of [expaddr], with its family and otherwise indeterminate. *)
Definition expaddr_u (family : Z) : list byte :=
  set_member cfg (fresh "expaddr.u" (Z.to_nat sizeof_sockaddr_u)) 0 2 family.

Definition sizeof_sockaddr : Z := 16.

Definition expect_path (pid : Z) (got expected : list byte) (function : string) (line : Z) : M unit :=
  let! same := checked (strcmp_eq got expected) in
  let! t := checked (cstring expected) in
  let! t' := checked (cstring got) in
  expect_or_kill pid same ("AF_UNIX paths not identical (expected:`" +:+ t +:+ "' got:`" +:+ t' +:+
                           "')") function line.

Definition unix_u : list byte := splice (expaddr_u AF_UNIX) 2 (literal "pinktrace").

Definition test_read_socket_address_af_unix : M (option outcome) :=
  let f := "test_read_socket_address_af_unix" in
  socket_test "test_af_unix" f (246, 264, 270, 291) (CObj unix_u) sizeof_sockaddr AF_UNIX
    (fun pid newaddr => expect_path pid (sun_path (sa_u newaddr)) (sun_path unix_u) f 278).

Definition unixabs_u : list byte :=
  splice (splice (expaddr_u AF_UNIX) 2 (literal "xpinktrace")) 2 [Byte.x00].

Definition test_read_socket_address_af_unixabs : M (option outcome) :=
  let f := "test_read_socket_address_af_unixabs" in
  socket_test "test_af_unixabs" f (351, 369, 375, 402) (CObj unixabs_u) sizeof_sockaddr AF_UNIX
    (fun pid newaddr =>
       let path := sun_path (sa_u newaddr) in
       let! first := checked (head path) in
       expect_or_kill pid (bool_decide (first = Byte.x00))
         ("AF_UNIX path not abstract (expected:`" +:+ String backslash "0' got:`" +:+
          string_of_list_byte [first] +:+ "')") f 382 ;;
       expect_path pid (drop 1 path) (drop 1 (sun_path unixabs_u)) f 389).

(** A 16-bit number in network order: htons(3). *)
Definition htons_bytes (n : Z) : list byte := reverse (le_split 2 n).
Definition htonl_bytes (n : Z) : list byte := reverse (le_split 4 n).

Definition inet_u : list byte :=
  splice (splice (expaddr_u AF_INET) 4 (htonl_bytes INADDR_LOOPBACK)) 2 (htons_bytes 1969).

Definition test_read_socket_address_af_inet : M (option outcome) :=
  let f := "test_read_socket_address_af_inet" in
  socket_test "test_af_inet" f (460, 478, 484, 505) (CObj inet_u) sizeof_sockaddr AF_INET
    (fun pid newaddr =>
       let u := sa_u newaddr in
       expect_equal pid (be16 inet_u 2) (be16 u 2) "AF_INET ports" f 491 ;;
       check_addr_loopback_or_kill pid (take 4 (drop 4 u))).

Definition sizeof_sockaddr_in6 : Z := 28.

Definition inet6_u : list byte :=
  splice (splice (expaddr_u AF_INET6) 8 in6addr_loopback) 2 (htons_bytes 1969).

Definition test_read_socket_address_af_inet6 : M (option outcome) :=
  let f := "test_read_socket_address_af_inet6" in
  if negb have_ipv6 then message ("PINK_HAVE_IPV6 is 0, skipping test" +:+ nl) ;; cret None
  else
    socket_test "test_af_inet6" f (567, 585, 591, 612) (CObj inet6_u) sizeof_sockaddr_in6 AF_INET6
      (fun pid newaddr =>
         let u := sa_u newaddr in
         expect_equal pid (be16 inet6_u 2) (be16 u 2) "AF_INET6 ports" f 598 ;;
         check_addr6_loopback_or_kill pid (take 16 (drop 8 u))).

Definition sizeof_sockaddr_nl : Z := 12.

Definition netlink_u : list byte :=
  set_member cfg (set_member cfg (expaddr_u AF_NETLINK) 4 4 3) 8 4 3.

Definition test_read_socket_address_af_netlink : M (option outcome) :=
  let f := "test_read_socket_address_af_netlink" in
  if negb have_netlink then
    message ("PINK_HAVE_NETLINK is 0, skipping test" +:+ nl) ;; cret None
  else
    socket_test "test_af_netlink" f (675, 693, 699, 726) (CObj netlink_u) sizeof_sockaddr_nl AF_NETLINK
      (fun pid newaddr =>
         let u := sa_u newaddr in
         expect_equal pid 3 (get_member cfg u 4 4) "AF_NETLINK pids" f 706 ;;
         expect_equal pid 3 (get_member cfg u 8 4) "AF_NETLINK groups" f 713).

Definition test_fixture_socket : M (option outcome) :=
  let file := FILE "socket-TEST.c" in
  fixture file
    [for_i file "test_read_socket_address_af_null" test_read_socket_address_af_null 3 0;
     for_i file "test_read_socket_address_af_unix" test_read_socket_address_af_unix 3 0;
     for_i file "test_read_socket_address_af_unixabs" test_read_socket_address_af_unixabs 3 0;
     for_i file "test_read_socket_address_af_inet" test_read_socket_address_af_inet 3 0;
     for_i file "test_read_socket_address_af_inet6" test_read_socket_address_af_inet6 3 0;
     for_i file "test_read_socket_address_af_netlink" test_read_socket_address_af_netlink 3 0].

Definition test_suite_socket : M (option outcome) := test_fixture_socket.

(** ** The release of the kernel *)

Definition is_digit (a : ascii) : bool :=
  (48 <=? nat_of_ascii a)%nat && (nat_of_ascii a <=? 57)%nat.

(** atoi(3) on a string that starts with a digit, and the string after the digits; the
    value has to be an [int]. *)
Fixpoint atoi_from (acc : Z) (p : string) : Z * string :=
  match p with
  | String a p' => if is_digit a then atoi_from (10 * acc + (Z.of_nat (nat_of_ascii a) - 48)) p'
                   else (acc, p)
  | EmptyString => (acc, p)
  end.

(** The loop over the parts of the release; [None] ends the program. *)
Fixpoint release_loop (n : nat) (rel : Z) (p : string) : M (option Z) :=
  match n with
  | O => cnofuel
  | S n' =>
      if negb match p with String a _ => is_digit a | EmptyString => false end then cret None
      else
        let '(value, rest) := atoi_from 0 p in
        let! value := checked (int_value value) in
        let rel := Z.lor (to_uint (Z.shiftl rel 8)) (to_uint value) in
        if KERNEL_VERSION 1 0 0 <=? rel then cret (Some rel)
        else match rest with
             | String "." p' => release_loop n' rel p'
             | _ => cret (if KERNEL_VERSION 0 1 0 <=? rel
                          then Some (to_uint (Z.shiftl rel 8)) else None)
             end
  end.

(** Every iteration moves on by at least a digit and a dot. *)
Definition get_os_release : M (option Z) :=
  let! (r, release) := on_lib (libcall sys_uname) in
  if r <? 0 then cret None
  else release_loop (S (String.length release)) 0 release.

(** ** All tests *)

(** [!skip || !strstr(skip, name)] *)
Definition unless_skipped (name : string) (suite : M (option outcome)) : M (option outcome) :=
  match PINK_CHECK_SKIP with
  | Some skip => match String.index 0 name skip with Some _ => cret None | None => suite end
  | None => suite
  end.

Definition all_tests : M (option outcome) :=
  run_all
    [unless_skipped "trace" test_suite_trace;
     unless_skipped "vm" test_suite_vm;
     unless_skipped "read" test_suite_read;
     unless_skipped "write" test_suite_write;
     unless_skipped "socket" test_suite_socket;
     unless_skipped "pipe" test_suite_pipe].

(** main of pinktrace-check.c. *)
Definition check_main (argv : list string) : M outcome :=
  let! rel := get_os_release in
  match rel with
  | None => cret (Exited EXIT_FAILURE)
  | Some rel =>
      set_release rel ;;
      set_i 0 ;;
      let! r := seatest_testrunner argv all_tests None None in
      match r with
      | inl passed => cret (Returned (if (passed : bool) then EXIT_SUCCESS else EXIT_FAILURE))
      | inr ended => cret ended
      end
  end.

End Tests.
