(* ===== verification/TestSession.v ===== *)
(** * The tests on a lawful kernel: what a session of a test is

    A test passes when it returns and leaves the framework's variables as they were: no
    failure was recorded.  The hypotheses say what the kernel reports of the child,
    stop by stop ([begins], [next_stop]), and that it stands at the entry of the call
    that the child makes ([entered]); that the child makes this call is a statement
    about the same test, run where fork(2) returns 0 ([child_makes]). *)

From Stdlib Require Import ZArith Lia String Ascii.
From stdpp Require Import base list numbers strings.
From coqutil Require Import Byte Word.LittleEndianList.
From S2P Require Import Prelude Config Kernel Layout Sim Trace Vm VmRead VmCross Name Regset Read ReadVm Write WriteVm Registers Socket Observe Pipe Tracer Script Seatest Check TestRead.
Local Open Scope string_scope.
Local Open Scope list_scope.
Local Open Scope Z_scope.
Local Open Scope c_scope.

(** ** Running in a frame *)

(** What a passing test leaves alone, with the process group it waits for; the output
    of [f_sea] does not count. *)
Record frame : Type := Frame { f_sea : sea; f_i : Z; f_pgid : Z; f_release : Z }.

Definition world {K} (fr : frame) (k : K) (e : Z) (o : string) : tests K :=
  Tests (CState k e) (with_out o (f_sea fr)) (f_i fr) (f_pgid fr) (f_release fr).

Definition set_group (fr : frame) (pid : Z) : frame := Frame (f_sea fr) (f_i fr) pid (f_release fr).

(** Whatever [errno] is and was printed before, the computation returns, the frame is the
    same, and the result and the kernel satisfy [Q]. *)
Definition wp {K A} (fr : frame) (k : K) (f : comp (tests K) A) (Q : A -> K -> Prop) : Prop :=
  forall e o, exists a k' e' o', f (world fr k e o) = Ret a (world fr k' e' o') /\ Q a k'.
Definition lib_wp {K A} (k : K) (f : comp (cstate K) A) (Q : A -> K -> Prop) : Prop :=
  forall e, exists a k' e', f (CState k e) = Ret a (CState k' e') /\ Q a k'.

(** A test that returns without having recorded anything. *)
Definition passes {K} (fr : frame) (k : K) (test : comp (tests K) (option outcome)) : Prop :=
  forall e o, exists pgid k' e' o',
    test (world fr k e o) = Ret None (world (set_group fr pgid) k' e' o').

Section Wp.
Context {K : Type}.
Implicit Types (k : K) (fr : frame).

Lemma wp_ret {A} fr k (a : A) (Q : A -> K -> Prop) : Q a k -> wp fr k (cret a) Q.
Proof. intros H e o. by exists a, k, e, o. Qed.

Lemma wp_bind {A B} fr k (f : comp (tests K) A) (g : A -> comp (tests K) B) Q :
  wp fr k f (fun a k' => wp fr k' (g a) Q) -> wp fr k (cbind f g) Q.
Proof.
  intros H e o. destruct (H e o) as (a & k1 & e1 & o1 & H1 & Hg).
  destruct (Hg e1 o1) as (b & k2 & e2 & o2 & H2 & HQ).
  exists b, k2, e2, o2. by rewrite (cbind_run _ _ _ _ _ H1).
Qed.

Lemma wp_mono {A} fr k (f : comp (tests K) A) (Q R : A -> K -> Prop) :
  wp fr k f Q -> (forall a k', Q a k' -> R a k') -> wp fr k f R.
Proof.
  intros H HQ e o. destruct (H e o) as (a & k1 & e1 & o1 & H1 & HQa). exists a, k1, e1, o1. auto.
Qed.

Lemma wp_lib {A} fr k (f : comp (cstate K) A) Q : lib_wp k f Q -> wp fr k (on_lib f) Q.
Proof.
  intros H e o. destruct (H e) as (a & k1 & e1 & H1 & HQ). exists a, k1, e1, o.
  unfold on_lib. simpl. by rewrite H1.
Qed.

Lemma wp_set_errno fr v (k : K) (Q : unit -> K -> Prop) : Q tt k -> wp fr k (on_lib (set_errno v)) Q.
Proof. intros HQ e o. by exists tt, k, v, o. Qed.

(** A text that depends on [errno] is some text. *)
Lemma wp_errno {A} fr k (g : Z -> comp (tests K) A) Q :
  (forall e, wp fr k (g e) Q) -> wp fr k (cbind errno_now g) Q.
Proof. intros H e o. exact (H e e o). Qed.

(** Printing changes the output, and [errno] as isatty(3) does. *)
Lemma pprintf_run `{!Setting} pretty t k e g i pg rel :
  exists o r, pprintf pretty t (Tests (CState k e) g i pg rel : tests K)
    = Ret r (Tests (CState k (errno_after isatty_stdout e)) (with_out o g) i pg rel).
Proof.
  unfold pprintf, pprintf_va, isatty.
  destruct (((sr_val isatty_stdout =? 0) || bool_decide (is_Some PINKTRACE_CHECK_NOCOLOUR))%bool) eqn:E;
    [|destruct (pretty =? WARNING) eqn:W];
    unfold cbind at 1 2 3, on_lib; cbn [t_lib ker errno]; rewrite E, ?W; by eexists _, _.
Qed.

(** What is printed does not matter. *)
Lemma wp_print `{!Setting} fr k pretty t (Q : unit -> K -> Prop) :
  Q tt k -> wp fr k (pprintf pretty t ;; cret tt) Q.
Proof.
  intros HQ e o. destruct (pprintf_run pretty t k e (with_out o (f_sea fr)) (f_i fr) (f_pgid fr) (f_release fr))
    as (o' & r & Hp). exists tt, k, (errno_after isatty_stdout e), o'. by rewrite (cbind_run _ _ _ _ _ Hp).
Qed.

(** A library call whose result does not depend on [errno]. *)
Lemma lib_wp_run {A} k (f : comp (cstate K) A) a k' (Q : A -> K -> Prop) :
  (forall e, exists e', f (CState k e) = Ret a (CState k' e')) -> Q a k' -> lib_wp k f Q.
Proof. intros H HQ e. destruct (H e) as [e' He]. by exists a, k', e'. Qed.

Lemma wp_checked {A B} fr k (o : option A) a (g : A -> comp (tests K) B) Q :
  o = Some a -> wp fr k (g a) Q -> wp fr k (cbind (checked o) g) Q.
Proof. intros -> H. apply wp_bind. by apply wp_ret. Qed.

(** A computation before one that may depend on its result. *)
Lemma wp_seq {A B} fr k (f : comp (tests K) A) (g : A -> comp (tests K) B) (R : A -> K -> Prop) Q :
  wp fr k f R -> (forall a k', R a k' -> wp fr k' (g a) Q) -> wp fr k (cbind f g) Q.
Proof. intros Hf Hg. apply wp_bind. by eapply wp_mono. Qed.

End Wp.

(** ** Sessions *)

Section Session.
Context {K : Type} `{!KernelOps K} `{!ProcOps K} `{!CheckOps K} `{!TraceeView K} `{!RegView K}.
Context `{!PtraceErrno K} {St : Setting}.

(** The statuses of a stop by SIGSTOP and of a stop for a system call with the option. *)
Definition stop_status : Z := 0x137f.
Definition syscall_status : Z := 0x857f.

(** A call that succeeds. *)
Definition succeeds (call : K -> sysret * K) (k k' : K) : Prop := call k = (SysRet 0 None, k').
Definition request_ok (req : ptrace_request) (pid v : Z) (k k' : K) : Prop :=
  exists r, sys_ptrace req pid 0 (DVal v) k = (SysRet r None, DVal v, k').

(** What the wait for the group of [pid] reports: a status of one of its processes, of
    [pid] itself, or that there is none left. *)
Definition group_reports (pid who st : Z) (k k' : K) : Prop :=
  sys_waitpid (- pid) k = (SysRet who None, Some st, k').
Definition reports (pid st : Z) : K -> K -> Prop := group_reports pid pid st.
Definition none_left (pid : Z) (k k' : K) : Prop :=
  exists st, sys_waitpid (- pid) k = (SysRet (-1) (Some ECHILD), st, k').

(** From one stop to the next: the child is resumed to its next system call stop, and
    that stop is what the wait for its group reports. *)
Definition next_stop (pid : Z) (k k' : K) : Prop :=
  exists k1, request_ok PTRACE_SYSCALL pid 0 k k1 /\ reports pid syscall_status k1 k'.

(** The child is forked into a group of its own; it stops itself, accepts the options
    and runs to its first system call. *)
Definition begins (pid : Z) (k0 k : K) : Prop :=
  0 < pid /\ exists k1 k2 k3 k4, sys_fork k0 = (SysRet pid None, k1) /\
    succeeds (sys_setpgid pid 0) k1 k2 /\ reports pid stop_status k2 k3 /\
    request_ok PTRACE_SETOPTIONS pid PTRACE_O_TRACESYSGOOD k3 k4 /\ next_stop pid k4 k.

(** *** Where the child is *)

(** An argument register that holds an argument: the number, or the address of a copy of
    the object.  Addresses of objects are not within 256 bytes of the largest [long]; the
    user addresses of x86-64 end far below. *)
Definition holds_arg (k : K) (pid v : Z) (a : carg) : Prop :=
  match a with
  | CVal z => v = z
  | CObj bs => 0 < v < 2 ^ 63 - 256 /\
               to_ulong cfg v + Z.of_nat (length bs) <= 2 ^ bits_long cfg /\
               read_mem (tmem k pid) (to_ulong cfg v) (length bs) = Some bs
  | CArr ps => forall j p, ps !! j = Some p -> exists q,
      read_mem (tmem k pid) (to_ulong cfg v + 8 * Z.of_nat j) 8 = Some (le_split 8 q) /\
      0 <= q < 2 ^ 63 - 256 /\
      match p with
      | None => q = 0
      | Some bs => 0 < q /\ read_mem (tmem k pid) q (length bs) = Some bs
      end
  end.

(** The child is a stopped 64-bit task at a stop for call [nr] with these arguments. *)
Definition entered (k : K) (pid nr : Z) (args : list carg) : Prop :=
  stopped k pid /\ compat_task k pid = false /\ length (user_area k pid) = sizeof_regs cfg /\
  0 <= nr < 2 ^ 30 /\ x86_64_r cfg (user_area k pid) ORIG_RAX = nr /\
  forall i a, args !! Z.to_nat i = Some a -> 0 <= i < 6 ->
    holds_arg k pid (task_arg cfg false (user_area k pid) i) a.

(** *** The child's side *)

(** Where fork(2) returns 0, [pid] is the child's own number: it asks to be traced, stops,
    and the next system call it makes is [nr] with [args]; then it exits. *)
Definition child_makes (test : comp (tests K) (option outcome)) (fr : frame) (nr : Z)
    (args : list carg) : Prop :=
  forall k0 k1 k2 k3 k4 d v r,
    sys_fork k0 = (SysRet 0 None, k1) -> sys_ptrace PTRACE_TRACEME 0 0 NULL k1 = (SysRet v None, d, k2) ->
    sys_kill (sys_getpid k1) SIGSTOP k2 = (SysRet 0 None, k3) ->
    sys_call (Numbered nr) args k3 = (r, k4) ->
    forall e o, exists code e' o',
      test (world fr k0 e o) = Ret (Some (Exited code)) (world fr k4 e' o').

(** ** The helpers in a session *)

Lemma wp_pgid fr (k : K) Q : Q (f_pgid fr) k -> wp fr k get_pgid Q.
Proof. intros H e o. by exists (f_pgid fr), k, e, o. Qed.

Lemma wp_i fr (k : K) Q : Q (f_i fr) k -> wp fr k get_i Q.
Proof. intros H e o. by exists (f_i fr), k, e, o. Qed.

Lemma lib_request req pid v (k k' : K) Q :
  request_ok req pid v k k' -> Q 0 k' -> lib_wp k (ptrace_rc req pid 0 (DVal v)) Q.
Proof.
  intros [r H] HQ. eapply lib_wp_run; [|exact HQ]. intros e. exists 0.
  by rewrite (ptrace_rc_cases _ _ _ _ (CState k e) _ _ _ H).
Qed.

Lemma wp_trace_syscall fr pid (k k' : K) (Q : unit -> K -> Prop) :
  request_ok PTRACE_SYSCALL pid 0 k k' -> Q tt k' -> wp fr k (trace_syscall_or_kill pid 0) Q.
Proof.
  intros H HQ. apply wp_bind, wp_lib, (lib_request _ _ _ _ _ _ H). apply wp_errno. intros e.
  apply wp_bind, wp_print. by apply wp_ret.
Qed.

Lemma wp_setup_options fr pid options (k k' : K) (Q : unit -> K -> Prop) :
  PINK_HAVE_SETUP cfg = true -> options_supported cfg options = true ->
  request_ok PTRACE_SETOPTIONS pid (kernel_options options) k k' -> Q tt k' ->
  wp fr k (trace_setup_or_kill pid options) Q.
Proof.
  intros Hs Ho H HQ. apply wp_bind, wp_lib. unfold pink_trace_setup.
  rewrite Hs, setup_options_spec, Ho.
  apply (lib_request PTRACE_SETOPTIONS pid (kernel_options options) k k' _ H).
  apply wp_errno. intros e. apply wp_bind, wp_print. by apply wp_ret.
Qed.

Lemma wp_trace_setup fr pid (k k' : K) (Q : unit -> K -> Prop) :
  PINK_HAVE_SETUP cfg = true -> PINK_HAVE_OPTION_SYSGOOD cfg = true ->
  request_ok PTRACE_SETOPTIONS pid PTRACE_O_TRACESYSGOOD k k' -> Q tt k' ->
  wp fr k (trace_setup_or_kill pid PINK_TRACE_OPTION_SYSGOOD) Q.
Proof.
  intros Hs Ho. apply (wp_setup_options _ _ PINK_TRACE_OPTION_SYSGOOD); [done|].
  unfold options_supported. simpl. by rewrite Ho.
Qed.

Lemma waitpid_reports n pid who st (k k' : K) e :
  0 < who -> group_reports pid who st k k' ->
  waitpid_no_intr (S n) (- pid) (CState k e) = Ret (who, Some st) (CState k' 0).
Proof.
  intros Hp H. cbn [waitpid_no_intr]. rewrite (cbind_run _ _ _ tt (CState k 0)) by done.
  assert (Hw : waitpid (- pid) (CState k 0) = Ret (who, Some st) (CState k' 0))
    by (unfold waitpid; cbn [ker]; by rewrite H).
  rewrite (cbind_run _ _ _ _ _ Hw), (cbind_run _ _ _ 0 (CState k' 0)) by done.
  by rewrite (proj2 (Z.leb_gt who 0)) by lia.
Qed.

(** What the wait prints; [errno] is as it was. *)
Lemma wait_debug fr loopcnt here pid (k k' : K) e e' o r st :
  waitpid_no_intr fuel pid (CState k e) = Ret (r, st) (CState k' e') ->
  exists o', waitpid_no_intr_debug loopcnt here pid (world fr k e o) = Ret (r, st) (world fr k' e' o').
Proof.
  intros Hw. unfold waitpid_no_intr_debug.
  assert (H1 : on_lib (waitpid_no_intr fuel pid) (world fr k e o) = Ret (r, st) (world fr k' e' o))
    by (unfold on_lib; cbn [t_lib world]; by rewrite Hw).
  rewrite (cbind_run _ _ _ _ _ H1), (cbind_run errno_now _ _ e' (world fr k' e' o)) by done.
  set (text := _ : string). set (rest := (if 0 <? r then _ else _) ;; _).
  assert (Hrest : wp fr k' (message text) (fun _ k => k = k')) by by apply wp_print.
  assert (Hif : wp fr k' (if 0 <? r
     then debug ("(status:" +:+ fmt_sharp_x (to_uint (default (indet "status") st))) ;;
          (if WIFSTOPPED (default (indet "status") st) || WIFEXITED (default (indet "status") st)
              || WIFSIGNALED (default (indet "status") st) || WIFCONTINUED (default (indet "status") st)
           then debug (status_text (default (indet "status") st)) else cret tt) ;; debug (")" +:+ nl)
     else warning ("(" +:+ err_text e' +:+ ")" +:+ nl)) (fun _ k => k = k')).
  { destruct (0 <? r); [|by apply wp_print]. apply wp_bind, wp_print, wp_bind.
    destruct (_ || _); [apply wp_print | apply wp_ret]; by apply wp_print. }
  destruct (Hrest e' o) as ([] & k1 & e1 & o1 & H2 & ->). rewrite (cbind_run _ _ _ _ _ H2).
  destruct (Hif e1 o1) as ([] & k2 & e2 & o2 & H3 & ->). unfold rest. rewrite (cbind_run _ _ _ _ _ H3).
  by exists o2.
Qed.

(** When no process is left, the check that follows the wait is content. *)
Lemma wait_none fr loopcnt here pid (k k' : K) e o :
  f_pgid fr = pid -> (0 < fuel)%nat -> none_left pid k k' ->
  exists st o', wait_no_intr_debug loopcnt here (world fr k e o) = Ret (-1, st) (world fr k' ECHILD o').
Proof.
  intros Hg Hf [st H]. exists st. unfold wait_no_intr_debug.
  rewrite (cbind_run _ _ _ (f_pgid fr) (world fr k e o)), Hg by done.
  apply wait_debug. destruct fuel as [|n]; [lia|]. cbn [waitpid_no_intr].
  rewrite (cbind_run _ _ _ tt (CState k 0)) by done.
  assert (Hw : waitpid (- pid) (CState k 0) = Ret (-1, st) (CState k' ECHILD))
    by (unfold waitpid; cbn [ker]; by rewrite H).
  by rewrite (cbind_run _ _ _ _ _ Hw).
Qed.

Lemma wp_wait fr loopcnt here pid who st (k k' : K) (Q : Z * option Z -> K -> Prop) :
  f_pgid fr = pid -> 0 < who -> (0 < fuel)%nat -> group_reports pid who st k k' ->
  Q (who, Some st) k' -> wp fr k (wait_no_intr_debug loopcnt here) Q.
Proof.
  intros Hg Hp Hf H HQ. apply wp_bind, wp_pgid. rewrite Hg. intros e o.
  destruct (wait_debug fr loopcnt here (- pid) k k' e 0 o who (Some st)) as [o' Hw].
  - destruct fuel as [|n]; [lia|]. by apply waitpid_reports.
  - by exists (who, Some st), k', 0, o'.
Qed.

Lemma wp_kill fr pid sig (k : K) (Q : Z -> K -> Prop) :
  (forall v k', Q v k') -> wp fr k (kill pid sig) Q.
Proof.
  intros HQ. apply wp_lib. intros e. unfold signal_call. cbn [ker].
  destruct (sys_kill pid sig k) as [r k']. by eexists _, _, _.
Qed.

(** *** Failures *)

(** The number of failures that the framework has counted. *)
Definition failures (w : tests K) : Z := sea_tests_failed (t_sea w).

(** What isatty(3) leaves in [errno]. *)
Definition tty_errno (s : cstate K) : cstate K := CState (ker s) (errno_after isatty_stdout (errno s)).

(** A failure is counted, and nothing but the framework's variables and [errno] changes. *)
Lemma fail_verbose_errno_run text function line (w : tests K) :
  0 <= failures w < 2 ^ 31 - 1 ->
  exists g, fail_verbose_errno text function line w
    = Ret tt (Tests (tty_errno (t_lib w)) g (t_i w) (t_pgid w) (t_release w)) /\
    sea_tests_failed g = failures w + 1.
Proof.
  unfold failures. intros Hn. unfold fail_verbose_errno. destruct w as [[k e] g i pg rel]. simpl in Hn.
  rewrite (cbind_run errno_now _ _ e (Tests (CState k e) g i pg rel)) by done.
  destruct (pprintf_run WARNING (text e) k e g i pg rel) as (o & r & Hp).
  rewrite (cbind_run _ _ _ _ _ Hp).
  rewrite (cbind_run errno_now _ _ (errno_after isatty_stdout e) (Tests (CState k (errno_after isatty_stdout e)) (with_out o g) i pg rel)) by done.
  unfold seatest_simple_test_result_log, sea_get. set (msg := substring _ _ _).
  unfold cbind at 1 2 3. cbn [get_sea tests_sea t_sea negb].
  assert (Hi : int_value (sea_tests_failed g + 1) = Some (sea_tests_failed g + 1)).
  { unfold int_value. case_match; [done|]. exfalso. lia. }
  destruct (seatest_machine_readable (with_out o g)); unfold sea_printf, sea_mod, increment, cbind; simpl;
    rewrite Hi; by eexists.
Qed.

(** *** Turns of the loop *)

Lemma wp_turn fr here c n pid cp ae (stop : Z -> locals -> comp (tests K) (bool * locals)) l st (k k1 : K) Q :
  f_pgid fr = pid -> 0 < pid -> (0 < fuel)%nat -> reports pid st k k1 -> WIFSTOPPED st = true ->
  wp fr k1 (stop st l) (fun p k2 =>
    if p.1 then Q p.2 k2
    else exists k3, request_ok PTRACE_SYSCALL pid 0 k2 k3 /\
         wp fr k3 (test_loop here (to_uint (c + 1)) n pid cp ae stop p.2) Q) ->
  wp fr k (test_loop here c (S n) pid cp ae stop l) Q.
Proof.
  intros Hg Hp Hf Hr Hst H. destruct (stopped_status _ Hst) as [He Hs]. cbn [test_loop].
  apply wp_bind. eapply wp_wait; [done..|]. cbn beta iota zeta.
  change (default (indet "status") (Some st)) with st. rewrite (proj2 (Z.leb_gt pid 0)) by lia.
  apply wp_bind, wp_ret. cbn beta iota.
  apply wp_bind. unfold check_exit_code_or_fail. rewrite He. apply wp_ret. cbn beta iota.
  apply wp_bind. unfold check_signal_or_fail. rewrite Hs. apply wp_ret.
  apply wp_bind. unfold check_stopped_or_kill. rewrite Hst. apply wp_ret.
  eapply wp_seq; [exact H|]. intros [[] l1] k2 HQ; cbn [fst snd] in HQ; cbn beta iota.
  - by apply wp_ret.
  - destruct HQ as (k3 & Hq & Hl). apply wp_bind. by eapply wp_trace_syscall.
Qed.

(** A turn at a stop for a system call. *)
Lemma wp_turn_syscall fr here c n pid cp ae (body : locals -> comp (tests K) (bool * locals)) l (k k1 : K) Q :
  f_pgid fr = pid -> 0 < pid -> (0 < fuel)%nat -> reports pid syscall_status k k1 ->
  wp fr k1 (body l) (fun p k2 =>
    if p.1 then Q p.2 k2
    else exists k3, request_ok PTRACE_SYSCALL pid 0 k2 k3 /\
         wp fr k3 (test_loop here (to_uint (c + 1)) n pid cp ae (at_syscall pid test_options body) p.2) Q) ->
  wp fr k (test_loop here c (S n) pid cp ae (at_syscall pid test_options body) l) Q.
Proof. intros Hg Hp Hf Hr H. eapply wp_turn; [done..|]. exact H. Qed.

(** *** A whole test *)

Lemma fork_assert_run fr pid (k0 k1 k2 : K) e o :
  0 < pid -> sys_fork k0 = (SysRet pid None, k1) -> succeeds (sys_setpgid pid 0) k1 k2 ->
  fork_assert (world fr k0 e o) = Ret pid (world (set_group fr pid) k2 e o).
Proof.
  intros Hp Hf Hs. unfold fork_assert.
  assert (H1 : on_lib fork (world fr k0 e o) = Ret pid (world fr k1 e o))
    by (unfold on_lib, fork, signal_call; simpl; by rewrite Hf).
  rewrite (cbind_run _ _ _ _ _ H1). rewrite (proj2 (Z.eqb_neq pid (-1))) by lia.
  rewrite (cbind_run _ _ _ tt (world fr k1 e o)) by done. rewrite (proj2 (Z.eqb_neq pid 0)) by lia.
  assert (H2 : on_lib (signal_call (sys_setpgid pid 0)) (world fr k1 e o) = Ret 0 (world fr k2 e o))
    by (unfold on_lib, signal_call; simpl; by rewrite Hs).
  rewrite (cbind_run _ _ _ _ _ H2). done.
Qed.

(** A test that returns in its frame passes. *)
Lemma wp_passes fr (k : K) (test : comp (tests K) (option outcome)) :
  wp fr k test (fun r _ => r = None) -> passes fr k test.
Proof.
  intros H e o. destruct (H e o) as (r & k' & e' & o' & Hr & ->). exists (f_pgid fr), k', e', o'.
  rewrite Hr. by destruct fr.
Qed.

(** A step before a test that changes nothing. *)
Lemma passes_run {A} fr (k : K) (f : comp (tests K) A) a (g : A -> comp (tests K) (option outcome)) :
  (forall w, f w = Ret a w) -> passes fr k (g a) -> passes fr k (cbind f g).
Proof. intros Hf H e o. rewrite (cbind_run _ _ _ _ _ (Hf _)). apply H. Qed.

Lemma passes_print fr (k : K) pretty t (test : comp (tests K) (option outcome)) :
  passes fr k test -> passes fr k ((pprintf pretty t ;; cret tt) ;; test).
Proof.
  intros H e o. destruct (wp_print fr k pretty t (fun _ k' => k' = k) eq_refl e o)
    as ([] & k' & e' & o' & Hp & ->). rewrite (cbind_run _ _ _ _ _ Hp). apply H.
Qed.

(** A test from its fork on: its code for a stop sets the options at the first stop, and
    the rest of the loop lands. *)
Lemma passes_from fr here pid cp ae (stop : Z -> Z -> locals -> comp (tests K) (bool * locals)) failed child (k0 k : K) :
  (1 < fuel)%nat -> is_Some malloc_regset -> begins pid k0 k ->
  (forall k1 k2 l, request_ok PTRACE_SETOPTIONS pid PTRACE_O_TRACESYSGOOD k1 k2 ->
     wp (set_group fr pid) k1 (stop pid stop_status l) (fun p k' => p = (false, l) /\ k' = k2)) ->
  (forall k4 c, reports pid syscall_status k4 k ->
     wp (set_group fr pid) k4 (test_loop here c (pred fuel) pid (cp pid) ae (stop pid)
       (start_locals (Some (pink_regset_zero cfg)))) (fun l _ => it_worked l = true)) ->
  passes fr k0 (let! pid := fork_assert in
    if pid =? 0 then child pid else follow here pid (cp pid) ae (stop pid) (failed pid)).
Proof.
  intros Hfl [m Hm] (Hp & k1 & k2 & k3 & k4 & Hf & Hg & Hr & Hset & k5 & Hq & Hr') Hstop H e o.
  rewrite (cbind_run _ _ _ _ _ (fork_assert_run fr pid k0 k1 k2 e o Hp Hf Hg)).
  rewrite (proj2 (Z.eqb_neq pid 0)) by lia.
  assert (Hw : wp (set_group fr pid) k2 (follow here pid (cp pid) ae (stop pid) (failed pid)) (fun r _ => r = None)).
  { apply wp_bind. unfold regset_alloc_or_kill. apply wp_bind, wp_lib. rewrite Hm.
    eapply lib_wp_run; [intros e'; by exists e'|]. cbn beta iota zeta.
    apply wp_bind, wp_ret, wp_ret.
    apply (wp_seq _ _ _ _ (fun l _ => it_worked l = true)).
    - rewrite <- (Nat.succ_pred_pos fuel) at 1 by lia.
      eapply wp_turn; [done | exact Hp | lia | exact Hr | done |].
      eapply wp_mono; [by apply Hstop|]. intros _ _ [-> ->]. exists k5. split; [done|]. by apply H.
    - intros l k' ->. by apply wp_bind, wp_ret, wp_ret. }
  destruct (Hw e o) as (r & k' & e' & o' & Hrun & ->). by exists pid, k', e', o'.
Qed.

(** The tests that look at the child only at its stops for system calls. *)
Lemma passes_follow fr here pid cp ae (body : Z -> locals -> comp (tests K) (bool * locals)) failed child (k0 k : K) :
  PINK_HAVE_SETUP cfg = true -> PINK_HAVE_OPTION_SYSGOOD cfg = true -> (1 < fuel)%nat ->
  is_Some malloc_regset -> begins pid k0 k ->
  (forall k4 c, reports pid syscall_status k4 k ->
     wp (set_group fr pid) k4 (test_loop here c (pred fuel) pid (cp pid) ae (at_syscall pid test_options (body pid))
       (start_locals (Some (pink_regset_zero cfg)))) (fun l _ => it_worked l = true)) ->
  passes fr k0 (let! pid := fork_assert in
    if pid =? 0 then child pid else follow here pid (cp pid) ae (at_syscall pid test_options (body pid)) (failed pid)).
Proof.
  intros Hs Ho Hfl Hm Hb H.
  apply (passes_from fr here pid cp ae (fun pid => at_syscall pid test_options (body pid)) failed child k0 k);
    [done.. | | done].
  intros k1 k2 l Hset. apply wp_bind. eapply wp_trace_setup; [done..|]. by apply wp_ret.
Qed.

End Session.

(** ** The bodies on 64-bit x86 *)

(** The program as it is built and run: the options exist, there is memory for a register
    set, and the bound on the loops admits a session. *)
Class Ready {St : Setting} : Prop := {
  ready_build : X86Build cfg;
  ready_setup : PINK_HAVE_SETUP cfg = true;
  ready_sysgood : PINK_HAVE_OPTION_SYSGOOD cfg = true;
  ready_malloc : is_Some malloc_regset;
  ready_fuel : (20 < fuel)%nat;
}.

Section Bodies.
Context {K : Type} `{!KernelOps K} `{!ProcOps K} `{!CheckOps K} `{!TraceeView K} `{!RegView K}.
Context `{!PtraceErrno K} {St : Setting} {Rd : Ready} `{!PtraceRegset K} `{!X86User cfg K}.

#[local] Instance session_build : X86Build cfg := ready_build.

Lemma passes_get_i {fr} {k : K} (g : Z -> comp (tests K) (option outcome)) :
  passes fr k (g (f_i fr)) -> passes fr k (let! i := get_i in g i).
Proof. done. Qed.

(** A test whose body is done at the first stop. *)
Lemma passes_one fr here pid cp ae (body : Z -> locals -> comp (tests K) (bool * locals)) failed child (k0 k : K) :
  begins pid k0 k ->
  wp (set_group fr pid) k (body pid (start_locals (Some (pink_regset_zero cfg))))
    (fun p _ => p.1 = true /\ it_worked p.2 = true) ->
  passes fr k0 (let! pid := fork_assert in
    if pid =? 0 then child pid else follow here pid (cp pid) ae (at_syscall pid test_options (body pid)) (failed pid)).
Proof.
  intros Hb H. pose proof ready_fuel.
  eapply passes_follow; [apply ready_setup | apply ready_sysgood | lia | apply ready_malloc | done |].
  intros k4 c Hr. replace (pred fuel) with (S (pred (pred fuel))) by lia.
  destruct Hb as [Hp _]. eapply wp_turn_syscall; [done | done | lia | done |].
  eapply wp_mono; [exact H|]. intros [b l] k' [Hbr Hw]. simpl in *. by subst b.
Qed.

(** A test whose body is done at the second stop. *)
Lemma passes_two fr here pid cp ae (body : Z -> locals -> comp (tests K) (bool * locals)) failed child (k0 k : K) :
  begins pid k0 k ->
  wp (set_group fr pid) k (body pid (start_locals (Some (pink_regset_zero cfg)))) (fun p k1 =>
    p.1 = false /\ exists k2, next_stop pid k1 k2 /\
      wp (set_group fr pid) k2 (body pid p.2) (fun q _ => q.1 = true /\ it_worked q.2 = true)) ->
  passes fr k0 (let! pid := fork_assert in
    if pid =? 0 then child pid else follow here pid (cp pid) ae (at_syscall pid test_options (body pid)) (failed pid)).
Proof.
  intros Hb H. pose proof ready_fuel.
  eapply passes_follow; [apply ready_setup | apply ready_sysgood | lia | apply ready_malloc | done |].
  intros k4 c Hr. replace (pred fuel) with (S (S (pred (pred (pred fuel))))) by lia.
  destruct Hb as [Hp _]. eapply wp_turn_syscall; [done | done | lia | done |].
  eapply wp_mono; [exact H|]. intros [b l] k1 (Hbr & k2 & (k3 & Hq & Hr2) & H2). simpl in *. subst b.
  exists k3. split; [done|]. eapply wp_turn_syscall; [done | done | lia | done |].
  eapply wp_mono; [exact H2|]. intros [b l'] k' [Hbr Hw]. simpl in *. by subst b.
Qed.

(** The register set after a fill at a stop. *)
Definition native_stop (k : K) (pid : Z) : Prop :=
  stopped k pid /\ compat_task k pid = false /\ length (user_area k pid) = sizeof_regs cfg.

Lemma entered_native k pid nr args : entered k pid nr args -> native_stop k pid.
Proof. by intros (H1 & H2 & H3 & _). Qed.

Definition has_regset (l : locals) : Prop :=
  exists r, v_regset l = Some r /\ length (rs_regs r) = sizeof_regs cfg.

Lemma start_has_regset : has_regset (start_locals (Some (pink_regset_zero cfg))).
Proof. eexists. split; [done|]. simpl. apply length_replicate. Qed.

Lemma filled_has_regset u r l : x86_filled cfg false u r -> has_regset (set_regset r l).
Proof. intros (_ & H & _). by exists r. Qed.

Lemma wp_debug_all fr (k : K) texts (Q : unit -> K -> Prop) : Q tt k -> wp fr k (debug_all texts) Q.
Proof.
  intros HQ. induction texts as [|t texts IH]; cbn [debug_all]; [by apply wp_ret|]. by apply wp_bind, wp_print.
Qed.

Lemma wp_dump_regset fr (k : K) r (Q : unit -> K -> Prop) : Q tt k -> wp fr k (dump_regset r) Q.
Proof.
  intros HQ. apply wp_bind, wp_print, wp_bind.
  destruct (1 <? _); [apply wp_print | apply wp_ret]; by apply wp_bind, wp_debug_all, wp_print.
Qed.

Lemma wp_fill fr k pid l Q :
  native_stop k pid -> has_regset l ->
  (forall r, x86_filled cfg false (user_area k pid) r -> Q (r, set_regset r l) k) ->
  wp fr k (fill_locals pid l) Q.
Proof.
  intros (Hs & Hc & Hl) (r0 & Hr0 & Hlen) HQ. unfold fill_locals.
  apply (wp_checked _ _ _ r0); [done|]. apply wp_bind. unfold regset_fill_or_kill. apply wp_bind, wp_lib.
  intros e. destruct (regset_fill_x86 cfg k e pid r0) as (r & Hr & Hf);
    [apply build_arch | apply build_endian | apply build_getregset | done..|].
  eexists _, _, _. split; [exact Hr|]. cbn beta iota.
  apply wp_bind, wp_ret, wp_bind, wp_dump_regset, wp_ret, wp_ret. rewrite Hc in Hf. auto.
Qed.

Lemma wp_expect_syscall fr k pid nr u r (Q : unit -> K -> Prop) :
  x86_filled cfg false u r -> x86_64_r cfg u ORIG_RAX = nr -> 0 <= nr < 2 ^ 30 -> Q tt k ->
  wp fr k (expect_syscall pid nr r) Q.
Proof.
  intros Hf Hu Hn HQ. apply wp_bind. unfold read_syscall_or_kill. apply wp_bind, wp_lib.
  assert (Hbit : Z.testbit nr 30 = false)
    by (destruct (Z.eq_dec nr 0) as [->|]; [done | apply Z.bits_above_log2; [lia | apply Z.log2_lt_pow2; lia]]).
  eapply lib_wp_run.
  { intros e. exists e. rewrite (read_syscall_filled cfg pid false u r nr) by (done || lia). by rewrite Hbit. }
  cbn beta iota. apply wp_bind, wp_print, wp_ret. cbn [default].
  unfold check_syscall_equal_or_kill. change (default (indet "sysnum") (Some nr)) with nr.
  rewrite Z.eqb_refl. by apply wp_ret.
Qed.

Lemma wp_read_argument fr k pid u r i (Q : Z -> K -> Prop) :
  x86_filled cfg false u r -> 0 <= i < 6 -> Q (task_arg cfg false u i) k ->
  wp fr k (read_argument_or_kill pid r i (indet "argval")) Q.
Proof.
  intros Hf Hi HQ. apply wp_bind, wp_lib.
  assert (Hu : to_uint i = i) by (apply wrapu_small; lia). rewrite Hu.
  eapply lib_wp_run.
  { intros e. exists e. by rewrite (read_argument_filled cfg pid false u r i). }
  cbn beta iota. by apply wp_bind, wp_print, wp_ret.
Qed.

Lemma wp_worked fr k pid l (Q : bool * locals -> K -> Prop) :
  (forall k', Q (true, set_worked l) k') -> wp fr k (worked pid l) Q.
Proof. intros HQ. apply wp_bind, wp_kill. intros _ k'. by apply wp_ret. Qed.

(** The first loop of a dump inside of its object: it goes to the end, and its buffer is
    terminated once there was a byte. *)
Lemma wp_hex_loop fr (k : K) n caddr len off buf (Q : Z * list byte -> K -> Prop) :
  0 <= off <= len -> len <= Z.of_nat (length caddr) -> len < 2 ^ 32 -> (Z.to_nat (len - off) < n)%nat ->
  length buf = 17%nat -> off = 0 \/ is_Some (cstring buf) ->
  (forall buf', (len = 0 /\ buf' = buf) \/ is_Some (cstring buf') -> Q (len, buf') k) ->
  wp fr k (hex_loop n caddr len off buf) Q.
Proof.
  intros Hoff Hlen H32. revert off buf Hoff.
  induction n as [|n IH]; intros off buf Hoff Hn Hb Hbuf HQ; [lia|]. cbn [hex_loop].
  destruct (Z.ltb_spec off len) as [Hlt|Hge].
  - apply wp_bind. apply (wp_mono _ _ _ (fun _ k' => k' = k)).
    { destruct (off mod BYTES_IN_LINE =? 0); [|by apply wp_ret]. apply wp_bind.
      destruct (Z.eqb_spec off 0) as [|Hne]; cbn [negb]; [by apply wp_ret, wp_print|].
      destruct Hbuf as [|[t Ht]]; [done|]. apply (wp_checked _ _ _ t); [done|]. by apply wp_print, wp_print. }
    intros _ _ ->. destruct (lookup_lt_is_Some_2 caddr (Z.to_nat off) ltac:(lia)) as [b Hl].
    apply (wp_checked _ _ _ b); [done|]. apply wp_bind, wp_print. cbn zeta.
    assert (Hu : to_uint (off + 1) = off + 1) by (apply wrapu_small; lia). rewrite Hu.
    pose proof (Z.mod_pos_bound off 16 ltac:(lia)) as Hm. change BYTES_IN_LINE with 16.
    assert (Hs : is_Some (cstring (<[S (Z.to_nat (off mod 16)) := Byte.x00]> (<[Z.to_nat (off mod 16) := shown b]> buf)))).
    { apply (cstring_lookup _ (S (Z.to_nat (off mod 16)))). apply list_lookup_insert_eq.
      rewrite length_insert. lia. }
    apply IH; [lia | lia | by rewrite !length_insert | by right |].
    intros buf' [[H0 _]|Hs']; [lia|]. apply HQ. by right.
  - assert (off = len) as -> by lia. apply wp_ret, HQ. destruct Hbuf as [->|Hs]; [by left | by right].
Qed.

Lemma wp_pad_loop fr (k : K) n off (Q : unit -> K -> Prop) :
  0 <= off < 2 ^ 32 -> (Z.to_nat ((- off) mod 16) < n)%nat -> Q tt k -> wp fr k (pad_loop n off) Q.
Proof.
  intros Hoff Hn HQ. revert off Hoff Hn. induction n as [|n IH]; intros off Hoff Hn; [lia|]. cbn [pad_loop].
  change BYTES_IN_LINE with 16. destruct (Z.eqb_spec (off mod 16) 0) as [|Hne]; cbn [negb]; [by apply wp_ret|].
  apply wp_bind, wp_print, IH.
  - apply wrapu_range. lia.
  - unfold to_uint, wrapu. change (2 ^ 32) with (16 * 268435456).
    assert (Hm : (- ((off + 1) mod (16 * 268435456))) mod 16 = (- (off + 1)) mod 16).
    { rewrite Z.rem_mul_r by lia.
      replace (- ((off + 1) mod 16 + 16 * ((off + 1) / 16 mod 268435456)))
        with (- ((off + 1) mod 16) + - ((off + 1) / 16 mod 268435456) * 16) by ring.
      rewrite Z_mod_plus_full. pose proof (Z.div_mod (off + 1) 16 ltac:(lia)).
      replace (- (off + 1)) with (- ((off + 1) mod 16) + - ((off + 1) / 16) * 16) by lia.
      by rewrite Z_mod_plus_full. }
    rewrite Hm. pose proof (Z.div_mod off 16 ltac:(lia)). pose proof (Z.mod_pos_bound off 16 ltac:(lia)).
    rewrite (Z.mod_opp_l_nz off) in Hn by lia.
    assert ((- (off + 1)) mod 16 = 15 - off mod 16); [|lia].
    symmetry. apply (Z.mod_unique _ _ (- (off / 16) - 1)); lia.
Qed.

(** A dump inside of its object; one of no bytes shows a line that was never written. *)
Lemma wp_dump fr (k : K) p addr len (Q : unit -> K -> Prop) :
  0 <= len <= Z.of_nat (length addr) -> len < 2 ^ 31 -> (len = 0 -> is_Some (cstring (fresh "buf" 17))) ->
  Q tt k -> wp fr k (dump_basic_hex p addr len) Q.
Proof.
  intros Hl Hs H0 HQ. unfold dump_basic_hex.
  assert (Hu : to_ulong cfg len = len) by (apply wrapu_small; rewrite (build_bits cfg); lia). rewrite Hu.
  apply wp_bind, wp_print, wp_bind. change (Z.to_nat BYTES_IN_LINE) with 16%nat.
  apply wp_hex_loop; [lia | lia | lia | lia | apply length_resize | by left |].
  intros buf' Hb. cbn beta iota. apply wp_bind, wp_pad_loop.
  - lia.
  - pose proof (Z.mod_pos_bound (- len) 16 ltac:(lia)). lia.
  - assert (is_Some (cstring buf')) as [t Ht] by (destruct Hb as [[Hz ->]|]; [by apply H0 | done]).
    apply (wp_checked _ _ _ t); [done|]. apply wp_bind, wp_print. by apply wp_print.
Qed.

(** A native task's addresses mean themselves. *)
Lemma native_plain u r a :
  x86_filled cfg false u r -> 0 <= x86_64_r cfg u ORIG_RAX < 2 ^ 30 -> plain_addr cfg (rs_abi r) a.
Proof.
  intros (Ha & _) Hn. exists a. split; [|done]. rewrite Ha, (task_abi_cases cfg).
  assert (Hbit : Z.testbit (x86_64_r cfg u ORIG_RAX) 30 = false).
  { destruct (Z.eq_dec (x86_64_r cfg u ORIG_RAX) 0) as [->|]; [done|].
    apply Z.bits_above_log2; [lia | apply Z.log2_lt_pow2; lia]. }
  rewrite Hbit. unfold setup_addr, pink_abi_wordsize, ABI0_WORDSIZE.
  rewrite (build_abis cfg), (build_sizeof cfg), (build_arch (c := cfg)). done.
Qed.

(** *** Memory *)

Lemma wp_transfer fr k name label close function line pid addr len read (Q : Z * list byte -> K -> Prop) :
  lib_wp k read (fun p k' => 0 < p.1 <= Z.of_nat (length p.2) /\ p.1 < 2 ^ 31 /\ Q p k') ->
  wp fr k (transfer_or_kill name label close function line pid addr len read) Q.
Proof.
  intros H. apply wp_bind, wp_set_errno.
  apply wp_bind, wp_lib. intros e. destruct (H e) as ([n dest] & k' & e' & Hr & Hn & Hs & HQ).
  eexists _, _, _. split; [exact Hr|]. simpl in Hn, Hs. cbn beta iota.
  rewrite (proj2 (Z.ltb_ge n 0)) by lia. apply wp_bind.
  destruct (n <? len); [apply wp_print | apply wp_ret];
    (apply wp_bind, wp_print, wp_bind, wp_dump; [lia | done | lia |]; by apply wp_ret).
Qed.

Section Object.
Context (k : K) (pid v : Z) (bs : list byte) (Hobj : holds_arg k pid v (CObj bs)).
Context (u : list byte) (r : pink_regset) (Hfill : x86_filled cfg false u r).
Context (Hnr : 0 <= x86_64_r cfg u ORIG_RAX < 2 ^ 30) (Hst : stopped k pid).
Context (dest : list byte) (Hsmall : Z.of_nat (length bs) < 2 ^ 31) (Hpos : (0 < length bs)%nat).

Lemma wp_read_object fr (Q : list byte -> K -> Prop) :
  transfer cfg K -> length dest = length bs -> Q bs k ->
  wp fr k (read_vm_data_or_kill pid r v dest (Z.of_nat (length bs))) Q.
Proof.
  intros Ht Hd HQ. destruct Hobj as (_ & Hend & Hm). apply wp_bind, wp_transfer. intros e.
  pose proof (transfer_reads cfg Ht k e pid r v dest (Z.of_nat (length bs)) Hst
    (native_plain u r v Hfill Hnr) ltac:(lia) ltac:(lia) Hend) as Hr.
  rewrite Nat2Z.id, Hm in Hr. eexists _, _, _. split; [exact Hr|]. cbn [fst snd].
  rewrite drop_ge, app_nil_r by lia. split_and!; [lia.. |]. by apply wp_ret.
Qed.

Lemma wp_lread_object fr (Q : list byte -> K -> Prop) `{!PtraceMem cfg K} :
  length dest = length bs -> Q bs k ->
  wp fr k (vm_lread_or_kill pid r v dest (Z.of_nat (length bs))) Q.
Proof.
  intros Hd HQ. destruct Hobj as (_ & Hend & Hm). apply wp_bind, wp_transfer. intros e.
  rewrite <- (Nat2Z.id (length bs)) in Hm.
  rewrite (lread_run cfg k e pid v dest (Z.of_nat (length bs)) bs Hst ltac:(lia) ltac:(lia) Hm).
  rewrite Nat2Z.id, drop_ge, app_nil_r by lia.
  eexists _, _, _. split; [reflexivity|]. cbn [fst snd]. split_and!; [lia.. |]. by apply wp_ret.
Qed.

Lemma object_fits len : string_fits cfg (rs_abi r) v len.
Proof. clear Hpos. destruct Hobj as (Hv & _). apply (string_fits_low cfg); lia. Qed.

(** A string inside the object: the buffer holds it up to its end, and the count, which
    depends on the way, stays inside of the buffer. *)
Context (n : nat) (Hnul : find_nul bs = Some n) (Hn : (0 < n)%nat) (Hlen : (8 <= length bs)%nat).

Definition read_string (p : Z * list byte) (k' : K) : Prop :=
  k' = k /\ take (S n) p.2 = take (S n) bs /\ length p.2 = length bs.

Lemma lread_nul_string e `{!PtraceMem cfg K} :
  length dest = length bs ->
  exists count dest' e', pink_vm_lread_nul cfg pid v dest (Z.of_nat (length bs)) (CState k e)
    = Ret (count, dest') (CState k e') /\ read_string (count, dest') k /\
    0 < count <= Z.of_nat (length dest').
Proof.
  intros Hd. destruct Hobj as (_ & Hend & Hm).
  assert (Hn' : (n < length bs)%nat) by (by apply find_nul_lt).
  replace (length bs) with (S n + (length bs - S n))%nat in Hm by lia.
  apply read_mem_split in Hm as [Hm _].
  destruct (lread_nul_run cfg k e pid v dest (Z.of_nat (length bs)) (take (S n) bs) n) as (d & Hr & Hl & Ht & _);
    [done | lia | lia | done | |].
  { rewrite (find_nul_take bs n) by done. by rewrite decide_True by lia. }
  eexists _, d, _. split; [exact Hr|]. split; [split_and!; [done | done | simpl; lia]|].
  unfold nul_skew. pose proof (addr_residue_range cfg v) as Hres. rewrite (build_sizeof cfg) in *.
  case_decide; lia.
Qed.

Lemma wp_lread_nul_object fr (Q : Z * list byte -> K -> Prop) `{!PtraceMem cfg K} :
  length dest = length bs -> (forall p, read_string p k -> Q p k) ->
  wp fr k (vm_lread_nul_or_kill pid r v dest (Z.of_nat (length bs))) Q.
Proof.
  intros Hd HQ. apply wp_transfer. intros e.
  destruct (lread_nul_string e Hd) as (c & d & e' & Hr & Hrs & Hc).
  exists (c, d), k, e'. cbn [fst snd] in *. destruct Hrs as (? & ? & Hl). simpl in *.
  split_and!; [done | lia | lia | lia |]. by apply HQ.
Qed.

Lemma wp_read_nul_object fr (Q : Z * list byte -> K -> Prop) :
  transfer cfg K -> length dest = length bs -> (length bs < fuel)%nat ->
  (forall p, read_string p k -> Q p k) ->
  wp fr k (read_vm_data_nul_or_kill pid r v dest (Z.of_nat (length bs))) Q.
Proof.
  intros Ht Hd Hf HQ. apply wp_transfer. intros e. pose proof (native_plain u r v Hfill Hnr) as Hp.
  assert (exists count dest' e', pink_read_vm_data_nul cfg fuel pid r v dest (Z.of_nat (length bs)) (CState k e)
    = Ret (count, dest') (CState k e') /\ read_string (count, dest') k /\
      0 < count <= Z.of_nat (length dest')) as (c & d & e' & Hr & Hrs & Hc).
  { destruct Ht as [Hh Hvm|Hno Herr Hmem].
    - destruct Hobj as (_ & Hend & Hm). rewrite <- (Nat2Z.id (length bs)) in Hm.
      destruct (read_nul_attach cfg k e fuel pid r v dest (Z.of_nat (length bs)) bs) as (d & Hr & Htk & Hl & _);
        [done | done | done | done | lia | lia | lia | apply object_fits | done | done |].
      unfold nul_count in *. rewrite Hnul in *. eexists _, d, _. split; [exact Hr|].
      replace (Z.to_nat (Z.of_nat n + 1)) with (S n) in Htk by lia.
      pose proof (find_nul_lt _ _ Hnul). split; [split_and!; [done | done | simpl; lia]|]. lia.
    - destruct (read_nul_words cfg k e fuel pid r v dest (Z.of_nat (length bs))) as (e' & Hr);
        [done | lia | done | lia | apply object_fits |]. rewrite Hr. by apply lread_nul_string. }
  exists (c, d), k, e'. cbn [fst snd] in *. destruct Hrs as (? & ? & Hl). simpl in *.
  split_and!; [done | lia | lia | lia |]. by apply HQ.
Qed.

End Object.

(** The comparisons of the tests. *)
Lemma wp_check_memory fr (k : K) pid bs (Q : unit -> K -> Prop) :
  Q tt k -> wp fr k (check_memory_equal_or_kill pid bs bs (Z.of_nat (length bs))) Q.
Proof.
  intros HQ. apply (wp_checked _ _ _ true); [|by apply wp_ret].
  unfold memcmp_eq. rewrite Nat2Z.id, Nat.leb_refl. simpl. by rewrite bool_decide_eq_true_2.
Qed.

Lemma strncmp_eq_take a b n :
  take n a = take n b -> (n <= length a)%nat -> (n <= length b)%nat -> strncmp_eq a b n = Some true.
Proof.
  revert a b. induction n as [|n IH]; intros [|x a] [|y b] H Ha Hb; simpl in *; try done; try lia.
  injection H as -> H. rewrite bool_decide_eq_true_2 by done.
  case_bool_decide; [done|]. apply IH; [done | lia..].
Qed.

Lemma wp_check_string fr (k : K) pid a b n (Q : unit -> K -> Prop) :
  take n a = take n b -> (n <= length a)%nat -> (n <= length b)%nat -> Q tt k ->
  wp fr k (check_string_equal_or_kill pid a b (Z.of_nat n)) Q.
Proof.
  intros H Ha Hb HQ. apply (wp_checked _ _ _ true); [|by apply wp_ret].
  rewrite Nat2Z.id. by apply strncmp_eq_take.
Qed.

End Bodies.

(** ** A concrete session

    The scripted child of [Script] in a build for 64-bit x86. *)

Module Demo.
Export Script.X86.

#[export] Instance script_check : CheckOps script := {|
  sys_setpgid := fun _ _ k => (SysRet 0 None, k);
  sys_call := fun _ _ k => (SysRet (-1) (Some ENOSYS), k);
  sys_execve := fun _ _ k => inr k;
  sys_uname := fun k => (SysRet 0 None, "5.10.0-8-amd64", k);
|}.

#[export] Instance setting : Setting := {|
  cfg := x86_64_linux;
  HAVE_PIPE2 := true;
  have_ipv6 := true;
  have_netlink := true;
  SYS_socketcall := None;
  SYS_number := fun name => pink_lookup_syscall x86_64_linux (Some name) PINK_ABI_DEFAULT;
  strerror := fun _ => "error";
  strsignal := fun _ => "signal";
  malloc_regset := Some (pink_regset_zero x86_64_linux);
  indet := fun _ => 0;
  indet_bytes := fun _ => [Byte.x00];
  fmt_p := fun _ => "0x1000";
  FILE := fun f => f;
  isatty_stdout := SysRet 0 (Some ENOTTY);
  PINKTRACE_CHECK_NOCOLOUR := None;
  PINK_CHECK_SKIP := Some "trace vm read write socket";
  fuel := 64;
|}.

#[export] Instance ready : Ready.
Proof. split; [apply _ | done | done | by eexists | simpl; lia]. Qed.

(** The child with these registers and with [bs] at 0x1000. *)
Definition child (l : list (nat * Z)) (bs : list byte) : sim :=
  Sim 7 {[1]} (store_bytes ∅ 0x1000 bs) (user_of l) false [].
Definition invalid_child (l : list (nat * Z)) (bs : list byte) : sim :=
  child ((ORIG_RAX, 0xbadca11) :: l) bs.

(** A script of the stops for system calls after the first stop. *)
Definition stops (l : list sim) : script :=
  Script (child [] []) false ((stop_status, child [] []) :: ((fun s => (syscall_status, s)) <$> l)).
Definition set_up : sim := logged (child [] []) PTRACE_SETOPTIONS 7 (DVal PTRACE_O_TRACESYSGOOD).

(** The kernel at the first of these stops. *)
Definition first_stop (s : sim) (l : list sim) : script :=
  Script s false ((fun s => (syscall_status, s)) <$> l).

Lemma stops_begin s l : sim_pid s = 7 -> begins 7 (stops (s :: l)) (first_stop s l).
Proof.
  intros Hs. split; [done|].
  eexists (Script (child [] []) true _), _, (Script (child [] []) false _), (Script set_up false _).
  split_and!; [reflexivity | reflexivity | reflexivity | |].
  - exists 0. reflexivity.
  - exists (Script set_up true ((fun s => (syscall_status, s)) <$> (s :: l))).
    split; [exists 0; reflexivity|]. unfold reports, group_reports. simpl. by rewrite Hs.
Qed.

Lemma stops_next s s' l :
  sim_pid s = 7 -> sim_pid s' = 7 -> next_stop 7 (first_stop s (s' :: l)) (first_stop s' l).
Proof.
  intros Hs Hs'. exists (Script s true ((fun s => (syscall_status, s)) <$> (s' :: l))). split.
  - exists 0. simpl. unfold script_ptrace. simpl. by rewrite decide_True by done.
  - unfold reports, group_reports. simpl. by rewrite Hs'.
Qed.

(** The registers and the memory of a concrete stop. *)
Ltac solve_args :=
  let j := fresh "j" in let a := fresh "a" in let H := fresh "H" in let Hj := fresh "Hj" in
  intros j a H Hj;
  assert (j = 0 \/ j = 1 \/ j = 2 \/ j = 3 \/ j = 4 \/ j = 5) as Hj' by lia;
  destruct Hj' as [->|[->|[->|[->|[->| ->]]]]]; vm_compute in H; simplify_eq;
  first [reflexivity | split_and!; vm_compute; (reflexivity || discriminate)].
Ltac solve_entered :=
  split_and!; [by split | reflexivity | reflexivity | by vm_compute | by vm_compute | by vm_compute | solve_args].

(** The frame of a test in round [i]. *)
Definition round (i : Z) : frame := Frame sea_init i (-1) 0.

End Demo.
