(* ===== verification/TestPrint.v ===== *)
(** * What the test program prints

    The text that pprintf adds to stdout, what a failure leaves there, the wait that
    reports, and the hex dump against a definition that works by lines. *)

From Stdlib Require Import ZArith Lia String Ascii.
From stdpp Require Import base list numbers strings.
From coqutil Require Import Byte Word.LittleEndianList.
From S2P Require Import Prelude Config Kernel Layout Trace Vm VmRead VmCross Name Regset Read Write Socket Pipe Tracer Script Seatest Check TestRead TestSession.
Local Open Scope string_scope.
Local Open Scope list_scope.
Local Open Scope Z_scope.
Local Open Scope c_scope.

Section Print.
Context {K : Type} `{!KernelOps K} `{!ProcOps K} `{!CheckOps K} {St : Setting}.
Implicit Types w : tests K.

(** ** One text *)

Definition plain_output : bool :=
  (sr_val isatty_stdout =? 0) || bool_decide (is_Some PINKTRACE_CHECK_NOCOLOUR).

(** What pprintf makes of a text. *)
Definition said (pretty : Z) (t : string) : string :=
  if plain_output then t
  else pprintf_pre pretty +:+ t +:+ ANSI_NORMAL +:+ (if pretty =? WARNING then nl else "").

(** The program after it: the text is behind the output, and [errno] is what isatty(3)
    leaves. *)
Definition printed (pretty : Z) (t : string) (w : tests K) : tests K :=
  Tests (tty_errno (t_lib w)) (write_out (said pretty t) (t_sea w)) (t_i w) (t_pgid w) (t_release w).

Lemma write_out_out t t' (g : sea) : write_out t' (write_out t g) = write_out (t +:+ t') g.
Proof. destruct g. unfold write_out. simpl. by rewrite append_assoc. Qed.

Lemma pprintf_printed pretty t w :
  pprintf pretty t w = Ret (Z.of_nat (String.length t)) (printed pretty t w).
Proof.
  destruct w as [[k e] g i pg rel]. unfold pprintf, pprintf_va, isatty, printed, said. fold plain_output.
  unfold cbind at 1 2, on_lib. cbn [t_lib ker errno]. fold plain_output. destruct plain_output; [done|].
  destruct (pretty =? WARNING); unfold sea_printf, sea_mod, cbind, cret; cbn [get_sea put_sea tests_sea t_sea t_lib t_i t_pgid t_release];
    rewrite !write_out_out; by rewrite ?append_nil_r.
Qed.

Lemma print_run pretty t w : (pprintf pretty t ;; cret tt) w = Ret tt (printed pretty t w).
Proof. by rewrite (cbind_run _ _ _ _ _ (pprintf_printed pretty t w)). Qed.

(** The texts of several calls of [debug]. *)
Definition say_all (ts : list string) (w : tests K) : tests K := foldl (fun w t => printed DEBUG t w) w ts.

Lemma say_all_app l1 l2 w : say_all (l1 ++ l2) w = say_all l2 (say_all l1 w).
Proof. apply foldl_app. Qed.

Lemma debug_run t w : debug t w = Ret tt (printed DEBUG t w).
Proof. apply print_run. Qed.

Lemma debug_bind {A} t (g : unit -> comp (tests K) A) w :
  cbind (debug t) g w = g tt (printed DEBUG t w).
Proof. apply cbind_run, print_run. Qed.

(** A failure: the texts before and after the first use of the arguments. *)
Theorem fail_verbose_errno_output text function line w :
  0 <= failures w < 2 ^ 31 - 1 -> seatest_machine_readable (t_sea w) = false ->
  exists w', fail_verbose_errno text function line w = Ret tt w' /\ failures w' = failures w + 1 /\
    sea_out (t_sea w') =
      sea_out (t_sea w) +:+ said WARNING (text (errno (t_lib w))) +:+
      pad 30 function +:+ " Line " +:+ pad 5 (fmt_d line) +:+ " " +:+
      substring 0 511 (text (errno_after isatty_stdout (errno (t_lib w)))) +:+ crlf.
Proof.
  intros Hn Hm. destruct w as [[k e] g i pg rel]. unfold failures in *. cbn [t_sea t_lib errno] in *.
  unfold fail_verbose_errno. rewrite (cbind_run errno_now _ _ e (Tests (CState k e) g i pg rel)) by done.
  rewrite (cbind_run _ _ _ _ _ (pprintf_printed WARNING (text e) _)).
  set (e1 := errno_after isatty_stdout e). set (w1 := printed _ _ _).
  rewrite (cbind_run errno_now _ w1 e1 w1) by done.
  unfold seatest_simple_test_result_log, sea_get. set (msg := substring _ _ _).
  unfold cbind at 1 2 3. cbn [get_sea tests_sea t_sea negb w1 printed write_out seatest_machine_readable]. rewrite Hm.
  assert (Hi : int_value (sea_tests_failed g + 1) = Some (sea_tests_failed g + 1)).
  { unfold int_value. case_match; [done|]. exfalso. lia. }
  unfold sea_printf, sea_mod, increment, cbind; simpl. rewrite Hi. eexists. split; [reflexivity|].
  split; [done|]. cbn [t_sea set_tests_failed write_out sea_out]. by rewrite !append_assoc.
Qed.

(** ** The wait *)

(** What a wait prints beside its first message. *)
Definition wait_texts (r e : Z) (st : option Z) : list (Z * string) :=
  if 0 <? r then
    let s := default (indet "status") st in
    [(DEBUG, "(status:" +:+ fmt_sharp_x (to_uint s))] ++
    (if WIFSTOPPED s || WIFEXITED s || WIFSIGNALED s || WIFCONTINUED s
     then [(DEBUG, status_text s)] else []) ++ [(DEBUG, ")" +:+ nl)]
  else [(WARNING, "(" +:+ err_text e +:+ ")" +:+ nl)].

Definition wait_message (loopcnt : Z) (here : site) (pid r : Z) : string :=
  s_file here +:+ ":" +:+ s_func here +:+ "@" +:+ fmt_d (s_line here) +:+ "[" +:+
  fmt_u loopcnt +:+ "] wait(pid:" +:+ fmt_d pid +:+ " status:" +:+ fmt_p "status" +:+
  " opts:" +:+ fmt_d 0 +:+ ") = " +:+ fmt_d r +:+ " ".

Definition wait_output (loopcnt : Z) (here : site) (pid r e : Z) (st : option Z) : string :=
  foldr (fun '(pretty, t) rest => said pretty t +:+ rest) ""
    ((MESSAGE, wait_message loopcnt here pid r) :: wait_texts r e st).

(** The wait that reports is the wait that does not, with its report: the result, the
    status, the kernel and [errno] are the same, and so are the ways in which it does not
    return. *)
Theorem waitpid_no_intr_debug_reports loopcnt here pid w :
  waitpid_no_intr_debug loopcnt here pid w =
  match waitpid_no_intr fuel pid (t_lib w) with
  | Ret (r, st) s =>
      Ret (r, st) (Tests s (write_out (wait_output loopcnt here pid r (errno s) st) (t_sea w))
                     (t_i w) (t_pgid w) (t_release w))
  | Abort s => Abort (Tests s (t_sea w) (t_i w) (t_pgid w) (t_release w))
  | Undef => Undef
  | NoFuel => NoFuel
  end.
Proof.
  destruct w as [s0 g i pg rel]. unfold waitpid_no_intr_debug. unfold cbind at 1, on_lib at 1. cbn [t_lib].
  destruct (waitpid_no_intr fuel pid s0) as [[r st] [k e]|s| |]; [|done..]. cbn [t_sea t_i t_pgid t_release].
  rewrite (cbind_run errno_now _ _ e (Tests (CState k e) g i pg rel)) by done.
  rewrite (cbind_run _ _ _ _ _ (print_run MESSAGE (wait_message loopcnt here pid r) _)).
  unfold wait_output, wait_texts. cbn [foldr]. destruct (0 <? r).
  - set (v := default _ st). unfold cbind at 1. rewrite debug_bind.
    destruct (_ || _); [rewrite debug_bind | rewrite cbind_cret_l]; rewrite debug_run;
      unfold cbind, printed, tty_errno, on_lib, cret, set_errno; cbn [t_lib t_sea t_i t_pgid t_release ker errno];
      rewrite !write_out_out; cbn [app foldr]; by rewrite append_nil_r, ?append_assoc.
  - unfold cbind at 1. unfold warning. rewrite print_run.
    unfold cbind, printed, tty_errno, on_lib, cret, set_errno. cbn [t_lib t_sea t_i t_pgid t_release ker errno].
    rewrite write_out_out. cbn [foldr]. by rewrite append_nil_r.
Qed.

(** ** The hex dump *)

(** *** By lines *)

Definition hex_text (b : byte) : string := " " +:+ fmt_02x (byte.unsigned b).
Definition offset_text (off : Z) : string := tab +:+ tab +:+ fmt_04x off +:+ " ".
Definition chars (bs : list byte) : string := string_of_list_byte (shown <$> bs).

(** The bytes from offset [off] on: a line for every 16 of them, with the characters
    behind them, and the last line filled up. *)
Fixpoint dump_lines (n : nat) (off : Z) (bs : list byte) : list string :=
  match n with
  | O => []
  | S n' =>
      if (length bs <=? 16)%nat then
        [offset_text off] ++ (hex_text <$> bs) ++ replicate (16 - length bs) "  " ++
        ["  " +:+ chars bs +:+ nl]
      else
        [offset_text off] ++ (hex_text <$> take 16 bs) ++
        [tab +:+ tab +:+ chars (take 16 bs) +:+ nl] ++ dump_lines n' (off + 16) (drop 16 bs)
  end.

Definition dump_texts (p : string) (bs : list byte) : list string :=
  [tab +:+ " --8< HEXDUMP " +:+ fmt_p p +:+ " >8--" +:+ nl] ++ dump_lines (length bs) 0 bs ++
  [tab +:+ " --8< DUMPEND " +:+ fmt_p p +:+ " >8--" +:+ nl].

(** *** Byte by byte *)

(** The line buffer when the bytes [ls] of the current line are shown. *)
Definition line_buf (buf ls : list byte) : Prop :=
  length buf = 17%nat /\ exists rest, buf = (shown <$> ls) ++ Byte.x00 :: rest.

Lemma shown_nonzero b : byte.unsigned (shown b) <> 0.
Proof. unfold shown. destruct (_ || _) eqn:E; [done|]. lia. Qed.

Lemma line_buf_string buf ls : line_buf buf ls -> cstring buf = Some (chars ls).
Proof.
  intros (_ & rest & ->). unfold cstring, chars.
  assert (Hf : find_nul ((shown <$> ls) ++ Byte.x00 :: rest) = Some (length ls)).
  { induction ls as [|b ls IH]; [done|]. cbn [fmap list_fmap app find_nul length].
    rewrite (proj2 (Z.eqb_neq _ 0) (shown_nonzero b)). cbn [fmap list_fmap] in IH. by rewrite IH. }
  rewrite Hf. simpl. by rewrite take_app_length' by (by rewrite length_fmap).
Qed.

Lemma line_buf_first buf b : length buf = 17%nat -> line_buf (<[1%nat := Byte.x00]> (<[0%nat := shown b]> buf)) [b].
Proof.
  intros Hl. destruct buf as [|x [|y buf]]; try done. split; [done|]. by exists buf.
Qed.

Lemma line_buf_next buf ls b :
  line_buf buf ls -> (length ls < 16)%nat ->
  line_buf (<[S (length ls) := Byte.x00]> (<[length ls := shown b]> buf)) (ls ++ [b]).
Proof.
  intros (Hl & rest & ->) Hn. rewrite length_app, length_fmap in Hl. simpl in Hl.
  split; [rewrite !length_insert, length_app, length_fmap; simpl; lia|].
  destruct rest as [|y rest]; [simpl in Hl; lia|]. exists rest. rewrite fmap_app, <- app_assoc.
  assert (Hf : length (shown <$> ls) = length ls) by apply length_fmap.
  rewrite <- Hf, insert_app_r_alt by lia. rewrite Nat.sub_diag, insert_app_r_alt by lia.
  by replace (S _ - _)%nat with 1%nat by lia.
Qed.

(** The texts of the loop, where [ls] are the bytes of the current line. *)
Fixpoint loop_texts (ls : list byte) (off : Z) (bs : list byte) : list string :=
  match bs with
  | [] => []
  | b :: bs' =>
      if (length ls =? 16)%nat then
        [tab +:+ tab +:+ chars ls +:+ nl; offset_text off; hex_text b] ++ loop_texts [b] (off + 1) bs'
      else hex_text b :: loop_texts (ls ++ [b]) (off + 1) bs'
  end.
Fixpoint last_line (ls bs : list byte) : list byte :=
  match bs with
  | [] => ls
  | b :: bs' => if (length ls =? 16)%nat then last_line [b] bs' else last_line (ls ++ [b]) bs'
  end.

Lemma hex_loop_texts bs : forall n caddr len off buf ls w, (length bs < n)%nat ->
  drop (Z.to_nat off) (take (Z.to_nat len) caddr) = bs -> 0 < off <= len ->
  len <= Z.of_nat (length caddr) -> len < 2 ^ 32 -> line_buf buf ls -> (0 < length ls <= 16)%nat ->
  Z.of_nat (length ls) mod 16 = off mod 16 ->
  exists buf', hex_loop n caddr len off buf w = Ret (len, buf') (say_all (loop_texts ls off bs) w) /\
    line_buf buf' (last_line ls bs).
Proof.
  induction bs as [|b bs IH]; intros [|n] caddr len off buf ls w Hn Hbs Hoff Hlen H32 Hbuf Hls Hmod; simpl in Hn; [lia| |lia|].
  { assert (off = len) as ->.
    { apply (f_equal length) in Hbs. rewrite length_drop, length_take in Hbs. simpl in Hbs. lia. }
    exists buf. cbn [hex_loop]. by rewrite Z.ltb_irrefl. }
  assert (Hlt : off < len).
  { apply (f_equal length) in Hbs. rewrite length_drop, length_take in Hbs. simpl in Hbs. lia. }
  assert (Hb : caddr !! Z.to_nat off = Some b).
  { apply (f_equal head) in Hbs. simpl in Hbs. rewrite <- Hbs, head_lookup, lookup_drop, Nat.add_0_r.
    by rewrite lookup_take_lt by lia. }
  assert (Hbs' : drop (Z.to_nat (off + 1)) (take (Z.to_nat len) caddr) = bs).
  { replace (Z.to_nat (off + 1)) with (Z.to_nat off + 1)%nat by lia. by rewrite <- drop_drop, Hbs. }
  assert (Hu : to_uint (off + 1) = off + 1) by (apply wrapu_small; lia).
  cbn [hex_loop]. rewrite (proj2 (Z.ltb_lt off len)) by lia. change BYTES_IN_LINE with 16.
  cbn [loop_texts last_line]. destruct (Nat.eqb_spec (length ls) 16) as [H16|H16].
  - rewrite H16 in Hmod. change (Z.of_nat 16 mod 16) with 0 in Hmod. rewrite <- Hmod.
    rewrite (proj2 (Z.eqb_neq off 0)) by lia. cbn [Z.eqb negb Z.to_nat].
    rewrite (line_buf_string _ _ Hbuf).
    assert (Hhead : ((let! line := checked (Some (chars ls)) in debug (tab +:+ tab +:+ line +:+ nl)) ;;
      debug (tab +:+ tab +:+ fmt_04x off +:+ " ")) w
      = Ret tt (say_all [tab +:+ tab +:+ chars ls +:+ nl; offset_text off] w)).
    { rewrite (cbind_run _ _ _ tt (printed DEBUG (tab +:+ tab +:+ chars ls +:+ nl) w)) by apply debug_run.
      apply debug_run. }
    rewrite (cbind_run _ _ _ _ _ Hhead), Hb, (cbind_checked _ _ _ _ eq_refl), debug_bind. cbn zeta. rewrite Hu.
    destruct (IH n caddr len (off + 1) (<[1%nat := Byte.x00]> (<[0%nat := shown b]> buf)) [b]
      (say_all [tab +:+ tab +:+ chars ls +:+ nl; offset_text off; hex_text b] w)) as (buf' & Hr & Hb');
      [lia | done | lia | done | done | apply line_buf_first, Hbuf | simpl; lia | | by exists buf'].
    rewrite Z.add_mod, <- Hmod by lia. done.
  - assert (Hm : off mod 16 = Z.of_nat (length ls)) by (rewrite <- Hmod; apply Z.mod_small; lia).
    rewrite Hm, (proj2 (Z.eqb_neq (Z.of_nat (length ls)) 0)) by lia. rewrite cbind_cret_l.
    rewrite Hb, (cbind_checked _ _ _ _ eq_refl), debug_bind. cbn zeta. rewrite Hu, Nat2Z.id.
    destruct (IH n caddr len (off + 1) (<[S (length ls) := Byte.x00]> (<[length ls := shown b]> buf)) (ls ++ [b])
      (say_all [hex_text b] w)) as (buf' & Hr & Hb');
      [lia | done | lia | done | done | apply line_buf_next; [done | lia] | rewrite length_app; simpl; lia | | by exists buf'].
    rewrite length_app. simpl. rewrite Nat2Z.inj_add, (Z.add_mod off 1), Hm by lia. done.
Qed.

(** The texts of the loop, by lines. *)
Lemma loop_texts_line ls off bs :
  (length ls + length bs <= 16)%nat -> loop_texts ls off bs = hex_text <$> bs /\ last_line ls bs = ls ++ bs.
Proof.
  revert ls off. induction bs as [|b bs IH]; intros ls off H; simpl in *; [by rewrite app_nil_r|].
  rewrite (proj2 (Nat.eqb_neq _ 16)) by lia.
  destruct (IH (ls ++ [b]) (off + 1)) as [-> ->]; [rewrite length_app; simpl; lia|]. by rewrite <- app_assoc.
Qed.

Lemma loop_texts_app ls off bs b bs' :
  (length ls + length bs = 16)%nat ->
  loop_texts ls off (bs ++ b :: bs') = (hex_text <$> bs) ++
    [tab +:+ tab +:+ chars (ls ++ bs) +:+ nl; offset_text (off + Z.of_nat (length bs)); hex_text b] ++
    loop_texts [b] (off + Z.of_nat (length bs) + 1) bs' /\
  last_line ls (bs ++ b :: bs') = last_line [b] bs'.
Proof.
  revert ls off. induction bs as [|x bs IH]; intros ls off H; simpl in H.
  - cbn [app loop_texts last_line fmap list_fmap length]. rewrite (proj2 (Nat.eqb_eq _ 16)) by lia.
    by rewrite app_nil_r, Z.add_0_r.
  - cbn [app loop_texts last_line fmap list_fmap length]. rewrite (proj2 (Nat.eqb_neq _ 16)) by lia.
    destruct (IH (ls ++ [x]) (off + 1)) as [-> ->]; [rewrite length_app; simpl; lia|].
    rewrite <- app_assoc. by replace (off + 1 + Z.of_nat (length bs)) with (off + Z.of_nat (S (length bs))) by lia.
Qed.

(** The texts of the loop from the first byte of a line on, and what follows the loop. *)
Lemma dump_lines_texts n : forall off b bs, (length bs < n)%nat ->
  let ll := last_line [b] bs in
  dump_lines n off (b :: bs) = [offset_text off; hex_text b] ++ loop_texts [b] (off + 1) bs ++
    replicate (16 - length ll) "  " ++ ["  " +:+ chars ll +:+ nl] /\
  (0 < length ll <= 16)%nat /\ Z.of_nat (length ll) mod 16 = Z.of_nat (S (length bs)) mod 16.
Proof.
  induction n as [|n IH]; intros off b bs Hn; [lia|]. cbn [dump_lines length].
  destruct (Nat.leb_spec (S (length bs)) 16) as [H16|H16].
  - destruct (loop_texts_line [b] (off + 1) bs) as [-> ->]; [simpl; lia|]. cbn zeta.
    rewrite length_app. cbn [length fmap list_fmap app]. by split_and!; [|lia..|].
  - rewrite <- (take_drop 15 bs). destruct (drop 15 bs) as [|b' bs'] eqn:Hd.
    { apply (f_equal length) in Hd. rewrite length_drop in Hd. simpl in Hd. lia. }
    assert (Ht : length (take 15 bs) = 15%nat) by (rewrite length_take; lia).
    destruct (loop_texts_app [b] (off + 1) (take 15 bs) b' bs') as [-> ->]; [rewrite Ht; done|].
    assert (Hl : length bs = (16 + length bs')%nat).
    { apply (f_equal length) in Hd. rewrite length_drop in Hd. simpl in Hd. lia. }
    destruct (IH (off + 16) b' bs') as (Hdl & Hll & Hm); [lia|]. cbn zeta. rewrite Ht.
    change (drop 16 (b :: take 15 bs ++ b' :: bs')) with (drop 15 (take 15 bs ++ b' :: bs')).
    change (take 16 (b :: take 15 bs ++ b' :: bs')) with (b :: take 15 (take 15 bs ++ b' :: bs')).
    rewrite drop_app_length', take_app_length' by done. rewrite Hdl.
    replace (off + 1 + Z.of_nat 15) with (off + 16) by lia.
    split_and!; [by cbn [fmap list_fmap app]; rewrite <- !app_assoc | lia | lia |].
    rewrite Hm, length_app, Ht. cbn [length].
    replace (Z.of_nat (S (15 + S (length bs')))) with (Z.of_nat (S (length bs')) + 1 * 16) by lia.
    by rewrite Z_mod_plus_full.
Qed.

Lemma pad_loop_texts n m off w :
  (m < n)%nat -> (m < 16)%nat -> 0 <= off < 2 ^ 32 -> (off + Z.of_nat m) mod 16 = 0 ->
  pad_loop n off w = Ret tt (say_all (replicate m "  ") w).
Proof.
  revert m off w. induction n as [|n IH]; intros m off w Hn Hm Hoff H0; [lia|]. cbn [pad_loop].
  change BYTES_IN_LINE with 16. pose proof (Z.div_mod (off + Z.of_nat m) 16 ltac:(lia)).
  pose proof (Z.div_mod off 16 ltac:(lia)). pose proof (Z.mod_pos_bound off 16 ltac:(lia)).
  destruct m as [|m].
  - rewrite Z.add_0_r in H0. rewrite H0. done.
  - rewrite (proj2 (Z.eqb_neq (off mod 16) 0)) by lia. cbn [negb]. rewrite debug_bind.
    assert (exists q, to_uint (off + 1) = off + 1 - q * 2 ^ 32) as [q Hq].
    { exists ((off + 1) / 2 ^ 32). unfold to_uint, wrapu. pose proof (Z.div_mod (off + 1) (2 ^ 32) ltac:(lia)). lia. }
    cbn [replicate]. change (say_all ("  " :: ?l) w) with (say_all l (printed DEBUG "  " w)).
    apply IH; [lia | lia | apply wrapu_range; lia |]. rewrite Hq.
    replace (off + 1 - q * 2 ^ 32 + Z.of_nat m) with (off + Z.of_nat (S m) + - (q * 268435456) * 16) by lia.
    by rewrite Z_mod_plus_full.
Qed.

(** The first byte of a dump. *)
Lemma hex_loop_first n caddr len b buf w :
  0 < len -> head caddr = Some b ->
  hex_loop (S n) caddr len 0 buf w = hex_loop n caddr len 1 (<[1%nat := Byte.x00]> (<[0%nat := shown b]> buf))
    (say_all [offset_text 0; hex_text b] w).
Proof.
  intros Hl Hb. cbn [hex_loop]. rewrite (proj2 (Z.ltb_lt 0 len)) by lia. change BYTES_IN_LINE with 16.
  change (0 mod 16 =? 0) with true. cbn [Z.eqb negb]. cbn iota.
  rewrite (cbind_run _ _ _ tt (printed DEBUG (offset_text 0) w)) by (rewrite cbind_cret_l; apply debug_run).
  rewrite head_lookup in Hb. change (Z.to_nat 0) with 0%nat. rewrite Hb, (cbind_checked _ _ _ _ eq_refl).
  by rewrite debug_bind.
Qed.

(** C26. The hex dump, which keeps a line of characters while it goes through the bytes one by
    one, prints what the definition by lines says, for any number of bytes but none. *)
Theorem dump_basic_hex_lines p addr len w :
  0 < len <= Z.of_nat (length addr) -> len < 2 ^ 32 ->
  dump_basic_hex p addr len w = Ret tt (say_all (dump_texts p (take (Z.to_nat len) addr)) w).
Proof.
  intros Hl H32. unfold dump_basic_hex, dump_texts. rewrite debug_bind.
  assert (Hu : to_ulong cfg len = len).
  { apply to_ulong_small. assert (32 <= bits_long cfg) by (unfold bits_long; destruct (sizeof_long_cases cfg); lia).
    assert (2 ^ 32 <= 2 ^ bits_long cfg) by (apply Z.pow_le_mono_r; lia). lia. }
  rewrite Hu. change (Z.to_nat BYTES_IN_LINE) with 16%nat. set (w1 := printed _ _ w).
  destruct addr as [|b addr]; [simpl in Hl; lia|].
  replace (Z.to_nat len) with (S (Z.to_nat (len - 1))) by lia. cbn [take]. set (bs := take _ addr).
  assert (Hlb : Z.of_nat (length bs) = len - 1) by (unfold bs; rewrite length_take; simpl in Hl; lia).
  destruct (hex_loop_texts bs (length (b :: addr)) (b :: addr) len 1
    (<[1%nat := Byte.x00]> (<[0%nat := shown b]> (fresh "buf" 17))) [b]
    (say_all [offset_text 0; hex_text b] w1)) as (buf' & Hrun & Hbuf);
    [lia | | lia | lia | done | apply line_buf_first, length_resize | simpl; lia | done |].
  { change (Z.to_nat 1) with 1%nat. by replace (Z.to_nat len) with (S (Z.to_nat (len - 1))) by lia. }
  rewrite <- (hex_loop_first (length (b :: addr)) (b :: addr) len b (fresh "buf" 17)
    w1) in Hrun by (done || lia).
  rewrite (cbind_run _ _ _ _ _ Hrun). cbn beta iota.
  destruct (dump_lines_texts (S (length bs)) 0 b bs ltac:(lia)) as (Hlines & Hll & Hm). cbn [length] in Hlines.
  cbn [length]. rewrite Hlines. set (ll := last_line [b] bs) in *.
  assert (Hpad : (len + Z.of_nat (16 - length ll)) mod 16 = 0).
  { replace (Z.of_nat (S (length bs))) with len in Hm by lia.
    rewrite Z.add_mod, <- Hm, <- Z.add_mod by lia. replace (_ + _) with (1 * 16) by lia. apply Z_mod_mult. }
  rewrite (cbind_run _ _ _ _ _ (pad_loop_texts 16 (16 - length ll) len _ ltac:(lia) ltac:(lia) ltac:(lia) Hpad)).
  rewrite (line_buf_string _ _ Hbuf), (cbind_checked _ _ _ _ eq_refl), debug_bind, debug_run.
  f_equal. rewrite !say_all_app. done.
Qed.

End Print.

(** ** Witnesses *)

Section Witnesses.
Import TestSession.Demo.

Definition quiet : tests script := Tests (CState (first_stop (child [] []) []) EFAULT) sea_init 0 7 0.

(** A failure after EFAULT, where stdout is no terminal: what is recorded is ENOTTY. *)
Lemma fail_verbose_errno_output_witness :
  exists w', fail_verbose_errno (fun e => "read (errno:" +:+ fmt_d e +:+ ")") "read_or_kill" 9 quiet
      = Ret tt w' /\
    sea_out (t_sea w') = "read (errno:14)" +:+ pad 30 "read_or_kill" +:+ " Line 9     read (errno:25)" +:+ crlf.
Proof.
  destruct (fail_verbose_errno_output (fun e => "read (errno:" +:+ fmt_d e +:+ ")") "read_or_kill" 9 quiet)
    as (w' & H & _ & Ho); [by vm_compute | done |].
  exists w'. split; [exact H|]. rewrite Ho. vm_compute. reflexivity.
Defined.

(** Two lines of a dump; the last one has a byte that is shown as a dot. *)
Definition dump_example : list byte := list_byte_of_string "0123456789abcdefP" ++ [Byte.x00].

Lemma dump_basic_hex_lines_witness :
  exists w', dump_basic_hex "p" dump_example 18 quiet = Ret tt w' /\
    sea_out (t_sea w') =
      tab +:+ " --8< HEXDUMP 0x1000 >8--" +:+ nl +:+
      tab +:+ tab +:+ "0000  30 31 32 33 34 35 36 37 38 39 61 62 63 64 65 66" +:+ tab +:+ tab +:+
        "0123456789abcdef" +:+ nl +:+
      tab +:+ tab +:+ "0010  50 00" +:+ copies 28 " " +:+ "  P." +:+ nl +:+
      tab +:+ " --8< DUMPEND 0x1000 >8--" +:+ nl.
Proof.
  eexists. split; [apply (dump_basic_hex_lines "p" dump_example 18 quiet); [by vm_compute | lia]|].
  vm_compute. reflexivity.
Defined.

End Witnesses.
