(* ===== verification/TestProps.v ===== *)
(** * The tests pass on a lawful kernel

    Theorems on the tests of read-TEST.c, vm-TEST.c, write-TEST.c and pipe-TEST.c, on 64-bit
    x86: what they check is what the library gives on a kernel that follows its manual
    pages, so that a failure is one of the kernel or of the build. *)

From Stdlib Require Import ZArith Lia String Ascii.
From stdpp Require Import base list numbers strings.
From coqutil Require Import Byte Word.LittleEndianList.
From S2P Require Import Prelude Config Kernel Layout Sim Trace Vm VmRead VmCross Name Regset Read ReadVm Write WriteVm Registers Socket Pipe Tracer Script Seatest Check TestRead TestWrite TestSession.
Local Open Scope string_scope.
Local Open Scope list_scope.
Local Open Scope Z_scope.
Local Open Scope c_scope.

Section Tests.
Context {K : Type} `{!KernelOps K} `{!ProcOps K} `{!CheckOps K} `{!TraceeView K} `{!RegView K}.
Context `{!PtraceErrno K} {St : Setting} {Rd : Ready} `{!PtraceRegset K} `{!X86User cfg K}.

#[local] Instance tests_build : X86Build cfg := ready_build.

(** ** The child's side *)

Lemma fork_assert_child fr (k0 k1 : K) e o :
  sys_fork k0 = (SysRet 0 None, k1) -> fork_assert (world fr k0 e o) = Ret 0 (world fr k1 e o).
Proof.
  intros Hf. unfold fork_assert.
  assert (H1 : on_lib fork (world fr k0 e o) = Ret 0 (world fr k1 e o))
    by (unfold on_lib, fork, signal_call; simpl; by rewrite Hf).
  by rewrite (cbind_run _ _ _ _ _ H1).
Qed.

Lemma trace_me_run fr (k1 k2 k3 : K) d v e o :
  sys_ptrace PTRACE_TRACEME 0 0 NULL k1 = (SysRet v None, d, k2) ->
  sys_kill (sys_getpid k1) SIGSTOP k2 = (SysRet 0 None, k3) ->
  exists e', trace_me_and_stop (world fr k1 e o) = Ret None (world fr k3 e' o).
Proof.
  intros Hp Hk. exists 0. unfold trace_me_and_stop.
  rewrite (cbind_run _ _ _ (sys_getpid k1) (world fr k1 e o)) by done.
  assert (H1 : on_lib pink_trace_me (world fr k1 e o) = Ret 0 (world fr k2 0 o)).
  { unfold on_lib, pink_trace_me. cbn [t_lib world].
    by rewrite (ptrace_rc_cases _ _ _ _ (CState k1 e) _ _ _ Hp). }
  rewrite (cbind_run _ _ _ _ _ H1). cbn [Z.ltb Z.compare].
  assert (H2 : kill (sys_getpid k1) SIGSTOP (world fr k2 0 o) = Ret 0 (world fr k3 0 o))
    by (unfold kill, on_lib, signal_call; simpl; by rewrite Hk).
  by rewrite (cbind_run _ _ _ _ _ H2).
Qed.

Lemma syscall_run fr call args (k k' : K) r e o :
  sys_call call args k = (r, k') ->
  syscall call args (world fr k e o) = Ret (sr_val r) (world fr k' (errno_after r e) o).
Proof. intros H. unfold syscall, on_lib, signal_call. simpl. by rewrite H. Qed.

(** The children that make one call. *)
Lemma child_plain fr nr args (parent : Z -> comp (tests K) (option outcome)) :
  child_makes (let! pid := fork_assert in
    if pid =? 0 then plain_call (Numbered nr) args else parent pid) fr nr args.
Proof.
  intros k0 k1 k2 k3 k4 d v r Hf Hp Hk Hc e o.
  rewrite (cbind_run _ _ _ _ _ (fork_assert_child fr k0 k1 e o Hf)). cbn [Z.eqb].
  destruct (trace_me_run fr k1 k2 k3 d v e o Hp Hk) as [e' Ht].
  exists 0, (errno_after r e'), o. unfold plain_call, and_then.
  rewrite (cbind_run _ _ _ _ _ Ht), (cbind_run _ _ _ _ _ (syscall_run fr _ _ _ _ _ e' o Hc)). done.
Qed.

Lemma child_invalid fr i v others code (parent : Z -> comp (tests K) (option outcome)) :
  0 <= i < 6 ->
  child_makes (let! pid := fork_assert in
    if pid =? 0 then invalid_call i v others code else parent pid)
    fr (PINK_SYSCALL_INVALID cfg) (<[Z.to_nat i := v]> others).
Proof.
  intros Hi k0 k1 k2 k3 k4 d w r Hf Hp Hk Hc e o.
  rewrite (cbind_run _ _ _ _ _ (fork_assert_child fr k0 k1 e o Hf)). cbn [Z.eqb].
  destruct (trace_me_run fr k1 k2 k3 d w e o Hp Hk) as [e' Ht].
  exists code, (errno_after r e'), o. unfold invalid_call, and_then.
  rewrite (proj2 (Z.leb_le 0 i)), (proj2 (Z.ltb_lt i 6)) by lia. cbn [andb].
  rewrite (cbind_run _ _ _ _ _ Ht), (cbind_run _ _ _ _ _ (syscall_run fr _ _ _ _ _ e' o Hc)). done.
Qed.

(** ** The numbers of the calls *)

Lemma lookup_x86 name :
  pink_lookup_syscall cfg (Some name) PINK_ABI_DEFAULT
  = pink_lookup_syscall x86_64_linux (Some name) PINK_ABI_DEFAULT.
Proof.
  unfold pink_lookup_syscall, table_lookup, abi_table, sysent_vec, shuffle_scno, to_long.
  by rewrite (build_abis cfg), (build_bits cfg), (build_arch (c := cfg)).
Qed.

Lemma passes_lookup {fr} {k : K} name message function line nr
    (g : Z -> comp (tests K) (option outcome)) :
  pink_lookup_syscall x86_64_linux (Some name) PINK_ABI_DEFAULT = nr -> nr <> -1 ->
  passes fr k (g nr) -> passes fr k (let! n := lookup_or_fail name message function line in g n).
Proof.
  intros Hn H1 H e o. unfold lookup_or_fail. rewrite lookup_x86, Hn, (proj2 (Z.eqb_neq nr (-1)) H1).
  apply H.
Qed.

Lemma child_lookup fr name message function line nr (g : Z -> comp (tests K) (option outcome)) n args :
  pink_lookup_syscall x86_64_linux (Some name) PINK_ABI_DEFAULT = nr -> nr <> -1 ->
  child_makes (g nr) fr n args ->
  child_makes (let! n := lookup_or_fail name message function line in g n) fr n args.
Proof.
  intros Hn H1 H k0 k1 k2 k3 k4 d v r Hf Hp Hk Hc e. unfold lookup_or_fail.
  rewrite lookup_x86, Hn, (proj2 (Z.eqb_neq nr (-1)) H1). by eapply H.
Qed.

Lemma child_get_i fr (g : Z -> comp (tests K) (option outcome)) n args :
  child_makes (g (f_i fr)) fr n args -> child_makes (let! i := get_i in g i) fr n args.
Proof. done. Qed.

(** ** The entry of the call *)

Lemma entered_arg (k : K) pid nr i a others :
  entered k pid nr (<[Z.to_nat i := a]> others) -> 0 <= i < 6 -> length others = 6%nat ->
  holds_arg k pid (task_arg cfg false (user_area k pid) i) a.
Proof.
  intros (_ & _ & _ & _ & _ & H) Hi Hl. apply H; [|done]. apply list_lookup_insert_eq. lia.
Qed.

(** The lines that the tests of an argument share. *)
Lemma wp_entry {A} fr (k : K) pid i a others l (f : pink_regset -> Z -> locals -> comp (tests K) A) Q :
  entered k pid (PINK_SYSCALL_INVALID cfg) (<[Z.to_nat i := a]> others) ->
  0 <= i < 6 -> length others = 6%nat -> has_regset l ->
  (forall r v, x86_filled cfg false (user_area k pid) r ->
     0 <= x86_64_r cfg (user_area k pid) ORIG_RAX < 2 ^ 30 -> holds_arg k pid v a ->
     wp fr k (f r v (set_regset r l)) Q) ->
  wp fr k (let! (regset, l) := fill_locals pid l in
           expect_syscall pid (PINK_SYSCALL_INVALID cfg) regset ;;
           let! argval := read_argument_or_kill pid regset i (indet "argval") in
           f regset argval l) Q.
Proof.
  intros He Hi Ho Hl H. pose proof (entered_arg _ _ _ _ _ _ He Hi Ho) as Ha.
  apply wp_bind, wp_fill; [by eapply entered_native | done |]. intros r Hf. cbn beta iota.
  destruct He as (_ & _ & _ & Hr & Hnr & _).
  apply wp_bind. eapply wp_expect_syscall; [exact Hf | done..|].
  apply wp_bind. eapply wp_read_argument; [exact Hf | done |]. apply H; [done | lia | done].
Qed.

(** The test of reading arguments passes on 64-bit x86 for every argument: when the
    kernel takes the child to the entry of the call it makes, the test returns and
    records no failure; and the call that the child makes is the one with 0xbad in
    place of this argument. *)
Theorem test_read_argument_passes fr pid (k0 k : K) i :
  0 <= i < 6 -> f_i fr = i -> begins pid k0 k ->
  entered k pid (PINK_SYSCALL_INVALID cfg) (<[Z.to_nat i := CVal 0xbad]> other_args) ->
  passes fr k0 test_read_argument /\
  child_makes test_read_argument fr (PINK_SYSCALL_INVALID cfg)
    (<[Z.to_nat i := CVal 0xbad]> other_args).
Proof.
  intros Hi <- Hb He. unfold test_read_argument.
  split; [|by apply child_get_i, (child_invalid fr (f_i fr) (CVal 0xbad) other_args 0)].
  apply passes_get_i, (passes_one fr _ pid _ id _ _ _ k0 k Hb).
  eapply wp_entry; [done | done | done | apply start_has_regset|]. intros r v Hf _ ->.
  apply wp_bind. by apply wp_ret, wp_worked.
Qed.

(** The test of reading the number of a system call passes on 64-bit x86, and its child
    makes this call. *)
Theorem test_read_syscall_passes fr pid (k0 k : K) :
  begins pid k0 k -> entered k pid 39 [] ->
  passes fr k0 test_read_syscall /\ child_makes test_read_syscall fr 39 [].
Proof.
  intros Hb He. split; [|apply (child_lookup _ _ _ _ _ 39); [by vm_compute | done | apply child_plain]].
  apply (passes_lookup _ _ _ _ 39); [by vm_compute | done |].
  apply (passes_one fr _ pid _ id _ _ _ k0 k Hb).
  apply wp_bind, wp_fill; [by eapply entered_native | apply start_has_regset|]. intros r Hf. cbn beta iota.
  destruct He as (_ & _ & _ & Hr & Hnr & _).
  apply wp_bind. eapply wp_expect_syscall; [exact Hf | done..|]. by apply wp_worked.
Qed.

(** ** Memory *)

Lemma length_fresh name n : length (fresh name n) = n.
Proof. apply length_resize. Qed.

(** C21. The tests of reading memory by either transfer pass on 64-bit x86 for every
    argument: test_read_vm_data gets the bytes of the child's string, and
    test_read_vm_data_nul gets the part of its string up to the terminator.  Each child
    makes the call with the address of its string. *)
Theorem test_read_vm_data_passes fr pid (k0 k : K) i :
  0 <= i < 6 -> f_i fr = i -> begins pid k0 k -> transfer cfg K ->
  (forall bs, bs = literal "pinktrace" ->
   entered k pid (PINK_SYSCALL_INVALID cfg) (<[Z.to_nat i := CObj bs]> other_args) ->
   passes fr k0 test_read_vm_data /\
   child_makes test_read_vm_data fr (PINK_SYSCALL_INVALID cfg) (<[Z.to_nat i := CObj bs]> other_args)) /\
  (forall bs, bs = trace_nul_pink ->
   entered k pid (PINK_SYSCALL_INVALID cfg) (<[Z.to_nat i := CObj bs]> other_args) ->
   passes fr k0 test_read_vm_data_nul /\
   child_makes test_read_vm_data_nul fr (PINK_SYSCALL_INVALID cfg)
     (<[Z.to_nat i := CObj bs]> other_args)).
Proof.
  intros Hi <- Hb Ht. pose proof ready_fuel as Hfu. split; intros bs -> He.
  - split; [|by apply child_get_i, (child_invalid fr (f_i fr) (CObj (literal "pinktrace")) other_args 1)].
    apply passes_get_i, (passes_one fr _ pid _ id _ _ _ k0 k Hb).
    eapply wp_entry; [done | done | done | apply start_has_regset|]. intros r v Hf Hn Ho.
    apply wp_bind. eapply wp_read_object; [done | done | done | by destruct He | done | simpl; lia | done | by rewrite length_fresh|].
    apply wp_bind, wp_check_memory. by apply wp_worked.
  - split; [|by apply child_get_i, (child_invalid fr (f_i fr) (CObj trace_nul_pink) other_args 0)].
    apply passes_get_i, (passes_one fr _ pid _ id _ _ _ k0 k Hb).
    eapply wp_entry; [done | done | done | apply start_has_regset|]. intros r v Hf Hn Ho.
    apply wp_bind. unshelve eapply (wp_read_nul_object k pid v trace_nul_pink Ho _ r Hf Hn _ _ _ _ 5);
      [by destruct He | done | simpl; lia | done | lia | simpl; lia | done | by rewrite length_fresh
      | simpl; lia |].
    intros [c d] (_ & Hs & Hl). cbn beta iota. simpl in Hs, Hl.
    apply wp_bind. apply (wp_check_string _ k pid d trace_nul_pink 6); [done | lia | simpl; lia |].
    by apply wp_worked.
Qed.

(** The tests of reading memory word by word pass on 64-bit x86 for every argument,
    on a kernel whose ptrace(2) peeks words, wherever the child's string lies. *)
Theorem test_vm_lread_passes fr pid (k0 k : K) i `{!PtraceMem cfg K} :
  0 <= i < 6 -> f_i fr = i -> begins pid k0 k ->
  (entered k pid (PINK_SYSCALL_INVALID cfg)
     (<[Z.to_nat i := CObj (literal "pinktrace")]> other_args) ->
   passes fr k0 test_vm_lread) /\
  (entered k pid (PINK_SYSCALL_INVALID cfg)
     (<[Z.to_nat i := CObj trace_nul_pink]> other_args) ->
   passes fr k0 test_vm_lread_nul).
Proof.
  intros Hi <- Hb. pose proof ready_fuel as Hfu. split; intros He.
  - apply passes_get_i, (passes_one fr _ pid _ id _ _ _ k0 k Hb).
    eapply wp_entry; [done | done | done | apply start_has_regset|]. intros r v Hf Hn Ho.
    apply wp_bind. eapply wp_lread_object; [done | by destruct He | done | simpl; lia | done | by rewrite length_fresh|].
    apply wp_bind, wp_check_memory. by apply wp_worked.
  - apply passes_get_i, (passes_one fr _ pid _ id _ _ _ k0 k Hb).
    eapply wp_entry; [done | done | done | apply start_has_regset|]. intros r v Hf Hn Ho.
    apply wp_bind. unshelve eapply (wp_lread_nul_object k pid v trace_nul_pink Ho _ _ _ _ _ 5);
      [by destruct He | done | simpl; lia | done | lia | simpl; lia | done | by rewrite length_fresh|].
    intros [c d] (_ & Hs & Hl). cbn beta iota. simpl in Hs, Hl.
    apply wp_bind. apply (wp_check_string _ k pid d trace_nul_pink 6); [done | lia | simpl; lia |].
    by apply wp_worked.
Qed.

(** ** Return values *)

(** The child is at a stop where a 64-bit call has returned [v] as the kernel gives it. *)
Definition returned (k : K) (pid v : Z) : Prop :=
  native_stop k pid /\ Z.testbit (x86_64_r cfg (user_area k pid) ORIG_RAX) 30 = false /\
  x86_64_r cfg (user_area k pid) RAX = v mod 2 ^ 64.

(** What the library makes of it. *)
Definition retval_of (v : Z) : Z * Z := if is_error PINK_ABI_X86_64 v then (-1, - v) else (v, 0).

Lemma wp_returned fr (k : K) pid v rval error r l (Q : bool * locals -> K -> Prop) :
  returned k pid v -> - 2 ^ 31 < v < 2 ^ 31 -> retval_of v = (rval, error) ->
  x86_filled cfg false (user_area k pid) r -> (forall k', Q (true, set_worked l) k') ->
  wp fr k (let! (rv, er) := read_retval_or_kill pid r in
           check_retval_equal_or_kill pid rv rval er error ;; worked pid l) Q.
Proof.
  intros (Hn & Hbit & Hrax) Hv Hret Hf HQ.
  assert (Ht : task_rax cfg false (user_area k pid) = v).
  { unfold task_rax, task_value. rewrite Hrax, (to_long_mod cfg).
    unfold to_long. rewrite (build_bits cfg). apply wraps_small; lia. }
  assert (Ha : rs_abi r = PINK_ABI_X86_64)
    by (destruct Hf as [-> _]; rewrite (task_abi_cases cfg), Hbit; done).
  apply wp_bind. unfold read_retval_or_kill. apply wp_bind, wp_lib.
  apply (lib_wp_run k _ (0, rval, error) k).
  { intros e. exists e. rewrite (read_retval_filled cfg pid false _ r) by done.
    rewrite Ht, Ha. unfold retval_of in Hret. destruct (is_error PINK_ABI_X86_64 v); injection Hret as <- <-.
    - unfold to_int. by rewrite wraps_small by lia.
    - done. }
  cbn beta iota. apply wp_bind, wp_print, wp_ret. cbn beta iota. apply wp_bind.
  unfold check_retval_equal_or_kill. rewrite !Z.eqb_refl. apply wp_ret, wp_worked. auto.
Qed.

Lemma retval_of_error n : 0 < n < errors -> retval_of (- n) = (-1, n).
Proof.
  intros Hn. unfold retval_of. rewrite (proj2 (is_error_iff _ _)); [by rewrite Z.opp_involutive|].
  exists n. split; [done|]. rewrite errors_value in Hn.
  change (2 ^ abi_bits PINK_ABI_X86_64) with (2 ^ 64). rewrite Z.mod_opp_l_nz; rewrite ?Z.mod_small; lia.
Qed.

Lemma retval_of_value v : 0 <= v < 2 ^ 31 -> retval_of v = (v, 0).
Proof.
  intros Hv. unfold retval_of. destruct (is_error PINK_ABI_X86_64 v) eqn:E; [|done].
  apply is_error_iff in E as (n & Hn & Hm). rewrite errors_value in Hn.
  change (2 ^ abi_bits PINK_ABI_X86_64) with (2 ^ 64) in Hm. rewrite Z.mod_small in Hm; lia.
Qed.

(** The two stops of a test that reads what its call returns. *)
Lemma passes_retval fr here pid nr v rval error cp failed child (k0 k k2 : K) args :
  begins pid k0 k -> next_stop pid k k2 -> entered k pid nr args -> returned k2 pid v ->
  - 2 ^ 31 < v < 2 ^ 31 -> retval_of v = (rval pid, error) ->
  passes fr k0 (let! pid := fork_assert in
    if pid =? 0 then child pid
    else follow here pid (cp pid) id (at_syscall pid test_options (fun l =>
           let! (regset, l) := fill_locals pid l in
           if negb (insyscall l) then
             expect_syscall pid nr regset ;; cret (false, set_insyscall l)
           else
             let! (rv, er) := read_retval_or_kill pid regset in
             check_retval_equal_or_kill pid rv (rval pid) er error ;; worked pid l)) (failed pid)).
Proof.
  intros Hb Hns He Hret Hv Hr. apply (passes_two fr _ pid cp id _ failed child k0 k Hb).
  apply wp_bind, wp_fill; [by eapply entered_native | apply start_has_regset|]. intros r Hf.
  destruct He as (_ & _ & _ & Hrange & Hnr & _). cbn beta iota. cbn [insyscall set_regset start_locals negb].
  apply wp_bind. eapply wp_expect_syscall; [exact Hf | done..|]. apply wp_ret. split; [done|].
  exists k2. split; [done|]. cbn [snd]. apply wp_bind, wp_fill; [apply Hret | by eexists; split; [|apply Hf]|].
  intros r2 Hf2. cbn beta iota. cbn [insyscall set_regset set_insyscall negb].
  by eapply wp_returned.
Qed.

(** The tests of reading return values pass on 64-bit x86: when getpid(2) returns the
    child's number, the test reads it with no error; when openat(2) on a null path
    returns -EFAULT, the test reads -1 and the error.  The children make these calls. *)
Theorem test_read_retval_passes fr pid (k0 k k2 : K) :
  pid < 2 ^ 31 -> begins pid k0 k -> next_stop pid k k2 ->
  (entered k pid 39 [] -> returned k2 pid pid ->
   passes fr k0 test_read_retval_good /\ child_makes test_read_retval_good fr 39 []) /\
  (entered k pid 257 [CVal 0; CVal 0; CVal 0] -> returned k2 pid (- EFAULT) ->
   passes fr k0 test_read_retval_fail /\
   child_makes test_read_retval_fail fr 257 [CVal 0; CVal 0; CVal 0]).
Proof.
  intros Hp31 Hb Hns. assert (Hp : 0 < pid) by apply Hb. split; intros He Hret.
  - split; [|apply (child_lookup _ _ _ _ _ 39); [by vm_compute | done | apply child_plain]].
    apply (passes_lookup _ _ _ _ 39); [by vm_compute | done |].
    eapply (passes_retval fr _ pid 39 pid id 0); [done | done | exact He | done | lia | exact (retval_of_value pid ltac:(lia))].
  - split; [|apply (child_lookup _ _ _ _ _ 257); [by vm_compute | done | apply child_plain]].
    apply (passes_lookup _ _ _ _ 257); [by vm_compute | done |].
    eapply (passes_retval fr _ pid 257 (- EFAULT) (fun _ => -1) EFAULT); [done | done | exact He | done | done |].
    by apply retval_of_error.
Qed.

(** ** Writing *)

(** The child after the tracer has set one of its registers. *)
Lemma register_set_native (k k1 : K) pid i v :
  native_stop k pid -> register_set cfg k k1 pid i v -> (i <= 16)%nat -> native_stop k1 pid.
Proof.
  intros (_ & Hc & Hl) (Hs & Hc' & Hu & _) Hi. split_and!; [done | by rewrite Hc' |].
  rewrite Hu, length_set_member; [done|]. rewrite Hl, (build_regs cfg). unfold sizeof_x86_64_regs. lia.
Qed.

(** The kernel after the tracer has stored [v] in register [i] of the child. *)
Definition poked (k : K) (pid : Z) (i : nat) (v : Z) : K :=
  (sys_ptrace PTRACE_POKEUSER pid (8 * Z.of_nat i) (DVal v) k).2.

Lemma word_user_poked (k k1 : K) pid i v e rc e' :
  (i <= 16)%nat ->
  pink_write_word_user cfg pid (8 * Z.of_nat i) v (CState k e) = Ret rc (CState k1 e') ->
  k1 = poked k pid i v.
Proof.
  intros Hi. unfold pink_write_word_user, poked.
  rewrite to_ulong_small by (rewrite (build_bits cfg); simpl; lia).
  destruct (sys_ptrace _ _ _ _ k) as [[r d] k'] eqn:Hp.
  rewrite (ptrace_rc_cases _ _ _ _ (CState k e) _ _ _ Hp).
  destruct (sr_errno r); by intros [= <- <- <-] || intros [= _ <- _].
Qed.

Lemma write_argument_poked (k k1 : K) pid u r i v e e' :
  x86_filled cfg false u r -> 0 <= x86_64_r cfg u ORIG_RAX < 2 ^ 30 -> 0 <= i < 6 ->
  pink_write_argument cfg pid r i v (CState k e) = Ret (0, r) (CState k1 e') ->
  k1 = poked k pid (nth (Z.to_nat i) x86_64_args 0%nat) v.
Proof.
  intros [Ha _] Hn Hi. destruct (arg_pair i Hi) as (_ & _ & q & _ & _ & Hq & _ & _ & Hnq & _ & Hle).
  unfold pink_write_argument, PINK_MAX_ARGS. rewrite (proj2 (Z.leb_gt 6 i)) by lia.
  rewrite (build_arch (c := cfg)), Ha, (task_abi_cases cfg), (build_x32 cfg).
  replace (Z.testbit (x86_64_r cfg u ORIG_RAX) 30) with false.
  2:{ symmetry. destruct (Z.eq_dec (x86_64_r cfg u ORIG_RAX) 0) as [->|]; [done|].
      apply Z.bits_above_log2; [lia | apply Z.log2_lt_pow2; lia]. }
  rewrite bool_decide_true by done. unfold PINK_ABI_I386, PINK_ABI_X86_64, poke_arg.
  cbn [Z.eqb orb andb]. rewrite Hq, Hnq. unfold cbind.
  destruct (pink_write_word_user cfg pid (8 * Z.of_nat q) v (CState k e)) as [rc [k2 e2]| | |] eqn:Hw; try done.
  intros [= _ <- _]. eapply word_user_poked; [|exact Hw]. lia.
Qed.

(** The kernel runs call [nr] that the tracer asks for in place of the child's own, and
    it returns [v]. *)
Definition runs_instead (k : K) (pid nr v : Z) : Prop :=
  exists k2, next_stop pid (poked k pid ORIG_RAX nr) k2 /\ returned k2 pid v.

(** The two stops of the test. *)
Lemma passes_write_syscall fr here pid nr nr' error cp failed child (k0 k : K) args :
  begins pid k0 k -> entered k pid nr args -> runs_instead k pid nr' (- error) -> 0 < error < errors ->
  passes fr k0 (let! pid := fork_assert in
    if pid =? 0 then child pid
    else follow here pid (cp pid) id (at_syscall pid test_options (fun l =>
           let! (regset, l) := fill_locals pid l in
           if negb (insyscall l) then
             expect_syscall pid nr regset ;;
             write_syscall_or_kill pid regset nr' ;;
             cret (false, set_insyscall l)
           else
             let! (rv, er) := read_retval_or_kill pid regset in
             check_retval_equal_or_kill pid rv (-1) er error ;; worked pid l)) (failed pid)).
Proof.
  intros Hb He Hrun Herr. apply (passes_two fr _ pid cp id _ failed child k0 k Hb).
  pose proof (entered_native _ _ _ _ He) as (Hs & Hc & Hl).
  apply wp_bind, wp_fill; [done | apply start_has_regset|]. intros r Hf.
  destruct He as (_ & _ & _ & Hrange & Hnr & _). cbn beta iota. cbn [insyscall set_regset start_locals negb].
  apply wp_bind. eapply wp_expect_syscall; [exact Hf | done..|].
  apply wp_bind. unfold write_syscall_or_kill. apply wp_bind, wp_lib. intros e.
  destruct (write_syscall_run cfg k e pid r nr' Hs Hl) as (k1 & Hw & Hset).
  eexists _, _, _. split; [exact Hw|]. apply wp_bind, wp_ret, wp_print, wp_ret. split; [done|].
  assert (k1 = poked k pid ORIG_RAX nr') as ->.
  { unfold pink_write_syscall in Hw. rewrite (build_arch (c := cfg)) in Hw.
    eapply word_user_poked; [|exact Hw]. unfold ORIG_RAX. lia. }
  destruct Hrun as (k2 & Hns & Hret). exists k2. split; [done|]. cbn [snd].
  apply wp_bind, wp_fill; [apply Hret | by eexists; split; [|apply Hf]|]. intros r2 Hf2.
  cbn beta iota. cbn [insyscall set_regset set_insyscall negb].
  rewrite errors_value in Herr.
  eapply wp_returned; [exact Hret | lia | apply retval_of_error; rewrite errors_value; lia | done | done].
Qed.

(** The test of changing a system call passes on 64-bit x86: in its first round the
    child's getpid(2) becomes a call the kernel does not have and fails with ENOSYS; in its
    second round lseek(2) becomes openat(2) on a null path and fails with EFAULT. *)
Theorem test_write_syscall_passes fr pid (k0 k : K) :
  begins pid k0 k ->
  (f_i fr = 0 -> entered k pid 39 [] -> runs_instead k pid (PINK_SYSCALL_INVALID cfg) (- ENOSYS) ->
   passes fr k0 test_write_syscall) /\
  (f_i fr = 1 -> entered k pid 8 [CVal 0; CVal 0; CVal 0] -> runs_instead k pid 257 (- EFAULT) ->
   passes fr k0 test_write_syscall).
Proof.
  intros Hb. split; intros Hi He Hrun; apply passes_get_i; rewrite Hi;
    unfold write_syscall_case; cbn [Z.eqb Pos.eqb]; unfold lookup_or_fail; rewrite !lookup_x86.
  - apply (passes_run _ _ _ ("getpid", 39, [], PINK_SYSCALL_INVALID cfg, ENOSYS)); [done|].
    apply passes_print. by apply (passes_write_syscall fr _ pid 39 (PINK_SYSCALL_INVALID cfg) ENOSYS (fun _ => id)
      (fun _ => fail_verbose ("Test for writing system call `" +:+ "getpid" +:+ "' failed")
         "test_write_syscall" 118) (fun _ => plain_call (Numbered 39) []) k0 k []).
  - apply (passes_run _ _ _ ("lseek", 8, [CVal 0; CVal 0; CVal 0], 257, EFAULT)); [done|].
    apply passes_print. by apply (passes_write_syscall fr _ pid 8 257 EFAULT (fun _ => id)
      (fun _ => fail_verbose ("Test for writing system call `" +:+ "lseek" +:+ "' failed")
         "test_write_syscall" 118) (fun _ => plain_call (Numbered 8) [CVal 0; CVal 0; CVal 0]) k0 k
      [CVal 0; CVal 0; CVal 0]).
Qed.

(** The call returns with its argument registers as they were at its entry. *)
Definition keeps_args (k1 : K) (pid : Z) : Prop :=
  exists k2, next_stop pid k1 k2 /\ native_stop k2 pid /\
    forall j, task_arg cfg false (user_area k2 pid) j = task_arg cfg false (user_area k1 pid) j.

Lemma task_arg_set (k k1 : K) pid i v :
  native_stop k pid -> 0 <= i < 6 ->
  register_set cfg k k1 pid (nth (Z.to_nat i) x86_64_args 0%nat) v -> 
  task_arg cfg false (user_area k1 pid) i = to_long cfg v.
Proof.
  intros (_ & _ & Hl) Hi (_ & _ & Hu & _). unfold task_arg, task_value, task_args. rewrite Hu.
  destruct (arg_pair i Hi) as (e & a & q & _ & _ & _ & _ & _ & Hq & _ & Hle).
  rewrite Hq, (x86_64_r_set cfg) by (done || lia). rewrite decide_True by done. apply (to_long_mod cfg).
Qed.

(** C23. The test of writing arguments passes on 64-bit x86 for every argument: the value
    written at the entry is read back after a new fill, and again at the exit. *)
Theorem test_write_argument_passes fr pid (k0 k : K) i :
  0 <= i < 6 -> f_i fr = i -> begins pid k0 k ->
  entered k pid (PINK_SYSCALL_INVALID cfg) (<[Z.to_nat i := CVal 0xaaa]> other_args) ->
  keeps_args (poked k pid (nth (Z.to_nat i) x86_64_args 0%nat) 0xbad) pid ->
  passes fr k0 test_write_argument.
Proof.
  intros Hi <- Hb He Hkeep. apply passes_get_i, (passes_two fr _ pid _ id _ _ _ k0 k Hb).
  pose proof (entered_native _ _ _ _ He) as Hn.
  assert (Harch : is_aarch64 = false) by (unfold is_aarch64; by rewrite (build_arch (c := cfg))).
  assert (Hbad : to_long cfg 0xbad = 0xbad)
    by (unfold to_long; rewrite (build_bits cfg); by apply wraps_small).
  rewrite Harch. cbn [insyscall start_locals negb].
  apply wp_bind, wp_fill; [done | apply start_has_regset|]. intros r Hf. cbn beta iota.
  destruct He as (_ & _ & _ & Hr & Hnr & _).
  apply wp_bind. eapply wp_expect_syscall; [exact Hf | done..|].
  apply wp_bind. unfold write_argument_or_kill. apply wp_bind, wp_lib. intros e.
  assert (Hui : to_uint (f_i fr) = f_i fr) by (apply wrapu_small; lia). rewrite Hui.
  destruct (write_argument_run cfg k e pid r (f_i fr) 0xbad) as (k1 & Hw & Hset);
    [apply Hn | apply Hn | destruct Hn as (_ & -> & _); apply Hf | done |].
  destruct Hn as (Hs & Hc & Hl). rewrite Hc in Hset. cbn [task_args] in Hset.
  destruct (arg_pair (f_i fr) Hi) as (_ & _ & q & _ & _ & _ & _ & _ & Hq & _ & Hle).
  assert (Hn1 : native_stop k1 pid)
    by (eapply register_set_native; [by split_and!|exact Hset | simpl in *; lia]).
  eexists _, _, _. split; [exact Hw|]. cbn beta iota. apply wp_bind, wp_ret, wp_bind, wp_print, wp_ret.
  apply wp_bind, wp_fill; [done | by eexists; split; [|apply Hf]|]. intros r1 Hf1. cbn beta iota.
  apply wp_bind. eapply wp_read_argument; [exact Hf1 | done |].
  rewrite (task_arg_set k k1 pid (f_i fr) 0xbad), Hbad by done.
  apply wp_bind, wp_ret, wp_ret. split; [done|].
  rewrite <- (write_argument_poked _ _ _ _ _ _ _ _ _ Hf ltac:(lia) Hi Hw) in Hkeep.
  destruct Hkeep as (k2 & Hns & Hn2 & Hargs). exists k2. split; [done|]. cbn [snd insyscall set_insyscall negb].
  apply wp_bind, wp_fill; [done | by eexists; split; [|apply Hf1]|]. intros r2 Hf2. cbn beta iota.
  apply wp_bind. eapply wp_read_argument; [exact Hf2 | done |].
  rewrite Hargs, (task_arg_set k k1 pid (f_i fr) 0xbad), Hbad by done.
  apply wp_bind, wp_ret. by apply wp_worked.
Qed.

End Tests.

(** ** Witnesses *)

Section Witnesses.
Import TestSession.Demo.

Lemma test_read_argument_passes_witness :
  passes (round 2) (stops [invalid_child [(RDX, 0xbad); (R8, -1)] []]) test_read_argument /\
  child_makes (K := script) test_read_argument (round 2) (PINK_SYSCALL_INVALID cfg)
    (<[Z.to_nat 2 := CVal 0xbad]> other_args).
Proof.
  apply (test_read_argument_passes (round 2) 7 _
    (first_stop (invalid_child [(RDX, 0xbad); (R8, -1)] []) []) 2);
    [lia | reflexivity | by apply stops_begin |].
  solve_entered.
Defined.

Lemma test_read_syscall_passes_witness :
  passes (round 0) (stops [child [(ORIG_RAX, 39)] []]) test_read_syscall.
Proof.
  destruct (test_read_syscall_passes (round 0) 7 (stops [child [(ORIG_RAX, 39)] []])
    (first_stop (child [(ORIG_RAX, 39)] []) [])) as [H _]; [by apply stops_begin | solve_entered | exact H].
Defined.

(** The string of the child as its first and its second argument. *)
Definition pinktrace_child : sim := invalid_child [(RDI, 0x1000); (R8, -1)] (literal "pinktrace").
Definition trace_pink_child : sim := invalid_child [(RSI, 0x1000); (R8, -1)] trace_nul_pink.

Lemma test_read_vm_data_passes_witness :
  passes (round 0) (stops [pinktrace_child]) test_read_vm_data /\
  passes (round 1) (stops [trace_pink_child]) test_read_vm_data_nul.
Proof.
  split.
  - destruct (test_read_vm_data_passes (round 0) 7 (stops [pinktrace_child]) (first_stop pinktrace_child []) 0)
      as [H _]; [lia | reflexivity | by apply stops_begin | apply attach |].
    apply (H _ eq_refl). solve_entered.
  - destruct (test_read_vm_data_passes (round 1) 7 (stops [trace_pink_child]) (first_stop trace_pink_child []) 1)
      as [_ H]; [lia | reflexivity | by apply stops_begin | apply attach |].
    apply (H _ eq_refl). solve_entered.
Defined.

Lemma test_vm_lread_passes_witness :
  passes (round 0) (stops [pinktrace_child]) test_vm_lread /\
  passes (round 1) (stops [trace_pink_child]) test_vm_lread_nul.
Proof.
  split.
  - destruct (test_vm_lread_passes (round 0) 7 (stops [pinktrace_child]) (first_stop pinktrace_child []) 0)
      as [H _]; [lia | reflexivity | by apply stops_begin |]. apply H. solve_entered.
  - destruct (test_vm_lread_passes (round 1) 7 (stops [trace_pink_child]) (first_stop trace_pink_child []) 1)
      as [_ H]; [lia | reflexivity | by apply stops_begin |]. apply H. solve_entered.
Defined.

(** A call at its entry and with its result. *)
Definition call_stops (nr v : Z) : list sim :=
  [child [(ORIG_RAX, nr)] []; child [(ORIG_RAX, nr); (RAX, v)] []].

Lemma test_read_retval_passes_witness :
  passes (round 0) (stops (call_stops 39 7)) test_read_retval_good /\
  passes (round 0) (stops (call_stops 257 (- EFAULT))) test_read_retval_fail.
Proof.
  split.
  - destruct (test_read_retval_passes (round 0) 7 (stops (call_stops 39 7))
      (first_stop (child [(ORIG_RAX, 39)] []) [child [(ORIG_RAX, 39); (RAX, 7)] []])
      (first_stop (child [(ORIG_RAX, 39); (RAX, 7)] []) [])) as [H _];
      [lia | by apply stops_begin | by apply stops_next |].
    apply H; [solve_entered|]. split_and!; [by split; [split|] | done | done].
  - destruct (test_read_retval_passes (round 0) 7 (stops (call_stops 257 (- EFAULT)))
      (first_stop (child [(ORIG_RAX, 257)] []) [child [(ORIG_RAX, 257); (RAX, - EFAULT)] []])
      (first_stop (child [(ORIG_RAX, 257); (RAX, - EFAULT)] []) [])) as [_ H];
      [lia | by apply stops_begin | by apply stops_next |].
    apply H; [solve_entered|]. split_and!; [by split; [split|] | done | done].
Defined.

(** A child whose register was set, at its next stop. *)
Lemma poked_next s s' l i v u :
  memcpy_to (sim_user s) (Z.to_nat (8 * Z.of_nat i)) (word_bytes x86_64_linux v) = Some u ->
  sim_pid s = 7 -> sim_pid s' = 7 ->
  next_stop 7 (poked (first_stop s (s' :: l)) 7 i v) (first_stop s' l).
Proof.
  intros Hm Hs Hs'.
  assert (poked (first_stop s (s' :: l)) 7 i v = first_stop (set_user s u) (s' :: l)) as ->.
  { unfold poked. simpl. unfold script_ptrace. cbn [sc_running first_stop sc_now].
    unfold sim_ptrace. rewrite decide_True by done. rewrite Hm. done. }
  by apply stops_next.
Qed.

Lemma test_write_syscall_passes_witness :
  passes (round 0) (stops [child [(ORIG_RAX, 39)] [];
                           child [(ORIG_RAX, 0xbadca11); (RAX, - ENOSYS)] []]) test_write_syscall.
Proof.
  destruct (test_write_syscall_passes (round 0) 7 (stops [child [(ORIG_RAX, 39)] [];
      child [(ORIG_RAX, 0xbadca11); (RAX, - ENOSYS)] []])
    (first_stop (child [(ORIG_RAX, 39)] []) [child [(ORIG_RAX, 0xbadca11); (RAX, - ENOSYS)] []])) as [H _];
    [by apply stops_begin|]. apply H; [done | solve_entered |].
  eexists. split; [eapply poked_next; [vm_compute; reflexivity | done | done]|].
  split_and!; [by split; [split|] | done | done].
Defined.

Lemma test_write_argument_passes_witness :
  passes (round 1) (stops [invalid_child [(RSI, 0xaaa); (R8, -1)] [];
                           invalid_child [(RSI, 0xbad); (R8, -1)] []]) test_write_argument.
Proof.
  apply (test_write_argument_passes (round 1) 7 _
    (first_stop (invalid_child [(RSI, 0xaaa); (R8, -1)] []) [invalid_child [(RSI, 0xbad); (R8, -1)] []]) 1);
    [lia | done | by apply stops_begin | solve_entered |].
  eexists. split; [eapply poked_next; [vm_compute; reflexivity | done | done]|].
  split; [by split_and!|]. intros j. reflexivity.
Defined.

End Witnesses.
