(* ===== verification/TestSockProps.v ===== *)
(** * The tests of socket addresses pass on a lawful kernel *)

From Stdlib Require Import ZArith Lia String Ascii.
From stdpp Require Import base list numbers strings.
From coqutil Require Import Byte Word.LittleEndianList.
From S2P Require Import Prelude Config Kernel Layout Sim Trace Vm VmRead VmCross Name Regset Read ReadVm Write Registers Socket Pipe Tracer Script Seatest Check TestRead TestWrite TestSocket TestSession.
Local Open Scope string_scope.
Local Open Scope list_scope.
Local Open Scope Z_scope.
Local Open Scope c_scope.

Section Sockets.
Context {K : Type} `{!KernelOps K} `{!ProcOps K} `{!CheckOps K} `{!PipeOps K} `{!TraceeView K} `{!RegView K}.
Context `{!PtraceErrno K} {St : Setting} {Rd : Ready} `{!PtraceRegset K} `{!X86User cfg K}.

#[local] Instance sockets_build : X86Build cfg := ready_build.

(** The call of a round, by the number the kernel knows it by, and its arguments. *)
Definition sys_code (t : test_sys) : Z :=
  match t with TEST_SYS_BIND => 0 | TEST_SYS_CONNECT => 1 | TEST_SYS_SENDTO => 2 end.
Definition sys_nr (t : test_sys) : Z := SYS_number (test_sys_name (Some t)).
Definition sys_args (t : test_sys) (addr : carg) (socklen : Z) : list carg :=
  match t with
  | TEST_SYS_SENDTO => [CVal expfd; CVal 0xbad; CVal 0xbad; CVal 0xbad; addr; CVal socklen]
  | _ => [CVal expfd; addr; CVal socklen]
  end.
Definition sys_index (t : test_sys) : Z := match t with TEST_SYS_SENDTO => 4 | _ => 1 end.

Lemma to_test_sys_code t : to_test_sys (sys_code t) = Some t.
Proof. by destruct t. Qed.

(** A union that ends with a terminator is dumped, whatever its family. *)
Lemma wp_dump_address fr (k' : K) sa (Q : unit -> K -> Prop) :
  sa_family sa = -1 \/ (length (sa_u sa) = 128%nat /\ sa_u sa !! 127%nat = Some Byte.x00) ->
  Q tt k' -> wp fr k' (dump_socket_address sa) Q.
Proof.
  intros Hsa HQ. apply wp_bind, wp_print, wp_bind, wp_print, wp_bind.
  apply (wp_mono _ _ _ (fun _ k2 => k2 = k')).
  - unfold socket_address_line. destruct (Z.eqb_spec (sa_family sa) AF_UNIX) as [Hu|_].
    + destruct Hsa as [Hm|[Hl Ht]]; [rewrite Hm in Hu; done|].
      assert (Hp : sun_path (sa_u sa) !! 125%nat = Some Byte.x00) by (unfold sun_path; by rewrite lookup_drop).
      destruct (sun_path (sa_u sa)) as [|b p]; [done|]. apply (wp_checked _ _ _ b); [done|].
      assert (is_Some (cstring (if bool_decide (b = Byte.x00) then drop 1 (b :: p) else b :: p))) as [t Hc].
      { case_bool_decide; [apply (cstring_lookup _ 124) | apply (cstring_lookup _ 125)]; exact Hp. }
      apply (wp_checked _ _ _ t); [done|]. by apply wp_ret.
    + repeat case_match; by apply wp_ret.
  - intros [t|] _ ->; apply wp_bind; [apply wp_print | apply wp_ret]; by apply wp_print.
Qed.

Lemma sockaddr_bytes_end bs :
  length (sockaddr_bytes bs) = 128%nat /\ sockaddr_bytes bs !! 127%nat = Some Byte.x00.
Proof.
  unfold sockaddr_bytes. set (u := take 127 _).
  assert (Hu : length u = 127%nat) by (unfold u; rewrite length_take, length_app, length_replicate; lia).
  rewrite length_app, Hu. split; [done|]. by rewrite lookup_app_r, Hu by lia.
Qed.

(** What read_socket_address gives at the entry. *)
Section Entry.
Context (k : K) (pid : Z) (t : test_sys) (addr : carg) (socklen : Z).
Context (Hentry : entered k pid (sys_nr t) (sys_args t addr socklen)) (Ht : transfer cfg K).
Context (Hdecode : SYS_socketcall = None) (Hlen : 0 <= socklen <= 128).
Context (r : pink_regset) (Hfill : x86_filled cfg false (user_area k pid) r).

#[local] Instance entry_args : ReadsArgs cfg K pid r (task_arg cfg false (user_area k pid)).
Proof. exact (filled_reads_args cfg pid false _ r Hfill). Qed.
#[local] Instance entry_reads : VmReads cfg K := transfer_reads cfg Ht.

(** The address that was read: none, or the first bytes of the object, with a terminator
    at the end of the union. *)
Definition address_read (sa : pink_sockaddr) : Prop :=
  match addr with
  | CVal _ => sa_family sa = -1
  | CObj u => sa_u sa = sockaddr_bytes (take (Z.to_nat socklen) u) /\
              sa_family sa = get_member cfg (sa_u sa) 0 2
  | CArr _ => False
  end.

Lemma entry_arg i a :
  sys_args t addr socklen !! Z.to_nat i = Some a -> 0 <= i < 6 ->
  holds_arg k pid (task_arg cfg false (user_area k pid) i) a.
Proof. destruct Hentry as (_ & _ & _ & _ & _ & H). apply H. Qed.

Lemma entry_socklen :
  socket_arg cfg pid (task_arg cfg false (user_area k pid)) false 8 k (sys_index t + 1) = Some socklen.
Proof.
  unfold socket_arg. f_equal.
  assert (Ha : task_arg cfg false (user_area k pid) (sys_index t + 1) = socklen)
    by (apply (entry_arg (sys_index t + 1) (CVal socklen)); destruct t; (done || (simpl; lia))).
  rewrite Ha. apply to_ulong_small. rewrite (build_bits cfg). lia.
Qed.

Lemma entry_fd :
  socket_arg cfg pid (task_arg cfg false (user_area k pid)) false 8 k 0 = Some expfd.
Proof.
  unfold socket_arg. f_equal.
  assert (Ha : task_arg cfg false (user_area k pid) 0 = expfd)
    by (apply (entry_arg 0 (CVal expfd)); destruct t; (done || lia)).
  rewrite Ha. apply to_ulong_small. rewrite (build_bits cfg). unfold expfd. lia.
Qed.

(** The address argument is the one that the call of the library can take. *)
Definition good_address : Prop :=
  match addr with
  | CVal v => v = 0
  | CObj u => 2 <= socklen /\ length u = 128%nat
  | CArr _ => False
  end.

Lemma entry_wordsize : pink_abi_wordsize cfg (rs_abi r) = Some 8.
Proof.
  destruct Hentry as (_ & _ & _ & Hr & Hnr & _). destruct Hfill as [-> _]. rewrite (task_abi_cases cfg), Hnr.
  replace (Z.testbit (sys_nr t) 30) with false.
  - unfold pink_abi_wordsize, ABI0_WORDSIZE. by rewrite (build_abis cfg), (build_arch (c := cfg)).
  - symmetry. destruct (Z.eq_dec (sys_nr t) 0) as [->|]; [done|].
    apply Z.bits_above_log2; [lia | apply Z.log2_lt_pow2; lia].
Qed.

Lemma clamp_socklen : 2 <= socklen -> clamp_len socklen = socklen.
Proof.
  intros Hl2. unfold clamp_len, sizeof_sockaddr_u.
  by rewrite (proj2 (Z.ltb_ge socklen 2)), (proj2 (Z.ltb_ge 128 socklen)) by lia.
Qed.

(** The library reads the descriptor and the address. *)
Lemma read_address_run e :
  good_address ->
  exists sa e', address_read sa /\
    pink_read_socket_address cfg (indet_bytes "arg") pid r false (sys_index t) true newaddr0 (CState k e)
    = Ret (0, Some expfd, sa) (CState k e').
Proof.
  intros Haddr. destruct Hentry as (Hs & _ & _ & Hr & Hnr & _).
  set (args := task_arg cfg false (user_area k pid)). set (v := args (sys_index t)).
  assert (Hv : holds_arg k pid v addr)
    by (apply (entry_arg (sys_index t) addr); destruct t; (done || (simpl; lia))).
  destruct (@socket_address_run K _ _ cfg pid r args entry_args entry_reads 8 entry_wordsize ltac:(by right)
    ltac:(right; symmetry; apply (build_sizeof cfg)) (indet_bytes "arg") false (sys_index t) true newaddr0 k e
    expfd (to_ulong cfg v) socklen) as (e' & u & _ & Hrun);
    [done | by destruct t | done | by destruct t | by destruct t | apply entry_fd | done | apply entry_socklen
    | | apply wrapu_range; rewrite (build_bits cfg); lia |].
  - intros Hpos. split; [|apply (native_plain (user_area k pid) r _ Hfill); lia].
    unfold good_address in Haddr. destruct addr as [z|bs|]; [|destruct Hv as (_ & Hend & _)|done].
    + cbn [holds_arg] in Hv. subst z. rewrite Hv in Hpos. exfalso.
      by rewrite to_ulong_small in Hpos by (rewrite (build_bits cfg); lia).
    + unfold clamp_len, sizeof_sockaddr_u. destruct (_ || _); lia.
  - rewrite Hrun. clear Hrun. unfold address_read, good_address in *.
    destruct addr as [z|bs|]; [|destruct Hv as (Hv0 & Hend & Hm)|done].
    + cbn [holds_arg] in Hv. subst z. rewrite Hv.
      rewrite (to_ulong_small cfg 0) by (rewrite (build_bits cfg); lia). eexists _, _. by split; [|reflexivity].
    + rewrite (to_ulong_small cfg v) in Hm |- * by (rewrite (build_bits cfg); lia).
      destruct Haddr as [Hl2 Hbs]. rewrite (proj2 (Z.eqb_neq _ 0)), (clamp_socklen Hl2) by lia.
      replace (length bs) with (Z.to_nat socklen + (128 - Z.to_nat socklen))%nat in Hm by lia.
      apply read_mem_split in Hm as [Hm _]. rewrite Hm. eexists _, _. by split; [|reflexivity].
Qed.

Lemma wp_read_address fr (Q : Z * pink_sockaddr -> K -> Prop) :
  good_address ->
  (forall sa, address_read sa -> Q (expfd, sa) k) ->
  wp fr k (read_socket_address_or_kill pid r SOCKDECODE (sys_index t) (indet "newfd") newaddr0) Q.
Proof.
  intros Haddr HQ. unfold read_socket_address_or_kill. apply wp_bind, wp_lib. intros e.
  assert (Hdec : SOCKDECODE = false) by (unfold SOCKDECODE; rewrite Hdecode; done). rewrite Hdec.
  destruct (read_address_run e Haddr) as (sa & e' & Hsa & Hrun).
  eexists _, _, _. split; [exact Hrun|]. cbn beta iota. cbn [Z.ltb Z.compare].
  apply wp_bind, wp_ret, wp_bind, wp_print, wp_bind, wp_dump_address; [|by apply wp_ret, HQ].
  unfold address_read in Hsa. unfold good_address in Haddr. destruct addr as [z|bs|]; [by left | right | done].
  destruct Hsa as [-> _]. apply sockaddr_bytes_end.
Qed.

End Entry.
Lemma wp_read_subcall fr k pid u r nr (Q : Z -> K -> Prop) :
  SYS_socketcall = None -> x86_filled cfg false u r -> x86_64_r cfg u ORIG_RAX = nr -> 0 <= nr < 2 ^ 30 ->
  Q nr k -> wp fr k (read_socket_subcall_or_kill pid r SOCKDECODE (indet "subcall")) Q.
Proof.
  intros Hdec Hf Hu Hn HQ. apply wp_bind, wp_lib.
  replace SOCKDECODE with false by (unfold SOCKDECODE; rewrite Hdec; done).
  assert (Hbit : Z.testbit nr 30 = false)
    by (destruct (Z.eq_dec nr 0) as [->|]; [done | apply Z.bits_above_log2; [lia | apply Z.log2_lt_pow2; lia]]).
  apply (lib_wp_run k _ (0, Some nr) k).
  { intros e. exists e. unfold pink_read_socket_subcall.
    rewrite (read_syscall_filled cfg pid false u r nr) by (done || lia). by rewrite Hbit. }
  cbn beta iota. by apply wp_bind, wp_ret, wp_bind, wp_print, wp_ret.
Qed.

Lemma wp_check_socketcall fr (k : K) pid t (Q : unit -> K -> Prop) :
  SYS_socketcall = None -> Q tt k -> wp fr k (check_socketcall_equal_or_kill pid (Some t) (sys_nr t)) Q.
Proof.
  intros Hdec HQ. apply wp_bind. unfold SYS_bind, SYS_connect, SYS_sendto, sys_nr.
  replace SOCKDECODE with false by (unfold SOCKDECODE; rewrite Hdec; done).
  destruct t; apply wp_ret; cbn [test_sys_name]; rewrite Z.eqb_refl; by apply wp_ret.
Qed.

Lemma wp_expect_equal fr (k : K) pid v what function line (Q : unit -> K -> Prop) :
  Q tt k -> wp fr k (expect_equal pid v v what function line) Q.
Proof. intros HQ. unfold expect_equal, expect_or_kill. rewrite Z.eqb_refl. by apply wp_ret. Qed.

(** A test of a socket address, up to what it checks of the address. *)
Lemma passes_socket fr pid test_name function lines (k0 k : K) t addr socklen family check :
  SYS_socketcall = None -> transfer cfg K -> f_i fr = sys_code t -> begins pid k0 k ->
  entered k pid (sys_nr t) (sys_args t addr socklen) -> 0 <= socklen <= 128 ->
  match addr with
  | CVal v => v = 0
  | CObj u => 2 <= socklen /\ length u = 128%nat
  | CArr _ => False
  end ->
  (forall sa, address_read addr socklen sa ->
     sa_family sa = family /\ wp (set_group fr pid) k (check pid sa) (fun _ _ => True)) ->
  passes fr k0 (socket_test test_name function lines addr socklen family check).
Proof.
  intros Hdec Ht Hi Hb He Hl Haddr Hcheck. destruct lines as [[[l0 l1] l2] l3].
  apply passes_get_i. rewrite Hi, to_test_sys_code. apply passes_print, (passes_one fr _ pid _ id _ _ _ k0 k Hb).
  apply wp_bind, wp_fill; [by eapply entered_native | apply start_has_regset|]. intros r Hf. cbn beta iota.
  assert (Hnr : 0 <= sys_nr t < 2 ^ 30 /\ x86_64_r cfg (user_area k pid) ORIG_RAX = sys_nr t)
    by (by destruct He as (_ & _ & _ & H1 & H2 & _)).
  apply wp_bind. eapply wp_read_subcall; [done | exact Hf | apply Hnr | apply Hnr |].
  apply wp_bind, wp_check_socketcall; [done|].
  apply (wp_seq _ _ _ _ (fun i k' => i = sys_index t /\ k' = k)); [by destruct t; apply wp_ret|].
  intros _ _ [-> ->]. apply wp_bind, (wp_read_address k pid t addr socklen He Ht Hdec Hl r Hf); [done|]. intros sa Hsa. cbn beta iota.
  destruct (Hcheck sa Hsa) as [Hfam Hc]. rewrite Hfam.
  apply wp_bind, wp_expect_equal, wp_bind, wp_expect_equal.
  eapply wp_seq; [exact Hc|]. intros _ k' _. by apply wp_worked.
Qed.

(** *** The addresses *)

(** The bytes of a union whose first [n] indeterminate bytes are named. *)
Tactic Notation "open_union" integer(n) :=
  unfold unix_u, unixabs_u, inet_u, inet6_u, netlink_u, expaddr_u, set_member;
  rewrite ?(build_endian (c := cfg));
  let l := fresh "l" in let Hl := fresh "Hl" in
  remember (Check.fresh "expaddr.u" (Z.to_nat sizeof_sockaddr_u)) as l eqn:Hl;
  apply (f_equal length) in Hl; unfold Check.fresh in Hl; rewrite length_resize in Hl;
  do n (destruct l as [|? l]; [discriminate Hl|]).

(** A read union and its family are those of the bytes. *)
Lemma address_object u socklen sa :
  address_read (CObj u) socklen sa ->
  sa_u sa = sockaddr_bytes (take (Z.to_nat socklen) u) /\
  sa_family sa = le_combine (take 2 (sockaddr_bytes (take (Z.to_nat socklen) u))).
Proof.
  intros [Hu Hf]. rewrite Hf, Hu. unfold get_member. by rewrite (build_endian (c := cfg)), drop_0.
Qed.

Lemma wp_expect_path fr (k : K) pid a b t f line (Q : unit -> K -> Prop) :
  cstring a = Some t -> cstring b = Some t -> Q tt k -> wp fr k (expect_path pid a b f line) Q.
Proof.
  intros Ha Hb HQ. unfold expect_path, strcmp_eq. rewrite Ha, Hb.
  apply (wp_checked _ _ _ true); [simpl; by rewrite String.eqb_refl|].
  apply (wp_checked _ _ _ t); [done|]. apply (wp_checked _ _ _ t); [done|]. by apply wp_ret.
Qed.

Lemma wp_expect_value fr (k : K) pid v v' what function line (Q : unit -> K -> Prop) :
  v = v' -> Q tt k -> wp fr k (expect_equal pid v v' what function line) Q.
Proof. intros ->. apply wp_expect_equal. Qed.

(** C22. The tests of reading socket addresses pass on 64-bit x86 for bind(2), connect(2) and
    sendto(2): at the entry of the call that the child makes, the descriptor, the family,
    and the path, the port and address, or the netlink numbers are those of the child's
    object, read up to the length that the call is given; a null address is reported as
    family -1. *)
Theorem test_read_socket_address_passes fr pid (k0 k : K) t :
  SYS_socketcall = None -> transfer cfg K -> f_i fr = sys_code t -> begins pid k0 k ->
  let entry addr socklen := entered k pid (sys_nr t) (sys_args t addr socklen) in
  (entry (CVal 0) 0 -> passes fr k0 test_read_socket_address_af_null) /\
  (entry (CObj unix_u) sizeof_sockaddr -> passes fr k0 test_read_socket_address_af_unix) /\
  (entry (CObj unixabs_u) sizeof_sockaddr -> passes fr k0 test_read_socket_address_af_unixabs) /\
  (entry (CObj inet_u) sizeof_sockaddr -> passes fr k0 test_read_socket_address_af_inet) /\
  (entry (CObj inet6_u) sizeof_sockaddr_in6 -> passes fr k0 test_read_socket_address_af_inet6) /\
  (entry (CObj netlink_u) sizeof_sockaddr_nl -> passes fr k0 test_read_socket_address_af_netlink).
Proof.
  intros Hdec Ht Hi Hb entry. split_and!; intros He.
  - apply (passes_socket _ pid _ _ _ k0 k t); [done.. | split; [done | by apply wp_ret]].
  - apply (passes_socket _ pid _ _ _ k0 k t); [done.. | split; [done | by open_union 16]|].
    intros sa [Hu Hf]%address_object. rewrite Hf, Hu. split; [by open_union 16|].
    eapply (wp_expect_path _ _ _ _ _ "pinktrace"); [by open_union 16 | by open_union 16 | done].
  - apply (passes_socket _ pid _ _ _ k0 k t); [done.. | split; [done | by open_union 16]|].
    intros sa [Hu Hf]%address_object. rewrite Hf, Hu. split; [by open_union 16|].
    apply (wp_checked _ _ _ Byte.x00); [by open_union 16|]. apply wp_bind, wp_ret.
    eapply (wp_expect_path _ _ _ _ _ "pinktrace"); [by open_union 16 | by open_union 16 | done].
  - apply (passes_socket _ pid _ _ _ k0 k t); [done.. | split; [done | by open_union 16]|].
    intros sa [Hu Hf]%address_object. rewrite Hf, Hu. split; [by open_union 16|].
    apply wp_bind, wp_expect_value; [by open_union 16|].
    unfold check_addr_loopback_or_kill.
    replace (_ =? INADDR_LOOPBACK) with true by (by open_union 16). by apply wp_ret.
  - unfold test_read_socket_address_af_inet6. destruct have_ipv6; cbn [negb].
    + apply (passes_socket _ pid _ _ _ k0 k t); [done.. | split; [done | by open_union 28]|].
      intros sa [Hu Hf]%address_object. rewrite Hf, Hu. split; [by open_union 28|].
      apply wp_bind, wp_expect_value; [by open_union 28|].
      unfold check_addr6_loopback_or_kill. rewrite bool_decide_eq_true_2 by (by open_union 28).
      by apply wp_ret.
    + by apply wp_passes, wp_bind, wp_print, wp_ret.
  - unfold test_read_socket_address_af_netlink. destruct have_netlink; cbn [negb].
    + apply (passes_socket _ pid _ _ _ k0 k t); [done.. | split; [done | by open_union 16]|].
      intros sa [Hu Hf]%address_object. rewrite Hf, Hu. split; [by open_union 16|].
      unfold get_member. rewrite (build_endian (c := cfg)).
      apply wp_bind, wp_expect_value; [by open_union 16|]. apply wp_expect_value; [by open_union 16 | done].
    + by apply wp_passes, wp_bind, wp_print, wp_ret.
Qed.

End Sockets.

(** ** Witness *)

Section Witness.
Import TestSession.Demo.

(** bind(23, 0x1000, socklen) and sendto(23, 0xbad, 0xbad, 0xbad, 0x1000, socklen). *)
Definition bind_child (u : list byte) (socklen : Z) : sim :=
  child [(ORIG_RAX, 49); (RDI, 23); (RSI, 0x1000); (RDX, socklen)] u.
Definition sendto_child (u : list byte) (socklen : Z) : sim :=
  child [(ORIG_RAX, 44); (RDI, 23); (RSI, 0xbad); (RDX, 0xbad); (R10, 0xbad); (R8, 0x1000); (R9, socklen)] u.

Lemma test_read_socket_address_passes_witness :
  passes (round 0) (stops [bind_child inet_u 16]) test_read_socket_address_af_inet /\
  passes (round 2) (stops [sendto_child unixabs_u 16]) test_read_socket_address_af_unixabs.
Proof.
  split.
  - destruct (test_read_socket_address_passes (round 0) 7 (stops [bind_child inet_u 16])
      (first_stop (bind_child inet_u 16) []) TEST_SYS_BIND)
      as (_ & _ & _ & H & _); [done | apply attach | done | by apply stops_begin |]. apply H. solve_entered.
  - destruct (test_read_socket_address_passes (round 2) 7 (stops [sendto_child unixabs_u 16])
      (first_stop (sendto_child unixabs_u 16) []) TEST_SYS_SENDTO)
      as (_ & _ & H & _); [done | apply attach | done | by apply stops_begin |]. apply H. solve_entered.
Defined.

End Witness.
