(* ===== verification/TestTrace.v ===== *)
(** * The tests of trace-TEST.c against the lives that a child can have

    The tests of the options for tracing follow a child whose stops come in an order
    that the program does not control.  A life is the sequence of what waitpid(2)
    reports of the child and of its own child, with the requests that the kernel
    accepts in between; the theorems say for every life how the test ends. *)

From Stdlib Require Import ZArith Lia String Ascii.
From stdpp Require Import base list numbers strings.
From coqutil Require Import Byte Word.LittleEndianList.
From S2P Require Import Prelude Config Kernel Layout Sim Trace Vm VmRead VmCross Name Regset Read ReadVm Write WriteVm Registers Socket Pipe Tracer Script Seatest Check TestRead TestWrite TestSession.
Local Open Scope string_scope.
Local Open Scope list_scope.
Local Open Scope Z_scope.
Local Open Scope c_scope.

(** ** Verdicts *)

(** A test that returns with one failure more and changes nothing else of the frame but
    the group. *)
Definition fails {K} (fr : frame) (k : K) (test : comp (tests K) (option outcome)) : Prop :=
  forall e o, exists pgid g k' e',
    test (world fr k e o) = Ret None (Tests (CState k' e') g (f_i fr) pgid (f_release fr)) /\
    sea_tests_failed g = sea_tests_failed (f_sea fr) + 1.

(** The room that the counter of failures has. *)
Definition counts_more (fr : frame) : Prop := 0 <= sea_tests_failed (f_sea fr) < 2 ^ 31 - 1.

Section Trace.
Context {K : Type} `{!KernelOps K} `{!ProcOps K} `{!CheckOps K} `{!PtraceErrno K} {St : Setting}.

(** The child is forked into its own group. *)
Definition forked (pid : Z) (k0 k : K) : Prop :=
  0 < pid /\ exists k1, sys_fork k0 = (SysRet pid None, k1) /\ succeeds (sys_setpgid pid 0) k1 k.

(** The verdict of a test: what follows the loop decides by its result. *)
Lemma fork_verdict {A} fr pid (k0 k : K) (child : Z -> comp (tests K) (option outcome))
    (loop : Z -> comp (tests K) A) (rest : Z -> A -> comp (tests K) (option outcome)) (R : A -> Prop)
    message function line (b : bool) :
  forked pid k0 k -> counts_more fr -> wp (set_group fr pid) k (loop pid) (fun a _ => R a) ->
  (forall a, R a ->
     rest pid a = ((if b then cret tt else fail_verbose message function line) ;; cret None)) ->
  let test := (let! pid := fork_assert in
    if pid =? 0 then child pid else let! a := loop pid in rest pid a) in
  if b then passes fr k0 test else fails fr k0 test.
Proof.
  intros (Hp & k1 & Hf & Hs) Hc Hl Hrest. cbn zeta.
  assert (Hrun : forall e o, exists k' e' o', (let! pid := fork_assert in
    if pid =? 0 then child pid else let! a := loop pid in rest pid a) (world fr k0 e o)
    = ((if b then cret tt else fail_verbose message function line) ;; cret None)
        (world (set_group fr pid) k' e' o')).
  { intros e o. rewrite (cbind_run _ _ _ _ _ (fork_assert_run fr pid k0 k1 k e o Hp Hf Hs)).
    rewrite (proj2 (Z.eqb_neq pid 0)) by lia.
    destruct (Hl e o) as (r & k' & e' & o' & Hr & HR). exists k', e', o'.
    by rewrite (cbind_run _ _ _ _ _ Hr), (Hrest r HR). }
  destruct b; intros e o; destruct (Hrun e o) as (k' & e' & o' & Hr); rewrite Hr.
  - by exists pid, k', e', o'.
  - destruct (fail_verbose_errno_run (fun _ => message) function line (world (set_group fr pid) k' e' o'))
      as (g & Hg & Hn); [done|].
    eexists pid, g, k', _. by rewrite (cbind_run _ _ _ _ _ Hg).
Qed.

(** ** fork(2) *)

(** What the wait reports of the child [pid] and of other processes of its group. *)
Inductive family_event : Type :=
| Ended (who : Z)
| OtherStop (who st : Z)
| ChildStop (st : Z)
| ForkEvent (st msg : Z).

(** The status of a stop for the event of fork(2). *)
Definition fork_stop (st : Z) : bool :=
  (WSTOPSIG st =? SIGTRAP) && (pink_event_decide st =? event_code PINK_EVENT_FORK).

(** The message of an event. *)
Definition event_message (pid msg : Z) (k k' : K) : Prop :=
  exists r, sys_ptrace PTRACE_GETEVENTMSG pid 0 (DBuf (word_bytes cfg 0)) k
            = (SysRet r None, DBuf (word_bytes cfg msg), k').

(** The options are accepted at a stop by SIGSTOP. *)
Definition options_at (pid options st : Z) (k k' : K) : Prop :=
  if WSTOPSIG st =? SIGSTOP then request_ok PTRACE_SETOPTIONS pid (kernel_options options) k k'
  else k' = k.

(** The lives of a family, from a wait on: the processes end with status 0, the others
    stop and are resumed, the child stops, announces its own child, and is resumed, in
    any order, until none is left. *)
Inductive family (pid : Z) : list family_event -> K -> Prop :=
| family_gone k k' : none_left pid k k' -> family pid [] k
| family_ended who l k k1 :
    0 < who -> group_reports pid who 0 k k1 -> family pid l k1 -> family pid (Ended who :: l) k
| family_other who st l k k1 k2 :
    0 < who -> who <> pid -> group_reports pid who st k k1 -> WIFSTOPPED st = true ->
    request_ok PTRACE_CONT who 0 k1 k2 -> family pid l k2 -> family pid (OtherStop who st :: l) k
| family_stop st l k k1 k2 k3 :
    reports pid st k k1 -> WIFSTOPPED st = true -> fork_stop st = false ->
    options_at pid clone_options st k1 k2 -> request_ok PTRACE_SYSCALL pid 0 k2 k3 ->
    family pid l k3 -> family pid (ChildStop st :: l) k
| family_fork st msg l k k1 k2 k3 :
    reports pid st k k1 -> WIFSTOPPED st = true -> fork_stop st = true -> 0 < msg < 2 ^ 31 ->
    event_message pid msg k1 k2 -> request_ok PTRACE_SYSCALL pid 0 k2 k3 ->
    family pid l k3 -> family pid (ForkEvent st msg :: l) k.

(** What the test remembers of a life. *)
Definition remember (p : Z * Z) (ev : family_event) : Z * Z :=
  match ev with
  | ForkEvent _ msg => (msg, p.2)
  | OtherStop who _ => (p.1, who)
  | _ => p
  end.

Context (Hsetup : PINK_HAVE_SETUP cfg = true) (Hmsg : PINK_HAVE_GETEVENTMSG cfg = true).
Context (Hfuel : (0 < fuel)%nat).

Lemma wp_geteventmsg fr pid msg (k k' : K) (Q : Z -> K -> Prop) :
  0 <= msg < 2 ^ 31 -> event_message pid msg k k' -> Q msg k' ->
  wp fr k (trace_geteventmsg_or_kill pid 0) Q.
Proof.
  intros Hm [r Hr] HQ. unfold trace_geteventmsg_or_kill. apply wp_bind, wp_lib.
  unfold pink_trace_geteventmsg, ptrace_out. rewrite Hmsg.
  eapply (lib_wp_run k _ (0, DBuf (word_bytes cfg msg)) k').
  { intros e. exists 0. pose proof (pink_ptrace_cases _ _ _ _ (CState k e) _ _ _ Hr) as Hc.
    by rewrite (cbind_run _ _ _ _ _ Hc). }
  cbn beta iota. apply wp_bind, wp_ret. rewrite bytes_word_bytes.
  assert (Hw : to_ulong cfg (to_long cfg msg) = msg).
  { assert (32 <= bits_long cfg) by (unfold bits_long; destruct (sizeof_long_cases cfg); lia).
    unfold to_ulong, to_long.
    assert (2 ^ 31 <= 2 ^ (bits_long cfg - 1)) by (apply Z.pow_le_mono_r; lia).
    assert (2 ^ (bits_long cfg - 1) <= 2 ^ bits_long cfg) by (apply Z.pow_le_mono_r; lia).
    rewrite wraps_small, wrapu_small by lia. done. }
  rewrite Hw. apply wp_errno. intros e. by apply wp_bind, wp_print, wp_bind, wp_ret, wp_ret.
Qed.

Lemma wp_event_decide fr st (k : K) (Q : Z -> K -> Prop) :
  Q (pink_event_decide st) k -> wp fr k (event_decide_and_print st) Q.
Proof. intros HQ. by apply wp_bind, wp_print, wp_ret. Qed.

Lemma wp_resume_other fr who (k k' : K) (Q : Z -> K -> Prop) :
  request_ok PTRACE_CONT who 0 k k' -> Q 0 k' -> wp fr k (on_lib (pink_trace_resume who 0)) Q.
Proof. intros H HQ. by apply wp_lib, (lib_request PTRACE_CONT who 0 _ _ _ H). Qed.

Lemma wp_at_stop fr pid options st (k k' : K) (Q : unit -> K -> Prop) :
  options_supported cfg options = true -> options_at pid options st k k' -> Q tt k' ->
  wp fr k (if WSTOPSIG st =? SIGSTOP then trace_setup_or_kill pid options else cret tt) Q.
Proof.
  unfold options_at. intros Ho H HQ. destruct (WSTOPSIG st =? SIGSTOP); [by eapply wp_setup_options|].
  subst k'. by apply wp_ret.
Qed.

(** From the wait to the code for a stop, in a turn of the loop. *)
Ltac clone_stop Hw Hr Hst :=
  let He := fresh in let Hs := fresh in
  destruct (stopped_status _ Hst) as [He Hs];
  apply wp_bind, wp_set_errno; apply wp_bind; (eapply wp_wait; [done | exact Hw | done | exact Hr |]); cbn beta iota zeta;
  (lazymatch type of Hst with
   | WIFSTOPPED ?st = true => change (default (indet "status") (Some st)) with st
   end);
  rewrite (proj2 (Z.leb_gt _ 0) Hw); apply wp_bind, wp_ret; cbn beta iota; rewrite He, Hs, Hst;
  apply wp_bind, wp_ret, wp_bind, wp_ret.

(** The turns of the loop over a family. *)
Lemma wp_family fr c pid l n e f (k : K) :
  options_supported cfg clone_options = true -> f_pgid fr = pid -> 0 < pid ->
  family pid l k -> (length l < n)%nat ->
  wp fr k (clone_loop c n pid clone_options e f) (fun p _ => p = foldl remember (e, f) l).
Proof.
  intros Ho Hg Hp Hl. revert n c e f.
  induction Hl as [k k' Hnone | who l k k1 Hw Hr Hl IH | who st l k k1 k2 Hw Hne Hr Hst Hq Hl IH
    | st l k k1 k2 k3 Hr Hst Hfork Hopt Hq Hl IH | st msg l k k1 k2 k3 Hr Hst Hfork Hm Hev Hq Hl IH];
    intros [|n] c e f Hn; simpl in Hn; try lia; cbn [clone_loop].
  - intros er o. rewrite (cbind_run _ _ _ tt (world fr k 0 o)) by done. set (here := Site _ _ _).
    destruct (wait_none fr c here pid k k' 0 o Hg Hfuel Hnone) as (st & o' & Hst).
    rewrite (cbind_run _ _ _ _ _ Hst). exists (e, f), k', ECHILD, o'. by split.
  - apply wp_bind, wp_set_errno. apply wp_bind. eapply wp_wait; [done | exact Hw | done | exact Hr |]. cbn beta iota zeta.
    rewrite (proj2 (Z.leb_gt who 0)) by lia. apply wp_bind, wp_ret. cbn beta iota.
    change (default (indet "status") (Some 0)) with 0. cbn [WIFEXITED WTERMSIG WEXITSTATUS Z.land Z.eqb Z.shiftr Z.shiftl negb].
    apply wp_bind, wp_ret. apply IH. lia.
  - clone_stop Hw Hr Hst. rewrite (proj2 (Z.eqb_neq who pid)) by done. cbn [negb].
    apply wp_bind. eapply wp_resume_other; [exact Hq|]. cbn [Z.ltb Z.compare].
    apply wp_bind, wp_ret. apply IH. lia.
  - clone_stop Hp Hr Hst. rewrite Z.eqb_refl. cbn [negb].
    apply (wp_seq _ _ _ _ (fun v k' => v = e /\ k' = k2)).
    { unfold options_at in Hopt. unfold fork_stop in Hfork.
      destruct (WSTOPSIG st =? SIGSTOP).
      - apply wp_bind. eapply wp_setup_options; [done | done | exact Hopt |]. by apply wp_ret.
      - subst k2. destruct (WSTOPSIG st =? SIGTRAP); [|by apply wp_ret].
        apply wp_bind, wp_event_decide. cbn [andb] in Hfork. rewrite Hfork. by apply wp_ret. }
    intros _ _ [-> ->]. apply wp_bind. eapply wp_trace_syscall; [exact Hq|]. apply IH. lia.
  - clone_stop Hp Hr Hst. rewrite Z.eqb_refl. cbn [negb].
    apply andb_prop in Hfork as [Htrap Hev']. apply Z.eqb_eq in Htrap. rewrite Htrap. cbn [Z.eqb Pos.eqb].
    apply wp_bind, wp_bind, wp_event_decide. rewrite Hev'. apply wp_bind.
    eapply wp_geteventmsg; [|exact Hev|]; [lia|]. unfold to_int. rewrite wraps_small by lia.
    apply wp_ret, wp_bind. eapply wp_trace_syscall; [exact Hq|]. apply IH. lia.
Qed.

(** What is remembered, in terms of what occurs in the life. *)
Definition announces (ev : family_event) : bool := match ev with ForkEvent _ _ => true | _ => false end.
Definition other_stops (ev : family_event) : bool := match ev with OtherStop _ _ => true | _ => false end.

Lemma remember_all l g p :
  (forall st msg, ForkEvent st msg ∈ l -> msg = g) -> (forall who st, OtherStop who st ∈ l -> who = g) ->
  foldl remember p l = (if existsb announces l then g else p.1, if existsb other_stops l then g else p.2).
Proof.
  revert p. induction l as [|ev l IH]; intros p Hf Ho; [by destruct p|]. cbn [foldl existsb].
  rewrite IH by (intros; eauto using list_elem_of_further).
  destruct ev as [who|who st|st|st msg]; simpl; try done.
  - rewrite (Ho who st) by (left; done). by destruct (existsb other_stops l).
  - rewrite (Hf st msg) by (left; done). by destruct (existsb announces l).
Qed.

Lemma existsb_elem {A} (f : A -> bool) (l : list A) : existsb f l = true <-> exists x, x ∈ l /\ f x = true.
Proof. rewrite existsb_exists. setoid_rewrite list_elem_of_In. done. Qed.

Lemma family_fork_pos pid l k st msg : family pid l k -> ForkEvent st msg ∈ l -> 0 < msg.
Proof. induction 1; intros Hin; inversion Hin; subst; eauto; lia. Qed.

(** C19. The test of the option for fork(2) tells every life of the family: when the child
    announces its own child and that process is the one that stops, the test passes, in
    whatever order the event, the stop, the ends of the two processes and the other stops
    are reported; when there is no announcement or no other process stops, it records
    exactly one failure. *)
Theorem test_trace_clone_verdict fr pid (k0 k : K) l g :
  options_supported cfg clone_options = true -> counts_more fr ->
  forked pid k0 k -> family pid l k -> (length l < fuel)%nat ->
  (forall st msg, ForkEvent st msg ∈ l -> msg = g) -> (forall who st, OtherStop who st ∈ l -> who = g) ->
  ((exists st, ForkEvent st g ∈ l) -> (exists st, OtherStop g st ∈ l) -> passes fr k0 test_trace_clone) /\
  (~ (exists st, ForkEvent st g ∈ l) \/ ~ (exists st, OtherStop g st ∈ l) -> fails fr k0 test_trace_clone).
Proof.
  intros Ho Hc Hfk Hl Hlen Hf Hs. assert (Hp : 0 < pid) by apply Hfk.
  pose proof (wp_family (set_group fr pid) 0 pid l fuel 0 0 k Ho eq_refl Hp Hl Hlen) as Hw.
  rewrite (remember_all l g) in Hw by done.
  pose proof (fun b => fork_verdict fr pid k0 k
    (fun _ => and_then trace_me_and_stop (let! r := on_lib fork in cret (Some (Exited (if r <? 0 then 2 else 0)))))
    (fun pid => clone_loop 0 fuel pid clone_options 0 0)
    (fun _ '(e, f) => (if negb (e =? 0) && (e =? f) then cret tt
       else fail_verbose "Test for PINK_TRACE_OPTION_CLONE failed" "test_trace_clone" 99) ;; cret None)
    _ "Test for PINK_TRACE_OPTION_CLONE failed" "test_trace_clone" 99 b Hfk Hc Hw) as Hv.
  assert (Ha : existsb announces l = true <-> exists st, ForkEvent st g ∈ l).
  { rewrite existsb_elem. split; [intros ([] & Hin & [=])|intros [st Hin]; eauto].
    pose proof (Hf _ _ Hin) as ->. eauto. }
  assert (Hb : existsb other_stops l = true <-> exists st, OtherStop g st ∈ l).
  { rewrite existsb_elem. split; [intros ([] & Hin & [=])|intros [st Hin]; eauto].
    pose proof (Hs _ _ Hin) as ->. eauto. }
  split.
  - intros H1 H2. destruct H1 as [st H1]. apply (Hv true). intros _ ->.
    rewrite (proj2 Ha), (proj2 Hb) by eauto.
    pose proof (family_fork_pos _ _ _ _ _ Hl H1). by rewrite (proj2 (Z.eqb_neq g 0)), Z.eqb_refl by lia.
  - intros H. apply (Hv false). intros _ ->. rewrite <- Ha, <- Hb in H.
    destruct (existsb announces l) eqn:E1; [|done].
    destruct H as [H|H]; [done|]. destruct (existsb other_stops l); [done|].
    destruct (proj1 Ha eq_refl) as [st H1]. pose proof (family_fork_pos _ _ _ _ _ Hl H1).
    cbn [fst snd]. by rewrite (proj2 (Z.eqb_neq g 0)) by lia.
Qed.

(** ** One child *)

(** The child goes through these stops, and is resumed after each. *)
Inductive runs_to (pid options : Z) : list Z -> K -> K -> Prop :=
| runs_here k : runs_to pid options [] k k
| runs_on st l k k1 k2 k3 k4 :
    reports pid st k k1 -> WIFSTOPPED st = true -> options_at pid options st k1 k2 ->
    request_ok PTRACE_SYSCALL pid 0 k2 k3 -> runs_to pid options l k3 k4 ->
    runs_to pid options (st :: l) k k4.

(** The wait reports that the child has exited with status 0; or that there is none. *)
Definition exits (pid : Z) (k k' : K) : Prop :=
  exists st, reports pid st k k' /\ WIFEXITED st = true /\ WEXITSTATUS st = 0.

Lemma wp_exits fr here c pid cp ae stop n lc (k k' : K) (Q : locals -> K -> Prop) :
  f_pgid fr = pid -> 0 < pid -> exits pid k k' -> Q (ae lc) k' ->
  wp fr k (test_loop here c (S n) pid cp ae stop lc) Q.
Proof.
  intros Hg Hp (st & Hr & Hx & Hz) HQ; cbn [test_loop].
  apply wp_bind. eapply wp_wait; [done | exact Hp | done | exact Hr |]. cbn beta iota zeta.
  change (default (indet "status") (Some st)) with st. rewrite (proj2 (Z.leb_gt pid 0)) by lia.
  apply wp_bind, wp_ret. cbn beta iota. apply wp_bind. unfold check_exit_code_or_fail.
  rewrite Hx, Hz. apply wp_ret. by apply wp_ret.
Qed.

Definition ends (pid : Z) (k : K) : Prop := exists k', none_left pid k k' \/ exits pid k k'.

Lemma wp_ends fr here c pid cp stop n lc (k : K) (Q : locals -> K -> Prop) :
  f_pgid fr = pid -> 0 < pid -> ends pid k -> (forall k', Q lc k') ->
  wp fr k (test_loop here c (S n) pid cp id stop lc) Q.
Proof.
  intros Hg Hp (k' & [Hn|Hx]) HQ; [|by eapply wp_exits].
  intros e o. destruct (wait_none fr c here pid k k' e o Hg Hfuel Hn) as (st & o' & Hst). cbn [test_loop].
  rewrite (cbind_run _ _ _ _ _ Hst). exists lc, k', ECHILD, o'. by split.
Qed.

(** A test whose code for a stop sets the options, and then goes on with [next], as long
    as its variables are in [R]. *)
Definition goes_on (fr : frame) (pid options : Z) (stop : Z -> locals -> comp (tests K) (bool * locals))
    (R : locals -> Prop) (next : locals -> Z -> locals) (st : Z) : Prop :=
  forall lc (k k' : K), R lc -> options_at pid options st k k' -> R (next lc st) /\
    wp fr k (stop st lc) (fun p k2 => p = (false, next lc st) /\ k2 = k').

Lemma wp_runs fr here c pid cp ae stop R next options l n lc (k k' : K) Q :
  f_pgid fr = pid -> 0 < pid -> runs_to pid options l k k' -> R lc ->
  Forall (goes_on fr pid options stop R next) l ->
  (forall c, wp fr k' (test_loop here c n pid cp ae stop (foldl next lc l)) Q) ->
  wp fr k (test_loop here c (length l + n) pid cp ae stop lc) Q.
Proof.
  intros Hg Hp Hl. revert lc c.
  induction Hl as [k|st l k k1 k2 k3 k4 Hr Hst Ho Hq Hl IH]; intros lc c HR Hall HQ; [apply HQ|].
  inversion Hall as [|? ? Hst' Hall']; subst. cbn [length Nat.add].
  destruct (Hst' lc k1 k2 HR Ho) as [HR' Hw].
  eapply wp_turn; [reflexivity | exact Hp | done | exact Hr | done |].
  eapply wp_mono; [exact Hw|]. intros _ _ [-> ->]. cbn [fst snd]. exists k3. split; [done|].
  by apply IH.
Qed.

(** The tests that keep no register set. *)
Lemma follow_verdict fr here pid (k0 k : K) (child : Z -> comp (tests K) (option outcome))
    (stop : Z -> Z -> locals -> comp (tests K) (bool * locals)) message function line (b : bool) :
  forked pid k0 k -> counts_more fr ->
  wp (set_group fr pid) k (test_loop here 0 fuel pid id id (stop pid) (start_locals None)) (fun l _ => it_worked l = b) ->
  let test := (let! pid := fork_assert in
    if pid =? 0 then child pid else follow_only here pid (stop pid) (fail_verbose message function line)) in
  if b then passes fr k0 test else fails fr k0 test.
Proof.
  intros Hf Hc Hw. apply (fork_verdict fr pid k0 k child
    (fun pid => test_loop here 0 fuel pid id id (stop pid) (start_locals None))
    (fun _ l => (if it_worked l then cret tt else fail_verbose message function line) ;; cret None)
    _ message function line b Hf Hc Hw).
  by intros l ->.
Qed.

(** The stop for a system call, marked by the option. *)
Definition sysgood_stop (st : Z) : bool := WSTOPSIG st =? Z.lor SIGTRAP 0x80.

(** The test of the option for system call stops tells the lives of a child apart: it
    passes when one of its stops is marked, and records one failure when none is. *)
Theorem test_trace_sysgood_verdict fr pid (k0 k k1 : K) l :
  options_supported cfg PINK_TRACE_OPTION_SYSGOOD = true -> counts_more fr -> forked pid k0 k ->
  runs_to pid PINK_TRACE_OPTION_SYSGOOD l k k1 -> ends pid k1 -> (length l < fuel)%nat ->
  if existsb sysgood_stop l then passes fr k0 test_trace_sysgood else fails fr k0 test_trace_sysgood.
Proof.
  intros Ho Hc Hfk Hl He Hlen. assert (Hp : 0 < pid) by apply Hfk.
  apply (follow_verdict fr _ pid k0 k (fun _ => and_then trace_me_and_stop (cret (Some (Exited 0))))
    sysgood_at_stop "Test for PINK_TRACE_OPTION_SYSGOOD failed" "test_trace_sysgood" 149 _ Hfk Hc).
  replace fuel with (length l + S (pred (fuel - length l)))%nat by lia.
  eapply (wp_runs _ _ _ _ _ _ _ (fun _ => True) (fun lc st => if sysgood_stop st then set_worked lc else lc));
    [done | done | exact Hl | done | |].
  { apply Forall_true. intros st lc k2 k2' _ Hopt. split; [done|]. apply wp_bind. eapply wp_at_stop; [done | exact Hopt |].
    by apply wp_ret. }
  intros c. apply wp_ends; [done | done | done |]. intros _. clear.
  assert (H : forall lc, it_worked (foldl (fun lc st => if sysgood_stop st then set_worked lc else lc) lc l)
                         = it_worked lc || existsb sysgood_stop l).
  { induction l as [|st l IH]; intros lc; simpl; [by rewrite orb_false_r|]. rewrite IH.
    by destruct (sysgood_stop st), (it_worked lc). }
  apply H.
Qed.

(** The stop for the event of execve(2). *)
Definition exec_stop (st : Z) : bool :=
  (WSTOPSIG st =? SIGTRAP) && (pink_event_decide st =? event_code PINK_EVENT_EXEC).

Lemma exec_goes_on fr pid st :
  options_supported cfg PINK_TRACE_OPTION_EXEC = true -> exec_stop st = false ->
  goes_on fr pid PINK_TRACE_OPTION_EXEC (exec_at_stop pid) (fun _ => True) (fun lc _ => lc) st.
Proof.
  intros Ho Hst lc k k' _ Hopt. split; [done|]. apply wp_bind. eapply wp_at_stop; [done | exact Hopt |].
  unfold exec_stop in Hst. destruct (WSTOPSIG st =? SIGTRAP); [|by apply wp_ret].
  apply wp_bind, wp_event_decide. cbn [andb] in Hst. rewrite Hst. by apply wp_ret.
Qed.

(** The test of the option for execve(2): after whatever other stops, the event ends the
    test, which passes when the message of the event is the child's number or the kernel
    is older than 3.0, where the message is not looked at; a child that ends without the
    event makes it record one failure. *)
Theorem test_trace_exec_verdict fr pid (k0 k k1 : K) l :
  options_supported cfg PINK_TRACE_OPTION_EXEC = true -> counts_more fr -> forked pid k0 k ->
  runs_to pid PINK_TRACE_OPTION_EXEC l k k1 -> Forall (fun st => exec_stop st = false) l ->
  (length l < fuel)%nat ->
  (forall st k2, reports pid st k1 k2 -> WIFSTOPPED st = true -> exec_stop st = true ->
   f_release fr < KERNEL_VERSION 3 0 0 \/ (pid < 2 ^ 31 /\ exists k3, event_message pid pid k2 k3) ->
   passes fr k0 test_trace_exec) /\
  (ends pid k1 -> fails fr k0 test_trace_exec).
Proof.
  intros Ho Hc Hfk Hl Hno Hlen. assert (Hp : 0 < pid) by apply Hfk.
  pose proof (fun b => follow_verdict fr (Site (FILE "trace-TEST.c") "test_trace_exec" 172) pid k0 k
    (fun _ => and_then trace_me_and_stop (and_then (execve "/bin/true" []) (cret (Some (Exited 1)))))
    exec_at_stop "Test for PINK_TRACE_OPTION_EXEC failed" "test_trace_exec" 203 b Hfk Hc) as Hv.
  assert (Hfl : fuel = (length l + S (pred (fuel - length l)))%nat) by lia.
  assert (Hsame : foldl (fun (lc : locals) (_ : Z) => lc) (start_locals None) l = start_locals None)
    by (clear; generalize (start_locals None); induction l; simpl; auto).
  split.
  - intros st k2 Hr Hst Hex Hev. apply (Hv true). rewrite Hfl.
    eapply (wp_runs _ _ _ _ _ _ _ (fun _ => True)); [done | done | exact Hl | done | by eapply Forall_impl; [exact Hno|]; intros; apply exec_goes_on |]. rewrite Hsame. intros c.
    eapply wp_turn; [done | done | done | exact Hr | done |].
    apply andb_prop in Hex as [Htrap Hev']. apply Z.eqb_eq in Htrap.
    unfold exec_at_stop. rewrite Htrap. cbn [Z.eqb Pos.eqb].
    apply wp_bind, wp_ret, wp_bind, wp_event_decide. rewrite Hev'. intros e o. unfold exec_event.
    rewrite (cbind_run get_release _ _ (f_release fr) (world (set_group fr pid) k2 e o)) by done.
    destruct (Z.ltb_spec (f_release fr) (KERNEL_VERSION 3 0 0)) as [|Hge]; revert e o.
    + by apply wp_worked.
    + destruct Hev as [|(Hp31 & k3 & Hm)]; [lia|]. apply wp_bind.
      eapply wp_geteventmsg; [|exact Hm|]; [lia|].
      assert (Hi : to_int pid = pid) by (apply wraps_small; lia). rewrite Hi, Z.eqb_refl. cbn [negb].
      apply wp_bind, wp_ret. by apply wp_worked.
  - intros He. apply (Hv false). rewrite Hfl.
    eapply (wp_runs _ _ _ _ _ _ _ (fun _ => True)); [done | done | exact Hl | done | by eapply Forall_impl; [exact Hno|]; intros; apply exec_goes_on |]. rewrite Hsame. intros c.
    by apply wp_ends.
Qed.

End Trace.

(** ** Witnesses

    A kernel that reports given statuses and accepts every request. *)

Record fkernel : Type := FKernel { fk_pid : Z; fk_rest : list (Z * Z); fk_msg : Z }.

Module Families.
#[export] Instance ops : KernelOps fkernel := {|
  sys_ptrace := fun req _ _ d k =>
    match req with
    | PTRACE_GETEVENTMSG => (SysRet 0 None, DBuf (word_bytes x86_64_linux (fk_msg k)), k)
    | _ => (SysRet 0 None, d, k)
    end;
  sys_process_vm_readv := fun _ _ _ k => (SysRet (-1) (Some ESRCH), [], k);
  sys_process_vm_writev := fun _ _ _ k => (SysRet (-1) (Some ESRCH), k);
  sys_tgkill := fun _ _ _ k => (SysRet 0 None, k);
  sys_tkill := fun _ _ k => (SysRet 0 None, k);
  sys_kill := fun _ _ k => (SysRet 0 None, k);
|}.
#[export] Instance procs : ProcOps fkernel := {|
  sys_fork := fun k => (SysRet (fk_pid k) None, k);
  sys_waitpid := fun _ k =>
    match fk_rest k with
    | (who, st) :: l => (SysRet who None, Some st, FKernel (fk_pid k) l (fk_msg k))
    | [] => (SysRet (-1) (Some ECHILD), None, k)
    end;
  sys_getpid := fun k => fk_pid k;
  sys_execvp := fun _ k => inr k;
|}.
#[export] Instance check_ops : CheckOps fkernel := {|
  sys_setpgid := fun _ _ k => (SysRet 0 None, k);
  sys_call := fun _ _ k => (SysRet (-1) (Some ENOSYS), k);
  sys_execve := fun _ _ k => inr k;
  sys_uname := fun k => (SysRet 0 None, "5.10.0", k);
|}.
#[export] Instance errno_law : PtraceErrno fkernel.
Proof. split. intros req pid a d k r d' k' e H He. destruct req; simpl in H; by simplify_eq. Qed.
End Families.

Section Witnesses.
Import TestSession.Demo TestTrace.Families.

(** The child 7 stops and forks 8; the stop of 8 is reported before the event; then both
    end. *)
Definition fork_life : list (Z * Z) :=
  [(7, stop_status); (8, stop_status); (7, 0x1057f); (7, 0x057f); (8, 0); (7, 0)].
Definition fork_events : list family_event :=
  [ChildStop stop_status; OtherStop 8 stop_status; ForkEvent 0x1057f 8; ChildStop 0x057f; Ended 8; Ended 7].

Lemma fork_life_family : family (K := fkernel) 7 fork_events (FKernel 7 fork_life 8).
Proof.
  eapply family_stop; [reflexivity | reflexivity | reflexivity | by exists 0 | by exists 0 |].
  eapply family_other; [lia | lia | reflexivity | reflexivity | by exists 0 |].
  eapply family_fork; [reflexivity | reflexivity | reflexivity | lia | by exists 0 | by exists 0 |].
  eapply family_stop; [reflexivity | reflexivity | reflexivity | reflexivity | by exists 0 |].
  eapply family_ended; [lia | reflexivity |]. eapply family_ended; [lia | reflexivity |].
  eapply family_gone. by exists None.
Qed.

Lemma test_trace_clone_verdict_witness :
  passes (round 0) (FKernel 7 fork_life 8) test_trace_clone.
Proof.
  destruct (test_trace_clone_verdict (K := fkernel) (St := setting) eq_refl eq_refl ltac:(simpl; lia)
    (round 0) 7 (FKernel 7 fork_life 8) (FKernel 7 fork_life 8) fork_events 8) as [H _];
    [reflexivity | by vm_compute | split; [lia|]; by eexists | apply fork_life_family | simpl; lia
    | intros ? ? Hin; repeat (apply elem_of_cons in Hin as [?|Hin]; [by simplify_eq|]); by apply elem_of_nil in Hin ..|].
  apply H; [exists 0x1057f | exists stop_status]; unfold fork_events; rewrite !elem_of_cons; auto.
Defined.

(** The child stops, and then twice for system calls. *)
Lemma test_trace_sysgood_verdict_witness :
  passes (round 0) (FKernel 7 [(7, stop_status); (7, syscall_status); (7, 0)] 0) test_trace_sysgood.
Proof.
  refine (test_trace_sysgood_verdict (K := fkernel) (St := setting) eq_refl ltac:(simpl; lia)
    (round 0) 7 _ _ (FKernel 7 [(7, 0)] 0) [stop_status; syscall_status] _ _ _ _ _ _).
  - reflexivity.
  - by vm_compute.
  - split; [lia|]. by eexists.
  - eapply runs_on; [reflexivity | reflexivity | by exists 0 | by exists 0 |].
    eapply runs_on; [reflexivity | reflexivity | reflexivity | by exists 0 |]. apply runs_here.
  - eexists. right. by exists 0.
  - simpl. lia.
Defined.

(** The child stops, and then for the event of execve(2), with its own number as the
    message; and another one that ends at once. *)
Lemma test_trace_exec_verdict_witness :
  passes (Frame sea_init 0 (-1) (KERNEL_VERSION 5 10 0))
    (FKernel 7 [(7, stop_status); (7, 0x4057f)] 7) test_trace_exec /\
  fails (round 0) (FKernel 7 [(7, 0)] 7) test_trace_exec.
Proof.
  split.
  - destruct (test_trace_exec_verdict (K := fkernel) (St := setting) eq_refl eq_refl ltac:(simpl; lia)
      (Frame sea_init 0 (-1) (KERNEL_VERSION 5 10 0)) 7
      (FKernel 7 [(7, stop_status); (7, 0x4057f)] 7) (FKernel 7 [(7, stop_status); (7, 0x4057f)] 7)
      (FKernel 7 [(7, 0x4057f)] 7) [stop_status]) as [H _];
      [reflexivity | by vm_compute | split; [lia|]; by eexists | | by repeat constructor | simpl; lia |].
    + eapply runs_on; [reflexivity | reflexivity | by exists 0 | by exists 0 | apply runs_here].
    + eapply H; [reflexivity | reflexivity | reflexivity |]. right. split; [lia|]. by eexists _, 0.
  - destruct (test_trace_exec_verdict (K := fkernel) (St := setting) eq_refl eq_refl ltac:(simpl; lia)
      (round 0) 7 (FKernel 7 [(7, 0)] 7) (FKernel 7 [(7, 0)] 7) (FKernel 7 [(7, 0)] 7) []) as [_ H];
      [reflexivity | by vm_compute | split; [lia|]; by eexists | apply runs_here | by constructor | simpl; lia |].
    apply H. eexists. right. by exists 0.
Defined.

End Witnesses.
