(* ===== verification/TestWriteProps.v ===== *)
(** * The tests of write-TEST.c that write return values and memory, on a lawful kernel *)

From Stdlib Require Import ZArith Lia String Ascii.
From stdpp Require Import base list numbers strings gmap.
From coqutil Require Import Byte Word.LittleEndianList.
From S2P Require Import Prelude Config Kernel Layout Sim Trace Vm VmRead VmCross Name Regset Read ReadVm Write WriteVm Registers Socket Pipe Tracer Script Seatest Check TestRead TestWrite TestSession TestProps TestTrace.
Local Open Scope string_scope.
Local Open Scope list_scope.
Local Open Scope Z_scope.
Local Open Scope c_scope.

Section Writes.
Context {K : Type} `{!KernelOps K} `{!ProcOps K} `{!CheckOps K} `{!TraceeView K} `{!RegView K}.
Context `{!PtraceErrno K} {St : Setting} {Rd : Ready} `{!PtraceRegset K} `{!X86User cfg K}.

#[local] Instance write_build : X86Build cfg := ready_build.

(** ** Return values *)

(** What the two rounds write: the value, the error, and the register's new content. *)
Definition retval_round (i : Z) : Z * Z * Z :=
  if i =? 0 then (0xdead, 0, 0xdead) else (-1, EPERM, - EPERM).

Lemma wp_write_retval fr (k : K) pid i r (Q : pink_regset -> K -> Prop) :
  native_stop k pid ->
  let '(retval, error, v) := retval_round i in
  Q r (poked k pid RAX v) -> wp fr k (write_retval_or_kill pid r retval error) Q.
Proof.
  intros (Hs & _ & Hl). destruct (retval_round i) as [[retval error] v] eqn:Hround. intros HQ.
  apply wp_bind, wp_lib. intros e.
  assert (Hv : (if error =? 0 then Some retval else int_value (- error)) = Some v)
    by (unfold retval_round in Hround; destruct (i =? 0); by simplify_eq).
  destruct (write_retval_run cfg k e pid r retval error v Hs Hl Hv) as (k' & Hw & _).
  eexists _, _, _. split; [exact Hw|]. cbn beta iota. apply wp_bind, wp_ret, wp_bind, wp_print, wp_ret.
  assert (k' = poked k pid RAX v) as ->; [|done].
  unfold pink_write_retval, retval_or_error in Hw. rewrite (build_arch (c := cfg)) in Hw.
  assert (Hw' : exists rc e', pink_write_word_user cfg pid (8 * Z.of_nat RAX) v (CState k e)
                              = Ret rc (CState k' e')).
  { destruct (error =? 0); cbn [negb] in Hw; [|rewrite (cbind_checked _ _ _ _ Hv) in Hw];
      unfold cbind, cret in Hw; simplify_eq; destruct (pink_write_word_user _ _ _ _ _); simplify_eq; eauto. }
  destruct Hw' as (rc & e' & Hw'). eapply word_user_poked; [|exact Hw']. unfold RAX. lia.
Qed.

(** Once the value is written, stops change nothing more. *)
Lemma retval_goes_on fr pid retval error st :
  goes_on fr pid test_options (retval_at_stop pid retval error) (fun l => write_done l = true)
    (fun lc _ => lc) st.
Proof.
  intros lc k k' Hd Hopt. split; [done|]. unfold retval_at_stop, options_at in *. rewrite Hd. cbn [negb andb].
  destruct (WSTOPSIG st =? SIGSTOP); [|subst k'; by apply wp_ret].
  apply wp_bind. eapply wp_trace_setup; [apply ready_setup | apply ready_sysgood | exact Hopt |].
  by apply wp_ret.
Qed.

Lemma foldl_const {A B} (l : list B) (a : A) : foldl (fun x _ => x) a l = a.
Proof. induction l; simpl; auto. Qed.

(** The loop from the entry of the call on. *)
Lemma wp_retval_loop fr here c pid (k4 k k2 k3 k5 k6 : K) l i lc :
  f_pgid fr = pid -> 0 < pid -> has_regset lc -> insyscall lc = false -> write_done lc = false ->
  reports pid syscall_status k4 k -> next_stop pid k k2 -> native_stop k2 pid ->
  let '(retval, error, v) := retval_round i in
  request_ok PTRACE_SYSCALL pid 0 (poked k2 pid RAX v) k3 ->
  runs_to pid test_options l k3 k5 -> exits pid k5 k6 -> (length l + 4 < fuel)%nat ->
  wp fr k4 (test_loop here c (pred fuel) pid id set_worked (retval_at_stop pid retval error) lc)
    (fun l _ => it_worked l = true).
Proof.
  intros Hg Hp Hreg Hin Hd Hr (k1 & Hq1 & Hr2) Hn. pose proof (wp_write_retval fr k2 pid i) as Hw.
  destruct (retval_round i) as [[retval error] v]. intros Hq Hl Hx Hlen.
  assert (Hfu : (0 < fuel)%nat) by lia.
  replace (pred fuel) with (S (S (length l + S (fuel - length l - 4)))) by lia.
  eapply wp_turn; [done | done | done | exact Hr | done |].
  unfold retval_at_stop at 1. rewrite Hd, Hin. apply wp_ret. cbn [fst snd]. exists k1. split; [done|].
  eapply wp_turn; [done | done | done | exact Hr2 | done |].
  unfold retval_at_stop at 1. cbn [write_done insyscall set_insyscall]. rewrite Hd.
  apply wp_bind, wp_fill; [done | exact Hreg |]. intros r Hf. cbn beta iota. apply wp_bind, Hw; [done|].
  apply wp_ret. cbn [fst snd]. exists k3. split; [done|].
  eapply (wp_runs Hfu _ _ _ _ _ _ _ (fun l => write_done l = true)); [done | done | exact Hl | done | |].
  { apply Forall_true, retval_goes_on. }
  intros c'. rewrite foldl_const. by eapply wp_exits.
Qed.

(** The test of writing return values passes on 64-bit x86: at the exit of the child's
    getpid(2) the register gets 0xdead in the first round and -EPERM in the second one;
    when the child, resumed with that register, goes through whatever stops and exits with
    status 0, the test passes. *)
Theorem test_write_retval_passes fr pid (k0 k k2 k3 k5 k6 : K) l :
  f_i fr = 0 \/ f_i fr = 1 -> begins pid k0 k -> next_stop pid k k2 -> native_stop k2 pid ->
  request_ok PTRACE_SYSCALL pid 0 (poked k2 pid RAX (retval_round (f_i fr)).2) k3 ->
  runs_to pid test_options l k3 k5 -> exits pid k5 k6 -> (length l + 4 < fuel)%nat ->
  passes fr k0 test_write_retval.
Proof.
  intros Hi Hb Hns Hn Hq Hl Hx Hlen. assert (Hp : 0 < pid) by apply Hb.
  apply passes_get_i, (passes_lookup _ _ _ _ 39); [by vm_compute | done |].
  pose proof (fun here c k4 Hr => wp_retval_loop (set_group fr pid) here c pid k4 k k2 k3 k5 k6 l (f_i fr)
    (start_locals (Some (pink_regset_zero cfg))) eq_refl Hp start_has_regset eq_refl eq_refl Hr Hns Hn) as Hloop.
  assert (Hset : forall retval error k1 k2 l, request_ok PTRACE_SETOPTIONS pid PTRACE_O_TRACESYSGOOD k1 k2 ->
    wp (set_group fr pid) k1 (retval_at_stop pid retval error stop_status l) (fun p k' => p = (false, l) /\ k' = k2)).
  { intros retval error k1' k2' l' H. apply wp_bind.
    eapply wp_trace_setup; [apply ready_setup | apply ready_sysgood | exact H |]. by apply wp_ret. }
  destruct Hi as [Hi|Hi]; rewrite Hi in *; cbn [Z.eqb retval_round snd] in *.
  - apply passes_print, (passes_from fr _ pid (fun _ => id) set_worked (fun pid => retval_at_stop pid 0xdead 0)
      (fun _ => fail_verbose ("Test for reading return value of `" +:+ "good" +:+ "' failed") "test_write_retval" 207)
      (fun _ => retval_child 39 0xdead 0) k0 k); [lia | apply ready_malloc | done | apply Hset |].
    intros k4 c Hr. by apply Hloop.
  - apply passes_print, (passes_from fr _ pid (fun _ => id) set_worked (fun pid => retval_at_stop pid (-1) EPERM)
      (fun _ => fail_verbose ("Test for reading return value of `" +:+ "fail" +:+ "' failed") "test_write_retval" 207)
      (fun _ => retval_child 39 (-1) EPERM) k0 k); [lia | apply ready_malloc | done | apply Hset |].
    intros k4 c Hr. by apply Hloop.
Qed.

(** ** Memory *)

(** The kernel after the tracer has stored bytes in the child's memory with
    process_vm_writev(2). *)
Definition stored (k : K) (pid a : Z) (bs : list byte) : K := (sys_process_vm_writev pid a bs k).2.

(** The call returns with its argument registers as they were, and the memory at [a] too. *)
Definition keeps_args_and (k1 : K) (pid i : Z) (a : Z) (bs : list byte) : Prop :=
  exists k2, next_stop pid k1 k2 /\ native_stop k2 pid /\
    0 <= x86_64_r cfg (user_area k2 pid) ORIG_RAX < 2 ^ 30 /\
    task_arg cfg false (user_area k2 pid) i = a /\
    read_mem (tmem k2 pid) (to_ulong cfg a) (length bs) = Some bs.

Lemma write_data_stored `{!ProcessVm K} indet (k : K) e pid r addr src :
  PINK_HAVE_PROCESS_VM_WRITEV cfg = true -> stopped k pid -> plain_addr cfg (rs_abi r) addr ->
  (0 < length src)%nat -> is_Some (read_mem (wmem k pid) (to_ulong cfg addr) (length src)) ->
  pink_write_vm_data cfg indet pid r addr src (Z.of_nat (length src)) (CState k e)
  = Ret (Z.of_nat (length src)) (CState (stored k pid (to_ulong cfg addr) src) 0).
Proof.
  intros Hh Hs (addr' & Ha & Hu) Hl Hm. unfold pink_write_vm_data.
  rewrite (cbind_run _ _ _ tt (CState k 0)) by done.
  destruct (writev_ok k pid (to_ulong cfg addr) src Hs Hm) as (k' & Hw & _).
  unfold stored. rewrite Hw. cbn [snd]. rewrite <- Hu in Hw.
  assert (Hrun : pink_vm_cwrite cfg pid (rs_abi r) addr src (Z.of_nat (length src)) (CState k 0)
                 = Ret (Z.of_nat (length src)) (CState k' 0)).
  { unfold pink_vm_cwrite, pink_process_vm_writev. rewrite Hh, (cbind_checked _ _ _ _ Ha).
    rewrite slice_ok, drop_0, Nat2Z.id, firstn_all by lia.
    by rewrite (cbind_checked _ _ _ _ eq_refl), (process_vm_writev_run _ 0 _ _ _ _ _ _ Hw). }
  by rewrite (cbind_run _ _ _ _ _ Hrun).
Qed.

Lemma wp_write_object `{!ProcessVm K} fr (k : K) pid u r v bs (Q : unit -> K -> Prop) :
  PINK_HAVE_PROCESS_VM_WRITEV cfg = true -> stopped k pid -> x86_filled cfg false u r ->
  0 <= x86_64_r cfg u ORIG_RAX < 2 ^ 30 ->
  is_Some (read_mem (wmem k pid) (to_ulong cfg v) (length bs)) -> (0 < length bs)%nat -> Q tt (stored k pid (to_ulong cfg v) bs) ->
  wp fr k (write_vm_data_or_kill pid r v bs (Z.of_nat (length bs))) Q.
Proof.
  intros Hh Hs Hf Hnr Hm Hpos HQ.
  apply wp_bind, wp_set_errno, wp_bind, wp_lib. intros e. eexists _, _, _. split.
  { apply write_data_stored; [done | done | by eapply native_plain | done | done]. }
  rewrite (proj2 (Z.ltb_ge _ 0)), Z.ltb_irrefl by lia. apply wp_bind, wp_ret. by apply wp_print.
Qed.

Lemma wp_expect_vm_data fr (k : K) pid u r v bs line (Q : unit -> K -> Prop) :
  transfer cfg K -> stopped k pid -> x86_filled cfg false u r ->
  0 <= x86_64_r cfg u ORIG_RAX < 2 ^ 30 -> holds_arg k pid v (CObj bs) ->
  Z.of_nat (length bs) < 2 ^ 31 -> (0 < length bs)%nat -> is_Some (cstring bs) -> Q tt k ->
  wp fr k (expect_vm_data pid v r bs line) Q.
Proof.
  intros Ht Hs Hf Hnr Ho Hsm Hpos [t Hc] HQ. apply wp_bind.
  eapply wp_read_object; [done | exact Hf | done | done | done | done | done | apply length_fresh |].
  apply (wp_checked _ _ _ true); [|by apply wp_ret].
  unfold strcmp_eq. rewrite Hc. simpl. by rewrite String.eqb_refl.
Qed.

(** The test of writing memory passes on 64-bit x86 for every argument, when
    process_vm_writev(2) exists and the child's string is in writable memory: the bytes stored at the entry over the child's string are
    what the test reads at the exit, at the address that it reads there. *)
Theorem test_write_vm_data_passes `{!ProcessVm K} fr pid (k0 k : K) i :
  0 <= i < 6 -> f_i fr = i -> begins pid k0 k -> transfer cfg K ->
  PINK_HAVE_PROCESS_VM_WRITEV cfg = true ->
  entered k pid (PINK_SYSCALL_INVALID cfg) (<[Z.to_nat i := CObj (literal "pinktrace")]> other_args) ->
  let a := task_arg cfg false (user_area k pid) i in
  is_Some (read_mem (wmem k pid) (to_ulong cfg a) (length (literal "tracepink"))) ->
  keeps_args_and (stored k pid (to_ulong cfg a) (literal "tracepink")) pid i a (literal "tracepink") ->
  passes fr k0 test_write_vm_data.
Proof.
  intros Hi <- Hb Ht Hh He a Hwr (k2 & Hns & Hn2 & Hnr2 & Ha2 & Hm2).
  apply passes_get_i, (passes_two fr _ pid _ id _ _ _ k0 k Hb).
  pose proof (entered_native _ _ _ _ He) as Hn.
  pose proof (entered_arg _ _ _ _ _ _ He Hi eq_refl) as Harg. fold a in Harg.
  assert (Harch : is_aarch64 = false) by (unfold is_aarch64; by rewrite (build_arch (c := cfg))).
  rewrite Harch. cbn [insyscall start_locals negb].
  apply wp_bind, wp_fill; [done | apply start_has_regset|]. intros r Hf. cbn beta iota.
  destruct He as (Hs & _ & _ & Hr & Hnr & _).
  apply wp_bind. eapply wp_expect_syscall; [exact Hf | done..|].
  apply wp_bind. eapply wp_read_argument; [exact Hf | done |]. fold a.
  apply wp_bind. eapply wp_write_object; [done | done | exact Hf | lia | exact Hwr | simpl; lia |].
  apply wp_bind, wp_ret, wp_ret. split; [done|]. exists k2. split; [done|].
  cbn [snd insyscall set_insyscall negb].
  apply wp_bind, wp_fill; [done | by eexists; split; [|apply Hf]|]. intros r2 Hf2. cbn beta iota.
  apply wp_bind. eapply wp_read_argument; [exact Hf2 | done |]. rewrite Ha2.
  apply wp_bind. eapply wp_expect_vm_data; [done | apply Hn2 | exact Hf2 | done | | simpl; lia | simpl; lia | by eexists |].
  { destruct Harg as (Hpos & Hend & _). exact (conj Hpos (conj Hend Hm2)). }
  by apply wp_worked.
Qed.

End Writes.

(** ** Witnesses *)

Section Witnesses.
Import TestSession.Demo.

(** getpid(2) at its entry and its exit, exit_group(2) at its entry, and the end. *)
Definition entry_stop : sim := child [(ORIG_RAX, 39)] [].
Definition exit_stop : sim := child [(ORIG_RAX, 39); (RAX, 7)] [].
Definition group_exit : list (Z * sim) := [(syscall_status, child [(ORIG_RAX, 231)] []); (0, child [] [])].
Definition retval_script : script :=
  Script (child [] []) false
    ((stop_status, child [] []) :: (syscall_status, entry_stop) :: (syscall_status, exit_stop) :: group_exit).

Lemma test_write_retval_passes_witness : passes (round 1) retval_script test_write_retval.
Proof.
  eapply (test_write_retval_passes (round 1) 7 retval_script
    (Script entry_stop false ((syscall_status, exit_stop) :: group_exit)) (Script exit_stop false group_exit)
    _ _ _ [syscall_status]); [by right | | | by split; [split|] | | | | simpl; lia].
  - split; [done|]. eexists _, _, _, _. split_and!; [reflexivity | reflexivity | reflexivity | by exists 0 |].
    eexists. split; [by exists 0 | reflexivity].
  - eexists. split; [by exists 0 | reflexivity].
  - by exists 0.
  - eapply runs_on; [reflexivity | reflexivity | reflexivity | by exists 0 | apply runs_here].
  - exists 0. by split_and!.
Defined.

(** The child's string, and what is in its place at the exit. *)
Definition before_write : sim := invalid_child [(RSI, 0x1000); (R8, -1)] (literal "pinktrace").
Definition after_write : sim := invalid_child [(RSI, 0x1000); (R8, -1)] (literal "tracepink").

Lemma test_write_vm_data_passes_witness :
  passes (round 1) (stops [before_write; after_write]) test_write_vm_data.
Proof.
  apply (test_write_vm_data_passes (round 1) 7 (stops [before_write; after_write])
    (first_stop before_write [after_write]) 1);
    [lia | done | by apply stops_begin | apply attach | done | solve_entered | by eexists; vm_compute |].
  eexists. split; [eexists; split; [by exists 0 | reflexivity]|].
  split_and!; [by split; [split|] | by vm_compute | by vm_compute | reflexivity | by vm_compute].
Defined.

End Witnesses.
