(* ===== verification/TestRun.v ===== *)
(** * The test program as a whole: its failures, the kernel's release, and its status *)

From Stdlib Require Import ZArith Lia String Ascii.
From stdpp Require Import base list numbers strings.
From coqutil Require Import Byte Word.LittleEndianList.
From S2P Require Import Prelude Config Kernel Layout Sim Trace Vm VmRead VmCross Name Regset Read ReadVm Write WriteVm Registers Socket Pipe Tracer Script Seatest Check TestRead TestWrite TestSocket TestSession.
Local Open Scope string_scope.
Local Open Scope list_scope.
Local Open Scope Z_scope.
Local Open Scope c_scope.

Section Failures.
Context {K : Type} `{!KernelOps K} `{!ProcOps K} `{!CheckOps K} {St : Setting}.

(** Where fork(2) fails, the test program does not stop but goes on to setpgid(2) with
    -1; when that fails, as it does for a negative number, it calls kill(2) with -1 and
    SIGKILL, which is sent to every process that it may signal.  Two failures are counted
    and the test goes on with the process number -1. *)
Theorem fork_assert_failure_kills (w : tests K) (k0 k1 k2 : K) e e1 e2 :
  t_lib w = CState k0 e -> 0 <= failures w < 2 ^ 31 - 2 ->
  sys_fork k0 = (SysRet (-1) (Some e1), k1) ->
  sys_setpgid (-1) 0 k1 = (SysRet (-1) (Some e2), k2) ->
  exists w', fork_assert w = Ret (-1) w' /\
    t_lib w' = CState (sys_kill (-1) SIGKILL k2).2 (errno_after isatty_stdout e2) /\
    failures w' = failures w + 2 /\ t_pgid w' = t_pgid w.
Proof.
  intros Hw Hn Hf Hs. destruct w as [s g i pg rel]. cbn in Hw, Hn. subst s.
  set (W k e g := Tests (CState k e) g i pg rel : tests K).
  destruct (fail_verbose_errno_run (fun e => "fork (" +:+ err_text e +:+ ")") "fork_assert" 251 (W k1 e1 g))
    as (g1 & Hf1 & Hg1); [unfold failures in *; simpl in *; lia|].
  set (k3 := (sys_kill (-1) SIGKILL k2).2). set (e1' := errno_after isatty_stdout e1).
  destruct (fail_verbose_errno_run (fun e => "setpgid (" +:+ err_text e +:+ ")") "fork_assert" 264 (W k3 e2 g1))
    as (g2 & Hf2 & Hg2); [unfold failures in *; simpl in *; lia|].
  assert (H1 : on_lib fork (W k0 e g) = Ret (-1) (W k1 e1 g))
    by (unfold on_lib, fork, signal_call; simpl; by rewrite Hf).
  assert (H2 : on_lib (signal_call (sys_setpgid (-1) 0)) (W k1 e1' g1) = Ret (-1) (W k2 e2 g1))
    by (unfold on_lib, signal_call; simpl; by rewrite Hs).
  assert (exists v e3, kill (-1) SIGKILL (W k2 e2 g1) = Ret v (W k3 e3 g1)) as (v & e3 & H3).
  { unfold kill, on_lib, signal_call. simpl. unfold k3.
    destruct (sys_kill (-1) SIGKILL k2). by eexists _, _. }
  exists (W k3 (errno_after isatty_stdout e2) g2).
  split_and!; [|done | unfold failures in *; simpl in *; lia | done].
  unfold fork_assert. change (Tests (CState k0 e) g i pg rel) with (W k0 e g).
  rewrite (cbind_run _ _ _ _ _ H1). cbn [Z.eqb Pos.eqb].
  rewrite (cbind_run _ _ _ tt (W k1 e1' g1)) by exact Hf1.
  rewrite (cbind_run _ _ _ _ _ H2), (cbind_run errno_now _ _ e2 (W k2 e2 g1)) by done.
  cbn [Z.eqb]. rewrite (cbind_run _ _ _ _ _ H3), (cbind_run _ _ _ tt (W k3 e2 g1)) by done.
  by rewrite (cbind_run _ _ _ tt (W k3 (errno_after isatty_stdout e2) g2)) by exact Hf2.
Qed.

(** Printing returns. *)
Lemma print_returns pretty t (w : tests K) : exists w', (pprintf pretty t ;; cret tt) w = Ret tt w'.
Proof.
  destruct w as [[k e] g i pg rel]. destruct (pprintf_run pretty t k e g i pg rel) as (o & r & H).
  rewrite (cbind_run _ _ _ _ _ H). by eexists.
Qed.

(** A step that returns, or does not, before one that is undefined. *)
Lemma undef_after {A} (f : comp (tests K) unit) (g : unit -> comp (tests K) A) w :
  (f w = Undef \/ exists w', f w = Ret tt w') -> (forall w', g tt w' = Undef) -> cbind f g w = Undef.
Proof. intros [H|[w' H]] Hg; unfold cbind; by rewrite H. Qed.

(** A dump that is asked for more bytes than there are. *)
Lemma hex_loop_undef n caddr len off buf (w : tests K) :
  0 <= off <= Z.of_nat (length caddr) -> Z.of_nat (length caddr) < len ->
  Z.of_nat (length caddr) < 2 ^ 32 -> (Z.to_nat (Z.of_nat (length caddr) - off) < n)%nat ->
  hex_loop n caddr len off buf w = Undef.
Proof.
  intros Hoff Hlen H32. revert off buf w Hoff. induction n as [|n IH]; intros off buf w Hoff Hn; [lia|].
  cbn [hex_loop]. rewrite (proj2 (Z.ltb_lt off len)) by lia. apply undef_after.
  - destruct (off mod BYTES_IN_LINE =? 0); [|by right; eexists].
    destruct (negb (off =? 0)); [destruct (cstring buf) as [t|]; [|by left]|]; right.
    + destruct (print_returns DEBUG (tab +:+ tab +:+ t +:+ nl) w) as [w1 Hw].
      rewrite (cbind_run _ _ _ tt w1) by (rewrite (cbind_checked _ _ _ _ eq_refl); exact Hw).
      apply print_returns.
    + apply print_returns.
  - intros w1. destruct (caddr !! Z.to_nat off) as [b|] eqn:Hb; [|done].
    apply lookup_lt_Some in Hb. rewrite (cbind_checked _ _ _ _ eq_refl).
    apply undef_after; [right; apply print_returns|]. intros w2. cbn zeta.
    assert (Hu : to_uint (off + 1) = off + 1) by (apply wrapu_small; lia). rewrite Hu. apply IH; lia.
Qed.

Lemma dump_undef p addr len (w : tests K) :
  Z.of_nat (length addr) < to_ulong cfg len -> Z.of_nat (length addr) < 2 ^ 32 ->
  dump_basic_hex p addr len w = Undef.
Proof.
  intros Hl H32. unfold dump_basic_hex.
  destruct (print_returns DEBUG (tab +:+ " --8< HEXDUMP " +:+ fmt_p p +:+ " >8--" +:+ nl) w) as [w' Hw].
  rewrite (cbind_run _ _ _ _ _ Hw). unfold cbind at 1. by rewrite hex_loop_undef by lia.
Qed.

Lemma kill_save_errno_run pid sig k e g i pg rel :
  exists o, kill_save_errno pid sig (Tests (CState k e) g i pg rel : tests K)
    = Ret tt (Tests (CState (sys_kill pid sig k).2 e) (with_out o g) i pg rel).
Proof.
  unfold kill_save_errno. rewrite (cbind_run errno_now _ _ e (Tests (CState k e) g i pg rel)) by done.
  destruct (sys_kill pid sig k) as [r k'] eqn:Hk. cbn [snd].
  assert (H1 : kill pid sig (Tests (CState k e) g i pg rel)
    = Ret (sr_val r) (Tests (CState k' (errno_after r e)) g i pg rel))
    by (unfold kill, on_lib, signal_call; simpl; by rewrite Hk).
  rewrite (cbind_run _ _ _ _ _ H1). set (e1 := errno_after r e).
  rewrite (cbind_run errno_now _ _ e1 (Tests (CState k' e1) g i pg rel)) by done.
  set (t := (_ +:+ _ : string)).
  destruct (pprintf_run WARNING t k' e1 g i pg rel) as (o & n & Hp). exists o.
  unfold warning, cbind at 1 2. by rewrite Hp.
Qed.

End Failures.

Section ReadFailure.
Context {K : Type} `{!KernelOps K} `{!ProcOps K} `{!CheckOps K} `{!TraceeView K} {St : Setting}.
Context `{!PtraceErrno K} `{!PtraceMem cfg K}.

(** A word-by-word read of unmapped memory does not end as a failed test: after the
    failure is recorded the helper goes on to dump as many bytes as the read returned,
    and -1 as a size is more than any object has, so that the dump reads outside of the
    buffer. *)
Theorem vm_lread_failure_undefined (w : tests K) k e pid r addr dest len :
  t_lib w = CState k e -> stopped k pid -> 0 < len -> (Z.to_nat len <= length dest)%nat ->
  Z.of_nat (length dest) < 2 ^ 32 - 1 ->
  to_ulong cfg addr + len <= 2 ^ bits_long cfg ->
  read_mem (tmem k pid) (to_ulong cfg addr) (Z.to_nat len) = None -> 0 <= failures w < 2 ^ 31 - 1 ->
  vm_lread_or_kill pid r addr dest len w = Undef.
Proof.
  intros Hw Hs Hl Hd Hsize Hend Hm Hn. destruct w as [s g i pg rel]. cbn in Hw. subst s.
  set (W k e g := Tests (CState k e) g i pg rel : tests K).
  destruct (lread_run_fault cfg k 0 pid addr dest len Hs Hl Hd Hend Hm) as (dest' & Hread & Hlen & _).
  assert (Hr : on_lib (pink_vm_lread cfg pid addr dest len) (W k 0 g) = Ret (-1, dest') (W k EFAULT g))
    by (unfold on_lib; simpl; by rewrite Hread).
  unfold vm_lread_or_kill, transfer_or_kill.
  change (Tests (CState k e) g i pg rel) with (W k e g).
  unfold cbind at 1 2. change (on_lib (set_errno 0) (W k e g)) with (Ret tt (W k 0 g)). cbn iota.
  rewrite (cbind_run _ _ _ _ _ Hr). cbn [Z.ltb Z.compare].
  rewrite undef_after; [done | right |].
  - destruct (kill_save_errno_run pid SIGKILL k EFAULT g i pg rel) as (o & Hk).
    rewrite (cbind_run _ _ _ _ _ Hk).
    edestruct (fail_verbose_errno_run (fun e => "pink_vm_lread" +:+ " (pid:" +:+ fmt_u pid +:+ ", addr:" +:+
      fmt_d addr +:+ ", len:" +:+ fmt_d len +:+ " " +:+ err_text e +:+ ")") "vm_lread_or_kill" 594
      (W (sys_kill pid SIGKILL k).2 EFAULT (with_out o g))) as (g1 & Hf & _); [done|].
    by eexists.
  - intros w1. apply undef_after; [right; apply print_returns|]. intros w2.
    unfold cbind. rewrite dump_undef; [done | |lia].
    assert (32 <= bits_long cfg) by (unfold bits_long; destruct (sizeof_long_cases cfg); lia).
    assert (2 ^ 32 <= 2 ^ bits_long cfg) by (apply Z.pow_le_mono_r; lia).
    assert (Hu : to_ulong cfg (-1) = 2 ^ bits_long cfg - 1).
    { unfold to_ulong, wrapu. symmetry. apply (Z.mod_unique _ _ (-1)); lia. }
    rewrite Hu, Hlen. lia.
Qed.

End ReadFailure.

(** ** The release *)

(** Decimal digits and their value. *)
Fixpoint all_digits (t : string) : bool :=
  match t with EmptyString => true | String a t' => is_digit a && all_digits t' end.
Definition number (t : string) : Z := (atoi_from 0 t).1.
Definition part (t : string) : Prop := t <> "" /\ all_digits t = true.
Definition no_digit (t : string) : Prop :=
  match t with EmptyString => True | String a _ => is_digit a = false end.
Definition no_dot (t : string) : Prop :=
  match t with String "." _ => False | _ => True end.

Lemma atoi_from_app acc t rest :
  all_digits t = true -> no_digit rest ->
  atoi_from acc (t +:+ rest) = ((atoi_from acc t).1, rest).
Proof.
  revert acc. induction t as [|a t IH]; intros acc Ht Hr; simpl in *.
  - destruct rest as [|b rest]; [done|]. simpl in *. by rewrite Hr.
  - apply andb_prop in Ht as [Ha Ht]. change (String a t +:+ rest) with (String a (t +:+ rest)).
    cbn [atoi_from]. rewrite Ha. by apply IH.
Qed.

(** Putting eight bits behind a number. *)
Lemma lor_shiftl_8 r v : 0 <= v < 256 -> Z.lor (Z.shiftl r 8) v = r * 256 + v.
Proof.
  intros Hv. rewrite Z.shiftl_mul_pow2 by lia. change (2 ^ 8) with 256.
  pose proof (Z.add_lor_land (r * 256) v) as H.
  assert (Hl : Z.land (r * 256) v = 0); [|lia].
  apply Z.bits_inj'. intros i Hi. rewrite Z.land_spec, Z.bits_0.
  change 256 with (2 ^ 8). destruct (Z.lt_ge_cases i 8).
  - by rewrite Z.mul_pow2_bits_low by lia.
  - destruct (Z.eq_dec v 0) as [->|]; [by rewrite Z.bits_0, andb_false_r|].
    rewrite (Z.bits_above_log2 v i), andb_false_r; [done | lia |].
    apply Z.lt_le_trans with 8; [apply Z.log2_lt_pow2; lia | lia].
Qed.

Section Release.
Context {K : Type} `{!KernelOps K} `{!ProcOps K} `{!CheckOps K} {St : Setting}.

(** One part of the release. *)
Lemma release_step n rel t rest (w : tests K) :
  part t -> no_digit rest -> 0 <= rel < 2 ^ 24 -> 0 <= number t < 256 ->
  release_loop (S n) rel (t +:+ rest) w =
  let rel' := rel * 256 + number t in
  if KERNEL_VERSION 1 0 0 <=? rel' then Ret (Some rel') w
  else match rest with
       | String "." p' => release_loop n rel' p' w
       | _ => Ret (if KERNEL_VERSION 0 1 0 <=? rel' then Some (to_uint (Z.shiftl rel' 8)) else None) w
       end.
Proof.
  intros [Ht Hd] Hr Hrel Hn. cbn [release_loop]. rewrite atoi_from_app by done.
  change (atoi_from 0 t).1 with (number t).
  assert (Hfirst : match t +:+ rest with String a _ => is_digit a | EmptyString => false end = true).
  { destruct t as [|a t]; [done|]. simpl in Hd. apply andb_prop in Hd as [Ha _]. exact Ha. }
  rewrite Hfirst. cbn [negb].
  assert (Hi : int_value (number t) = Some (number t)).
  { unfold int_value. by rewrite (proj2 (Z.leb_le _ _)), (proj2 (Z.ltb_lt _ _)) by lia. }
  rewrite (cbind_checked _ _ _ _ Hi).
  assert (Hl : Z.lor (to_uint (Z.shiftl rel 8)) (to_uint (number t)) = rel * 256 + number t).
  { unfold to_uint. rewrite !wrapu_small; rewrite ?Z.shiftl_mul_pow2 by lia; [|lia..].
    rewrite <- Z.shiftl_mul_pow2 by lia. by apply lor_shiftl_8. }
  rewrite Hl. cbn zeta. destruct (_ <=? _); [done|].
  destruct rest as [|a rest]; [done|]. by destruct a as [[] [] [] [] [] [] [] []].
Qed.

(** C29. For a release that starts with three numbers below 256, of which the first is
    not 0, the program gets the number that KERNEL_VERSION makes of them, whatever
    follows; for one that has only two, it takes the third for 0. *)
Theorem get_os_release_version (w : tests K) k r a b d rest :
  part a -> part b -> 0 < number a < 256 -> 0 <= number b < 256 -> no_digit rest ->
  ker (t_lib w) = k ->
  (part d -> 0 <= number d < 256 ->
   sys_uname k = (r, a +:+ "." +:+ b +:+ "." +:+ d +:+ rest, k) -> sr_val r = 0 ->
   exists w', get_os_release w = Ret (Some (KERNEL_VERSION (number a) (number b) (number d))) w' /\
     t_sea w' = t_sea w) /\
  (no_dot rest -> sys_uname k = (r, a +:+ "." +:+ b +:+ rest, k) -> sr_val r = 0 ->
   exists w', get_os_release w = Ret (Some (KERNEL_VERSION (number a) (number b) 0)) w' /\
     t_sea w' = t_sea w).
Proof.
  intros Ha Hb Hna Hnb Hr Hk.
  assert (Huname : forall rel, sys_uname k = (r, rel, k) ->
    exists w', t_sea w' = t_sea w /\
      on_lib (libcall sys_uname) w = Ret (sr_val r, rel) w').
  { intros rel Hu. unfold on_lib, libcall. rewrite Hk, Hu. eexists. by split; [|reflexivity]. }
  assert (Hv : forall d, 0 <= d < 256 ->
    KERNEL_VERSION (number a) (number b) d = (number a * 256 + number b) * 256 + d).
  { intros x Hx. unfold KERNEL_VERSION. rewrite !Z.shiftl_mul_pow2 by lia. lia. }
  assert (H1 : KERNEL_VERSION 1 0 0 = 65536) by done.
  assert (Hfst : number a = 0 * 256 + number a) by lia.
  split.
  - intros Hd Hnd Hu Hr0. destruct (Huname _ Hu) as (w' & Hw' & Hrun). exists w'. split; [|done].
    unfold get_os_release. rewrite (cbind_run _ _ _ _ _ Hrun), Hr0. cbn [Z.ltb Z.compare].
    rewrite release_step by (done || lia). cbn zeta. rewrite <- Hfst, H1, (proj2 (Z.leb_gt 65536 _)) by lia.
    cbn iota. destruct (String.length _) as [|[|m]] eqn:Hlen.
    1-2: exfalso; rewrite !length_append in Hlen; simpl in Hlen; destruct b; simpl in Hlen; [by destruct Hb | lia].
    change ("." +:+ b +:+ "." +:+ d +:+ rest) with (String "." (b +:+ "." +:+ d +:+ rest)). cbn iota.
    rewrite release_step by (done || lia). cbn zeta. rewrite H1, (proj2 (Z.leb_gt 65536 _)) by lia.
    change ("." +:+ d +:+ rest) with (String "." (d +:+ rest)). cbn iota.
    rewrite release_step by (done || lia). cbn zeta. rewrite H1, (proj2 (Z.leb_le 65536 _)) by lia.
    by rewrite Hv.
  - intros Hnd Hu Hr0. destruct (Huname _ Hu) as (w' & Hw' & Hrun). exists w'. split; [|done].
    unfold get_os_release. rewrite (cbind_run _ _ _ _ _ Hrun), Hr0. cbn [Z.ltb Z.compare].
    rewrite release_step by (done || lia). cbn zeta. rewrite <- Hfst, H1, (proj2 (Z.leb_gt 65536 _)) by lia.
    cbn iota. destruct (String.length _) as [|m] eqn:Hlen.
    { exfalso. rewrite !length_append in Hlen. destruct a; [by destruct Ha | simpl in Hlen; lia]. }
    change ("." +:+ b +:+ rest) with (String "." (b +:+ rest)). cbn iota.
    rewrite release_step by (done || lia). cbn zeta.
    rewrite H1, (proj2 (Z.leb_gt 65536 _)) by lia.
    change (KERNEL_VERSION 0 1 0) with 256. rewrite (proj2 (Z.leb_le 256 _)) by lia.
    assert (Hs : to_uint (Z.shiftl (number a * 256 + number b) 8) = KERNEL_VERSION (number a) (number b) 0).
    { rewrite Hv by lia. unfold to_uint. rewrite Z.shiftl_mul_pow2, wrapu_small by lia. lia. }
    rewrite Hs. destruct rest as [|x rest]; [done|].
    by destruct x as [[] [] [] [] [] [] [] []].
Qed.

End Release.

(** The numbers of a release are put together with a bitwise or: a third number above 255
    runs into the second one and is lost.  Linux 4.9.337 is taken for 4.9.81, where
    KERNEL_VERSION is said to be open-coded. *)
Example release_loop_sublevel {K} (w : tests K) :
  release_loop 8 0 "4.9.337" w = Ret (Some (KERNEL_VERSION 4 9 81)) w /\
  KERNEL_VERSION 4 9 337 <> KERNEL_VERSION 4 9 81.
Proof. split; [vm_compute; reflexivity | done]. Qed.

(** ** main *)

Section Main.
Context {K : Type} `{!KernelOps K} `{!ProcOps K} `{!CheckOps K} `{!PipeOps K} {St : Setting}.

(** main up to the runner. *)
Lemma check_main_runner argv rel (w w0 w1 : tests K) :
  get_os_release w = Ret (Some rel) w0 ->
  seatest_interpret_commandline argv SEATEST_RUN_TESTS
    (Tests (t_lib w0) (t_sea w0) 0 (t_pgid w0) rel) = Ret SEATEST_RUN_TESTS w1 ->
  check_main argv w = cbind (run_tests all_tests) (fun r =>
    match r with
    | inl passed => cret (Returned (if (passed : bool) then EXIT_SUCCESS else EXIT_FAILURE))
    | inr ended => cret ended
    end) (with_suite None None w1).
Proof.
  intros Hr Hi. unfold check_main. rewrite (cbind_run _ _ _ _ _ Hr). set (w00 := Tests _ _ _ _ _) in Hi.
  rewrite (cbind_run (set_release rel) _ w0 tt (Tests (t_lib w0) (t_sea w0) (t_i w0) (t_pgid w0) rel)),
    (cbind_run (set_i 0) _ _ tt w00) by done.
  unfold cbind. by rewrite (testrunner_run _ _ _ _ _ _ Hi).
Qed.

(** main when the tests return. *)
Lemma check_main_run argv rel (w w0 w1 w2 : tests K) :
  get_os_release w = Ret (Some rel) w0 ->
  seatest_interpret_commandline argv SEATEST_RUN_TESTS
    (Tests (t_lib w0) (t_sea w0) 0 (t_pgid w0) rel) = Ret SEATEST_RUN_TESTS w1 ->
  all_tests (with_suite None None w1) = Ret None w2 ->
  exists w', check_main argv w
    = Ret (Returned (if quiet_mode w2 || (failures w2 =? 0) then EXIT_SUCCESS else EXIT_FAILURE)) w' /\
    failures w' = failures w2 /\ t_lib w' = t_lib w2 /\
    sea_tests_run (t_sea w') = sea_tests_run (t_sea w2).
Proof.
  intros Hr Hi Ht. destruct (run_tests_run all_tests _ w2 Ht) as [t Hrun].
  rewrite (check_main_runner _ _ _ _ _ Hr Hi), (cbind_run _ _ _ _ _ Hrun). by eexists.
Qed.

(** C24. The exit status of the test program: once the release is known and the command
    line asks for a run, it is that of success exactly when no failure was counted while
    the tests ran, unless the output is machine readable, when it always is; and a child
    that ends inside a test ends the program there, with its own status and without a
    report. *)
Theorem check_main_status argv rel (w w0 w1 : tests K) :
  get_os_release w = Ret (Some rel) w0 ->
  seatest_interpret_commandline argv SEATEST_RUN_TESTS
    (Tests (t_lib w0) (t_sea w0) 0 (t_pgid w0) rel) = Ret SEATEST_RUN_TESTS w1 ->
  (forall w2, all_tests (with_suite None None w1) = Ret None w2 ->
   exists code w', check_main argv w = Ret (Returned code) w' /\ failures w' = failures w2 /\
     t_lib w' = t_lib w2 /\
     (quiet_mode w2 = false -> code = EXIT_SUCCESS <-> failures w2 = 0) /\
     (quiet_mode w2 = true -> code = EXIT_SUCCESS)) /\
  (forall ended w2, all_tests (with_suite None None w1) = Ret (Some ended) w2 -> check_main argv w = Ret ended w2).
Proof.
  intros Hr Hi. split.
  - intros w2 Ht. destruct (check_main_run _ _ _ _ _ _ Hr Hi Ht) as (w' & Hrun & Hf & Hl & _).
    eexists _, w'. split; [exact Hrun|]. split_and!; [done | done | |].
    + intros ->. cbn [orb]. destruct (Z.eqb_spec (failures w2) 0); done.
    + by intros ->.
  - intros ended w2 Ht. rewrite (check_main_runner _ _ _ _ _ Hr Hi).
    unfold run_tests, cbind. by rewrite Ht.
Qed.

(** The test of pipes passes on a pipe that follows its manual page, once pipe(2) has
    given it an empty pipe with room for an int: 42 is written and read back. *)
Theorem test_read_write_int_passes `{!PipeView K} `{!PipeLaws K} fr (k0 k : K) a b :
  lib_wp k0 (pink_pipe_init HAVE_PIPE2) (fun r k' => r = (0, (a, b)) /\ k' = k) ->
  reader k a -> writer k b -> queue k = [] -> 4 <= room k ->
  (forall fd k1, exists k2, sys_close fd k1 = (SysRet 0 None, k2)) ->
  passes fr k0 test_read_write_int.
Proof.
  intros Hinit Hrd Hwr Hq Hroom Hclose.
  assert (Hcl : forall fd k1 (Q : Z -> K -> Prop), (forall k2, Q 0 k2) -> lib_wp k1 (pink_pipe_close fd) Q).
  { intros fd k1 Q HQ e. destruct (Hclose fd k1) as [k2 Hk]. exists 0, k2, e.
    split; [|done]. unfold pink_pipe_close, libcall, plain, cbind. simpl. by rewrite Hk. }
  apply wp_passes.
  { apply wp_bind, wp_lib. intros e. destruct (Hinit e) as (r & k' & e' & Hr & -> & ->).
    eexists _, _, _. split; [exact Hr|]. cbn beta iota. cbn [fst snd]. apply wp_bind, wp_ret.
    apply wp_bind, wp_lib. intros e1. destruct (write_int_run cfg k e1 b 42 Hwr Hroom)
      as (k1 & Hwrun & Hq1 & _ & Hrd1 & _).
    eexists _, _, _. split; [exact Hwrun|]. apply wp_bind, wp_ret.
    rewrite Hq in Hq1. apply wp_bind, wp_lib. intros e2.
    destruct (read_int_run cfg k1 e2 a 0 42 []) as (k2 & Hrrun & _); [by apply Hrd1 | by rewrite app_nil_r|].
    eexists _, _, _. split; [exact Hrrun|]. cbn beta iota. apply wp_bind, wp_ret.
    apply wp_bind, wp_ret. apply wp_bind, wp_lib, Hcl. intros k3. apply wp_bind, wp_ret.
    apply wp_bind, wp_lib, Hcl. intros k4. by apply wp_bind, wp_ret, wp_ret. }
Qed.

End Main.

(** ** Witnesses *)

(** A kernel that has only pipes, and a log of the signals sent; no process can be
    forked. *)
Record pkernel : Type := PKernel { pk_pipe : psim; pk_signals : list (Z * Z) }.

Module Pipes.
Definition on_pipe {A} (f : psim -> A * psim) (k : pkernel) : A * pkernel :=
  let '(a, p) := f (pk_pipe k) in (a, PKernel p (pk_signals k)).

#[export] Instance ops : KernelOps pkernel := {|
  sys_ptrace := fun _ _ _ d k => (SysRet (-1) (Some ESRCH), d, k);
  sys_process_vm_readv := fun _ _ _ k => (SysRet (-1) (Some ESRCH), [], k);
  sys_process_vm_writev := fun _ _ _ k => (SysRet (-1) (Some ESRCH), k);
  sys_tgkill := fun _ tid sig k => (SysRet 0 None, PKernel (pk_pipe k) ((tid, sig) :: pk_signals k));
  sys_tkill := fun tid sig k => (SysRet 0 None, PKernel (pk_pipe k) ((tid, sig) :: pk_signals k));
  sys_kill := fun pid sig k => (SysRet 0 None, PKernel (pk_pipe k) ((pid, sig) :: pk_signals k));
|}.
#[export] Instance procs : ProcOps pkernel := {|
  sys_fork := fun k => (SysRet (-1) (Some 11), k);
  sys_waitpid := fun _ k => (SysRet (-1) (Some ECHILD), None, k);
  sys_getpid := fun _ => 1;
  sys_execvp := fun _ k => inr k;
|}.
#[export] Instance check_ops : CheckOps pkernel := {|
  sys_setpgid := fun pid _ k => if pid <? 0 then (SysRet (-1) (Some EINVAL), k) else (SysRet 0 None, k);
  sys_call := fun _ _ k => (SysRet (-1) (Some ENOSYS), k);
  sys_execve := fun _ _ k => inr k;
  sys_uname := fun k => (SysRet 0 None, "5.10.0-8-amd64", k);
|}.
#[export] Instance pipe_ops : PipeOps pkernel := {|
  sys_read := fun fd n => on_pipe (sys_read fd n);
  sys_write := fun fd bs => on_pipe (sys_write fd bs);
  sys_close := fun fd => on_pipe (sys_close fd);
  sys_pipe := on_pipe sys_pipe;
  sys_pipe2 := fun f => on_pipe (sys_pipe2 f);
  sys_getfd := fun fd => on_pipe (sys_getfd fd);
  sys_setfd := fun fd v => on_pipe (sys_setfd fd v);
|}.
End Pipes.

Section Witnesses.
Import TestSession.Demo TestRun.Pipes.

Definition no_pipe : psim := PSim [] 64 ∅.
Definition start : tests pkernel := Tests (CState (PKernel no_pipe []) 0) sea_init 0 (-1) 0.

(** The only signal sent is SIGKILL, to -1. *)
Lemma fork_assert_failure_kills_witness :
  exists w', fork_assert start = Ret (-1) w' /\
    pk_signals (ker (t_lib w')) = [(-1, SIGKILL)] /\ failures w' = 2.
Proof.
  destruct (fork_assert_failure_kills start (PKernel no_pipe []) (PKernel no_pipe []) (PKernel no_pipe [])
    0 11 EINVAL) as (w' & H1 & H2 & H3 & _); [done | done | done | done |].
  exists w'. split_and!; [exact H1 | by rewrite H2 | exact H3].
Defined.

Lemma get_os_release_version_witness :
  exists w', get_os_release start = Ret (Some (KERNEL_VERSION 5 10 0)) w'.
Proof.
  destruct (get_os_release_version start (PKernel no_pipe []) (SysRet 0 None) "5" "10" "0" "-8-amd64")
    as [H _]; [done | done | by vm_compute | by vm_compute | done | done |].
  destruct (H ltac:(done) ltac:(by vm_compute) eq_refl eq_refl) as (w' & Hw & _). by exists w'.
Defined.

(** The program with all tests but those of pipes left out: it writes and reads back an
    int, and exits with success. *)
Definition started : tests pkernel :=
  Tests (CState (PKernel no_pipe []) 0) sea_init 0 (-1) (KERNEL_VERSION 5 10 0).
Definition tested : tests pkernel := match all_tests started with Ret _ w => w | _ => started end.

Lemma check_main_status_witness :
  exists w', check_main ["pinktrace-check"] start = Ret (Returned EXIT_SUCCESS) w' /\
    failures w' = 0 /\ sea_tests_run (t_sea tested) = 1.
Proof.
  destruct (check_main_status ["pinktrace-check"] (KERNEL_VERSION 5 10 0) start start started)
    as [H _]; [vm_compute; reflexivity | vm_compute; reflexivity |].
  destruct (H tested) as (code & w' & Hrun & Hf & _ & Hc & _); [vm_compute; reflexivity|].
  assert (code = EXIT_SUCCESS) as -> by (apply Hc; vm_compute; reflexivity).
  exists w'. split; [exact Hrun|]. split; [by rewrite Hf; vm_compute | vm_compute; reflexivity].
Defined.

Lemma test_read_write_int_passes_witness :
  passes (round 0) no_pipe (test_read_write_int (K := psim)).
Proof.
  apply (test_read_write_int_passes (round 0) no_pipe
    (PSim [] 64 (<[3 := FD_CLOEXEC]> (<[4 := FD_CLOEXEC]> ∅))) 3 4); try done.
  - intros e. by eexists _, _, e.
  - intros fd k. by eexists.
Defined.

(** Nothing is mapped at 0x5000. *)
Lemma vm_lread_failure_undefined_witness :
  vm_lread_or_kill 7 (pink_regset_zero x86_64_linux) 0x5000 (replicate 10 Byte.x00) 10
    (Tests (CState (first_stop (child [] []) []) 0) sea_init 0 7 0) = Undef.
Proof.
  apply (vm_lread_failure_undefined _ (first_stop (child [] []) []) 0);
    [done | by split | lia | simpl; lia | by vm_compute | by vm_compute | by vm_compute | by vm_compute].
Defined.

End Witnesses.
