(* ===== verification/TestLong.v ===== *)
(** * The tests of long strings and of string arrays, on a lawful kernel

    Theorems on the remaining tests of read-TEST.c and vm-TEST.c: a string that fills the
    range that is asked for, and an array of strings with its null entry. *)

From Stdlib Require Import ZArith Lia String Ascii.
From stdpp Require Import base list numbers strings gmap.
From coqutil Require Import Byte Word.LittleEndianList.
From S2P Require Import Prelude Config Kernel Layout Sim Trace Vm VmRead VmCross Name Regset Read ReadVm Write WriteVm Registers Socket Observe Pipe Tracer Script Seatest Check TestRead TestWrite TestSession TestProps TestRun.
Local Open Scope string_scope.
Local Open Scope list_scope.
Local Open Scope Z_scope.
Local Open Scope c_scope.

Section Long.
Context {K : Type} `{!KernelOps K} `{!ProcOps K} `{!CheckOps K} `{!TraceeView K} `{!RegView K}.
Context `{!PtraceErrno K} {St : Setting} {Rd : Ready} `{!PtraceRegset K} `{!X86User cfg K}.

#[local] Instance long_build : X86Build cfg := ready_build.

(** ** A string that fills the range *)

Definition floyd : list byte := list_byte_of_string "PPPPPPPPink Floyd".

Lemma pink_floyd_x86 : pink_floyd = floyd.
Proof. unfold pink_floyd. by rewrite (build_sizeof cfg). Qed.

(** The first bytes of the array are the string and its terminator. *)
Lemma pink_floyd_front :
  take 18 pink_floyd_array = floyd ++ [Byte.x00] /\ Z.of_nat (length pink_floyd_array) = 4096.
Proof.
  unfold pink_floyd_array, PATH_MAX. rewrite pink_floyd_x86, length_resize. split; [|lia].
  rewrite take_resize_le, app_assoc by lia. by rewrite resize_app by done.
Qed.

Section Object.
Context (k : K) (pid v : Z) (Hobj : holds_arg k pid v (CObj pink_floyd_array)) (Hst : stopped k pid).

Lemma floyd_read : read_mem (tmem k pid) (to_ulong cfg v) 18 = Some (floyd ++ [Byte.x00]).
Proof.
  destruct Hobj as (_ & _ & Hm). destruct pink_floyd_front as [<- Hl].
  replace (length pink_floyd_array) with (18 + (length pink_floyd_array - 18))%nat in Hm by lia.
  by apply read_mem_split in Hm as [-> _].
Qed.

(** What the tests get: all the characters, and no terminator. *)
Definition got_floyd (p : Z * list byte) : Prop :=
  p.1 = 17 /\ Z.of_nat (length p.2) = 4096 /\ take 17 p.2 = floyd.

Lemma length_newstr : Z.of_nat (length (fresh "newstr" PATH_MAX)) = 4096.
Proof. unfold fresh. rewrite length_resize. unfold PATH_MAX. lia. Qed.

Lemma long_lread e `{!PtraceMem cfg K} :
  exists p e', pink_vm_lread_nul cfg pid v (fresh "newstr" PATH_MAX) 17 (CState k e)
    = Ret p (CState k e') /\ got_floyd p.
Proof.
  pose proof length_newstr.
  destruct (lread_nul_exact_run cfg k e pid v (fresh "newstr" PATH_MAX) (floyd ++ [Byte.x00]) 17)
    as (d & e' & Hr & Hl & Ht); [done | lia | lia | lia | apply floyd_read | done |].
  exists (17, d), e'. split; [|by split_and!; [done | cbn [snd]; lia | ]].
  replace (nul_skew cfg v 17) with 0 in Hr; [done|].
  unfold nul_skew. rewrite (build_sizeof cfg). pose proof (addr_residue_range cfg v).
  by rewrite decide_False by lia.
Qed.

Lemma long_read e u r :
  transfer cfg K -> x86_filled cfg false u r -> 0 <= x86_64_r cfg u ORIG_RAX < 2 ^ 30 ->
  exists p e', pink_read_vm_data_nul cfg fuel pid r v (fresh "newstr" PATH_MAX) 17 (CState k e)
    = Ret p (CState k e') /\ got_floyd p.
Proof.
  intros Ht Hf Hnr. pose proof (native_plain u r v Hf Hnr) as Hp. pose proof ready_fuel.
  assert (Hfit : string_fits cfg (rs_abi r) v 17) by (by eapply object_fits).
  destruct Ht as [Hh Hvm|Hno Herr Hmem].
  - pose proof floyd_read as Hm. apply (read_mem_split _ _ 17 1) in Hm as [Hm _]. pose proof length_newstr.
    destruct Hobj as (_ & Hend & _). destruct pink_floyd_front as [_ Hl].
    destruct (read_nul_attach cfg k e fuel pid r v (fresh "newstr" PATH_MAX) 17 floyd)
      as (d & Hr & Hd & Hs & _); [done | done | done | done | lia | lia | lia
      | exact Hfit | lia | exact Hm |].
    exists (17, d), 0. split; [exact Hr|]. split_and!; [done | cbn [snd]; lia | exact Hd].
  - destruct (read_nul_words cfg k e fuel pid r v (fresh "newstr" PATH_MAX) 17) as (e' & ->);
      [done | lia | done | lia | exact Hfit |]. by apply long_lread.
Qed.

(** The test terminates the string itself, behind its last character. *)
Lemma terminate_floyd p : got_floyd p ->
  exists rest, terminate p.1 (length floyd) p.2 = floyd ++ [Byte.x00] ++ rest.
Proof.
  destruct p as [r d]. intros (Hr & Hl & Ht). cbn [fst snd] in *. subst r. exists (drop 18 d).
  unfold terminate. rewrite to_ulong_small by (rewrite (build_bits cfg); lia).
  change (17 <=? Z.of_nat (length floyd)) with true. cbn iota. change (Z.to_nat 17) with 17%nat.
  rewrite insert_take_drop by lia. by rewrite Ht.
Qed.

Lemma wp_long_tail fr p t lc (Q : bool * locals -> K -> Prop) :
  got_floyd p -> (forall k', Q (true, set_worked lc) k') ->
  wp fr k (info t ;; check_string_endswith_or_kill pid (terminate p.1 (length floyd) p.2)
                       (literal "Pink Floyd") ;; worked pid lc) Q.
Proof.
  intros Hp HQ. destruct (terminate_floyd p Hp) as [rest ->]. apply wp_bind, wp_print, wp_bind.
  apply (wp_checked _ _ _ 17%nat); [done|]. apply (wp_checked _ _ _ 10%nat); [done|]. cbn [Nat.eqb].
  apply (wp_checked _ _ _ true); [by vm_compute|]. cbn iota. apply wp_ret, wp_worked. auto.
Qed.

End Object.

(** The tests of strings that fill the range they ask for pass on 64-bit x86 for every
    argument: the 17 characters are read without their terminator, over either transfer
    and wherever the string lies, and the count is 17, so that the terminator that the
    test itself stores behind them makes the string it expects. *)
Theorem test_nul_long_passes fr pid (k0 k : K) i :
  0 <= i < 6 -> f_i fr = i -> begins pid k0 k ->
  entered k pid (PINK_SYSCALL_INVALID cfg) (<[Z.to_nat i := CObj pink_floyd_array]> three_args) ->
  (transfer cfg K -> passes fr k0 test_read_vm_data_nul_long) /\
  (PtraceMem cfg K -> passes fr k0 test_vm_lread_nul_long).
Proof.
  intros Hi <- Hb He. pose proof ready_fuel as Hfu.
  unfold test_read_vm_data_nul_long, test_vm_lread_nul_long. rewrite pink_floyd_x86.
  split; intros Ht; apply passes_get_i, (passes_one fr _ pid _ id _ _ _ k0 k Hb);
    (eapply wp_entry; [done | done | done | apply start_has_regset|]); intros r v Hf Hn Ho;
    apply wp_bind, wp_transfer; intros e.
  - destruct (long_read k pid v Ho ltac:(by destruct He) e _ r Ht Hf Hn) as (p & e' & Hr & Hp).
    exists p, k, e'. split; [exact Hr|]. pose proof Hp as (Hp1 & Hp2 & _). split_and!; [lia.. |].
    destruct p as [c d]. by apply (wp_long_tail k pid _ (c, d)).
  - destruct (long_lread k pid v Ho ltac:(by destruct He) e) as (p & e' & Hr & Hp).
    exists p, k, e'. split; [exact Hr|]. pose proof Hp as (Hp1 & Hp2 & _). split_and!; [lia.. |].
    destruct p as [c d]. by apply (wp_long_tail k pid _ (c, d)).
Qed.

(** ** An array of strings *)

Lemma wp_string_array fr k pid r arg j dest len (Q : list byte * option bool -> K -> Prop) :
  lib_wp k (pink_read_string_array cfg fuel (indet_bytes "cp") pid r arg j dest len) (fun p k' =>
    0 <= p.1.1 <= Z.of_nat (length p.1.2) /\ p.1.1 < 2 ^ 31 /\
    (p.1.1 = 0 -> is_Some (cstring (fresh "buf" 17))) /\ Q (p.1.2, p.2) k') ->
  wp fr k (read_string_array_or_kill pid r arg j dest len) Q.
Proof.
  intros H. apply wp_bind, wp_lib. intros e.
  destruct (H e) as ([[n d] null] & k' & e' & Hr & Hn & Hs & H0 & HQ).
  eexists _, _, _. split; [exact Hr|]. cbn [fst snd] in *. cbn beta iota.
  rewrite (proj2 (Z.ltb_ge n 0)) by lia. apply wp_bind.
  destruct (n <? len); [apply wp_print | apply wp_ret];
    (apply wp_bind, wp_print, wp_bind, wp_dump; [lia | done | done |]; by apply wp_ret).
Qed.

Section Array.
Context (k : K) (pid v : Z) (Harr : holds_arg k pid v (CArr exparr)) (Hst : stopped k pid).
Context (Hend : to_ulong cfg v + 16 <= 2 ^ 64).
Context (u : list byte) (r : pink_regset) (Hfill : x86_filled cfg false u r).
Context (Hnr : 0 <= x86_64_r cfg u ORIG_RAX < 2 ^ 30) (Ht : transfer cfg K).

#[local] Instance array_reads : VmReads cfg K := transfer_reads cfg Ht.

Lemma array_wordsize : pink_abi_wordsize cfg (rs_abi r) = Some 8.
Proof.
  destruct Hfill as [-> _]. rewrite (task_abi_cases cfg).
  replace (Z.testbit (x86_64_r cfg u ORIG_RAX) 30) with false.
  - unfold pink_abi_wordsize, ABI0_WORDSIZE. by rewrite (build_abis cfg), (build_arch (c := cfg)).
  - symmetry. destruct (Z.eq_dec (x86_64_r cfg u ORIG_RAX) 0) as [->|]; [done|].
    apply Z.bits_above_log2; [lia | apply Z.log2_lt_pow2; lia].
Qed.

(** An entry of the array. *)
Lemma array_entry e j p dest len :
  exparr !! j = Some p -> exists q, 0 <= q < 2 ^ 63 - 256 /\
    match p with
    | None => q = 0
    | Some bs => 0 < q /\ read_mem (tmem k pid) q (length bs) = Some bs
    end /\
    read_mem (tmem k pid) (to_ulong cfg v + 8 * Z.of_nat j) 8 = Some (le_split 8 q) /\
    pink_read_string_array cfg fuel (indet_bytes "cp") pid r v (Z.of_nat j) dest len (CState k e) =
    if q =? 0 then Ret (0, dest, Some true) (CState k 0)
    else cbind (pink_read_vm_data_nul cfg fuel pid r q dest len)
           (fun '(n, dest') => cret (n, dest', Some false)) (CState k 0).
Proof.
  intros Hj. destruct (Harr j p Hj) as (q & Hm & Hq & Hp). exists q. split_and!; [lia | lia | exact Hp | exact Hm |].
  assert (Hj2 : (j < 2)%nat) by exact (lookup_lt_Some _ _ _ Hj).
  pose proof (wrapu_range (bits_long cfg) v ltac:(rewrite (build_bits cfg); lia)) as Hv.
  fold (to_ulong cfg v) in Hv. rewrite (build_bits cfg) in Hv.
  assert (Ha : to_ulong cfg (v + Z.of_nat j * 8) = to_ulong cfg v + 8 * Z.of_nat j).
  { unfold to_ulong in *. rewrite (build_bits cfg) in *. unfold wrapu in *.
    rewrite Z.add_mod, (Z.mod_small (Z.of_nat j * 8)) by lia. rewrite Z.mod_small; lia. }
  rewrite (string_array_run cfg fuel (indet_bytes "cp") k e pid r v (Z.of_nat j) dest len 8);
    [|done | apply array_wordsize | by right | by rewrite (build_sizeof cfg)
    | by eapply native_plain | rewrite Ha, (build_bits cfg); lia].
  rewrite Ha. change (Z.to_nat 8) with 8%nat. rewrite Hm.
  assert (Hptr : entry_pointer cfg (le_split 8 q) = q).
  { unfold entry_pointer, get_member. rewrite (build_endian (c := cfg)), length_le_split, drop_0, take_ge
      by (rewrite length_le_split; lia). rewrite le_combine_split. apply Z.mod_small. lia. }
  rewrite Hptr. destruct (q =? 0); [done|].
  unfold to_long. rewrite wraps_small by (rewrite (build_bits cfg); lia). done.
Qed.

(** The last turn of the loop. *)
Lemma wp_array_null fr (Q : unit -> K -> Prop) :
  is_Some (cstring (fresh "buf" 17)) -> Q tt k -> wp fr k (string_array_loop pid v r 1 [None]) Q.
Proof.
  intros Hbuf HQ. cbn [string_array_loop]. apply wp_bind, wp_print, wp_bind, wp_string_array. intros e.
  destruct (array_entry e 1 None (fresh "newarr" EXPSTR_SIZ) (Z.of_nat EXPSTR_SIZ) eq_refl)
    as (q & _ & -> & _ & Hrun).
  eexists (0, _, Some true), k, 0. split; [exact Hrun|]. cbn [fst snd].
  split_and!; [lia | lia | lia | done |]. by apply wp_ret.
Qed.

(** The loop over the array, where the bytes behind the string are readable as far as the
    test asks for them. *)
Lemma wp_array_loop fr (Q : unit -> K -> Prop) :
  (forall q, 0 <= q < 2 ^ 63 -> read_mem (tmem k pid) (to_ulong cfg v) 8 = Some (le_split 8 q) ->
     exists b, read_mem (tmem k pid) q 12 = Some (trace_nul_pink ++ [b])) ->
  is_Some (cstring (fresh "buf" 17)) -> Q tt k -> wp fr k (string_array_loop pid v r 0 exparr) Q.
Proof.
  intros Hmap Hbuf HQ. pose proof ready_fuel. cbn [string_array_loop exparr].
  apply wp_bind, wp_print, wp_bind, wp_string_array. intros e.
  destruct (array_entry e 0 (Some trace_nul_pink) (fresh "newarr" EXPSTR_SIZ) (Z.of_nat EXPSTR_SIZ) eq_refl)
    as (q & Hq & [Hq0 _] & Hm & Hrun).
  change (8 * Z.of_nat 0) with 0 in Hm. rewrite Z.add_0_r in Hm. destruct (Hmap q ltac:(lia) Hm) as [b Hb].
  rewrite (proj2 (Z.eqb_neq q 0)) in Hrun by lia. change (Z.of_nat 0) with 0 in Hrun.
  assert (Hul : to_ulong cfg q = q) by (apply to_ulong_small; rewrite (build_bits cfg); lia).
  destruct (pink_read_vm_data_nul_counts cfg k 0 fuel pid r q (fresh "newarr" EXPSTR_SIZ) 12
    (trace_nul_pink ++ [b]) 5) as (n & d & e' & Hr & Htk & Hsc & Hn);
    [done | by eapply native_plain | lia | lia | by rewrite length_fresh | apply (string_fits_low cfg); lia
    | rewrite Hul, (build_bits cfg); lia
    | by rewrite Hul | done | done |].
  assert (Hld : length d = 12%nat) by (destruct Hsc as [-> _]; by rewrite length_fresh).
  assert (Hn12 : 0 < n <= 12).
  { destruct Hn as [[-> _]|[-> _]]; [lia|]. unfold nul_skew. pose proof (addr_residue_range cfg q).
    rewrite (build_sizeof cfg) in *. case_decide; lia. }
  exists (n, d, Some false), k, e'. split.
  { rewrite Hrun. change (Z.of_nat EXPSTR_SIZ) with 12. unfold cbind. by rewrite Hr. }
  cbn [fst snd]. split_and!; [lia | lia | lia | lia |]. cbn [default andb].
  change (default (negb (indet "nullptr" =? 0)) (Some false)) with false. cbn [andb].
  apply wp_bind, wp_ret. apply (wp_checked _ _ _ trace_nul_pink); [done|].
  apply wp_bind. apply (wp_check_string _ k pid d trace_nul_pink 5); [|lia | simpl; lia|].
  { apply (f_equal (take 5)) in Htk. by rewrite !take_take in Htk. }
  by apply wp_array_null.
Qed.

End Array.

(** C25. The test of reading an array of strings passes on 64-bit x86 for every argument, over
    either transfer, when the bytes behind the string are readable as far as the test asks
    for them, and when the line buffer of the hex dump, which is never written for the
    null entry, happens to hold a terminator. *)
Theorem test_read_string_array_passes fr pid (k0 k : K) i :
  0 <= i < 6 -> f_i fr = i -> begins pid k0 k -> transfer cfg K ->
  entered k pid (PINK_SYSCALL_INVALID cfg) (<[Z.to_nat i := CArr exparr]> other_args) ->
  let v := task_arg cfg false (user_area k pid) i in
  to_ulong cfg v + 16 <= 2 ^ 64 ->
  (forall q, 0 <= q < 2 ^ 63 -> read_mem (tmem k pid) (to_ulong cfg v) 8 = Some (le_split 8 q) ->
     exists b, read_mem (tmem k pid) q 12 = Some (trace_nul_pink ++ [b])) ->
  is_Some (cstring (fresh "buf" 17)) -> passes fr k0 test_read_string_array.
Proof.
  intros Hi <- Hb Ht He v Hend Hmap Hbuf. pose proof (entered_arg _ _ _ _ _ _ He Hi eq_refl) as Ha. fold v in Ha.
  apply passes_get_i, (passes_one fr _ pid _ id _ _ _ k0 k Hb).
  apply wp_bind, wp_fill; [by eapply entered_native | apply start_has_regset |]. intros r Hf. cbn beta iota.
  destruct He as (Hs & _ & _ & Hr & Hnr & _).
  apply wp_bind. eapply wp_expect_syscall; [exact Hf | done..|].
  apply wp_bind. eapply wp_read_argument; [exact Hf | done |]. fold v.
  apply wp_bind. eapply wp_array_loop; [exact Ha | done | done | exact Hf | lia | done | done | done |].
  by apply wp_worked.
Qed.

Lemma dump_nothing_undef p addr (w : tests K) :
  cstring (fresh "buf" 17) = None -> dump_basic_hex p addr 0 w = Undef.
Proof.
  intros Hbuf. apply undef_after; [right; apply print_returns|]. intros w1.
  change (Z.to_nat BYTES_IN_LINE) with 16%nat.
  assert (H0 : to_ulong cfg 0 = 0) by (apply to_ulong_small; rewrite (build_bits cfg); lia). rewrite H0.
  cbn [hex_loop Z.ltb Z.compare]. rewrite (cbind_run _ _ _ (0, fresh "buf" 17) w1) by done.
  by rewrite (cbind_run _ _ _ tt w1), Hbuf by done.
Qed.

(** Where the line buffer holds no terminator, reading the null entry does not return: the
    dump of no bytes prints a buffer that was never written. *)
Theorem read_string_array_null_undefined pid (k : K) v r u dest len (w : tests K) :
  t_lib w = CState k (errno (t_lib w)) -> holds_arg k pid v (CArr exparr) -> stopped k pid ->
  to_ulong cfg v + 16 <= 2 ^ 64 -> x86_filled cfg false u r -> 0 <= x86_64_r cfg u ORIG_RAX < 2 ^ 30 ->
  transfer cfg K -> cstring (fresh "buf" 17) = None ->
  read_string_array_or_kill pid r v 1 dest len w = Undef.
Proof.
  intros Hw Harr Hs Hend Hf Hnr Ht Hbuf. unfold read_string_array_or_kill.
  destruct (array_entry k pid v Harr Hs Hend u r Hf Hnr Ht (errno (t_lib w)) 1 None dest len eq_refl)
    as (q & _ & -> & _ & Hrun). change (Z.of_nat 1) with 1 in Hrun.
  unfold cbind at 1, on_lib at 1. rewrite Hw, Hrun. cbn [Z.eqb]. cbn iota. cbn [Z.ltb Z.compare].
  apply undef_after; [right; destruct (0 <? len); [apply print_returns | by eexists]|]. intros w1.
  apply undef_after; [right; apply print_returns|]. intros w2.
  unfold cbind. by rewrite dump_nothing_undef.
Qed.

End Long.

(** ** Witnesses *)

Section Witnesses.
Import TestSession.Demo.

(** The string at the start of a page. *)
Definition long_child : sim :=
  invalid_child [(RDI, 3); (RSI, 0x1000); (RDX, 3); (R10, 3); (R8, 3); (R9, 3)] pink_floyd_array.

Lemma test_nul_long_passes_witness :
  passes (round 1) (stops [long_child]) test_read_vm_data_nul_long.
Proof.
  apply (test_nul_long_passes (round 1) 7 (stops [long_child]) (first_stop long_child []) 1);
    [lia | done | by apply stops_begin | solve_entered | apply attach].
Defined.

(** The array at 0x1000, and the string behind it. *)
Definition array_bytes : list byte := le_split 8 0x1010 ++ le_split 8 0 ++ trace_nul_pink ++ [Byte.x00].
Definition array_child : sim := invalid_child [(RSI, 0x1000); (R8, -1)] array_bytes.

Lemma array_child_arg : holds_arg (first_stop array_child []) 7 0x1000 (CArr exparr).
Proof.
  intros j p Hj. destruct j as [|[|j]]; [| |done]; vm_compute in Hj; simplify_eq.
  - exists 0x1010. split_and!; vm_compute; (reflexivity || discriminate).
  - exists 0. split_and!; vm_compute; (reflexivity || discriminate).
Qed.

Lemma array_child_entered :
  entered (first_stop array_child []) 7 (PINK_SYSCALL_INVALID cfg) (<[1%nat := CArr exparr]> other_args).
Proof.
  split_and!; [by split | reflexivity | reflexivity | by vm_compute | by vm_compute | by vm_compute |].
  intros j a H Hj. assert (j = 0 \/ j = 1 \/ j = 2 \/ j = 3 \/ j = 4 \/ j = 5) as Hj' by lia.
  pose proof array_child_arg as Harg. set (k := first_stop array_child []) in *.
  assert (Hv : task_arg cfg false (user_area k 7) 1 = 0x1000) by (vm_compute; reflexivity).
  destruct Hj' as [->|[->|[->|[->|[->| ->]]]]]; [|by rewrite Hv; injection H as <-|..];
    vm_compute in H; simplify_eq; reflexivity.
Qed.

Lemma test_read_string_array_passes_witness :
  passes (round 1) (stops [array_child]) test_read_string_array.
Proof.
  apply (test_read_string_array_passes (round 1) 7 (stops [array_child]) (first_stop array_child []) 1);
    [lia | done | by apply stops_begin | apply attach | apply array_child_entered | by vm_compute | | by eexists].
  intros q Hr Hq. exists Byte.x00.
  assert (Hm : read_mem (tmem (first_stop array_child []) 7) (to_ulong cfg 0x1000) 8 = Some (le_split 8 0x1010))
    by (vm_compute; reflexivity).
  change (task_arg cfg false (user_area (first_stop array_child []) 7) 1) with 0x1000 in Hq.
  rewrite Hm in Hq. apply (f_equal (fmap le_combine)) in Hq. cbn [fmap option_fmap option_map] in Hq.
  rewrite !le_combine_split, !Z.mod_small in Hq by lia. injection Hq as <-. vm_compute. reflexivity.
Defined.

(** The same build, where the stack holds no zero bytes. *)
Definition dirty : Setting := {|
  cfg := x86_64_linux;
  HAVE_PIPE2 := true;
  have_ipv6 := true;
  have_netlink := true;
  SYS_socketcall := None;
  SYS_number := SYS_number;
  strerror := strerror;
  strsignal := strsignal;
  malloc_regset := malloc_regset;
  indet := indet;
  indet_bytes := fun _ => replicate 17 Byte.xff;
  fmt_p := fmt_p;
  FILE := FILE;
  isatty_stdout := isatty_stdout;
  PINKTRACE_CHECK_NOCOLOUR := None;
  PINK_CHECK_SKIP := PINK_CHECK_SKIP;
  fuel := 64;
|}.

Lemma dirty_ready : Ready (St := dirty).
Proof. split; [apply _ | done | done | by eexists | simpl; lia]. Qed.

Lemma read_string_array_null_undefined_witness :
  exists r, read_string_array_or_kill (H := dirty) 7 r 0x1000 1 (replicate 12 Byte.x00) 12
    (Tests (CState (first_stop array_child []) 0) sea_init 1 7 0) = Undef.
Proof.
  destruct (regset_fill_x86 cfg (first_stop array_child []) 0 7 (pink_regset_zero x86_64_linux))
    as (r & _ & Hf); [reflexivity | reflexivity | reflexivity | by split | reflexivity | reflexivity |].
  exists r. refine (read_string_array_null_undefined (St := dirty) (Rd := dirty_ready) 7
    (first_stop array_child []) 0x1000 r (user_area (first_stop array_child []) 7) _ _ _ _ _ _ _ _ _ _ _);
    [reflexivity | exact array_child_arg | by split | by vm_compute | exact Hf | by vm_compute
    | apply attach | by vm_compute].
Defined.

End Witnesses.
