(* ===== verification/TestAll.v ===== *)
(** * The test program when its tests pass

    The suites, the fixtures, the loops over arguments, the filters and the report are
    put together.  The schedule is the list of the tests that a run makes: those of the
    suites that are not skipped, each in its rounds, that the filters of the command line
    select.  When each of them passes from the states in which the one before it leaves
    the kernel, the program makes exactly this schedule and exits with success. *)

From Stdlib Require Import ZArith Lia String Ascii.
From stdpp Require Import base list numbers strings gmap.
From coqutil Require Import Byte Word.LittleEndianList.
From S2P Require Import Prelude Config Kernel Layout Sim Trace Vm VmRead VmCross Name Regset Read ReadVm Write WriteVm Registers Socket Pipe Tracer Script Seatest Check TestRead TestWrite TestSocket TestSession TestProps TestSockProps TestWriteProps TestRun TestLong.
Local Open Scope string_scope.
Local Open Scope list_scope.
Local Open Scope Z_scope.
Local Open Scope c_scope.

Section All.
Context {K : Type} `{!KernelOps K} `{!ProcOps K} `{!CheckOps K} `{!PipeOps K} {St : Setting}.

(** ** The schedule *)

(** A test of a fixture and its round; a test without rounds looks at none. *)
Record step : Type := Step {
  st_file : string;
  st_name : string;
  st_round : option Z;
  st_test : comp (tests K) (option outcome);
}.

(** The file of a suite and its tests, with the number of their rounds. *)
Definition catalogue (suite : string)
  : string * list (string * option nat * comp (tests K) (option outcome)) :=
  match suite with
  | "trace" => ("trace-TEST.c",
      [("test_trace_clone", None, test_trace_clone); ("test_trace_sysgood", None, test_trace_sysgood);
       ("test_trace_exec", None, test_trace_exec)])
  | "vm" => ("vm-TEST.c",
      [("test_vm_lread", Some 6%nat, test_vm_lread); ("test_vm_lread_nul", Some 6%nat, test_vm_lread_nul);
       ("test_vm_lread_nul_long", Some 6%nat, test_vm_lread_nul_long)])
  | "read" => ("read-TEST.c",
      [("test_read_syscall", None, test_read_syscall); ("test_read_retval_good", None, test_read_retval_good);
       ("test_read_retval_fail", None, test_read_retval_fail);
       ("test_read_argument", Some 6%nat, test_read_argument);
       ("test_read_vm_data", Some 6%nat, test_read_vm_data);
       ("test_read_vm_data_nul", Some 6%nat, test_read_vm_data_nul);
       ("test_read_vm_data_nul_long", Some 6%nat, test_read_vm_data_nul_long);
       ("test_read_string_array", Some 6%nat, test_read_string_array)])
  | "write" => ("write-TEST.c",
      [("test_write_syscall", Some 2%nat, test_write_syscall);
       ("test_write_retval", Some 2%nat, test_write_retval);
       ("test_write_argument", Some 6%nat, test_write_argument);
       ("test_write_vm_data", Some 6%nat, test_write_vm_data)])
  | "socket" => ("socket-TEST.c",
      [("test_read_socket_address_af_null", Some 3%nat, test_read_socket_address_af_null);
       ("test_read_socket_address_af_unix", Some 3%nat, test_read_socket_address_af_unix);
       ("test_read_socket_address_af_unixabs", Some 3%nat, test_read_socket_address_af_unixabs);
       ("test_read_socket_address_af_inet", Some 3%nat, test_read_socket_address_af_inet);
       ("test_read_socket_address_af_inet6", Some 3%nat, test_read_socket_address_af_inet6);
       ("test_read_socket_address_af_netlink", Some 3%nat, test_read_socket_address_af_netlink)])
  | "pipe" => ("pipe-TEST.c", [("test_read_write_int", None, test_read_write_int)])
  | _ => ("", [])
  end.

Definition suites : list string := ["trace"; "vm"; "read"; "write"; "socket"; "pipe"].

Definition steps_of (file : string) (p : string * option nat * comp (tests K) (option outcome))
  : list step :=
  match p.1.2 with
  | None => [Step file p.1.1 None p.2]
  | Some n => (fun i => Step file p.1.1 (Some i) p.2) <$> seqZ 0 (Z.of_nat n)
  end.

(** Whether the environment skips the suite. *)
Definition skipped (suite : string) : bool :=
  match PINK_CHECK_SKIP with
  | Some skip => match String.index 0 suite skip with Some _ => true | None => false end
  | None => false
  end.

Definition suite_steps (suite : string) : list step :=
  if skipped suite then []
  else concat (steps_of (FILE (catalogue suite).1) <$> (catalogue suite).2).

(** Whether the filters of the command line select the test, and it is to be run. *)
Definition selected (g : sea) (st : step) : bool :=
  matches_filter (seatest_fixture_filter g) (st_file st)
  && matches_filter (seatest_test_filter g) (st_name st)
  && negb (seatest_display_only g).

Definition chosen (g : sea) (l : list step) : list step := List.filter (selected g) l.

(** The tests that a run makes, in their order. *)
Definition schedule (g : sea) : list step := chosen g (concat (suite_steps <$> suites)).

Lemma chosen_app g l1 l2 : chosen g (l1 ++ l2) = chosen g l1 ++ chosen g l2.
Proof. apply List.filter_app. Qed.

(** ** The states between the tests *)

(** [I n] is where the kernel is when [n] tests have been made. *)
Context (I : nat -> K -> Prop) (rel : Z).

(** The test passes as number [n] of the schedule. *)
Definition goes (n : nat) (st : step) : Prop :=
  forall fr k e o, f_release fr = rel -> match st_round st with Some i => f_i fr = i | None => True end ->
    I n k -> exists pgid k' e' o',
    st_test st (world fr k e o) = Ret None (world (set_group fr pgid) k' e' o') /\ I (S n) k'.

Definition all_go (n : nat) (l : list step) : Prop :=
  forall j st, l !! j = Some st -> goes (n + j) st.

Lemma all_go_app n l1 l2 : all_go n (l1 ++ l2) -> all_go n l1 /\ all_go (n + length l1) l2.
Proof.
  intros H. split; intros j st Hj.
  - apply H. by apply lookup_app_l_Some.
  - replace (n + length l1 + j)%nat with (n + (length l1 + j))%nat by lia. apply H.
    rewrite lookup_app_r by lia. by replace (length l1 + j - length l1)%nat with j by lia.
Qed.

Definition tests_run (w : tests K) : Z := sea_tests_run (t_sea w).

(** What a run does not change: the filters, the modes, the failures, the release, and that
    no hook is installed. *)
Definition kept (w w' : tests K) : Prop :=
  seatest_fixture_filter (t_sea w') = seatest_fixture_filter (t_sea w) /\
  seatest_test_filter (t_sea w') = seatest_test_filter (t_sea w) /\
  seatest_display_only (t_sea w') = seatest_display_only (t_sea w) /\
  quiet_mode w' = quiet_mode w /\ failures w' = failures w /\ t_release w' = t_release w /\
  (sea_hooks (t_sea w) = no_hooks -> sea_hooks (t_sea w') = no_hooks).

Lemma kept_refl w : kept w w.
Proof. by split_and!. Qed.

Lemma kept_trans w1 w2 w3 : kept w1 w2 -> kept w2 w3 -> kept w1 w3.
Proof.
  intros (? & ? & ? & ? & ? & ? & ?) (? & ? & ? & ? & ? & ? & ?). split_and!; [congruence.. | auto].
Qed.

Lemma kept_chosen w w' l : kept w w' -> chosen (t_sea w') l = chosen (t_sea w) l.
Proof.
  intros (H1 & H2 & H3 & _). unfold chosen. apply List.filter_ext. intros st. unfold selected.
  by rewrite H1, H2, H3.
Qed.

(** [n] tests have been made and counted. *)
Record at_test (n : nat) (w : tests K) : Prop := {
  at_kernel : I n (ker (t_lib w));
  at_count : tests_run w = Z.of_nat n;
  at_release : t_release w = rel;
  at_hooks : sea_hooks (t_sea w) = no_hooks;
}.

(** [f] makes those of the tests [l] that are selected. *)
Definition makes (l : list step) (f : comp (tests K) (option outcome)) : Prop :=
  forall n w, at_test n w -> all_go n (chosen (t_sea w) l) ->
    Z.of_nat (n + length (chosen (t_sea w) l)) < 2 ^ 31 ->
    exists w', f w = Ret None w' /\ at_test (n + length (chosen (t_sea w) l)) w' /\ kept w w'.

Lemma makes_none : makes [] (cret None).
Proof. intros n w Hw _ _. exists w. simpl. rewrite Nat.add_0_r. split_and!; [done | done | apply kept_refl]. Qed.

Lemma makes_then l1 l2 f g : makes l1 f -> makes l2 g -> makes (l1 ++ l2) (and_then f g).
Proof.
  intros Hf Hg n w Hw. rewrite chosen_app, length_app. intros Hgo Hn. apply all_go_app in Hgo as [H1 H2].
  destruct (Hf n w Hw H1 ltac:(lia)) as (w1 & Hr1 & Hw1 & Hk1).
  rewrite <- (kept_chosen _ _ l2 Hk1) in H2, Hn |- *.
  destruct (Hg _ w1 Hw1 H2 ltac:(lia)) as (w2 & Hr2 & Hw2 & Hk2).
  exists w2. unfold and_then. rewrite (cbind_run _ _ _ _ _ Hr1).
  split_and!; [done | by rewrite Nat.add_assoc | by eapply kept_trans].
Qed.

(** ** Steps of the framework that make no test *)

Definition neutral {A} (f : comp (tests K) A) : Prop :=
  forall w, exists a w', f w = Ret a w' /\ t_lib w' = t_lib w /\ t_i w' = t_i w /\
    tests_run w' = tests_run w /\ kept w w'.

Lemma neutral_at n w w' :
  at_test n w -> t_lib w' = t_lib w -> tests_run w' = tests_run w -> kept w w' -> at_test n w'.
Proof.
  intros [H1 H2 H3 H4] Hl Hn (_ & _ & _ & _ & _ & Hr & Hh).
  split; [by rewrite Hl | congruence | congruence | auto].
Qed.

Lemma makes_after {A} l (f : comp (tests K) A) g : neutral f -> makes l g -> makes l (f ;; g).
Proof.
  intros Hf Hg n w Hw Hgo Hn. destruct (Hf w) as (a & w1 & H1 & Hl & _ & Hc & Hk).
  rewrite <- (kept_chosen _ _ l Hk) in Hgo, Hn |- *.
  destruct (Hg n w1 (neutral_at _ _ _ Hw Hl Hc Hk) Hgo Hn) as (w2 & H2 & Hw2 & Hk2).
  exists w2. rewrite (cbind_run _ _ _ _ _ H1). split_and!; [done | done | by eapply kept_trans].
Qed.

Lemma neutral_prints {A} (f : comp (tests K) A) a : (forall w, only_prints f a w) -> neutral f.
Proof. intros H w. destruct (H w) as [t Ht]. eexists _, _. split; [exact Ht|]. by split_and!. Qed.

Lemma neutral_bind {A B} (f : comp (tests K) A) (g : A -> comp (tests K) B) :
  neutral f -> (forall a, neutral (g a)) -> neutral (cbind f g).
Proof.
  intros Hf Hg w. destruct (Hf w) as (a & w1 & H1 & Hl1 & Hi1 & Hc1 & Hk1).
  destruct (Hg a w1) as (b & w2 & H2 & Hl2 & Hi2 & Hc2 & Hk2). exists b, w2.
  rewrite (cbind_run _ _ _ _ _ H1).
  split; [done|]. do 3 (split; [congruence|]). by eapply kept_trans.
Qed.

Lemma neutral_get {A} (f : sea -> A) : neutral (sea_get f).
Proof. intros w. eexists _, _. split; [reflexivity|]. do 3 (split; [done|]). apply kept_refl. Qed.

Lemma neutral_ret {A} (a : A) : neutral (cret a).
Proof. intros w. eexists _, _. split; [reflexivity|]. do 3 (split; [done|]). apply kept_refl. Qed.

Lemma neutral_fixture_start file : neutral (seatest_test_fixture_start (W := tests K) file).
Proof.
  apply neutral_bind; [|intros _; eapply neutral_prints, prints_header].
  intros w. eexists _, _. split; [reflexivity|]. do 3 (split; [done|]). split_and!; [done.. |].
  simpl. by intros ->.
Qed.

Lemma neutral_fixture_end : neutral (seatest_test_fixture_end (W := tests K)).
Proof.
  apply neutral_bind; [apply neutral_get|]. intros run. apply neutral_bind; [apply neutral_get|]. intros failed.
  apply neutral_bind; [eapply neutral_prints, prints_header|]. intros _.
  eapply neutral_prints, prints_printf.
Qed.

(** The framework asks for the filters and, in the mode that only lists tests, prints. *)
Lemma should_run_selected st w : exists w',
  seatest_should_run (W := tests K) (st_file st) (Some (st_name st)) w = Ret (selected (t_sea w) st) w' /\
  t_lib w' = t_lib w /\ t_i w' = t_i w /\ tests_run w' = tests_run w /\ kept w w'.
Proof.
  unfold seatest_should_run, selected.
  rewrite (cbind_run _ _ w (seatest_fixture_filter (t_sea w)) w) by done.
  rewrite (cbind_run _ _ w (seatest_test_filter (t_sea w)) w) by done.
  rewrite (cbind_run _ _ w (seatest_display_only (t_sea w)) w) by done. cbn zeta.
  set (run := matches_filter _ _ && matches_filter _ _).
  destruct (run && seatest_display_only (t_sea w)) eqn:E.
  - assert (Hd : neutral (seatest_display_test (W := tests K) (st_file st) (Some (st_name st)))).
    { eapply neutral_prints, prints_printf. }
    destruct (Hd w) as ([] & w' & Hr & Hrest). exists w'. rewrite (cbind_run _ _ _ _ _ Hr).
    apply andb_prop in E as [-> ->]. by split.
  - exists w. split; [|do 3 (split; [done|]); apply kept_refl].
    unfold cret. f_equal. destruct run; [|done]. simpl in E. by rewrite E.
Qed.

(** ** Tests, fixtures and suites *)

Definition frame_of (w : tests K) : frame := Frame (t_sea w) (t_i w) (t_pgid w) (t_release w).

Lemma world_frame w : world (frame_of w) (ker (t_lib w)) (errno (t_lib w)) (sea_out (t_sea w)) = w.
Proof. by destruct w as [[] []]. Qed.

(** A hook that is not installed is not called. *)
Lemma call_if_none {A} hook (f : comp (tests K) A) w :
  hook (sea_hooks (t_sea w)) = None -> (call_if hook ;; f) w = f w.
Proof. intros H. unfold call_if, sea_get, cbind. simpl. by rewrite H. Qed.

(** One test that is selected. *)
Lemma made_test n st w :
  at_test n w -> goes n st -> Z.of_nat n + 1 < 2 ^ 31 ->
  match st_round st with Some i => t_i w = i | None => True end ->
  exists w', (seatest_suite_setup ;; seatest_setup ;;
    and_then (st_test st) (seatest_teardown ;; seatest_suite_teardown ;; seatest_run_test ;; cret None)) w
    = Ret None w' /\ at_test (S n) w' /\ kept w w'.
Proof.
  intros [HI Hc Hr Hh] Hgo Hn Hi. unfold tests_run in *.
  unfold seatest_suite_setup, seatest_setup. rewrite !call_if_none by (by rewrite Hh).
  destruct (Hgo (frame_of w) (ker (t_lib w)) (errno (t_lib w)) (sea_out (t_sea w)) Hr Hi HI)
    as (g & k' & e' & o' & Hrun & HI').
  rewrite world_frame in Hrun. unfold and_then. rewrite (cbind_run _ _ _ _ _ Hrun).
  assert (Hv : int_value (sea_tests_run (t_sea w) + 1) = Some (sea_tests_run (t_sea w) + 1))
    by (apply int_value_ok; lia).
  unfold seatest_teardown, seatest_suite_teardown. rewrite !call_if_none by (simpl; by rewrite Hh).
  unfold seatest_run_test, increment, sea_get, sea_mod, cbind. simpl. rewrite Hv. simpl.
  eexists. split; [done|]. split; [|by split_and!].
  split; [done | unfold tests_run; simpl; lia | done | done].
Qed.

Lemma makes_test st w n :
  at_test n w -> all_go n (chosen (t_sea w) [st]) ->
  Z.of_nat (n + length (chosen (t_sea w) [st])) < 2 ^ 31 ->
  match st_round st with Some i => t_i w = i | None => True end ->
  exists w', run_test (st_file st) (st_name st) (st_test st) w = Ret None w' /\
    at_test (n + length (chosen (t_sea w) [st])) w' /\ kept w w'.
Proof.
  intros Hw Hgo Hn Hi. unfold run_test.
  destruct (should_run_selected st w) as (w1 & Hr & Hl & Hi1 & Hc & Hk).
  rewrite (cbind_run _ _ _ _ _ Hr). pose proof (neutral_at _ _ _ Hw Hl Hc Hk) as Hw1.
  unfold chosen in *. cbn [List.filter] in *. destruct (selected (t_sea w) st); cbn [length] in *.
  - destruct (made_test n st w1) as (w2 & H2 & Hw2 & Hk2).
    + done.
    + rewrite <- (Nat.add_0_r n). by apply Hgo.
    + lia.
    + by rewrite Hi1.
    + exists w2. rewrite Nat.add_1_r. split_and!; [exact H2 | done | by eapply kept_trans].
  - exists w1. rewrite Nat.add_0_r. by split_and!.
Qed.

Lemma makes_round_free file name test :
  makes [Step file name None test] (run_test file name test).
Proof. intros n w Hw Hgo Hn. by apply (makes_test (Step file name None test)). Qed.

Lemma makes_for_i file name test n i :
  makes ((fun j => Step file name (Some j) test) <$> seqZ i (Z.of_nat n)) (for_i file name test n i).
Proof.
  revert i. induction n as [|n IH]; intros i m w Hw Hgo Hn; cbn [for_i];
    rewrite (cbind_run (set_i i) _ w tt (Tests (t_lib w) (t_sea w) i (t_pgid w) (t_release w))) by done;
    set (wi := Tests _ _ _ _ _); assert (Hwi : at_test m wi) by (by destruct Hw; split).
  - eexists. split; [done|]. simpl. rewrite Nat.add_0_r. by split.
  - rewrite seqZ_cons in Hgo, Hn |- * by lia.
    replace (Z.pred (Z.of_nat (S n))) with (Z.of_nat n) in * by lia. rewrite fmap_cons in Hgo, Hn |- *.
    set (rest := _ <$> seqZ (Z.succ i) _) in *.
    change (Step file name (Some i) test :: rest) with ([Step file name (Some i) test] ++ rest) in *.
    rewrite chosen_app, ?length_app in *. apply all_go_app in Hgo as [H1 H2].
    destruct (makes_test (Step file name (Some i) test) wi m Hwi H1) as (w1 & Hr1 & Hw1 & Hk1);
      [simpl t_sea; lia | done |].
    cbn [st_file st_name st_test] in Hr1. unfold and_then. rewrite (cbind_run _ _ _ _ _ Hr1).
    change (t_sea wi) with (t_sea w) in *.
    pose proof (kept_chosen _ _ rest Hk1) as Hch. change (t_sea wi) with (t_sea w) in Hch.
    rewrite <- Hch in H2, Hn |- *.
    destruct (IH (Z.succ i) _ w1 Hw1 H2 ltac:(fold rest; lia)) as (w2 & Hr2 & Hw2 & Hk2).
    exists w2. rewrite Nat.add_assoc. split_and!; [exact Hr2 | exact Hw2 |].
    apply (kept_trans _ wi); [by split_and! | by eapply kept_trans].
Qed.

(** One test of a fixture, with its rounds. *)
Definition entry (file : string) (p : string * option nat * comp (tests K) (option outcome))
  : comp (tests K) (option outcome) :=
  match p.1.2 with
  | None => run_test file p.1.1 p.2
  | Some n => for_i file p.1.1 p.2 n 0
  end.

Lemma makes_fixture file l :
  makes (concat (steps_of file <$> l)) (fixture file (entry file <$> l)).
Proof.
  apply makes_after; [apply neutral_fixture_start|]. rewrite <- (app_nil_r (concat _)).
  apply makes_then; [|apply makes_after; [apply neutral_fixture_end | apply makes_none]].
  induction l as [|[[name rounds] test] l IH]; [apply makes_none|].
  cbn [fmap list_fmap concat]. apply makes_then; [|exact IH].
  destruct rounds as [n|]; [apply makes_for_i | apply makes_round_free].
Qed.

Lemma makes_suite name :
  makes (suite_steps name)
    (unless_skipped name (fixture (FILE (catalogue name).1) (entry (FILE (catalogue name).1) <$> (catalogue name).2))).
Proof.
  unfold suite_steps, unless_skipped, skipped. destruct PINK_CHECK_SKIP as [skip|]; [|apply makes_fixture].
  destruct (String.index 0 name skip); [apply makes_none | apply makes_fixture].
Qed.

(** All tests. *)
Lemma makes_all_tests : makes (concat (suite_steps <$> suites)) all_tests.
Proof.
  unfold suites. cbn [fmap list_fmap concat].
  repeat (apply makes_then; [first [exact (makes_suite "trace") | exact (makes_suite "vm")
    | exact (makes_suite "read") | exact (makes_suite "write") | exact (makes_suite "socket")
    | exact (makes_suite "pipe")]|]). apply makes_none.
Qed.

Lemma length_schedule g : (length (schedule g) <= 89)%nat.
Proof.
  assert (Hf : forall l : list step, (length (chosen g l) <= length l)%nat).
  { intros l. unfold chosen. induction l as [|st l IH]; [done|]. simpl. destruct (selected g st); simpl; lia. }
  etrans; [apply Hf|]. unfold suites. cbn [fmap list_fmap concat]. rewrite !length_app.
  unfold suite_steps. repeat (destruct (skipped _)); vm_compute; lia.
Qed.

(** C20. The test program succeeds when its tests pass.  The schedule of a run is fixed by
    the suites that the environment does not skip and by the filters of the command line.
    [I] gives for each number of tests made the states in which the kernel may be then.
    When test number [n] of the schedule passes in its round from every state in [I n] and
    leaves the kernel in [I (n + 1)], and no hook is installed, the program makes these
    tests and no others, in this order and each of them once: it returns through the
    fixtures, the loops, the filters and the report with exit status success, no failure
    counted, as many tests counted as the schedule has, and the kernel in the last
    state. *)
Theorem check_main_passes argv (w w0 w1 : tests K) :
  get_os_release w = Ret (Some rel) w0 ->
  seatest_interpret_commandline argv SEATEST_RUN_TESTS
    (Tests (t_lib w0) (t_sea w0) 0 (t_pgid w0) rel) = Ret SEATEST_RUN_TESTS w1 ->
  sea_hooks (t_sea w1) = no_hooks -> tests_run w1 = 0 -> failures w1 = 0 -> t_release w1 = rel ->
  I 0 (ker (t_lib w1)) ->
  (forall n st, schedule (t_sea w1) !! n = Some st -> goes n st) ->
  exists w', check_main argv w = Ret (Returned EXIT_SUCCESS) w' /\ failures w' = 0 /\
    tests_run w' = Z.of_nat (length (schedule (t_sea w1))) /\
    I (length (schedule (t_sea w1))) (ker (t_lib w')).
Proof.
  intros Hr Hi Hh Hn Hf Hrel HI Hall. pose proof (length_schedule (t_sea w1)) as Hlen.
  destruct (makes_all_tests 0%nat (with_suite None None w1)) as (w2 & Ht & Hw2 & Hk).
  - by split; [| | |simpl; rewrite Hh].
  - exact Hall.
  - change (Z.of_nat (length (schedule (t_sea w1))) < 2 ^ 31). lia.
  - destruct (check_main_run _ _ _ _ _ _ Hr Hi Ht) as (w' & Hrun & Hf' & Hl & Hc).
    destruct Hk as (_ & _ & _ & _ & Hf2 & _).
    change (failures (with_suite None None w1)) with (failures w1) in Hf2.
    destruct Hw2 as [HI2 Hc2 _ _]. exists w'. unfold tests_run in *. rewrite Hl.
    split_and!; [|congruence | by rewrite Hc | exact HI2].
    rewrite Hrun, Hf2, Hf. by rewrite orb_true_r.
Qed.

End All.

(** ** Witness

    A kernel whose children are played from a list: each fork(2) starts the next script.
    It has pipes, and the message of an event is what the child has in RAX.  On it the
    whole program runs, with no suite skipped and no filter: 89 tests, of which all but
    the one of pipes fork a child. *)

Record player : Type := Player { pl_now : script; pl_next : list script; pl_pipe : psim }.

Module Players.
Definition on_now {A} (f : script -> A * script) (k : player) : A * player :=
  let '(a, s) := f (pl_now k) in (a, Player s (pl_next k) (pl_pipe k)).
Definition on_pipe {A} (f : psim -> A * psim) (k : player) : A * player :=
  let '(a, p) := f (pl_pipe k) in (a, Player (pl_now k) (pl_next k) p).

#[local] Existing Instance script_procs.
#[local] Instance played : KernelOps script := script_ops x86_64_linux.

#[export] Instance ops : KernelOps player := {|
  sys_ptrace := fun req pid a d k =>
    match req, d with
    | PTRACE_GETEVENTMSG, DBuf _ =>
        (SysRet 0 None, DBuf (take 8 (drop (8 * RAX) (sim_user (sc_now (pl_now k))))), k)
    | _, _ => on_now (sys_ptrace req pid a d) k
    end;
  sys_process_vm_readv := fun pid a len => on_now (sys_process_vm_readv pid a len);
  sys_process_vm_writev := fun pid a bs => on_now (sys_process_vm_writev pid a bs);
  sys_tgkill := fun _ _ _ k => (SysRet 0 None, k);
  sys_tkill := fun _ _ k => (SysRet 0 None, k);
  sys_kill := fun _ _ k => (SysRet 0 None, k);
|}.
#[export] Instance procs : ProcOps player := {|
  sys_fork := fun k =>
    match pl_next k with
    | s :: l => let '(r, s') := sys_fork s in (r, Player s' l (pl_pipe k))
    | [] => (SysRet (-1) (Some 11), k)
    end;
  sys_waitpid := fun pid => on_now (sys_waitpid pid);
  sys_getpid := fun _ => 1;
  sys_execvp := fun _ k => inr k;
|}.
#[export] Instance check_ops : CheckOps player := {|
  sys_setpgid := fun _ _ k => (SysRet 0 None, k);
  sys_call := fun _ _ k => (SysRet (-1) (Some ENOSYS), k);
  sys_execve := fun _ _ k => inr k;
  sys_uname := fun k => (SysRet 0 None, "5.10.0-8-amd64", k);
|}.
#[export] Instance pipe_ops : PipeOps player := {|
  sys_read := fun fd n => on_pipe (sys_read fd n);
  sys_write := fun fd bs => on_pipe (sys_write fd bs);
  sys_close := fun fd => on_pipe (sys_close fd);
  sys_pipe := on_pipe sys_pipe;
  sys_pipe2 := fun f => on_pipe (sys_pipe2 f);
  sys_getfd := fun fd => on_pipe (sys_getfd fd);
  sys_setfd := fun fd v => on_pipe (sys_setfd fd v);
|}.
#[export] Instance setting : Setting := {|
  cfg := x86_64_linux;
  HAVE_PIPE2 := true;
  have_ipv6 := true;
  have_netlink := true;
  SYS_socketcall := None;
  SYS_number := fun name => pink_lookup_syscall x86_64_linux (Some name) PINK_ABI_DEFAULT;
  strerror := fun _ => "error";
  strsignal := fun _ => "signal";
  malloc_regset := Some (pink_regset_zero x86_64_linux);
  indet := fun _ => 0;
  indet_bytes := fun _ => [Byte.x00];
  fmt_p := fun _ => "0x1000";
  FILE := fun f => f;
  isatty_stdout := SysRet 0 (Some ENOTTY);
  PINKTRACE_CHECK_NOCOLOUR := None;
  PINK_CHECK_SKIP := None;
  fuel := 64;
|}.
End Players.

Section Witness.
Import Players.
Import TestSession.Demo(child, stops, invalid_child).

(** *** The children *)

Definition call_args (l : list Z) : list (nat * Z) := zip [RDI; RSI; RDX; R10; R8; R9] l.
Definition invalid_with (i : nat) (v : Z) (others : list Z) (bs : list byte) : sim :=
  invalid_child (call_args (<[i := v]> others)) bs.
Definition others : list Z := [0; 0; 0; 0; -1; 0].
Definition rounds (n : nat) (f : nat -> list sim) : list script := (fun i => stops (f i)) <$> seq 0 n.

Definition family_child (pid msg : Z) : sim := Sim pid {[1]} ∅ (user_of [(RAX, msg)]) false [].
Definition family_script (l : list (Z * sim)) : script := Script (family_child 7 0) false l.

Definition trace_scripts : list script :=
  [family_script [(stop_status, family_child 7 0); (stop_status, family_child 8 0);
     (0x1057f, family_child 7 8); (0x057f, family_child 7 0); (0, family_child 8 0); (0, family_child 7 0)];
   family_script [(stop_status, family_child 7 0); (syscall_status, family_child 7 0); (0, family_child 7 0)];
   family_script [(stop_status, family_child 7 0); (0x4057f, family_child 7 7)]].
Definition vm_scripts : list script :=
  rounds 6 (fun i => [invalid_with i 0x1000 others (literal "pinktrace")])
  ++ rounds 6 (fun i => [invalid_with i 0x1000 others trace_nul_pink])
  ++ rounds 6 (fun i => [invalid_with i 0x1000 (replicate 6 3) (floyd ++ [Byte.x00])]).
Definition read_scripts : list script :=
  [stops [child [(ORIG_RAX, 39)] []]; stops (call_stops 39 7); stops (call_stops 257 (- EFAULT))]
  ++ rounds 6 (fun i => [invalid_with i 0xbad others []])
  ++ vm_scripts
  ++ rounds 6 (fun i => [invalid_with i 0x1000 others array_bytes]).
Definition write_scripts : list script :=
  [stops [child [(ORIG_RAX, 39)] []; child [(ORIG_RAX, 0xbadca11); (RAX, - ENOSYS)] []];
   stops [child [(ORIG_RAX, 8)] []; child [(ORIG_RAX, 257); (RAX, - EFAULT)] []];
   retval_script; retval_script]
  ++ rounds 6 (fun i => [invalid_with i 0xaaa others []; invalid_with i 0xbad others []])
  ++ rounds 6 (fun i => [invalid_with i 0x1000 others (literal "pinktrace");
                         invalid_with i 0x1000 others (literal "tracepink")]).

(** bind(2), connect(2) and sendto(2) with the same address. *)
Definition socket_rounds (u : list byte) (a len : Z) : list script :=
  (fun s => stops [s]) <$>
  [child ((ORIG_RAX, 49) :: call_args [23; a; len]) u; child ((ORIG_RAX, 42) :: call_args [23; a; len]) u;
   child ((ORIG_RAX, 44) :: call_args [23; 0xbad; 0xbad; 0xbad; a; len]) u].
Definition socket_scripts : list script :=
  socket_rounds [] 0 0 ++ socket_rounds unix_u 0x1000 16 ++ socket_rounds unixabs_u 0x1000 16
  ++ socket_rounds inet_u 0x1000 16 ++ socket_rounds inet6_u 0x1000 28 ++ socket_rounds netlink_u 0x1000 12.

Definition playlist : list script :=
  trace_scripts ++ vm_scripts ++ read_scripts ++ write_scripts ++ socket_scripts.

(** *** The tests *)

(** The test passes with this child, whichever are to come. *)
Definition plays (st : step (K := player)) (s : script) : Prop :=
  forall fr cur l p e o, f_release fr = KERNEL_VERSION 5 10 0 ->
    match st_round st with Some i => f_i fr = i | None => True end ->
    exists pgid cur' e' o', st_test st (world fr (Player cur (s :: l) p) e o)
      = Ret None (world (set_group fr pgid) (Player cur' l p) e' o').

Ltac play :=
  let g := fresh in let i := fresh in let pg := fresh in let r := fresh in
  let Hr := fresh in let Hi := fresh in
  intros [g i pg r] ? ? ? ? ? Hr Hi; cbn [f_release f_i st_round] in Hr, Hi; subst;
  eexists _, _, _, _; cbn [st_test]; vm_compute; reflexivity.

(** The suite is listed, and each test is played. *)
Ltac play_suite :=
  lazy [suite_steps skipped catalogue steps_of PINK_CHECK_SKIP setting];
  repeat (apply Forall2_cons; split; [play|]); constructor.

Lemma trace_plays : Forall2 plays (suite_steps "trace") trace_scripts.
Proof. play_suite. Qed.
Lemma vm_plays : Forall2 plays (suite_steps "vm") vm_scripts.
Proof. play_suite. Qed.
Lemma read_plays : Forall2 plays (suite_steps "read") read_scripts.
Proof. play_suite. Qed.
Lemma write_plays : Forall2 plays (suite_steps "write") write_scripts.
Proof. play_suite. Qed.
Lemma socket_plays : Forall2 plays (suite_steps "socket") socket_scripts.
Proof. play_suite. Qed.

(** *** The program *)

(** [n] scripts have been played. *)
Definition played_from (n : nat) (k : player) : Prop :=
  exists cur, k = Player cur (drop n playlist) no_pipe.

Definition idle : script := family_script [].
Definition start_playing : tests player :=
  Tests (CState (Player idle playlist no_pipe) 0) sea_init 0 (-1) 0.

Lemma schedule_all :
  schedule (K := player) sea_init =
  (suite_steps "trace" ++ suite_steps "vm" ++ suite_steps "read" ++ suite_steps "write"
   ++ suite_steps "socket") ++ suite_steps "pipe".
Proof. reflexivity. Qed.

Lemma playlist_plays :
  Forall2 plays (suite_steps "trace" ++ suite_steps "vm" ++ suite_steps "read" ++ suite_steps "write"
                 ++ suite_steps "socket") playlist.
Proof.
  apply Forall2_app; [exact trace_plays|]. apply Forall2_app; [exact vm_plays|].
  apply Forall2_app; [exact read_plays|]. apply Forall2_app; [exact write_plays | exact socket_plays].
Qed.

(** The test of pipes forks no child. *)
Lemma pipe_goes n : (length playlist <= n)%nat ->
  goes played_from (KERNEL_VERSION 5 10 0) n (Step "pipe-TEST.c" "test_read_write_int" None test_read_write_int).
Proof.
  intros Hn [g i pg r] k e o _ _ [cur ->]. unfold played_from. rewrite !drop_ge by lia.
  exists pg. eexists _, _, _. cbn [st_test]. split; [vm_compute; reflexivity | by eexists].
Qed.

Lemma schedule_goes n st :
  schedule (K := player) sea_init !! n = Some st -> goes played_from (KERNEL_VERSION 5 10 0) n st.
Proof.
  rewrite schedule_all. intros H. pose proof playlist_plays as Hp.
  pose proof (Forall2_length _ _ _ Hp) as Hlen.
  apply lookup_app_Some in H as [H|[Hn H]].
  - destruct (Forall2_lookup_l _ _ _ _ _ Hp H) as (s & Hs & Hplay).
    intros fr k e o Hrel Hi [cur ->]. rewrite (drop_S _ _ _ Hs).
    destruct (Hplay fr cur (drop (S n) playlist) no_pipe e o Hrel Hi) as (pg & cur' & e' & o' & Hrun).
    exists pg. eexists _, _, _. split; [exact Hrun | by eexists].
  - rewrite Hlen in Hn, H. destruct (n - length playlist)%nat as [|m] eqn:E; [|by destruct m].
    injection H as <-. by apply pipe_goes.
Qed.

Lemma check_main_passes_witness :
  exists w', check_main ["pinktrace-check"] start_playing = Ret (Returned EXIT_SUCCESS) w' /\
    failures w' = 0 /\ tests_run w' = 89.
Proof.
  destruct (check_main_passes played_from (KERNEL_VERSION 5 10 0) ["pinktrace-check"] start_playing
    start_playing (Tests (CState (Player idle playlist no_pipe) 0) sea_init 0 (-1) (KERNEL_VERSION 5 10 0)))
    as (w' & H & Hf & Hn & _);
    [reflexivity | reflexivity | reflexivity | reflexivity | reflexivity | reflexivity | by eexists
    | exact schedule_goes |].
  exists w'. split; [exact H|]. split; [exact Hf | exact Hn].
Defined.

End Witness.
